(* ===== verification/_CoqProject ===== *)
-Q . S2P
Prelude.v
Env.v
Demo.v
Models.v
Schema.v
Migrations.v
Registry.v
Orm.v
Logic.v
Transactions.v
Common.v
Mail.v
Samples.v
Users.v
Tokens.v
Sessions.v
TwoFactor.v
LoginProtection.v
Guesses.v
Authentication.v
Accounts.v
Bans.v
Authorization.v
ApiKeys.v
Webhooks.v
Workers.v
Races.v
Responses.v
Idempotency.v
Services.v
Api.v
AuthViews.v
Resources.v
AccountViews.v
Replays.v
AdminViews.v
Urls.v
Gate.v
Platform.v
Server.v
Config.v
SiteAdmin.v
System.v
Steps.v
Deletion.v
Reachable.v
Liveness.v
Project.v
Startup.v
Conformance.v
Requests.v
