(* ===== verification/Prelude.v ===== *)
(** * Django Foundation: a verification library

    A model of the server-side program of this repository - accounts, sign-in,
    sessions, authorization, API keys, webhooks and the HTTP API above them -
    with the theorems that make it correct.  File names below are relative to
    src/.

    ** How a program becomes definitions

    A service call is a computation in the monad [M] of [Orm]: it reads and
    writes a [World] (the database, the cache, the session of the request being
    served, positions in the clock and in the sources of randomness, pending
    [on_commit] callbacks, the trace of effects that left the process) and ends
    with a value or with a Python exception.  An exception keeps what was done
    before it; only [atomic], the model of transaction.atomic, undoes it.  The
    database is one table (a finite map from keys to rows) per Django model; the
    queries and writes of the ORM the code uses ([get], [filter_rows], [create],
    [save_fields], [update_or_create] and so on) have their documented meaning,
    uniqueness constraints included.  One operation runs from start to end, and
    other processes act between operations, except in [Workers], [Races],
    [Replays] and [Guesses], where operations interleave, row locks included.

    A moment is a number of microseconds, an identifier a natural number;
    Python integers do not overflow and are [Z]; text is ASCII.  No definition
    needs fuel: every loop of the code runs over a list that is known when the
    loop starts, so the computations are total functions, and a theorem of the
    form "exists w', m w = (inr a, w')" says that the code returns.

    What is not in the repository is a parameter: the class [Env] (clock,
    randomness, hashes, Fernet, password hashers, TOTP, parsers, DNS, HTTP
    client), [TokenCodec] (JWT), [RequestData] (parsers of REST framework), [Site]
    (Django's own pages and the admin site) and [Environ] (environment).  The
    [*Laws] classes of [Env] name what the theorems rely on: the clock does not
    run backwards, random values do not repeat, keyed hashes do not collide,
    decryption inverts encryption, a hasher verifies what it hashed.  [Demo]
    instantiates all of them; every witness runs there.

    ** The files and what they model

    - [Prelude]: text, time, tables, record update, tactics;
    - [Env], [Demo], [Samples]: the outside world, a concrete one, sample rows;
    - [Models]: apps/*/models.py, one module per model, constraints as [clash];
      [Schema]: the same models as declarations (fields, types, constraints,
      deletion rules), and that the row types implement them;
    - [Migrations]: apps/*/migrations, each migration as data, and the loader;
    - [Orm], [Logic]: the monad and queries; the program logic ([wp] for what a
      run establishes, [evolves] for what every step of a run preserves,
      rollbacks included; [quiet], [internal], [advances] are uses of it;
      [emits] for what leaves the process);
    - [Common]: common/crypto.py, common/utils/network.py, common/logging.py,
      common/services/email.py, apps/audit/services.py, apps/security/models.py;
      [Mail]: templates/emails and what becomes of a mail;
    - [Users]: the manager and the checks of apps/accounts/models.py;
    - [Tokens], [Sessions], [TwoFactor], [Authentication], [Accounts]: the
      service classes of apps/authentication/services.py, with backends.py,
      jwt.py, middleware.py and tasks.py of that application;
    - [LoginProtection]: apps/security/services.py and tasks.py, both back ends;
      [Guesses]: failing sign-ins, interleaved;
    - [Bans]: apps/accounts/services.py and tasks.py;
    - [Authorization]: apps/authorization, common/permissions, the bootstrap
      command;
    - [ApiKeys], [Webhooks]: apps/api_keys, apps/webhooks, common/tasks.py;
      [Workers]: the transactions of deliver_webhook, interleaved; [Races]:
      transactions that spend a token or a recovery code, interleaved, cut into
      parts with [Transactions];
    - [Responses], [Idempotency]: common/responses.py, common/exceptions,
      common/pagination, common/idempotency.py; [Replays]: requests with one
      idempotency key, interleaved, and the endpoint that takes keys;
    - [Services]: apps/files, apps/notifications, apps/core/services.py, the
      audit retention;
    - [Api]: how a request reaches a view (authentication classes, permission
      classes, throttles, exception handler); [AuthViews], [AccountViews],
      [AdminViews]: apps/api/views and apps/api/serializers, one definition per
      endpoint, over the generic parts in [Resources];
    - [Urls]: apps/api/urls.py, the route table with the serializer fields each
      view reads; [Server]: config/urls.py and the middleware stack, from a
      request to an answer;
    - [Platform]: common/middleware, common/events.py, common/models.py,
      apps/core/views.py, the seed command;
    - [Config]: the checks and values of config/settings; [Project]: everything
      base.py, development.py and test.py assign, the middleware stack and beat
      schedule they describe, config/celery.py, the clean-up commands; [Startup]:
      manage.py, config/wsgi.py and asgi.py, config/settings/production.py;
    - [Registry]: apps/*/admin.py as data; [SiteAdmin]: common/admin.py and the
      hooks of apps/*/admin.py; [Deletion]: deletions that cascade;
    - [System], [Steps], [Reachable]: the program as one transition system;
      [Liveness]: its infinite runs; [Gate]: what the dispatch of a request
      guarantees;
    - [Conformance], [Requests]: the tests of src/tests, run on the definitions,
      those with a client through the whole server.

    [Server.application] takes a request through the middleware of [Platform] and
    [Sessions], [Urls.resolve_api] and [Api.dispatch] to a view; the view calls a
    service, services call
    [Tokens], [Sessions], [LoginProtection] and the journals of [Common], and
    e-mail, events and tasks leave through [on_commit].

    ** What is proved

    - Access: a sign-in that succeeds passed every gate and leaves a live
      mirrored session, one that is refused signs nobody in
      ([Authentication]); lock-outs follow the schedule and are enforced
      ([LoginProtection]), also when sign-ins race, as far as the code does it
      ([Guesses]); JWT, API keys and the session middleware accept only
      those who may authenticate now ([Authentication], [ApiKeys], [Sessions]);
      the second factor is sound and its codes are used once ([TwoFactor]).
    - Account life cycle: every operation of [AccountService] on every branch,
      success and errors, with what it leaves of sessions and tokens
      ([Accounts]); bans and their periodic task ([Bans]).
    - Authorization: [has_permission] and [permission_codes] against a
      declarative precedence ([Authorization]).
    - Protocols: one-time tokens ([Tokens]), also when requests race for one
      ([Races]), idempotency keys ([Idempotency]), also when requests with one key
      race ([Replays]), the refinement of an abstract delivery machine and the
      bound on its attempts ([Webhooks]), also when workers interleave ([Workers]); a delivery
      that workers keep attempting ends, and the dispatcher forgets none
      ([Liveness]).
    - The API: every request is answered and traced by one identifier, and no
      route but the public ones serves anonymous requests ([Server]); errors
      become envelopes, and the body of an administrative endpoint runs exactly
      for those allowed to ([Gate]).
    - The data: the row types have the declared columns and constraints
      ([Schema]), the migrations build the declared tables in any order that
      respects their dependencies ([Migrations]), and deleting a user does to
      every table what its declaration says ([Deletion]).
    - The admin site: no page shows or writes a secret but the listed ones, and
      what it writes is audited but for the listed exceptions ([Registry]).
    - The system: along any sequence of operations the journals keep their
      entries, no constraint breaks and every mail has all that its template
      shows ([Reachable]), whether or not it went through the queue ([Mail]);
      production settings load exactly when safe ([Config]), processes with one environment agree on what
      the services read ([Startup]); the middleware and the beat schedule of the
      settings are the ones modelled ([Project]).

    ** Interfaces and automation

    [Orm.Model] is what a table is, [System.ServiceTable] and
    [System.OrdinaryTable] what it promises the system invariant; each row type
    has its instances, and the lemmas of [System] are proved once for all of
    them.  The hint databases [evolve] and [steps] hold one lemma per operation;
    the tactics of the same names follow the program text.

    ** Bounds of the model

    Not modelled: page templates, the start of Sentry, the format suffixes of
    the router, and the pages of the admin site beyond their registrations.  Inputs rather than definitions: what
    REST framework's fields make of request data, search and ordering of lists,
    the decoding of images, the answers of probed systems.  Interleaving inside
    an operation is modelled where the code is built for it, in
    [deliver_webhook], in the spending of tokens and codes, behind idempotency
    keys and in the counting of failures; the other operations run from start to
    end, which the transactions, select_for_update locks and constraints of the
    code are there to ensure. *)

From Stdlib Require Export ZArith List Ascii String Bool Lia.
From stdpp Require Export base gmap list strings numbers sorting.

#[global] Set Default Goal Selector "!".
#[global] Open Scope string_scope.
#[global] Open Scope Z_scope.
#[global] Open Scope list_scope.

(** ** Record update

    [r <| f := v |>] and [r <| f ::= g |>] for a record with an [Eta] instance
    (the record rebuilt from its projections).  The setter for a projection is
    found by abstracting that projection out of the rebuilt record. *)

Class Eta (R : Type) := eta : R -> R.
Class Upd {R T : Type} (proj : R -> T) := upd : (T -> T) -> R -> R.
Arguments upd {R T} proj {_} _ _ /.

Ltac derive_upd :=
  lazymatch goal with
  | |- @Upd ?R ?T ?proj =>
      let inst := constr:(_ : Eta R) in
      let body := eval hnf in inst in
      lazymatch (eval pattern proj in body) with
      | ?abstracted _ =>
          let setter := constr:(fun (g : T -> T) => abstracted (fun r : R => g (proj r))) in
          let setter := eval cbv beta in setter in
          exact setter
      end
  end.

#[export] Hint Extern 0 (Upd _) => derive_upd : typeclass_instances.

Declare Scope svc_scope.
Delimit Scope svc_scope with svc.
Notation "r <| f ::= g |>" := (upd f g r)
  (at level 1, f at level 99, left associativity, format "r  <| f  ::=  g |>").
Notation "r <| f := v |>" := (upd f (fun _ => v) r)
  (at level 1, f at level 99, left associativity, format "r  <| f  :=  v |>").

(** ** Python text

    Python [str] values are modelled as ASCII strings; the methods below are
    the restrictions of the Python ones to that range. *)

Module Str.

(** [str.isspace] on one ASCII character (what [str.strip] removes). *)
Definition is_space (c : ascii) : bool :=
  let n := N_of_ascii c in
  ((9 <=? n) && (n <=? 13) || (28 <=? n) && (n <=? 32))%N.

Definition lower_char (c : ascii) : ascii :=
  let n := N_of_ascii c in
  if ((65 <=? n) && (n <=? 90))%N then ascii_of_N (n + 32) else c.

Definition upper_char (c : ascii) : ascii :=
  let n := N_of_ascii c in
  if ((97 <=? n) && (n <=? 122))%N then ascii_of_N (n - 32) else c.

Fixpoint map_chars (f : ascii -> ascii) (s : string) : string :=
  match s with
  | EmptyString => EmptyString
  | String c s' => String (f c) (map_chars f s')
  end.

(** [str.lower] and [str.casefold] agree on ASCII. *)
Definition casefold (s : string) : string := map_chars lower_char s.
Definition upper (s : string) : string := map_chars upper_char s.

Fixpoint lstrip (s : string) : string :=
  match s with
  | EmptyString => EmptyString
  | String c s' => if is_space c then lstrip s' else s
  end.

Fixpoint rstrip (s : string) : string :=
  match s with
  | EmptyString => EmptyString
  | String c s' =>
      match rstrip s' with
      | EmptyString => if is_space c then EmptyString else String c EmptyString
      | t => String c t
      end
  end.

Definition strip (s : string) : string := rstrip (lstrip s).

(** [s.replace(c, "")] for a one-character [c]. *)
Fixpoint remove_char (c : ascii) (s : string) : string :=
  match s with
  | EmptyString => EmptyString
  | String d s' => if Ascii.eqb c d then remove_char c s' else String d (remove_char c s')
  end.

(** [c in s] for a one-character [c]. *)
Fixpoint has_char (c : ascii) (s : string) : bool :=
  match s with
  | EmptyString => false
  | String d s' => Ascii.eqb c d || has_char c s'
  end.

(** [s.split(c, 1)]: the text before the first [c], and what follows it. *)
Fixpoint split_once (c : ascii) (s : string) : string * option string :=
  match s with
  | EmptyString => (EmptyString, None)
  | String d s' =>
      if Ascii.eqb c d then (EmptyString, Some s')
      else let '(a, b) := split_once c s' in (String d a, b)
  end.

(** [sub in s]. *)
Fixpoint contains (sub s : string) : bool :=
  String.prefix sub s ||
  match s with
  | EmptyString => false
  | String _ s' => contains sub s'
  end.

(** [s[:n]]. *)
Definition take (n : nat) (s : string) : string := substring 0 n s.

Definition is_empty (s : string) : bool :=
  match s with EmptyString => true | _ => false end.

(** A text between double quotes. *)
Definition quoted (s : string) : string :=
  let q := String (ascii_of_nat 34) EmptyString in q +:+ s +:+ q.

(** Database [iexact]: equality up to ASCII case. *)
Definition iexact (a b : string) : bool := String.eqb (casefold a) (casefold b).


Lemma lower_char_idem c : lower_char (lower_char c) = lower_char c.
Proof. by destruct c as [[] [] [] [] [] [] [] []]. Qed.

Lemma is_space_lower c : is_space (lower_char c) = is_space c.
Proof. by destruct c as [[] [] [] [] [] [] [] []]. Qed.

Lemma casefold_idem s : casefold (casefold s) = casefold s.
Proof. induction s as [|c s IH]; [done|]. unfold casefold in *. simpl. by rewrite lower_char_idem, IH. Qed.

Lemma lstrip_casefold s : lstrip (casefold s) = casefold (lstrip s).
Proof.
  induction s as [|c s IH]; [done|]. unfold casefold in *. simpl.
  rewrite is_space_lower. by destruct (is_space c).
Qed.

Lemma rstrip_casefold s : rstrip (casefold s) = casefold (rstrip s).
Proof.
  induction s as [|c s IH]; [done|]. unfold casefold in *. simpl. rewrite IH, is_space_lower.
  destruct (rstrip s); simpl; [by destruct (is_space c)|done].
Qed.

Lemma strip_casefold s : strip (casefold s) = casefold (strip s).
Proof. unfold strip. by rewrite lstrip_casefold, rstrip_casefold. Qed.

Lemma lstrip_idem s : lstrip (lstrip s) = lstrip s.
Proof.
  induction s as [|c s IH]; [done|]. simpl. destruct (is_space c) eqn:E; [done|]. simpl. by rewrite E.
Qed.

Lemma rstrip_idem s : rstrip (rstrip s) = rstrip s.
Proof.
  induction s as [|c s IH]; [done|]. simpl. destruct (rstrip s) as [|d t] eqn:E.
  - destruct (is_space c) eqn:Ec; simpl; [done|]. by rewrite Ec.
  - cbn [rstrip] in IH |- *. by rewrite IH.
Qed.

(** Stripping on the right never exposes a leading space. *)
Lemma lstrip_rstrip s : lstrip s = s -> lstrip (rstrip s) = rstrip s.
Proof.
  destruct s as [|c s]; [done|]. simpl. destruct (is_space c) eqn:E; intros H.
  - exfalso. assert (Hl : forall t, (String.length (lstrip t) <= String.length t)%nat).
    { induction t as [|d t IHt]; simpl; [lia|]. destruct (is_space d); simpl; lia. }
    specialize (Hl s). rewrite H in Hl. simpl in Hl. lia.
  - destruct (rstrip s); simpl; by rewrite E.
Qed.

Lemma strip_idem s : strip (strip s) = strip s.
Proof. unfold strip. rewrite lstrip_rstrip by apply lstrip_idem. by rewrite rstrip_idem. Qed.

Lemma iexact_refl s : iexact s s = true.
Proof. apply String.eqb_refl. Qed.

Lemma iexact_sym s t : iexact s t = iexact t s.
Proof. apply String.eqb_sym. Qed.

Lemma iexact_true s t : iexact s t = true <-> casefold s = casefold t.
Proof. apply String.eqb_eq. Qed.

Lemma iexact_casefold_r s t : iexact s (casefold t) = iexact s t.
Proof. unfold iexact. by rewrite casefold_idem. Qed.

(** [(a + c + b).split(c, 1)[0] = a] when [c] is not in [a]. *)
Lemma split_once_app c a b :
  has_char c a = false -> split_once c (a +:+ String c b) = (a, Some b).
Proof.
  induction a as [|d a IH]; simpl; intros H; [by rewrite Ascii.eqb_refl|].
  apply orb_false_iff in H as [-> H]. by rewrite (IH H).
Qed.

Lemma has_char_app c a b : has_char c (a +:+ b) = has_char c a || has_char c b.
Proof. induction a as [|d a IH]; simpl; [done|]. by rewrite IH, orb_assoc. Qed.

Lemma prefix_app p s : String.prefix p (p +:+ s) = true.
Proof.
  induction p as [|c p IH]; [by destruct s|].
  change (String c p +:+ s) with (String c (p +:+ s)). cbn. by destruct (ascii_dec c c).
Qed.

End Str.

(** ** Primary keys *)

(** A [uuid.UUID] is the 128-bit number it denotes. *)
Abbreviation uuid := N (only parsing).

Definition hex_digit (n : N) : ascii :=
  (if n <? 10 then ascii_of_N (48 + n) else ascii_of_N (87 + n))%N.

(** [digits] hexadecimal digits of [n], the most significant first. *)
Fixpoint hex_digits (digits : nat) (n : N) : string :=
  match digits with
  | O => EmptyString
  | S d => hex_digits d (n / 16)%N +:+ String (hex_digit (n mod 16)) EmptyString
  end.

(** [uuid.hex] and [str(uuid)]. *)
Definition uuid_hex (u : uuid) : string := hex_digits 32 u.
Definition uuid_str (u : uuid) : string :=
  let h := uuid_hex u in
  substring 0 8 h +:+ "-" +:+ substring 8 4 h +:+ "-" +:+ substring 12 4 h +:+ "-" +:+
  substring 16 4 h +:+ "-" +:+ substring 20 12 h.

(** ** Time

    A [datetime] is a number of microseconds since the epoch. *)
Definition seconds (n : Z) : Z := n * 1000000.
Definition minutes (n : Z) : Z := seconds (n * 60).
Definition hours (n : Z) : Z := seconds (n * 3600).
Definition days (n : Z) : Z := seconds (n * 86400).

(** [int(delta.total_seconds())] truncates towards zero. *)
Definition whole_seconds (delta : Z) : Z := Z.quot delta 1000000.

Lemma whole_seconds_seconds n : whole_seconds (seconds n) = n.
Proof. unfold whole_seconds, seconds. by rewrite Z.quot_mul. Qed.

(** ** Options and lists *)

Definition is_none {A} (o : option A) : bool := match o with None => true | Some _ => false end.
Definition is_some {A} (o : option A) : bool := negb (is_none o).

(** The element a total preorder puts first; the earliest one on a tie. *)
Fixpoint first_by {A} (le : A -> A -> bool) (l : list A) : option A :=
  match l with
  | [] => None
  | x :: l' =>
      match first_by le l' with
      | None => Some x
      | Some y => Some (if le x y then x else y)
      end
  end.

Lemma first_by_None {A} (le : A -> A -> bool) l : first_by le l = None <-> l = [].
Proof. destruct l; simpl; [done|]. split; [by destruct (first_by le l)|done]. Qed.

Lemma first_by_elem {A} (le : A -> A -> bool) l x : first_by le l = Some x -> x ∈ l.
Proof.
  revert x. induction l as [|y l IH]; simpl; intros x; [done|].
  destruct (first_by le l) as [z|]; intros [= <-]; [|by left].
  destruct (le y z); [by left|right; by apply IH].
Qed.

(** On a list with at most one element the order does not matter. *)
Lemma first_by_unique {A} (le : A -> A -> bool) l x :
  x ∈ l -> (forall y, y ∈ l -> y = x) -> first_by le l = Some x.
Proof.
  intros Hx Hu. destruct (first_by le l) as [y|] eqn:E.
  - f_equal. apply Hu. by eapply first_by_elem.
  - apply first_by_None in E. subst. by apply not_elem_of_nil in Hx.
Qed.

(** ** Tables

    A database table is a finite map from primary keys to rows; a query is a
    predicate on rows.  These are the set-level meanings of the queryset
    methods [filter], [exists], [first], [update] and [delete]. *)

Module Table.
Section table.
Context {R : Type}.
Implicit Types (t : gmap uuid R) (P : uuid -> R -> bool) (f : R -> R).

Definition holds P (kr : uuid * R) : bool := P kr.1 kr.2.

Definition select P t : list (uuid * R) := List.filter (holds P) (map_to_list t).
Definition any P t : bool := existsb (holds P) (map_to_list t).
Definition count P t : nat := length (select P t).
Definition first (le : uuid * R -> uuid * R -> bool) P t : option (uuid * R) :=
  first_by le (select P t).
Definition update P f t : gmap uuid R := map_imap (fun k r => Some (if P k r then f r else r)) t.
Definition remove P t : gmap uuid R :=
  map_imap (fun k r => if P k r then None else Some r) t.

Lemma elem_of_select P t k r : (k, r) ∈ select P t <-> t !! k = Some r /\ P k r = true.
Proof.
  unfold select. rewrite list_elem_of_In, filter_In, <- list_elem_of_In, elem_of_map_to_list. done.
Qed.

Lemma select_NoDup P t : NoDup ((select P t).*1).
Proof.
  unfold select. pose proof (NoDup_fst_map_to_list t) as H. revert H.
  induction (map_to_list t) as [|x l IH]; simpl; intros H; [done|].
  apply NoDup_cons in H as [Hx H]. specialize (IH H).
  destruct (holds P x); simpl; [|done]. apply NoDup_cons. split; [|done].
  contradict Hx. apply list_elem_of_fmap in Hx as (y & -> & Hy).
  apply list_elem_of_In, filter_In in Hy as [Hy _].
  apply list_elem_of_fmap. exists y. split; [done|]. by apply list_elem_of_In.
Qed.

Lemma any_true P t : any P t = true <-> exists k r, t !! k = Some r /\ P k r = true.
Proof.
  unfold any. rewrite existsb_exists. split.
  - intros ([k r] & Hin & HP). exists k, r. split; [|done].
    by apply elem_of_map_to_list, list_elem_of_In.
  - intros (k & r & Hk & HP). exists (k, r). split; [|done].
    by apply list_elem_of_In, elem_of_map_to_list.
Qed.

Lemma any_false P t : any P t = false <-> forall k r, t !! k = Some r -> P k r = false.
Proof.
  rewrite <- not_true_iff_false, any_true. split.
  - intros H k r Hk. destruct (P k r) eqn:E; [|done]. exfalso. eauto.
  - intros H (k & r & Hk & E). rewrite (H _ _ Hk) in E. done.
Qed.

Lemma any_ext P Q t t' :
  (forall k, (exists r, t !! k = Some r /\ P k r = true) <->
             (exists r, t' !! k = Some r /\ Q k r = true)) ->
  any P t = any Q t'.
Proof.
  intros H. apply eq_true_iff_eq. rewrite !any_true. split; intros (k & Hk); exists k; by apply H.
Qed.

Lemma lookup_update P f t k :
  update P f t !! k = (fun r => if P k r then f r else r) <$> t !! k.
Proof. unfold update. rewrite map_lookup_imap. by destruct (t !! k). Qed.

Lemma lookup_remove P t k :
  remove P t !! k = (t !! k) ≫= (fun r => if P k r then None else Some r).
Proof. unfold remove. by rewrite map_lookup_imap. Qed.

Lemma lookup_remove_Some P t k r :
  remove P t !! k = Some r <-> t !! k = Some r /\ P k r = false.
Proof.
  rewrite lookup_remove. destruct (t !! k) as [r'|]; simpl.
  - destruct (P k r') eqn:E; split; intros H; try done.
    + destruct H as [[= ->] ?]. congruence.
    + by injection H as ->.
    + by destruct H as [[= ->] _].
  - by split; [|intros [? _]].
Qed.

Lemma first_None le P t : first le P t = None <-> forall k r, t !! k = Some r -> P k r = false.
Proof.
  unfold first. rewrite first_by_None. split.
  - intros H k r Hk. destruct (P k r) eqn:E; [|done]. exfalso.
    assert ((k, r) ∈ select P t) as Hin by by apply elem_of_select.
    rewrite H in Hin. by apply not_elem_of_nil in Hin.
  - intros H. destruct (select P t) as [|[k r] l] eqn:E; [done|]. exfalso.
    assert ((k, r) ∈ select P t) as Hin by (rewrite E; by left).
    apply elem_of_select in Hin as [Hk HP]. by rewrite (H _ _ Hk) in HP.
Qed.

Lemma first_Some le P t k r : first le P t = Some (k, r) -> t !! k = Some r /\ P k r = true.
Proof. unfold first. intros H%first_by_elem. by apply elem_of_select. Qed.

Lemma first_unique le P t k r :
  t !! k = Some r -> P k r = true ->
  (forall k' r', t !! k' = Some r' -> P k' r' = true -> k' = k) ->
  first le P t = Some (k, r).
Proof.
  intros Hk HP Hu. apply first_by_unique; [by apply elem_of_select|].
  intros [k' r'] [Hk' HP']%elem_of_select. pose proof (Hu _ _ Hk' HP') as ->. congruence.
Qed.

(** The queries with at most one answer ([.get()]). *)
Lemma select_unique P t k r :
  t !! k = Some r -> P k r = true ->
  (forall k' r', t !! k' = Some r' -> P k' r' = true -> k' = k) ->
  select P t = [(k, r)].
Proof.
  intros Hk HP Hu.
  assert (Hall : forall x, x ∈ select P t -> x = (k, r)).
  { intros [k' r'] [Hk' HP']%elem_of_select. pose proof (Hu _ _ Hk' HP') as ->. congruence. }
  pose proof (select_NoDup P t) as Hnd.
  assert (Hin : (k, r) ∈ select P t) by by apply elem_of_select.
  destruct (select P t) as [|x [|y l]]; simpl in *.
  - by apply not_elem_of_nil in Hin.
  - f_equal. apply Hall. by left.
  - exfalso. rewrite (Hall x), (Hall y) in Hnd by set_solver.
    simpl in Hnd. apply NoDup_cons in Hnd as [Hn _]. set_solver.
Qed.

End table.
End Table.
