(* ===== verification/Env.v ===== *)
(** * The world outside the services

    Python values as they reach JSON columns, the exceptions the code raises,
    the Django settings it reads (config/settings/base.py) and, as the
    parameters of the development, the code that is not in the repository:
    clock, random numbers, cryptographic primitives, password hashers, TOTP,
    user-agent and address parsing.  The [*Laws] classes name what the
    services rely on of that code. *)

From S2P Require Import Prelude.

#[local] Set Warnings "-register-all".

(** ** Python values *)

Inductive pyval :=
| PNone
| PBool (b : bool)
| PInt (n : Z)
| PStr (s : string)
| PDatetime (t : Z)
| PUUID (u : uuid)
| PDecimal (repr : string)
| PList (l : list pyval)
| PTuple (l : list pyval)
| PDict (l : list (string * pyval))
(** a dataclass instance, a user, a user session and any other object, with its [str()] *)
| PDataclass (repr : string) (fields : list (string * pyval))
| PUser (id : uuid) (email display_name : string)
| PSession (repr identifier browser operating_system device : string)
    (ip_address : option string) (created_at : Z)
| PObject (repr : string) (attributes : list (string * pyval))
| POther (repr : string).

(** ** Exceptions

    One constructor per exception class the code raises or catches. *)
Inductive exn :=
| APIException (detail code : string) (status_code : Z) (fields : list (string * Z))
| AuthenticationFailed (detail : string)
| ValidationError (message code : string)
| IntegrityError
| DatabaseError
| DoesNotExist
| MultipleObjectsReturned
| ValueError (message : string)
| KeyError (key : string)
| RuntimeError (message : string)
| ImproperlyConfigured (message : string)
| HTTPError (message : string)
| TypeError
(** the other exceptions of [rest_framework.exceptions], [Http404] and Django's
    [PermissionDenied]; [InvalidFields] is DRF's [ValidationError] *)
| InvalidFields (errors : list (string * list string))
| NotAuthenticated
| PermissionDenied (detail : string)
| NotFound (detail : string)
| Throttled (wait : Z)
| MethodNotAllowed (method : string)
| Http404 (detail : string)
| DjangoPermissionDenied.

#[export] Instance exn_eq_dec : EqDecision exn.
Proof. solve_decision. Defined.

(** ** Settings (config/settings/base.py) *)

Class Settings := MkSettings {
  APP_ENV : string;
  SECRET_KEY : string;
  APP_NAME : string;
  SITE_NAME : string;
  SITE_URL : string;
  PASSWORD_RESET_TIMEOUT : Z;
  REDIS_ENABLED : bool;
  CELERY_ENABLED : bool;
  CELERY_TASK_ALWAYS_EAGER : bool;
  TRUST_PROXY_HEADERS : bool;
  TRUSTED_PROXY_IPS : list string;
  ENABLE_NOTIFICATIONS : bool;
  ENABLE_API_KEYS : bool;
  ENABLE_TWO_FACTOR : bool;
  ENABLE_WEBHOOKS : bool;
  LOGIN_MAX_ATTEMPTS : Z;
  LOGIN_LOCKOUT_SECONDS : Z;
  LOGIN_MAX_BACKOFF_SECONDS : Z;
  TOTP_ENCRYPTION_KEY : string;
  API_KEY_PEPPER : string;
  API_KEY_AVAILABLE_SCOPES : list string;
  MAX_UPLOAD_SIZE : Z;
  MAX_IMAGE_PIXELS : Z;
  SESSION_RETENTION_DAYS : Z;
  TOKEN_RETENTION_DAYS : Z;
  NOTIFICATION_RETENTION_DAYS : Z;
  AUDIT_RETENTION_DAYS : Z;
  FILE_RETENTION_DAYS : Z;
}.
#[export] Instance eta_Settings : Eta Settings := fun s =>
  MkSettings (@APP_ENV s) (@SECRET_KEY s) (@APP_NAME s) (@SITE_NAME s) (@SITE_URL s) (@PASSWORD_RESET_TIMEOUT s)
    (@REDIS_ENABLED s) (@CELERY_ENABLED s) (@CELERY_TASK_ALWAYS_EAGER s) (@TRUST_PROXY_HEADERS s)
    (@TRUSTED_PROXY_IPS s) (@ENABLE_NOTIFICATIONS s) (@ENABLE_API_KEYS s) (@ENABLE_TWO_FACTOR s)
    (@ENABLE_WEBHOOKS s) (@LOGIN_MAX_ATTEMPTS s) (@LOGIN_LOCKOUT_SECONDS s) (@LOGIN_MAX_BACKOFF_SECONDS s)
    (@TOTP_ENCRYPTION_KEY s) (@API_KEY_PEPPER s) (@API_KEY_AVAILABLE_SCOPES s) (@MAX_UPLOAD_SIZE s)
    (@MAX_IMAGE_PIXELS s) (@SESSION_RETENTION_DAYS s) (@TOKEN_RETENTION_DAYS s) (@NOTIFICATION_RETENTION_DAYS s)
    (@AUDIT_RETENTION_DAYS s) (@FILE_RETENTION_DAYS s).

(** The values of base.py when no environment variable is set. *)
Definition feature_defaults : Settings := {|
  APP_ENV := "development";
  SECRET_KEY := "unsafe-development-only-key";
  APP_NAME := "Django Foundation";
  SITE_NAME := "Django Foundation";
  SITE_URL := "http://localhost:8000";
  PASSWORD_RESET_TIMEOUT := 3600;
  REDIS_ENABLED := false;
  CELERY_ENABLED := false;
  CELERY_TASK_ALWAYS_EAGER := false;
  TRUST_PROXY_HEADERS := false;
  TRUSTED_PROXY_IPS := [];
  ENABLE_NOTIFICATIONS := true;
  ENABLE_API_KEYS := true;
  ENABLE_TWO_FACTOR := true;
  ENABLE_WEBHOOKS := false;
  LOGIN_MAX_ATTEMPTS := 5;
  LOGIN_LOCKOUT_SECONDS := 300;
  LOGIN_MAX_BACKOFF_SECONDS := 3600;
  TOTP_ENCRYPTION_KEY := "";
  API_KEY_PEPPER := "";
  API_KEY_AVAILABLE_SCOPES :=
    ["profile.read"; "profile.write"; "notifications.read"; "notifications.write"];
  MAX_UPLOAD_SIZE := 10 * 1024 * 1024;
  MAX_IMAGE_PIXELS := 25000000;
  SESSION_RETENTION_DAYS := 30;
  TOKEN_RETENTION_DAYS := 7;
  NOTIFICATION_RETENTION_DAYS := 90;
  AUDIT_RETENTION_DAYS := 0;
  FILE_RETENTION_DAYS := 7;
|}.

(** ** External code *)

(** What [user_agents.parse] returns. *)
Record UserAgent := MkUserAgent {
  is_mobile : bool;
  is_tablet : bool;
  is_pc : bool;
  browser_family : string;
  browser_version : string;
  os_family : string;
  os_version : string;
}.

(** What [urllib.parse.urlparse] returns; reading [port] raises [ValueError]
    when it is not a port number. *)
Record ParsedUrl := MkUrl {
  scheme : string;
  hostname : string;
  url_username : string;
  url_password : string;
  port : exn + option Z;
}.

(** How an HTTP request ends: a response, an [httpx.HTTPError], or any other
    exception. *)
Inductive http_result :=
| HttpResponse (status_code : Z) (text : string)
| HttpFailed (message : string)
| HttpRaised (e : exn).

(** [clock n] is the [n]-th reading of [timezone.now()] and the [draw]
    argument of a random source numbers the calls to it. *)
Class Env := MkEnv {
  settings :: Settings;
  clock : nat -> Z;
  uuid4 : nat -> uuid;
  token_urlsafe : nat -> nat -> string;
  token_hex : nat -> nat -> string;
  sha256 : string -> string;
  hmac_sha256 : string -> string -> string;
  fernet_encrypt : string -> nat -> string -> string;
  fernet_decrypt : string -> string -> option string;
  random_base32 : nat -> string;
  totp_verify : string -> string -> Z -> bool;
  totp_uri : string -> string -> string -> string;
  make_password : nat -> string -> string;
  unusable_password : nat -> string;
  check_password_hash : string -> string -> bool;
  password_acceptable : string -> list string -> bool;
  normalize_email : string -> string;
  parse_ip : string -> option string;
  parse_user_agent : string -> UserAgent;
  new_session_key : nat -> string;
  isoformat : Z -> string;
  normalize_username : string -> string;
  user_fields_valid : string -> string -> string -> string -> bool;
  urlparse : string -> ParsedUrl;
  getaddrinfo : nat -> string -> Z -> option (list string);
  ip_is_global : string -> bool;
  http_post : nat -> string -> string -> list (string * string) -> http_result;
  json_dumps : pyval -> string;
}.

(** The clock does not run backwards. *)
Class ClockLaws (E : Env) := {
  clock_mono : forall i j : nat, (i <= j)%nat -> clock i <= clock j;
}.

(** Random values do not repeat. *)
Class EntropyLaws (E : Env) := {
  uuid4_inj : forall i j, uuid4 i = uuid4 j -> i = j;
  token_urlsafe_inj : forall i j n, token_urlsafe i n = token_urlsafe j n -> i = j;
  token_hex_dotless : forall i n, Str.has_char "." (token_hex i n) = false;
  session_key_nonempty : forall i, Str.is_empty (new_session_key i) = false;
}.

(** Hashes and keyed hashes do not collide; Fernet decrypts what it encrypted. *)
Class CryptoLaws (E : Env) := {
  sha256_inj : forall a b, sha256 a = sha256 b -> a = b;
  hmac_inj : forall k a b, hmac_sha256 k a = hmac_sha256 k b -> a = b;
  fernet_roundtrip : forall k n v, fernet_decrypt k (fernet_encrypt k n v) = Some v;
}.

(** Password hashers verify what they hashed, and no password matches an
    unusable hash. *)
Class PasswordLaws (E : Env) := {
  check_make_password : forall n p, check_password_hash (make_password n p) p = true;
  check_unusable_password : forall n p, check_password_hash (unusable_password n) p = false;
}.

(** [BaseUserManager.normalize_email] only changes the case of its (stripped)
    argument. *)
Class EmailLaws (E : Env) := {
  normalize_email_case : forall s, Str.strip s = s -> Str.casefold (normalize_email s) = Str.casefold s;
}.
