(* ===== verification/Demo.v ===== *)
(** * A concrete outside world

    An instance of every parameter of [Env], with the laws the theorems
    assume, on which the witnesses run.  Hashes are tagged concatenations, the
    clock advances one millisecond per reading and random values are numbered. *)

From stdpp Require Import pretty.
From S2P Require Import Prelude Env.

Definition numbered (tag : string) (n : nat) : string := tag +:+ pretty (N.of_nat n).

Lemma append_inj_r a b c : a +:+ b = a +:+ c -> b = c.
Proof. induction a as [|x a IH]; simpl; [done|]. by intros [= H]; auto. Qed.

Lemma numbered_inj tag i j : numbered tag i = numbered tag j -> i = j.
Proof. intros H%append_inj_r. apply (inj pretty) in H. lia. Qed.

(** What follows the prefix [p] in [s]. *)
Fixpoint after_prefix (p s : string) : option string :=
  match p, s with
  | EmptyString, _ => Some s
  | String c p', String d s' => if Ascii.eqb c d then after_prefix p' s' else None
  | _, _ => None
  end.

Lemma after_prefix_app p s : after_prefix p (p +:+ s) = Some s.
Proof. induction p as [|c p IH]; simpl; [done|]. by rewrite Ascii.eqb_refl. Qed.

Definition demo_env_with (s : Settings) : Env := {|
  settings := s;
  clock := fun n => 1000000000 + Z.of_nat n * 1000;
  uuid4 := fun n => (1000 + N.of_nat n)%N;
  token_urlsafe := fun n _ => numbered "tok" n;
  token_hex := fun n b => hex_digits (2 * b) (N.of_nat n);
  sha256 := fun s => s;
  hmac_sha256 := fun k m => k +:+ "|" +:+ m;
  fernet_encrypt := fun k _ v => k +:+ "$" +:+ v;
  fernet_decrypt := fun k c => match after_prefix k c with
                               | Some rest => after_prefix "$" rest
                               | None => None
                               end;
  random_base32 := fun n => numbered "BASE32SECRET" n;
  totp_verify := fun _ code _ => String.eqb code "123456";
  totp_uri := fun secret name issuer => "otpauth://totp/" +:+ issuer +:+ ":" +:+ name +:+ "?secret=" +:+ secret;
  make_password := fun _ p => "argon2$" +:+ p;
  unusable_password := fun _ => "!";
  check_password_hash := fun h p => String.eqb h ("argon2$" +:+ p);
  password_acceptable := fun p _ => (12 <=? Z.of_nat (String.length p));
  normalize_email := fun s => s;
  parse_ip := fun s => Some s;
  parse_user_agent := fun s => MkUserAgent false false true s "1" "Linux" "";
  new_session_key := numbered "session";
  isoformat := fun t => pretty t;
  normalize_username := fun s => s;
  user_fields_valid := fun email username _ _ => negb (Str.is_empty email) && negb (Str.is_empty username);
  urlparse := fun u => MkUrl "https" u "" "" (inr None);
  getaddrinfo := fun _ host _ => if String.eqb host "" then None else Some [host];
  ip_is_global := fun a => negb (String.prefix "10." a);
  http_post := fun n url _ _ =>
    if String.eqb url "down" then HttpFailed "connection refused"
    else if String.eqb url "crash" then HttpRaised (ValueError "invalid")
    else HttpResponse 200 "ok";
  json_dumps := fun v => match v with PDict l => "{...}" | _ => "..." end;
|}.

Abbreviation demo_env := (demo_env_with feature_defaults).

Lemma hex_digit_dotless n : Ascii.eqb "." (hex_digit n) = false \/ (16 <= n)%N.
Proof.
  destruct (N.lt_ge_cases n 16) as [Hn|Hn]; [left|by right].
  assert (Hin : n ∈ List.map N.of_nat (seq 0 16)).
  { apply list_elem_of_In, in_map_iff. exists (N.to_nat n). rewrite N2Nat.id. split; [done|].
    apply in_seq. lia. }
  revert Hin. repeat setoid_rewrite elem_of_cons. rewrite elem_of_nil.
  intros H. repeat destruct H as [->|H]; done.
Qed.

Lemma hex_digits_dotless d n : Str.has_char "." (hex_digits d n) = false.
Proof.
  revert n. induction d as [|d IH]; intros n; [done|]. cbn [hex_digits].
  rewrite Str.has_char_app, IH. cbn [Str.has_char]. rewrite orb_false_r, orb_false_l.
  destruct (hex_digit_dotless (n mod 16)%N) as [->|H]; [done|].
  pose proof (N.mod_lt n 16). lia.
Qed.

Section laws.
Context (s : Settings).

#[export] Instance demo_clock : ClockLaws (demo_env_with s).
Proof. split. intros i j Hij. cbn. lia. Qed.

#[export] Instance demo_entropy : EntropyLaws (demo_env_with s).
Proof.
  split; cbn.
  - intros i j H. lia.
  - intros i j _. apply numbered_inj.
  - intros i n. apply hex_digits_dotless.
  - intros i. done.
Qed.

#[export] Instance demo_crypto : CryptoLaws (demo_env_with s).
Proof.
  split; cbn.
  - done.
  - intros k a b H%append_inj_r. by injection H.
  - intros k _ v. by rewrite after_prefix_app.
Qed.

#[export] Instance demo_password : PasswordLaws (demo_env_with s).
Proof. split; cbn; intros _ p; [apply String.eqb_refl|done]. Qed.

#[export] Instance demo_email : EmailLaws (demo_env_with s).
Proof. split; by cbn. Qed.

End laws.

