(* ===== verification/Models.v ===== *)
(** * The data model

    One module per Django model of the applications ([apps/*/models.py]) with
    its row type [t], the enumerations the columns use, and the computed
    properties of the models.  Columns that no modelled operation reads or
    writes ([UserSession.location], [StoredFile.metadata] and
    [StoredFile.last_accessed_at]) are left out.  A nullable column is an
    [option]; a foreign key is the primary key it refers to. *)

From S2P Require Import Prelude Env.

(** ** Enumerations *)

Module AccountStatus.
Inductive t :=
  ACTIVE | PENDING | SUSPENDED | BANNED | DEACTIVATED | DELETED.
#[global] Instance t_eq_dec : EqDecision t.
Proof. solve_decision. Defined.
Definition value (x : t) : string :=
  match x with
  | ACTIVE => "active"
  | PENDING => "pending"
  | SUSPENDED => "suspended"
  | BANNED => "banned"
  | DEACTIVATED => "deactivated"
  | DELETED => "deleted"
  end.
End AccountStatus.

Module TokenPurpose.
Inductive t :=
  EMAIL_VERIFICATION | PASSWORD_RESET | EMAIL_CHANGE | ACCOUNT_DELETION.
#[global] Instance t_eq_dec : EqDecision t.
Proof. solve_decision. Defined.
Definition value (x : t) : string :=
  match x with
  | EMAIL_VERIFICATION => "email_verification"
  | PASSWORD_RESET => "password_reset"
  | EMAIL_CHANGE => "email_change"
  | ACCOUNT_DELETION => "account_deletion"
  end.
End TokenPurpose.

Module OverrideEffect.
Inductive t :=
  ALLOW | DENY.
#[global] Instance t_eq_dec : EqDecision t.
Proof. solve_decision. Defined.
Definition value (x : t) : string :=
  match x with
  | ALLOW => "allow"
  | DENY => "deny"
  end.
End OverrideEffect.

Module SecurityEventType.
Inductive t :=
  LOGIN_SUCCESS | LOGIN_FAILED | NEW_DEVICE_LOGIN | PASSWORD_CHANGED | PASSWORD_RESET |
  EMAIL_CHANGED | TWO_FACTOR_ENABLED | TWO_FACTOR_DISABLED | RECOVERY_CODE_USED |
  SESSION_REVOKED | ACCOUNT_LOCKED | ACCOUNT_UNLOCKED | ACCOUNT_DEACTIVATED |
  ACCOUNT_DELETED | API_KEY_CREATED | API_KEY_REVOKED.
#[global] Instance t_eq_dec : EqDecision t.
Proof. solve_decision. Defined.
Definition value (x : t) : string :=
  match x with
  | LOGIN_SUCCESS => "login_success"
  | LOGIN_FAILED => "login_failed"
  | NEW_DEVICE_LOGIN => "new_device_login"
  | PASSWORD_CHANGED => "password_changed"
  | PASSWORD_RESET => "password_reset"
  | EMAIL_CHANGED => "email_changed"
  | TWO_FACTOR_ENABLED => "two_factor_enabled"
  | TWO_FACTOR_DISABLED => "two_factor_disabled"
  | RECOVERY_CODE_USED => "recovery_code_used"
  | SESSION_REVOKED => "session_revoked"
  | ACCOUNT_LOCKED => "account_locked"
  | ACCOUNT_UNLOCKED => "account_unlocked"
  | ACCOUNT_DEACTIVATED => "account_deactivated"
  | ACCOUNT_DELETED => "account_deleted"
  | API_KEY_CREATED => "api_key_created"
  | API_KEY_REVOKED => "api_key_revoked"
  end.
End SecurityEventType.

Module DeliveryStatus.
Inductive t :=
  PENDING | PROCESSING | SUCCEEDED | FAILED | ABANDONED.
#[global] Instance t_eq_dec : EqDecision t.
Proof. solve_decision. Defined.
Definition value (x : t) : string :=
  match x with
  | PENDING => "pending"
  | PROCESSING => "processing"
  | SUCCEEDED => "succeeded"
  | FAILED => "failed"
  | ABANDONED => "abandoned"
  end.
End DeliveryStatus.

Module FileStatus.
Inductive t :=
  PENDING | READY | QUARANTINED | REJECTED.
#[global] Instance t_eq_dec : EqDecision t.
Proof. solve_decision. Defined.
Definition value (x : t) : string :=
  match x with
  | PENDING => "pending"
  | READY => "ready"
  | QUARANTINED => "quarantined"
  | REJECTED => "rejected"
  end.
End FileStatus.

Module SettingValueType.
Inductive t :=
  STRING | INTEGER | BOOLEAN | JSON.
#[global] Instance t_eq_dec : EqDecision t.
Proof. solve_decision. Defined.
Definition value (x : t) : string :=
  match x with
  | STRING => "string"
  | INTEGER => "integer"
  | BOOLEAN => "boolean"
  | JSON => "json"
  end.
End SettingValueType.

(** ** accounts *)

Module User.
Record t := mk {
  email : string;
  username : string;
  first_name : string;
  last_name : string;
  avatar : string;
  phone : string;
  status : AccountStatus.t;
  email_verified_at : option Z;
  phone_verified_at : option Z;
  is_active : bool;
  is_staff : bool;
  is_superuser : bool;
  password : string;
  date_joined : Z;
  last_login : option Z;
  last_login_ip : option string;
  created_at : Z;
  updated_at : Z;
}.
#[global] Instance eta_t : Eta t := fun r =>
  mk r.(email) r.(username) r.(first_name) r.(last_name) r.(avatar) r.(phone) r.(status)
    r.(email_verified_at) r.(phone_verified_at) r.(is_active) r.(is_staff)
    r.(is_superuser) r.(password) r.(date_joined) r.(last_login) r.(last_login_ip)
    r.(created_at) r.(updated_at).

(** [models.Q(email__iexact=x) | models.Q(username__iexact=x)] *)
Definition matches_identifier (x : string) (u : t) : bool :=
  Str.iexact (email u) x || Str.iexact (username u) x.

(** [UserManager.normalize_email_address] *)
Definition normalize_email_address `{Env} (e : string) : string :=
  Str.casefold (normalize_email (Str.strip e)).

Definition is_email_verified (u : t) : bool := is_some (email_verified_at u).
Definition is_phone_verified (u : t) : bool := is_some (phone_verified_at u).

Definition get_full_name (u : t) : string := Str.strip (first_name u +:+ " " +:+ last_name u).
Definition get_short_name (u : t) : string :=
  if Str.is_empty (first_name u) then username u else first_name u.
Definition display_name (u : t) : string :=
  if Str.is_empty (get_full_name u) then username u else get_full_name u.

(** The normalisation [User.save] applies before every write. *)
Definition before_save `{Env} (u : t) : t :=
  u <| email ::= normalize_email_address |> <| username ::= Str.strip |>.

(** The constraints [accounts_user_email_ci_unique] and
    [accounts_user_username_ci_unique] (which subsume the [unique=True] of the
    two columns). *)
Definition clash (u v : t) : bool :=
  Str.iexact (email u) (email v) || Str.iexact (username u) (username v).

Definition check_password `{Env} (u : t) (raw : string) : bool :=
  check_password_hash (password u) raw.
End User.

Module UserProfile.
Record t := mk {
  user : uuid;
  bio : string;
  website : string;
  location : string;
  created_at : Z;
  updated_at : Z;
}.
#[global] Instance eta_t : Eta t := fun r =>
  mk r.(user) r.(bio) r.(website) r.(location) r.(created_at) r.(updated_at).
End UserProfile.

Module UserPreferences.
Record t := mk {
  user : uuid;
  language : string;
  timezone : string;
  email_notifications : bool;
  security_emails : bool;
  created_at : Z;
  updated_at : Z;
}.
#[global] Instance eta_t : Eta t := fun r =>
  mk r.(user) r.(language) r.(timezone) r.(email_notifications) r.(security_emails)
    r.(created_at) r.(updated_at).
End UserPreferences.

Module UserSecuritySettings.
Record t := mk {
  user : uuid;
  password_changed_at : option Z;
  locked_until : option Z;
  notify_new_device : bool;
  created_at : Z;
  updated_at : Z;
}.
#[global] Instance eta_t : Eta t := fun r =>
  mk r.(user) r.(password_changed_at) r.(locked_until) r.(notify_new_device) r.(created_at)
    r.(updated_at).
Definition is_locked (now : Z) (s : t) : bool :=
  match locked_until s with Some until => now <? until | None => false end.
End UserSecuritySettings.

Module UserBan.
Record t := mk {
  user : uuid;
  reason : string;
  banned_by : option uuid;
  starts_at : Z;
  expires_at : option Z;
  created_at : Z;
  revoked_at : option Z;
}.
#[global] Instance eta_t : Eta t := fun r =>
  mk r.(user) r.(reason) r.(banned_by) r.(starts_at) r.(expires_at) r.(created_at)
    r.(revoked_at).
Definition is_active (now : Z) (b : t) : bool :=
  is_none (revoked_at b) && (starts_at b <=? now)
  && match expires_at b with None => true | Some e => now <? e end.

(** The check constraint [acct_ban_expiry_after_start]. *)
Definition valid (b : t) : bool :=
  match expires_at b with None => true | Some e => starts_at b <? e end.
End UserBan.

(** ** authentication *)

Module OneTimeToken.
Record t := mk {
  user : uuid;
  purpose : TokenPurpose.t;
  token_hash : string;
  metadata : list (string * string);
  created_at : Z;
  expires_at : Z;
  used_at : option Z;
}.
#[global] Instance eta_t : Eta t := fun r =>
  mk r.(user) r.(purpose) r.(token_hash) r.(metadata) r.(created_at) r.(expires_at)
    r.(used_at).
Definition is_usable (now : Z) (k : t) : bool := is_none (used_at k) && (now <? expires_at k).
Definition clash (a b : t) : bool := String.eqb (token_hash a) (token_hash b).
End OneTimeToken.

Module UserSession.
Record t := mk {
  user : uuid;
  identifier : string;
  session_key_hash : string;
  encrypted_session_key : string;
  ip_address : option string;
  user_agent : string;
  browser : string;
  operating_system : string;
  device : string;
  created_at : Z;
  last_activity_at : Z;
  revoked_at : option Z;
}.
#[global] Instance eta_t : Eta t := fun r =>
  mk r.(user) r.(identifier) r.(session_key_hash) r.(encrypted_session_key) r.(ip_address)
    r.(user_agent) r.(browser) r.(operating_system) r.(device) r.(created_at)
    r.(last_activity_at) r.(revoked_at).
Definition is_revoked (s : t) : bool := is_some (revoked_at s).
Definition clash (a b : t) : bool :=
  String.eqb (session_key_hash a) (session_key_hash b) || String.eqb (identifier a) (identifier b).
End UserSession.

Module TwoFactorCredential.
Record t := mk {
  user : uuid;
  encrypted_secret : string;
  created_at : Z;
  confirmed_at : option Z;
  disabled_at : option Z;
}.
#[global] Instance eta_t : Eta t := fun r =>
  mk r.(user) r.(encrypted_secret) r.(created_at) r.(confirmed_at) r.(disabled_at).
Definition is_enabled (c : t) : bool := is_some (confirmed_at c) && is_none (disabled_at c).
End TwoFactorCredential.

Module RecoveryCode.
Record t := mk {
  credential : uuid;
  code_hash : string;
  created_at : Z;
  used_at : option Z;
}.
#[global] Instance eta_t : Eta t := fun r =>
  mk r.(credential) r.(code_hash) r.(created_at) r.(used_at).
Definition clash (a b : t) : bool :=
  N.eqb (credential a) (credential b) && String.eqb (code_hash a) (code_hash b).
End RecoveryCode.

(** The two tables of [rest_framework_simplejwt.token_blacklist]. *)
Module OutstandingToken.
Record t := mk {
  user : option uuid;
  jti : string;
  expires_at : Z;
}.
#[global] Instance eta_t : Eta t := fun r =>
  mk r.(user) r.(jti) r.(expires_at).
End OutstandingToken.

Module BlacklistedToken.
Record t := mk {
  token : uuid;
  blacklisted_at : Z;
}.
#[global] Instance eta_t : Eta t := fun r =>
  mk r.(token) r.(blacklisted_at).
End BlacklistedToken.

(** ** authorization *)

Module Permission.
Record t := mk {
  codename : string;
  description : string;
  is_system : bool;
  created_at : Z;
  updated_at : Z;
}.
#[global] Instance eta_t : Eta t := fun r =>
  mk r.(codename) r.(description) r.(is_system) r.(created_at) r.(updated_at).
End Permission.

Module Role.
Record t := mk {
  name : string;
  slug : string;
  description : string;
  priority : Z;
  is_system : bool;
  created_at : Z;
  updated_at : Z;
}.
#[global] Instance eta_t : Eta t := fun r =>
  mk r.(name) r.(slug) r.(description) r.(priority) r.(is_system) r.(created_at)
    r.(updated_at).
End Role.

Module RolePermission.
Record t := mk {
  role : uuid;
  permission : uuid;
  created_at : Z;
}.
#[global] Instance eta_t : Eta t := fun r =>
  mk r.(role) r.(permission) r.(created_at).
Definition clash (a b : t) : bool := N.eqb (role a) (role b) && N.eqb (permission a) (permission b).
End RolePermission.

Module UserRole.
Record t := mk {
  user : uuid;
  role : uuid;
  granted_by : option uuid;
  valid_from : Z;
  valid_until : option Z;
  created_at : Z;
}.
#[global] Instance eta_t : Eta t := fun r =>
  mk r.(user) r.(role) r.(granted_by) r.(valid_from) r.(valid_until) r.(created_at).
Definition is_valid (now : Z) (r : t) : bool :=
  (valid_from r <=? now) && match valid_until r with None => true | Some u => now <? u end.
Definition clash (a b : t) : bool := N.eqb (user a) (user b) && N.eqb (role a) (role b).
End UserRole.

Module UserPermissionOverride.
Record t := mk {
  user : uuid;
  permission : uuid;
  effect : OverrideEffect.t;
  reason : string;
  granted_by : option uuid;
  created_at : Z;
  updated_at : Z;
}.
#[global] Instance eta_t : Eta t := fun r =>
  mk r.(user) r.(permission) r.(effect) r.(reason) r.(granted_by) r.(created_at)
    r.(updated_at).
Definition clash (a b : t) : bool := N.eqb (user a) (user b) && N.eqb (permission a) (permission b).
End UserPermissionOverride.

(** ** security and audit *)

Module SecurityEvent.
Record t := mk {
  user : option uuid;
  event_type : SecurityEventType.t;
  ip_address : option string;
  user_agent : string;
  request_id : string;
  metadata : list (string * pyval);
  created_at : Z;
}.
#[global] Instance eta_t : Eta t := fun r =>
  mk r.(user) r.(event_type) r.(ip_address) r.(user_agent) r.(request_id) r.(metadata)
    r.(created_at).
End SecurityEvent.

Module LoginThrottleState.
Record t := mk {
  dimension_hash : string;
  attempt_count : Z;
  locked_until : option Z;
  expires_at : Z;
  updated_at : Z;
}.
#[global] Instance eta_t : Eta t := fun r =>
  mk r.(dimension_hash) r.(attempt_count) r.(locked_until) r.(expires_at) r.(updated_at).
End LoginThrottleState.

Module AuditLog.
Record t := mk {
  actor : option uuid;
  action : string;
  target_type : string;
  target_id : string;
  target_repr : string;
  before : pyval;
  after : pyval;
  metadata : pyval;
  request_id : string;
  ip_address : option string;
  user_agent : string;
  created_at : Z;
}.
#[global] Instance eta_t : Eta t := fun r =>
  mk r.(actor) r.(action) r.(target_type) r.(target_id) r.(target_repr) r.(before)
    r.(after) r.(metadata) r.(request_id) r.(ip_address) r.(user_agent) r.(created_at).
End AuditLog.

(** ** api_keys, webhooks, notifications, files, core *)

Module APIKey.
Record t := mk {
  owner : uuid;
  name : string;
  prefix : string;
  key_hash : string;
  scopes : list string;
  created_at : Z;
  last_used_at : option Z;
  last_used_ip : option string;
  expires_at : option Z;
  revoked_at : option Z;
}.
#[global] Instance eta_t : Eta t := fun r =>
  mk r.(owner) r.(name) r.(prefix) r.(key_hash) r.(scopes) r.(created_at) r.(last_used_at)
    r.(last_used_ip) r.(expires_at) r.(revoked_at).
Definition is_active (now : Z) (k : t) : bool :=
  is_none (revoked_at k) && match expires_at k with None => true | Some e => now <? e end.
End APIKey.

Module WebhookEndpoint.
Record t := mk {
  owner : option uuid;
  name : string;
  url : string;
  event_types : list string;
  secret_hash : string;
  encrypted_secret : string;
  is_active : bool;
  created_at : Z;
  updated_at : Z;
}.
#[global] Instance eta_t : Eta t := fun r =>
  mk r.(owner) r.(name) r.(url) r.(event_types) r.(secret_hash) r.(encrypted_secret)
    r.(is_active) r.(created_at) r.(updated_at).
End WebhookEndpoint.

Module WebhookEvent.
Record t := mk {
  event_type : string;
  payload : pyval;
  created_at : Z;
}.
#[global] Instance eta_t : Eta t := fun r =>
  mk r.(event_type) r.(payload) r.(created_at).
End WebhookEvent.

Module WebhookDelivery.
Record t := mk {
  endpoint : uuid;
  event : uuid;
  status : DeliveryStatus.t;
  attempt_count : Z;
  response_code : option Z;
  response_body : string;
  last_attempt_at : option Z;
  next_retry_at : option Z;
  created_at : Z;
}.
#[global] Instance eta_t : Eta t := fun r =>
  mk r.(endpoint) r.(event) r.(status) r.(attempt_count) r.(response_code)
    r.(response_body) r.(last_attempt_at) r.(next_retry_at) r.(created_at).
Definition clash (a b : t) : bool := N.eqb (endpoint a) (endpoint b) && N.eqb (event a) (event b).
End WebhookDelivery.

Module Notification.
Record t := mk {
  user : uuid;
  type : string;
  title : string;
  message : string;
  data : pyval;
  read_at : option Z;
  created_at : Z;
  expires_at : option Z;
}.
#[global] Instance eta_t : Eta t := fun r =>
  mk r.(user) r.(type) r.(title) r.(message) r.(data) r.(read_at) r.(created_at)
    r.(expires_at).
End Notification.

Module StoredFile.
Record t := mk {
  owner : option uuid;
  file : string;
  original_name : string;
  content_type : string;
  size : Z;
  checksum_sha256 : string;
  status : FileStatus.t;
  created_at : Z;
  deleted_at : option Z;
}.
#[global] Instance eta_t : Eta t := fun r =>
  mk r.(owner) r.(file) r.(original_name) r.(content_type) r.(size) r.(checksum_sha256)
    r.(status) r.(created_at) r.(deleted_at).
End StoredFile.

Module IdempotencyRecord.
Record t := mk {
  user : uuid;
  key_hash : string;
  request_method : string;
  request_path : string;
  request_hash : string;
  response_status : option Z;
  response_body : option pyval;
  created_at : Z;
  expires_at : Z;
}.
#[global] Instance eta_t : Eta t := fun r =>
  mk r.(user) r.(key_hash) r.(request_method) r.(request_path) r.(request_hash)
    r.(response_status) r.(response_body) r.(created_at) r.(expires_at).
Definition clash (a b : t) : bool := N.eqb (user a) (user b) && String.eqb (key_hash a) (key_hash b).
End IdempotencyRecord.

Module Setting.
Record t := mk {
  key : string;
  value : pyval;
  value_type : SettingValueType.t;
  group : string;
  is_public : bool;
  description : string;
  created_at : Z;
  updated_at : Z;
}.
#[global] Instance eta_t : Eta t := fun r =>
  mk r.(key) r.(value) r.(value_type) r.(group) r.(is_public) r.(description)
    r.(created_at) r.(updated_at).
End Setting.

Module FeatureFlag.
Record t := mk {
  key : string;
  enabled : bool;
  description : string;
  created_at : Z;
  updated_at : Z;
}.
#[global] Instance eta_t : Eta t := fun r =>
  mk r.(key) r.(enabled) r.(description) r.(created_at) r.(updated_at).
End FeatureFlag.

(** ** The database *)

(** [django_sessions] is the session table of [django.contrib.sessions]: the
    set of the session keys it holds. *)
Record DB := mkDB {
  users : gmap uuid User.t;
  profiles : gmap uuid UserProfile.t;
  preferences : gmap uuid UserPreferences.t;
  security_settings : gmap uuid UserSecuritySettings.t;
  bans : gmap uuid UserBan.t;
  one_time_tokens : gmap uuid OneTimeToken.t;
  user_sessions : gmap uuid UserSession.t;
  two_factor : gmap uuid TwoFactorCredential.t;
  recovery_codes : gmap uuid RecoveryCode.t;
  outstanding_tokens : gmap uuid OutstandingToken.t;
  blacklisted_tokens : gmap uuid BlacklistedToken.t;
  permissions : gmap uuid Permission.t;
  roles : gmap uuid Role.t;
  role_permissions : gmap uuid RolePermission.t;
  user_roles : gmap uuid UserRole.t;
  permission_overrides : gmap uuid UserPermissionOverride.t;
  security_events : gmap uuid SecurityEvent.t;
  throttle_states : gmap uuid LoginThrottleState.t;
  audit_logs : gmap uuid AuditLog.t;
  api_keys : gmap uuid APIKey.t;
  webhook_endpoints : gmap uuid WebhookEndpoint.t;
  webhook_events : gmap uuid WebhookEvent.t;
  webhook_deliveries : gmap uuid WebhookDelivery.t;
  notifications : gmap uuid Notification.t;
  stored_files : gmap uuid StoredFile.t;
  idempotency_records : gmap uuid IdempotencyRecord.t;
  settings_rows : gmap uuid Setting.t;
  feature_flags : gmap uuid FeatureFlag.t;
  django_sessions : gset string;
}.
#[export] Instance eta_DB : Eta DB := fun d =>
  mkDB d.(users) d.(profiles) d.(preferences) d.(security_settings) d.(bans)
    d.(one_time_tokens) d.(user_sessions) d.(two_factor) d.(recovery_codes)
    d.(outstanding_tokens) d.(blacklisted_tokens) d.(permissions) d.(roles)
    d.(role_permissions) d.(user_roles) d.(permission_overrides) d.(security_events)
    d.(throttle_states) d.(audit_logs) d.(api_keys) d.(webhook_endpoints)
    d.(webhook_events) d.(webhook_deliveries) d.(notifications) d.(stored_files)
    d.(idempotency_records) d.(settings_rows) d.(feature_flags) d.(django_sessions).

Definition empty_db : DB :=
  mkDB ∅ ∅ ∅ ∅ ∅ ∅ ∅ ∅ ∅ ∅ ∅ ∅ ∅ ∅ ∅ ∅ ∅ ∅ ∅ ∅ ∅ ∅ ∅ ∅ ∅ ∅ ∅ ∅ ∅.

(** ** Models as tables

    The interface the ORM layer is written against: where the rows of a model
    live, which pairs of rows its unique and one-to-one constraints exclude,
    and the laws of the accessor pair. *)

Class Model (R : Type) := {
  objects : DB -> gmap uuid R;
  with_objects : (gmap uuid R -> gmap uuid R) -> DB -> DB;
  row_clash : R -> R -> bool;
}.

Class ModelLaws (R : Type) `{Model R} := {
  objects_with_objects : forall f d, objects (with_objects f d) = f (objects d);
  row_clash_sym : forall a b, row_clash a b = row_clash b a;
}.

Definition no_clash {R} (_ _ : R) : bool := false.
Definition same_user {R} (user : R -> uuid) (a b : R) : bool := N.eqb (user a) (user b).

Ltac eqb_symmetric := first [apply String.eqb_sym | apply N.eqb_sym | apply Str.iexact_sym].
Ltac model_laws :=
  split; [reflexivity|]; intros a b; cbn;
  unfold no_clash, same_user, User.clash, UserSession.clash, RecoveryCode.clash, UserRole.clash,
    RolePermission.clash, UserPermissionOverride.clash, WebhookDelivery.clash,
    IdempotencyRecord.clash;
  first [reflexivity | eqb_symmetric | f_equal; eqb_symmetric].

#[export] Instance model_User : Model User.t :=
  {| objects := users; with_objects := upd users; row_clash := User.clash |}.
#[export] Instance laws_User : ModelLaws User.t.
Proof. model_laws. Qed.
#[export] Instance model_UserProfile : Model UserProfile.t :=
  {| objects := profiles; with_objects := upd profiles; row_clash := (same_user UserProfile.user) |}.
#[export] Instance laws_UserProfile : ModelLaws UserProfile.t.
Proof. model_laws. Qed.
#[export] Instance model_UserPreferences : Model UserPreferences.t :=
  {| objects := preferences; with_objects := upd preferences; row_clash := (same_user UserPreferences.user) |}.
#[export] Instance laws_UserPreferences : ModelLaws UserPreferences.t.
Proof. model_laws. Qed.
#[export] Instance model_UserSecuritySettings : Model UserSecuritySettings.t :=
  {| objects := security_settings; with_objects := upd security_settings; row_clash := (same_user UserSecuritySettings.user) |}.
#[export] Instance laws_UserSecuritySettings : ModelLaws UserSecuritySettings.t.
Proof. model_laws. Qed.
#[export] Instance model_UserBan : Model UserBan.t :=
  {| objects := bans; with_objects := upd bans; row_clash := no_clash |}.
#[export] Instance laws_UserBan : ModelLaws UserBan.t.
Proof. model_laws. Qed.
#[export] Instance model_OneTimeToken : Model OneTimeToken.t :=
  {| objects := one_time_tokens; with_objects := upd one_time_tokens; row_clash := OneTimeToken.clash |}.
#[export] Instance laws_OneTimeToken : ModelLaws OneTimeToken.t.
Proof. model_laws. Qed.
#[export] Instance model_UserSession : Model UserSession.t :=
  {| objects := user_sessions; with_objects := upd user_sessions; row_clash := UserSession.clash |}.
#[export] Instance laws_UserSession : ModelLaws UserSession.t.
Proof. model_laws. Qed.
#[export] Instance model_TwoFactorCredential : Model TwoFactorCredential.t :=
  {| objects := two_factor; with_objects := upd two_factor; row_clash := (same_user TwoFactorCredential.user) |}.
#[export] Instance laws_TwoFactorCredential : ModelLaws TwoFactorCredential.t.
Proof. model_laws. Qed.
#[export] Instance model_RecoveryCode : Model RecoveryCode.t :=
  {| objects := recovery_codes; with_objects := upd recovery_codes; row_clash := RecoveryCode.clash |}.
#[export] Instance laws_RecoveryCode : ModelLaws RecoveryCode.t.
Proof. model_laws. Qed.
#[export] Instance model_OutstandingToken : Model OutstandingToken.t :=
  {| objects := outstanding_tokens; with_objects := upd outstanding_tokens; row_clash := (fun a b => String.eqb (OutstandingToken.jti a) (OutstandingToken.jti b)) |}.
#[export] Instance laws_OutstandingToken : ModelLaws OutstandingToken.t.
Proof. model_laws. Qed.
#[export] Instance model_BlacklistedToken : Model BlacklistedToken.t :=
  {| objects := blacklisted_tokens; with_objects := upd blacklisted_tokens; row_clash := (fun a b => N.eqb (BlacklistedToken.token a) (BlacklistedToken.token b)) |}.
#[export] Instance laws_BlacklistedToken : ModelLaws BlacklistedToken.t.
Proof. model_laws. Qed.
#[export] Instance model_Permission : Model Permission.t :=
  {| objects := permissions; with_objects := upd permissions; row_clash := (fun a b => String.eqb (Permission.codename a) (Permission.codename b)) |}.
#[export] Instance laws_Permission : ModelLaws Permission.t.
Proof. model_laws. Qed.
#[export] Instance model_Role : Model Role.t :=
  {| objects := roles; with_objects := upd roles; row_clash := (fun a b => String.eqb (Role.slug a) (Role.slug b)) |}.
#[export] Instance laws_Role : ModelLaws Role.t.
Proof. model_laws. Qed.
#[export] Instance model_RolePermission : Model RolePermission.t :=
  {| objects := role_permissions; with_objects := upd role_permissions; row_clash := RolePermission.clash |}.
#[export] Instance laws_RolePermission : ModelLaws RolePermission.t.
Proof. model_laws. Qed.
#[export] Instance model_UserRole : Model UserRole.t :=
  {| objects := user_roles; with_objects := upd user_roles; row_clash := UserRole.clash |}.
#[export] Instance laws_UserRole : ModelLaws UserRole.t.
Proof. model_laws. Qed.
#[export] Instance model_UserPermissionOverride : Model UserPermissionOverride.t :=
  {| objects := permission_overrides; with_objects := upd permission_overrides; row_clash := UserPermissionOverride.clash |}.
#[export] Instance laws_UserPermissionOverride : ModelLaws UserPermissionOverride.t.
Proof. model_laws. Qed.
#[export] Instance model_SecurityEvent : Model SecurityEvent.t :=
  {| objects := security_events; with_objects := upd security_events; row_clash := no_clash |}.
#[export] Instance laws_SecurityEvent : ModelLaws SecurityEvent.t.
Proof. model_laws. Qed.
#[export] Instance model_LoginThrottleState : Model LoginThrottleState.t :=
  {| objects := throttle_states; with_objects := upd throttle_states; row_clash := (fun a b =>
       String.eqb (LoginThrottleState.dimension_hash a) (LoginThrottleState.dimension_hash b)) |}.
#[export] Instance laws_LoginThrottleState : ModelLaws LoginThrottleState.t.
Proof. model_laws. Qed.
#[export] Instance model_AuditLog : Model AuditLog.t :=
  {| objects := audit_logs; with_objects := upd audit_logs; row_clash := no_clash |}.
#[export] Instance laws_AuditLog : ModelLaws AuditLog.t.
Proof. model_laws. Qed.
#[export] Instance model_APIKey : Model APIKey.t :=
  {| objects := api_keys; with_objects := upd api_keys; row_clash := (fun a b => String.eqb (APIKey.prefix a) (APIKey.prefix b)) |}.
#[export] Instance laws_APIKey : ModelLaws APIKey.t.
Proof. model_laws. Qed.
#[export] Instance model_WebhookEndpoint : Model WebhookEndpoint.t :=
  {| objects := webhook_endpoints; with_objects := upd webhook_endpoints; row_clash := no_clash |}.
#[export] Instance laws_WebhookEndpoint : ModelLaws WebhookEndpoint.t.
Proof. model_laws. Qed.
#[export] Instance model_WebhookEvent : Model WebhookEvent.t :=
  {| objects := webhook_events; with_objects := upd webhook_events; row_clash := no_clash |}.
#[export] Instance laws_WebhookEvent : ModelLaws WebhookEvent.t.
Proof. model_laws. Qed.
#[export] Instance model_WebhookDelivery : Model WebhookDelivery.t :=
  {| objects := webhook_deliveries; with_objects := upd webhook_deliveries; row_clash := WebhookDelivery.clash |}.
#[export] Instance laws_WebhookDelivery : ModelLaws WebhookDelivery.t.
Proof. model_laws. Qed.
#[export] Instance model_Notification : Model Notification.t :=
  {| objects := notifications; with_objects := upd notifications; row_clash := no_clash |}.
#[export] Instance laws_Notification : ModelLaws Notification.t.
Proof. model_laws. Qed.
#[export] Instance model_StoredFile : Model StoredFile.t :=
  {| objects := stored_files; with_objects := upd stored_files; row_clash := no_clash |}.
#[export] Instance laws_StoredFile : ModelLaws StoredFile.t.
Proof. model_laws. Qed.
#[export] Instance model_IdempotencyRecord : Model IdempotencyRecord.t :=
  {| objects := idempotency_records; with_objects := upd idempotency_records; row_clash := IdempotencyRecord.clash |}.
#[export] Instance laws_IdempotencyRecord : ModelLaws IdempotencyRecord.t.
Proof. model_laws. Qed.
#[export] Instance model_Setting : Model Setting.t :=
  {| objects := settings_rows; with_objects := upd settings_rows; row_clash := (fun a b => String.eqb (Setting.key a) (Setting.key b)) |}.
#[export] Instance laws_Setting : ModelLaws Setting.t.
Proof. model_laws. Qed.
#[export] Instance model_FeatureFlag : Model FeatureFlag.t :=
  {| objects := feature_flags; with_objects := upd feature_flags; row_clash := (fun a b => String.eqb (FeatureFlag.key a) (FeatureFlag.key b)) |}.
#[export] Instance laws_FeatureFlag : ModelLaws FeatureFlag.t.
Proof. model_laws. Qed.
