(* ===== verification/Schema.v ===== *)
(** * The declared schema

    The columns, indexes and constraints the classes of [apps/*/models.py] and
    [common/models.py] declare, as data, and the row types of [Models] as
    implementations of them.  The fields a user inherits from
    [django.contrib.auth] are parameters.  Names shown to people, help texts and
    validators are left out. *)

From S2P Require Import Prelude Env Models.

(** ** Fields of Django *)

(** An application and a model of it, in lower case. *)
Definition Label : Type := (string * string)%type.

(** What becomes of a row when the row it refers to is deleted. *)
Inductive on_delete := CASCADE | SET_NULL | PROTECT.
#[export] Instance on_delete_eq_dec : EqDecision on_delete.
Proof. solve_decision. Defined.

(** The default of a column: a value, or a function that is called. *)
Inductive default_value :=
| DText (s : string) | DNumber (n : Z) | DFlag (b : bool) | DCall (function : string).
#[export] Instance default_value_eq_dec : EqDecision default_value.
Proof. solve_decision. Defined.

Module Field.
Inductive kind :=
| Boolean | Char | DateTime | Email | File | ForeignKey (to : Label) (rule : on_delete) | GenericIPAddress
| Image | JSON | ManyToMany (to : Label) (through : option Label) | OneToOne (to : Label) (rule : on_delete)
| PositiveBigInteger | PositiveInteger | PositiveSmallInteger | Slug | Text | URL | UUID.
#[global] Instance kind_eq_dec : EqDecision kind.
Proof. solve_decision. Defined.

Record t := mk {
  type : kind;
  max_length : option Z;
  null : bool;
  blank : bool;
  unique : bool;
  db_index : bool;
  primary_key : bool;
  editable : bool;
  auto_now : bool;
  auto_now_add : bool;
  default : option default_value;
  choices : list string;
  related_name : string;
  upload_to : string;
}.
#[global] Instance eta_t : Eta t := fun r =>
  mk r.(type) r.(max_length) r.(null) r.(blank) r.(unique) r.(db_index) r.(primary_key) r.(editable)
    r.(auto_now) r.(auto_now_add) r.(default) r.(choices) r.(related_name) r.(upload_to).
#[global] Instance t_eq_dec : EqDecision t.
Proof. solve_decision. Defined.

Definition plain (k : kind) : t := mk k None false false false false false true false false None [] "" "".

(** What the field refers to. *)
Definition target (f : t) : option Label :=
  match type f with
  | ForeignKey to _ | OneToOne to _ | ManyToMany to _ => Some to
  | _ => None
  end.

(** Whether the field is a column of the table of its model. *)
Definition concrete (f : t) : bool := match type f with ManyToMany _ _ => false | _ => true end.
End Field.

(** The keyword arguments of a field. *)
Definition option_of_field : Type := Field.t -> Field.t.
Definition max_length n : option_of_field := fun f => f <| Field.max_length := Some n |>.
Definition null : option_of_field := fun f => f <| Field.null := true |>.
Definition blank : option_of_field := fun f => f <| Field.blank := true |>.
Definition unique : option_of_field := fun f => f <| Field.unique := true |>.
Definition db_index : option_of_field := fun f => f <| Field.db_index := true |>.
Definition primary_key : option_of_field := fun f => f <| Field.primary_key := true |>.
Definition editable_no : option_of_field := fun f => f <| Field.editable := false |>.
(** Both set the column on a save; Django makes such a field blank and not
    editable. *)
Definition auto_now : option_of_field := fun f =>
  f <| Field.auto_now := true |> <| Field.editable := false |> <| Field.blank := true |>.
Definition auto_now_add : option_of_field := fun f =>
  f <| Field.auto_now_add := true |> <| Field.editable := false |> <| Field.blank := true |>.
Definition default_is v : option_of_field := fun f => f <| Field.default := Some v |>.
Definition choices l : option_of_field := fun f => f <| Field.choices := l |>.
Definition related_name s : option_of_field := fun f => f <| Field.related_name := s |>.
Definition upload_to s : option_of_field := fun f => f <| Field.upload_to := s |>.

Definition build (k : Field.kind) (options : list option_of_field) : Field.t :=
  fold_left (fun f o => o f) options (Field.plain k).
Definition BooleanField := build Field.Boolean.
Definition CharField := build Field.Char.
Definition DateTimeField := build Field.DateTime.
Definition EmailField options := build Field.Email (max_length 254 :: options).
Definition FileField options := build Field.File (max_length 100 :: options).
Definition ForeignKey to rule options := build (Field.ForeignKey to rule) (db_index :: options).
Definition GenericIPAddressField options := build Field.GenericIPAddress (max_length 39 :: options).
Definition ImageField options := build Field.Image (max_length 100 :: options).
Definition JSONField := build Field.JSON.
Definition ManyToManyField to through := build (Field.ManyToMany to through).
Definition OneToOneField to rule options := build (Field.OneToOne to rule) (unique :: db_index :: options).
Definition PositiveBigIntegerField := build Field.PositiveBigInteger.
Definition PositiveIntegerField := build Field.PositiveInteger.
Definition PositiveSmallIntegerField := build Field.PositiveSmallInteger.
Definition SlugField options := build Field.Slug (db_index :: options).
Definition TextField := build Field.Text.
Definition URLField options := build Field.URL (max_length 200 :: options).
Definition UUIDField options := build Field.UUID (max_length 32 :: options).

(** ** Constraints and models *)

Inductive expression := Col (column : string) | Lower (column : string).
#[export] Instance expression_eq_dec : EqDecision expression.
Proof. solve_decision. Defined.

(** [models.Q(c__isnull=True)], [models.Q(a__gt=models.F(b))] and their [|]. *)
Inductive condition := IsNull (column : string) | Greater (column other : string) | Or (p q : condition).
#[export] Instance condition_eq_dec : EqDecision condition.
Proof. solve_decision. Defined.

Inductive constraint := UniqueConstraint (on : list expression) | CheckConstraint (c : condition).
#[export] Instance constraint_eq_dec : EqDecision constraint.
Proof. solve_decision. Defined.

Definition fields_of : Type := list (string * Field.t).

(** A model class: the fields of its abstract bases, its own, its [Meta]. *)
Record Declaration := declare {
  label : Label;
  bases : fields_of;
  own : fields_of;
  ordering : list string;
  indexes : list (string * list string);
  constraints_of : list (string * constraint);
}.

Definition fields (d : Declaration) : fields_of := bases d ++ own d.

Definition find_field (d : Declaration) (name : string) : option Field.t :=
  snd <$> List.find (fun f => String.eqb f.1 name) (fields d).

(** [common/models.py] *)
Definition UUIDModel : fields_of :=
  [("id", UUIDField [primary_key; default_is (DCall "uuid.uuid4"); editable_no])].
Definition TimeStampedModel : fields_of :=
  [("created_at", DateTimeField [auto_now_add]); ("updated_at", DateTimeField [auto_now])].

Definition AUTH_USER_MODEL : Label := ("accounts", "user").

(** The fields of [AbstractBaseUser] and [PermissionsMixin]. *)
Class AuthModels := {
  abstract_base_user : fields_of;
  permissions_mixin : fields_of;
}.
Class AuthModelsLaws `{AuthModels} : Prop := {
  abstract_base_user_documented : abstract_base_user =
    [("password", CharField [max_length 128]); ("last_login", DateTimeField [blank; null])];
  permissions_mixin_documented : permissions_mixin =
    [("is_superuser", BooleanField [default_is (DFlag false)]);
     ("groups", ManyToManyField ("auth", "group") None [blank; related_name "user_set"]);
     ("user_permissions", ManyToManyField ("auth", "permission") None [blank; related_name "user_set"])];
}.

(** The members of the enumerations, in the order of [choices]. *)
Definition AccountStatus_members : list AccountStatus.t :=
  [AccountStatus.ACTIVE; AccountStatus.PENDING; AccountStatus.SUSPENDED; AccountStatus.BANNED;
   AccountStatus.DEACTIVATED; AccountStatus.DELETED].
Definition TokenPurpose_members : list TokenPurpose.t :=
  [TokenPurpose.EMAIL_VERIFICATION; TokenPurpose.PASSWORD_RESET; TokenPurpose.EMAIL_CHANGE;
   TokenPurpose.ACCOUNT_DELETION].
Definition OverrideEffect_members : list OverrideEffect.t :=
  [OverrideEffect.ALLOW; OverrideEffect.DENY].
Definition SecurityEventType_members : list SecurityEventType.t :=
  [SecurityEventType.LOGIN_SUCCESS; SecurityEventType.LOGIN_FAILED; SecurityEventType.NEW_DEVICE_LOGIN;
   SecurityEventType.PASSWORD_CHANGED; SecurityEventType.PASSWORD_RESET; SecurityEventType.EMAIL_CHANGED;
   SecurityEventType.TWO_FACTOR_ENABLED; SecurityEventType.TWO_FACTOR_DISABLED;
   SecurityEventType.RECOVERY_CODE_USED; SecurityEventType.SESSION_REVOKED; SecurityEventType.ACCOUNT_LOCKED;
   SecurityEventType.ACCOUNT_UNLOCKED; SecurityEventType.ACCOUNT_DEACTIVATED;
   SecurityEventType.ACCOUNT_DELETED; SecurityEventType.API_KEY_CREATED; SecurityEventType.API_KEY_REVOKED].
Definition DeliveryStatus_members : list DeliveryStatus.t :=
  [DeliveryStatus.PENDING; DeliveryStatus.PROCESSING; DeliveryStatus.SUCCEEDED; DeliveryStatus.FAILED;
   DeliveryStatus.ABANDONED].
Definition FileStatus_members : list FileStatus.t :=
  [FileStatus.PENDING; FileStatus.READY; FileStatus.QUARANTINED; FileStatus.REJECTED].
Definition SettingValueType_members : list SettingValueType.t :=
  [SettingValueType.STRING; SettingValueType.INTEGER; SettingValueType.BOOLEAN; SettingValueType.JSON].

(** ** The declarations *)

Section declarations.
Context `{AuthModels}.

(** [apps/accounts/models.py] *)

Definition User_model : Declaration := {|
  label := ("accounts", "user");
  bases := UUIDModel ++ abstract_base_user ++ permissions_mixin;
  own :=
    [("email", EmailField [max_length 254; unique]);
     ("username", CharField [max_length 150; unique]);
     ("first_name", CharField [max_length 150; blank]);
     ("last_name", CharField [max_length 150; blank]);
     ("avatar", ImageField [upload_to "avatar_upload_to"; blank]);
     ("phone", CharField [max_length 32; blank]);
     ("status", CharField [max_length 24; choices (AccountStatus.value <$> AccountStatus_members); default_is
         (DText (AccountStatus.value AccountStatus.PENDING)); db_index]);
     ("email_verified_at", DateTimeField [null; blank]);
     ("phone_verified_at", DateTimeField [null; blank]);
     ("is_active", BooleanField [default_is (DFlag true)]);
     ("is_staff", BooleanField [default_is (DFlag false)]);
     ("date_joined", DateTimeField [default_is (DCall "timezone.now")]);
     ("last_login_ip", GenericIPAddressField [null; blank]);
     ("created_at", DateTimeField [auto_now_add]);
     ("updated_at", DateTimeField [auto_now])];
  ordering := ["-created_at"];
  indexes := [("acct_user_status_created_idx", ["status"; "created_at"])];
  constraints_of := [("accounts_user_email_ci_unique", UniqueConstraint [Lower "email"]);
                     ("accounts_user_username_ci_unique", UniqueConstraint [Lower "username"])];
|}.

Definition UserProfile_model : Declaration := {|
  label := ("accounts", "userprofile");
  bases := UUIDModel ++ TimeStampedModel;
  own :=
    [("user", OneToOneField AUTH_USER_MODEL CASCADE [related_name "profile"]);
     ("bio", TextField [blank; max_length 2000]);
     ("website", URLField [blank]);
     ("location", CharField [max_length 255; blank])];
  ordering := [];
  indexes := [];
  constraints_of := [];
|}.

Definition UserPreferences_model : Declaration := {|
  label := ("accounts", "userpreferences");
  bases := UUIDModel ++ TimeStampedModel;
  own :=
    [("user", OneToOneField AUTH_USER_MODEL CASCADE [related_name "preferences"]);
     ("language", CharField [max_length 10; default_is (DText "en")]);
     ("timezone", CharField [max_length 64; default_is (DText "UTC")]);
     ("email_notifications", BooleanField [default_is (DFlag true)]);
     ("security_emails", BooleanField [default_is (DFlag true)])];
  ordering := [];
  indexes := [];
  constraints_of := [];
|}.

Definition UserSecuritySettings_model : Declaration := {|
  label := ("accounts", "usersecuritysettings");
  bases := UUIDModel ++ TimeStampedModel;
  own :=
    [("user", OneToOneField AUTH_USER_MODEL CASCADE [related_name "security_settings"]);
     ("password_changed_at", DateTimeField [null; blank]);
     ("locked_until", DateTimeField [null; blank; db_index]);
     ("notify_new_device", BooleanField [default_is (DFlag true)])];
  ordering := [];
  indexes := [];
  constraints_of := [];
|}.

Definition UserBan_model : Declaration := {|
  label := ("accounts", "userban");
  bases := UUIDModel;
  own :=
    [("user", ForeignKey AUTH_USER_MODEL CASCADE [related_name "bans"]);
     ("reason", TextField []);
     ("banned_by", ForeignKey AUTH_USER_MODEL SET_NULL [null; blank; related_name "issued_bans"]);
     ("starts_at", DateTimeField [default_is (DCall "timezone.now")]);
     ("expires_at", DateTimeField [null; blank; db_index]);
     ("created_at", DateTimeField [auto_now_add]);
     ("revoked_at", DateTimeField [null; blank])];
  ordering := ["-created_at"];
  indexes := [("acct_ban_active_idx", ["user"; "revoked_at"; "expires_at"])];
  constraints_of := [("acct_ban_expiry_after_start",
    CheckConstraint (Or (IsNull "expires_at") (Greater "expires_at" "starts_at")))];
|}.

(** [apps/authentication/models.py] *)

Definition OneTimeToken_model : Declaration := {|
  label := ("authentication", "onetimetoken");
  bases := UUIDModel;
  own :=
    [("user", ForeignKey AUTH_USER_MODEL CASCADE [related_name "one_time_tokens"]);
     ("purpose", CharField [max_length 32; choices (TokenPurpose.value <$> TokenPurpose_members)]);
     ("token_hash", CharField [max_length 64; unique]);
     ("metadata", JSONField [default_is (DCall "dict"); blank]);
     ("created_at", DateTimeField [auto_now_add]);
     ("expires_at", DateTimeField [db_index]);
     ("used_at", DateTimeField [null; blank])];
  ordering := [];
  indexes := [("auth_token_user_purpose_idx", ["user"; "purpose"; "used_at"])];
  constraints_of := [];
|}.

Definition UserSession_model : Declaration := {|
  label := ("authentication", "usersession");
  bases := UUIDModel;
  own :=
    [("user", ForeignKey AUTH_USER_MODEL CASCADE [related_name "user_sessions"]);
     ("identifier", CharField [max_length 32; unique; editable_no]);
     ("session_key_hash", CharField [max_length 64; unique; editable_no]);
     ("encrypted_session_key", TextField [editable_no]);
     ("ip_address", GenericIPAddressField [null; blank]);
     ("user_agent", TextField [blank]);
     ("browser", CharField [max_length 100; blank]);
     ("operating_system", CharField [max_length 100; blank]);
     ("device", CharField [max_length 100; blank]);
     ("location", CharField [max_length 255; blank]);
     ("created_at", DateTimeField [auto_now_add]);
     ("last_activity_at", DateTimeField [auto_now; db_index]);
     ("revoked_at", DateTimeField [null; blank; db_index])];
  ordering := ["-last_activity_at"];
  indexes := [("auth_session_active_idx", ["user"; "revoked_at"; "last_activity_at"])];
  constraints_of := [];
|}.

Definition TwoFactorCredential_model : Declaration := {|
  label := ("authentication", "twofactorcredential");
  bases := UUIDModel;
  own :=
    [("user", OneToOneField AUTH_USER_MODEL CASCADE [related_name "two_factor"]);
     ("encrypted_secret", TextField [editable_no]);
     ("created_at", DateTimeField [auto_now_add]);
     ("confirmed_at", DateTimeField [null; blank]);
     ("disabled_at", DateTimeField [null; blank])];
  ordering := [];
  indexes := [];
  constraints_of := [];
|}.

Definition RecoveryCode_model : Declaration := {|
  label := ("authentication", "recoverycode");
  bases := UUIDModel;
  own :=
    [("credential", ForeignKey ("authentication", "twofactorcredential") CASCADE [related_name "recovery_codes"]);
     ("code_hash", CharField [max_length 64; editable_no]);
     ("created_at", DateTimeField [auto_now_add]);
     ("used_at", DateTimeField [null; blank])];
  ordering := [];
  indexes := [];
  constraints_of := [("auth_recovery_code_unique", UniqueConstraint [Col "credential"; Col "code_hash"])];
|}.

(** [apps/authorization/models.py] *)

Definition Permission_model : Declaration := {|
  label := ("authorization", "permission");
  bases := UUIDModel ++ TimeStampedModel;
  own :=
    [("codename", CharField [max_length 150; unique]);
     ("description", CharField [max_length 255; blank]);
     ("is_system", BooleanField [default_is (DFlag false)])];
  ordering := ["codename"];
  indexes := [];
  constraints_of := [];
|}.

Definition Role_model : Declaration := {|
  label := ("authorization", "role");
  bases := UUIDModel ++ TimeStampedModel;
  own :=
    [("name", CharField [max_length 100]);
     ("slug", SlugField [max_length 100; unique]);
     ("description", TextField [blank]);
     ("priority", PositiveSmallIntegerField [default_is (DNumber 0); db_index]);
     ("is_system", BooleanField [default_is (DFlag false)]);
     ("permissions", ManyToManyField ("authorization", "permission") (Some ("authorization", "rolepermission"))
         [related_name "roles"])];
  ordering := ["-priority"; "name"];
  indexes := [];
  constraints_of := [];
|}.

Definition RolePermission_model : Declaration := {|
  label := ("authorization", "rolepermission");
  bases := UUIDModel;
  own :=
    [("role", ForeignKey ("authorization", "role") CASCADE [related_name "permission_links"]);
     ("permission", ForeignKey ("authorization", "permission") CASCADE [related_name "role_links"]);
     ("created_at", DateTimeField [auto_now_add])];
  ordering := [];
  indexes := [];
  constraints_of := [("authz_role_permission_unique", UniqueConstraint [Col "role"; Col "permission"])];
|}.

Definition UserRole_model : Declaration := {|
  label := ("authorization", "userrole");
  bases := UUIDModel;
  own :=
    [("user", ForeignKey AUTH_USER_MODEL CASCADE [related_name "role_assignments"]);
     ("role", ForeignKey ("authorization", "role") PROTECT [related_name "user_assignments"]);
     ("granted_by", ForeignKey AUTH_USER_MODEL SET_NULL [null; blank; related_name "granted_role_assignments"]);
     ("valid_from", DateTimeField [default_is (DCall "timezone.now")]);
     ("valid_until", DateTimeField [null; blank; db_index]);
     ("created_at", DateTimeField [auto_now_add])];
  ordering := [];
  indexes := [("authz_user_role_valid_idx", ["user"; "valid_from"; "valid_until"])];
  constraints_of := [("authz_user_role_unique", UniqueConstraint [Col "user"; Col "role"])];
|}.

Definition UserPermissionOverride_model : Declaration := {|
  label := ("authorization", "userpermissionoverride");
  bases := UUIDModel ++ TimeStampedModel;
  own :=
    [("user", ForeignKey AUTH_USER_MODEL CASCADE [related_name "permission_overrides"]);
     ("permission", ForeignKey ("authorization", "permission") CASCADE [related_name "user_overrides"]);
     ("effect", CharField [max_length 8; choices (OverrideEffect.value <$> OverrideEffect_members)]);
     ("reason", CharField [max_length 255; blank]);
     ("granted_by", ForeignKey AUTH_USER_MODEL SET_NULL [null; blank; related_name
         "granted_permission_overrides"])];
  ordering := [];
  indexes := [("authz_user_override_idx", ["user"; "effect"])];
  constraints_of := [("authz_user_permission_unique", UniqueConstraint [Col "user"; Col "permission"])];
|}.

(** [apps/security/models.py] *)

Definition SecurityEvent_model : Declaration := {|
  label := ("security", "securityevent");
  bases := UUIDModel;
  own :=
    [("user", ForeignKey AUTH_USER_MODEL SET_NULL [null; blank; related_name "security_events"]);
     ("event_type", CharField [max_length 40; choices (SecurityEventType.value <$> SecurityEventType_members);
         db_index]);
     ("ip_address", GenericIPAddressField [null; blank]);
     ("user_agent", TextField [blank]);
     ("request_id", CharField [max_length 64; blank; db_index]);
     ("metadata", JSONField [default_is (DCall "dict"); blank]);
     ("created_at", DateTimeField [auto_now_add; db_index])];
  ordering := ["-created_at"];
  indexes := [("security_event_user_time_idx", ["user"; "created_at"])];
  constraints_of := [];
|}.

Definition LoginThrottleState_model : Declaration := {|
  label := ("security", "loginthrottlestate");
  bases := UUIDModel;
  own :=
    [("dimension_hash", CharField [max_length 64; unique]);
     ("attempt_count", PositiveIntegerField [default_is (DNumber 0)]);
     ("locked_until", DateTimeField [null; blank; db_index]);
     ("expires_at", DateTimeField [db_index]);
     ("updated_at", DateTimeField [auto_now])];
  ordering := ["-updated_at"];
  indexes := [];
  constraints_of := [];
|}.

(** [apps/audit/models.py] *)

Definition AuditLog_model : Declaration := {|
  label := ("audit", "auditlog");
  bases := UUIDModel;
  own :=
    [("actor", ForeignKey AUTH_USER_MODEL SET_NULL [null; blank; related_name "audit_actions"]);
     ("action", CharField [max_length 100; db_index]);
     ("target_type", CharField [max_length 100; db_index]);
     ("target_id", CharField [max_length 100; blank]);
     ("target_repr", CharField [max_length 255; blank]);
     ("before", JSONField [default_is (DCall "dict"); blank]);
     ("after", JSONField [default_is (DCall "dict"); blank]);
     ("metadata", JSONField [default_is (DCall "dict"); blank]);
     ("request_id", CharField [max_length 64; blank; db_index]);
     ("ip_address", GenericIPAddressField [null; blank]);
     ("user_agent", TextField [blank]);
     ("created_at", DateTimeField [auto_now_add; db_index])];
  ordering := ["-created_at"];
  indexes := [("audit_target_idx", ["target_type"; "target_id"])];
  constraints_of := [];
|}.

(** [apps/api_keys/models.py] *)

Definition APIKey_model : Declaration := {|
  label := ("api_keys", "apikey");
  bases := UUIDModel;
  own :=
    [("owner", ForeignKey AUTH_USER_MODEL CASCADE [related_name "api_keys"]);
     ("name", CharField [max_length 100]);
     ("prefix", CharField [max_length 16; unique; db_index]);
     ("key_hash", CharField [max_length 64; editable_no]);
     ("scopes", JSONField [default_is (DCall "list")]);
     ("created_at", DateTimeField [auto_now_add]);
     ("last_used_at", DateTimeField [null; blank]);
     ("last_used_ip", GenericIPAddressField [null; blank]);
     ("expires_at", DateTimeField [null; blank; db_index]);
     ("revoked_at", DateTimeField [null; blank; db_index])];
  ordering := ["-created_at"];
  indexes := [("api_key_owner_active_idx", ["owner"; "revoked_at"; "expires_at"])];
  constraints_of := [];
|}.

(** [apps/webhooks/models.py] *)

Definition WebhookEndpoint_model : Declaration := {|
  label := ("webhooks", "webhookendpoint");
  bases := UUIDModel ++ TimeStampedModel;
  own :=
    [("owner", ForeignKey AUTH_USER_MODEL CASCADE [null; blank; related_name "webhook_endpoints"]);
     ("name", CharField [max_length 100]);
     ("url", URLField [max_length 500]);
     ("event_types", JSONField [default_is (DCall "list")]);
     ("secret_hash", CharField [max_length 64; editable_no]);
     ("encrypted_secret", TextField [editable_no]);
     ("is_active", BooleanField [default_is (DFlag true); db_index])];
  ordering := [];
  indexes := [];
  constraints_of := [];
|}.

Definition WebhookEvent_model : Declaration := {|
  label := ("webhooks", "webhookevent");
  bases := UUIDModel;
  own :=
    [("event_type", CharField [max_length 150; db_index]);
     ("payload", JSONField []);
     ("created_at", DateTimeField [auto_now_add; db_index])];
  ordering := [];
  indexes := [];
  constraints_of := [];
|}.

Definition WebhookDelivery_model : Declaration := {|
  label := ("webhooks", "webhookdelivery");
  bases := UUIDModel;
  own :=
    [("endpoint", ForeignKey ("webhooks", "webhookendpoint") CASCADE [related_name "deliveries"]);
     ("event", ForeignKey ("webhooks", "webhookevent") CASCADE [related_name "deliveries"]);
     ("status", CharField [max_length 16; choices (DeliveryStatus.value <$> DeliveryStatus_members); default_is
         (DText (DeliveryStatus.value DeliveryStatus.PENDING)); db_index]);
     ("attempt_count", PositiveSmallIntegerField [default_is (DNumber 0)]);
     ("response_code", PositiveSmallIntegerField [null; blank]);
     ("response_body", TextField [blank]);
     ("last_attempt_at", DateTimeField [null; blank]);
     ("next_retry_at", DateTimeField [null; blank; db_index]);
     ("created_at", DateTimeField [auto_now_add])];
  ordering := [];
  indexes := [("webhook_pending_retry_idx", ["status"; "next_retry_at"])];
  constraints_of := [("webhook_endpoint_event_unique", UniqueConstraint [Col "endpoint"; Col "event"])];
|}.

(** [apps/notifications/models.py] *)

Definition Notification_model : Declaration := {|
  label := ("notifications", "notification");
  bases := UUIDModel;
  own :=
    [("user", ForeignKey AUTH_USER_MODEL CASCADE [related_name "notifications"]);
     ("type", CharField [max_length 100; db_index]);
     ("title", CharField [max_length 255]);
     ("message", TextField []);
     ("data", JSONField [default_is (DCall "dict"); blank]);
     ("read_at", DateTimeField [null; blank; db_index]);
     ("created_at", DateTimeField [auto_now_add; db_index]);
     ("expires_at", DateTimeField [null; blank; db_index])];
  ordering := ["-created_at"];
  indexes := [("notification_user_unread_idx", ["user"; "read_at"; "created_at"])];
  constraints_of := [];
|}.

(** [apps/files/models.py] *)

Definition StoredFile_model : Declaration := {|
  label := ("files", "storedfile");
  bases := UUIDModel;
  own :=
    [("owner", ForeignKey AUTH_USER_MODEL SET_NULL [null; blank; related_name "stored_files"]);
     ("file", FileField [upload_to "secure_upload_path"; max_length 500]);
     ("original_name", CharField [max_length 255]);
     ("content_type", CharField [max_length 150]);
     ("size", PositiveBigIntegerField []);
     ("checksum_sha256", CharField [max_length 64; db_index]);
     ("status", CharField [max_length 16; choices (FileStatus.value <$> FileStatus_members); default_is (DText
         (FileStatus.value FileStatus.PENDING)); db_index]);
     ("metadata", JSONField [default_is (DCall "dict"); blank]);
     ("created_at", DateTimeField [auto_now_add; db_index]);
     ("last_accessed_at", DateTimeField [null; blank]);
     ("deleted_at", DateTimeField [null; blank; db_index])];
  ordering := [];
  indexes := [("file_owner_status_idx", ["owner"; "status"; "created_at"])];
  constraints_of := [];
|}.

(** [apps/core/models.py] *)

Definition Setting_model : Declaration := {|
  label := ("core", "setting");
  bases := UUIDModel ++ TimeStampedModel;
  own :=
    [("key", CharField [max_length 150; unique]);
     ("value", JSONField []);
     ("value_type", CharField [max_length 16; choices (SettingValueType.value <$> SettingValueType_members);
         default_is (DText (SettingValueType.value SettingValueType.STRING))]);
     ("group", CharField [max_length 64; default_is (DText "general"); db_index]);
     ("is_public", BooleanField [default_is (DFlag false)]);
     ("description", TextField [blank])];
  ordering := [];
  indexes := [];
  constraints_of := [];
|}.

Definition FeatureFlag_model : Declaration := {|
  label := ("core", "featureflag");
  bases := UUIDModel ++ TimeStampedModel;
  own :=
    [("key", CharField [max_length 150; unique]);
     ("enabled", BooleanField [default_is (DFlag false); db_index]);
     ("description", TextField [blank])];
  ordering := [];
  indexes := [];
  constraints_of := [];
|}.

Definition IdempotencyRecord_model : Declaration := {|
  label := ("core", "idempotencyrecord");
  bases := UUIDModel;
  own :=
    [("user", ForeignKey AUTH_USER_MODEL CASCADE [null; blank; related_name "idempotency_records"]);
     ("key_hash", CharField [max_length 64]);
     ("request_method", CharField [max_length 8]);
     ("request_path", CharField [max_length 500]);
     ("request_hash", CharField [max_length 64]);
     ("response_status", PositiveSmallIntegerField [null; blank]);
     ("response_body", JSONField [null; blank]);
     ("created_at", DateTimeField [auto_now_add]);
     ("expires_at", DateTimeField [db_index])];
  ordering := [];
  indexes := [("core_idempotency_expiry_idx", ["expires_at"])];
  constraints_of := [("core_idempotency_user_key_unique", UniqueConstraint [Col "user"; Col "key_hash"])];
|}.

(** Every model of the repository. *)
Definition declarations : list Declaration :=
  [User_model; UserProfile_model; UserPreferences_model; UserSecuritySettings_model;
   UserBan_model; OneTimeToken_model; UserSession_model; TwoFactorCredential_model;
   RecoveryCode_model; Permission_model; Role_model; RolePermission_model;
   UserRole_model; UserPermissionOverride_model; SecurityEvent_model; LoginThrottleState_model;
   AuditLog_model; APIKey_model; WebhookEndpoint_model; WebhookEvent_model;
   WebhookDelivery_model; Notification_model; StoredFile_model; Setting_model;
   FeatureFlag_model; IdempotencyRecord_model].

End declarations.

(** ** Rows as columns *)

Definition nullable {A} (f : A -> pyval) (x : option A) : pyval := match x with Some a => f a | None => PNone end.

(** The columns a row type has, with their values. *)
Definition User_columns : list (string * (User.t -> pyval)) :=
  [("email", fun r => PStr (User.email r));
   ("username", fun r => PStr (User.username r));
   ("first_name", fun r => PStr (User.first_name r));
   ("last_name", fun r => PStr (User.last_name r));
   ("avatar", fun r => PStr (User.avatar r));
   ("phone", fun r => PStr (User.phone r));
   ("status", fun r => PStr (AccountStatus.value (User.status r)));
   ("email_verified_at", fun r => nullable PDatetime (User.email_verified_at r));
   ("phone_verified_at", fun r => nullable PDatetime (User.phone_verified_at r));
   ("is_active", fun r => PBool (User.is_active r));
   ("is_staff", fun r => PBool (User.is_staff r));
   ("is_superuser", fun r => PBool (User.is_superuser r));
   ("password", fun r => PStr (User.password r));
   ("date_joined", fun r => PDatetime (User.date_joined r));
   ("last_login", fun r => nullable PDatetime (User.last_login r));
   ("last_login_ip", fun r => nullable PStr (User.last_login_ip r));
   ("created_at", fun r => PDatetime (User.created_at r));
   ("updated_at", fun r => PDatetime (User.updated_at r))].
Definition UserProfile_columns : list (string * (UserProfile.t -> pyval)) :=
  [("user", fun r => PUUID (UserProfile.user r));
   ("bio", fun r => PStr (UserProfile.bio r));
   ("website", fun r => PStr (UserProfile.website r));
   ("location", fun r => PStr (UserProfile.location r));
   ("created_at", fun r => PDatetime (UserProfile.created_at r));
   ("updated_at", fun r => PDatetime (UserProfile.updated_at r))].
Definition UserPreferences_columns : list (string * (UserPreferences.t -> pyval)) :=
  [("user", fun r => PUUID (UserPreferences.user r));
   ("language", fun r => PStr (UserPreferences.language r));
   ("timezone", fun r => PStr (UserPreferences.timezone r));
   ("email_notifications", fun r => PBool (UserPreferences.email_notifications r));
   ("security_emails", fun r => PBool (UserPreferences.security_emails r));
   ("created_at", fun r => PDatetime (UserPreferences.created_at r));
   ("updated_at", fun r => PDatetime (UserPreferences.updated_at r))].
Definition UserSecuritySettings_columns : list (string * (UserSecuritySettings.t -> pyval)) :=
  [("user", fun r => PUUID (UserSecuritySettings.user r));
   ("password_changed_at", fun r => nullable PDatetime (UserSecuritySettings.password_changed_at r));
   ("locked_until", fun r => nullable PDatetime (UserSecuritySettings.locked_until r));
   ("notify_new_device", fun r => PBool (UserSecuritySettings.notify_new_device r));
   ("created_at", fun r => PDatetime (UserSecuritySettings.created_at r));
   ("updated_at", fun r => PDatetime (UserSecuritySettings.updated_at r))].
Definition UserBan_columns : list (string * (UserBan.t -> pyval)) :=
  [("user", fun r => PUUID (UserBan.user r));
   ("reason", fun r => PStr (UserBan.reason r));
   ("banned_by", fun r => nullable PUUID (UserBan.banned_by r));
   ("starts_at", fun r => PDatetime (UserBan.starts_at r));
   ("expires_at", fun r => nullable PDatetime (UserBan.expires_at r));
   ("created_at", fun r => PDatetime (UserBan.created_at r));
   ("revoked_at", fun r => nullable PDatetime (UserBan.revoked_at r))].
Definition OneTimeToken_columns : list (string * (OneTimeToken.t -> pyval)) :=
  [("user", fun r => PUUID (OneTimeToken.user r));
   ("purpose", fun r => PStr (TokenPurpose.value (OneTimeToken.purpose r)));
   ("token_hash", fun r => PStr (OneTimeToken.token_hash r));
   ("metadata", fun r => PDict (prod_map id PStr <$> OneTimeToken.metadata r));
   ("created_at", fun r => PDatetime (OneTimeToken.created_at r));
   ("expires_at", fun r => PDatetime (OneTimeToken.expires_at r));
   ("used_at", fun r => nullable PDatetime (OneTimeToken.used_at r))].
Definition UserSession_columns : list (string * (UserSession.t -> pyval)) :=
  [("user", fun r => PUUID (UserSession.user r));
   ("identifier", fun r => PStr (UserSession.identifier r));
   ("session_key_hash", fun r => PStr (UserSession.session_key_hash r));
   ("encrypted_session_key", fun r => PStr (UserSession.encrypted_session_key r));
   ("ip_address", fun r => nullable PStr (UserSession.ip_address r));
   ("user_agent", fun r => PStr (UserSession.user_agent r));
   ("browser", fun r => PStr (UserSession.browser r));
   ("operating_system", fun r => PStr (UserSession.operating_system r));
   ("device", fun r => PStr (UserSession.device r));
   ("created_at", fun r => PDatetime (UserSession.created_at r));
   ("last_activity_at", fun r => PDatetime (UserSession.last_activity_at r));
   ("revoked_at", fun r => nullable PDatetime (UserSession.revoked_at r))].
Definition TwoFactorCredential_columns : list (string * (TwoFactorCredential.t -> pyval)) :=
  [("user", fun r => PUUID (TwoFactorCredential.user r));
   ("encrypted_secret", fun r => PStr (TwoFactorCredential.encrypted_secret r));
   ("created_at", fun r => PDatetime (TwoFactorCredential.created_at r));
   ("confirmed_at", fun r => nullable PDatetime (TwoFactorCredential.confirmed_at r));
   ("disabled_at", fun r => nullable PDatetime (TwoFactorCredential.disabled_at r))].
Definition RecoveryCode_columns : list (string * (RecoveryCode.t -> pyval)) :=
  [("credential", fun r => PUUID (RecoveryCode.credential r));
   ("code_hash", fun r => PStr (RecoveryCode.code_hash r));
   ("created_at", fun r => PDatetime (RecoveryCode.created_at r));
   ("used_at", fun r => nullable PDatetime (RecoveryCode.used_at r))].
Definition Permission_columns : list (string * (Permission.t -> pyval)) :=
  [("codename", fun r => PStr (Permission.codename r));
   ("description", fun r => PStr (Permission.description r));
   ("is_system", fun r => PBool (Permission.is_system r));
   ("created_at", fun r => PDatetime (Permission.created_at r));
   ("updated_at", fun r => PDatetime (Permission.updated_at r))].
Definition Role_columns : list (string * (Role.t -> pyval)) :=
  [("name", fun r => PStr (Role.name r));
   ("slug", fun r => PStr (Role.slug r));
   ("description", fun r => PStr (Role.description r));
   ("priority", fun r => PInt (Role.priority r));
   ("is_system", fun r => PBool (Role.is_system r));
   ("created_at", fun r => PDatetime (Role.created_at r));
   ("updated_at", fun r => PDatetime (Role.updated_at r))].
Definition RolePermission_columns : list (string * (RolePermission.t -> pyval)) :=
  [("role", fun r => PUUID (RolePermission.role r));
   ("permission", fun r => PUUID (RolePermission.permission r));
   ("created_at", fun r => PDatetime (RolePermission.created_at r))].
Definition UserRole_columns : list (string * (UserRole.t -> pyval)) :=
  [("user", fun r => PUUID (UserRole.user r));
   ("role", fun r => PUUID (UserRole.role r));
   ("granted_by", fun r => nullable PUUID (UserRole.granted_by r));
   ("valid_from", fun r => PDatetime (UserRole.valid_from r));
   ("valid_until", fun r => nullable PDatetime (UserRole.valid_until r));
   ("created_at", fun r => PDatetime (UserRole.created_at r))].
Definition UserPermissionOverride_columns : list (string * (UserPermissionOverride.t -> pyval)) :=
  [("user", fun r => PUUID (UserPermissionOverride.user r));
   ("permission", fun r => PUUID (UserPermissionOverride.permission r));
   ("effect", fun r => PStr (OverrideEffect.value (UserPermissionOverride.effect r)));
   ("reason", fun r => PStr (UserPermissionOverride.reason r));
   ("granted_by", fun r => nullable PUUID (UserPermissionOverride.granted_by r));
   ("created_at", fun r => PDatetime (UserPermissionOverride.created_at r));
   ("updated_at", fun r => PDatetime (UserPermissionOverride.updated_at r))].
Definition SecurityEvent_columns : list (string * (SecurityEvent.t -> pyval)) :=
  [("user", fun r => nullable PUUID (SecurityEvent.user r));
   ("event_type", fun r => PStr (SecurityEventType.value (SecurityEvent.event_type r)));
   ("ip_address", fun r => nullable PStr (SecurityEvent.ip_address r));
   ("user_agent", fun r => PStr (SecurityEvent.user_agent r));
   ("request_id", fun r => PStr (SecurityEvent.request_id r));
   ("metadata", fun r => PDict (SecurityEvent.metadata r));
   ("created_at", fun r => PDatetime (SecurityEvent.created_at r))].
Definition LoginThrottleState_columns : list (string * (LoginThrottleState.t -> pyval)) :=
  [("dimension_hash", fun r => PStr (LoginThrottleState.dimension_hash r));
   ("attempt_count", fun r => PInt (LoginThrottleState.attempt_count r));
   ("locked_until", fun r => nullable PDatetime (LoginThrottleState.locked_until r));
   ("expires_at", fun r => PDatetime (LoginThrottleState.expires_at r));
   ("updated_at", fun r => PDatetime (LoginThrottleState.updated_at r))].
Definition AuditLog_columns : list (string * (AuditLog.t -> pyval)) :=
  [("actor", fun r => nullable PUUID (AuditLog.actor r));
   ("action", fun r => PStr (AuditLog.action r));
   ("target_type", fun r => PStr (AuditLog.target_type r));
   ("target_id", fun r => PStr (AuditLog.target_id r));
   ("target_repr", fun r => PStr (AuditLog.target_repr r));
   ("before", fun r => AuditLog.before r);
   ("after", fun r => AuditLog.after r);
   ("metadata", fun r => AuditLog.metadata r);
   ("request_id", fun r => PStr (AuditLog.request_id r));
   ("ip_address", fun r => nullable PStr (AuditLog.ip_address r));
   ("user_agent", fun r => PStr (AuditLog.user_agent r));
   ("created_at", fun r => PDatetime (AuditLog.created_at r))].
Definition APIKey_columns : list (string * (APIKey.t -> pyval)) :=
  [("owner", fun r => PUUID (APIKey.owner r));
   ("name", fun r => PStr (APIKey.name r));
   ("prefix", fun r => PStr (APIKey.prefix r));
   ("key_hash", fun r => PStr (APIKey.key_hash r));
   ("scopes", fun r => PList (PStr <$> APIKey.scopes r));
   ("created_at", fun r => PDatetime (APIKey.created_at r));
   ("last_used_at", fun r => nullable PDatetime (APIKey.last_used_at r));
   ("last_used_ip", fun r => nullable PStr (APIKey.last_used_ip r));
   ("expires_at", fun r => nullable PDatetime (APIKey.expires_at r));
   ("revoked_at", fun r => nullable PDatetime (APIKey.revoked_at r))].
Definition WebhookEndpoint_columns : list (string * (WebhookEndpoint.t -> pyval)) :=
  [("owner", fun r => nullable PUUID (WebhookEndpoint.owner r));
   ("name", fun r => PStr (WebhookEndpoint.name r));
   ("url", fun r => PStr (WebhookEndpoint.url r));
   ("event_types", fun r => PList (PStr <$> WebhookEndpoint.event_types r));
   ("secret_hash", fun r => PStr (WebhookEndpoint.secret_hash r));
   ("encrypted_secret", fun r => PStr (WebhookEndpoint.encrypted_secret r));
   ("is_active", fun r => PBool (WebhookEndpoint.is_active r));
   ("created_at", fun r => PDatetime (WebhookEndpoint.created_at r));
   ("updated_at", fun r => PDatetime (WebhookEndpoint.updated_at r))].
Definition WebhookEvent_columns : list (string * (WebhookEvent.t -> pyval)) :=
  [("event_type", fun r => PStr (WebhookEvent.event_type r));
   ("payload", fun r => WebhookEvent.payload r);
   ("created_at", fun r => PDatetime (WebhookEvent.created_at r))].
Definition WebhookDelivery_columns : list (string * (WebhookDelivery.t -> pyval)) :=
  [("endpoint", fun r => PUUID (WebhookDelivery.endpoint r));
   ("event", fun r => PUUID (WebhookDelivery.event r));
   ("status", fun r => PStr (DeliveryStatus.value (WebhookDelivery.status r)));
   ("attempt_count", fun r => PInt (WebhookDelivery.attempt_count r));
   ("response_code", fun r => nullable PInt (WebhookDelivery.response_code r));
   ("response_body", fun r => PStr (WebhookDelivery.response_body r));
   ("last_attempt_at", fun r => nullable PDatetime (WebhookDelivery.last_attempt_at r));
   ("next_retry_at", fun r => nullable PDatetime (WebhookDelivery.next_retry_at r));
   ("created_at", fun r => PDatetime (WebhookDelivery.created_at r))].
Definition Notification_columns : list (string * (Notification.t -> pyval)) :=
  [("user", fun r => PUUID (Notification.user r));
   ("type", fun r => PStr (Notification.type r));
   ("title", fun r => PStr (Notification.title r));
   ("message", fun r => PStr (Notification.message r));
   ("data", fun r => Notification.data r);
   ("read_at", fun r => nullable PDatetime (Notification.read_at r));
   ("created_at", fun r => PDatetime (Notification.created_at r));
   ("expires_at", fun r => nullable PDatetime (Notification.expires_at r))].
Definition StoredFile_columns : list (string * (StoredFile.t -> pyval)) :=
  [("owner", fun r => nullable PUUID (StoredFile.owner r));
   ("file", fun r => PStr (StoredFile.file r));
   ("original_name", fun r => PStr (StoredFile.original_name r));
   ("content_type", fun r => PStr (StoredFile.content_type r));
   ("size", fun r => PInt (StoredFile.size r));
   ("checksum_sha256", fun r => PStr (StoredFile.checksum_sha256 r));
   ("status", fun r => PStr (FileStatus.value (StoredFile.status r)));
   ("created_at", fun r => PDatetime (StoredFile.created_at r));
   ("deleted_at", fun r => nullable PDatetime (StoredFile.deleted_at r))].
Definition Setting_columns : list (string * (Setting.t -> pyval)) :=
  [("key", fun r => PStr (Setting.key r));
   ("value", fun r => Setting.value r);
   ("value_type", fun r => PStr (SettingValueType.value (Setting.value_type r)));
   ("group", fun r => PStr (Setting.group r));
   ("is_public", fun r => PBool (Setting.is_public r));
   ("description", fun r => PStr (Setting.description r));
   ("created_at", fun r => PDatetime (Setting.created_at r));
   ("updated_at", fun r => PDatetime (Setting.updated_at r))].
Definition FeatureFlag_columns : list (string * (FeatureFlag.t -> pyval)) :=
  [("key", fun r => PStr (FeatureFlag.key r));
   ("enabled", fun r => PBool (FeatureFlag.enabled r));
   ("description", fun r => PStr (FeatureFlag.description r));
   ("created_at", fun r => PDatetime (FeatureFlag.created_at r));
   ("updated_at", fun r => PDatetime (FeatureFlag.updated_at r))].
Definition IdempotencyRecord_columns : list (string * (IdempotencyRecord.t -> pyval)) :=
  [("user", fun r => PUUID (IdempotencyRecord.user r));
   ("key_hash", fun r => PStr (IdempotencyRecord.key_hash r));
   ("request_method", fun r => PStr (IdempotencyRecord.request_method r));
   ("request_path", fun r => PStr (IdempotencyRecord.request_path r));
   ("request_hash", fun r => PStr (IdempotencyRecord.request_hash r));
   ("response_status", fun r => nullable PInt (IdempotencyRecord.response_status r));
   ("response_body", fun r => default PNone (IdempotencyRecord.response_body r));
   ("created_at", fun r => PDatetime (IdempotencyRecord.created_at r));
   ("expires_at", fun r => PDatetime (IdempotencyRecord.expires_at r))].

(** A field without a column in the row types: nothing reads or writes it. *)
Definition left_out : list (Label * string) :=
  [(("authentication", "usersession"), "location"); (("files", "storedfile"), "metadata");
   (("files", "storedfile"), "last_accessed_at")].

Definition left_out_of (l : Label) : list string :=
  snd <$> List.filter (fun x => bool_decide (x.1 = l)) left_out.

(** A declaration with the row type that models it. *)
Record DeclaredTable := mkTable {
  declared : Declaration;
  row : Type;
  row_model : Model row;
  columns : list (string * (row -> pyval));
}.
Definition rows_of {R} `{Model R} d (cols : list (string * (R -> pyval))) : DeclaredTable := mkTable d R _ cols.

(** ** What the database refuses *)

(** The equality of SQL on two values: NULL equals nothing. *)
Definition sql_equal (x y : pyval) : bool :=
  match x, y with
  | PStr s, PStr t => String.eqb s t
  | PUUID k, PUUID l => N.eqb k l
  | PInt m, PInt n | PDatetime m, PDatetime n => Z.eqb m n
  | PBool p, PBool q => Bool.eqb p q
  | _, _ => false
  end.

Definition column_value {R} (cols : list (string * (R -> pyval))) (name : string) (r : R) : pyval :=
  match List.find (fun c => String.eqb c.1 name) cols with Some c => c.2 r | None => PNone end.

Definition evaluate {R} (cols : list (string * (R -> pyval))) (e : expression) (r : R) : pyval :=
  match e with
  | Col c => column_value cols c r
  | Lower c => match column_value cols c r with PStr s => PStr (Str.casefold s) | _ => PNone end
  end.

(** The sets of expressions no two rows may agree on. *)
Definition unique_sets (d : Declaration) : list (list expression) :=
  ((fun f => [Col f.1]) <$> List.filter (fun f => Field.unique f.2) (fields d))
  ++ omap (fun c => match c.2 with UniqueConstraint on => Some on | CheckConstraint _ => None end) (constraints_of d).

Definition refused {R} (cols : list (string * (R -> pyval))) (d : Declaration) (a b : R) : bool :=
  existsb (forallb (fun e => sql_equal (evaluate cols e a) (evaluate cols e b))) (unique_sets d).

(** A check constraint refuses a row for which it is false; NULL in a
    comparison makes it unknown, which passes. *)
Fixpoint check_passes {R} (cols : list (string * (R -> pyval))) (c : condition) (r : R) : bool :=
  match c with
  | IsNull a => match column_value cols a r with PNone => true | _ => false end
  | Greater a b => match column_value cols a r, column_value cols b r with
                   | PDatetime x, PDatetime y => y <? x
                   | _, _ => true
                   end
  | Or p q => check_passes cols p r || check_passes cols q r
  end.

Definition checks_pass {R} (cols : list (string * (R -> pyval))) (d : Declaration) (r : R) : bool :=
  forallb (fun c => match c.2 with CheckConstraint p => check_passes cols p r | UniqueConstraint _ => true end)
    (constraints_of d).

(** Columns of a table: the fields that are not relations of many to many. *)
Definition column_names (d : Declaration) : list string :=
  fst <$> List.filter (fun f => Field.concrete f.2) (fields d).

(** A NOT NULL column; a JSON column may hold the JSON value null. *)
Definition not_null (d : Declaration) (name : string) : bool :=
  match find_field d name with
  | Some f => negb (Field.null f) && negb (bool_decide (Field.type f = Field.JSON))
  | None => false
  end.

Section tables.
Context `{AuthModels}.

Definition tables : list DeclaredTable :=
  [rows_of User_model User_columns; rows_of UserProfile_model UserProfile_columns;
   rows_of UserPreferences_model UserPreferences_columns; rows_of UserSecuritySettings_model UserSecuritySettings_columns;
   rows_of UserBan_model UserBan_columns; rows_of OneTimeToken_model OneTimeToken_columns;
   rows_of UserSession_model UserSession_columns; rows_of TwoFactorCredential_model TwoFactorCredential_columns;
   rows_of RecoveryCode_model RecoveryCode_columns; rows_of Permission_model Permission_columns;
   rows_of Role_model Role_columns; rows_of RolePermission_model RolePermission_columns;
   rows_of UserRole_model UserRole_columns; rows_of UserPermissionOverride_model UserPermissionOverride_columns;
   rows_of SecurityEvent_model SecurityEvent_columns; rows_of LoginThrottleState_model LoginThrottleState_columns;
   rows_of AuditLog_model AuditLog_columns; rows_of APIKey_model APIKey_columns;
   rows_of WebhookEndpoint_model WebhookEndpoint_columns; rows_of WebhookEvent_model WebhookEvent_columns;
   rows_of WebhookDelivery_model WebhookDelivery_columns; rows_of Notification_model Notification_columns;
   rows_of StoredFile_model StoredFile_columns; rows_of Setting_model Setting_columns;
   rows_of FeatureFlag_model FeatureFlag_columns; rows_of IdempotencyRecord_model IdempotencyRecord_columns].

(** A row type with its columns implements a declaration. *)
Definition implements (T : DeclaredTable) : Prop :=
  (list_to_set (column_names (declared T)) : gset string) =
    {["id"]} ∪ list_to_set ((columns T).*1) ∪ list_to_set (left_out_of (label (declared T))) /\
  (forall (a b : row T), row_clash (Model := row_model T) a b = refused (columns T) (declared T) a b) /\
  Forall (fun c => not_null (declared T) c.1 = true -> forall r : row T, c.2 r <> PNone) (columns T).

Lemma user_unique (e1 e2 u1 u2 : string) :
  String.eqb e1 e2 || (String.eqb u1 u2 || (Str.iexact e1 e2 || Str.iexact u1 u2)) =
  Str.iexact e1 e2 || Str.iexact u1 u2.
Proof.
  unfold Str.iexact.
  destruct (String.eqb_spec e1 e2) as [->|]; [by rewrite String.eqb_refl|].
  destruct (String.eqb_spec u1 u2) as [->|]; [by rewrite String.eqb_refl, !orb_true_r|done].
Qed.

End tables.

Ltac every_element :=
  lazymatch goal with
  | |- Forall ?P ?l =>
      let l' := eval hnf in l in change (Forall P l');
      lazymatch l' with _ :: _ => apply Forall_cons_2; [|every_element] | [] => apply Forall_nil_2 end
  end.
Ltac same_uniqueness :=
  intros a b; cbn -[String.eqb N.eqb Str.casefold orb andb];
  unfold User.clash, UserSession.clash, no_clash, same_user; rewrite ?orb_false_r, ?andb_true_r;
  first [reflexivity | symmetry; apply user_unique | apply orb_comm].
Ltac declared_not_null :=
  every_element; cbn [fst snd]; intros Hn r; first [discriminate | exfalso; revert Hn; vm_compute; discriminate].

Section schema.
Context `{A : AuthModels, L : !AuthModelsLaws}.


End schema.

(** The check constraint on bans is what [UserBan.valid] says. *)
Lemma ban_check `{AuthModels} b : checks_pass UserBan_columns UserBan_model b = UserBan.valid b.
Proof. unfold UserBan.valid. cbn. by destruct (UserBan.expires_at b) as [e|]; cbn; rewrite ?andb_true_r. Qed.

(** The fields of [django.contrib.auth], for witnesses. *)
Definition demo_auth_models : AuthModels := {|
  abstract_base_user := [("password", CharField [max_length 128]); ("last_login", DateTimeField [blank; null])];
  permissions_mixin :=
    [("is_superuser", BooleanField [default_is (DFlag false)]);
     ("groups", ManyToManyField ("auth", "group") None [blank; related_name "user_set"]);
     ("user_permissions", ManyToManyField ("auth", "permission") None [blank; related_name "user_set"])];
|}.
#[export] Instance demo_auth_laws : AuthModelsLaws (H := demo_auth_models).
Proof. by split. Qed.

