(* ===== verification/Migrations.v ===== *)
(** * Migrations

    The migrations of [apps/*/migrations] as data, what applying one does to the
    schema of the database, and the theorem that they build, in whatever order
    their dependencies allow, exactly the schema that [Schema] declares.  The
    effect of an operation is the documented one of Django's migration
    operations; the migrations of [django.contrib.auth] come before and are
    represented by the models they leave. *)

From S2P Require Import Prelude Env Models Schema.

(** ** Operations and states *)

(** The schema of a model: fields, indexes and constraints by name. *)
Record ModelState := mkModelState {
  model_fields : gmap string Field.t;
  model_ordering : list string;
  model_indexes : gmap string (list string);
  model_constraints : gmap string constraint;
}.
#[export] Instance eta_ModelState : Eta ModelState := fun s =>
  mkModelState s.(model_fields) s.(model_ordering) s.(model_indexes) s.(model_constraints).
#[export] Instance ModelState_eq_dec : EqDecision ModelState.
Proof. solve_decision. Defined.

Abbreviation AppState := (gmap string ModelState).
(** The models of every application. *)
Abbreviation State := (gmap string AppState).

Inductive operation :=
| CreateModel (name : string) (fields : fields_of) (ordering : list string)
    (indexes : list (string * list string)) (constraints : list (string * constraint))
| AddField (model name : string) (f : Field.t)
| AlterField (model name : string) (f : Field.t)
| AddIndex (model name : string) (columns : list string)
| AddConstraint (model name : string) (c : constraint).

Record Migration := {
  key : Label;
  dependencies : list Label;
  operations : list operation;
}.
Definition app (m : Migration) : string := (key m).1.

(** [migrations.swappable_dependency]: the first migration of the application
    of the model. *)
Definition swappable_dependency (model : Label) : Label := (model.1, "__first__").

Definition app_state (st : State) (a : string) : AppState := default ∅ (st !! a).
Definition has_model (st : State) (l : Label) : bool := is_some (app_state st l.1 !! l.2).

Definition references (f : Field.t) : list Label :=
  match Field.type f with
  | Field.ForeignKey to _ | Field.OneToOne to _ => [to]
  | Field.ManyToMany to through => to :: option_list through
  | _ => []
  end.

(** The models a field of the model [self] refers to are there. *)
Definition resolved (st : State) (self : Label) (f : Field.t) : bool :=
  forallb (fun l => bool_decide (l = self) || has_model st l) (references f).

Definition has_columns (s : ModelState) (l : list string) : bool :=
  forallb (fun c => is_some (model_fields s !! c)) l.

Fixpoint condition_columns (c : condition) : list string :=
  match c with
  | IsNull a => [a]
  | Greater a b => [a; b]
  | Or p q => condition_columns p ++ condition_columns q
  end.
Definition constraint_columns (c : constraint) : list string :=
  match c with
  | UniqueConstraint on => (fun e => match e with Col a | Lower a => a end) <$> on
  | CheckConstraint p => condition_columns p
  end.

(** The change of one model, which has to exist. *)
Definition change_model (a : AppState) (name : string) (ok : ModelState -> bool) (f : ModelState -> ModelState)
    : option AppState :=
  match a !! name with
  | Some s => if ok s then Some (<[name := f s]> a) else None
  | None => None
  end.

(** What an operation of the application [a] makes of its models; [None] when
    the operation fails. *)
Definition apply_operation (a : string) (op : operation) (st : State) : option AppState :=
  let own := app_state st a in
  match op with
  | CreateModel name fs ordering ixs cs =>
      let s := mkModelState (list_to_map fs) ordering (list_to_map ixs) (list_to_map cs) in
      if is_none (own !! name) && bool_decide (NoDup fs.*1) && forallb (fun f => resolved st (a, name) f.2) fs
         && forallb (fun i => has_columns s i.2) ixs && forallb (fun c => has_columns s (constraint_columns c.2)) cs
      then Some (<[name := s]> own) else None
  | AddField model name f =>
      change_model own model (fun s => is_none (model_fields s !! name) && resolved st (a, model) f)
        (fun s => s <| model_fields ::= insert name f |>)
  | AlterField model name f =>
      change_model own model (fun s => is_some (model_fields s !! name) && resolved st (a, model) f)
        (fun s => s <| model_fields ::= insert name f |>)
  | AddIndex model name columns =>
      change_model own model (fun s => is_none (model_indexes s !! name) && has_columns s columns)
        (fun s => s <| model_indexes ::= insert name columns |>)
  | AddConstraint model name c =>
      change_model own model (fun s => is_none (model_constraints s !! name) && has_columns s (constraint_columns c))
        (fun s => s <| model_constraints ::= insert name c |>)
  end.

Fixpoint apply_operations (a : string) (ops : list operation) (st : State) : option State :=
  match ops with
  | [] => Some st
  | op :: rest =>
      match apply_operation a op st with
      | Some own => apply_operations a rest (<[a := own]> st)
      | None => None
      end
  end.

Definition apply_migration (m : Migration) (st : State) : option State :=
  apply_operations (app m) (operations m) st.

(** [migrate]: the migrations of a plan, in its order. *)
Fixpoint migrate (plan : list Migration) (st : State) : option State :=
  match plan with
  | [] => Some st
  | m :: rest => match apply_migration m st with Some st' => migrate rest st' | None => None end
  end.

(** ** The migrations *)

Definition accounts_0001 : Migration := {|
  key := ("accounts", "0001_initial");
  dependencies := [("auth", "0012_alter_user_first_name_max_length")];
  operations :=
   [CreateModel "user"
      [("password", CharField [max_length 128]);
       ("last_login", DateTimeField [blank; null]);
       ("is_superuser", BooleanField [default_is (DFlag false)]);
       ("id", UUIDField [default_is (DCall "uuid.uuid4"); editable_no; primary_key]);
       ("email", EmailField [max_length 254; unique]);
       ("username", CharField [max_length 150; unique]);
       ("first_name", CharField [blank; max_length 150]);
       ("last_name", CharField [blank; max_length 150]);
       ("avatar", ImageField [blank; upload_to "avatar_upload_to"]);
       ("phone", CharField [blank; max_length 32]);
       ("status", CharField [choices ["active"; "pending"; "suspended"; "banned"; "deactivated"; "deleted"];
           db_index; default_is (DText "pending"); max_length 24]);
       ("email_verified_at", DateTimeField [blank; null]);
       ("phone_verified_at", DateTimeField [blank; null]);
       ("is_active", BooleanField [default_is (DFlag true)]);
       ("is_staff", BooleanField [default_is (DFlag false)]);
       ("date_joined", DateTimeField [default_is (DCall "timezone.now")]);
       ("last_login_ip", GenericIPAddressField [blank; null]);
       ("created_at", DateTimeField [auto_now_add]);
       ("updated_at", DateTimeField [auto_now]);
       ("groups", ManyToManyField ("auth", "group") None [blank; related_name "user_set"]);
       ("user_permissions", ManyToManyField ("auth", "permission") None [blank; related_name "user_set"])]
      ["-created_at"] [] [];
    CreateModel "userban"
      [("id", UUIDField [default_is (DCall "uuid.uuid4"); editable_no; primary_key]);
       ("reason", TextField []);
       ("starts_at", DateTimeField [default_is (DCall "timezone.now")]);
       ("expires_at", DateTimeField [blank; db_index; null]);
       ("created_at", DateTimeField [auto_now_add]);
       ("revoked_at", DateTimeField [blank; null]);
       ("banned_by", ForeignKey AUTH_USER_MODEL SET_NULL [blank; null; related_name "issued_bans"]);
       ("user", ForeignKey AUTH_USER_MODEL CASCADE [related_name "bans"])]
      ["-created_at"] [] [];
    CreateModel "userpreferences"
      [("id", UUIDField [default_is (DCall "uuid.uuid4"); editable_no; primary_key]);
       ("created_at", DateTimeField [auto_now_add]);
       ("updated_at", DateTimeField [auto_now]);
       ("language", CharField [default_is (DText "en"); max_length 10]);
       ("timezone", CharField [default_is (DText "UTC"); max_length 64]);
       ("email_notifications", BooleanField [default_is (DFlag true)]);
       ("security_emails", BooleanField [default_is (DFlag true)]);
       ("user", OneToOneField AUTH_USER_MODEL CASCADE [related_name "preferences"])]
      [] [] [];
    CreateModel "userprofile"
      [("id", UUIDField [default_is (DCall "uuid.uuid4"); editable_no; primary_key]);
       ("created_at", DateTimeField [auto_now_add]);
       ("updated_at", DateTimeField [auto_now]);
       ("bio", TextField [blank; max_length 2000]);
       ("website", URLField [blank]);
       ("location", CharField [blank; max_length 255]);
       ("user", OneToOneField AUTH_USER_MODEL CASCADE [related_name "profile"])]
      [] [] [];
    CreateModel "usersecuritysettings"
      [("id", UUIDField [default_is (DCall "uuid.uuid4"); editable_no; primary_key]);
       ("created_at", DateTimeField [auto_now_add]);
       ("updated_at", DateTimeField [auto_now]);
       ("password_changed_at", DateTimeField [blank; null]);
       ("locked_until", DateTimeField [blank; db_index; null]);
       ("notify_new_device", BooleanField [default_is (DFlag true)]);
       ("user", OneToOneField AUTH_USER_MODEL CASCADE [related_name "security_settings"])]
      [] [] [];
    AddIndex "user" "acct_user_status_created_idx" ["status"; "created_at"];
    AddConstraint "user" "accounts_user_email_ci_unique" (UniqueConstraint [Lower "email"]);
    AddConstraint "user" "accounts_user_username_ci_unique" (UniqueConstraint [Lower "username"]);
    AddIndex "userban" "acct_ban_active_idx" ["user"; "revoked_at"; "expires_at"];
    AddConstraint "userban" "acct_ban_expiry_after_start" (CheckConstraint (Or (IsNull "expires_at") (Greater
        "expires_at" "starts_at")))];
|}.

Definition authentication_0001 : Migration := {|
  key := ("authentication", "0001_initial");
  dependencies := [swappable_dependency AUTH_USER_MODEL];
  operations :=
   [CreateModel "twofactorcredential"
      [("id", UUIDField [default_is (DCall "uuid.uuid4"); editable_no; primary_key]);
       ("encrypted_secret", TextField [editable_no]);
       ("created_at", DateTimeField [auto_now_add]);
       ("confirmed_at", DateTimeField [blank; null]);
       ("disabled_at", DateTimeField [blank; null]);
       ("user", OneToOneField AUTH_USER_MODEL CASCADE [related_name "two_factor"])]
      [] [] [];
    CreateModel "onetimetoken"
      [("id", UUIDField [default_is (DCall "uuid.uuid4"); editable_no; primary_key]);
       ("purpose", CharField [choices ["email_verification"; "password_reset"; "email_change";
           "account_deletion"]; max_length 32]);
       ("token_hash", CharField [max_length 64; unique]);
       ("metadata", JSONField [blank; default_is (DCall "dict")]);
       ("created_at", DateTimeField [auto_now_add]);
       ("expires_at", DateTimeField [db_index]);
       ("used_at", DateTimeField [blank; null]);
       ("user", ForeignKey AUTH_USER_MODEL CASCADE [related_name "one_time_tokens"])]
      [] [("auth_token_user_purpose_idx", ["user"; "purpose"; "used_at"])] [];
    CreateModel "recoverycode"
      [("id", UUIDField [default_is (DCall "uuid.uuid4"); editable_no; primary_key]);
       ("code_hash", CharField [editable_no; max_length 64]);
       ("created_at", DateTimeField [auto_now_add]);
       ("used_at", DateTimeField [blank; null]);
       ("credential", ForeignKey ("authentication", "twofactorcredential") CASCADE [related_name
           "recovery_codes"])]
      [] [] [("auth_recovery_code_unique", UniqueConstraint [Col "credential"; Col "code_hash"])];
    CreateModel "usersession"
      [("id", UUIDField [default_is (DCall "uuid.uuid4"); editable_no; primary_key]);
       ("identifier", CharField [editable_no; max_length 32; unique]);
       ("session_key_hash", CharField [editable_no; max_length 64; unique]);
       ("encrypted_session_key", TextField [editable_no]);
       ("ip_address", GenericIPAddressField [blank; null]);
       ("user_agent", TextField [blank]);
       ("browser", CharField [blank; max_length 100]);
       ("operating_system", CharField [blank; max_length 100]);
       ("device", CharField [blank; max_length 100]);
       ("location", CharField [blank; max_length 255]);
       ("created_at", DateTimeField [auto_now_add]);
       ("last_activity_at", DateTimeField [auto_now; db_index]);
       ("revoked_at", DateTimeField [blank; db_index; null]);
       ("user", ForeignKey AUTH_USER_MODEL CASCADE [related_name "user_sessions"])]
      ["-last_activity_at"] [("auth_session_active_idx", ["user"; "revoked_at"; "last_activity_at"])] []];
|}.

Definition authorization_0001 : Migration := {|
  key := ("authorization", "0001_initial");
  dependencies := [swappable_dependency AUTH_USER_MODEL];
  operations :=
   [CreateModel "permission"
      [("id", UUIDField [default_is (DCall "uuid.uuid4"); editable_no; primary_key]);
       ("created_at", DateTimeField [auto_now_add]);
       ("updated_at", DateTimeField [auto_now]);
       ("codename", CharField [max_length 150; unique]);
       ("description", CharField [blank; max_length 255]);
       ("is_system", BooleanField [default_is (DFlag false)])]
      ["codename"] [] [];
    CreateModel "role"
      [("id", UUIDField [default_is (DCall "uuid.uuid4"); editable_no; primary_key]);
       ("created_at", DateTimeField [auto_now_add]);
       ("updated_at", DateTimeField [auto_now]);
       ("name", CharField [max_length 100]);
       ("slug", SlugField [max_length 100; unique]);
       ("description", TextField [blank]);
       ("priority", PositiveSmallIntegerField [db_index; default_is (DNumber 0)]);
       ("is_system", BooleanField [default_is (DFlag false)])]
      ["-priority"; "name"] [] [];
    CreateModel "rolepermission"
      [("id", UUIDField [default_is (DCall "uuid.uuid4"); editable_no; primary_key]);
       ("created_at", DateTimeField [auto_now_add]);
       ("permission", ForeignKey ("authorization", "permission") CASCADE [related_name "role_links"]);
       ("role", ForeignKey ("authorization", "role") CASCADE [related_name "permission_links"])]
      [] [] [];
    AddField "role" "permissions" (ManyToManyField ("authorization", "permission") (Some ("authorization",
        "rolepermission")) [related_name "roles"]);
    CreateModel "userpermissionoverride"
      [("id", UUIDField [default_is (DCall "uuid.uuid4"); editable_no; primary_key]);
       ("created_at", DateTimeField [auto_now_add]);
       ("updated_at", DateTimeField [auto_now]);
       ("effect", CharField [choices ["allow"; "deny"]; max_length 8]);
       ("reason", CharField [blank; max_length 255]);
       ("granted_by", ForeignKey AUTH_USER_MODEL SET_NULL [blank; null; related_name
           "granted_permission_overrides"]);
       ("permission", ForeignKey ("authorization", "permission") CASCADE [related_name "user_overrides"]);
       ("user", ForeignKey AUTH_USER_MODEL CASCADE [related_name "permission_overrides"])]
      [] [] [];
    CreateModel "userrole"
      [("id", UUIDField [default_is (DCall "uuid.uuid4"); editable_no; primary_key]);
       ("valid_from", DateTimeField [default_is (DCall "timezone.now")]);
       ("valid_until", DateTimeField [blank; db_index; null]);
       ("created_at", DateTimeField [auto_now_add]);
       ("granted_by", ForeignKey AUTH_USER_MODEL SET_NULL [blank; null; related_name
           "granted_role_assignments"]);
       ("role", ForeignKey ("authorization", "role") PROTECT [related_name "user_assignments"]);
       ("user", ForeignKey AUTH_USER_MODEL CASCADE [related_name "role_assignments"])]
      [] [] [];
    AddConstraint "rolepermission" "authz_role_permission_unique" (UniqueConstraint [Col "role"; Col
        "permission"]);
    AddIndex "userpermissionoverride" "authz_user_override_idx" ["user"; "effect"];
    AddConstraint "userpermissionoverride" "authz_user_permission_unique" (UniqueConstraint [Col "user"; Col
        "permission"]);
    AddIndex "userrole" "authz_user_role_valid_idx" ["user"; "valid_from"; "valid_until"];
    AddConstraint "userrole" "authz_user_role_unique" (UniqueConstraint [Col "user"; Col "role"])];
|}.

Definition security_0001 : Migration := {|
  key := ("security", "0001_initial");
  dependencies := [swappable_dependency AUTH_USER_MODEL];
  operations :=
   [CreateModel "securityevent"
      [("id", UUIDField [default_is (DCall "uuid.uuid4"); editable_no; primary_key]);
       ("event_type", CharField [choices ["login_success"; "login_failed"; "new_device_login";
           "password_changed"; "password_reset"; "email_changed"; "two_factor_enabled"; "two_factor_disabled";
           "recovery_code_used"; "session_revoked"; "account_locked"; "account_unlocked"; "account_deactivated";
           "account_deleted"; "api_key_created"; "api_key_revoked"]; db_index; max_length 40]);
       ("ip_address", GenericIPAddressField [blank; null]);
       ("user_agent", TextField [blank]);
       ("request_id", CharField [blank; db_index; max_length 64]);
       ("metadata", JSONField [blank; default_is (DCall "dict")]);
       ("created_at", DateTimeField [auto_now_add; db_index]);
       ("user", ForeignKey AUTH_USER_MODEL SET_NULL [blank; null; related_name "security_events"])]
      ["-created_at"] [("security_event_user_time_idx", ["user"; "created_at"])] []];
|}.

Definition security_0002 : Migration := {|
  key := ("security", "0002_loginthrottlestate");
  dependencies := [("security", "0001_initial")];
  operations :=
   [CreateModel "loginthrottlestate"
      [("id", UUIDField [default_is (DCall "uuid.uuid4"); editable_no; primary_key]);
       ("dimension_hash", CharField [max_length 64; unique]);
       ("attempt_count", PositiveIntegerField [default_is (DNumber 0)]);
       ("locked_until", DateTimeField [blank; db_index; null]);
       ("expires_at", DateTimeField [db_index]);
       ("updated_at", DateTimeField [auto_now])]
      ["-updated_at"] [] []];
|}.

Definition audit_0001 : Migration := {|
  key := ("audit", "0001_initial");
  dependencies := [swappable_dependency AUTH_USER_MODEL];
  operations :=
   [CreateModel "auditlog"
      [("id", UUIDField [default_is (DCall "uuid.uuid4"); editable_no; primary_key]);
       ("action", CharField [db_index; max_length 100]);
       ("target_type", CharField [db_index; max_length 100]);
       ("target_id", CharField [blank; max_length 100]);
       ("target_repr", CharField [blank; max_length 255]);
       ("before", JSONField [blank; default_is (DCall "dict")]);
       ("after", JSONField [blank; default_is (DCall "dict")]);
       ("metadata", JSONField [blank; default_is (DCall "dict")]);
       ("request_id", CharField [blank; db_index; max_length 64]);
       ("ip_address", GenericIPAddressField [blank; null]);
       ("user_agent", TextField [blank]);
       ("created_at", DateTimeField [auto_now_add; db_index]);
       ("actor", ForeignKey AUTH_USER_MODEL SET_NULL [blank; null; related_name "audit_actions"])]
      ["-created_at"] [("audit_target_idx", ["target_type"; "target_id"])] []];
|}.

Definition api_keys_0001 : Migration := {|
  key := ("api_keys", "0001_initial");
  dependencies := [swappable_dependency AUTH_USER_MODEL];
  operations :=
   [CreateModel "apikey"
      [("id", UUIDField [default_is (DCall "uuid.uuid4"); editable_no; primary_key]);
       ("name", CharField [max_length 100]);
       ("prefix", CharField [db_index; max_length 16; unique]);
       ("key_hash", CharField [editable_no; max_length 64]);
       ("scopes", JSONField [default_is (DCall "list")]);
       ("created_at", DateTimeField [auto_now_add]);
       ("last_used_at", DateTimeField [blank; null]);
       ("last_used_ip", GenericIPAddressField [blank; null]);
       ("expires_at", DateTimeField [blank; db_index; null]);
       ("revoked_at", DateTimeField [blank; db_index; null]);
       ("owner", ForeignKey AUTH_USER_MODEL CASCADE [related_name "api_keys"])]
      ["-created_at"] [("api_key_owner_active_idx", ["owner"; "revoked_at"; "expires_at"])] []];
|}.

Definition webhooks_0001 : Migration := {|
  key := ("webhooks", "0001_initial");
  dependencies := [swappable_dependency AUTH_USER_MODEL];
  operations :=
   [CreateModel "webhookevent"
      [("id", UUIDField [default_is (DCall "uuid.uuid4"); editable_no; primary_key]);
       ("event_type", CharField [db_index; max_length 150]);
       ("payload", JSONField []);
       ("created_at", DateTimeField [auto_now_add; db_index])]
      [] [] [];
    CreateModel "webhookendpoint"
      [("id", UUIDField [default_is (DCall "uuid.uuid4"); editable_no; primary_key]);
       ("created_at", DateTimeField [auto_now_add]);
       ("updated_at", DateTimeField [auto_now]);
       ("name", CharField [max_length 100]);
       ("url", URLField [max_length 500]);
       ("event_types", JSONField [default_is (DCall "list")]);
       ("secret_hash", CharField [editable_no; max_length 64]);
       ("encrypted_secret", TextField [editable_no]);
       ("is_active", BooleanField [db_index; default_is (DFlag true)]);
       ("owner", ForeignKey AUTH_USER_MODEL CASCADE [blank; null; related_name "webhook_endpoints"])]
      [] [] [];
    CreateModel "webhookdelivery"
      [("id", UUIDField [default_is (DCall "uuid.uuid4"); editable_no; primary_key]);
       ("status", CharField [choices ["pending"; "succeeded"; "failed"; "abandoned"]; db_index; default_is
           (DText "pending"); max_length 16]);
       ("attempt_count", PositiveSmallIntegerField [default_is (DNumber 0)]);
       ("response_code", PositiveSmallIntegerField [blank; null]);
       ("response_body", TextField [blank]);
       ("last_attempt_at", DateTimeField [blank; null]);
       ("next_retry_at", DateTimeField [blank; db_index; null]);
       ("created_at", DateTimeField [auto_now_add]);
       ("endpoint", ForeignKey ("webhooks", "webhookendpoint") CASCADE [related_name "deliveries"]);
       ("event", ForeignKey ("webhooks", "webhookevent") CASCADE [related_name "deliveries"])]
      [] [("webhook_pending_retry_idx", ["status"; "next_retry_at"])] [("webhook_endpoint_event_unique",
        UniqueConstraint [Col "endpoint"; Col "event"])]];
|}.

Definition webhooks_0002 : Migration := {|
  key := ("webhooks", "0002_alter_webhookdelivery_status");
  dependencies := [("webhooks", "0001_initial")];
  operations :=
   [AlterField "webhookdelivery" "status" (CharField [choices ["pending"; "processing"; "succeeded"; "failed";
        "abandoned"]; db_index; default_is (DText "pending"); max_length 16])];
|}.

Definition notifications_0001 : Migration := {|
  key := ("notifications", "0001_initial");
  dependencies := [swappable_dependency AUTH_USER_MODEL];
  operations :=
   [CreateModel "notification"
      [("id", UUIDField [default_is (DCall "uuid.uuid4"); editable_no; primary_key]);
       ("type", CharField [db_index; max_length 100]);
       ("title", CharField [max_length 255]);
       ("message", TextField []);
       ("data", JSONField [blank; default_is (DCall "dict")]);
       ("read_at", DateTimeField [blank; db_index; null]);
       ("created_at", DateTimeField [auto_now_add; db_index]);
       ("expires_at", DateTimeField [blank; db_index; null]);
       ("user", ForeignKey AUTH_USER_MODEL CASCADE [related_name "notifications"])]
      ["-created_at"] [("notification_user_unread_idx", ["user"; "read_at"; "created_at"])] []];
|}.

Definition files_0001 : Migration := {|
  key := ("files", "0001_initial");
  dependencies := [swappable_dependency AUTH_USER_MODEL];
  operations :=
   [CreateModel "storedfile"
      [("id", UUIDField [default_is (DCall "uuid.uuid4"); editable_no; primary_key]);
       ("file", FileField [max_length 500; upload_to "secure_upload_path"]);
       ("original_name", CharField [max_length 255]);
       ("content_type", CharField [max_length 150]);
       ("size", PositiveBigIntegerField []);
       ("checksum_sha256", CharField [db_index; max_length 64]);
       ("status", CharField [choices ["pending"; "ready"; "quarantined"; "rejected"]; db_index; default_is
           (DText "pending"); max_length 16]);
       ("metadata", JSONField [blank; default_is (DCall "dict")]);
       ("created_at", DateTimeField [auto_now_add; db_index]);
       ("last_accessed_at", DateTimeField [blank; null]);
       ("deleted_at", DateTimeField [blank; db_index; null]);
       ("owner", ForeignKey AUTH_USER_MODEL SET_NULL [blank; null; related_name "stored_files"])]
      [] [("file_owner_status_idx", ["owner"; "status"; "created_at"])] []];
|}.

Definition core_0001 : Migration := {|
  key := ("core", "0001_initial");
  dependencies := [swappable_dependency AUTH_USER_MODEL];
  operations :=
   [CreateModel "featureflag"
      [("id", UUIDField [default_is (DCall "uuid.uuid4"); editable_no; primary_key]);
       ("created_at", DateTimeField [auto_now_add]);
       ("updated_at", DateTimeField [auto_now]);
       ("key", CharField [max_length 150; unique]);
       ("enabled", BooleanField [db_index; default_is (DFlag false)]);
       ("description", TextField [blank])]
      [] [] [];
    CreateModel "setting"
      [("id", UUIDField [default_is (DCall "uuid.uuid4"); editable_no; primary_key]);
       ("created_at", DateTimeField [auto_now_add]);
       ("updated_at", DateTimeField [auto_now]);
       ("key", CharField [max_length 150; unique]);
       ("value", JSONField []);
       ("value_type", CharField [choices ["string"; "integer"; "boolean"; "json"]; default_is (DText "string");
           max_length 16]);
       ("group", CharField [db_index; default_is (DText "general"); max_length 64]);
       ("is_public", BooleanField [default_is (DFlag false)]);
       ("description", TextField [blank])]
      [] [] [];
    CreateModel "idempotencyrecord"
      [("id", UUIDField [default_is (DCall "uuid.uuid4"); editable_no; primary_key]);
       ("key_hash", CharField [max_length 64]);
       ("request_method", CharField [max_length 8]);
       ("request_path", CharField [max_length 500]);
       ("request_hash", CharField [max_length 64]);
       ("response_status", PositiveSmallIntegerField [blank; null]);
       ("response_body", JSONField [blank; null]);
       ("created_at", DateTimeField [auto_now_add]);
       ("expires_at", DateTimeField [db_index]);
       ("user", ForeignKey AUTH_USER_MODEL CASCADE [blank; null; related_name "idempotency_records"])]
      [] [("core_idempotency_expiry_idx", ["expires_at"])] [("core_idempotency_user_key_unique",
        UniqueConstraint [Col "user"; Col "key_hash"])]];
|}.

(** All migrations of the repository. *)
Definition migrations : list Migration :=
  [accounts_0001; authentication_0001; authorization_0001; security_0001;
   security_0002; audit_0001; api_keys_0001; webhooks_0001;
   webhooks_0002; notifications_0001; files_0001; core_0001].

(** The key a dependency stands for: [__first__] is the migration of the
    application that depends on none of it. *)
Definition check_key (k : Label) : Label :=
  if String.eqb k.2 "__first__" then
    match List.find (fun m => String.eqb (app m) k.1
                              && forallb (fun d => negb (String.eqb d.1 (app m))) (dependencies m)) migrations with
    | Some m => key m
    | None => k
    end
  else k.

(** Every migration comes after those it depends on. *)
Fixpoint in_order (applied : list Label) (plan : list Migration) : bool :=
  match plan with
  | [] => true
  | m :: rest =>
      forallb (fun d => bool_decide (check_key d ∈ applied)) (dependencies m) && in_order (key m :: applied) rest
  end.

(** What is applied before: the migrations of [django.contrib.auth]. *)
Definition auth_migrations : list Label := [("auth", "0012_alter_user_first_name_max_length")].

(** ** The declared schema as a state *)

Definition declared_state (d : Declaration) : ModelState :=
  mkModelState (list_to_map (fields d)) (ordering d) (list_to_map (indexes d)) (list_to_map (constraints_of d)).

Definition schema `{AuthModels} : State :=
  foldr (fun d st => <[(label d).1 := <[(label d).2 := declared_state d]> (app_state st (label d).1)]> st)
    ∅ declarations.

(** ** Operations are local to their application *)

(** Everything [st] refers to is in [st'] too. *)
Definition offers (st st' : State) : Prop := forall l, has_model st l = true -> has_model st' l = true.

Lemma app_state_insert st a own b :
  app_state (<[a := own]> st) b = if decide (a = b) then own else app_state st b.
Proof. unfold app_state. rewrite lookup_insert. by destruct (decide (a = b)). Qed.

Lemma resolved_offers st st' self f : offers st st' -> resolved st self f = true -> resolved st' self f = true.
Proof.
  intros Ho. unfold resolved. rewrite !forallb_forall. intros Hf l Hl. specialize (Hf l Hl).
  apply orb_true_iff in Hf as [->|Hm]; [done|]. by rewrite (Ho _ Hm), orb_true_r.
Qed.

Lemma apply_operation_local a op st st' own :
  app_state st' a = app_state st a -> offers st st' ->
  apply_operation a op st = Some own -> apply_operation a op st' = Some own.
Proof.
  intros Ha Ho.
  assert (Hr : forall self f, resolved st self f = true -> resolved st' self f = true)
    by (intros; by eapply resolved_offers).
  destruct op as [name fs od ixs cs|model name f|model name f|model name l|model name c];
    unfold apply_operation, change_model; rewrite Ha; [| | |done|done].
  - assert (Hrs : forallb (fun f => resolved st (a, name) f.2) fs = true ->
                  forallb (fun f => resolved st' (a, name) f.2) fs = true)
      by (rewrite !forallb_forall; auto).
    destruct (forallb (fun f => resolved st _ f.2) fs); [by rewrite Hrs|].
    by rewrite !andb_false_r.
  - destruct (app_state st a !! model) as [s|]; [|done].
    destruct (resolved st _ f) eqn:Hf; [by rewrite (Hr _ _ Hf)|]. by rewrite !andb_false_r.
  - destruct (app_state st a !! model) as [s|]; [|done].
    destruct (resolved st _ f) eqn:Hf; [by rewrite (Hr _ _ Hf)|]. by rewrite !andb_false_r.
Qed.

(** No operation removes a model. *)
Lemma apply_operation_grows a op st own name :
  apply_operation a op st = Some own -> is_some (app_state st a !! name) = true -> is_some (own !! name) = true.
Proof.
  assert (Hi : forall (m : AppState) k s, is_some (m !! name) = true -> is_some (<[k := s]> m !! name) = true)
    by (intros m k s; rewrite lookup_insert; by destruct (decide _)).
  destruct op; unfold apply_operation, change_model;
    repeat case_match; intros [= <-]; apply Hi.
Qed.

Lemma offers_insert st a own :
  (forall name, is_some (app_state st a !! name) = true -> is_some (own !! name) = true) ->
  offers st (<[a := own]> st).
Proof.
  intros Hg [b name]. unfold has_model. cbn. rewrite app_state_insert. destruct (decide (a = b)) as [<-|]; auto.
Qed.

(** The same operations on a state that agrees on the application and offers
    as much: they succeed, with the same result there, and touch nothing else. *)
Lemma apply_operations_local a ops st r st' :
  app_state st' a = app_state st a -> offers st st' ->
  apply_operations a ops st = Some r ->
  exists r', apply_operations a ops st' = Some r' /\ app_state r' a = app_state r a /\ offers st' r' /\
    forall b, b <> a -> r' !! b = st' !! b.
Proof.
  revert st st'. induction ops as [|op ops IH]; intros st st' Ha Ho; cbn.
  - intros [= <-]. exists st'. split; [done|]. split; [done|]. by split; [intros l|].
  - destruct (apply_operation a op st) as [own|] eqn:Hop; [|done]. intros Hr.
    rewrite (apply_operation_local a op st st' own) by done.
    destruct (IH (<[a := own]> st) (<[a := own]> st')) as (r' & Hr' & Hown & Hg & Hb); [| |done|].
    + rewrite !app_state_insert, !decide_True by done. done.
    + intros [b name] Hm. pose proof (Ho (b, name)) as Hob. revert Hob Hm. unfold has_model. cbn.
      rewrite !app_state_insert. destruct (decide (a = b)); auto.
    + exists r'. split; [done|]. split; [done|]. split.
      * intros l Hl. apply Hg, offers_insert; [|done]. intros name. rewrite Ha.
        by eapply apply_operation_grows.
      * intros b Hne. rewrite Hb by done. by apply lookup_insert_ne.
Qed.

(** ** The order of the migrations does not matter *)

(** The part of [django.contrib.auth] the migrations refer to. *)
Definition auth_models : State :=
  {[ "auth" := {[ "group" := mkModelState ∅ [] ∅ ∅; "permission" := mkModelState ∅ [] ∅ ∅ ]} ]}.

Definition result_of (o : option State) : State := default ∅ o.

(** The application of [m] right after [m], when the migrations run in the order
    of the list [migrations]. *)
Fixpoint state_after (k : Label) (l : list Migration) (st : State) : AppState :=
  match l with
  | [] => ∅
  | m :: rest =>
      let st' := result_of (apply_migration m st) in
      if bool_decide (key m = k) then app_state st' (app m) else state_after k rest st'
  end.
Definition after (k : Label) : AppState := state_after k migrations auth_models.

(** The least a migration needs: the applications of its dependencies. *)
Definition before (m : Migration) : State :=
  foldr (fun d st => if String.eqb d.1 "auth" then st else <[d.1 := after d]> st) auth_models
    (check_key <$> dependencies m).

(** The migration of the same application it follows. *)
Definition previous (m : Migration) : option Label :=
  List.find (fun d => String.eqb d.1 (app m)) (check_key <$> dependencies m).

Definition local_step (m : Migration) : bool :=
  match apply_migration m (before m) with
  | Some st => bool_decide (app_state st (app m) = after (key m))
  | None => false
  end.

Definition linear (m m' : Migration) : bool :=
  negb (String.eqb (app m) (app m')) || bool_decide (key m = key m')
  || bool_decide (previous m = Some (key m')) || bool_decide (previous m' = Some (key m)).

Lemma every_migration (P : Migration -> bool) : forallb P migrations = true -> forall m, m ∈ migrations -> P m = true.
Proof. rewrite forallb_forall. intros HP m Hm. by apply HP, list_elem_of_In. Qed.

(** Facts about the twelve migrations, by computation. *)
Lemma steps_are_local m : m ∈ migrations -> local_step m = true.
Proof. apply every_migration. vm_compute. reflexivity. Qed.

Lemma migrations_linear m m' : m ∈ migrations -> m' ∈ migrations -> linear m m' = true.
Proof.
  intros Hm. apply every_migration. revert m Hm. apply (every_migration (fun m => forallb (linear m) migrations)).
  vm_compute. reflexivity.
Qed.

Lemma not_after_itself m : m ∈ migrations -> previous m <> Some (key m).
Proof.
  intros Hm. pose proof (every_migration (fun m => bool_decide (previous m <> Some (key m))) eq_refl m Hm) as H.
  by apply bool_decide_eq_true in H.
Qed.

Lemma not_auth m : m ∈ migrations -> app m <> "auth".
Proof.
  intros Hm. pose proof (every_migration (fun m => negb (String.eqb (app m) "auth")) eq_refl m Hm) as H.
  by apply negb_true_iff, String.eqb_neq in H.
Qed.

Lemma dependency_known m d :
  m ∈ migrations -> d ∈ check_key <$> dependencies m -> d.1 = "auth" \/ exists m0, m0 ∈ migrations /\ key m0 = d.
Proof.
  intros Hm Hd.
  pose proof (every_migration (fun m => forallb (fun d => String.eqb d.1 "auth"
    || existsb (fun m0 => bool_decide (key m0 = d)) migrations) (check_key <$> dependencies m)) eq_refl m Hm) as H.
  cbv beta in H. rewrite forallb_forall in H. specialize (H d (proj1 (list_elem_of_In _ _) Hd)).
  apply orb_true_iff in H as [H%String.eqb_eq|H]; [by left|]. right.
  apply existsb_exists in H as (m0 & Hin & Hk%bool_decide_eq_true). exists m0.
  split; [by apply list_elem_of_In|done].
Qed.

Lemma keys_distinct : NoDup (key <$> migrations).
Proof. apply (bool_decide_unpack _). vm_compute. exact I. Qed.

Lemma key_injective m m' : m ∈ migrations -> m' ∈ migrations -> key m = key m' -> m = m'.
Proof.
  intros (i & Hi)%list_elem_of_lookup (j & Hj)%list_elem_of_lookup Hk.
  assert (i = j) as ->; [|congruence].
  eapply (NoDup_lookup _ i j (key m) keys_distinct); rewrite list_lookup_fmap; [by rewrite Hi|by rewrite Hj, Hk].
Qed.

Lemma previous_app m d : previous m = Some d -> d.1 = app m /\ d ∈ check_key <$> dependencies m.
Proof.
  intros [Hin Heq%String.eqb_eq]%List.find_some. split; [done|by apply list_elem_of_In].
Qed.

Lemma before_app m b :
  app_state (before m) b =
    match List.find (fun d => String.eqb d.1 b && negb (String.eqb d.1 "auth")) (check_key <$> dependencies m) with
    | Some d => after d
    | None => app_state auth_models b
    end.
Proof.
  unfold before. generalize (check_key <$> dependencies m) as l.
  induction l as [|d l IH]; [done|]. cbn [foldr List.find].
  destruct (String.eqb_spec d.1 "auth"); [by rewrite andb_false_r|]. rewrite andb_true_r, app_state_insert.
  destruct (String.eqb_spec d.1 b), (decide (d.1 = b)); done.
Qed.

(** The application a migration finds: as its predecessor left it. *)
Lemma before_own m :
  m ∈ migrations -> app_state (before m) (app m) = match previous m with Some d => after d | None => ∅ end.
Proof.
  intros Hm. rewrite before_app. unfold previous. pose proof (not_auth m Hm) as Ha.
  assert (He : app_state auth_models (app m) = ∅).
  { unfold app_state, auth_models. by rewrite lookup_singleton_ne by done. }
  induction (check_key <$> dependencies m) as [|d l IH]; [done|]. cbn [List.find].
  destruct (String.eqb_spec d.1 (app m)) as [Hd|]; [|done]. cbn [andb].
  destruct (String.eqb_spec d.1 "auth"); [congruence|done].
Qed.

Section any_order.
Context (django : State).
Hypothesis django_auth : offers auth_models django.
Hypothesis django_fresh : forall m, m ∈ migrations -> django !! app m = None.

(** The state after the migrations [done], whatever their order was. *)
Record reached (done : list Label) (st : State) : Prop := {
  latest_applied : forall m, m ∈ migrations -> key m ∈ done ->
    (forall m', m' ∈ migrations -> previous m' = Some (key m) -> key m' ∉ done) -> app_state st (app m) = after (key m);
  untouched : forall a, (forall m, m ∈ migrations -> app m = a -> key m ∉ done) -> st !! a = django !! a;
  models_there : forall m name, m ∈ migrations -> key m ∈ done -> is_some (after (key m) !! name) = true ->
    has_model st (app m, name) = true;
  django_there : offers django st;
  closed_under_previous : forall m d, m ∈ migrations -> key m ∈ done -> previous m = Some d -> d ∈ done;
}.

Lemma linear_cases m m' : m ∈ migrations -> m' ∈ migrations -> app m = app m' ->
  m = m' \/ previous m = Some (key m') \/ previous m' = Some (key m).
Proof.
  intros Hm Hm' Ha. pose proof (migrations_linear m m' Hm Hm') as H. unfold linear in H.
  rewrite Ha, String.eqb_refl in H. cbn [negb orb] in H.
  rewrite !orb_true_iff, !bool_decide_eq_true in H. destruct H as [[H|H]|H]; auto.
  left. by apply key_injective.
Qed.

(** A migration whose dependencies are applied finds what it needs. *)
Lemma reached_own done st m :
  reached done st -> m ∈ migrations -> key m ∉ done -> (forall d, d ∈ check_key <$> dependencies m -> d ∈ done) ->
  app_state st (app m) = app_state (before m) (app m).
Proof.
  intros Hr Hm Hn Hd. rewrite before_own by done. destruct (previous m) as [d|] eqn:Hp.
  - destruct (previous_app m d Hp) as [Ha Hin].
    destruct (dependency_known m d Hm Hin) as [H|(m0 & Hm0 & <-)]; [by destruct (not_auth m Hm); congruence|].
    change (app m0 = app m) in Ha. rewrite <- Ha. apply (latest_applied _ _ Hr); [done|by apply Hd|].
    intros m' Hm' Hp' Hdone. destruct (previous_app m' _ Hp') as [Ha' _]. change (app m0 = app m') in Ha'.
    destruct (linear_cases m m') as [->|[H|H]]; [done|done|congruence|done| |].
    + rewrite Hp in H. injection H as H. rewrite H in Hp'. by apply (not_after_itself m').
    + apply Hn. rewrite Hp' in H. injection H as <-. by apply Hd.
  - unfold app_state. rewrite (untouched _ _ Hr); [by rewrite django_fresh|].
    intros m' Hm' Ha Hdone. destruct (linear_cases m m') as [->|[H|H]]; [done|done|done|done|congruence|].
    by apply Hn, (closed_under_previous _ _ Hr m').
Qed.

Lemma reached_offers done st m :
  reached done st -> m ∈ migrations -> (forall d, d ∈ check_key <$> dependencies m -> d ∈ done) ->
  offers (before m) st.
Proof.
  intros Hr Hm Hd [b name] Hl.
  assert (Hin : is_some (app_state (before m) b !! name) = true) by exact Hl. rewrite before_app in Hin.
  destruct (List.find _ _) as [d|] eqn:Hf; [|by apply (django_there _ _ Hr), django_auth].
  apply List.find_some in Hf as [Hdep%list_elem_of_In Hb]. apply andb_true_iff in Hb as [<-%String.eqb_eq Hb].
  destruct (dependency_known m d Hm Hdep) as [H|(m0 & Hm0 & <-)]; [by rewrite H in Hb|].
  apply (models_there _ _ Hr m0); [done|by apply Hd|done].
Qed.

Lemma reached_step done st m :
  reached done st -> m ∈ migrations -> key m ∉ done -> (forall d, d ∈ check_key <$> dependencies m -> d ∈ done) ->
  exists st', apply_migration m st = Some st' /\ reached (key m :: done) st'.
Proof.
  intros Hr Hm Hn Hd. pose proof (steps_are_local m Hm) as Hstep. unfold local_step, apply_migration in *.
  destruct (apply_operations _ _ (before m)) as [r|] eqn:Hrun; [|done]. apply bool_decide_eq_true in Hstep.
  destruct (apply_operations_local _ _ _ _ st (reached_own _ _ _ Hr Hm Hn Hd) (reached_offers _ _ _ Hr Hm Hd) Hrun)
    as (st' & Hst' & Hown & Hgrow & Hother).
  exists st'. split; [done|]. rewrite Hstep in Hown. split.
  - intros m' Hm' [Hk|Hin]%elem_of_cons Hlast; [by rewrite (key_injective m' m)|].
    destruct (decide (app m' = app m)) as [Ha|Ha].
    + destruct (linear_cases m m') as [->|[H|H]]; [done|done|done|done| |].
      * by destruct (Hlast m Hm H); left.
      * by destruct Hn; apply (closed_under_previous _ _ Hr m').
    + unfold app_state. rewrite Hother by done. apply (latest_applied _ _ Hr); [done|done|].
      intros m2 Hm2 Hp Hin2. apply (Hlast m2 Hm2 Hp). by right.
  - intros a Ha. rewrite Hother by (intros ->; by apply (Ha m Hm eq_refl); left).
    apply (untouched _ _ Hr). intros m' Hm' Ha' Hin. apply (Ha m' Hm' Ha'). by right.
  - intros m' name Hm' [Hk|Hin]%elem_of_cons Hname.
    + rewrite (key_injective m' m) in * by done. unfold has_model. cbn. by rewrite Hown.
    + by apply Hgrow, (models_there _ _ Hr).
  - intros l Hl. by apply Hgrow, (django_there _ _ Hr).
  - intros m' d Hm' [Hk|Hin]%elem_of_cons Hp; right.
    + rewrite (key_injective m' m) in Hp by done. by apply Hd, previous_app.
    + by apply (closed_under_previous _ _ Hr m').
Qed.

Lemma reached_plan plan done st :
  reached done st -> plan ⊆ migrations -> NoDup (key <$> plan) -> (forall m, m ∈ plan -> key m ∉ done) ->
  in_order done plan = true ->
  exists st', migrate plan st = Some st' /\ reached (reverse (key <$> plan) ++ done) st'.
Proof.
  revert done st. induction plan as [|m plan IH]; intros done st Hr Hsub Hnd Hnew; [by exists st|].
  cbn [in_order migrate fmap list_fmap]. intros [Hdeps Hrest]%andb_true_iff.
  apply NoDup_cons in Hnd as [Hm Hnd].
  destruct (reached_step done st m Hr) as (st1 & -> & Hr1).
  - apply Hsub. by left.
  - apply Hnew. by left.
  - intros d (d0 & -> & Hd0)%list_elem_of_fmap. rewrite forallb_forall in Hdeps.
    apply (bool_decide_eq_true (check_key d0 ∈ done)), Hdeps. by apply list_elem_of_In.
  - destruct (IH (key m :: done) st1 Hr1) as (st' & Hst' & Hr'); [| | |done|].
    + intros x Hx. apply Hsub. by right.
    + done.
    + intros x Hx [Hk|Hin]%elem_of_cons.
      * apply Hm. rewrite <- Hk. by apply list_elem_of_fmap_2.
      * by apply (Hnew x); [right|].
    + exists st'. split; [done|]. by rewrite reverse_cons, <- (assoc_L (++)).
Qed.

End any_order.

(** ** The declared schema is what the migrations build *)

Section schema_built.
Context `{A : AuthModels, L : !AuthModelsLaws}.

Lemma schema_documented : schema = schema (H := demo_auth_models).
Proof. destruct A as [base mixin], L as [Hb Hm]. cbn in Hb, Hm. by subst base mixin. Qed.

(** Every application has a last migration, and leaves the declared models. *)
Definition completes (a : string) (m : Migration) : bool :=
  String.eqb (app m) a && forallb (fun m' => negb (bool_decide (previous m' = Some (key m)))) migrations
  && bool_decide (schema (H := demo_auth_models) !! a = Some (after (key m))) && bool_decide (after (key m) <> ∅).

Lemma last_migration m : m ∈ migrations -> exists m', m' ∈ migrations /\ completes (app m) m' = true.
Proof.
  intros Hm. pose proof (every_migration (fun m => existsb (completes (app m)) migrations)
    ltac:(vm_compute; reflexivity) m Hm) as H. cbv beta in H.
  apply existsb_exists in H as (m' & Hin & Hc). exists m'. split; [by apply list_elem_of_In|done].
Qed.

Lemma schema_apps a : is_Some (schema !! a) -> exists m, m ∈ migrations /\ app m = a.
Proof.
  rewrite schema_documented. intros Ha%elem_of_dom.
  assert (Hd : dom (schema (H := demo_auth_models)) = list_to_set (C := gset string) (app <$> migrations))
    by (apply (bool_decide_unpack _); vm_compute; exact I).
  rewrite Hd in Ha. apply elem_of_list_to_set, list_elem_of_fmap in Ha as (m & -> & Hm). by exists m.
Qed.

Lemma same_app (st st' : State) a own :
  app_state st a = own -> own <> ∅ -> st' !! a = Some own -> st !! a = st' !! a.
Proof. unfold app_state. intros Hst Hne ->. destruct (st !! a); [by rewrite <- Hst|by destruct Hne]. Qed.

(** Once all migrations are applied, the declared schema is there. *)
Lemma reached_schema django done st :
  reached django done st -> (forall m, m ∈ migrations -> key m ∈ done) -> st = schema ∪ django.
Proof.
  intros Hr Hdone. apply map_eq. intros a. destruct (schema !! a) as [own|] eqn:Ha.
  - destruct (schema_apps a ltac:(by eexists)) as (m & Hm & <-).
    destruct (last_migration m Hm) as (m' & Hm' & Hc). unfold completes in Hc.
    rewrite !andb_true_iff, !bool_decide_eq_true, <- schema_documented in Hc.
    destruct Hc as [[[Happ%String.eqb_eq Hlast] Hown] Hne].
    apply (same_app _ _ _ (after (key m'))); [|done|by apply lookup_union_Some_l].
    rewrite <- Happ. apply (latest_applied _ _ _ Hr); [done|by apply Hdone|]. intros m2 Hm2 Hp.
    rewrite forallb_forall in Hlast. specialize (Hlast m2 (proj1 (list_elem_of_In _ _) Hm2)).
    by rewrite bool_decide_true in Hlast.
  - rewrite lookup_union_r by done. apply (untouched _ _ _ Hr). intros m Hm <-.
    destruct (last_migration m Hm) as (m' & _ & Hc). unfold completes in Hc.
    rewrite !andb_true_iff, !bool_decide_eq_true, <- schema_documented, Ha in Hc.
    by destruct Hc as [[_ ?] _].
Qed.

(** [C8] In whatever order the migrations of the repository run, as long as each
    comes after those it depends on, none of them fails, and a database that
    had only Django's own tables has exactly the tables, fields, indexes and
    constraints that the models declare.  The order they are listed in is such
    an order. *)
Theorem migrations_build_schema (django : State) :
  offers auth_models django -> (forall m, m ∈ migrations -> django !! app m = None) ->
  (forall plan, plan ≡ₚ migrations -> in_order auth_migrations plan = true ->
     migrate plan django = Some (schema ∪ django)) /\
  in_order auth_migrations migrations = true.
Proof.
  intros Hauth Hfresh. split; [|vm_compute; reflexivity]. intros plan Hperm Horder.
  assert (Hnew : forall m, m ∈ migrations -> key m ∉ auth_migrations).
  { intros m Hm Hin%list_elem_of_singleton. destruct (not_auth m Hm). unfold app. by rewrite Hin. }
  destruct (reached_plan django Hauth Hfresh plan auth_migrations django) as (st & Hrun & Hr).
  - split; [| done | | by intros l | ]; intros m; intros; exfalso; by apply (Hnew m).
  - intros m. by rewrite Hperm.
  - rewrite Hperm. apply keys_distinct.
  - intros m. rewrite Hperm. apply Hnew.
  - done.
  - rewrite Hrun. f_equal. apply (reached_schema _ _ _ Hr). intros m Hm.
    apply elem_of_app. left. rewrite elem_of_reverse, Hperm. by apply list_elem_of_fmap_2.
Qed.

End schema_built.

Lemma migrations_build_schema_witness :
  migrate (security_0001 :: []) auth_models = None /\
  migrate migrations auth_models = Some (schema (H := demo_auth_models) ∪ auth_models).
Proof.
  split; [vm_compute; reflexivity|].
  refine (proj1 (migrations_build_schema (A := demo_auth_models) auth_models _ _) migrations _ _);
    [by intros l | | done | vm_compute; reflexivity].
  intros m Hm. unfold auth_models. rewrite lookup_singleton_ne; [done|].
  intros Ha. by destruct (not_auth m Hm).
Defined.
