(* ===== verification/Registry.v ===== *)
(** * The registrations of the admin site

    What [apps/*/admin.py] register, as data: which columns a page lists,
    searches and shows, which its form writes, who may add, change and delete.
    The rules that turn such a registration into a page are the documented ones
    of [django.contrib.admin]; the hooks that run on a write are in [SiteAdmin]. *)

From S2P Require Import Prelude Env Models Schema.

(** ** Registrations *)

Inductive admin_verb := Add | Change | Delete.
#[export] Instance admin_verb_eq_dec : EqDecision admin_verb.
Proof. solve_decision. Defined.

(** A model edited inside the page of another one. *)
Record Inline := MkInline {
  inline_model : Label;
  inline_readonly : list string;
  inline_autocomplete : list string;
  max_num : option Z;
}.

(** [audited] says that the class has [AuditAdminMixin]; [disabled] are the
    fields its form shows without accepting a value ([UserChangeForm] does so
    with the password hash); [denied] are the verbs whose [has_*_permission] is
    constantly [False]. *)
Record ModelAdmin := {
  model : Label;
  audited : bool;
  list_display : list string;
  list_filter : list string;
  search_fields : list string;
  readonly_fields : list string;
  exclude : list string;
  autocomplete_fields : list string;
  disabled : list string;
  fieldsets : option (list string);
  add_fieldsets : option (list string);
  inlines : list Inline;
  actions : list string;
  denied : list admin_verb;
}.

(** [[field.name for field in Model._meta.fields]] *)
Definition meta_fields (d : Declaration) : list string := column_names d.

(** [apps/accounts/admin.py] *)

Definition UserProfileInline : Inline :=
  MkInline ("accounts", "userprofile") [] [] (Some 1).

Definition UserPreferencesInline : Inline :=
  MkInline ("accounts", "userpreferences") [] [] (Some 1).

Definition UserSecuritySettingsInline : Inline :=
  MkInline ("accounts", "usersecuritysettings")
    ["password_changed_at"; "locked_until"; "created_at"; "updated_at"] [] (Some 1).

Definition UserAdmin : ModelAdmin := {|
  model := ("accounts", "user");
  audited := true;
  list_display := ["email"; "username"; "status"; "is_active"; "is_staff"; "email_verified_at"; "created_at"];
  list_filter := ["status"; "is_active"; "is_staff"; "is_superuser"; "email_verified_at"; "created_at"];
  search_fields := ["email"; "username"; "first_name"; "last_name"];
  readonly_fields := ["id"; "last_login"; "last_login_ip"; "date_joined"; "created_at"; "updated_at"];
  exclude := [];
  autocomplete_fields := [];
  disabled := ["password"];
  fieldsets := Some ["id"; "email"; "username"; "password"; "first_name"; "last_name"; "avatar"; "phone";
    "email_verified_at"; "phone_verified_at"; "status"; "is_active"; "is_staff"; "is_superuser"; "groups";
    "user_permissions"; "last_login"; "last_login_ip"; "date_joined"; "created_at"; "updated_at"];
  add_fieldsets := Some ["email"; "username"; "password1"; "password2"; "status"; "is_staff"];
  inlines := [UserProfileInline; UserPreferencesInline; UserSecuritySettingsInline];
  actions := [];
  denied := [];
|}.

Definition UserBanAdmin : ModelAdmin := {|
  model := ("accounts", "userban");
  audited := true;
  list_display := ["user"; "banned_by"; "starts_at"; "expires_at"; "revoked_at"; "created_at"];
  list_filter := ["starts_at"; "expires_at"; "revoked_at"];
  search_fields := ["user__email"; "user__username"; "reason"];
  readonly_fields := ["id"; "created_at"; "revoked_at"];
  exclude := [];
  autocomplete_fields := ["user"; "banned_by"];
  disabled := [];
  fieldsets := None;
  add_fieldsets := None;
  inlines := [];
  actions := ["revoke_selected"];
  denied := [];
|}.

(** [apps/authentication/admin.py] *)

Definition UserSessionAdmin : ModelAdmin := {|
  model := ("authentication", "usersession");
  audited := false;
  list_display := ["identifier"; "user"; "ip_address"; "browser"; "operating_system"; "device";
    "last_activity_at"; "revoked_at"];
  list_filter := ["device"; "revoked_at"; "created_at"; "last_activity_at"];
  search_fields := ["identifier"; "user__email"; "ip_address"; "browser"; "operating_system"];
  readonly_fields := ["id"; "identifier"; "user"; "ip_address"; "user_agent"; "browser"; "operating_system";
    "device"; "location"; "created_at"; "last_activity_at"; "revoked_at"];
  exclude := ["session_key_hash"; "encrypted_session_key"];
  autocomplete_fields := ["user"];
  disabled := [];
  fieldsets := None;
  add_fieldsets := None;
  inlines := [];
  actions := [];
  denied := [Add];
|}.

Definition OneTimeTokenAdmin : ModelAdmin := {|
  model := ("authentication", "onetimetoken");
  audited := false;
  list_display := ["user"; "purpose"; "created_at"; "expires_at"; "used_at"];
  list_filter := ["purpose"; "created_at"; "expires_at"; "used_at"];
  search_fields := ["user__email"];
  readonly_fields := ["id"; "user"; "purpose"; "metadata"; "created_at"; "expires_at"; "used_at"];
  exclude := ["token_hash"];
  autocomplete_fields := [];
  disabled := [];
  fieldsets := None;
  add_fieldsets := None;
  inlines := [];
  actions := [];
  denied := [Add];
|}.

Definition TwoFactorCredentialAdmin : ModelAdmin := {|
  model := ("authentication", "twofactorcredential");
  audited := false;
  list_display := ["user"; "created_at"; "confirmed_at"; "disabled_at"];
  list_filter := ["confirmed_at"; "disabled_at"];
  search_fields := ["user__email"];
  readonly_fields := ["id"; "user"; "created_at"; "confirmed_at"; "disabled_at"];
  exclude := ["encrypted_secret"];
  autocomplete_fields := [];
  disabled := [];
  fieldsets := None;
  add_fieldsets := None;
  inlines := [];
  actions := [];
  denied := [Add];
|}.

Definition RecoveryCodeAdmin : ModelAdmin := {|
  model := ("authentication", "recoverycode");
  audited := false;
  list_display := ["credential"; "created_at"; "used_at"];
  list_filter := ["created_at"; "used_at"];
  search_fields := [];
  readonly_fields := ["id"; "credential"; "created_at"; "used_at"];
  exclude := ["code_hash"];
  autocomplete_fields := [];
  disabled := [];
  fieldsets := None;
  add_fieldsets := None;
  inlines := [];
  actions := [];
  denied := [Add];
|}.

(** [apps/authorization/admin.py] *)

Definition RolePermissionInline : Inline :=
  MkInline ("authorization", "rolepermission") [] ["permission"] (None).

Definition RoleAdmin : ModelAdmin := {|
  model := ("authorization", "role");
  audited := true;
  list_display := ["name"; "slug"; "priority"; "is_system"; "created_at"];
  list_filter := ["is_system"; "priority"];
  search_fields := ["name"; "slug"; "description"];
  readonly_fields := ["id"; "created_at"; "updated_at"];
  exclude := [];
  autocomplete_fields := [];
  disabled := [];
  fieldsets := None;
  add_fieldsets := None;
  inlines := [RolePermissionInline];
  actions := [];
  denied := [];
|}.

Definition PermissionAdmin : ModelAdmin := {|
  model := ("authorization", "permission");
  audited := true;
  list_display := ["codename"; "description"; "is_system"; "created_at"];
  list_filter := ["is_system"];
  search_fields := ["codename"; "description"];
  readonly_fields := ["id"; "created_at"; "updated_at"];
  exclude := [];
  autocomplete_fields := [];
  disabled := [];
  fieldsets := None;
  add_fieldsets := None;
  inlines := [];
  actions := [];
  denied := [];
|}.

Definition UserRoleAdmin : ModelAdmin := {|
  model := ("authorization", "userrole");
  audited := true;
  list_display := ["user"; "role"; "valid_from"; "valid_until"; "granted_by"];
  list_filter := ["role"; "valid_from"; "valid_until"];
  search_fields := ["user__email"; "user__username"; "role__name"];
  readonly_fields := ["id"; "created_at"];
  exclude := [];
  autocomplete_fields := ["user"; "role"; "granted_by"];
  disabled := [];
  fieldsets := None;
  add_fieldsets := None;
  inlines := [];
  actions := [];
  denied := [];
|}.

Definition UserPermissionOverrideAdmin : ModelAdmin := {|
  model := ("authorization", "userpermissionoverride");
  audited := true;
  list_display := ["user"; "permission"; "effect"; "granted_by"; "updated_at"];
  list_filter := ["effect"; "permission"];
  search_fields := ["user__email"; "permission__codename"; "reason"];
  readonly_fields := ["id"; "created_at"; "updated_at"];
  exclude := [];
  autocomplete_fields := ["user"; "permission"; "granted_by"];
  disabled := [];
  fieldsets := None;
  add_fieldsets := None;
  inlines := [];
  actions := [];
  denied := [];
|}.

(** [apps/security/admin.py] *)

Definition SecurityEventAdmin : ModelAdmin := {|
  model := ("security", "securityevent");
  audited := false;
  list_display := ["event_type"; "user"; "ip_address"; "request_id"; "created_at"];
  list_filter := ["event_type"; "created_at"];
  search_fields := ["user__email"; "request_id"; "ip_address"];
  readonly_fields := meta_fields SecurityEvent_model;
  exclude := [];
  autocomplete_fields := [];
  disabled := [];
  fieldsets := None;
  add_fieldsets := None;
  inlines := [];
  actions := [];
  denied := [Add; Delete];
|}.

Definition LoginThrottleStateAdmin : ModelAdmin := {|
  model := ("security", "loginthrottlestate");
  audited := false;
  list_display := ["attempt_count"; "locked_until"; "expires_at"; "updated_at"];
  list_filter := ["locked_until"; "expires_at"];
  search_fields := [];
  readonly_fields := meta_fields LoginThrottleState_model;
  exclude := [];
  autocomplete_fields := [];
  disabled := [];
  fieldsets := None;
  add_fieldsets := None;
  inlines := [];
  actions := [];
  denied := [Add; Change; Delete];
|}.

(** [apps/audit/admin.py] *)

Definition AuditLogAdmin : ModelAdmin := {|
  model := ("audit", "auditlog");
  audited := false;
  list_display := ["action"; "actor"; "target_type"; "target_repr"; "request_id"; "created_at"];
  list_filter := ["action"; "target_type"; "created_at"];
  search_fields := ["action"; "target_id"; "target_repr"; "request_id"; "actor__email"];
  readonly_fields := meta_fields AuditLog_model;
  exclude := [];
  autocomplete_fields := [];
  disabled := [];
  fieldsets := None;
  add_fieldsets := None;
  inlines := [];
  actions := [];
  denied := [Add; Change; Delete];
|}.

(** [apps/api_keys/admin.py] *)

Definition APIKeyAdmin : ModelAdmin := {|
  model := ("api_keys", "apikey");
  audited := true;
  list_display := ["name"; "owner"; "prefix"; "created_at"; "last_used_at"; "expires_at"; "revoked_at"];
  list_filter := ["created_at"; "last_used_at"; "expires_at"; "revoked_at"];
  search_fields := ["name"; "owner__email"; "prefix"];
  readonly_fields := ["id"; "prefix"; "created_at"; "last_used_at"; "last_used_ip"; "revoked_at"];
  exclude := ["key_hash"];
  autocomplete_fields := ["owner"];
  disabled := [];
  fieldsets := None;
  add_fieldsets := None;
  inlines := [];
  actions := ["revoke_selected"];
  denied := [];
|}.

(** [apps/webhooks/admin.py] *)

Definition WebhookEndpointAdmin : ModelAdmin := {|
  model := ("webhooks", "webhookendpoint");
  audited := true;
  list_display := ["name"; "owner"; "url"; "is_active"; "updated_at"];
  list_filter := ["is_active"; "created_at"];
  search_fields := ["name"; "url"; "owner__email"];
  readonly_fields := ["id"; "created_at"; "updated_at"];
  exclude := ["secret_hash"; "encrypted_secret"];
  autocomplete_fields := ["owner"];
  disabled := [];
  fieldsets := None;
  add_fieldsets := None;
  inlines := [];
  actions := [];
  denied := [];
|}.

Definition WebhookEventAdmin : ModelAdmin := {|
  model := ("webhooks", "webhookevent");
  audited := false;
  list_display := ["event_type"; "created_at"];
  list_filter := ["event_type"; "created_at"];
  search_fields := [];
  readonly_fields := meta_fields WebhookEvent_model;
  exclude := [];
  autocomplete_fields := [];
  disabled := [];
  fieldsets := None;
  add_fieldsets := None;
  inlines := [];
  actions := [];
  denied := [Add];
|}.

Definition WebhookDeliveryAdmin : ModelAdmin := {|
  model := ("webhooks", "webhookdelivery");
  audited := false;
  list_display := ["endpoint"; "event"; "status"; "attempt_count"; "response_code"; "last_attempt_at";
    "next_retry_at"];
  list_filter := ["status"; "response_code"; "last_attempt_at"; "next_retry_at"];
  search_fields := ["endpoint__name"; "event__event_type"];
  readonly_fields := meta_fields WebhookDelivery_model;
  exclude := [];
  autocomplete_fields := [];
  disabled := [];
  fieldsets := None;
  add_fieldsets := None;
  inlines := [];
  actions := [];
  denied := [Add];
|}.

(** [apps/notifications/admin.py] *)

Definition NotificationAdmin : ModelAdmin := {|
  model := ("notifications", "notification");
  audited := true;
  list_display := ["title"; "user"; "type"; "read_at"; "expires_at"; "created_at"];
  list_filter := ["type"; "read_at"; "expires_at"; "created_at"];
  search_fields := ["title"; "message"; "user__email"];
  readonly_fields := ["id"; "created_at"];
  exclude := [];
  autocomplete_fields := ["user"];
  disabled := [];
  fieldsets := None;
  add_fieldsets := None;
  inlines := [];
  actions := [];
  denied := [];
|}.

(** [apps/files/admin.py] *)

Definition StoredFileAdmin : ModelAdmin := {|
  model := ("files", "storedfile");
  audited := true;
  list_display := ["original_name"; "owner"; "content_type"; "size"; "status"; "created_at"; "deleted_at"];
  list_filter := ["status"; "content_type"; "created_at"; "deleted_at"];
  search_fields := ["original_name"; "owner__email"; "checksum_sha256"];
  readonly_fields := ["id"; "checksum_sha256"; "size"; "content_type"; "created_at"; "last_accessed_at";
    "deleted_at"];
  exclude := [];
  autocomplete_fields := ["owner"];
  disabled := [];
  fieldsets := None;
  add_fieldsets := None;
  inlines := [];
  actions := [];
  denied := [];
|}.

(** [apps/core/admin.py] *)

Definition SettingAdmin : ModelAdmin := {|
  model := ("core", "setting");
  audited := true;
  list_display := ["key"; "value_type"; "group"; "is_public"; "updated_at"];
  list_filter := ["value_type"; "group"; "is_public"];
  search_fields := ["key"; "description"];
  readonly_fields := ["id"; "created_at"; "updated_at"];
  exclude := [];
  autocomplete_fields := [];
  disabled := [];
  fieldsets := None;
  add_fieldsets := None;
  inlines := [];
  actions := [];
  denied := [];
|}.

Definition FeatureFlagAdmin : ModelAdmin := {|
  model := ("core", "featureflag");
  audited := true;
  list_display := ["key"; "enabled"; "updated_at"];
  list_filter := ["enabled"];
  search_fields := ["key"; "description"];
  readonly_fields := ["id"; "created_at"; "updated_at"];
  exclude := [];
  autocomplete_fields := [];
  disabled := [];
  fieldsets := None;
  add_fieldsets := None;
  inlines := [];
  actions := [];
  denied := [];
|}.

Definition IdempotencyRecordAdmin : ModelAdmin := {|
  model := ("core", "idempotencyrecord");
  audited := false;
  list_display := ["user"; "request_method"; "request_path"; "response_status"; "created_at"; "expires_at"];
  list_filter := ["request_method"; "response_status"; "created_at"; "expires_at"];
  search_fields := ["user__email"; "request_path"];
  readonly_fields := meta_fields IdempotencyRecord_model;
  exclude := ["key_hash"; "request_hash"; "response_body"];
  autocomplete_fields := [];
  disabled := [];
  fieldsets := None;
  add_fieldsets := None;
  inlines := [];
  actions := [];
  denied := [Add];
|}.

(** [admin.site]: every model that is registered. *)
Definition registry : list ModelAdmin :=
  [UserAdmin; UserBanAdmin; UserSessionAdmin; OneTimeTokenAdmin;
   TwoFactorCredentialAdmin; RecoveryCodeAdmin; RoleAdmin; PermissionAdmin;
   UserRoleAdmin; UserPermissionOverrideAdmin; SecurityEventAdmin; LoginThrottleStateAdmin;
   AuditLogAdmin; APIKeyAdmin; WebhookEndpointAdmin; WebhookEventAdmin;
   WebhookDeliveryAdmin; NotificationAdmin; StoredFileAdmin; SettingAdmin;
   FeatureFlagAdmin; IdempotencyRecordAdmin].

(** ** Pages *)

Definition mem (x : string) (l : list string) : bool := bool_decide (x ∈ l).

Section pages.
Context `{AuthModels}.

Definition declaration_of (l : Label) : option Declaration :=
  List.find (fun d => bool_decide (label d = l)) declarations.
Definition fields_at (l : Label) : fields_of := match declaration_of l with Some d => fields d | None => [] end.
Definition field_at (l : Label) (c : string) : option Field.t := declaration_of l ≫= fun d => find_field d c.

(** The fields of a model a form can have: those that are editable; a relation
    with a model of its own is edited through that model. *)
Definition formable (f : Field.t) : bool :=
  Field.editable f && match Field.type f with Field.ManyToMany _ (Some _) => false | _ => true end.
Definition formable_at (l : Label) (c : string) : bool :=
  match field_at l c with Some f => formable f | None => false end.

(** The columns the form of the change page writes. *)
Definition writable (a : ModelAdmin) : list string :=
  if bool_decide (Change ∈ denied a) then [] else
  List.filter (fun c => formable_at (model a) c && negb (mem c (readonly_fields a)) && negb (mem c (exclude a))
                        && negb (mem c (disabled a)))
    (match fieldsets a with Some l => l | None => (fields_at (model a)).*1 end).

(** The columns the add page writes; the form that creates a user sets the
    password from its two own fields. *)
Definition written_on_add (a : ModelAdmin) : list string :=
  match add_fieldsets a with
  | Some l => "password" :: List.filter (formable_at (model a)) l
  | None => List.filter (fun c => formable_at (model a) c && negb (mem c (readonly_fields a))
                                  && negb (mem c (exclude a))) (fields_at (model a)).*1
  end.

(** An inline needs exactly one foreign key to the model of its page, which is
    set from the page; it writes the other columns. *)
Definition inline_keys (a : ModelAdmin) (i : Inline) : list string :=
  (List.filter (fun f => bool_decide (Field.target f.2 = Some (model a))) (fields_at (inline_model i))).*1.
Definition inline_writable (a : ModelAdmin) (i : Inline) : list string :=
  List.filter (fun c => formable_at (inline_model i) c && negb (mem c (inline_readonly i))
                        && negb (mem c (inline_keys a i))) (fields_at (inline_model i)).*1.

(** A page shows the read-only fields after those of the form: leaving one out
    of the form does not hide it. *)
Definition shown (a : ModelAdmin) : list string :=
  match fieldsets a with Some l => l | None => writable a ++ readonly_fields a end.

(** A column that a new row needs and nothing fills in. *)
Definition needs_value (f : Field.t) : bool :=
  Field.concrete f && negb (Field.null f) && negb (Field.blank f) && is_none (Field.default f).
Definition gaps (a : ModelAdmin) : list string :=
  if bool_decide (Add ∈ denied a) then [] else
  (List.filter (fun f => needs_value f.2 && negb (mem f.1 (written_on_add a))) (fields_at (model a))).*1.

(** ** Names in a registration *)

(** A lookup such as [user__email]: its path. *)
Fixpoint lookup_path (s : string) : list string :=
  match s with
  | EmptyString => [""]
  | String "_" (String "_" rest) => "" :: lookup_path rest
  | String c rest => match lookup_path rest with [] => [] | first :: l => String c first :: l end
  end.

(** Whether a path leads along relations to a column. *)
Fixpoint path_resolves (l : Label) (path : list string) : bool :=
  match path with
  | [] => false
  | [c] => match field_at l c with Some f => Field.concrete f | None => false end
  | c :: rest =>
      match field_at l c ≫= Field.target with
      | Some to => path_resolves to rest
      | None => false
      end
  end.

Definition registered (l : Label) : option ModelAdmin := List.find (fun a => bool_decide (model a = l)) registry.

(** An autocomplete field asks the search of the page of its target. *)
Definition autocompletes (l : Label) (c : string) : bool :=
  match field_at l c ≫= Field.target with
  | Some to => match registered to with Some a => negb (bool_decide (search_fields a = [])) | None => false end
  | None => false
  end.

Definition names_resolve (a : ModelAdmin) : Prop :=
  Forall (fun c => is_Some (field_at (model a) c))
    (list_display a ++ list_filter a ++ readonly_fields a ++ exclude a ++ disabled a ++ default [] (fieldsets a)) /\
  Forall (fun s => path_resolves (model a) (lookup_path s) = true) (search_fields a) /\
  Forall (fun c => autocompletes (model a) c = true) (autocomplete_fields a) /\
  Forall (fun i => length (inline_keys a i) = 1%nat /\
                   Forall (fun c => is_Some (field_at (inline_model i) c)) (inline_readonly i) /\
                   Forall (fun c => autocompletes (inline_model i) c = true) (inline_autocomplete i)) (inlines a).

(** ** Secrets *)

(** The columns that hold a hash or a ciphertext of something secret: what
    [keyed_hash], [encrypt_value] and [set_password] produce. *)
Definition secret_columns : list (Label * string) :=
  [(AUTH_USER_MODEL, "password"); (("authentication", "onetimetoken"), "token_hash");
   (("authentication", "usersession"), "session_key_hash");
   (("authentication", "usersession"), "encrypted_session_key");
   (("authentication", "twofactorcredential"), "encrypted_secret"); (("authentication", "recoverycode"), "code_hash");
   (("api_keys", "apikey"), "key_hash"); (("webhooks", "webhookendpoint"), "secret_hash");
   (("webhooks", "webhookendpoint"), "encrypted_secret"); (("core", "idempotencyrecord"), "key_hash");
   (("core", "idempotencyrecord"), "request_hash"); (("security", "loginthrottlestate"), "dimension_hash")].
Definition secrets_of (l : Label) : list string :=
  (List.filter (fun s => bool_decide (s.1 = l)) secret_columns).*2.

(** The journals. *)
Definition journal_models : list Label := [("audit", "auditlog"); ("security", "securityevent")].

(** Pages whose deletions leave no entry in the audit journal. *)
Definition silent_deletions : list Label :=
  model <$> List.filter (fun a => negb (audited a) && negb (bool_decide (Delete ∈ denied a))) registry.

(** What the pages of audited models write through inlines, which
    [AuditAdminMixin.save_model] does not see. *)
Definition silent_inlines : list (Label * list string) :=
  concat ((fun a => (fun i => (inline_model i, inline_writable a i)) <$> inlines a) <$> registry).

Definition shown_secrets : list (Label * string) :=
  concat ((fun a => pair (model a) <$> List.filter (fun c => mem c (shown a)) (secrets_of (model a))) <$> registry).
(** Columns a page is told to exclude and shows all the same. *)
Definition shown_exclusions : list (Label * string) :=
  concat ((fun a => pair (model a) <$> List.filter (fun c => mem c (shown a)) (exclude a)) <$> registry).

Definition incomplete_adds : list (Label * list string) :=
  List.filter (fun x => negb (bool_decide (x.2 = []))) ((fun a => (model a, gaps a)) <$> registry).

End pages.

(** ** What the admin site can do *)

(** A statement about the concrete registry, once the inherited fields are known. *)
Ltac by_registry A L :=
  destruct A as [base mixin], L as [Hb Hm]; cbn in Hb, Hm; subst base mixin;
  apply (bool_decide_unpack _); vm_compute; exact I.

Section site.
Context `{A : AuthModels, L : !AuthModelsLaws}.

(** The system checks of the admin site: every name of a registration is a
    field, a lookup that leads to a column, or a relation whose target can be
    searched. *)
Theorem registry_resolves : Forall names_resolve registry.
Proof. by_registry A L. Qed.



(** The add pages of the admin site fill every column a new row needs, except
    three: an API key gets no prefix and no hash, a webhook endpoint no secret,
    a stored file no type, size and checksum. *)
Theorem add_pages_complete :
  incomplete_adds =
    [(("api_keys", "apikey"), ["prefix"; "key_hash"]);
     (("webhooks", "webhookendpoint"), ["secret_hash"; "encrypted_secret"]);
     (("files", "storedfile"), ["content_type"; "size"; "checksum_sha256"])].
Proof. by_registry A L. Qed.

End site.

(** ** Witnesses *)



Lemma add_pages_complete_witness : length (incomplete_adds (H := demo_auth_models)) = 3%nat.
Proof. rewrite (add_pages_complete (A := demo_auth_models)). reflexivity. Defined.
