(* ===== verification/Orm.v ===== *)
(** * Services: effects, queries and transactions

    A service call is a computation in the monad [M]: it reads and writes a
    [World] (database, cache, the HTTP session being served, clock and entropy
    positions, pending [on_commit] callbacks and the trace of effects that
    left the process) and ends with a value or a Python exception.  An
    exception does not undo what was done before it; only [atomic] does.

    The query and transaction primitives state the documented meaning of the
    Django ORM calls the services make, over the tables of [Models]. *)

From S2P Require Import Prelude Env Models.

(** ** The world *)

(** What a service hands to the outside. *)
Inductive effect :=
| SendEmail (template recipient subject : string) (context : list (string * pyval))
| PublishEvent (name : string) (actor_id : option string) (target_type target_id : string)
| DeleteStored (name : string)
| DispatchWebhooks
| QueueTask (name argument : string).

(** [request.session]. *)
Record HttpSession := MkHttpSession {
  session_key : option string;
  session_user : option uuid;
  session_expiry : option Z;
}.
#[export] Instance eta_HttpSession : Eta HttpSession := fun s =>
  MkHttpSession s.(session_key) s.(session_user) s.(session_expiry).

Record World := MkWorld {
  db : DB;
  ticks : nat;
  draws : nat;
  depth : nat;
  hooks : list effect;
  effects : list effect;
  cache : gmap string (pyval * Z);
  http_session : HttpSession;
}.
#[export] Instance eta_World : Eta World := fun w =>
  MkWorld w.(db) w.(ticks) w.(draws) w.(depth) w.(hooks) w.(effects) w.(cache) w.(http_session).

Definition anonymous_session : HttpSession := MkHttpSession None None None.
Definition initial_world (d : DB) : World := MkWorld d 0 0 0 [] [] ∅ anonymous_session.

(** ** The monad *)

Definition M (A : Type) : Type := World -> (exn + A) * World.

Definition ret {A} (a : A) : M A := fun w => (inr a, w).
Definition raise {A} (e : exn) : M A := fun w => (inl e, w).
Definition bind {A B} (m : M A) (f : A -> M B) : M B := fun w =>
  match m w with
  | (inr a, w') => f a w'
  | (inl e, w') => (inl e, w')
  end.

(** [try: m except: handler]; the handler re-raises what it does not catch. *)
Definition try_except {A} (m : M A) (handler : exn -> M A) : M A := fun w =>
  match m w with
  | (inr a, w') => (inr a, w')
  | (inl e, w') => handler e w'
  end.

Notation "'let!' x ':=' m 'in' k" := (bind m (fun x => k))
  (at level 10, x binder, m at level 100, k at level 200,
   format "'[v' 'let!'  x  ':='  '[' m ']'  'in' '/' k ']'") : svc_scope.
Notation "'let!' ' p ':=' m 'in' k" := (bind m (fun x => match x with p => k end))
  (at level 10, p strict pattern, m at level 100, k at level 200) : svc_scope.
Notation "m ';;' k" := (bind m (fun _ => k))
  (at level 100, right associativity, format "'[v' m  ';;' '/' k ']'") : svc_scope.
#[global] Open Scope svc_scope.

(** [if cond: m] with no [else]. *)
Definition when (c : bool) (m : M unit) : M unit := if c then m else ret tt.

(** [for x in l: f(x)] *)
Fixpoint for_each {A} (l : list A) (f : A -> M unit) : M unit :=
  match l with
  | [] => ret tt
  | x :: l' => f x ;; for_each l' f
  end.

(** The same loop with an accumulator. *)
Fixpoint fold_m {A B} (f : B -> A -> M B) (b : B) (l : list A) : M B :=
  match l with
  | [] => ret b
  | x :: l' => let! b' := f b x in fold_m f b' l'
  end.

Definition get_world : M World := fun w => (inr w, w).
Definition modify (f : World -> World) : M unit := fun w => (inr tt, f w).
Definition read {A} (f : World -> A) : M A := fun w => (inr (f w), w).
Definition modify_db (f : DB -> DB) : M unit := modify (fun w => w <| db ::= f |>).

(** ** Clock and entropy *)

Section sources.
Context `{E : Env}.

(** [timezone.now()]: the next reading of the clock. *)
Definition now : M Z := fun w => (inr (clock w.(ticks)), w <| ticks ::= S |>).

Definition draw {A} (f : nat -> A) : M A := fun w => (inr (f w.(draws)), w <| draws ::= S |>).

End sources.

(** ** Queries *)

Section orm.
Context `{E : Env} {R : Type} `{Model R}.
Implicit Types (P : uuid -> R -> bool) (f : R -> R).

Definition table : M (gmap uuid R) := read (fun w => objects w.(db)).

(** [objects.filter(P)], as a list in the order the database returns it. *)
Definition filter_rows P : M (list (uuid * R)) := read (fun w => Table.select P (objects w.(db))).

(** [objects.filter(P).exists()] *)
Definition exists_row P : M bool := read (fun w => Table.any P (objects w.(db))).

(** [.first()] on a queryset without an ordering takes the smallest primary
    key; with [Meta.ordering] the row that the ordering puts first. *)
Definition pk_order (a b : uuid * R) : bool := N.leb a.1 b.1.
Definition first_row_by (le : uuid * R -> uuid * R -> bool) P : M (option (uuid * R)) :=
  read (fun w => Table.first le P (objects w.(db))).
Definition first_row P : M (option (uuid * R)) := first_row_by pk_order P.

(** [objects.get(P)] *)
Definition get P : M (uuid * R) := fun w =>
  match Table.select P (objects w.(db)) with
  | [x] => (inr x, w)
  | [] => (inl DoesNotExist, w)
  | _ => (inl MultipleObjectsReturned, w)
  end.

(** [objects.get(pk=k)] *)
Definition get_pk (k : uuid) : M R := fun w =>
  match objects w.(db) !! k with
  | Some r => (inr r, w)
  | None => (inl DoesNotExist, w)
  end.

Definition conflicts (k : uuid) (r : R) (t : gmap uuid R) : bool :=
  Table.any (fun k' r' => negb (N.eqb k' k) && row_clash r r') t.

Definition put (k : uuid) (r : R) : M unit := modify_db (with_objects (insert k r)).

(** [objects.create(...)]: a fresh UUID primary key, then INSERT. *)
Definition create (r : R) : M (uuid * R) :=
  let! k := draw uuid4 in
  let! t := table in
  if is_some (t !! k) || conflicts k r t then raise IntegrityError
  else put k r ;; ret (k, r).

(** [instance.save(update_fields=...)]: the update [f] of the named columns on
    the stored row. *)
Definition save_fields (k : uuid) (f : R -> R) : M unit :=
  let! t := table in
  match t !! k with
  | None => raise DatabaseError
  | Some r => if conflicts k (f r) t then raise IntegrityError else put k (f r)
  end.

(** [objects.filter(P).update(...)] and [objects.filter(P).delete()], for
    columns that carry no constraint; both return the number of rows. *)
Definition update_where P f : M nat :=
  let! t := table in
  modify_db (with_objects (Table.update P f)) ;;
  ret (Table.count P t).

Definition delete_where P : M nat :=
  let! t := table in
  modify_db (with_objects (Table.remove P)) ;;
  ret (Table.count P t).

(** [objects.get_or_create(P, defaults=...)]; the row to insert is only
    computed when there is none. *)
Definition get_or_create P (new : M R) : M (uuid * R * bool) :=
  let! rows := filter_rows P in
  match rows with
  | [x] => ret (x, false)
  | [] => let! r := new in let! x := create r in ret (x, true)
  | _ => raise MultipleObjectsReturned
  end.

(** [objects.update_or_create(P, defaults=...)]: [change] writes the defaults on
    the row found, [new] carries them on a new one. *)
Definition update_or_create P (change : M (R -> R)) (new : M R) : M (uuid * R * bool) :=
  let! rows := filter_rows P in
  match rows with
  | [(k, r)] => let! f := change in save_fields k f ;; ret ((k, f r), false)
  | [] => let! r := new in let! x := create r in ret (x, true)
  | _ => raise MultipleObjectsReturned
  end.

(** [instance.delete()] *)
Definition delete_row (k : uuid) : M unit :=
  modify_db (with_objects (base.delete k)).

End orm.

(** ** Transactions *)

(** [transaction.atomic]: an exception restores the database and forgets the
    callbacks registered inside; when the outermost block ends normally the
    transaction commits and the callbacks run. *)
Definition run_hooks (w : World) : World :=
  w <| effects := w.(effects) ++ w.(hooks) |> <| hooks := [] |>.

Definition atomic {A} (m : M A) : M A := fun w =>
  match m (w <| depth ::= S |>) with
  | (inr a, w') =>
      let w'' := w' <| depth := w.(depth) |> in
      (inr a, if Nat.eqb w.(depth) 0 then run_hooks w'' else w'')
  | (inl e, w') =>
      (inl e, w' <| db := w.(db) |> <| hooks := w.(hooks) |> <| depth := w.(depth) |>)
  end.

(** [transaction.on_commit]: at once when no transaction is open. *)
Definition on_commit (e : effect) : M unit := fun w =>
  (inr tt, if Nat.eqb w.(depth) 0 then w <| effects ::= fun l => l ++ [e] |>
           else w <| hooks ::= fun l => l ++ [e] |>).

(** An effect that does not wait for the transaction. *)
Definition perform (e : effect) : M unit := modify (fun w => w <| effects ::= fun l => l ++ [e] |>).
