(* ===== verification/Logic.v ===== *)
(** * Reasoning about services

    [wp m Q X w]: run from [w], [m] ends normally in a state satisfying [Q] or
    raises in a state satisfying [X].  [evolves R m]: whatever happens, [m]
    moves the database along the preorder [R]; because [atomic] can only take
    the database back to where it was, such facts compose through rollbacks. *)

From S2P Require Import Prelude Env Models Orm.

Definition wp {A} (m : M A) (Q : A -> World -> Prop) (X : exn -> World -> Prop) (w : World) : Prop :=
  match m w with
  | (inr a, w') => Q a w'
  | (inl e, w') => X e w'
  end.

(** Postconditions that only speak of normal ends. *)
Definition on_success {A} (m : M A) (Q : A -> World -> Prop) (w : World) : Prop :=
  wp m Q (fun _ _ => True) w.

Section wp.
Context {A B : Type}.
Implicit Types (m : M A) (f : A -> M B).

Lemma wp_bind m f Q X w : wp (bind m f) Q X w <-> wp m (fun a w' => wp (f a) Q X w') X w.
Proof. unfold wp, bind. by destruct (m w) as [[e|a] w']. Qed.

Lemma wp_ret (a : A) Q X w : wp (ret a) Q X w <-> Q a w.
Proof. done. Qed.

Lemma wp_raise e Q X w : wp (raise (A := A) e) Q X w <-> X e w.
Proof. done. Qed.

Lemma wp_mono m (Q Q' : A -> World -> Prop) (X X' : exn -> World -> Prop) w :
  wp m Q X w -> (forall a w', Q a w' -> Q' a w') -> (forall e w', X e w' -> X' e w') ->
  wp m Q' X' w.
Proof. unfold wp. destruct (m w) as [[e|a] w']; auto. Qed.

(** What holds of every run holds of the run at hand. *)
Lemma wp_result m Q X w a w' : wp m Q X w -> m w = (inr a, w') -> Q a w'.
Proof. unfold wp. intros H Hm. by rewrite Hm in H. Qed.

Lemma wp_exception m Q X w e w' : wp m Q X w -> m w = (inl e, w') -> X e w'.
Proof. unfold wp. intros H Hm. by rewrite Hm in H. Qed.

Lemma wp_try m (h : exn -> M A) Q X w :
  wp (try_except m h) Q X w <-> wp m Q (fun e w' => wp (h e) Q X w') w.
Proof. unfold wp, try_except. by destruct (m w) as [[e|a] w']. Qed.

(** A run that cannot raise returns, and one that cannot return raises. *)
Lemma wp_returns m Q w : wp m Q (fun _ _ => False) w -> exists a w', m w = (inr a, w') /\ Q a w'.
Proof. unfold wp. destruct (m w) as [[e|a] w']; [done|]. eauto. Qed.

Lemma wp_raises m X w : wp m (fun _ _ => False) X w -> exists e w', m w = (inl e, w') /\ X e w'.
Proof. unfold wp. destruct (m w) as [[e|a] w']; [|done]. eauto. Qed.

(** The two ways a run can end, as a [match] on its result. *)
Lemma wp_match m (Q : A -> World -> Prop) (X : exn -> World -> Prop) w :
  wp m Q X w -> match m w with (inr a, w') => Q a w' | (inl e, w') => X e w' end.
Proof. done. Qed.

Lemma wp_and m (Q1 Q2 : A -> World -> Prop) (X1 X2 : exn -> World -> Prop) w :
  wp m Q1 X1 w -> wp m Q2 X2 w -> wp m (fun a w' => Q1 a w' /\ Q2 a w') (fun e w' => X1 e w' /\ X2 e w') w.
Proof. unfold wp. destruct (m w) as [[e|a] w']; auto. Qed.

(** A call with a specification; the equation of the run stays available for
    the frame facts of [evolves_run]. *)
Lemma wp_call m (Q0 Q : A -> World -> Prop) (X0 X : exn -> World -> Prop) w :
  wp m Q0 X0 w ->
  (forall a w', m w = (inr a, w') -> Q0 a w' -> Q a w') ->
  (forall e w', m w = (inl e, w') -> X0 e w' -> X e w') ->
  wp m Q X w.
Proof. unfold wp. destruct (m w) as [[e|a] w']; auto. Qed.

End wp.

Section loops.
Context {A B : Type}.

(** A call about which nothing is known but the equation of its run. *)
Lemma wp_any m (Q : A -> World -> Prop) (X : exn -> World -> Prop) w :
  (forall a w', m w = (inr a, w') -> Q a w') -> (forall e w', m w = (inl e, w') -> X e w') ->
  wp m Q X w.
Proof. unfold wp. destruct (m w) as [[e|a] w']; auto. Qed.

(** Loops, by an invariant on the part of the list already visited. *)
Lemma wp_fold_m (Inv : list A -> B -> World -> Prop) (f : B -> A -> M B) X l b w :
  (forall seen x rest b w, l = seen ++ x :: rest -> Inv seen b w ->
     wp (f b x) (fun b' w' => Inv (seen ++ [x]) b' w') X w) ->
  Inv [] b w -> wp (fold_m f b l) (Inv l) X w.
Proof.
  intros Hstep Hinit. assert (H : forall rest seen b w, l = seen ++ rest -> Inv seen b w ->
    wp (fold_m f b rest) (Inv l) X w); [|by apply (H l [])].
  induction rest as [|x rest IH]; intros seen b' w' Hl HI; cbn [fold_m].
  - rewrite Hl, app_nil_r. by apply wp_ret.
  - apply wp_bind. eapply wp_mono; [by eapply Hstep| |done].
    intros b'' w'' HI'. apply (IH (seen ++ [x])); [|done]. by rewrite <- app_assoc.
Qed.

Lemma wp_for_each (Inv : list A -> World -> Prop) (f : A -> M unit) X l w :
  (forall seen x rest w, l = seen ++ x :: rest -> Inv seen w ->
     wp (f x) (fun _ w' => Inv (seen ++ [x]) w') X w) ->
  Inv [] w -> wp (for_each l f) (fun _ => Inv l) X w.
Proof.
  intros Hstep Hinit. assert (H : forall rest seen w, l = seen ++ rest -> Inv seen w ->
    wp (for_each rest f) (fun _ => Inv l) X w); [|by apply (H l [])].
  induction rest as [|x rest IH]; intros seen w' Hl HI; cbn [for_each].
  - rewrite Hl, app_nil_r. by apply wp_ret.
  - unfold wp, bind. pose proof (Hstep seen x rest w' Hl HI) as Hs. unfold wp in Hs.
    destruct (f x w') as [[e|[]] w'']; [done|].
    apply (IH (seen ++ [x])); [|done]. by rewrite <- app_assoc.
Qed.

End loops.

(** The state an atomic block leaves: committed or restored. *)
Definition committed (w w' : World) : World :=
  let w'' := w' <| depth := w.(depth) |> in if Nat.eqb w.(depth) 0 then run_hooks w'' else w''.
Definition restored (w w' : World) : World :=
  w' <| db := w.(db) |> <| hooks := w.(hooks) |> <| depth := w.(depth) |>.

Lemma db_committed w w' : db (committed w w') = db w'.
Proof. unfold committed. by destruct (Nat.eqb _ _). Qed.

Lemma http_session_committed w w' : http_session (committed w w') = http_session w'.
Proof. unfold committed. by destruct (Nat.eqb _ _). Qed.

Lemma ticks_committed w w' : ticks (committed w w') = ticks w'.
Proof. unfold committed. by destruct (Nat.eqb _ _). Qed.

Lemma depth_committed w w' : depth (committed w w') = depth w.
Proof. unfold committed. by destruct (Nat.eqb _ _). Qed.

Lemma wp_atomic {A} (m : M A) Q X w :
  wp (atomic m) Q X w <->
  wp m (fun a w' => Q a (committed w w')) (fun e w' => X e (restored w w')) (w <| depth ::= S |>).
Proof. unfold wp, atomic, committed, restored. by destruct (m _) as [[e|a] w']. Qed.

(** An atomic block that raises leaves the database as it found it and keeps
    none of the callbacks registered inside. *)
Lemma atomic_rollback {A} (m : M A) w e w' :
  atomic m w = (inl e, w') -> db w' = db w /\ hooks w' = hooks w /\ depth w' = depth w.
Proof. unfold atomic. destruct (m _) as [[e'|a] w1]; [|done]. by intros [= <- <-]. Qed.

(** ** Primitives *)

Section primitives.
Context `{E : Env} {R : Type} `{!Model R}.

Lemma wp_now Q X w : wp now Q X w <-> Q (clock w.(ticks)) (w <| ticks ::= S |>).
Proof. done. Qed.

Lemma wp_draw {A} (f : nat -> A) Q X w : wp (draw f) Q X w <-> Q (f w.(draws)) (w <| draws ::= S |>).
Proof. done. Qed.

(** The state [on_commit] leaves: the effect happened or is registered. *)
Definition registered (e : effect) (w : World) : World :=
  if Nat.eqb w.(depth) 0 then w <| effects ::= fun l => l ++ [e] |>
  else w <| hooks ::= fun l => l ++ [e] |>.

Lemma wp_on_commit e Q X w : wp (on_commit e) Q X w <-> Q tt (registered e w).
Proof. done. Qed.

Lemma wp_perform e Q X w :
  wp (perform e) Q X w <-> Q tt (w <| effects ::= fun l => l ++ [e] |>).
Proof. done. Qed.

Lemma db_registered e w : db (registered e w) = db w.
Proof. unfold registered. by destruct (Nat.eqb _ _). Qed.

Lemma http_session_registered e w : http_session (registered e w) = http_session w.
Proof. unfold registered. by destruct (Nat.eqb _ _). Qed.

Lemma draws_registered e w : draws (registered e w) = draws w.
Proof. unfold registered. by destruct (Nat.eqb _ _). Qed.

Lemma wp_read {A} (f : World -> A) Q X w : wp (read f) Q X w <-> Q (f w) w.
Proof. done. Qed.

Lemma wp_modify (f : World -> World) Q X w : wp (modify f) Q X w <-> Q tt (f w).
Proof. done. Qed.

Lemma wp_get_pk (k : uuid) (Q : R -> World -> Prop) X w :
  (forall r, objects w.(db) !! k = Some r -> Q r w) ->
  (objects w.(db) !! k = None -> X DoesNotExist w) ->
  wp (get_pk k) Q X w.
Proof. unfold wp, get_pk. destruct (objects _ !! k) as [r|]; auto. Qed.

(** [.get(P)] finds the one row satisfying [P], or raises because there is
    none or because there are several. *)
Lemma wp_get (P : uuid -> R -> bool) (Q : uuid * R -> World -> Prop) X w :
  (forall k r, objects w.(db) !! k = Some r -> P k r = true -> Q (k, r) w) ->
  ((forall k r, objects w.(db) !! k = Some r -> P k r = false) -> X DoesNotExist w) ->
  ((exists k1 r1 k2 r2, objects w.(db) !! k1 = Some r1 /\ P k1 r1 = true /\
      objects w.(db) !! k2 = Some r2 /\ P k2 r2 = true /\ k1 <> k2) ->
   X MultipleObjectsReturned w) ->
  wp (get P) Q X w.
Proof.
  intros HQ Hne Hmany. unfold wp, get.
  pose proof (fun k r => Table.elem_of_select P (objects (db w)) k r) as Hin.
  pose proof (Table.select_NoDup P (objects (db w))) as Hnd.
  destruct (Table.select P (objects (db w))) as [|[k r] [|[k' r'] l]] eqn:Es.
  - apply Hne. intros k r Hk. destruct (P k r) eqn:EP; [|done].
    pose proof (proj2 (Hin k r) (conj Hk EP)) as Hx. by apply not_elem_of_nil in Hx.
  - destruct (proj1 (Hin k r)) as [??]; [by left|]. auto.
  - apply Hmany. exists k, r, k', r'.
    destruct (proj1 (Hin k r)) as [??]; [by left|].
    destruct (proj1 (Hin k' r')) as [??]; [by right; left|].
    repeat (split; [done|]). cbn in Hnd. apply NoDup_cons in Hnd as [Hn _]. set_solver.
Qed.

Lemma wp_create (r : R) (Q : uuid * R -> World -> Prop) X w :
  (forall k, k = uuid4 w.(draws) -> objects w.(db) !! k = None ->
     conflicts k r (objects w.(db)) = false ->
     Q (k, r) (w <| draws ::= S |> <| db ::= with_objects (insert k r) |>)) ->
  X IntegrityError (w <| draws ::= S |>) ->
  wp (create r) Q X w.
Proof.
  intros HQ HX. unfold create. rewrite wp_bind, wp_draw. unfold table. rewrite wp_bind, wp_read.
  cbn [db upd]. destruct (objects (db w) !! uuid4 (draws w)) eqn:El; cbn; [done|].
  destruct (conflicts _ _ _) eqn:Ec; [done|]. by apply HQ.
Qed.

Lemma wp_save_fields (k : uuid) (f : R -> R) (Q : unit -> World -> Prop) X w :
  (forall r, objects w.(db) !! k = Some r -> conflicts k (f r) (objects w.(db)) = false ->
     Q tt (w <| db ::= with_objects (insert k (f r)) |>)) ->
  (objects w.(db) !! k = None -> X DatabaseError w) ->
  (forall r, objects w.(db) !! k = Some r -> conflicts k (f r) (objects w.(db)) = true ->
     X IntegrityError w) ->
  wp (save_fields k f) Q X w.
Proof.
  intros HQ Hd Hi. unfold save_fields, table. rewrite wp_bind, wp_read.
  destruct (objects (db w) !! k) as [r|] eqn:El; [|by apply Hd].
  destruct (conflicts _ _ _) eqn:Ec; [by eapply Hi|by apply HQ].
Qed.

Lemma wp_update_where (P : uuid -> R -> bool) f Q X w :
  wp (update_where P f) Q X w <->
  Q (Table.count P (objects w.(db))) (w <| db ::= with_objects (Table.update P f) |>).
Proof. done. Qed.

Lemma wp_delete_where (P : uuid -> R -> bool) Q X w :
  wp (delete_where P) Q X w <->
  Q (Table.count P (objects w.(db))) (w <| db ::= with_objects (Table.remove P) |>).
Proof. done. Qed.

Lemma conflicts_false (k : uuid) (r : R) t :
  conflicts k r t = false <-> forall k' r', t !! k' = Some r' -> k' <> k -> row_clash r r' = false.
Proof.
  unfold conflicts. rewrite Table.any_false. split.
  - intros Hc k' r' Hk' Hne. specialize (Hc k' r' Hk').
    destruct (N.eqb_spec k' k); [done|]. done.
  - intros Hc k' r' Hk'. destruct (N.eqb_spec k' k); [done|]. simpl. eauto.
Qed.

Lemma wp_get_or_create (P : uuid -> R -> bool) (new : M R) (Q : uuid * R * bool -> World -> Prop) X w :
  (forall k r, objects w.(db) !! k = Some r -> P k r = true -> Q ((k, r), false) w) ->
  ((forall k r, objects w.(db) !! k = Some r -> P k r = false) ->
   wp new (fun r w1 => wp (create r) (fun x w2 => Q (x, true) w2) X w1) X w) ->
  ((exists k1 r1 k2 r2, objects w.(db) !! k1 = Some r1 /\ P k1 r1 = true /\
      objects w.(db) !! k2 = Some r2 /\ P k2 r2 = true /\ k1 <> k2) ->
   X MultipleObjectsReturned w) ->
  wp (get_or_create P new) Q X w.
Proof.
  intros HQ Hnew Hmany.
  assert (Hget : wp (get P) (fun x w' => Q (x, false) w')
    (fun e w' => if decide (e = DoesNotExist)
                 then forall k r, objects w.(db) !! k = Some r -> P k r = false
                 else X MultipleObjectsReturned w) w) by by apply wp_get.
  unfold get_or_create, filter_rows. rewrite wp_bind, wp_read.
  unfold wp at 1, get in Hget.
  destruct (Table.select P (objects (db w))) as [|x [|y l]].
  - rewrite wp_bind. eapply wp_mono; [by apply Hnew| |done].
    intros r w1 Hc. rewrite wp_bind. eapply wp_mono; [exact Hc| |done]. intros a w2. by rewrite wp_ret.
  - by rewrite wp_ret.
  - by rewrite wp_raise.
Qed.

(** The primary keys still to be drawn are not in use. *)
Definition fresh (w : World) : Prop :=
  forall n, (draws w <= n)%nat -> objects (R := R) w.(db) !! uuid4 n = None.

Lemma wp_create_fresh (r : R) (Q : uuid * R -> World -> Prop) X w :
  fresh w ->
  (forall k, k = uuid4 w.(draws) -> objects w.(db) !! k = None -> conflicts k r (objects w.(db)) = false) ->
  (forall k, k = uuid4 w.(draws) -> objects w.(db) !! k = None ->
     conflicts k r (objects w.(db)) = false ->
     Q (k, r) (w <| draws ::= S |> <| db ::= with_objects (insert k r) |>)) ->
  wp (create r) Q X w.
Proof.
  intros Hf Hc HQ. unfold create. rewrite wp_bind, wp_draw. unfold table. rewrite wp_bind, wp_read.
  cbn [db upd]. rewrite (Hf (draws w)) by done. cbn.
  rewrite Hc; [|done|by apply Hf]. apply HQ; [done|by apply Hf|]. apply Hc; [done|by apply Hf].
Qed.

Lemma fresh_draws w w' :
  fresh w -> objects (R := R) (db w') = objects (db w) -> (draws w <= draws w')%nat -> fresh w'.
Proof. intros Hf Ho Hd n Hn. rewrite Ho. apply Hf. lia. Qed.

Lemma fresh_create `{!ModelLaws R, !EntropyLaws E} (r : R) w :
  fresh w -> fresh (w <| draws ::= S |> <| db ::= with_objects (insert (uuid4 w.(draws)) r) |>).
Proof.
  intros Hf n Hn. cbn in *. rewrite objects_with_objects. rewrite lookup_insert_ne.
  - apply Hf. lia.
  - intros Heq%uuid4_inj. lia.
Qed.

End primitives.

(** ** Database evolution *)

Definition evolves (R : DB -> DB -> Prop) {A} (m : M A) : Prop := forall w, R (db w) (db (m w).2).

Lemma evolves_run R {A} (m : M A) w r w' : evolves R m -> m w = (r, w') -> R (db w) (db w').
Proof. intros Hm Hrun. specialize (Hm w). by rewrite Hrun in Hm. Qed.

Create HintDb evolve.

Section evolves.
Context (R : DB -> DB -> Prop) `{!PreOrder R}.
Context `{E : Env}.

Lemma evolves_ret {A} (a : A) : evolves R (ret a).
Proof. intros w. simpl. reflexivity. Qed.

Lemma evolves_raise {A} e : evolves R (raise (A := A) e).
Proof. intros w. simpl. reflexivity. Qed.

Lemma evolves_bind {A B} (m : M A) (f : A -> M B) :
  evolves R m -> (forall a, evolves R (f a)) -> evolves R (bind m f).
Proof.
  intros Hm Hf w. specialize (Hm w). unfold bind. destruct (m w) as [[e|a] w']; [done|].
  etrans; [exact Hm|apply Hf].
Qed.

Lemma evolves_try {A} (m : M A) (h : exn -> M A) :
  evolves R m -> (forall e, evolves R (h e)) -> evolves R (try_except m h).
Proof.
  intros Hm Hh w. specialize (Hm w). unfold try_except. destruct (m w) as [[e|a] w']; [|done].
  etrans; [exact Hm|apply Hh].
Qed.

Lemma evolves_atomic {A} (m : M A) : evolves R m -> evolves R (atomic m).
Proof.
  intros Hm w. specialize (Hm (w <| depth ::= S |>)). unfold atomic.
  destruct (m _) as [[e|a] w']; simpl in *; [reflexivity|]. by destruct (Nat.eqb _ _).
Qed.

Lemma evolves_when c m : evolves R m -> evolves R (when c m).
Proof. intros Hm. destruct c; [done|apply evolves_ret]. Qed.

Lemma evolves_for_each {A} (l : list A) (f : A -> M unit) :
  (forall a, evolves R (f a)) -> evolves R (for_each l f).
Proof.
  intros Hf. induction l as [|a l IH]; [apply evolves_ret|]. apply evolves_bind; [apply Hf|done].
Qed.

Lemma evolves_fold_m {A B} (f : B -> A -> M B) b (l : list A) :
  (forall b a, evolves R (f b a)) -> evolves R (fold_m f b l).
Proof.
  intros Hf. revert b. induction l as [|a l IH]; intros b; [apply evolves_ret|].
  apply evolves_bind; [apply Hf|done].
Qed.

Lemma evolves_read {A} (f : World -> A) : evolves R (read f).
Proof. intros w. simpl. reflexivity. Qed.

Lemma evolves_modify (f : World -> World) : (forall w, R (db w) (db (f w))) -> evolves R (modify f).
Proof. intros Hf w. apply Hf. Qed.

Lemma evolves_now : evolves R now.
Proof. intros w. simpl. reflexivity. Qed.

Lemma evolves_draw {A} (f : nat -> A) : evolves R (draw f).
Proof. intros w. simpl. reflexivity. Qed.

Lemma evolves_on_commit e : evolves R (on_commit e).
Proof. intros w. unfold on_commit. simpl. destruct (Nat.eqb _ _); simpl; reflexivity. Qed.

Lemma evolves_perform e : evolves R (perform e).
Proof. intros w. simpl. reflexivity. Qed.

Section rows.
Context {T : Type} `{!Model T}.

Lemma evolves_get (P : uuid -> T -> bool) : evolves R (get P).
Proof. intros w. unfold get. destruct (Table.select _ _) as [|? [|??]]; simpl; reflexivity. Qed.

Lemma evolves_get_pk k : evolves R (get_pk (R := T) k).
Proof. intros w. unfold get_pk. destruct (_ !! k); simpl; reflexivity. Qed.

Lemma evolves_create (r : T) :
  (forall d k, objects d !! k = None -> conflicts k r (objects d) = false ->
     R d (with_objects (insert k r) d)) ->
  evolves R (create r).
Proof.
  intros HR w. unfold create, bind, draw, table, read. cbn [db upd].
  destruct (objects (db w) !! uuid4 (draws w)) eqn:El; cbn; [reflexivity|].
  destruct (conflicts _ _ _) eqn:Ec; cbn; [reflexivity|]. by apply HR.
Qed.

Lemma evolves_save_fields k (f : T -> T) :
  (forall d r, objects d !! k = Some r -> conflicts k (f r) (objects d) = false ->
     R d (with_objects (insert k (f r)) d)) ->
  evolves R (save_fields k f).
Proof.
  intros HR w. unfold save_fields, bind, table, read.
  destruct (objects (db w) !! k) eqn:El; cbn; [|reflexivity].
  destruct (conflicts _ _ _) eqn:Ec; cbn; [reflexivity|]. by apply HR.
Qed.

Lemma evolves_update_where (P : uuid -> T -> bool) f :
  (forall d, R d (with_objects (Table.update P f) d)) -> evolves R (update_where P f).
Proof. intros HR w. apply HR. Qed.

Lemma evolves_delete_where (P : uuid -> T -> bool) :
  (forall d, R d (with_objects (Table.remove P) d)) -> evolves R (delete_where P).
Proof. intros HR w. apply HR. Qed.

Lemma evolves_get_or_create (P : uuid -> T -> bool) (new : M T) :
  evolves R new -> (forall r, evolves R (create r)) -> evolves R (get_or_create P new).
Proof.
  intros Hn Hc. apply evolves_bind; [apply evolves_read|]. intros [|x [|y l]].
  - apply evolves_bind; [done|]. intros r. apply evolves_bind; [done|]. intros a. apply evolves_ret.
  - apply evolves_ret.
  - apply evolves_raise.
Qed.

Lemma evolves_update_or_create (P : uuid -> T -> bool) (change : M (T -> T)) (new : M T) :
  evolves R change -> evolves R new ->
  (forall k f, evolves R (save_fields k f)) -> (forall r, evolves R (create r)) ->
  evolves R (update_or_create P change new).
Proof.
  intros Hch Hn Hs Hc. apply evolves_bind; [apply evolves_read|]. intros [|[k x] [|y l]].
  - apply evolves_bind; [done|]. intros r. apply evolves_bind; [done|]. intros a. apply evolves_ret.
  - apply evolves_bind; [done|]. intros f. apply evolves_bind; [done|]. intros ?. apply evolves_ret.
  - apply evolves_raise.
Qed.

Lemma evolves_delete_row k :
  (forall d, R d (with_objects (base.delete k) d)) -> evolves R (delete_row (R := T) k).
Proof. intros HR. apply evolves_modify. intros w. apply HR. Qed.

End rows.
End evolves.

(** The structural part of an [evolves] proof: follow the program text; what
    is left are the writes. *)
Ltac evolve_step :=
  lazymatch goal with
  | |- evolves _ (bind _ _) => apply evolves_bind; [exact _| |intros ?]
  | |- evolves _ (atomic _) => apply evolves_atomic; [exact _|]
  | |- evolves _ (try_except _ _) => apply evolves_try; [exact _| |intros ?]
  | |- evolves _ (when _ _) => apply evolves_when; [exact _|]
  | |- evolves _ (for_each _ _) => apply evolves_for_each; [exact _|intros ?]
  | |- evolves _ (fold_m _ _ _) => apply evolves_fold_m; [exact _|intros ? ?]
  | |- evolves _ (ret _) => apply evolves_ret; exact _
  | |- evolves _ (raise _) => apply evolves_raise; exact _
  | |- evolves _ (read _) => apply evolves_read; exact _
  | |- evolves _ table => apply evolves_read; exact _
  | |- evolves _ (filter_rows _) => apply evolves_read; exact _
  | |- evolves _ (exists_row _) => apply evolves_read; exact _
  | |- evolves _ (first_row _) => apply evolves_read; exact _
  | |- evolves _ (first_row_by _ _) => apply evolves_read; exact _
  | |- evolves _ now => apply evolves_now; exact _
  | |- evolves _ (draw _) => apply evolves_draw; exact _
  | |- evolves _ (on_commit _) => apply evolves_on_commit; exact _
  | |- evolves _ (perform _) => apply evolves_perform; exact _
  | |- evolves _ (get _) => apply evolves_get; exact _
  | |- evolves _ (get_pk _) => apply evolves_get_pk; exact _
  | |- evolves _ (create _) => apply evolves_create; [exact _|intros]
  | |- evolves _ (get_or_create _ _) => apply evolves_get_or_create; [exact _| |intros ?]
  | |- evolves _ (update_or_create _ _ _) => apply evolves_update_or_create; [exact _| | |intros ? ?|intros ?]
  | |- evolves _ (delete_row _) => apply evolves_delete_row; intros
  | |- evolves _ (save_fields _ _) => apply evolves_save_fields; [exact _|intros]
  | |- evolves _ (update_where _ _) => apply evolves_update_where; intros
  | |- evolves _ (delete_where _) => apply evolves_delete_where; intros
  | |- evolves _ (modify _) => apply evolves_modify; intros
  | |- evolves _ (match ?x with _ => _ end) => destruct x
  | |- evolves _ (let '(_, _) := ?x in _) => destruct x
  end.
Ltac evolve := repeat first [solve [eauto with evolve nocore] | evolve_step].

(** ** What leaves the process

    [emits P m]: if the pending callbacks and the trace of effects satisfy [P],
    they do after [m], however it ends. *)

Definition emits (P : effect -> Prop) {A} (m : M A) : Prop := forall w,
  Forall P (hooks w) -> Forall P (effects w) -> Forall P (hooks (m w).2) /\ Forall P (effects (m w).2).

(** A computation that registers and performs nothing. *)
Definition inert {A} (m : M A) : Prop := forall w, hooks (m w).2 = hooks w /\ effects (m w).2 = effects w.

Section emits.
Context (P : effect -> Prop) `{E : Env}.

Lemma emits_inert {A} (m : M A) : inert m -> emits P m.
Proof. intros Hm w Hh He. destruct (Hm w) as [-> ->]. done. Qed.

Lemma emits_bind {A B} (m : M A) (f : A -> M B) : emits P m -> (forall a, emits P (f a)) -> emits P (bind m f).
Proof.
  intros Hm Hf w Hh He. specialize (Hm w Hh He). unfold bind. destruct (m w) as [[e|a] w']; [done|].
  destruct Hm. by apply Hf.
Qed.

Lemma emits_try {A} (m : M A) (h : exn -> M A) : emits P m -> (forall e, emits P (h e)) -> emits P (try_except m h).
Proof.
  intros Hm Hh w Hk He. specialize (Hm w Hk He). unfold try_except. destruct (m w) as [[e|a] w']; [|done].
  destruct Hm. by apply Hh.
Qed.

Lemma emits_atomic {A} (m : M A) : emits P m -> emits P (atomic m).
Proof.
  intros Hm w Hh He. unfold atomic. set (w1 := w <| depth ::= S |>). specialize (Hm w1 Hh He).
  destruct (m w1) as [[e|a] w']; cbn in *; [by destruct Hm|].
  destruct (Nat.eqb _ _); cbn; [|done]. destruct Hm. split; [constructor|by apply Forall_app_2].
Qed.

Lemma emits_when c m : emits P m -> emits P (when c m).
Proof. intros Hm. destruct c; [done|by intros w Hh He]. Qed.

Lemma emits_for_each {A} (l : list A) (f : A -> M unit) : (forall a, emits P (f a)) -> emits P (for_each l f).
Proof. intros Hf. induction l as [|a l IH]; [by intros w Hh He|]. by apply emits_bind. Qed.

Lemma emits_fold_m {A B} (f : B -> A -> M B) b (l : list A) :
  (forall b a, emits P (f b a)) -> emits P (fold_m f b l).
Proof.
  intros Hf. revert b. induction l as [|a l IH]; intros b; [by intros w Hh He|]. by apply emits_bind.
Qed.

Lemma emits_modify (f : World -> World) :
  (forall w, hooks (f w) = hooks w /\ effects (f w) = effects w) -> emits P (modify f).
Proof. intros Hf. by apply emits_inert. Qed.

Lemma emits_on_commit e : P e -> emits P (on_commit e).
Proof.
  intros Hp w Hh He. unfold on_commit. cbn. destruct (Nat.eqb _ _); cbn; (split; [|]); try done.
  all: apply Forall_app_2; [done|by apply Forall_singleton].
Qed.

Lemma emits_perform e : P e -> emits P (perform e).
Proof. intros Hp w Hh He. split; [done|]. cbn. apply Forall_app_2; [done|by apply Forall_singleton]. Qed.

Section rows.
Context {T : Type} `{!Model T}.

Lemma inert_get (Q : uuid -> T -> bool) : inert (get Q).
Proof. intros w. unfold get. by destruct (Table.select _ _) as [|? [|??]]. Qed.

Lemma inert_get_pk k : inert (get_pk (R := T) k).
Proof. intros w. unfold get_pk. by destruct (_ !! k). Qed.

Lemma inert_create (r : T) : inert (create r).
Proof.
  intros w. unfold create, bind, draw, table, read. cbn [db upd].
  destruct (objects (db w) !! uuid4 (draws w)); cbn; [done|]. by destruct (conflicts _ _ _).
Qed.

Lemma inert_save_fields k (f : T -> T) : inert (save_fields k f).
Proof.
  intros w. unfold save_fields, bind, table, read. destruct (objects (db w) !! k); cbn; [|done]. by destruct (conflicts _ _ _).
Qed.

Lemma inert_update_where (Q : uuid -> T -> bool) f : inert (update_where Q f).
Proof. by intros w. Qed.

Lemma inert_delete_where (Q : uuid -> T -> bool) : inert (delete_where Q).
Proof. by intros w. Qed.

Lemma emits_get_or_create (Q : uuid -> T -> bool) (new : M T) : emits P new -> emits P (get_or_create Q new).
Proof.
  intros Hn. apply emits_bind; [by apply emits_inert|]. intros [|x [|y l]]; [|by apply emits_inert..].
  apply emits_bind; [done|]. intros r. apply emits_bind; [apply emits_inert, inert_create|]. intros a. by apply emits_inert.
Qed.

Lemma emits_update_or_create (Q : uuid -> T -> bool) (change : M (T -> T)) (new : M T) :
  emits P change -> emits P new -> emits P (update_or_create Q change new).
Proof.
  intros Hc Hn. apply emits_bind; [by apply emits_inert|]. intros [|[k x] [|y l]]; [| |by apply emits_inert].
  - apply emits_bind; [done|]. intros r. apply emits_bind; [apply emits_inert, inert_create|]. intros a. by apply emits_inert.
  - apply emits_bind; [done|]. intros f. apply emits_bind; [apply emits_inert, inert_save_fields|]. intros a. by apply emits_inert.
Qed.

End rows.
End emits.

(** ** Computations that only fail internally

    [internal e]: [e] is not an error addressed to the caller of the API. *)

Definition internal (e : exn) : bool :=
  match e with
  | APIException _ _ _ _ | InvalidFields _ | NotAuthenticated | PermissionDenied _ | NotFound _
  | Throttled _ | MethodNotAllowed _ | Http404 _ | DjangoPermissionDenied => false
  | _ => true
  end.

Definition fails_internally {A} (m : M A) : Prop :=
  forall w e w', m w = (inl e, w') -> internal e = true.

Create HintDb internal.

Section fails_internally.
Context `{E : Env}.

Lemma internal_bind {A B} (m : M A) (f : A -> M B) :
  fails_internally m -> (forall a, fails_internally (f a)) -> fails_internally (bind m f).
Proof.
  intros Hm Hf w e w'. unfold bind. destruct (m w) as [[e1|a] w1] eqn:Em; [|apply Hf].
  intros [= -> _]. by eapply Hm.
Qed.

Lemma internal_try {A} (m : M A) h : (forall e, internal e = true -> fails_internally (h e)) ->
  fails_internally m -> fails_internally (try_except m h).
Proof.
  intros Hh Hm w e w'. unfold try_except. destruct (m w) as [[e1|a] w1] eqn:Em; [|done].
  apply Hh. by eapply Hm.
Qed.

Lemma internal_atomic {A} (m : M A) : fails_internally m -> fails_internally (atomic m).
Proof.
  intros Hm w e w'. unfold atomic. destruct (m _) as [[e1|a] w1] eqn:Em; [|done].
  intros [= -> _]. by eapply Hm.
Qed.

Lemma internal_total {A} (m : M A) : (forall w, exists a, (m w).1 = inr a) -> fails_internally m.
Proof. intros Hm w e w' Hr. destruct (Hm w) as [a Ha]. by rewrite Hr in Ha. Qed.

Lemma internal_raise {A} e : internal e = true -> fails_internally (raise (A := A) e).
Proof. by intros He w e' w' [= <- _]. Qed.

Lemma internal_for_each {A} (l : list A) f :
  (forall a, fails_internally (f a)) -> fails_internally (for_each l f).
Proof. intros Hf. induction l as [|a l IH]; [by intros ???|]. by apply internal_bind. Qed.

End fails_internally.

Ltac internal_step :=
  lazymatch goal with
  | |- fails_internally (bind _ _) => apply internal_bind; [|intros ?]
  | |- fails_internally (atomic _) => apply internal_atomic
  | |- fails_internally (raise _) => apply internal_raise; reflexivity
  | |- fails_internally (for_each _ _) => apply internal_for_each; intros ?
  | |- fails_internally (when ?c _) => unfold when; destruct c
  | |- fails_internally (create _) => unfold create
  | |- fails_internally (save_fields _ _) => unfold save_fields
  | |- fails_internally (put _ _) => unfold put
  | |- fails_internally (get_or_create _ _) => unfold get_or_create
  | |- fails_internally (update_or_create _ _ _) => unfold update_or_create
  | |- fails_internally (update_where _ _) => unfold update_where
  | |- fails_internally (delete_where _) => unfold delete_where
  | |- fails_internally (match ?x with _ => _ end) => destruct x
  | |- fails_internally _ => apply internal_total; intros ?; eexists; reflexivity
  end.
Ltac internal := repeat first [solve [eauto with internal nocore] | internal_step].

(** ** Computations that leave the HTTP session alone *)

Definition quiet {A} (m : M A) : Prop := forall w, http_session (m w).2 = http_session w.

Create HintDb quiet.

Section quiet.
Context `{E : Env}.

Lemma quiet_bind {A B} (m : M A) (f : A -> M B) : quiet m -> (forall a, quiet (f a)) -> quiet (bind m f).
Proof.
  intros Hm Hf w. specialize (Hm w). unfold bind. destruct (m w) as [[e|a] w']; [done|].
  cbn in Hm. rewrite <- Hm. apply Hf.
Qed.

Lemma quiet_try {A} (m : M A) h : quiet m -> (forall e, quiet (h e)) -> quiet (try_except m h).
Proof.
  intros Hm Hh w. specialize (Hm w). unfold try_except. destruct (m w) as [[e|a] w']; [|done].
  cbn in Hm. rewrite <- Hm. apply Hh.
Qed.

Lemma quiet_atomic {A} (m : M A) : quiet m -> quiet (atomic m).
Proof.
  intros Hm w. specialize (Hm (w <| depth ::= S |>)). unfold atomic.
  destruct (m _) as [[e|a] w']; simpl in *; [done|]. by destruct (Nat.eqb _ _).
Qed.

Lemma quiet_ret {A} (a : A) : quiet (ret a).
Proof. done. Qed.

Lemma quiet_raise {A} e : quiet (raise (A := A) e).
Proof. done. Qed.

Lemma quiet_for_each {A} (l : list A) f : (forall a, quiet (f a)) -> quiet (for_each l f).
Proof. intros Hf. induction l as [|a l IH]; [done|]. by apply quiet_bind. Qed.

Lemma quiet_fold_m {A B} (f : B -> A -> M B) b (l : list A) :
  (forall b a, quiet (f b a)) -> quiet (fold_m f b l).
Proof. intros Hf. revert b. induction l as [|a l IH]; intros b; [done|]. by apply quiet_bind. Qed.

Lemma quiet_modify (f : World -> World) :
  (forall w, http_session (f w) = http_session w) -> quiet (modify f).
Proof. intros Hf w. apply Hf. Qed.

Lemma quiet_on_commit e : quiet (on_commit e).
Proof. intros w. apply http_session_registered. Qed.

Context {R : Type} `{!Model R}.

Lemma quiet_get (P : uuid -> R -> bool) : quiet (get P).
Proof. intros w. unfold get. by destruct (Table.select _ _) as [|? [|??]]. Qed.

Lemma quiet_get_pk k : quiet (get_pk (R := R) k).
Proof. intros w. unfold get_pk. by destruct (_ !! k). Qed.

End quiet.

Lemma quiet_run {A} (m : M A) w r w' : quiet m -> m w = (r, w') -> http_session w' = http_session w.
Proof. intros Hq Hr. specialize (Hq w). by rewrite Hr in Hq. Qed.

Ltac quiet_step :=
  lazymatch goal with
  | |- quiet (bind _ _) => apply quiet_bind; [|intros ?]
  | |- quiet (atomic _) => apply quiet_atomic
  | |- quiet (try_except _ _) => apply quiet_try; [|intros ?]
  | |- quiet (for_each _ _) => apply quiet_for_each; intros ?
  | |- quiet (fold_m _ _ _) => apply quiet_fold_m; intros ? ?
  | |- quiet (when ?c _) => unfold when; destruct c
  | |- quiet (create _) => unfold create
  | |- quiet (save_fields _ _) => unfold save_fields
  | |- quiet (put _ _) => unfold put
  | |- quiet (get_or_create _ _) => unfold get_or_create
  | |- quiet (update_or_create _ _ _) => unfold update_or_create
  | |- quiet (update_where _ _) => unfold update_where
  | |- quiet (delete_where _) => unfold delete_where
  | |- quiet (get _) => apply quiet_get
  | |- quiet (get_pk _) => apply quiet_get_pk
  | |- quiet (on_commit _) => apply quiet_on_commit
  | |- quiet (modify_db _) => apply quiet_modify; intros ?; reflexivity
  | |- quiet (modify _) => apply quiet_modify; intros ?; reflexivity
  | |- quiet (match ?x with _ => _ end) => destruct x
  | |- quiet _ => intros ?; reflexivity
  end.
Ltac quiet := repeat first [solve [eauto with quiet nocore] | quiet_step].

(** ** Clock and entropy only move forward *)

Definition advances {A} (m : M A) : Prop :=
  forall w, (ticks w <= ticks (m w).2)%nat /\ (draws w <= draws (m w).2)%nat.

Create HintDb advances.

Section advances.
Context `{E : Env}.

Lemma advances_bind {A B} (m : M A) (f : A -> M B) :
  advances m -> (forall a, advances (f a)) -> advances (bind m f).
Proof.
  intros Hm Hf w. specialize (Hm w). unfold bind. destruct (m w) as [[e|a] w']; [done|].
  cbn in Hm. specialize (Hf a w'). lia.
Qed.

Lemma advances_try {A} (m : M A) h : advances m -> (forall e, advances (h e)) -> advances (try_except m h).
Proof.
  intros Hm Hh w. specialize (Hm w). unfold try_except. destruct (m w) as [[e|a] w']; [|done].
  cbn in Hm. specialize (Hh e w'). lia.
Qed.

Lemma advances_atomic {A} (m : M A) : advances m -> advances (atomic m).
Proof.
  intros Hm w. specialize (Hm (w <| depth ::= S |>)). unfold atomic.
  destruct (m _) as [[e|a] w']; simpl in *; [done|]. by destruct (Nat.eqb _ _).
Qed.

Lemma advances_for_each {A} (l : list A) f : (forall a, advances (f a)) -> advances (for_each l f).
Proof. intros Hf. induction l as [|a l IH]; [done|]. by apply advances_bind. Qed.

Lemma advances_fold_m {A B} (f : B -> A -> M B) b (l : list A) :
  (forall b a, advances (f b a)) -> advances (fold_m f b l).
Proof. intros Hf. revert b. induction l as [|a l IH]; intros b; [done|]. by apply advances_bind. Qed.

Lemma advances_modify (f : World -> World) :
  (forall w, (ticks w <= ticks (f w))%nat /\ (draws w <= draws (f w))%nat) -> advances (modify f).
Proof. intros Hf w. apply Hf. Qed.

Lemma advances_now : advances now.
Proof. intros w. cbn. lia. Qed.

Lemma advances_draw {A} (f : nat -> A) : advances (draw f).
Proof. intros w. cbn. lia. Qed.

Lemma advances_on_commit e : advances (on_commit e).
Proof. intros w. unfold on_commit. cbn. by destruct (Nat.eqb _ _). Qed.

Context {R : Type} `{!Model R}.

Lemma advances_get (P : uuid -> R -> bool) : advances (get P).
Proof. intros w. unfold get. by destruct (Table.select _ _) as [|? [|??]]. Qed.

Lemma advances_get_pk k : advances (get_pk (R := R) k).
Proof. intros w. unfold get_pk. by destruct (_ !! k). Qed.

(** Keys not drawn before a run that leaves the table alone are not drawn
    after it. *)
Lemma fresh_run {A} (m : M A) w r w' :
  advances m -> m w = (r, w') -> objects (R := R) (db w') = objects (db w) ->
  fresh (R := R) w -> fresh (R := R) w'.
Proof.
  intros Hm Hr Ho Hf. specialize (Hm w). rewrite Hr in Hm. cbn in Hm.
  eapply fresh_draws; [exact Hf|exact Ho|lia].
Qed.

End advances.

Ltac advances_step :=
  lazymatch goal with
  | |- advances (bind _ _) => apply advances_bind; [|intros ?]
  | |- advances (atomic _) => apply advances_atomic
  | |- advances (try_except _ _) => apply advances_try; [|intros ?]
  | |- advances (for_each _ _) => apply advances_for_each; intros ?
  | |- advances (fold_m _ _ _) => apply advances_fold_m; intros ? ?
  | |- advances (when ?c _) => unfold when; destruct c
  | |- advances (create _) => unfold create
  | |- advances (save_fields _ _) => unfold save_fields
  | |- advances (put _ _) => unfold put
  | |- advances (get_or_create _ _) => unfold get_or_create
  | |- advances (update_or_create _ _ _) => unfold update_or_create
  | |- advances (update_where _ _) => unfold update_where
  | |- advances (delete_where _) => unfold delete_where
  | |- advances now => apply advances_now
  | |- advances (draw _) => apply advances_draw
  | |- advances (get _) => apply advances_get
  | |- advances (get_pk _) => apply advances_get_pk
  | |- advances (on_commit _) => apply advances_on_commit
  | |- advances (modify_db _) => apply advances_modify; intros ?; done
  | |- advances (modify _) => apply advances_modify; intros ?; done
  | |- advances (match ?x with _ => _ end) => destruct x
  | |- advances _ => intros ?; done
  end.
Ltac advances := repeat first [solve [eauto with advances nocore] | advances_step].

(** Symbolic execution of a [wp] goal, one statement at a time; writes and
    lookups leave one goal per outcome. *)
Ltac wp_step :=
  lazymatch goal with
  | |- wp (bind _ _) _ _ _ => refine (proj2 (wp_bind _ _ _ _ _) _)
  | |- wp (ret _) _ _ _ => refine (proj2 (wp_ret _ _ _ _) _)
  | |- wp (raise _) _ _ _ => refine (proj2 (wp_raise _ _ _ _) _)
  | |- wp (atomic _) _ _ _ => refine (proj2 (wp_atomic _ _ _ _) _)
  | |- wp (try_except _ _) _ _ _ => refine (proj2 (wp_try _ _ _ _ _) _)
  | |- wp now _ _ _ => refine (proj2 (wp_now _ _ _) _)
  | |- wp (draw _) _ _ _ => refine (proj2 (wp_draw _ _ _ _) _)
  | |- wp (read _) _ _ _ => refine (proj2 (wp_read _ _ _ _) _)
  | |- wp table _ _ _ => refine (proj2 (wp_read _ _ _ _) _)
  | |- wp (filter_rows _) _ _ _ => refine (proj2 (wp_read _ _ _ _) _)
  | |- wp (exists_row _) _ _ _ => refine (proj2 (wp_read _ _ _ _) _)
  | |- wp (first_row _) _ _ _ => refine (proj2 (wp_read _ _ _ _) _)
  | |- wp (first_row_by _ _) _ _ _ => refine (proj2 (wp_read _ _ _ _) _)
  | |- wp (on_commit _) _ _ _ => refine (proj2 (wp_on_commit _ _ _ _) _)
  | |- wp (perform _) _ _ _ => refine (proj2 (wp_perform _ _ _ _) _)
  | |- wp (modify _) _ _ _ => refine (proj2 (wp_modify _ _ _ _) _)
  | |- wp (modify_db _) _ _ _ => refine (proj2 (wp_modify _ _ _ _) _)
  | |- wp (update_where _ _) _ _ _ => refine (proj2 (wp_update_where _ _ _ _ _) _)
  | |- wp (delete_where _) _ _ _ => refine (proj2 (wp_delete_where _ _ _ _) _)
  | |- wp (get_pk _) _ _ _ => apply wp_get_pk; [intros ? ?|intros ?]
  | |- wp (get _) _ _ _ => apply wp_get; [intros ? ? ? ?|intros ?|intros ?]
  | |- wp (get_or_create _ _) _ _ _ => apply wp_get_or_create; [intros ? ? ? ?|intros ?|intros ?]
  | |- wp (create _) _ _ _ => apply wp_create; [intros ? ? ? ?|]
  | |- wp (save_fields _ _) _ _ _ => apply wp_save_fields; [intros ? ? ?|intros ?|intros ? ? ?]
  end; cbv beta.
Ltac wp_run := repeat wp_step.

(** Turn a goal about the result of the run [H] into a [wp] goal. *)
Ltac by_wp H :=
  lazymatch type of H with
  | ?m ?w = (inr ?a, ?w') =>
      pattern a, w'; apply (wp_result m _ (fun _ _ => True) w a w'); [clear H|exact H]
  end.

(** ** Invariants and constraints *)

(** [m] preserves a property of the database. *)
Definition respects (I : DB -> Prop) (d d' : DB) : Prop := I d -> I d'.

#[export] Instance respects_preorder I : PreOrder (respects I).
Proof. split; [by intros d H|]. intros d1 d2 d3 H1 H2 H. by apply H2, H1. Qed.

(** The unique constraints of a model hold of its table. *)
Section constraints.
Context {R : Type} `{!Model R, !ModelLaws R}.
Implicit Types t : gmap uuid R.

Definition unique_table t : Prop :=
  forall k1 k2 r1 r2, t !! k1 = Some r1 -> t !! k2 = Some r2 -> k1 <> k2 -> row_clash r1 r2 = false.

Definition unique_rows (d : DB) : Prop := unique_table (objects (R := R) d).

Lemma unique_table_empty : unique_table ∅.
Proof. intros k1 k2 r1 r2 H1. by rewrite lookup_empty in H1. Qed.

Lemma unique_table_singleton k r : unique_table {[ k := r ]}.
Proof. by intros k1 k2 r1 r2 [<- _]%lookup_singleton_Some [<- _]%lookup_singleton_Some. Qed.

Lemma unique_table_insert t k r :
  unique_table t -> conflicts k r t = false -> unique_table (<[k := r]> t).
Proof.
  intros Hu Hc k1 k2 r1 r2 H1 H2 Hne. pose proof (proj1 (conflicts_false k r t) Hc) as Hc'.
  rewrite lookup_insert in H1, H2.
  repeat case_decide; simplify_eq;
    first [by eapply Hu | by eapply Hc' | rewrite row_clash_sym; by eapply Hc'].
Qed.

Lemma unique_table_update t P f :
  (forall a b, row_clash (f a) (f b) = row_clash a b) ->
  (forall a b, row_clash (f a) b = row_clash a b) ->
  unique_table t -> unique_table (Table.update P f t).
Proof.
  intros Hff Hf Hu k1 k2 r1 r2. rewrite !Table.lookup_update.
  intros (a & Ha & ->)%fmap_Some (b & Hb & ->)%fmap_Some Hne.
  specialize (Hu k1 k2 a b Ha Hb Hne).
  destruct (P k1 a), (P k2 b); rewrite ?Hff, ?Hf, ?Hu; try done.
  by rewrite row_clash_sym, Hf, row_clash_sym.
Qed.

Lemma unique_table_remove t P : unique_table t -> unique_table (Table.remove P t).
Proof. intros Hu k1 k2 r1 r2 [H1 _]%Table.lookup_remove_Some [H2 _]%Table.lookup_remove_Some. by apply Hu. Qed.

(** A write that leaves the constrained columns alone breaks no constraint. *)
Lemma conflicts_same k r r' t :
  unique_table t -> t !! k = Some r -> (forall a, row_clash r' a = row_clash r a) ->
  conflicts k r' t = false.
Proof.
  intros Hu Hk Hs. apply conflicts_false. intros k' a Ha Hne. rewrite Hs.
  eapply Hu; [exact Hk|exact Ha|congruence].
Qed.

(** The constraints of a concrete table can be checked by computation. *)
Definition unique_check (t : gmap uuid R) : bool :=
  forallb (fun x => negb (conflicts x.1 x.2 t)) (map_to_list t).

Lemma unique_check_sound t : unique_check t = true -> unique_table t.
Proof.
  unfold unique_check. rewrite forallb_forall. intros Hc k1 k2 r1 r2 H1 H2 Hne.
  assert (Hin : In (k1, r1) (map_to_list t)) by by apply list_elem_of_In, elem_of_map_to_list.
  specialize (Hc _ Hin). apply negb_true_iff in Hc.
  apply (proj1 (conflicts_false k1 r1 t) Hc k2 r2 H2). congruence.
Qed.

(** Saving columns that no constraint mentions succeeds on a stored row. *)
Lemma wp_save_row `{E : Env} k (f : R -> R) r (Q : unit -> World -> Prop) X w :
  unique_rows (db w) -> objects (db w) !! k = Some r ->
  (forall a, row_clash (f r) a = row_clash r a) ->
  Q tt (w <| db ::= with_objects (insert k (f r)) |>) ->
  wp (save_fields k f) Q X w.
Proof.
  intros Hu Hk Hs HQ. apply wp_save_fields.
  - intros r' Hr' _. by replace r' with r by congruence.
  - intros Hn. congruence.
  - intros r' Hr' Hc. exfalso. replace r' with r in Hc by congruence.
    by rewrite (conflicts_same k r) in Hc.
Qed.

Lemma wp_found `{E : Env} k r (Q : R -> World -> Prop) X w :
  objects (db w) !! k = Some r -> Q r w -> wp (get_pk k) Q X w.
Proof. intros Hk HQ. apply wp_get_pk; [|congruence]. intros r' Hr'. by replace r' with r by congruence. Qed.

End constraints.
