(* ===== verification/Transactions.v ===== *)
(** * Transactions in parts

    What [Races] and [Replays] share: a transaction of the code cut into parts
    that other transactions may come between.  The parts before the last only
    read and leave the transaction open ([inside]); the last one carries the
    commit, or the rollback ([Orm.atomic]). *)

From S2P Require Import Prelude Env Models Orm Logic.

Lemma atomic_ext {A} (m m' : M A) w : (forall w, m w = m' w) -> atomic m w = atomic m' w.
Proof. intros Hm. unfold atomic. by rewrite Hm. Qed.

Lemma wp_completes {A} (m : M A) w : wp m (fun _ _ => True) (fun _ _ => False) w -> exists a w', m w = (inr a, w').
Proof. intros (a & w' & Hrun & _)%wp_returns. by exists a, w'. Qed.

(** A part that only reads. *)
Definition reads {A} (m : M A) : Prop := forall w,
  db (m w).2 = db w /\ hooks (m w).2 = hooks w /\ depth (m w).2 = depth w.

(** A part of a transaction that writes nothing; the transaction stays open. *)
Definition inside {B} (m : M B) : M B := fun w =>
  let '(b, w') := m (w <| depth ::= Datatypes.S |>) in (b, w' <| depth := depth w |>).

Lemma inside_reads {B} (m : M B) w : reads m -> db (inside m w).2 = db w.
Proof.
  intros Hm. destruct (Hm (w <| depth ::= Datatypes.S |>)) as (Hd & _). unfold inside.
  destruct (m _) as [b w']. exact Hd.
Qed.

Lemma inside_run {B} (m : M B) w b w' : inside m w = (b, w') -> exists w1 w2, m w1 = (b, w2).
Proof.
  unfold inside. destruct (m _) as [x w1] eqn:Hm. intros [= <- _]. by eexists _, _.
Qed.

(** Leaving a part and coming back, rolling back nothing, committing nothing. *)
Lemma rewound (w w' : World) : db w' = db w -> hooks w' = hooks w -> depth w' = Datatypes.S (depth w) ->
  w' <| db := db w |> <| hooks := hooks w |> <| depth := depth w |> = w' <| depth := depth w |>.
Proof. destruct w'. cbn. by intros -> ->. Qed.

Lemma reopened (w' : World) d : depth w' = Datatypes.S d -> w' <| depth := d |> <| depth ::= Datatypes.S |> = w'.
Proof. destruct w'. cbn. by intros ->. Qed.

Lemma committed_nothing (w : World) (outermost : bool) : hooks w = [] -> (if outermost then run_hooks w else w) = w.
Proof. destruct w. cbn. intros ->. unfold run_hooks. cbn. rewrite app_nil_r. by destruct outermost. Qed.
