(* ===== verification/Common.v ===== *)
(** * Shared infrastructure ([common/], audit and security records)

    Keyed hashes and encryption ([common/crypto.py]), client addresses
    ([common/utils/network.py]), redaction ([common/logging.py]), outgoing mail
    ([common/services/email.py]) and the two append-only journals:
    [AuditService.record] and [SecurityEventService.record]. *)

From S2P Require Import Prelude Env Models Orm Logic.

(** ** Requests *)

Record Request := MkRequest {
  remote_addr : option string;
  forwarded_for : string;
  http_user_agent : string;
  request_id : string;
}.

Section common.
Context `{E : Env}.

(** [get_client_ip] *)
Definition get_client_ip (r : Request) : option string :=
  let trusted := match remote_addr r with
                 | Some a => bool_decide (a ∈ TRUSTED_PROXY_IPS)
                 | None => false
                 end in
  let candidate :=
    if TRUST_PROXY_HEADERS && trusted then
      if Str.is_empty (forwarded_for r) then remote_addr r
      else Some (Str.strip (Str.split_once "," (forwarded_for r)).1)
    else remote_addr r in
  match candidate with
  | None => None
  | Some c => if Str.is_empty c then None else parse_ip c
  end.

Definition client_ip (r : option Request) : option string := r ≫= get_client_ip.

(** ** Cryptography *)

Definition key_material (purpose : string) : M string :=
  if String.eqb APP_ENV "production" && Str.is_empty TOTP_ENCRYPTION_KEY
  then raise (ImproperlyConfigured "TOTP_ENCRYPTION_KEY is required in production")
  else
    let configured := if Str.is_empty TOTP_ENCRYPTION_KEY then SECRET_KEY else TOTP_ENCRYPTION_KEY in
    ret (sha256 (purpose +:+ ":" +:+ configured)).

Definition encrypt_value (value purpose : string) : M string :=
  let! key := key_material purpose in
  draw (fun n => fernet_encrypt key n value).

Definition decrypt_value (value purpose : string) : M string :=
  let! key := key_material purpose in
  match fernet_decrypt key value with
  | Some v => ret v
  | None => raise (ValueError "Encrypted value could not be decrypted")
  end.

Definition keyed_hash_with (pepper value purpose : string) : string :=
  let secret := if Str.is_empty pepper then SECRET_KEY else pepper in
  hmac_sha256 (sha256 (purpose +:+ ":" +:+ secret)) value.

(** [keyed_hash(value, purpose=purpose)], without a pepper. *)
Definition keyed_hash (value purpose : string) : string := keyed_hash_with "" value purpose.

Definition generate_token (bytes_count : nat) : M string :=
  draw (fun n => token_urlsafe n bytes_count).

Lemma keyed_hash_inj `{!CryptoLaws E} a b purpose :
  keyed_hash a purpose = keyed_hash b purpose -> a = b.
Proof. apply hmac_inj. Qed.

Lemma key_material_result purpose w r w' : key_material purpose w = (r, w') -> w' = w.
Proof. unfold key_material. destruct (_ && _); by intros [= _ <-]. Qed.

(** What was encrypted for a purpose is what is decrypted for it. *)
Lemma decrypt_encrypted `{!CryptoLaws E} v purpose w c w1 w2 :
  encrypt_value v purpose w = (inr c, w1) -> decrypt_value c purpose w2 = (inr v, w2).
Proof.
  unfold encrypt_value, decrypt_value, bind, key_material.
  destruct (_ && _); [done|]. cbn. intros [= <- _]. by rewrite fernet_roundtrip.
Qed.

(** ** Redaction *)

(** The alternatives of [SENSITIVE_KEY], in lower case, with the optional
    separators written out. *)
Definition sensitive_words : list string :=
  ["password"; "authorization"; "cookie"; "token"; "secret"; "apikey"; "api_key"; "api-key";
   "key_hash"; "session_key"; "encrypted"; "totp"; "recoverycode"; "recovery_code";
   "recovery-code"].

Definition is_sensitive_key (key : string) : bool :=
  existsb (fun word => Str.contains word (Str.casefold key)) sensitive_words.

Fixpoint sanitize (v : pyval) : pyval :=
  match v with
  | PDict l =>
      PDict ((fix go (l : list (string * pyval)) : list (string * pyval) :=
        match l with
        | [] => []
        | (k, item) :: l' =>
            (k, if is_sensitive_key k then PStr "[REDACTED]" else sanitize item) :: go l'
        end) l)
  | PList l | PTuple l => PList (map sanitize l)
  | PNone | PBool _ | PInt _ | PStr _ => v
  | PDatetime t => PStr (isoformat t)
  | PUUID u => PStr (uuid_str u)
  | PDecimal r | POther r => PStr r
  | PDataclass r _ | PObject r _ | PSession r _ _ _ _ _ _ => PStr r
  | PUser _ email _ => PStr email
  end.

(** ** Outgoing mail *)

Fixpoint task_context (v : pyval) : pyval :=
  let fields := fix go (l : list (string * pyval)) : list (string * pyval) :=
    match l with
    | [] => []
    | (k, item) :: l' => (k, task_context item) :: go l'
    end in
  let public := fix go (l : list (string * pyval)) : list (string * pyval) :=
    match l with
    | [] => []
    | (k, item) :: l' =>
        if String.prefix "_" k then go l' else (k, task_context item) :: go l'
    end in
  match v with
  | PNone | PBool _ | PInt _ | PStr _ => v
  | PDatetime t => PStr (isoformat t)
  | PUUID u => PStr (uuid_str u)
  | PDecimal r => PStr r
  | PDict l => PDict (fields l)
  | PList l | PTuple l => PList (map task_context l)
  | PDataclass _ l => PDict (fields l)
  | PUser id email display_name =>
      PDict [("id", PStr (uuid_str id)); ("email", PStr email); ("display_name", PStr display_name)]
  | PSession _ identifier browser os device ip created =>
      PDict [("identifier", PStr identifier); ("browser", PStr browser);
             ("operating_system", PStr os); ("device", PStr device);
             ("ip_address", match ip with Some a => PStr a | None => PNone end);
             ("created_at", PStr (isoformat created))]
  | PObject _ l => PDict (public l)
  | POther r => PStr r
  end.

(** [EmailService.enqueue]: a Celery message carries the serialised context;
    without a worker the mail is sent with the context as it is. *)
Definition email (template recipient subject : string) (context : list (string * pyval)) : effect :=
  let context' :=
    if CELERY_ENABLED && negb CELERY_TASK_ALWAYS_EAGER
    then match task_context (PDict context) with PDict l => l | _ => [] end
    else context in
  SendEmail template recipient subject context'.

Definition enqueue_email (template recipient subject : string) (context : list (string * pyval)) : M unit :=
  perform (email template recipient subject context).

End common.

(** A user in a mail context. *)
Definition user_value (k : uuid) (u : User.t) : pyval := PUser k (User.email u) (User.display_name u).

(** ** The audit journal ([apps/audit/services.py]) *)

Module AuditService.

(** [target._meta.app_label.model_name], [target.pk] and [str(target)]. *)
Record Target := MkTarget {
  label : string;
  pk : uuid;
  repr : string;
}.

Record args := MkArgs {
  action : string;
  target : option Target;
  actor : option uuid;
  request : option Request;
  before : list (string * pyval);
  after : list (string * pyval);
  metadata : list (string * pyval);
  target_type : option string;
  target_id : option string;
  target_repr : option string;
}.
#[global] Instance eta_args : Eta args := fun a =>
  MkArgs a.(action) a.(target) a.(actor) a.(request) a.(before) a.(after) a.(metadata)
    a.(target_type) a.(target_id) a.(target_repr).

(** The keyword arguments with their defaults. *)
Definition call (action : string) : args := MkArgs action None None None [] [] [] None None None.

(** [action], [target], [actor] and [request] given. *)
Definition on (action : string) (target : Target) (actor : option uuid) (request : option Request) : args :=
  MkArgs action (Some target) actor request [] [] [] None None None.

Definition record `{E : Env} (a : args) : M (uuid * AuditLog.t) :=
  let! created := now in
  create {|
    AuditLog.actor := actor a;
    AuditLog.action := action a;
    AuditLog.target_type :=
      match target_type a, target a with
      | Some t, _ => t
      | None, Some t => label t
      | None, None => "system"
      end;
    AuditLog.target_id :=
      match target_id a, target a with
      | Some i, _ => i
      | None, Some t => uuid_str (pk t)
      | None, None => ""
      end;
    AuditLog.target_repr :=
      Str.take 255 match target_repr a, target a with
                   | Some r, _ => r
                   | None, Some t => repr t
                   | None, None => ""
                   end;
    AuditLog.before := sanitize (PDict (before a));
    AuditLog.after := sanitize (PDict (after a));
    AuditLog.metadata := sanitize (PDict (metadata a));
    AuditLog.request_id := match request a with Some r => request_id r | None => "" end;
    AuditLog.ip_address := client_ip (request a);
    AuditLog.user_agent :=
      match request a with Some r => Str.take 2000 (http_user_agent r) | None => "" end;
    AuditLog.created_at := created;
  |}.

End AuditService.

Definition user_target (k : uuid) (u : User.t) : AuditService.Target :=
  AuditService.MkTarget "accounts.user" k (User.email u).

(** ** The security journal ([SecurityEventService.record]) *)

Module SecurityEventService.

Definition record `{E : Env} (event_type : SecurityEventType.t) (user : option uuid)
    (request : option Request) (metadata : list (string * pyval)) : M (uuid * SecurityEvent.t) :=
  let! created := now in
  create {|
    SecurityEvent.user := user;
    SecurityEvent.event_type := event_type;
    SecurityEvent.ip_address := client_ip request;
    SecurityEvent.user_agent :=
      match request with Some r => Str.take 2000 (http_user_agent r) | None => "" end;
    SecurityEvent.request_id := match request with Some r => request_id r | None => "" end;
    SecurityEvent.metadata := metadata;
    SecurityEvent.created_at := created;
  |}.

End SecurityEventService.

(** ** Database relations the components share *)

(** A table (or any part of the database) is left as it is. *)
Definition keeps {T} (part : DB -> T) (d d' : DB) : Prop := part d' = part d.

#[export] Instance keeps_preorder {T} (part : DB -> T) : PreOrder (keeps part).
Proof. split; [by intros d|]. intros d1 d2 d3 H1 H2. unfold keeps in *. congruence. Qed.

(** Rows are only added to the audit and security journals. *)
Definition journals_grow (d d' : DB) : Prop :=
  audit_logs d ⊆ audit_logs d' /\ security_events d ⊆ security_events d'.

#[export] Instance journals_grow_preorder : PreOrder journals_grow.
Proof.
  split; [by intros d|]. intros d1 d2 d3 [A1 S1] [A2 S2].
  split; by etrans.
Qed.

Lemma journals_grow_same d d' :
  audit_logs d' = audit_logs d -> security_events d' = security_events d -> journals_grow d d'.
Proof. intros Ha Hs. unfold journals_grow. by rewrite Ha, Hs. Qed.

Section journals.
Context `{E : Env}.

Lemma audit_record_grows a : evolves journals_grow (AuditService.record a).
Proof. unfold AuditService.record. evolve. split; [by apply insert_subseteq|done]. Qed.

Lemma event_record_grows e u r m : evolves journals_grow (SecurityEventService.record e u r m).
Proof. unfold SecurityEventService.record. evolve. split; [done|by apply insert_subseteq]. Qed.

Lemma audit_record_keeps {T} (part : DB -> T) a :
  (forall g d, part (d <| audit_logs ::= g |>) = part d) ->
  evolves (keeps part) (AuditService.record a).
Proof. intros Hp. unfold AuditService.record. evolve. apply Hp. Qed.

Lemma event_record_keeps {T} (part : DB -> T) e u r m :
  (forall g d, part (d <| security_events ::= g |>) = part d) ->
  evolves (keeps part) (SecurityEventService.record e u r m).
Proof. intros Hp. unfold SecurityEventService.record. evolve. apply Hp. Qed.

Lemma key_material_evolves R `{!PreOrder R} p : evolves R (key_material p).
Proof. unfold key_material. evolve. Qed.

Lemma encrypt_value_evolves R `{!PreOrder R} v p : evolves R (encrypt_value v p).
Proof. unfold encrypt_value. evolve. by apply key_material_evolves. Qed.

Lemma decrypt_value_evolves R `{!PreOrder R} v p : evolves R (decrypt_value v p).
Proof. unfold decrypt_value. evolve. by apply key_material_evolves. Qed.

End journals.

(** ** Journal entries are always written

    With fresh primary keys neither journal can refuse a row; what a call to
    either leaves behind, apart from its entry. *)

Section writing.
Context `{E : Env, !EntropyLaws E}.

Definition journal_ready (w : World) : Prop :=
  fresh (R := AuditLog.t) w /\ fresh (R := SecurityEvent.t) w.

Record logs (w w' : World) : Prop := {
  lg_db : db w' = (db w) <| audit_logs := audit_logs (db w') |>
                         <| security_events := security_events (db w') |>;
  lg_ready : journal_ready w';
  lg_session : http_session w' = http_session w;
  lg_draws : (draws w <= draws w')%nat;
  lg_ticks : (ticks w <= ticks w')%nat;
}.

Lemma journal_ready_move w w' :
  journal_ready w -> audit_logs (db w') = audit_logs (db w) ->
  security_events (db w') = security_events (db w) -> (draws w <= draws w')%nat -> journal_ready w'.
Proof. intros [Ha Hs] Ea Es Hd. split; by eapply fresh_draws. Qed.

Lemma audit_record_spec a w :
  journal_ready w ->
  wp (AuditService.record a)
    (fun x w' => logs w w' /\ audit_logs (db w') !! x.1 = Some x.2 /\
       AuditLog.action x.2 = AuditService.action a /\ AuditLog.actor x.2 = AuditService.actor a)
    (fun _ _ => False) w.
Proof.
  intros [Ha Hs]. unfold AuditService.record. do 2 wp_step. apply wp_create_fresh.
  - intros n Hn. by apply Ha.
  - intros k _ _. apply conflicts_false. done.
  - intros k -> Hn _. split; [|split; [cbn; apply lookup_insert_eq|done]].
    split; cbn; try done; try lia.
    split; intros n Hd; cbn in Hd |- *; [|apply Hs; lia].
    rewrite lookup_insert_ne; [apply Ha; lia|]. intros Heq%uuid4_inj. lia.
Qed.

Lemma event_record_spec e u r m w :
  journal_ready w ->
  wp (SecurityEventService.record e u r m)
    (fun x w' => logs w w' /\ security_events (db w') !! x.1 = Some x.2 /\
       SecurityEvent.event_type x.2 = e /\ SecurityEvent.user x.2 = u)
    (fun _ _ => False) w.
Proof.
  intros [Ha Hs]. unfold SecurityEventService.record. do 2 wp_step. apply wp_create_fresh.
  - intros n Hn. by apply Hs.
  - intros k _ _. apply conflicts_false. done.
  - intros k -> Hn _. split; [|split; [cbn; apply lookup_insert_eq|done]].
    split; cbn; try done; try lia.
    split; intros n Hd; cbn in Hd |- *; [apply Ha; lia|].
    rewrite lookup_insert_ne; [apply Hs; lia|]. intros Heq%uuid4_inj. lia.
Qed.

End writing.

(** Whether the encryption keys can be derived at all. *)
Definition crypto_configured `{Settings} : bool :=
  negb (String.eqb APP_ENV "production" && Str.is_empty TOTP_ENCRYPTION_KEY).

Definition purpose_key `{E : Env} (purpose : string) : string :=
  sha256 (purpose +:+ ":" +:+ (if Str.is_empty TOTP_ENCRYPTION_KEY then SECRET_KEY else TOTP_ENCRYPTION_KEY)).

Lemma decrypt_value_run `{E : Env} c purpose w v w' :
  decrypt_value c purpose w = (inr v, w') ->
  w' = w /\ fernet_decrypt (purpose_key purpose) c = Some v.
Proof.
  unfold decrypt_value, bind, key_material. destruct (_ && _); [done|].
  fold (purpose_key purpose). cbn. destruct (fernet_decrypt _ _); [by intros [= -> <-]|done].
Qed.

Section crypto.
Context `{E : Env}.
Hypothesis configured : crypto_configured = true.

Lemma key_material_configured purpose w : key_material purpose w = (inr (purpose_key purpose), w).
Proof.
  unfold key_material, purpose_key. unfold crypto_configured in configured.
  by destruct (String.eqb APP_ENV "production" && _).
Qed.

Lemma wp_encrypt v purpose Q X w :
  Q (fernet_encrypt (purpose_key purpose) w.(draws) v) (w <| draws ::= S |>) ->
  wp (encrypt_value v purpose) Q X w.
Proof. intros HQ. unfold wp, encrypt_value, bind. by rewrite key_material_configured. Qed.

Lemma wp_decrypt c purpose (Q : string -> World -> Prop) X w :
  (forall v, fernet_decrypt (purpose_key purpose) c = Some v -> Q v w) ->
  (fernet_decrypt (purpose_key purpose) c = None ->
   X (ValueError "Encrypted value could not be decrypted") w) ->
  wp (decrypt_value c purpose) Q X w.
Proof.
  intros HQ HX. unfold wp, decrypt_value, bind. rewrite key_material_configured.
  destruct (fernet_decrypt _ c); cbn; auto.
Qed.

End crypto.

Lemma audit_record_quiet `{E : Env} a : quiet (AuditService.record a).
Proof. unfold AuditService.record. quiet. Qed.

Lemma event_record_quiet `{E : Env} e u r m : quiet (SecurityEventService.record e u r m).
Proof. unfold SecurityEventService.record. quiet. Qed.

Lemma encrypt_value_quiet `{E : Env} v p : quiet (encrypt_value v p).
Proof. unfold encrypt_value, key_material. quiet. Qed.

Lemma decrypt_value_quiet `{E : Env} v p : quiet (decrypt_value v p).
Proof. unfold decrypt_value, key_material. quiet. Qed.

Lemma audit_record_internal `{E : Env} a : fails_internally (AuditService.record a).
Proof. unfold AuditService.record. internal. Qed.

Lemma event_record_internal `{E : Env} e u r m : fails_internally (SecurityEventService.record e u r m).
Proof. unfold SecurityEventService.record. internal. Qed.

Lemma encrypt_value_internal `{E : Env} v p : fails_internally (encrypt_value v p).
Proof. unfold encrypt_value, key_material. internal. Qed.

Lemma audit_record_advances `{E : Env} a : advances (AuditService.record a).
Proof. unfold AuditService.record. advances. Qed.

Lemma event_record_advances `{E : Env} e u r m : advances (SecurityEventService.record e u r m).
Proof. unfold SecurityEventService.record. advances. Qed.

Lemma encrypt_value_advances `{E : Env} v p : advances (encrypt_value v p).
Proof. unfold encrypt_value, key_material. advances. Qed.

Lemma decrypt_value_advances `{E : Env} v p : advances (decrypt_value v p).
Proof. unfold decrypt_value, key_material. advances. Qed.

#[export] Hint Resolve audit_record_advances event_record_advances encrypt_value_advances
  decrypt_value_advances : advances.
#[export] Hint Resolve audit_record_internal event_record_internal encrypt_value_internal : internal.
#[export] Hint Resolve audit_record_quiet event_record_quiet encrypt_value_quiet decrypt_value_quiet : quiet.
#[export] Hint Resolve audit_record_grows event_record_grows : evolve.
#[export] Hint Extern 2 (evolves _ (encrypt_value _ _)) =>
  apply encrypt_value_evolves; exact _ : evolve.
#[export] Hint Extern 2 (evolves _ (decrypt_value _ _)) =>
  apply decrypt_value_evolves; exact _ : evolve.
#[export] Hint Extern 2 (evolves (keeps _) (AuditService.record _)) =>
  apply audit_record_keeps; reflexivity : evolve.
#[export] Hint Extern 2 (evolves (keeps _) (SecurityEventService.record _ _ _ _)) =>
  apply event_record_keeps; reflexivity : evolve.
