(* ===== verification/Mail.v ===== *)
(** * Outgoing mail ([common/services/email.py], templates/emails)

    [Common.email] is what a service hands over; here is what becomes of it: the
    templates (the text versions in full, of the HTML versions the variables),
    the context and the text of a message, and that a mail that went through the
    message queue reads the same. *)

From S2P Require Import Prelude Env Demo Models Orm Logic Common.

(** ** Templates *)

(** What a template is made of; [user.display_name] is ["user"; "display_name"]. *)
Inductive Piece :=
| Lit (s : string)
| Var (path : list string).

Definition nl : string := String "010" "".
Definition greeting : list string := ["user"; "display_name"].
Definition hello : list Piece := [Lit "Hello "; Var greeting; Lit ("," +:+ nl +:+ nl)].

(** The text versions. *)
Definition account_locked_txt : list Piece :=
  hello ++ [Lit ("Sign-in attempts caused a temporary security lock. Try again later or reset your password." +:+ nl)].

Definition account_security_warning_txt : list Piece :=
  hello ++ [Lit "A sensitive account action was requested: "; Var ["action_url"];
    Lit (nl +:+ nl +:+ "If this was not you, do not use this link." +:+ nl)].

Definition email_changed_txt : list Piece :=
  [Lit "The email address on your account was changed to "; Var ["new_email"];
    Lit ("." +:+ nl +:+ nl +:+ "If this was not you, contact "); Var ["support_email"]; Lit (" immediately." +:+ nl)].

Definition email_verification_txt : list Piece :=
  hello ++ [Lit "Verify your email: "; Var ["verification_url"];
    Lit (nl +:+ nl +:+ "If you did not request this, ignore this message." +:+ nl)].

Definition new_device_login_txt : list Piece :=
  hello ++ [Lit ("A new device signed in:" +:+ nl +:+ "Browser: "); Var ["session"; "browser"];
    Lit (nl +:+ "Operating system: "); Var ["session"; "operating_system"];
    Lit (nl +:+ "Device: "); Var ["session"; "device"]; Lit (nl +:+ "IP: "); Var ["session"; "ip_address"];
    Lit (nl +:+ nl +:+ "Review unknown sessions immediately." +:+ nl)].

Definition notification_txt : list Piece :=
  hello ++ [Var ["notification"; "title"]; Lit (nl +:+ nl); Var ["notification"; "message"]; Lit nl].

Definition password_changed_txt : list Piece :=
  hello ++ [Lit "Your password was changed. If this was not you, contact "; Var ["support_email"];
    Lit (" immediately." +:+ nl)].

Definition password_reset_txt : list Piece :=
  hello ++ [Lit "Reset your password: "; Var ["reset_url"];
    Lit (nl +:+ nl +:+ "If this was not you, do not use the link." +:+ nl)].

Definition two_factor_disabled_txt : list Piece :=
  hello ++ [Lit "Two-factor authentication was disabled. If this was not you, contact "; Var ["support_email"];
    Lit (" immediately." +:+ nl)].

Definition two_factor_enabled_txt : list Piece :=
  hello ++ [Lit ("Two-factor authentication was enabled on your account." +:+ nl)].

Definition welcome_txt : list Piece :=
  hello ++ [Lit "Your account is ready. Welcome to "; Var ["site_name"];
    Lit ("." +:+ nl +:+ nl +:+ "Need help? "); Var ["support_email"]; Lit nl].

(** The variables of the HTML versions; base.html, which they extend, has those
    of [base_variables]. *)
Definition base_variables : list (list string) := [["site_name"]; ["support_email"]].

Definition account_locked_html : list (list string) := [greeting].
Definition account_security_warning_html : list (list string) := [greeting; ["action_url"]].
Definition email_changed_html : list (list string) := [["new_email"]].
Definition email_verification_html : list (list string) := [greeting; ["verification_url"]].
Definition new_device_login_html : list (list string) :=
  [greeting; ["session"; "browser"]; ["session"; "operating_system"]; ["session"; "device"]; ["session"; "ip_address"]].
Definition notification_html : list (list string) :=
  [["notification"; "title"]; greeting; ["notification"; "title"]; ["notification"; "message"]].
Definition password_changed_html : list (list string) := [greeting].
Definition password_reset_html : list (list string) := [greeting; ["reset_url"]].
Definition two_factor_disabled_html : list (list string) := [greeting].
Definition two_factor_enabled_html : list (list string) := [greeting].
Definition welcome_html : list (list string) := [["site_name"]; greeting; ["site_name"]].

(** [render_to_string] finds a template by its name. *)
Definition text_templates : list (string * list Piece) :=
  [("account_locked", account_locked_txt);
   ("account_security_warning", account_security_warning_txt);
   ("email_changed", email_changed_txt);
   ("email_verification", email_verification_txt);
   ("new_device_login", new_device_login_txt);
   ("notification", notification_txt);
   ("password_changed", password_changed_txt);
   ("password_reset", password_reset_txt);
   ("two_factor_disabled", two_factor_disabled_txt);
   ("two_factor_enabled", two_factor_enabled_txt);
   ("welcome", welcome_txt)].

Definition html_templates : list (string * list (list string)) :=
  [("account_locked", account_locked_html);
   ("account_security_warning", account_security_warning_html);
   ("email_changed", email_changed_html);
   ("email_verification", email_verification_html);
   ("new_device_login", new_device_login_html);
   ("notification", notification_html);
   ("password_changed", password_changed_html);
   ("password_reset", password_reset_html);
   ("two_factor_disabled", two_factor_disabled_html);
   ("two_factor_enabled", two_factor_enabled_html);
   ("welcome", welcome_html)].

Definition named {A} (name : string) (l : list (string * A)) : option A :=
  snd <$> List.find (fun t => String.eqb t.1 name) l.

Definition variables (l : list Piece) : list (list string) :=
  omap (fun p => match p with Var path => Some path | Lit _ => None end) l.

(** Every variable that one of the two versions of a template shows. *)
Definition template_variables (template : string) : option (list (list string)) :=
  match named template text_templates, named template html_templates with
  | Some text, Some html => Some (variables text ++ base_variables ++ html)
  | _, _ => None
  end.

(** How a template looks a name up in a value: a key of a dict, an attribute of
    an object. *)
Definition attribute (v : pyval) (name : string) : option pyval :=
  match v with
  | PDict l | PDataclass _ l | PObject _ l => named name l
  | PUser id email display_name =>
      named name [("id", PUUID id); ("email", PStr email); ("display_name", PStr display_name)]
  | PSession _ identifier browser os device ip created =>
      named name [("identifier", PStr identifier); ("browser", PStr browser); ("operating_system", PStr os);
                     ("device", PStr device); ("ip_address", match ip with Some a => PStr a | None => PNone end);
                     ("created_at", PDatetime created)]
  | _ => None
  end.

Fixpoint resolve (v : pyval) (path : list string) : option pyval :=
  match path with
  | [] => Some v
  | name :: path' => attribute v name ≫= fun v' => resolve v' path'
  end.

(** ** [EmailService.send] *)

Section mail.
Context `{E : Env}.

(** [{"site_name": ..., **context}]: a name of the context replaces a default. *)
Definition is_default (name : string) : bool :=
  existsb (String.eqb name) ["site_name"; "site_url"; "support_email"].
Definition email_context (support : string) (context : list (string * pyval)) : list (string * pyval) :=
  let value name otherwise := default (PStr otherwise) (named name context) in
  [("site_name", value "site_name" SITE_NAME); ("site_url", value "site_url" SITE_URL);
   ("support_email", value "support_email" support)] ++
  List.filter (fun kv => negb (is_default kv.1)) context.

(** [django.utils.html.escape]: the engine escapes what a variable shows, in the
    text versions too. *)
Definition escape_char (c : ascii) : string :=
  if decide (c = "&"%char) then "&amp;" else if decide (c = "<"%char) then "&lt;" else
  if decide (c = ">"%char) then "&gt;" else if decide (c = ascii_of_nat 34) then "&quot;" else
  if decide (c = "'"%char) then "&#x27;" else String c "".
Fixpoint escape (s : string) : string :=
  match s with "" => "" | String c s' => escape_char c +:+ escape s' end.

(** [EmailMultiAlternatives] with its HTML alternative. *)
Record Message := MkMessage {
  subject : string;
  text_body : string;
  html_body : string;
  from_email : string;
  to : list string;
}.

(** [show] is what the engine prints for a value that is neither a string nor
    None; [html] renders the HTML version. *)
Section rendering.
Context (show : pyval -> string) (html : string -> list (string * pyval) -> string).

Definition printed (v : option pyval) : string :=
  match v with None => "" | Some PNone => "None" | Some (PStr s) => escape s | Some v => show v end.

Fixpoint render_pieces (l : list Piece) (context : list (string * pyval)) : string :=
  match l with
  | [] => ""
  | Lit s :: l' => s +:+ render_pieces l' context
  | Var path :: l' => printed (resolve (PDict context) path) +:+ render_pieces l' context
  end.

(** Without a template of that name the renderer raises. *)
Definition send_email (support from : string) (template recipient subject : string) (context : list (string * pyval)) :
    option Message :=
  let email_context := email_context support context in
  match named template text_templates with
  | Some text => Some (MkMessage subject (render_pieces text email_context) (html template email_context) from [recipient])
  | None => None
  end.

(** The task [send_templated_email] *)
Definition send_templated_email (support from : string) (template recipient subject : string)
    (context : list (string * pyval)) : option Message := send_email support from template recipient subject context.

End rendering.

(** What a template prints and a message of the queue carries as it is. *)
Definition scalar (v : pyval) : bool :=
  match v with PNone | PStr _ => true | _ => false end.

Definition shows (v : pyval) (path : list string) : bool :=
  match resolve v path with Some x => scalar x | None => false end.

(** Nothing a template shows is missing: the context has it, or [send] does. *)
Definition has_default (context : list (string * pyval)) (path : list string) : bool :=
  bool_decide (path ∈ base_variables) && is_none (resolve (PDict context) path).
Definition shows_all (template : string) (context : list (string * pyval)) : bool :=
  match template_variables template with
  | Some paths => forallb (fun path => shows (PDict context) path || has_default context path) paths
  | None => false
  end.

(** The effects that are mails are complete. *)
Definition complete_effect (e : effect) : Prop :=
  match e with SendEmail template _ _ context => shows_all template context = true | _ => True end.

(** ** The queue *)

Fixpoint serialised (l : list (string * pyval)) : list (string * pyval) :=
  match l with [] => [] | (k, item) :: l' => (k, task_context item) :: serialised l' end.

Fixpoint serialised_public (l : list (string * pyval)) : list (string * pyval) :=
  match l with
  | [] => []
  | (k, item) :: l' => if String.prefix "_" k then serialised_public l' else (k, task_context item) :: serialised_public l'
  end.

Lemma task_context_dict l : task_context (PDict l) = PDict (serialised l).
Proof. reflexivity. Qed.

Lemma task_context_dataclass r l : task_context (PDataclass r l) = PDict (serialised l).
Proof. reflexivity. Qed.

Lemma task_context_object r l : task_context (PObject r l) = PDict (serialised_public l).
Proof. reflexivity. Qed.

Lemma named_cons {A} name k (v : A) l : named name ((k, v) :: l) = if String.eqb k name then Some v else named name l.
Proof. unfold named. cbn. by destruct (String.eqb k name). Qed.

Lemma named_serialised name l : named name (serialised l) = task_context <$> named name l.
Proof.
  induction l as [|[k v] l IH]; [done|]. cbn [serialised]. rewrite !named_cons, IH. by destruct (String.eqb k name).
Qed.

Lemma named_public name l :
  String.prefix "_" name = false -> named name (serialised_public l) = task_context <$> named name l.
Proof.
  intros Hn. induction l as [|[k v] l IH]; [done|]. cbn [serialised_public]. rewrite named_cons.
  destruct (String.prefix "_" k) eqn:Hk; rewrite ?named_cons, IH; [|by destruct (String.eqb k name)].
  destruct (String.eqb_spec k name) as [->|]; [congruence|done].
Qed.

(** A name that a template may use; names with an underscore in front are
    private. *)
Definition public (name : string) : bool := negb (String.prefix "_" name).

Lemma attribute_serialised v name v' :
  public name = true -> attribute v name = Some v' -> attribute (task_context v) name = Some (task_context v').
Proof.
  intros Hn%negb_true_iff Ha. destruct v; try done.
  - rewrite task_context_dict. cbn in *. by rewrite named_serialised, Ha.
  - rewrite task_context_dataclass. cbn in *. by rewrite named_serialised, Ha.
  - revert Ha. cbn [attribute task_context]. rewrite !named_cons. by repeat destruct (String.eqb _ _); try intros [= <-].
  - revert Ha. cbn [attribute task_context]. rewrite !named_cons.
    repeat destruct (String.eqb _ _); try (by intros [= <-]); try done. destruct ip_address; by intros [= <-].
  - rewrite task_context_object. cbn in *. by rewrite named_public, Ha.
Qed.

Lemma resolve_serialised path v v' :
  forallb public path = true -> resolve v path = Some v' -> resolve (task_context v) path = Some (task_context v').
Proof.
  revert v. induction path as [|name path IH]; intros v; cbn [resolve forallb]; [by intros _ [= ->]|].
  intros [Hn Hp]%andb_true_iff. destruct (attribute v name) as [x|] eqn:Ha; [|done].
  rewrite (attribute_serialised v name x Hn Ha). by apply IH.
Qed.

Lemma scalar_serialised v : scalar v = true -> task_context v = v.
Proof. by destruct v. Qed.

Lemma variables_public template paths path :
  template_variables template = Some paths -> path ∈ paths -> forallb public path = true.
Proof.
  intros Hp Hin. enough (Hall : forallb (forallb public) paths = true).
  { rewrite forallb_forall in Hall. by apply Hall, list_elem_of_In. }
  revert Hp. clear. unfold template_variables, named. destruct (List.find _ text_templates) as [[t text]|] eqn:Ht; [|done].
  destruct (List.find _ html_templates) as [[h html]|] eqn:Hh; [|done]. intros [= <-].
  apply List.find_some in Ht as [Ht _]. apply List.find_some in Hh as [Hh _]. rewrite !forallb_app.
  assert (Htext : forallb (fun t => forallb (forallb public) (variables t.2)) text_templates = true) by reflexivity.
  assert (Hhtml : forallb (fun t => forallb (forallb public) t.2) html_templates = true) by reflexivity.
  rewrite forallb_forall in Htext, Hhtml. specialize (Htext _ Ht). specialize (Hhtml _ Hh). cbn [snd] in Htext, Hhtml |- *.
  by rewrite Htext; cbn; rewrite Hhtml.
Qed.

(** What a template shows is the same in the context of the queue. *)
Lemma shows_serialised v path :
  forallb public path = true -> shows v path = true -> resolve (task_context v) path = resolve v path.
Proof.
  unfold shows. intros Hp Hs. destruct (resolve v path) as [x|] eqn:Hr; [|done].
  by rewrite (resolve_serialised path v x Hp Hr), scalar_serialised.
Qed.

Lemma resolve_base name context : resolve (PDict context) [name] = named name context.
Proof. cbn. by destruct (named name context). Qed.

Lemma default_is_absent context name path :
  has_default context (name :: path) = true -> named name context = None.
Proof.
  intros [Hin%bool_decide_eq_true Hn]%andb_true_iff. unfold base_variables in Hin.
  repeat (apply elem_of_cons in Hin as [[= -> ->]|Hin]); [..|by apply elem_of_nil in Hin];
    rewrite resolve_base in Hn; by destruct (named _ context).
Qed.

Lemma has_default_serialised context path : has_default (serialised context) path = has_default context path.
Proof.
  unfold has_default. case_bool_decide as Hin; [|done]. unfold base_variables in Hin.
  repeat (apply elem_of_cons in Hin as [->|Hin]); [..|by apply elem_of_nil in Hin];
    rewrite !resolve_base, named_serialised; by destruct (named _ context).
Qed.

Lemma serialised_shows_all template context :
  shows_all template context = true -> shows_all template (serialised context) = true.
Proof.
  unfold shows_all. destruct (template_variables template) as [paths|] eqn:Hp; [|done].
  rewrite !forallb_forall. intros Hall path Hin. pose proof (Hall path Hin) as [Hs|Hd]%orb_true_iff.
  - apply orb_true_iff. left. unfold shows. rewrite <- task_context_dict.
    rewrite shows_serialised; [exact Hs| |done]. by apply (variables_public _ _ _ Hp), list_elem_of_In.
  - by rewrite has_default_serialised, Hd, orb_true_r.
Qed.

Lemma email_complete template recipient subject context :
  shows_all template context = true -> complete_effect (email template recipient subject context).
Proof.
  intros Hall. unfold email. rewrite task_context_dict. cbn [complete_effect].
  destruct (_ && _); [by apply serialised_shows_all|done].
Qed.

(** ** The context of the message *)

(** The defaults of [send] are there, and hide nothing. *)
Definition defaults (support : string) : list (string * pyval) :=
  [("site_name", PStr SITE_NAME); ("site_url", PStr SITE_URL); ("support_email", PStr support)].

Lemma named_context support context name :
  named name (email_context support context) =
    match named name context with Some v => Some v | None => named name (defaults support) end.
Proof.
  assert (Hrest : is_default name = false ->
    named name (List.filter (fun kv => negb (is_default kv.1)) context) = named name context).
  { intros Hn. induction context as [|[k v] context IH]; [done|]. cbn [List.filter fst].
    destruct (String.eqb_spec k name) as [->|Hk]; [by rewrite Hn; cbn [negb]; rewrite !named_cons, String.eqb_refl|].
    rewrite (named_cons name k), (proj2 (String.eqb_neq k name) Hk), <- IH.
    destruct (is_default k); cbn [negb]; [done|]. by rewrite named_cons, (proj2 (String.eqb_neq k name) Hk). }
  unfold email_context, defaults. cbn [app]. rewrite !named_cons.
  destruct (String.eqb_spec "site_name" name) as [<-|H1]; [by destruct (named _ context)|].
  destruct (String.eqb_spec "site_url" name) as [<-|H2]; [by destruct (named _ context)|].
  destruct (String.eqb_spec "support_email" name) as [<-|H3]; [by destruct (named _ context)|].
  rewrite Hrest; [by destruct (named name context)|].
  unfold is_default. cbn [existsb]. rewrite !(String.eqb_sym name). by rewrite !(proj2 (String.eqb_neq _ name)).
Qed.

Lemma resolve_context support context name path :
  resolve (PDict (email_context support context)) (name :: path) =
    match named name context with
    | Some _ => resolve (PDict context) (name :: path)
    | None => resolve (PDict (defaults support)) (name :: path)
    end.
Proof. cbn [resolve attribute]. rewrite named_context. by destruct (named name context). Qed.

(** Whatever a template shows is in the context of the message. *)
Lemma message_shows support template context paths path :
  shows_all template context = true -> template_variables template = Some paths -> path ∈ paths ->
  shows (PDict (email_context support context)) path = true.
Proof.
  unfold shows_all. intros Hall Hp Hin. rewrite Hp, forallb_forall in Hall. apply list_elem_of_In, Hall in Hin.
  apply orb_true_iff in Hin as [Hs|[Hin Hn]%andb_true_iff].
  - destruct path as [|name path]; [done|]. unfold shows in *. rewrite resolve_context.
    destruct (named name context) eqn:Hv; [done|]. cbn [resolve attribute] in Hs. by rewrite Hv in Hs.
  - apply bool_decide_eq_true in Hin. unfold base_variables in Hin.
    repeat (apply elem_of_cons in Hin as [->|Hin]); [..|by apply elem_of_nil in Hin];
      rewrite resolve_base in Hn; unfold shows; rewrite resolve_context; by destruct (named _ context).
Qed.

(** A mail reads the same whether it is sent at once or goes through the queue. *)
Lemma queued_value support template context paths path :
  shows_all template context = true -> template_variables template = Some paths -> path ∈ paths ->
  resolve (PDict (email_context support (serialised context))) path =
    resolve (PDict (email_context support context)) path.
Proof.
  unfold shows_all. intros Hall Hp Hin. pose proof (variables_public _ _ _ Hp Hin) as Hpub.
  rewrite Hp, forallb_forall in Hall. apply list_elem_of_In, Hall in Hin.
  destruct path as [|name path]; [by apply orb_true_iff in Hin as [?|?]|].
  rewrite !resolve_context, named_serialised. destruct (named name context) eqn:Hv; [|done]. cbn [fmap option_fmap option_map].
  rewrite <- task_context_dict. apply orb_true_iff in Hin as [Hs|Hd]; [by apply shows_serialised|].
  by rewrite (default_is_absent context name path Hd) in Hv.
Qed.

Section rendering.
Context (show : pyval -> string) (html : string -> list (string * pyval) -> string).

Lemma render_pieces_ext l context context' :
  (forall path, path ∈ variables l -> resolve (PDict context') path = resolve (PDict context) path) ->
  render_pieces show l context' = render_pieces show l context.
Proof.
  induction l as [|[s|path] l IH]; intros Hv; cbn [render_pieces]; [done|by rewrite IH|].
  rewrite Hv by (by apply elem_of_cons; left). by rewrite IH by (intros p Hp; apply Hv; by apply elem_of_cons; right).
Qed.

Lemma shows_all_templates template context :
  shows_all template context = true ->
  exists text paths, named template text_templates = Some text /\ named template html_templates = Some paths /\
    template_variables template = Some (variables text ++ base_variables ++ paths).
Proof.
  unfold shows_all. destruct (template_variables template) as [l|] eqn:Hl; [|done]. intros _. revert Hl.
  unfold template_variables. destruct (named template text_templates) as [text|] eqn:Ht; [|done].
  destruct (named template html_templates) as [paths|] eqn:Hh; [|done]. intros [= <-]. by exists text, paths.
Qed.

(** The engine sees of a context what the variables of the template resolve to. *)
Hypothesis html_variables : forall template paths context context',
  named template html_templates = Some paths ->
  (forall path, path ∈ base_variables ++ paths -> resolve (PDict context') path = resolve (PDict context) path) ->
  html template context' = html template context.

(** [C40] A mail that goes through the message queue, where users and sessions
    are replaced by what the serialisation keeps of them, is the mail that
    sending it at once would have been, whatever the values and the names in
    the context are, if nothing that its template shows is missing. *)
Theorem queued_message support from template recipient subject context :
  shows_all template context = true ->
  is_some (send_email show html support from template recipient subject context) = true /\
  send_templated_email show html support from template recipient subject (serialised context) =
    send_email show html support from template recipient subject context.
Proof.
  intros Hall. destruct (shows_all_templates _ _ Hall) as (text & paths & Ht & Hh & Hv).
  unfold send_templated_email, send_email. rewrite Ht. split; [done|]. do 2 f_equal.
  - apply render_pieces_ext. intros path Hin. by apply (queued_value _ _ _ _ _ Hall Hv), elem_of_app; left.
  - apply (html_variables _ _ _ _ Hh). intros path Hin. by apply (queued_value _ _ _ _ _ Hall Hv), elem_of_app; right.
Qed.

End rendering.
End mail.

(** ** Witness: a password reset *)

Section witnesses.

(** An engine that prints the variables one after the other. *)
Definition bare_html (template : string) (context : list (string * pyval)) : string :=
  match named template html_templates with
  | Some paths => render_pieces (fun _ => "") (Var <$> base_variables ++ paths) context
  | None => ""
  end.

Definition reset_context : list (string * pyval) :=
  [("user", PUser 1 "alice@example.test" "Al & Co"); ("reset_url", PStr "https://app.example.test/reset-password?token=t")].

Lemma queued_message_witness :
  text_body <$> send_templated_email (E := demo_env) (fun _ => "") bare_html "help@example.test" "from@example.test" "password_reset"
      "alice@example.test" "Reset" (serialised (E := demo_env) reset_context) =
    Some ("Hello Al &amp; Co," +:+ nl +:+ nl +:+ "Reset your password: https://app.example.test/reset-password?token=t" +:+
          nl +:+ nl +:+ "If this was not you, do not use the link." +:+ nl).
Proof.
  refine (eq_trans (f_equal (fmap text_body) (proj2 (queued_message (E := demo_env) (fun _ => "") bare_html _ _ _ _ _ _
    reset_context _))) _); [|vm_compute; reflexivity..].
  intros template paths context context' Hp Hv. unfold bare_html. rewrite Hp. apply render_pieces_ext.
  intros path Hin. apply Hv. revert Hin. generalize (base_variables ++ paths). intros l Hin.
  induction l as [|x l IH]; [done|]. apply elem_of_cons in Hin as [->|Hin]; apply elem_of_cons; [by left|right; by apply IH].
Defined.

End witnesses.
