(* ===== verification/Samples.v ===== *)
(** * Sample data for the witnesses

    Rows and a request in the world of [Demo], and the tactics that check the
    side conditions (constraints, fresh keys) on concrete tables. *)

From S2P Require Import Prelude Env Demo Models Orm Logic Common.

Definition sample_user (name : string) : User.t :=
  User.mk (name +:+ "@example.test") name "" "" "" "" AccountStatus.ACTIVE (Some 0) None
    true false false "argon2$correct horse battery" 0 None None 0 0.

Definition sample_request : Request := MkRequest (Some "192.0.2.1") "" "agent" "req-1".

(** The encryption of [key] in the demonstration world. *)
Definition sample_session (user : uuid) (key : string) (n : N) : UserSession.t :=
  UserSession.mk user (uuid_hex n) (keyed_hash (E := demo_env) key "django-session")
    (purpose_key (E := demo_env) "django-session" +:+ "$" +:+ key) None "agent" "" "" "pc" 0 0 None.

(** Alice is user 1 and Bob user 2; Alice has the sessions 11 and 12, Bob 13. *)
Definition sample_db : DB := empty_db
  <| users := {[ 1%N := sample_user "alice"; 2%N := sample_user "bob" ]} |>
  <| user_sessions := {[ 11%N := sample_session 1 "key-a" 11; 12%N := sample_session 1 "key-b" 12;
                         13%N := sample_session 2 "key-c" 13 ]} |>
  <| django_sessions := {[ "key-a"; "key-b"; "key-c" ]} |>.

Definition sample_world : World := (initial_world sample_db)
  <| http_session := MkHttpSession (Some "key-a") (Some 1%N) None |>.

(** Checks on concrete tables: the constraints, and that the sample keys are
    below the ones still to be drawn. *)
Lemma unique_by_check {R} `{!Model R, !ModelLaws R} d :
  unique_check (objects (R := R) d) = true -> unique_rows (R := R) d.
Proof. apply unique_check_sound. Qed.

Definition below_draws {R} `{!Model R} (d : DB) : bool :=
  forallb (fun x => (x.1 <? 1000)%N) (map_to_list (objects (R := R) d)).

Lemma fresh_by_check {R} `{!Model R} w :
  below_draws (R := R) (db w) = true -> fresh (E := demo_env) (R := R) w.
Proof.
  unfold below_draws. rewrite forallb_forall. intros Hb n _. cbn.
  destruct (objects (db w) !! _) as [r|] eqn:Hr; [|done]. exfalso.
  specialize (Hb ((1000 + N.of_nat n)%N, r)). cbn in Hb.
  rewrite N.ltb_lt in Hb. enough ((1000 + N.of_nat n < 1000)%N) by lia.
  apply Hb, list_elem_of_In. by apply elem_of_map_to_list.
Qed.

Ltac sample_check := first [apply unique_by_check | apply fresh_by_check]; vm_compute; reflexivity.

Lemma sample_journal_ready : journal_ready (E := demo_env) sample_world.
Proof. split; sample_check. Qed.

Lemma sample_users_unique : unique_rows (R := User.t) sample_db.
Proof. sample_check. Qed.

Lemma sample_sessions_unique : unique_rows (R := UserSession.t) sample_db.
Proof. sample_check. Qed.

(** Whether a run ended normally. *)
Definition returned {A} (r : (exn + A) * World) : bool :=
  match r.1 with inr _ => true | inl _ => false end.

(** The case of a theorem [H] about the [run] at hand that [run] ends in. *)
Ltac run_returns run H :=
  let Hr := fresh "Hr" in
  assert (Hr : returned run = true) by (vm_compute; reflexivity);
  destruct run as [[?e|?a] ?w'] eqn:?Hrun; [discriminate Hr|clear Hr].
Ltac run_raises run H :=
  let Hr := fresh "Hr" in
  assert (Hr : returned run = false) by (vm_compute; reflexivity);
  destruct run as [[?e|?a] ?w'] eqn:?Hrun; [clear Hr|discriminate Hr].
