(* ===== verification/Users.v ===== *)
(** * Users ([apps/accounts/models.py])

    The user manager, [User.save] with [update_fields], the ban and
    availability checks every credential goes through, and the per-user rows
    created on demand. *)

From S2P Require Import Prelude Env Models Orm Logic Common.

Section users.
Context `{E : Env}.

(** ** Availability *)

(** [user.bans.filter(revoked_at null, starts_at <= now, expires_at null or > now)] *)
Definition active_ban (t : Z) (uid : uuid) (_ : uuid) (b : UserBan.t) : bool :=
  N.eqb (UserBan.user b) uid && UserBan.is_active t b.

(** [User.has_active_ban] *)
Definition has_active_ban (uid : uuid) : M bool :=
  let! t := now in exists_row (active_ban t uid).

(** [User.can_authenticate_now]; [and] does not evaluate its right side when
    the left one is false. *)
Definition can_authenticate_now (uid : uuid) (u : User.t) : M bool :=
  if User.is_active u && bool_decide (User.status u = AccountStatus.ACTIVE)
  then let! banned := has_active_ban uid in ret (negb banned)
  else ret false.

(** What it answers, as a predicate on the database. *)
Definition available (t : Z) (d : DB) (uid : uuid) (u : User.t) : bool :=
  User.is_active u && bool_decide (User.status u = AccountStatus.ACTIVE)
  && negb (Table.any (active_ban t uid) (bans d)).

(** ** Writing users *)

(** [user.set_password(raw)]; [None] makes the password unusable. *)
Definition hash_password (raw : option string) : M string :=
  match raw with
  | Some p => draw (fun n => make_password n p)
  | None => draw unusable_password
  end.

(** [extra_fields] of the managers. *)
Record extra_fields := MkExtra {
  x_first_name : string;
  x_last_name : string;
  x_is_staff : bool;
  x_is_superuser : bool;
  x_is_active : bool;
  x_status : AccountStatus.t;
  x_email_verified_at : option Z;
}.

(** [UserManager._create_user]: [full_clean] normalises the login name and
    validates the fields, [User.save] normalises again and inserts. *)
Definition _create_user (email username : string) (password : option string)
    (x : extra_fields) : M (uuid * User.t) :=
  if Str.is_empty email then raise (ValueError "Email is required")
  else if Str.is_empty username then raise (ValueError "Username is required")
  else
    let! joined := now in
    let! hash := hash_password password in
    let email' := normalize_username (User.normalize_email_address email) in
    let username' := Str.strip username in
    if negb (user_fields_valid email' username' (x_first_name x) (x_last_name x))
    then raise (ValidationError "user" "invalid")
    else
      let! created := now in
      let! updated := now in
      create (User.before_save {|
        User.email := email';
        User.username := username';
        User.first_name := x_first_name x;
        User.last_name := x_last_name x;
        User.avatar := "";
        User.phone := "";
        User.status := x_status x;
        User.email_verified_at := x_email_verified_at x;
        User.phone_verified_at := None;
        User.is_active := x_is_active x;
        User.is_staff := x_is_staff x;
        User.is_superuser := x_is_superuser x;
        User.password := hash;
        User.date_joined := joined;
        User.last_login := None;
        User.last_login_ip := None;
        User.created_at := created;
        User.updated_at := updated;
      |}).

(** [UserManager.create_user] *)
Definition create_user (email username : string) (password : option string)
    (first_name last_name : string) : M (uuid * User.t) :=
  _create_user email username password
    (MkExtra first_name last_name false false true AccountStatus.PENDING None).

(** [UserManager.create_superuser]; [is_staff] and [is_superuser] as the caller
    passes them, if it does. *)
Definition create_superuser (email username : string) (password : option string)
    (is_staff is_superuser : option bool) : M (uuid * User.t) :=
  let! verified := now in
  let staff := default true is_staff in
  let super := default true is_superuser in
  if negb staff || negb super
  then raise (ValueError "Superusers must have is_staff=True and is_superuser=True")
  else _create_user email username password
    (MkExtra "" "" staff super true AccountStatus.ACTIVE (Some verified)).

(** [user.save(update_fields=[..., "updated_at"])] *)
Definition save_user (uid : uuid) (f : User.t -> User.t) : M unit :=
  let! t := now in save_fields uid (fun r => (f r) <| User.updated_at := t |>).

(** ** Rows created on demand *)

Definition security_settings_of (uid : uuid) : M (uuid * UserSecuritySettings.t * bool) :=
  get_or_create (fun _ s => N.eqb (UserSecuritySettings.user s) uid)
    (let! c := now in let! u := now in
     ret (UserSecuritySettings.mk uid None None true c u)).

Definition new_preferences (uid : uuid) : M UserPreferences.t :=
  let! c := now in let! u := now in ret (UserPreferences.mk uid "en" "UTC" true true c u).

Definition preferences_of (uid : uuid) : M (uuid * UserPreferences.t * bool) :=
  get_or_create (fun _ p => N.eqb (UserPreferences.user p) uid) (new_preferences uid).

(** [UserSecuritySettings.is_locked] *)
Definition is_locked (s : UserSecuritySettings.t) : M bool :=
  match UserSecuritySettings.locked_until s with
  | None => ret false
  | Some _ => let! t := now in ret (UserSecuritySettings.is_locked t s)
  end.

(** [settings_row.<field> = ...; settings_row.save(update_fields=[..., "updated_at"])] *)
Definition save_security_settings (k : uuid)
    (f : UserSecuritySettings.t -> UserSecuritySettings.t) : M unit :=
  let! t := now in save_fields k (fun s => (f s) <| UserSecuritySettings.updated_at := t |>).

(** ** Facts *)

Lemma can_authenticate_now_spec uid u w :
  exists w', can_authenticate_now uid u w = (inr (available (clock w.(ticks)) (db w) uid u), w') /\
    db w' = db w /\ http_session w' = http_session w /\ (ticks w <= ticks w')%nat.
Proof.
  unfold can_authenticate_now, available, has_active_ban.
  destruct (User.is_active u && _); cbn.
  - eexists. split; [done|]. cbn. repeat split. lia.
  - eexists. split; [done|]. done.
Qed.

(** A login name is stored in lower case without surrounding blanks, and
    saving it again changes nothing. *)
Lemma normalize_email_address_eq `{!EmailLaws E} e :
  User.normalize_email_address e = Str.casefold (Str.strip e).
Proof. apply normalize_email_case, Str.strip_idem. Qed.

Lemma normalize_email_address_idem `{!EmailLaws E} e :
  User.normalize_email_address (User.normalize_email_address e) = User.normalize_email_address e.
Proof.
  by rewrite !normalize_email_address_eq, Str.strip_casefold, Str.casefold_idem, Str.strip_idem.
Qed.

Lemma before_save_idem `{!EmailLaws E} u :
  User.before_save (User.before_save u) = User.before_save u.
Proof.
  unfold User.before_save. cbn -[Str.strip User.normalize_email_address].
  by rewrite normalize_email_address_idem, Str.strip_idem.
Qed.

End users.
