(* ===== verification/Tokens.v ===== *)
(** * One-time tokens and refresh-token revocation

    [TokenService] of apps/authentication/services.py. *)

From S2P Require Import Prelude Env Demo Models Orm Logic Common.

Section tokens.
Context `{E : Env}.

Definition token_key (raw : string) (purpose : TokenPurpose.t) : string :=
  keyed_hash raw ("one-time:" +:+ TokenPurpose.value purpose).

Definition invalid_token : exn := APIException "This token is invalid or expired." "INVALID_TOKEN" 400 [].

(** The unused tokens of a user for a purpose. *)
Definition outstanding_for (user : uuid) (purpose : TokenPurpose.t) (_ : uuid) (k : OneTimeToken.t) : bool :=
  N.eqb (OneTimeToken.user k) user && bool_decide (OneTimeToken.purpose k = purpose)
  && is_none (OneTimeToken.used_at k).

(** [TokenService.issue] *)
Definition issue (user : uuid) (purpose : TokenPurpose.t) (ttl : Z)
    (metadata : list (string * string)) : M string :=
  atomic (
    let! t := now in
    update_where (outstanding_for user purpose) (fun k => k <| OneTimeToken.used_at := Some t |>) ;;
    let! raw := generate_token 32 in
    let! created := now in
    create {|
      OneTimeToken.user := user;
      OneTimeToken.purpose := purpose;
      OneTimeToken.token_hash := token_key raw purpose;
      OneTimeToken.metadata := metadata;
      OneTimeToken.created_at := created;
      OneTimeToken.expires_at := t + ttl;
      OneTimeToken.used_at := None;
    |} ;;
    ret raw).

Definition token_query (raw : string) (purpose : TokenPurpose.t) (_ : uuid) (k : OneTimeToken.t) : bool :=
  String.eqb (OneTimeToken.token_hash k) (token_key raw purpose)
  && bool_decide (OneTimeToken.purpose k = purpose).

(** [TokenService.consume] *)
Definition consume (raw : string) (purpose : TokenPurpose.t) : M (uuid * OneTimeToken.t) :=
  atomic (
    let! '(k, token) := try_except (get (token_query raw purpose))
      (fun e => raise (if decide (e = DoesNotExist) then invalid_token else e)) in
    let! checked := now in
    if negb (OneTimeToken.is_usable checked token) then raise invalid_token else
    let! used := now in
    save_fields k (fun r => r <| OneTimeToken.used_at := Some used |>) ;;
    ret (k, token <| OneTimeToken.used_at := Some used |>)).

(** [TokenService.revoke_all_jwt] *)
Definition revoke_all_jwt (user : uuid) : M nat :=
  let! outstanding := filter_rows (fun _ o => bool_decide (OutstandingToken.user o = Some user)) in
  fold_m (fun created o =>
    let! '(_, was_created) := get_or_create
      (fun _ b => N.eqb (BlacklistedToken.token b) o.1)
      (let! at_ := now in ret (BlacklistedToken.mk o.1 at_)) in
    ret (created + (if was_created : bool then 1 else 0))%nat) 0%nat outstanding.

End tokens.

(** ** What the operations do *)

Section token_facts.
Context `{E : Env}.

Definition issued_token (user : uuid) (purpose : TokenPurpose.t) (raw : string)
    (metadata : list (string * string)) (created expires : Z) : OneTimeToken.t :=
  OneTimeToken.mk user purpose (token_key raw purpose) metadata created expires None.

Definition superseded (u : uuid) (p : TokenPurpose.t) (t : Z) (tokens : gmap uuid OneTimeToken.t)
    : gmap uuid OneTimeToken.t :=
  Table.update (outstanding_for u p) (fun k => k <| OneTimeToken.used_at := Some t |>) tokens.

Lemma issue_spec u p ttl md w :
  wp (issue u p ttl md)
    (fun raw w' => exists k created,
       let t := clock w.(ticks) in
       let old := superseded u p t (one_time_tokens (db w)) in
       let new := issued_token u p raw md created (t + ttl) in
       old !! k = None /\ conflicts k new old = false /\
       db w' = (db w) <| one_time_tokens := <[k := new]> old |> /\ (ticks w <= ticks w')%nat)
    (fun e w' => e = IntegrityError /\ db w' = db w) w.
Proof.
  unfold issue, generate_token. wp_run; [|done].
  eexists _, _. rewrite db_committed, ticks_committed. cbn -[Table.update].
  split; [eassumption|]. split; [eassumption|]. split; [done|lia].
Qed.

(** [token_hash] is unique, so a raw token matches at most one row. *)
Lemma token_query_unique raw p d k1 k2 r1 r2 :
  unique_rows (R := OneTimeToken.t) d ->
  one_time_tokens d !! k1 = Some r1 -> token_query raw p k1 r1 = true ->
  one_time_tokens d !! k2 = Some r2 -> token_query raw p k2 r2 = true -> k1 = k2.
Proof.
  intros Hok H1 P1 H2 P2. destruct (decide (k1 = k2)) as [|Hne]; [done|]. exfalso.
  pose proof (Hok k1 k2 r1 r2 H1 H2 Hne) as Hc. revert P1 P2 Hc. clear.
  unfold token_query. cbn. unfold OneTimeToken.clash.
  rewrite !andb_true_iff, !String.eqb_eq, String.eqb_neq. intros [-> _] [-> _]. done.
Qed.

(** [consume] accepts exactly the tokens usable at its first clock reading. *)
Lemma consume_spec raw p w :
  wp (consume raw p)
    (fun x w' => exists tok0,
       one_time_tokens (db w) !! x.1 = Some tok0 /\ token_query raw p x.1 tok0 = true /\
       OneTimeToken.is_usable (clock w.(ticks)) tok0 = true /\
       x.2 = tok0 <| OneTimeToken.used_at := Some (clock (S w.(ticks))) |> /\
       db w' = (db w) <| one_time_tokens ::= insert x.1 x.2 |>)
    (fun e w' => db w' = db w /\
       (unique_rows (R := OneTimeToken.t) (db w) -> e = invalid_token /\
          forall k tok, one_time_tokens (db w) !! k = Some tok -> token_query raw p k tok = true ->
            OneTimeToken.is_usable (clock w.(ticks)) tok = false)) w.
Proof.
  unfold consume. do 4 wp_step.
  - wp_step. wp_step. destruct (OneTimeToken.is_usable _ _) eqn:Hu; cbn [negb].
    + wp_run; cbn in *; simplify_eq.
      * eexists. rewrite db_committed. cbn. repeat (split; [eassumption || reflexivity|]). done.
      * split; [done|]. intros Hok. exfalso.
        rewrite (conflicts_same (R := OneTimeToken.t) k r) in *; done.
    + wp_step. split; [done|]. intros Hok. split; [done|]. intros k' tok Hk' HP'.
      replace k' with k in * by by eapply token_query_unique. cbn in *. by simplify_eq.
  - wp_step. split; [done|]. intros Hok. split; [done|]. intros k tok Hk HP.
    cbn in H. by rewrite (H _ _ Hk) in HP.
  - wp_step. split; [done|]. intros Hok. exfalso.
    destruct H as (k1 & r1 & k2 & r2 & H1 & P1 & H2 & P2 & Hne).
    apply Hne. by eapply token_query_unique.
Qed.

Lemma issue_unique u p ttl md :
  evolves (respects (unique_rows (R := OneTimeToken.t))) (issue u p ttl md).
Proof.
  unfold issue, generate_token. evolve.
  - intros Hok. unfold unique_rows. rewrite objects_with_objects.
    by apply unique_table_update.
  - intros Hok. unfold unique_rows. rewrite objects_with_objects. by apply unique_table_insert.
Qed.

Lemma consume_unique raw p :
  evolves (respects (unique_rows (R := OneTimeToken.t))) (consume raw p).
Proof.
  unfold consume. evolve. intros Hok. unfold unique_rows. rewrite objects_with_objects.
  by apply unique_table_insert.
Qed.

(** Issuing a token supersedes every unused token of the same user and
    purpose: afterwards the new row is the only outstanding one, it carries the
    keyed hash (not the raw value), the given metadata and the expiry
    [now + ttl]; rows of other users or purposes and used rows are untouched. *)
Theorem issue_supersedes u p ttl md w raw w' :
  issue u p ttl md w = (inr raw, w') ->
  exists k created,
    one_time_tokens (db w) !! k = None /\
    one_time_tokens (db w') !! k =
      Some (issued_token u p raw md created (clock w.(ticks) + ttl)) /\
    (forall k' tok, one_time_tokens (db w') !! k' = Some tok ->
       outstanding_for u p k' tok = true -> k' = k) /\
    (forall k' tok, one_time_tokens (db w) !! k' = Some tok ->
       outstanding_for u p k' tok = false -> one_time_tokens (db w') !! k' = Some tok).
Proof.
  intros Hrun. destruct (wp_result _ _ _ _ _ _ (issue_spec u p ttl md w) Hrun)
    as (k & created & Hn & _ & Hdb & _).
  exists k, created. rewrite Hdb. cbn -[Table.update]. unfold superseded in Hn |- *.
  rewrite Table.lookup_update, fmap_None in Hn. split; [done|].
  split; [by rewrite lookup_insert_eq|]. split; intros k' tok Hk'.
  - rewrite lookup_insert in Hk'. case_decide; [done|]. intros Ho. exfalso.
    rewrite Table.lookup_update in Hk'. apply fmap_Some in Hk' as (tok0 & Hk0 & ->).
    destruct (outstanding_for u p k' tok0) eqn:E0; [|congruence].
    revert Ho. unfold outstanding_for. cbn. by rewrite andb_false_r.
  - intros Ho. rewrite lookup_insert_ne by congruence.
    rewrite Table.lookup_update, Hk'. cbn. by rewrite Ho.
Qed.

(** [C14] A token is single-use: what [issue] returned is accepted by the first
    [consume] for its purpose as long as it has not expired, yields the user and
    metadata it was issued for, and the next [consume] raises [INVALID_TOKEN]
    leaving the database unchanged. *)
Theorem issue_consume_once u p ttl md w raw w1 :
  unique_rows (R := OneTimeToken.t) (db w) ->
  issue u p ttl md w = (inr raw, w1) ->
  clock w1.(ticks) < clock w.(ticks) + ttl ->
  exists k tok w2 w3,
    consume raw p w1 = (inr (k, tok), w2) /\
    OneTimeToken.user tok = u /\ OneTimeToken.metadata tok = md /\
    consume raw p w2 = (inl invalid_token, w3) /\ db w3 = db w2.
Proof.
  intros Hok Hrun Hlive.
  destruct (wp_result _ _ _ _ _ _ (issue_spec u p ttl md w) Hrun) as (k & created & _ & _ & Hdb & _).
  assert (Hk : one_time_tokens (db w1) !! k =
    Some (issued_token u p raw md created (clock (ticks w) + ttl))).
  { rewrite Hdb. cbn. apply lookup_insert_eq. }
  assert (Hok1 : unique_rows (R := OneTimeToken.t) (db w1)).
  { pose proof (issue_unique u p ttl md w) as Hev. rewrite Hrun in Hev. by apply Hev. }
  assert (HP : token_query raw p k (issued_token u p raw md created (clock (ticks w) + ttl)) = true).
  { unfold token_query. cbn. by rewrite String.eqb_refl, bool_decide_true. }
  destruct (consume raw p w1) as [[e|[k1 tok]] w2] eqn:E1.
  { destruct (wp_exception _ _ _ _ _ _ (consume_spec raw p w1) E1) as [_ H1].
    destruct (H1 Hok1) as [_ Hnone]. exfalso.
    specialize (Hnone _ _ Hk HP). unfold OneTimeToken.is_usable in Hnone. cbn in Hnone. lia. }
  destruct (wp_result _ _ _ _ _ _ (consume_spec raw p w1) E1) as (tok0 & Hk1 & HP1 & _ & Htok & Hdb2).
  cbn in *. assert (k1 = k) as -> by by eapply token_query_unique.
  rewrite Hk in Hk1. injection Hk1 as <-.
  assert (Hok2 : unique_rows (R := OneTimeToken.t) (db w2)).
  { pose proof (consume_unique raw p w1) as Hev. rewrite E1 in Hev. by apply Hev. }
  destruct (consume raw p w2) as [[e|[k2 tok2]] w3] eqn:E2.
  - destruct (wp_exception _ _ _ _ _ _ (consume_spec raw p w2) E2) as [Hdb3 H2].
    exists k, tok, w2, w3. rewrite E2. subst tok. destruct (H2 Hok2) as [-> _]. done.
  - exfalso. destruct (wp_result _ _ _ _ _ _ (consume_spec raw p w2) E2) as (tok1 & Hk2 & HP2 & Hu & _).
    cbn in *. assert (Hkk : k2 = k).
    { eapply token_query_unique; [exact Hok2|exact Hk2|exact HP2|rewrite Hdb2; apply lookup_insert_eq|].
      subst tok. exact HP. }
    subst k2. rewrite Hdb2 in Hk2. cbn in Hk2. rewrite lookup_insert_eq in Hk2. simplify_eq.
Qed.

(** ** Refresh tokens *)

Definition blacklisted (d : DB) (o : uuid) : Prop :=
  exists k b, blacklisted_tokens d !! k = Some b /\ BlacklistedToken.token b = o.

(** The state after blacklisting the outstanding tokens [seen], [n] of them
    for the first time. *)
Record jwt_state (d0 : DB) (seen : list (uuid * OutstandingToken.t)) (n : nat) (w : World) : Prop := {
  js_fresh : fresh (R := BlacklistedToken.t) w;
  js_unique : unique_rows (R := BlacklistedToken.t) (db w);
  js_frame : db w = d0 <| blacklisted_tokens := blacklisted_tokens (db w) |>;
  js_kept : blacklisted_tokens d0 ⊆ blacklisted_tokens (db w);
  js_done : forall x, x ∈ seen -> blacklisted (db w) x.1;
  js_only : forall k b, blacklisted_tokens (db w) !! k = Some b ->
    blacklisted_tokens d0 !! k = Some b \/ BlacklistedToken.token b ∈ seen.*1;
  js_count : size (blacklisted_tokens (db w)) = (size (blacklisted_tokens d0) + n)%nat;
}.

Lemma jwt_state_new `{!EntropyLaws E} d0 seen x n w t :
  jwt_state d0 seen n w ->
  (forall k b, blacklisted_tokens (db w) !! k = Some b -> BlacklistedToken.token b <> x.1) ->
  let k := uuid4 w.(draws) in
  jwt_state d0 (seen ++ [x]) (S n)
    (w <| ticks ::= S |> <| draws ::= S |>
       <| db ::= with_objects (insert k (BlacklistedToken.mk x.1 t)) |>).
Proof.
  intros [Hf Hu Hfr Hk Hd Ho Hc] Hnew k.
  assert (Hn : blacklisted_tokens (db w) !! k = None) by by apply Hf.
  assert (Hcf : conflicts k (BlacklistedToken.mk x.1 t) (blacklisted_tokens (db w)) = false).
  { apply conflicts_false. intros k' b Hb _. cbn. apply N.eqb_neq. intros Heq. by apply (Hnew k' b Hb). }
  split.
  - intros i Hi. cbn in Hi |- *. rewrite lookup_insert_ne; [apply Hf; lia|].
    intros Heq%uuid4_inj. lia.
  - unfold unique_rows. cbn. by apply unique_table_insert.
  - cbn. rewrite Hfr. reflexivity.
  - cbn. etrans; [exact Hk|]. by apply insert_subseteq.
  - intros y [Hy| ->%list_elem_of_singleton]%elem_of_app.
    + destruct (Hd y Hy) as (k' & b & Hb & Ht). exists k', b. split; [|done]. cbn.
      rewrite lookup_insert_ne; [done|]. congruence.
    + exists k, (BlacklistedToken.mk x.1 t). split; [cbn; apply lookup_insert_eq|done].
  - intros k' b. cbn. rewrite lookup_insert_Some. intros [[<- <-]|[_ Hb]].
    + right. rewrite fmap_app. apply elem_of_app. right. by left.
    + destruct (Ho k' b Hb) as [?|?]; [by left|right]. rewrite fmap_app. apply elem_of_app. by left.
  - cbn. rewrite map_size_insert_None by done. rewrite Hc. lia.
Qed.

Lemma revoke_all_jwt_spec `{!EntropyLaws E} u w :
  fresh (R := BlacklistedToken.t) w -> unique_rows (R := BlacklistedToken.t) (db w) ->
  let mine := Table.select (fun _ o => bool_decide (OutstandingToken.user o = Some u))
                (outstanding_tokens (db w)) in
  wp (revoke_all_jwt u) (fun n w' => jwt_state (db w) mine n w') (fun _ _ => False) w.
Proof.
  intros Hf Hu mine. unfold revoke_all_jwt. do 2 wp_step.
  apply (wp_fold_m (fun seen n w' => jwt_state (db w) seen n w')).
  - intros seen x rest n w1 _ HI. wp_step. apply wp_get_or_create.
    + intros k b Hb Hx%N.eqb_eq. apply wp_ret. rewrite Nat.add_0_r.
      destruct HI as [? ? ? ? Hd Ho ?]. split; try done.
      * intros y [Hy| ->%list_elem_of_singleton]%elem_of_app; [by apply Hd|]. by exists k, b.
      * intros k' b' Hb'. destruct (Ho k' b' Hb') as [?|?]; [by left|right].
        rewrite fmap_app. apply elem_of_app. by left.
    + intros Hnone. do 3 wp_step.
      assert (Hnew : forall k b, blacklisted_tokens (db w1) !! k = Some b -> BlacklistedToken.token b <> x.1).
      { intros k b Hb Heq. specialize (Hnone k b Hb). cbn in Hnone. by rewrite Heq, N.eqb_refl in Hnone. }
      apply wp_create_fresh.
      * apply (fresh_draws w1); [apply HI|done|cbn; lia].
      * intros k -> _. apply conflicts_false. intros k' b Hb _. cbn. apply N.eqb_neq. intros Heq. by apply (Hnew k' b Hb).
      * intros k -> _ _. apply wp_ret. rewrite Nat.add_1_r. by apply (jwt_state_new (db w) seen x n w1).
    + intros (k1 & b1 & k2 & b2 & H1 & P1%N.eqb_eq & H2 & P2%N.eqb_eq & Hne).
      pose proof (js_unique _ _ _ _ HI k1 k2 b1 b2 H1 H2 Hne) as Hcl. cbn in Hcl.
      rewrite P1, P2, N.eqb_refl in Hcl. done.
  - split; try done; try lia; [by destruct (db w)|by intros x ?%not_elem_of_nil|by left].
Qed.

(** Revoking the refresh tokens of a user always completes, blacklists
    every outstanding token of that user, changes nothing but the blacklist,
    keeps every earlier entry, adds entries for that user's tokens only, and
    returns the number of tokens that were not blacklisted before. *)
Theorem revoke_all_jwt_complete `{!EntropyLaws E} u w :
  fresh (R := BlacklistedToken.t) w -> unique_rows (R := BlacklistedToken.t) (db w) ->
  exists n w',
    revoke_all_jwt u w = (inr n, w') /\
    (forall k o, outstanding_tokens (db w') !! k = Some o -> OutstandingToken.user o = Some u ->
       blacklisted (db w') k) /\
    db w' = (db w) <| blacklisted_tokens := blacklisted_tokens (db w') |> /\
    blacklisted_tokens (db w) ⊆ blacklisted_tokens (db w') /\
    (forall k b, blacklisted_tokens (db w') !! k = Some b ->
       blacklisted_tokens (db w) !! k = Some b \/
       exists o, outstanding_tokens (db w) !! BlacklistedToken.token b = Some o /\
                 OutstandingToken.user o = Some u) /\
    size (blacklisted_tokens (db w')) = (size (blacklisted_tokens (db w)) + n)%nat.
Proof.
  intros Hf Hu. destruct (wp_returns _ _ _ (revoke_all_jwt_spec u w Hf Hu)) as (n & w' & Hrun & HI).
  exists n, w'. split; [done|]. pose proof (js_frame _ _ _ _ HI) as Hfr.
  split; [|split; [exact Hfr|split; [apply HI|split; [|apply HI]]]].
  - intros k o Ho Hou. rewrite Hfr in Ho. apply (js_done _ _ _ _ HI (k, o)).
    apply Table.elem_of_select. split; [done|]. by apply bool_decide_eq_true.
  - intros k b Hb. destruct (js_only _ _ _ _ HI k b Hb) as [?|Hin]; [by left|right].
    apply list_elem_of_fmap in Hin as ([k' o] & -> & [Ho Hp]%Table.elem_of_select).
    exists o. split; [done|]. by apply bool_decide_eq_true in Hp.
Qed.

End token_facts.

(** ** Witnesses *)

Section witnesses.

Definition demo_issue : M string :=
  issue (E := demo_env) 1%N TokenPurpose.PASSWORD_RESET (hours 1) [("k", "v")].

(** A user with two refresh tokens, the first one already blacklisted. *)
Definition jwt_world : World := initial_world (empty_db
  <| outstanding_tokens := {[ 1%N := OutstandingToken.mk (Some 7%N) "a" 0;
                              2%N := OutstandingToken.mk (Some 7%N) "b" 0;
                              3%N := OutstandingToken.mk None "c" 0 ]} |>
  <| blacklisted_tokens := {[ 5%N := BlacklistedToken.mk 1 0 ]} |>).

Lemma issue_supersedes_witness :
  exists k created, one_time_tokens (db (demo_issue (initial_world empty_db)).2) !! k =
    Some (issued_token (E := demo_env) 1 TokenPurpose.PASSWORD_RESET "tok0" [("k", "v")] created
            (1000000000 + hours 1)).
Proof.
  destruct (issue_supersedes (E := demo_env) 1 TokenPurpose.PASSWORD_RESET (hours 1) [("k", "v")]
    (initial_world empty_db) "tok0" (demo_issue (initial_world empty_db)).2
    ltac:(vm_compute; reflexivity)) as (k & c & _ & Hk & _).
  exists k, c. exact Hk.
Defined.

Lemma issue_consume_once_witness :
  exists k tok w2 w3,
    consume (E := demo_env) "tok0" TokenPurpose.PASSWORD_RESET (demo_issue (initial_world empty_db)).2
      = (inr (k, tok), w2) /\
    OneTimeToken.user tok = 1%N /\ OneTimeToken.metadata tok = [("k", "v")] /\
    consume (E := demo_env) "tok0" TokenPurpose.PASSWORD_RESET w2 = (inl invalid_token, w3) /\ db w3 = db w2.
Proof.
  apply (issue_consume_once (E := demo_env) 1 TokenPurpose.PASSWORD_RESET (hours 1) [("k", "v")]
    (initial_world empty_db)).
  - exact unique_table_empty.
  - vm_compute; reflexivity.
  - vm_compute; reflexivity.
Defined.

Lemma revoke_all_jwt_complete_witness :
  exists n w', revoke_all_jwt (E := demo_env) 7 jwt_world = (inr n, w') /\
    blacklisted (db w') 1 /\ blacklisted (db w') 2 /\ n = 1%nat.
Proof.
  destruct (revoke_all_jwt_complete (E := demo_env) 7 jwt_world) as (n & w' & Hrun & Hall & Hfr & _ & _ & Hn).
  - intros n _. cbn. apply lookup_singleton_ne. lia.
  - exact (unique_table_singleton _ _).
  - exists n, w'. split; [done|]. rewrite Hfr in Hall. cbn in Hall.
    split; [|split].
    + rewrite Hfr. exact (Hall 1%N (OutstandingToken.mk (Some 7%N) "a" 0) eq_refl eq_refl).
    + rewrite Hfr. exact (Hall 2%N (OutstandingToken.mk (Some 7%N) "b" 0) eq_refl eq_refl).
    + assert (Hr : (revoke_all_jwt (E := demo_env) 7 jwt_world).1 = inr 1%nat) by (vm_compute; reflexivity).
      rewrite Hrun in Hr. by injection Hr.
Defined.

End witnesses.
