(* ===== verification/Sessions.v ===== *)
(** * Sessions ([SessionService] and [UserSessionMiddleware])

    The mirror of Django sessions in [UserSession] rows (keyed hash plus
    encrypted session key), its revocation, the middleware that enforces
    revocation on every request and the retention task. *)

From S2P Require Import Prelude Env Demo Models Orm Logic Common Samples Users.

Section sessions.
Context `{E : Env}.

(** ** [request.session] (django.contrib.sessions) *)

(** [session.session_key] when it is set and not empty. *)
Definition current_key (s : HttpSession) : option string :=
  match session_key s with
  | Some k => if Str.is_empty k then None else Some k
  | None => None
  end.

(** [session.save()] of a session without a key stores it under a new one. *)
Definition session_save : M unit :=
  let! s := read http_session in
  match current_key s with
  | Some k => modify_db (fun d => d <| django_sessions ::= union {[ k ]} |>)
  | None =>
      let! k := draw new_session_key in
      modify (fun w => w <| http_session ::= fun s => s <| session_key := Some k |> |>
                         <| db ::= fun d => d <| django_sessions ::= union {[ k ]} |> |>)
  end.

(** [session.flush()]: the stored session is deleted and the request's one
    becomes empty and anonymous. *)
Definition session_flush : M unit :=
  modify (fun w =>
    let stored := match session_key (http_session w) with Some k => {[ k ]} | None => ∅ end in
    w <| db ::= fun d => d <| django_sessions ::= fun s => s ∖ stored |> |>
      <| http_session := anonymous_session |>).

(** ** [SessionService] *)

(** [SessionService._hash] *)
Definition session_hash (key : string) : string := keyed_hash key "django-session".

Definition device_of (a : UserAgent) : string :=
  if is_mobile a then "mobile" else if is_tablet a then "tablet"
  else if is_pc a then "pc" else "other".

(** The columns [register] writes, on a row or on a new one. *)
Definition session_defaults (uid : uuid) (identifier encrypted : string) (ip : option string)
    (agent_text : string) (agent : UserAgent) (s : UserSession.t) : UserSession.t :=
  s <| UserSession.user := uid |>
    <| UserSession.identifier := identifier |>
    <| UserSession.encrypted_session_key := encrypted |>
    <| UserSession.ip_address := ip |>
    <| UserSession.user_agent := agent_text |>
    <| UserSession.browser := Str.strip (browser_family agent +:+ " " +:+ browser_version agent) |>
    <| UserSession.operating_system := Str.strip (os_family agent +:+ " " +:+ os_version agent) |>
    <| UserSession.device := device_of agent |>
    <| UserSession.revoked_at := None |>.

Definition blank_session (key_hash : string) (created active : Z) : UserSession.t :=
  UserSession.mk 0%N "" key_hash "" None "" "" "" "" created active None.

(** [SessionService.register] *)
Definition register (uid : uuid) (request : Request) : M (uuid * UserSession.t * bool) :=
  atomic (
    let! s := read http_session in
    when (is_none (current_key s)) session_save ;;
    let! s := read http_session in
    let key := default "" (session_key s) in
    let key_hash := session_hash key in
    let agent_text := Str.take 2000 (http_user_agent request) in
    let agent := parse_user_agent agent_text in
    let! existing_device := exists_row (fun _ r =>
      N.eqb (UserSession.user r) uid && String.eqb (UserSession.user_agent r) agent_text
      && is_none (UserSession.revoked_at r)) in
    let! identifier := draw (fun n => token_hex n 16) in
    let! encrypted := encrypt_value key "django-session" in
    let fill := session_defaults uid identifier encrypted (get_client_ip request) agent_text agent in
    let! '(k, row, _) := update_or_create
      (fun _ r => String.eqb (UserSession.session_key_hash r) key_hash)
      (let! t := now in ret (fun r => (fill r) <| UserSession.last_activity_at := t |>))
      (let! c := now in let! a := now in ret (fill (blank_session key_hash c a))) in
    ret (k, row, negb existing_device)).

(** [Meta.ordering = ["-last_activity_at"]] *)
Definition latest_activity (a b : uuid * UserSession.t) : bool :=
  UserSession.last_activity_at b.2 <=? UserSession.last_activity_at a.2.

(** [SessionService.current] *)
Definition current : M (option (uuid * UserSession.t)) :=
  let! s := read http_session in
  match current_key s with
  | None => ret None
  | Some key => first_row_by latest_activity
      (fun _ r => String.eqb (UserSession.session_key_hash r) (session_hash key))
  end.

Definition session_target (k : uuid) : AuditService.Target :=
  AuditService.MkTarget "authentication.usersession" k
    ("UserSession object (" +:+ uuid_str k +:+ ")").

(** [SessionService.revoke]; a session key that cannot be decrypted is logged
    and the revocation goes on. *)
Definition revoke (pk : uuid) (actor : option uuid) (request : option Request) : M unit :=
  atomic (
    let! locked := get_pk (R := UserSession.t) pk in
    if UserSession.is_revoked locked then ret tt else
    let! revoked := now in
    save_fields pk (fun r => r <| UserSession.revoked_at := Some revoked |>) ;;
    try_except
      (let! key := decrypt_value (UserSession.encrypted_session_key locked) "django-session" in
       modify_db (fun d => d <| django_sessions ::= fun s => s ∖ {[ key ]} |>))
      (fun e => match e with ValueError _ => ret tt | _ => raise e end) ;;
    SecurityEventService.record SecurityEventType.SESSION_REVOKED (Some (UserSession.user locked))
      request [("session_identifier", PStr (UserSession.identifier locked))] ;;
    AuditService.record ((AuditService.on "session.revoked" (session_target pk) actor request)
      <| AuditService.after := [("revoked_at", PStr (isoformat revoked))] |>) ;;
    ret tt).

(** The sessions [revoke_all] goes through. *)
Definition live_of (uid : uuid) (except : option uuid) (k : uuid) (s : UserSession.t) : bool :=
  N.eqb (UserSession.user s) uid && is_none (UserSession.revoked_at s)
  && negb (bool_decide (except = Some k)).

(** [SessionService.revoke_all] *)
Definition revoke_all (uid : uuid) (actor : option uuid) (request : option Request)
    (exclude_current : bool) : M nat :=
  let! cur := match request with Some _ => current | None => ret None end in
  let except := if exclude_current then fst <$> cur else None in
  let! session_list := filter_rows (live_of uid except) in
  for_each session_list (fun s => revoke s.1 actor request) ;;
  ret (length session_list).

(** ** [UserSessionMiddleware.__call__], up to [get_response] *)

Definition touch_interval : Z := minutes 5.

(** [user] is [request.user] when it is authenticated. *)
Definition session_middleware (user : option (uuid * User.t)) : M unit :=
  let! s := read http_session in
  match user, current_key s with
  | Some (uid, u), Some _ =>
      let! ok := can_authenticate_now uid u in
      if negb ok then session_flush else
      let! cur := current in
      match cur with
      | Some (k, us) =>
          if UserSession.is_revoked us then session_flush else
          let! t := now in
          if UserSession.last_activity_at us <? t - touch_interval
          then let! t' := now in
               save_fields k (fun r => r <| UserSession.last_activity_at := t' |>)
          else ret tt
      | None => ret tt
      end
  | _, _ => ret tt
  end.

(** [cleanup_sessions] *)
Definition cleanup_sessions : M nat :=
  let! t := now in
  let cutoff := t - days SESSION_RETENTION_DAYS in
  delete_where (fun _ s => match UserSession.revoked_at s with
                           | Some r => r <? cutoff
                           | None => false
                           end).

End sessions.

(** ** What revocation does *)

Section session_facts.
Context `{E : Env, !EntropyLaws E}.
Hypothesis configured : crypto_configured = true.

(** The constraints of [UserSession] hold and the journals accept entries. *)
Definition session_ready (w : World) : Prop :=
  journal_ready w /\ unique_rows (R := UserSession.t) (db w).

(** Only the session tables and the journals may have changed. *)
Definition only_sessions (d d' : DB) : Prop :=
  d' = d <| user_sessions := user_sessions d' |> <| django_sessions := django_sessions d' |>
         <| audit_logs := audit_logs d' |> <| security_events := security_events d' |>.

#[export] Instance only_sessions_preorder : PreOrder only_sessions.
Proof.
  split; [by intros []|]. intros d1 d2 d3 H1 H2. unfold only_sessions in *.
  rewrite H2, H1. reflexivity.
Qed.

(** The Django session a row mirrors, when its encrypted key is readable. *)
Definition mirrored_key (s : UserSession.t) : option string :=
  fernet_decrypt (purpose_key "django-session") (UserSession.encrypted_session_key s).

(** The row after its revocation at some time. *)
Definition revoked_version (s s' : UserSession.t) : Prop :=
  exists t, s' = s <| UserSession.revoked_at := Some t |>.

Record revocation (k : uuid) (s : UserSession.t) (w w' : World) : Prop := {
  rv_ready : session_ready w';
  rv_frame : only_sessions (db w) (db w');
  rv_session : http_session w' = http_session w;
  rv_row : exists s', revoked_version s s' /\ user_sessions (db w') = <[k := s']> (user_sessions (db w));
  rv_deleted : forall key, mirrored_key s = Some key -> key ∉ django_sessions (db w');
  rv_shrinks : django_sessions (db w') ⊆ django_sessions (db w);
}.

Lemma unique_sessions_revoked k s t d :
  unique_rows (R := UserSession.t) d -> user_sessions d !! k = Some s ->
  unique_table (<[k := s <| UserSession.revoked_at := Some t |>]> (user_sessions d)).
Proof.
  intros Hu Hk. apply unique_table_insert; [exact Hu|].
  by apply (conflicts_same (R := UserSession.t) k s).
Qed.

(** The end of [revoke]: both journals get their entry. *)
Lemma revoke_journals_spec e u r m a w :
  session_ready w ->
  wp (SecurityEventService.record e u r m ;; AuditService.record a ;; ret tt)
    (fun _ w' => session_ready w' /\ logs w w') (fun _ _ => False) w.
Proof.
  intros [Hj Hu]. wp_step. eapply wp_call; [by apply event_record_spec| |done].
  intros x w1 _ [Hl1 _]. wp_step. eapply wp_call; [apply audit_record_spec, Hl1| |done].
  intros y w2 _ [Hl2 _]. apply wp_ret.
  assert (Hdb : db w2 = (db w) <| audit_logs := audit_logs (db w2) |>
                               <| security_events := security_events (db w2) |>).
  { rewrite (lg_db _ _ Hl2), (lg_db _ _ Hl1). reflexivity. }
  split.
  - split; [apply Hl2|]. unfold unique_rows. rewrite Hdb. exact Hu.
  - split; [exact Hdb|apply Hl2| | |].
    + rewrite (lg_session _ _ Hl2). apply Hl1.
    + etrans; [apply Hl1|apply Hl2].
    + etrans; [apply Hl1|apply Hl2].
Qed.

Lemma revoke_spec k actor request s w :
  session_ready w -> user_sessions (db w) !! k = Some s -> UserSession.is_revoked s = false ->
  wp (revoke k actor request) (fun _ w' => revocation k s w w') (fun _ _ => False) w.
Proof.
  intros [Hj Hu] Hk Hr. unfold revoke. do 2 wp_step. apply (wp_found k s); [exact Hk|].
  rewrite Hr. do 3 wp_step. apply (wp_save_row k _ s); [exact Hu|exact Hk|done|].
  wp_step.
  set (t := clock _).
  set (w1 := upd db _ _).
  assert (Hj1 : journal_ready w1) by by apply (journal_ready_move w).
  assert (Hu1 : unique_rows (R := UserSession.t) (db w1)) by by apply unique_sessions_revoked.
  (* deletion of the mirrored session, or a warning *)
  apply (wp_mono _ (fun _ w2 => session_ready w2 /\ only_sessions (db w1) (db w2) /\
    http_session w2 = http_session w1 /\ user_sessions (db w2) = user_sessions (db w1) /\
    (forall key, mirrored_key s = Some key -> key ∉ django_sessions (db w2)) /\
    django_sessions (db w2) ⊆ django_sessions (db w1)) _ (fun _ _ => False)); [| |done].
  - wp_step. wp_step. apply wp_decrypt; [done| |].
    + intros key Hkey. wp_step. split; [split; [exact Hj1|exact Hu1]|].
      split; [done|]. split; [done|]. split; [done|]. cbn. unfold mirrored_key. split; [|set_solver].
      intros key' Hk'. rewrite Hkey in Hk'. injection Hk' as <-. set_solver.
    + intros Hnone. wp_step. split; [split; [exact Hj1|exact Hu1]|].
      split; [reflexivity|]. split; [done|]. split; [done|]. split; [|done].
      unfold mirrored_key. by rewrite Hnone.
  - intros [] w2 (Hr2 & Hf2 & Hs2 & Hus2 & Hd2 & Hsub2).
    eapply wp_call; [by apply revoke_journals_spec| |done].
    intros [] w3 _ [Hr3 Hl3].
    assert (Hf3 : only_sessions (db w2) (db w3)) by (unfold only_sessions; rewrite (lg_db _ _ Hl3); reflexivity).
    assert (Hf1 : only_sessions (db w) (db w1)) by reflexivity.
    assert (Hds : django_sessions (db w3) = django_sessions (db w2)) by by rewrite (lg_db _ _ Hl3).
    assert (Hus : user_sessions (db w3) = user_sessions (db w2)) by by rewrite (lg_db _ _ Hl3).
    split; rewrite ?db_committed, ?http_session_committed.
    + split.
      * apply (journal_ready_move w3); rewrite ?db_committed; [apply Hr3|done|done|].
        unfold committed. by destruct (Nat.eqb _ _).
      * rewrite db_committed. apply Hr3.
    + by rewrite Hf1, Hf2, Hf3.
    + rewrite (lg_session _ _ Hl3), Hs2. done.
    + exists (s <| UserSession.revoked_at := Some t |>). split; [by exists t|]. by rewrite Hus, Hus2.
    + rewrite Hds. exact Hd2.
    + rewrite Hds. exact Hsub2.
Qed.


(** ** [revoke_all] *)

(** [SessionService.current] only reads. *)
Definition current_of (w : World) : option (uuid * UserSession.t) :=
  match current_key (http_session w) with
  | None => None
  | Some key => Table.first latest_activity
      (fun _ r => String.eqb (UserSession.session_key_hash r) (session_hash key)) (user_sessions (db w))
  end.

Lemma current_run w : current w = (inr (current_of w), w).
Proof. unfold current, current_of, bind, read. by destruct (current_key _). Qed.

(** The session [revoke_all] spares. *)
Definition spared (request : option Request) (exclude_current : bool) (w : World) : option uuid :=
  if exclude_current then request ≫= fun _ => fst <$> current_of w else None.

Record revoked_all (mine seen : list (uuid * UserSession.t)) (w w' : World) : Prop := {
  ra_ready : session_ready w';
  ra_frame : only_sessions (db w) (db w');
  ra_session : http_session w' = http_session w;
  ra_rows : forall x, x ∈ seen ->
    exists s', revoked_version x.2 s' /\ user_sessions (db w') !! x.1 = Some s';
  ra_others : forall k, k ∉ seen.*1 -> user_sessions (db w') !! k = user_sessions (db w) !! k;
  ra_deleted : forall x key, x ∈ seen -> mirrored_key x.2 = Some key -> key ∉ django_sessions (db w');
  ra_shrinks : django_sessions (db w') ⊆ django_sessions (db w);
}.

Lemma revoked_all_step mine seen x rest w w1 w2 :
  NoDup mine.*1 -> mine = seen ++ x :: rest ->
  revoked_all mine seen w w1 -> revocation x.1 x.2 w1 w2 -> revoked_all mine (seen ++ [x]) w w2.
Proof.
  intros Hnd Hl H1 H2.
  destruct (rv_row _ _ _ _ H2) as (s' & Hs' & Hrow).
  assert (Hx : x.1 ∉ seen.*1).
  { rewrite Hl, fmap_app in Hnd. apply NoDup_app in Hnd as (_ & Hd & _). intros Hin.
    apply (Hd _ Hin). by left. }
  split.
  - apply H2.
  - etrans; [apply H1|apply H2].
  - rewrite (rv_session _ _ _ _ H2). apply H1.
  - intros y [Hy| ->%list_elem_of_singleton]%elem_of_app.
    + destruct (ra_rows _ _ _ _ H1 y Hy) as (s'' & Hs'' & Hl'').
      exists s''. split; [done|]. rewrite Hrow, lookup_insert_ne; [done|].
      intros Heq. apply Hx. rewrite Heq. by apply list_elem_of_fmap_2.
    + exists s'. split; [done|]. by rewrite Hrow, lookup_insert_eq.
  - intros k. rewrite fmap_app, not_elem_of_app. intros [Hk Hne]. rewrite Hrow, lookup_insert_ne.
    + by apply (ra_others _ _ _ _ H1).
    + intros <-. apply Hne. by left.
  - intros y key [Hy| ->%list_elem_of_singleton]%elem_of_app Hkey.
    + intros Hin%(rv_shrinks _ _ _ _ H2). by apply (ra_deleted _ _ _ _ H1 y key).
    + by apply (rv_deleted _ _ _ _ H2).
  - etrans; [apply H2|apply H1].
Qed.

Lemma revoke_all_spec uid actor request exclude_current w :
  session_ready w ->
  let mine := Table.select (live_of uid (spared request exclude_current w)) (user_sessions (db w)) in
  wp (revoke_all uid actor request exclude_current)
    (fun n w' => n = length mine /\ revoked_all mine mine w w') (fun _ _ => False) w.
Proof.
  intros Hready mine. unfold revoke_all.
  assert (Hcur : (match request with Some _ => current | None => ret None end) w =
    (inr (request ≫= fun _ => current_of w), w)).
  { destruct request; [apply current_run|done]. }
  apply wp_bind. unfold wp at 1. rewrite Hcur. do 2 wp_step.
  assert (Hexc : (if exclude_current then fst <$> (request ≫= fun _ => current_of w) else None)
    = spared request exclude_current w) by (unfold spared; by destruct exclude_current, request).
  rewrite Hexc. fold mine. cbn beta. wp_step.
  assert (Hnd : NoDup mine.*1) by apply Table.select_NoDup.
  apply (wp_mono _ (fun _ => revoked_all mine mine w) _ (fun _ _ => False)); [| |done].
  - apply (wp_for_each (fun seen w' => revoked_all mine seen w w')).
    + intros seen x rest w1 Hl HI.
      assert (Hx : x ∈ mine) by (rewrite Hl; set_solver).
      assert (Hsel : user_sessions (db w) !! x.1 = Some x.2 /\
        live_of uid (spared request exclude_current w) x.1 x.2 = true)
        by (apply Table.elem_of_select; by destruct x).
      destruct Hsel as [Hk HP].
      apply (wp_mono _ (fun _ w2 => revocation x.1 x.2 w1 w2) _ (fun _ _ => False)); [| |done].
      * apply revoke_spec; [apply HI| |].
        -- rewrite (ra_others _ _ _ _ HI); [done|]. rewrite Hl, fmap_app in Hnd.
           apply NoDup_app in Hnd as (_ & Hd & _). intros Hin. apply (Hd _ Hin). by left.
        -- unfold live_of in HP. unfold UserSession.is_revoked, is_some.
           by destruct (is_none _); [|rewrite andb_false_r in HP].
      * intros [] w2 H2. by apply (revoked_all_step mine seen x rest w w1 w2).
    + split; try done; intros; set_solver.
  - intros [] w' HI. by apply wp_ret.
Qed.

(** [C6] [SessionService.revoke_all] always completes; afterwards no session of
    the user is live except, when asked for, the session the request belongs
    to; the Django session behind every revoked row is gone; sessions of other
    users, earlier revocations and the spared session are untouched, and the
    result is the number of sessions revoked. *)
Theorem revoke_all_revokes uid actor request exclude_current w :
  session_ready w ->
  exists n w',
    revoke_all uid actor request exclude_current w = (inr n, w') /\
    (forall k s, user_sessions (db w') !! k = Some s -> UserSession.user s = uid ->
       UserSession.is_revoked s = false -> spared request exclude_current w = Some k) /\
    (forall k s key, user_sessions (db w) !! k = Some s ->
       live_of uid (spared request exclude_current w) k s = true ->
       mirrored_key s = Some key -> key ∉ django_sessions (db w')) /\
    (forall k s, user_sessions (db w) !! k = Some s ->
       live_of uid (spared request exclude_current w) k s = false ->
       user_sessions (db w') !! k = Some s) /\
    n = Table.count (live_of uid (spared request exclude_current w)) (user_sessions (db w)).
Proof.
  intros Hready.
  destruct (wp_returns _ _ _ (revoke_all_spec uid actor request exclude_current w Hready))
    as (n & w' & Hrun & -> & HI).
  set (P := live_of _ _) in *. exists (length (Table.select P (user_sessions (db w)))), w'.
  split; [done|]. split; [|split; [|split; [|done]]].
  - intros k s Hs Hu Hlive. destruct (decide (k ∈ (Table.select P (user_sessions (db w))).*1)) as [Hin|Hn].
    + apply list_elem_of_fmap in Hin as ([k' s0] & -> & Hin).
      destruct (ra_rows _ _ _ _ HI _ Hin) as (s' & [t ->] & Hl). by cbn in *; simplify_eq.
    + rewrite (ra_others _ _ _ _ HI k Hn) in Hs.
      destruct (decide (spared request exclude_current w = Some k)) as [|Hne]; [done|]. exfalso.
      apply Hn. apply list_elem_of_fmap. exists (k, s). split; [done|].
      apply Table.elem_of_select. split; [done|]. unfold P, live_of.
      rewrite Hu, N.eqb_refl, bool_decide_false by done. cbn. rewrite andb_true_r.
      unfold UserSession.is_revoked, is_some in Hlive. by destruct (is_none _).
  - intros k s key Hs HP. apply (ra_deleted _ _ _ _ HI (k, s)). by apply Table.elem_of_select.
  - intros k s Hs HP. rewrite (ra_others _ _ _ _ HI); [done|].
    intros ([k' s0] & -> & [Hk' HP']%Table.elem_of_select)%list_elem_of_fmap. cbn in *. congruence.
Qed.

End session_facts.

(** ** The middleware *)

Section middleware_facts.
Context `{E : Env}.

Definition revoked_current (w : World) : bool :=
  match current_of w with Some (_, s) => UserSession.is_revoked s | None => false end.

Lemma session_flush_run w key :
  current_key (http_session w) = Some key ->
  exists w', session_flush w = (inr tt, w') /\ http_session w' = anonymous_session /\
    key ∉ django_sessions (db w').
Proof.
  intros Hk. eexists. split; [done|]. split; [done|]. cbn.
  unfold current_key in Hk. destruct (session_key _) as [k|]; [|done].
  destruct (Str.is_empty k); [done|]. injection Hk as ->. set_solver.
Qed.

Lemma session_middleware_spec uid u key w :
  unique_rows (R := UserSession.t) (db w) ->
  current_key (http_session w) = Some key ->
  exists w',
    session_middleware (Some (uid, u)) w = (inr tt, w') /\
    if available (clock w.(ticks)) (db w) uid u && negb (revoked_current w)
    then http_session w' = http_session w /\ django_sessions (db w') = django_sessions (db w)
    else http_session w' = anonymous_session /\ key ∉ django_sessions (db w').
Proof.
  intros Hu Hkey. unfold session_middleware, bind at 1, read at 1. rewrite Hkey.
  destruct (can_authenticate_now_spec uid u w) as (w1 & Hrun & Hdb & Hs & _).
  unfold bind at 1. rewrite Hrun.
  destruct (available _ _ _ _); cbn [negb andb].
  2:{ destruct (session_flush_run w1 key) as (w' & -> & ?); [by rewrite Hs|]. by exists w'. }
  assert (Hcur : current_of w1 = current_of w) by (unfold current_of; by rewrite Hs, Hdb).
  unfold bind at 1. rewrite current_run, Hcur. unfold revoked_current.
  destruct (current_of w) as [[k s]|] eqn:Ec; [|exists w1; by rewrite Hs, Hdb].
  destruct (UserSession.is_revoked s); cbn [negb].
  { destruct (session_flush_run w1 key) as (w' & -> & ?); [by rewrite Hs|]. by exists w'. }
  assert (Hk : user_sessions (db w) !! k = Some s).
  { unfold current_of in Ec. rewrite Hkey in Ec. by apply Table.first_Some in Ec as [? _]. }
  match goal with |- exists w', ?m w1 = _ /\ _ =>
    assert (Hwp : wp m (fun _ w' => http_session w' = http_session w /\
                          django_sessions (db w') = django_sessions (db w)) (fun _ _ => False) w1)
  end.
  { do 2 wp_step. destruct (_ <? _).
    - do 2 wp_step. apply (wp_save_row k _ s); cbn; rewrite ?Hs, ?Hdb; try done.
    - wp_step. cbn. by rewrite Hs, Hdb. }
  destruct (wp_returns _ _ _ Hwp) as ([] & w' & Hr & ?). by exists w'.
Qed.

(** [C31] On every request of a signed-in browser the middleware lets the session
    through exactly when the account may authenticate (active, status ACTIVE,
    no ban in force) and the session was not revoked; otherwise it empties the
    session and deletes it from the session store. *)
Theorem middleware_enforces uid u key w :
  unique_rows (R := UserSession.t) (db w) ->
  current_key (http_session w) = Some key ->
  exists w',
    session_middleware (Some (uid, u)) w = (inr tt, w') /\
    if available (clock w.(ticks)) (db w) uid u && negb (revoked_current w)
    then http_session w' = http_session w /\ django_sessions (db w') = django_sessions (db w)
    else http_session w' = anonymous_session /\ key ∉ django_sessions (db w').
Proof. apply session_middleware_spec. Qed.

(** The middleware never raises. *)
Lemma session_middleware_runs user w :
  unique_rows (R := UserSession.t) (db w) -> exists w', session_middleware user w = (inr tt, w').
Proof.
  intros Hu. destruct (current_key (http_session w)) as [key|] eqn:Hk, user as [[uid u]|].
  1: { destruct (session_middleware_spec uid u key w Hu Hk) as (w' & Hrun & _). by exists w'. }
  all: exists w; unfold session_middleware, bind, read; by rewrite ?Hk.
Qed.

End middleware_facts.

(** ** Witnesses *)

Lemma sample_session_ready : session_ready (E := demo_env) sample_world.
Proof. split; [apply sample_journal_ready|apply sample_sessions_unique]. Qed.

Lemma revoke_all_revokes_witness :
  exists n w',
    revoke_all (E := demo_env) 1 (Some 1%N) (Some sample_request) true sample_world = (inr n, w') /\
    spared (E := demo_env) (Some sample_request) true sample_world = Some 11%N /\
    "key-b" ∉ django_sessions (db w') /\ n = 1%nat.
Proof.
  destruct (revoke_all_revokes (E := demo_env) eq_refl 1 (Some 1%N) (Some sample_request) true
    sample_world sample_session_ready) as (n & w' & Hrun & _ & Hdel & _ & Hn).
  exists n, w'. split; [exact Hrun|]. split; [vm_compute; reflexivity|]. split.
  - apply (Hdel 12%N (sample_session 1 "key-b" 12)); vm_compute; reflexivity.
  - rewrite Hn. vm_compute. reflexivity.
Defined.

Lemma middleware_enforces_witness :
  exists w',
    session_middleware (E := demo_env) (Some (1%N, sample_user "alice")) sample_world = (inr tt, w') /\
    http_session w' = http_session sample_world.
Proof.
  destruct (middleware_enforces (E := demo_env) 1 (sample_user "alice") "key-a" sample_world)
    as (w' & Hrun & Hc).
  - exact sample_sessions_unique.
  - vm_compute. reflexivity.
  - exists w'. split; [exact Hrun|]. revert Hc.
    replace (available _ _ _ _ && _) with true by (vm_compute; reflexivity). by intros [? _].
Defined.
