(* ===== verification/TwoFactor.v ===== *)
(** * Two-factor authentication ([TwoFactorService]) *)

From S2P Require Import Prelude Env Demo Models Orm Logic Common Samples Users.

Section two_factor.
Context `{E : Env}.

Definition recovery_code_count : nat := 10.

Definition authentication_failed : exn :=
  APIException "Authentication failed." "AUTHENTICATION_FAILED" 401 [].
Definition invalid_code : exn :=
  APIException "The authentication code is invalid." "AUTHENTICATION_FAILED" 401 [].

(** [TwoFactorService._recovery_hash] *)
Definition _recovery_hash (code : string) : string :=
  keyed_hash (Str.upper (Str.strip code)) "recovery-code".

(** Deleting credentials deletes their recovery codes ([on_delete=CASCADE]). *)
Definition delete_credentials (P : uuid -> TwoFactorCredential.t -> bool) : M unit :=
  let! gone := filter_rows P in
  delete_where (fun _ c => bool_decide (RecoveryCode.credential c ∈ gone.*1)) ;;
  delete_where P ;;
  ret tt.

(** [TwoFactorService.begin_setup] *)
Definition begin_setup (uid : uuid) (user : User.t) (password : string) : M (string * string) :=
  atomic (
    if negb (User.check_password user password) then raise authentication_failed else
    delete_credentials (fun _ c =>
      N.eqb (TwoFactorCredential.user c) uid && is_none (TwoFactorCredential.confirmed_at c)) ;;
    let! enabled := exists_row (fun _ c =>
      N.eqb (TwoFactorCredential.user c) uid && is_some (TwoFactorCredential.confirmed_at c)
      && is_none (TwoFactorCredential.disabled_at c)) in
    if (enabled : bool)
    then raise (APIException "Two-factor authentication is already enabled." "CONFLICT" 409 [])
    else
    let! secret := draw random_base32 in
    let! encrypted := encrypt_value secret "totp-secret" in
    let! created := now in
    create (TwoFactorCredential.mk uid encrypted created None None) ;;
    ret (secret, totp_uri secret (User.email user) SITE_NAME)).

(** [pyotp.TOTP(secret).verify(code, valid_window=1)] reads the clock. *)
Definition totp_check (secret code : string) : M bool :=
  let! t := now in ret (totp_verify secret code t).

(** [[secrets.token_hex(5).upper() for _ in range(n)]] *)
Fixpoint draw_codes (n : nat) : M (list string) :=
  match n with
  | O => ret []
  | S n' =>
      let! code := draw (fun i => Str.upper (token_hex i 5)) in
      let! codes := draw_codes n' in
      ret (code :: codes)
  end.

(** [TwoFactorService._replace_recovery_codes] *)
Definition _replace_recovery_codes (credential : uuid) : M (list string) :=
  delete_where (fun _ c => N.eqb (RecoveryCode.credential c) credential) ;;
  let! codes := draw_codes recovery_code_count in
  for_each codes (fun code =>
    let! created := now in
    create (RecoveryCode.mk credential (_recovery_hash code) created None) ;; ret tt) ;;
  ret codes.

Definition two_factor_email (verb : string) (uid : uuid) (user : User.t) : effect :=
  email ("two_factor_" +:+ verb) (User.email user)
    ("Two-factor authentication " +:+ verb +:+ " on " +:+ SITE_NAME)
    [("user", user_value uid user)].

(** [TwoFactorService.confirm_setup] *)
Definition confirm_setup (uid : uuid) (user : User.t) (code : string)
    (request : option Request) : M (list string) :=
  atomic (
    let! '(k, credential) := try_except
      (get (fun _ c => N.eqb (TwoFactorCredential.user c) uid
                       && is_none (TwoFactorCredential.confirmed_at c)))
      (fun e => raise (if decide (e = DoesNotExist)
        then APIException "No pending two-factor setup exists." "RESOURCE_NOT_FOUND" 404 []
        else e)) in
    let! secret := decrypt_value (TwoFactorCredential.encrypted_secret credential) "totp-secret" in
    let! valid := totp_check secret code in
    if negb valid then raise invalid_code else
    let! confirmed := now in
    save_fields k (fun c => c <| TwoFactorCredential.confirmed_at := Some confirmed |>
                              <| TwoFactorCredential.disabled_at := None |>) ;;
    let! codes := _replace_recovery_codes k in
    SecurityEventService.record SecurityEventType.TWO_FACTOR_ENABLED (Some uid) request [] ;;
    AuditService.record
      (AuditService.on "two_factor.enabled" (user_target uid user) (Some uid) request) ;;
    on_commit (two_factor_email "enabled" uid user) ;;
    ret codes).

(** [TwoFactorService._consume_recovery_code] *)
Definition _consume_recovery_code (k : uuid) (credential : TwoFactorCredential.t)
    (code : string) : M bool :=
  atomic (
    let! recovery := first_row (fun _ c =>
      N.eqb (RecoveryCode.credential c) k
      && String.eqb (RecoveryCode.code_hash c) (_recovery_hash code)
      && is_none (RecoveryCode.used_at c)) in
    match recovery with
    | None => ret false
    | Some (r, _) =>
        let! used := now in
        save_fields r (fun c => c <| RecoveryCode.used_at := Some used |>) ;;
        SecurityEventService.record SecurityEventType.RECOVERY_CODE_USED
          (Some (TwoFactorCredential.user credential)) None [] ;;
        ret true
    end).

(** [code.strip().replace("-", "").upper()] *)
Definition normalize_code (code : string) : string :=
  Str.upper (Str.remove_char "-" (Str.strip code)).

(** [TwoFactorService.verify]: whether the code is valid, and whether a
    recovery code was tried. *)
Definition verify (uid : uuid) (code : string) : M (bool * bool) :=
  let! found := first_row (fun _ c => N.eqb (TwoFactorCredential.user c) uid) in
  match found with
  | None => ret (false, false)
  | Some (k, credential) =>
      if negb (TwoFactorCredential.is_enabled credential) then ret (false, false) else
      let normalized := normalize_code code in
      let! secret := decrypt_value (TwoFactorCredential.encrypted_secret credential) "totp-secret" in
      let! valid := totp_check secret normalized in
      if (valid : bool) then ret (true, false) else
      let! used := _consume_recovery_code k credential normalized in
      ret (used, true)
  end.

(** [TwoFactorService.regenerate_codes] *)
Definition regenerate_codes (uid : uuid) (user : User.t) (code : string)
    (request : option Request) : M (list string) :=
  atomic (
    let! '(valid, _) := verify uid code in
    if negb valid then raise invalid_code else
    let! '(k, _) := get (fun _ c => N.eqb (TwoFactorCredential.user c) uid
                                    && is_none (TwoFactorCredential.disabled_at c)) in
    let! codes := _replace_recovery_codes k in
    AuditService.record (AuditService.on "two_factor.recovery_codes_regenerated"
      (user_target uid user) (Some uid) request) ;;
    ret codes).

(** [TwoFactorService.disable] *)
Definition disable (uid : uuid) (user : User.t) (password code : string)
    (request : option Request) : M unit :=
  atomic (
    if negb (User.check_password user password) then raise authentication_failed else
    let! '(valid, _) := verify uid code in
    if negb valid then raise invalid_code else
    let! '(k, _) := get (fun _ c => N.eqb (TwoFactorCredential.user c) uid) in
    let! disabled := now in
    save_fields k (fun c => c <| TwoFactorCredential.disabled_at := Some disabled |>) ;;
    let! used := now in
    update_where
      (fun _ c => N.eqb (RecoveryCode.credential c) k && is_none (RecoveryCode.used_at c))
      (fun c => c <| RecoveryCode.used_at := Some used |>) ;;
    SecurityEventService.record SecurityEventType.TWO_FACTOR_DISABLED (Some uid) request [] ;;
    AuditService.record
      (AuditService.on "two_factor.disabled" (user_target uid user) (Some uid) request) ;;
    on_commit (two_factor_email "disabled" uid user)).

End two_factor.

(** ** Verification of a code *)

Section two_factor_facts.
Context `{E : Env, !EntropyLaws E}.
Hypothesis configured : crypto_configured = true.

Definition recovery_query (k : uuid) (code : string) (_ : uuid) (c : RecoveryCode.t) : bool :=
  N.eqb (RecoveryCode.credential c) k && String.eqb (RecoveryCode.code_hash c) (_recovery_hash code)
  && is_none (RecoveryCode.used_at c).

(** The credential a code is verified against. *)
Definition credential_of (uid : uuid) (d : DB) : option (uuid * TwoFactorCredential.t) :=
  Table.first pk_order (fun _ c => N.eqb (TwoFactorCredential.user c) uid) (two_factor d).

Definition totp_secret (c : TwoFactorCredential.t) : option string :=
  fernet_decrypt (purpose_key "totp-secret") (TwoFactorCredential.encrypted_secret c).

(** A recovery code was spent: one unused row got its [used_at], one event was
    recorded, nothing else changed. *)
Definition spent (k : uuid) (code : string) (d d' : DB) : Prop :=
  exists r row t,
    recovery_codes d !! r = Some row /\ recovery_query k code r row = true /\
    d' = d <| recovery_codes := <[r := row <| RecoveryCode.used_at := Some t |>]> (recovery_codes d) |>
           <| audit_logs := audit_logs d' |> <| security_events := security_events d' |>.

Lemma consume_recovery_code_spec k c code w :
  journal_ready w -> unique_rows (R := RecoveryCode.t) (db w) ->
  wp (_consume_recovery_code k c code)
    (fun b w' => journal_ready w' /\
       if b then spent k code (db w) (db w')
       else db w' = db w /\ Table.any (recovery_query k code) (recovery_codes (db w)) = false)
    (fun _ _ => False) w.
Proof.
  intros Hj Hu. unfold _consume_recovery_code. wp_step. wp_step. wp_step.
  destruct (Table.first _ _ _) as [[r row]|] eqn:Ef.
  - apply Table.first_Some in Ef as [Hr HP].
    do 3 wp_step. apply (wp_save_row r _ row); [exact Hu|exact Hr|done|].
    wp_step. set (w1 := upd db _ _).
    assert (Hj1 : journal_ready w1) by by apply (journal_ready_move w).
    eapply wp_call; [by apply event_record_spec| |done].
    intros x w2 _ [Hl _]. apply wp_ret. rewrite db_committed. split.
    + apply (journal_ready_move w2); rewrite ?db_committed; [apply Hl|done|done|].
      unfold committed. by destruct (Nat.eqb _ _).
    + eexists r, row, _. split; [exact Hr|]. split; [exact HP|].
      rewrite (lg_db _ _ Hl). reflexivity.
  - wp_step. rewrite db_committed. split; [|split; [done|]].
    + apply (journal_ready_move w); rewrite ?db_committed; [done|done|done|].
      unfold committed. by destruct (Nat.eqb _ _).
    + apply Table.any_false. by apply (Table.first_None pk_order).
Qed.

(** [TwoFactorService.verify], on every branch. *)
Lemma verify_spec uid code w :
  journal_ready w -> unique_rows (R := RecoveryCode.t) (db w) ->
  wp (verify uid code)
    (fun r w' => journal_ready w' /\
       match credential_of uid (db w) with
       | Some (k, c) =>
           if TwoFactorCredential.is_enabled c then
             exists secret, totp_secret c = Some secret /\
             if totp_verify secret (normalize_code code) (clock w.(ticks))
             then r = (true, false) /\ db w' = db w
             else if r.1 then r.2 = true /\ spent k (normalize_code code) (db w) (db w')
                  else r.2 = true /\ db w' = db w /\
                       Table.any (recovery_query k (normalize_code code)) (recovery_codes (db w)) = false
           else r = (false, false) /\ db w' = db w
       | None => r = (false, false) /\ db w' = db w
       end)
    (fun e w' => db w' = db w /\
       exists k c, credential_of uid (db w) = Some (k, c) /\ totp_secret c = None) w.
Proof.
  intros Hj Hu. unfold verify, totp_check. do 2 wp_step.
  change (Table.first _ _ _) with (credential_of uid (db w)). destruct (credential_of uid (db w)) as [[k c]|]; [|by wp_step].
  destruct (TwoFactorCredential.is_enabled c); cbn [negb]; [|by wp_step].
  wp_step. apply wp_decrypt; [done| |].
  - intros secret Hs. do 4 wp_step. destruct (totp_verify _ _ _) eqn:Ev.
    + wp_step. split; [by apply (journal_ready_move w)|]. exists secret. split; [exact Hs|].
      cbn in Ev. by rewrite Ev.
    + wp_step. eapply wp_mono; [apply consume_recovery_code_spec; [by apply (journal_ready_move w)|exact Hu]| |done].
      intros b w' [Hj' Hb]. wp_step. split; [done|]. exists secret. split; [exact Hs|].
      cbn in Ev. rewrite Ev. by destruct b.
  - intros Hn. split; [done|]. by exists k, c.
Qed.

(** [C20] A second factor is accepted only for an enabled credential of that
    user, and then only because the TOTP check accepts the normalised code now
    (nothing is written) or because an unused recovery code of that credential
    has its keyed hash (exactly that row becomes used); a refused code writes
    nothing. *)
Theorem verify_sound uid code w ok recovery w' :
  journal_ready w -> unique_rows (R := RecoveryCode.t) (db w) ->
  verify uid code w = (inr (ok, recovery), w') ->
  if ok then
    exists k c secret, credential_of uid (db w) = Some (k, c) /\
      TwoFactorCredential.is_enabled c = true /\ totp_secret c = Some secret /\
      if recovery then spent k (normalize_code code) (db w) (db w')
      else totp_verify secret (normalize_code code) (clock w.(ticks)) = true /\ db w' = db w
  else db w' = db w.
Proof.
  intros Hj Hu Hrun. destruct (wp_result _ _ _ _ _ _ (verify_spec uid code w Hj Hu) Hrun) as [_ H].
  destruct (credential_of uid (db w)) as [[k c]|]; [|destruct H as [[= -> ->] ->]; done].
  destruct (TwoFactorCredential.is_enabled c) eqn:Ee; [|destruct H as [[= -> ->] ->]; done].
  destruct H as (secret & Hs & H). destruct (totp_verify _ _ _) eqn:Ev.
  - destruct H as [[= -> ->] ->]. by exists k, c, secret.
  - destruct ok; cbn in H; [|by destruct H as (_ & -> & _)].
    destruct H as [-> H]. by exists k, c, secret.
Qed.

(** A recovery code works once: after [verify] accepted it, the same code is
    refused, as long as it is not also a TOTP code. *)
Theorem recovery_code_once uid code w w1 :
  journal_ready w -> unique_rows (R := RecoveryCode.t) (db w) ->
  (forall secret t, totp_verify secret (normalize_code code) t = false) ->
  verify uid code w = (inr (true, true), w1) ->
  exists w2, verify uid code w1 = (inr (false, true), w2) /\ db w2 = db w1.
Proof.
  intros Hj Hu Hno Hrun.
  destruct (wp_result _ _ _ _ _ _ (verify_spec uid code w Hj Hu) Hrun) as [Hj1 H].
  destruct (credential_of uid (db w)) as [[k c]|] eqn:Ec; [|by destruct H].
  destruct (TwoFactorCredential.is_enabled c) eqn:Ee; [|by destruct H].
  destruct H as (secret & Hs & H). rewrite Hno in H.
  destruct H as (_ & r & row & t & Hr & HP & Hdb).
  assert (Hu1 : unique_rows (R := RecoveryCode.t) (db w1)).
  { unfold unique_rows. rewrite Hdb. cbn. apply unique_table_insert; [exact Hu|].
    by apply (conflicts_same (R := RecoveryCode.t) r row). }
  assert (Hc1 : credential_of uid (db w1) = Some (k, c)) by (unfold credential_of; by rewrite Hdb).
  pose proof (verify_spec uid code w1 Hj1 Hu1) as Hwp. unfold wp in Hwp.
  destruct (verify uid code w1) as [[e|[ok rec]] w2].
  - destruct Hwp as (_ & k' & c' & Hc' & Hn). congruence.
  - destruct Hwp as [_ H2]. rewrite Hc1, Ee in H2. destruct H2 as (secret' & _ & H2).
    rewrite Hno in H2. exists w2. destruct ok; cbn in H2; [|by destruct H2 as (-> & -> & _)]. exfalso.
    destruct H2 as (_ & r' & row' & t' & Hr' & HP' & _).
    rewrite Hdb in Hr'. cbn in Hr'. rewrite lookup_insert in Hr'. case_decide; simplify_eq.
    + unfold recovery_query in HP'. cbn in HP'. by rewrite andb_false_r in HP'.
    + assert (Hcl : row_clash row row' = false) by (eapply Hu; [exact Hr|exact Hr'|congruence]).
      revert HP HP' Hcl. unfold recovery_query. cbn. unfold RecoveryCode.clash.
      rewrite !andb_true_iff, !N.eqb_eq, !String.eqb_eq. intros [[-> ->] _] [[-> ->] _].
      by rewrite N.eqb_refl, String.eqb_refl.
Qed.

End two_factor_facts.

(** ** Setting up and switching off *)

Section setup_facts.
Context `{E : Env}.

(** The user's credential when it was confirmed and later disabled. *)
Definition disabled_credential (uid k : uuid) (c : TwoFactorCredential.t) (d : DB) : Prop :=
  two_factor d !! k = Some c /\ TwoFactorCredential.user c = uid /\
  is_some (TwoFactorCredential.confirmed_at c) = true /\
  is_some (TwoFactorCredential.disabled_at c) = true.

(** Once two-factor authentication was disabled it cannot be set up again:
    the disabled credential is neither deleted (only unconfirmed ones are) nor
    reported as enabled, so the insertion violates the one-to-one constraint
    and the request ends in [IntegrityError] with nothing changed. *)
Theorem setup_after_disable_fails uid user password k c w :
  crypto_configured = true ->
  unique_rows (R := TwoFactorCredential.t) (db w) ->
  disabled_credential uid k c (db w) ->
  User.check_password user password = true ->
  exists w', begin_setup uid user password w = (inl IntegrityError, w') /\ db w' = db w.
Proof.
  intros Hcf Hu (Hk & Hc & Hconf & Hdis) Hpw.
  assert (Hwp : wp (begin_setup uid user password) (fun _ _ => False)
    (fun e w' => e = IntegrityError /\ db w' = db w) w).
  2:{ destruct (wp_raises _ _ _ Hwp) as (e & w' & Hrun & -> & Hdb). by exists w'. }
  unfold begin_setup, delete_credentials. rewrite Hpw. cbn [negb]. do 10 wp_step. cbn.
  set (t' := Table.remove _ (two_factor _)).
  assert (Hk' : t' !! k = Some c).
  { apply Table.lookup_remove_Some. split; [exact Hk|]. apply andb_false_iff. right.
    by destruct (TwoFactorCredential.confirmed_at c). }
  destruct (Table.any _ t') eqn:Een.
  - exfalso. apply Table.any_true in Een as (k2 & c2 & [Hk2 _]%Table.lookup_remove_Some & HP).
    rewrite !andb_true_iff, N.eqb_eq in HP. destruct HP as [[Hu2 Hc2] Hd2].
    destruct (decide (k = k2)) as [<-|Hne].
    + replace c2 with c in * by congruence. by destruct (TwoFactorCredential.disabled_at c).
    + pose proof (Hu k k2 c c2 Hk Hk2 Hne) as Hcl. cbn in Hcl. unfold same_user in Hcl.
      by rewrite Hc, Hu2, N.eqb_refl in Hcl.
  - do 2 wp_step. apply wp_bind. apply wp_encrypt; [done|]. do 3 wp_step. apply wp_create; [|done].
    intros k' _ Hn Hcl. exfalso. pose proof (proj1 (conflicts_false _ _ _) Hcl k c Hk') as Hall.
    cbn in Hall, Hn. unfold same_user in Hall. cbn in Hall. rewrite Hc, N.eqb_refl in Hall.
    destruct (decide (k = k')) as [->|Hne]; [|by specialize (Hall Hne)].
    change (t' !! k' = None) in Hn. congruence.
Qed.

Lemma verify_keeps {T} (part : DB -> T) uid code :
  (forall g d, part (d <| recovery_codes ::= g |>) = part d) ->
  (forall g d, part (d <| security_events ::= g |>) = part d) ->
  evolves (keeps part) (verify uid code).
Proof.
  intros H1 H2. unfold verify, totp_check, _consume_recovery_code.
  evolve; first [apply H1 | apply event_record_keeps, H2].
Qed.

Definition switched_off (k : uuid) (c : TwoFactorCredential.t) (d d' : DB) : Prop :=
  exists t, two_factor d' = <[k := c <| TwoFactorCredential.disabled_at := Some t |>]> (two_factor d) /\
    (forall r row, recovery_codes d' !! r = Some row -> RecoveryCode.credential row = k ->
       is_some (RecoveryCode.used_at row) = true).

Lemma disable_switches_off uid user password code request w :
  User.check_password user password = true ->
  wp (disable uid user password code request)
    (fun _ w' => exists k c, two_factor (db w) !! k = Some c /\ TwoFactorCredential.user c = uid /\
       switched_off k c (db w) (db w'))
    (fun _ _ => True) w.
Proof.
  intros Hpw. unfold disable. rewrite Hpw. cbn [negb]. do 2 wp_step. apply wp_any; [|done].
  intros [valid rec] w1 Hv. destruct valid; cbn [negb]; [|done].
  assert (Htf1 : two_factor (db w1) = two_factor (db w)).
  { apply (evolves_run _ _ _ _ _ (verify_keeps two_factor uid code ltac:(done) ltac:(done)) Hv). }
  wp_step. wp_step; [|done|done].
  match goal with H : objects _ !! ?k0 = Some ?c0 |- _ => rename k0 into k; rename c0 into c; rename H into Hk end.
  match goal with H : _ = true |- _ => rename H into Hc end.
  do 3 wp_step. wp_step; [|done|done].
  match goal with H : objects _ !! k = Some ?r0 |- _ =>
    match r0 with c => fail 1 | _ => replace r0 with c in * by (cbn in *; congruence) end end.
  do 5 wp_step. apply wp_any; [|done]. intros x w3 Hx. wp_step. apply wp_any; [|done]. intros y w4 Hy.
  wp_step. rewrite db_committed, db_registered.
  pose proof (evolves_run _ _ _ _ _ (event_record_keeps (fun d => (two_factor d, recovery_codes d)) _ _ _ _ ltac:(done)) Hx) as E3.
  pose proof (evolves_run _ _ _ _ _ (audit_record_keeps (fun d => (two_factor d, recovery_codes d)) _ ltac:(done)) Hy) as E4.
  unfold keeps in E3, E4. rewrite E3 in E4. injection E4 as Ht Hr.
  exists k, c. split; [rewrite <- Htf1; exact Hk|]. split; [by apply N.eqb_eq|].
  exists (clock (ticks w1)). rewrite <- Htf1. split; [exact Ht|].
  intros r0 row Hrow Hcred. rewrite Hr in Hrow. cbn in Hrow.
  rewrite Table.lookup_update in Hrow. apply fmap_Some in Hrow as (row0 & _ & ->).
  revert Hcred. destruct (N.eqb_spec (RecoveryCode.credential row0) k); cbn; [|done].
  by destruct (RecoveryCode.used_at row0) eqn:Eu; cbn; rewrite ?Eu.
Qed.

(** Disabling takes the password and a valid code; when it succeeds the
    credential is disabled, every recovery code of it is used up, and from then
    on no code of that user verifies. *)
Theorem disable_is_final uid user password code request w w' :
  unique_rows (R := TwoFactorCredential.t) (db w) ->
  disable uid user password code request w = (inr tt, w') ->
  User.check_password user password = true /\
  (exists k c, two_factor (db w') !! k = Some c /\ TwoFactorCredential.user c = uid /\
     TwoFactorCredential.is_enabled c = false /\
     (forall r row, recovery_codes (db w') !! r = Some row -> RecoveryCode.credential row = k ->
        is_some (RecoveryCode.used_at row) = true)) /\
  (forall any, exists w'', verify uid any w' = (inr (false, false), w'')).
Proof.
  intros Hu Hrun. destruct (User.check_password user password) eqn:Hpw.
  2:{ unfold disable in Hrun. rewrite Hpw in Hrun. discriminate. }
  split; [done|].
  assert (Hfinal : exists k c, two_factor (db w) !! k = Some c /\ TwoFactorCredential.user c = uid /\
    switched_off k c (db w) (db w')).
  { exact (wp_result _ _ _ _ _ _ (disable_switches_off _ _ _ _ _ _ Hpw) Hrun). }
  destruct Hfinal as (k & c & Hk & Hc & t & Htf & Hcodes). split.
  - exists k, (c <| TwoFactorCredential.disabled_at := Some t |>). rewrite Htf, lookup_insert_eq.
    split; [done|]. split; [exact Hc|]. split; [|exact Hcodes].
    unfold TwoFactorCredential.is_enabled. cbn. apply andb_false_r.
  - intros any. unfold verify, bind at 1, first_row, first_row_by, read.
    destruct (Table.first _ _ _) as [[k' c']|] eqn:Ef; [|by eexists].
    apply Table.first_Some in Ef as [Hk' Hu'%N.eqb_eq]. cbn in Hk'.
    rewrite Htf, lookup_insert in Hk'. case_decide; simplify_eq.
    + unfold TwoFactorCredential.is_enabled. cbn. rewrite andb_false_r. cbn. by eexists.
    + exfalso. assert (Hne : k <> k') by done. pose proof (Hu k k' c c' Hk Hk' Hne) as Hcl.
      cbn in Hcl. unfold same_user in Hcl. by rewrite Hu', N.eqb_refl in Hcl.
Qed.
End setup_facts.

Section recovery_facts.
Context `{E : Env}.

Lemma draw_codes_spec n w :
  wp (draw_codes n) (fun codes w' => length codes = n /\ db w' = db w) (fun _ _ => False) w.
Proof.
  revert w. induction n as [|n IH]; intros w; cbn [draw_codes]; [by wp_step|]. do 2 wp_step.
  wp_step. eapply wp_mono; [apply IH| |done].
  intros codes w' [Hl Hdb]. wp_step. split; [cbn; by rewrite Hl|by rewrite Hdb].
Qed.

(** The recovery codes of credential [k] are exactly the unused rows of [codes]. *)
Definition holds_codes (k : uuid) (codes : list string) (d : DB) : Prop :=
  (forall r row, recovery_codes d !! r = Some row -> RecoveryCode.credential row = k ->
     RecoveryCode.used_at row = None /\
     exists code, code ∈ codes /\ RecoveryCode.code_hash row = _recovery_hash code) /\
  (forall code, code ∈ codes -> exists r row, recovery_codes d !! r = Some row /\
     RecoveryCode.credential row = k /\ RecoveryCode.code_hash row = _recovery_hash code).

Lemma holds_codes_create k codes code r created d d' :
  holds_codes k codes d -> recovery_codes d !! r = None ->
  recovery_codes d' = <[r := RecoveryCode.mk k (_recovery_hash code) created None]> (recovery_codes d) ->
  holds_codes k (codes ++ [code]) d'.
Proof.
  intros [H1 H2] Hn Hd. split.
  - intros r' row. rewrite Hd, lookup_insert_Some. intros [[<- <-]|[_ Hr]] Hc.
    + split; [done|]. exists code. set_solver.
    + destruct (H1 r' row Hr Hc) as (? & c & ? & ?). split; [done|]. exists c. set_solver.
  - intros c [Hc| ->%list_elem_of_singleton]%elem_of_app; rewrite Hd.
    + destruct (H2 c Hc) as (r' & row & Hr & ?). exists r', row. split; [|done].
      rewrite lookup_insert_ne; [done|congruence].
    + exists r. eexists. split; [apply lookup_insert_eq|done].
Qed.

Lemma replace_recovery_codes_spec k w :
  wp (_replace_recovery_codes k)
    (fun codes w' => length codes = recovery_code_count /\ two_factor (db w') = two_factor (db w) /\
       holds_codes k codes (db w'))
    (fun _ _ => True) w.
Proof.
  unfold _replace_recovery_codes. do 3 wp_step. eapply wp_mono; [apply draw_codes_spec| |done].
  intros codes w1 [Hl Hdb]. wp_step.
  eapply (wp_mono _ _ _ (fun _ _ => True)); [apply (wp_for_each (fun seen w' => two_factor (db w') = two_factor (db w) /\
    holds_codes k seen (db w')))| |done].
  - intros seen code rest w2 _ [Htf Hh]. do 3 wp_step. wp_step; [|done]. wp_step. split; [exact Htf|].
    eapply holds_codes_create; [exact Hh| |reflexivity]. eassumption.
  - split; [by rewrite Hdb|]. split; [|set_solver].
    intros r row Hr Hc. exfalso. rewrite Hdb in Hr. cbn in Hr.
    apply Table.lookup_remove_Some in Hr as [_ Hne%N.eqb_neq]. done.
  - intros [] w' [Htf Hh]. by wp_step.
Qed.

(** Confirming a setup succeeds only when the TOTP check accepts the code for
    the pending credential's secret; the credential is then enabled and its
    recovery codes are exactly the ten returned ones, stored as unused keyed
    hashes, whatever codes existed before. *)
Theorem confirm_setup_enables uid user code request w codes w' :
  confirm_setup uid user code request w = (inr codes, w') ->
  exists k c c',
    two_factor (db w) !! k = Some c /\ TwoFactorCredential.user c = uid /\
    TwoFactorCredential.confirmed_at c = None /\
    (exists secret t, totp_secret c = Some secret /\ totp_verify secret code t = true) /\
    two_factor (db w') !! k = Some c' /\ TwoFactorCredential.user c' = uid /\
    TwoFactorCredential.is_enabled c' = true /\
    length codes = 10%nat /\ holds_codes k codes (db w').
Proof.
  intros Hrun. by_wp Hrun. unfold confirm_setup, totp_check. do 4 wp_step; [|by wp_step..].
  match goal with H : objects _ !! ?k0 = Some ?c0 |- _ => rename k0 into k; rename c0 into c; rename H into Hk end.
  match goal with H : _ && _ = true |- _ => apply andb_true_iff in H as [Hu%N.eqb_eq Hc] end.
  wp_step. apply wp_any; [|done]. intros secret w1 Hsec.
  apply decrypt_value_run in Hsec as [-> Hsec]. do 4 wp_step. destruct (totp_verify _ _ _) eqn:Ev; cbn [negb]; [|done].
  do 3 wp_step. wp_step; [|done|done].
  match goal with H : objects _ !! k = Some ?r0 |- _ =>
    match r0 with c => fail 1 | _ => replace r0 with c in * by (cbn in *; congruence) end end.
  wp_step. eapply wp_mono; [apply replace_recovery_codes_spec| |done].
  intros codes' w2 (Hl & Htf & Hh). wp_step. apply wp_any; [|done]. intros x w3 Hx.
  wp_step. apply wp_any; [|done]. intros y w4 Hy. do 3 wp_step. rewrite db_committed, db_registered.
  pose proof (evolves_run _ _ _ _ _ (event_record_keeps (fun d => (two_factor d, recovery_codes d)) _ _ _ _ ltac:(done)) Hx) as E3.
  pose proof (evolves_run _ _ _ _ _ (audit_record_keeps (fun d => (two_factor d, recovery_codes d)) _ ltac:(done)) Hy) as E4.
  unfold keeps in E3, E4. rewrite E3 in E4. injection E4 as Et Er.
  eexists k, c, _. split; [exact Hk|]. split; [exact Hu|].
  split; [by destruct (TwoFactorCredential.confirmed_at c)|]. split; [by eexists secret, _|].
  split; [rewrite Et, Htf; apply lookup_insert_eq|]. split; [exact Hu|]. split; [done|].
  split; [exact Hl|]. unfold holds_codes. by rewrite Er.
Qed.

End recovery_facts.

(** ** Witnesses *)

(** Alice with a credential in the given state and one unused recovery code. *)
Definition credential (confirmed disabled : option Z) : TwoFactorCredential.t :=
  TwoFactorCredential.mk 1 (purpose_key (E := demo_env) "totp-secret" +:+ "$" +:+ "SECRET") 0 confirmed disabled.

Definition two_factor_world (confirmed disabled : option Z) : World := sample_world
  <| db ::= fun d => d
     <| two_factor := {[ 21%N := credential confirmed disabled ]} |>
     <| recovery_codes := {[ 31%N := RecoveryCode.mk 21 (_recovery_hash (E := demo_env) "ABCDE12345") 0 None ]} |> |>.

Lemma two_factor_journal c d : journal_ready (E := demo_env) (two_factor_world c d).
Proof. split; sample_check. Qed.

Lemma two_factor_codes c d : unique_rows (R := RecoveryCode.t) (db (two_factor_world c d)).
Proof. exact (unique_table_singleton _ _). Qed.

Lemma two_factor_unique c d : unique_rows (R := TwoFactorCredential.t) (db (two_factor_world c d)).
Proof. exact (unique_table_singleton _ _). Qed.

Lemma verify_sound_witness :
  exists w', verify (E := demo_env) 1 " 123-456 " (two_factor_world (Some 0) None) = (inr (true, false), w') /\
    db w' = db (two_factor_world (Some 0) None).
Proof.
  set (m := verify (E := demo_env) 1 " 123-456 " (two_factor_world (Some 0) None)).
  assert (Hrun : m = (inr (true, false), m.2)) by (vm_compute; reflexivity).
  exists m.2. split; [exact Hrun|].
  destruct (verify_sound (E := demo_env) eq_refl 1 " 123-456 " (two_factor_world (Some 0) None) true false m.2
    (two_factor_journal _ _) (two_factor_codes _ _) Hrun) as (k & c & s & _ & _ & _ & _ & Hdb).
  exact Hdb.
Defined.

Lemma recovery_code_once_witness :
  exists w1 w2,
    verify (E := demo_env) 1 "abcde-12345" (two_factor_world (Some 0) None) = (inr (true, true), w1) /\
    verify (E := demo_env) 1 "abcde-12345" w1 = (inr (false, true), w2).
Proof.
  set (m := verify (E := demo_env) 1 "abcde-12345" (two_factor_world (Some 0) None)).
  assert (Hrun : m = (inr (true, true), m.2)) by (vm_compute; reflexivity).
  destruct (recovery_code_once (E := demo_env) eq_refl 1 "abcde-12345" (two_factor_world (Some 0) None) m.2
    (two_factor_journal _ _) (two_factor_codes _ _) (fun _ _ => eq_refl) Hrun) as (w2 & H2 & _).
  exists m.2, w2. split; [exact Hrun|exact H2].
Defined.

Lemma setup_after_disable_fails_witness :
  exists w', begin_setup (E := demo_env) 1 (sample_user "alice") "correct horse battery"
    (two_factor_world (Some 0) (Some 5)) = (inl IntegrityError, w').
Proof.
  destruct (setup_after_disable_fails (E := demo_env) 1 (sample_user "alice") "correct horse battery" 21
    (credential (Some 0) (Some 5)) (two_factor_world (Some 0) (Some 5))) as (w' & H & _).
  - reflexivity.
  - apply two_factor_unique.
  - repeat split; vm_compute; reflexivity.
  - reflexivity.
  - by exists w'.
Defined.

Lemma disable_is_final_witness :
  exists w' w'', disable (E := demo_env) 1 (sample_user "alice") "correct horse battery" "123456" None
      (two_factor_world (Some 0) None) = (inr tt, w') /\
    verify (E := demo_env) 1 "123456" w' = (inr (false, false), w'').
Proof.
  set (m := disable (E := demo_env) 1 (sample_user "alice") "correct horse battery" "123456" None
              (two_factor_world (Some 0) None)).
  assert (Hrun : m = (inr tt, m.2)) by (vm_compute; reflexivity).
  destruct (disable_is_final (E := demo_env) 1 (sample_user "alice") "correct horse battery" "123456" None
    (two_factor_world (Some 0) None) m.2 (two_factor_unique _ _) Hrun) as (_ & _ & Hv).
  destruct (Hv "123456") as [w'' H]. exists m.2, w''. split; [exact Hrun|exact H].
Defined.

Lemma confirm_setup_enables_witness :
  exists codes w', confirm_setup (E := demo_env) 1 (sample_user "alice") "123456" None
      (two_factor_world None None) = (inr codes, w') /\ length codes = 10%nat.
Proof.
  set (m := confirm_setup (E := demo_env) 1 (sample_user "alice") "123456" None (two_factor_world None None)).
  set (codes := match m.1 with inr l => l | inl _ => [] end).
  assert (Hrun : m = (inr codes, m.2)) by (vm_compute; reflexivity).
  destruct (confirm_setup_enables (E := demo_env) 1 (sample_user "alice") "123456" None
    (two_factor_world None None) codes m.2 Hrun) as (k & c & c' & _ & _ & _ & _ & _ & _ & _ & Hl & _).
  exists codes, m.2. split; [exact Hrun|exact Hl].
Defined.
