(* ===== verification/LoginProtection.v ===== *)
(** * Login throttling ([LoginProtectionService])

    Failure counters over three dimensions (identifier, address, both) with
    exponential lock-out, kept in the database or, with Redis, in the cache,
    and the account lock derived from them. *)

From stdpp Require Import pretty.
From S2P Require Import Prelude Env Demo Models Orm Logic Common Samples Users.

Record LockoutState := MkLockout {
  locked : bool;
  retry_after : Z;
  account_locked : bool;
}.

Section protection.
Context `{E : Env}.

Definition namespace : string := "login-protection".

(** [LoginProtectionService._digest] *)
Definition _digest (value : string) : string := sha256 (Str.casefold (Str.strip value)).

(** [LoginProtectionService._dimensions] *)
Definition _dimensions (identifier : string) (ip_address : option string) : list string :=
  let identifier_hash := _digest identifier in
  let ip := match ip_address with
            | Some a => if Str.is_empty a then "unknown" else a
            | None => "unknown"
            end in
  let ip_hash := _digest ip in
  ["id:" +:+ identifier_hash; "ip:" +:+ ip_hash;
   "combo:" +:+ identifier_hash +:+ ":" +:+ ip_hash].

(** [LoginProtectionService._state_key] *)
Definition _state_key (dimension : string) : string := sha256 (namespace +:+ ":" +:+ dimension).

Definition lock_key (dimension : string) : string := namespace +:+ ":lock:" +:+ dimension.
Definition attempts_key (dimension : string) : string := namespace +:+ ":attempts:" +:+ dimension.

(** [LoginProtectionService._lock_seconds] *)
Definition _lock_seconds (attempts : Z) : Z :=
  if attempts <? LOGIN_MAX_ATTEMPTS then 0
  else
    let exponent := Z.min (attempts - LOGIN_MAX_ATTEMPTS) 6 in
    Z.min (LOGIN_LOCKOUT_SECONDS * 2 ^ exponent) LOGIN_MAX_BACKOFF_SECONDS.

(** ** The cache (django-redis): values with the time they expire at *)

Definition cache_get (k : string) : M (option pyval) :=
  let! t := now in
  read (fun w => match cache w !! k with
                 | Some (v, e) => if t <? e then Some v else None
                 | None => None
                 end).

(** [cache.ttl(key)]: whole seconds left, 0 when there is no such key. *)
Definition cache_ttl (k : string) : M Z :=
  let! t := now in
  read (fun w => match cache w !! k with
                 | Some (_, e) => if t <? e then whole_seconds (e - t) else 0
                 | None => 0
                 end).

Definition cache_set (k : string) (v : pyval) (timeout : Z) : M unit :=
  let! t := now in modify (fun w => w <| cache ::= insert k (v, t + seconds timeout) |>).

Definition cache_delete_many (ks : list string) : M unit :=
  modify (fun w => w <| cache ::= fun c => foldr base.delete c ks |>).

(** [cache.add(key, value, timeout)]: nothing happens when the key is live. *)
Definition cache_add (k : string) (v : pyval) (timeout : Z) : M bool :=
  let! old := cache_get k in
  match old with
  | Some _ => ret false
  | None => cache_set k v timeout ;; ret true
  end.

(** [cache.incr(key)] keeps the expiry; a missing key is a [ValueError]. *)
Definition cache_incr (k : string) : M Z :=
  let! t := now in
  let! found := read (fun w => cache w !! k) in
  match found with
  | Some (PInt n, e) =>
      if t <? e then modify (fun w => w <| cache ::= insert k (PInt (n + 1), e) |>) ;; ret (n + 1)
      else raise (ValueError "Key not found")
  | _ => raise (ValueError "Key not found")
  end.

(** ** Checking *)

(** [LoginProtectionService._check_cache] *)
Definition _check_cache (dimensions : list string) : M LockoutState :=
  let! after := fold_m (fun after d =>
    let! ttl := cache_ttl (lock_key d) in
    let! v := cache_get (lock_key d) in
    ret (if is_some v then Z.max after (if ttl =? 0 then LOGIN_LOCKOUT_SECONDS else ttl) else after))
    0 dimensions in
  ret (MkLockout (negb (after =? 0)) after false).

(** The seconds a lock still runs, rounded down but at least one. *)
Definition remaining (t until : Z) : Z := Z.max 1 (whole_seconds (until - t)).

(** [locked_until__gt=now] for one of the hashes. *)
Definition locked_row (t : Z) (hashes : list string) (_ : uuid) (s : LoginThrottleState.t) : bool :=
  bool_decide (LoginThrottleState.dimension_hash s ∈ hashes)
  && match LoginThrottleState.locked_until s with Some u => t <? u | None => false end.

(** [LoginProtectionService._check_database] *)
Definition _check_database (dimensions : list string) : M LockoutState :=
  let! t := now in
  let hashes := map _state_key dimensions in
  let! rows := filter_rows (locked_row t hashes) in
  let after := foldr (fun s acc => Z.max (remaining t (default 0 (LoginThrottleState.locked_until s.2))) acc)
    0 rows in
  ret (MkLockout (negb (after =? 0)) after false).

(** [LoginProtectionService.check] *)
Definition check (identifier : string) (ip : option string) : M LockoutState :=
  let dimensions := _dimensions identifier ip in
  if REDIS_ENABLED then _check_cache dimensions else _check_database dimensions.

(** ** Failures *)

(** One dimension's contribution to [(longest, account_longest)]. *)
Definition note_lock (d : string) (lock : Z) (acc : Z * Z) : Z * Z :=
  if lock =? 0 then acc
  else (Z.max acc.1 lock, if String.prefix "id:" d then Z.max acc.2 lock else acc.2).

Definition lockout_of (acc : Z * Z) : LockoutState :=
  MkLockout (negb (acc.1 =? 0)) acc.1 (negb (acc.2 =? 0)).

(** [LoginProtectionService._register_cache_failure] *)
Definition cache_failure (d : string) : M Z :=
  let! added := cache_add (attempts_key d) (PInt 1) LOGIN_MAX_BACKOFF_SECONDS in
  let! attempts :=
    if (added : bool) then ret 1
    else try_except (cache_incr (attempts_key d))
      (fun e => match e with
                | ValueError _ => cache_set (attempts_key d) (PInt 1) LOGIN_MAX_BACKOFF_SECONDS ;; ret 1
                | _ => raise e
                end) in
  let lock := _lock_seconds attempts in
  when (negb (lock =? 0)) (cache_set (lock_key d) (PBool true) lock) ;;
  ret lock.

Definition _register_cache_failure (dimensions : list string) : M LockoutState :=
  let! acc := fold_m (fun acc d => let! lock := cache_failure d in ret (note_lock d lock acc))
    (0, 0) dimensions in
  ret (lockout_of acc).

(** The counter after one more failure at [t]: an expired counter starts
    again. *)
Definition bump (t : Z) (s : LoginThrottleState.t) : LoginThrottleState.t :=
  let s := if LoginThrottleState.expires_at s <=? t
           then s <| LoginThrottleState.attempt_count := 0 |>
                  <| LoginThrottleState.locked_until := None |>
           else s in
  let s := s <| LoginThrottleState.attempt_count ::= Z.add 1 |> in
  let lock := _lock_seconds (LoginThrottleState.attempt_count s) in
  s <| LoginThrottleState.locked_until := if lock =? 0 then None else Some (t + seconds lock) |>
    <| LoginThrottleState.expires_at := t + seconds LOGIN_MAX_BACKOFF_SECONDS |>.

(** One turn of [_register_database_failure]'s loop. *)
Definition database_failure (t : Z) (d : string) : M Z :=
  atomic (
    let key := _state_key d in
    let! '(k, s, _) := get_or_create
      (fun _ s => String.eqb (LoginThrottleState.dimension_hash s) key)
      (let! u := now in
       ret (LoginThrottleState.mk key 0 None (t + seconds LOGIN_MAX_BACKOFF_SECONDS) u)) in
    let s' := bump t s in
    let! u := now in
    save_fields k (fun r => r
      <| LoginThrottleState.attempt_count := LoginThrottleState.attempt_count s' |>
      <| LoginThrottleState.locked_until := LoginThrottleState.locked_until s' |>
      <| LoginThrottleState.expires_at := LoginThrottleState.expires_at s' |>
      <| LoginThrottleState.updated_at := u |>) ;;
    ret (_lock_seconds (LoginThrottleState.attempt_count s'))).

(** [LoginProtectionService._register_database_failure] *)
Definition _register_database_failure (dimensions : list string) : M LockoutState :=
  let! t := now in
  let! acc := fold_m (fun acc d => let! lock := database_failure t d in ret (note_lock d lock acc))
    (0, 0) dimensions in
  ret (lockout_of acc).

(** [LoginProtectionService.register_failure] *)
Definition register_failure (identifier : string) (ip : option string) : M LockoutState :=
  let dimensions := _dimensions identifier ip in
  if REDIS_ENABLED then _register_cache_failure dimensions
  else _register_database_failure dimensions.

(** [LoginProtectionService.reset] *)
Definition reset (identifier : string) (ip : option string) : M unit :=
  let dimensions := _dimensions identifier ip in
  if negb REDIS_ENABLED then
    delete_where (fun _ s =>
      bool_decide (LoginThrottleState.dimension_hash s ∈ map _state_key dimensions)) ;;
    ret tt
  else cache_delete_many (flat_map (fun d => [attempts_key d; lock_key d]) dimensions).

(** ** The account lock *)

(** [User.objects.filter(Q(email__iexact=x) | Q(username__iexact=x)).first()]:
    the newest row first ([Meta.ordering = ["-created_at"]]). *)
Definition newest_user (a b : uuid * User.t) : bool := User.created_at b.2 <=? User.created_at a.2.

(** [LoginProtectionService.lock_known_account] *)
Definition lock_known_account (identifier : string) (retry_after : Z)
    (request : option Request) : M unit :=
  let! found := first_row_by newest_user
    (fun _ u => User.matches_identifier (Str.strip identifier) u) in
  match found with
  | None => ret tt
  | Some (uid, user) =>
      let! '(k, s, _) := security_settings_of uid in
      let! was_locked := is_locked s in
      let! t := now in
      save_security_settings k (fun s =>
        s <| UserSecuritySettings.locked_until := Some (t + seconds retry_after) |>) ;;
      if (was_locked : bool) then ret tt else
      SecurityEventService.record SecurityEventType.ACCOUNT_LOCKED (Some uid) request [] ;;
      let! '(_, preferences, _) := preferences_of uid in
      when (UserPreferences.security_emails preferences)
        (enqueue_email "account_locked" (User.email user)
          "Your account was temporarily locked"
          [("user", user_value uid user); ("retry_after", PInt retry_after)])
  end.

(** [cleanup_login_attempts] *)
Definition cleanup_login_attempts : M nat :=
  let! t := now in delete_where (fun _ s => LoginThrottleState.expires_at s <? t).

End protection.

(** ** The lock-out schedule *)

Section schedule.
Context `{E : Env}.
Hypothesis lockout_positive : 0 < LOGIN_LOCKOUT_SECONDS.
Hypothesis backoff_positive : 0 < LOGIN_MAX_BACKOFF_SECONDS.

Lemma lock_seconds_nonneg n : 0 <= _lock_seconds n <= LOGIN_MAX_BACKOFF_SECONDS.
Proof.
  unfold _lock_seconds. destruct (Z.ltb_spec n LOGIN_MAX_ATTEMPTS); [lia|].
  pose proof (Z.pow_pos_nonneg 2 (Z.min (n - LOGIN_MAX_ATTEMPTS) 6)). nia.
Qed.

(** [C33] The lock-out schedule: no lock below [LOGIN_MAX_ATTEMPTS] failures and a
    positive one from there on, never longer than
    [LOGIN_MAX_BACKOFF_SECONDS], doubling with every failure up to the sixth
    after the threshold, never shrinking, and constant after that. *)
Theorem lock_seconds_schedule n :
  (_lock_seconds n = 0 <-> n < LOGIN_MAX_ATTEMPTS) /\
  0 <= _lock_seconds n <= LOGIN_MAX_BACKOFF_SECONDS /\
  (forall m, n <= m -> _lock_seconds n <= _lock_seconds m) /\
  (LOGIN_MAX_ATTEMPTS <= n < LOGIN_MAX_ATTEMPTS + 6 ->
   _lock_seconds (n + 1) = Z.min (2 * _lock_seconds n) LOGIN_MAX_BACKOFF_SECONDS) /\
  (LOGIN_MAX_ATTEMPTS + 6 <= n -> _lock_seconds n = _lock_seconds (LOGIN_MAX_ATTEMPTS + 6)).
Proof.
  assert (Hp : forall e, 0 <= e -> 0 < 2 ^ e) by (intros; by apply Z.pow_pos_nonneg).
  split; [|split; [apply lock_seconds_nonneg|split; [|split]]].
  - unfold _lock_seconds. destruct (Z.ltb_spec n LOGIN_MAX_ATTEMPTS); [lia|].
    assert (0 < 2 ^ Z.min (n - LOGIN_MAX_ATTEMPTS) 6) by (apply Hp; lia).
    enough (0 < Z.min (LOGIN_LOCKOUT_SECONDS * 2 ^ Z.min (n - LOGIN_MAX_ATTEMPTS) 6)
      LOGIN_MAX_BACKOFF_SECONDS) by lia.
    apply Z.min_glb_lt; [by apply Z.mul_pos_pos|lia].
  - intros m Hm. unfold _lock_seconds.
    destruct (Z.ltb_spec n LOGIN_MAX_ATTEMPTS), (Z.ltb_spec m LOGIN_MAX_ATTEMPTS); try lia.
    apply Z.min_le_compat_r, Z.mul_le_mono_nonneg_l; [lia|]. apply Z.pow_le_mono_r; lia.
  - intros Hn. unfold _lock_seconds.
    destruct (Z.ltb_spec n LOGIN_MAX_ATTEMPTS), (Z.ltb_spec (n + 1) LOGIN_MAX_ATTEMPTS); try lia.
    rewrite !Z.min_l with (m := 6) by lia.
    replace (n + 1 - LOGIN_MAX_ATTEMPTS) with (Z.succ (n - LOGIN_MAX_ATTEMPTS)) by lia.
    rewrite Z.pow_succ_r by lia. specialize (Hp (n - LOGIN_MAX_ATTEMPTS)).
    set (p := 2 ^ (n - LOGIN_MAX_ATTEMPTS)) in *. nia.
  - intros Hn. unfold _lock_seconds.
    destruct (Z.ltb_spec n LOGIN_MAX_ATTEMPTS), (Z.ltb_spec (LOGIN_MAX_ATTEMPTS + 6) LOGIN_MAX_ATTEMPTS); try lia.
    do 2 f_equal. f_equal. lia.
Qed.

End schedule.

(** ** Counting failures in the database *)

Section counting.
Context `{E : Env, !EntropyLaws E, !CryptoLaws E}.

(** The counter of a dimension. *)
Definition has_state (d : DB) (dim : string) (s : LoginThrottleState.t) : Prop :=
  exists k, throttle_states d !! k = Some s /\ LoginThrottleState.dimension_hash s = _state_key dim.

(** The failures that still count at [t]. *)
Definition failures (t : Z) (d : DB) (dim : string) (n : Z) : Prop :=
  (exists s, has_state d dim s /\ n = if LoginThrottleState.expires_at s <=? t then 0
                                     else LoginThrottleState.attempt_count s) \/
  ((forall s, ~ has_state d dim s) /\ n = 0).

(** The counter after a failure at [t] that is the [n]-th one. *)
Definition counted (t n : Z) (s : LoginThrottleState.t) : Prop :=
  LoginThrottleState.attempt_count s = n /\
  LoginThrottleState.expires_at s = t + seconds LOGIN_MAX_BACKOFF_SECONDS /\
  LoginThrottleState.locked_until s =
    if _lock_seconds n =? 0 then None else Some (t + seconds (_lock_seconds n)).

Definition throttle_ready (w : World) : Prop :=
  fresh (R := LoginThrottleState.t) w /\ unique_rows (R := LoginThrottleState.t) (db w).

Lemma has_state_unique d dim s s' :
  unique_rows (R := LoginThrottleState.t) d -> has_state d dim s -> has_state d dim s' -> s = s'.
Proof.
  intros Hu (k & Hk & Hh) (k' & Hk' & Hh'). destruct (decide (k = k')) as [<-|Hne]; [congruence|].
  pose proof (Hu k k' s s' Hk Hk' Hne) as Hc. cbn in Hc. by rewrite Hh, Hh', String.eqb_refl in Hc.
Qed.

Lemma bump_counted t s n :
  n = (if LoginThrottleState.expires_at s <=? t then 0 else LoginThrottleState.attempt_count s) + 1 ->
  counted t n (bump t s).
Proof. intros ->. unfold counted, bump. destruct (_ <=? t); cbn; rewrite Z.add_comm; done. Qed.

Record failure_counted (t : Z) (dim : string) (lock : Z) (w w' : World) : Prop := {
  fc_ready : throttle_ready w';
  fc_frame : db w' = (db w) <| throttle_states := throttle_states (db w') |>;
  fc_session : http_session w' = http_session w;
  fc_draws : (draws w <= draws w')%nat;
  fc_ticks : (ticks w <= ticks w')%nat;
  fc_state : exists n s, failures t (db w) dim n /\ has_state (db w') dim s /\ counted t (n + 1) s /\
    lock = _lock_seconds (n + 1);
  fc_others : forall dim' s, _state_key dim' <> _state_key dim ->
    has_state (db w') dim' s <-> has_state (db w) dim' s;
}.


#[local] Arguments bump : simpl never.

(** Writing the bumped counter over row [k]. *)
Lemma bump_save t dim k s n w w' :
  throttle_ready w -> throttle_states (db w) !! k = Some s ->
  LoginThrottleState.dimension_hash s = _state_key dim ->
  n = (if LoginThrottleState.expires_at s <=? t then 0 else LoginThrottleState.attempt_count s) ->
  db w' = (db w) <| throttle_states ::= insert k ((bump t s) <| LoginThrottleState.updated_at := clock w.(ticks) |>) |> ->
  (draws w <= draws w')%nat ->
  throttle_ready w' /\ (exists s', has_state (db w') dim s' /\ counted t (n + 1) s') /\
  (forall dim' s', _state_key dim' <> _state_key dim -> has_state (db w') dim' s' <-> has_state (db w) dim' s').
Proof.
  intros [Hf Hu] Hk Hh Hn Hdb Hd.
  assert (Hbh : LoginThrottleState.dimension_hash (bump t s) = LoginThrottleState.dimension_hash s)
    by (unfold bump; by destruct (_ <=? t)).
  split; [|split].
  - split.
    + intros i Hi. rewrite Hdb. cbn. rewrite lookup_insert_ne; [apply Hf; lia|].
      intros ->. specialize (Hf i). cbn in Hf. rewrite Hf in Hk; [done|lia].
    + unfold unique_rows. rewrite Hdb. cbn. apply unique_table_insert; [exact Hu|].
      apply (conflicts_same (R := LoginThrottleState.t) k s); [exact Hu|exact Hk|].
      intros a. cbn. by rewrite Hbh.
  - exists ((bump t s) <| LoginThrottleState.updated_at := clock w.(ticks) |>). split.
    + exists k. rewrite Hdb. cbn. rewrite lookup_insert_eq. split; [done|]. by rewrite Hbh.
    + apply (bump_counted t s). by rewrite Hn.
  - intros dim' s' Hne. unfold has_state. rewrite Hdb. cbn. split; intros (k' & Hk' & Hh').
    + apply lookup_insert_Some in Hk' as [[<- <-]|[? ?]]; [|by exists k'].
      exfalso. apply Hne. rewrite <- Hh', <- Hh. cbn. by rewrite Hbh.
    + exists k'. split; [|done]. rewrite lookup_insert_ne; [done|]. intros ->. congruence.
Qed.

Lemma throttle_ready_create dim t u w :
  throttle_ready w -> (forall s, ~ has_state (db w) dim s) ->
  let k := uuid4 w.(draws) in
  let s := LoginThrottleState.mk (_state_key dim) 0 None (t + seconds LOGIN_MAX_BACKOFF_SECONDS) u in
  throttle_states (db w) !! k = None /\ conflicts k s (throttle_states (db w)) = false /\
  throttle_ready (w <| draws ::= S |> <| db ::= with_objects (insert k s) |>).
Proof.
  intros [Hf Hu] Hno k s.
  assert (Hc : conflicts k s (throttle_states (db w)) = false).
  { apply conflicts_false. intros k' s' Hk' _. cbn. apply String.eqb_neq. intros Heq.
    apply (Hno s'). by exists k'. }
  split; [by apply Hf|]. split; [exact Hc|]. split.
  - apply (fresh_create (R := LoginThrottleState.t)). exact Hf.
  - unfold unique_rows. cbn. by apply unique_table_insert.
Qed.

Lemma has_state_create dim dim' t u k s w :
  throttle_states (db w) !! k = None -> _state_key dim' <> _state_key dim ->
  has_state ((db w) <| throttle_states ::= insert k
    (LoginThrottleState.mk (_state_key dim) 0 None t u) |>) dim' s <-> has_state (db w) dim' s.
Proof.
  intros Hn Hne. unfold has_state. cbn. split; intros (k' & Hk' & Hh).
  - apply lookup_insert_Some in Hk' as [[<- <-]|[? ?]]; [cbn in Hh; congruence|by exists k'].
  - exists k'. split; [|done]. rewrite lookup_insert_ne; [done|congruence].
Qed.

(** The two ways a failure is counted: on the row the dimension has, or on the
    row created for it. *)
Lemma counted_on_row t dim k s w w' :
  throttle_ready w -> throttle_states (db w) !! k = Some s -> LoginThrottleState.dimension_hash s = _state_key dim ->
  db w' = (db w) <| throttle_states ::= insert k
    ((bump t s) <| LoginThrottleState.updated_at := clock w.(ticks) |>) |> ->
  http_session w' = http_session w -> draws w' = draws w -> ticks w' = S (ticks w) ->
  failure_counted t dim (_lock_seconds (LoginThrottleState.attempt_count (bump t s))) w w'.
Proof.
  intros Hr Hk Hh Hdb Hs Hd Ht.
  edestruct (bump_save t dim k s _ w w' Hr Hk Hh eq_refl Hdb) as (Hr' & (s' & Hs' & Hc') & Ho); [lia|].
  split; [exact Hr'|by rewrite Hdb|exact Hs|lia|lia| |exact Ho].
  eexists _, s'. split; [left; exists s; split; [by exists k|reflexivity]|].
  split; [exact Hs'|]. split; [exact Hc'|]. f_equal.
  unfold bump. by destruct (_ <=? t); cbn; rewrite Z.add_comm.
Qed.

Lemma counted_on_new_row t dim u w w1 w' :
  let k := uuid4 (draws w1) in
  let s := LoginThrottleState.mk (_state_key dim) 0 None (t + seconds LOGIN_MAX_BACKOFF_SECONDS) u in
  let w2 := w1 <| draws ::= S |> <| db ::= with_objects (insert k s) |> in
  throttle_ready w1 -> db w1 = db w -> draws w1 = draws w -> http_session w1 = http_session w ->
  (forall s, ~ has_state (db w) dim s) ->
  db w' = (db w2) <| throttle_states ::= insert k
    ((bump t s) <| LoginThrottleState.updated_at := clock w2.(ticks) |>) |> ->
  http_session w' = http_session w -> draws w' = S (draws w) -> (ticks w <= ticks w')%nat ->
  failure_counted t dim (_lock_seconds (LoginThrottleState.attempt_count (bump t s))) w w'.
Proof.
  intros k s w2 Hr1 E1 D1 S1 Hnone Hdb Hs Hd Ht.
  assert (Hnone1 : forall s, ~ has_state (db w1) dim s) by by rewrite E1.
  destruct (throttle_ready_create dim t u w1 Hr1 Hnone1) as (Hk & Hc & Hr2).
  assert (Hs2 : throttle_states (db w2) !! k = Some s) by (cbn; apply lookup_insert_eq).
  edestruct (bump_save t dim k s _ w2 w' Hr2 Hs2 eq_refl eq_refl Hdb) as (Hr' & (s' & Hs' & Hc') & Ho);
    [rewrite Hd; cbn; by rewrite D1|].
  assert (Hzero : (if LoginThrottleState.expires_at s <=? t then 0 else LoginThrottleState.attempt_count s) = 0)
    by by destruct (_ <=? t).
  rewrite Hzero in Hc'.
  split; [exact Hr'|by rewrite Hdb; cbn; rewrite E1|exact Hs|lia|exact Ht| |].
  - exists 0, s'. split; [by right|]. split; [exact Hs'|]. split; [exact Hc'|].
    f_equal. unfold bump. by destruct (_ <=? t).
  - intros dim' s'' Hne. rewrite Ho by done. rewrite <- E1.
    exact (has_state_create dim dim' _ u k s'' w1 Hk Hne).
Qed.

Lemma database_failure_spec t dim w :
  throttle_ready w ->
  wp (database_failure t dim) (fun lock w' => failure_counted t dim lock w w') (fun _ _ => False) w.
Proof.
  intros Hr. pose proof Hr as [Hf Hu]. unfold database_failure. do 2 wp_step.
  apply wp_get_or_create.
  - intros k s Hk Hh%String.eqb_eq. do 3 wp_step. apply (wp_save_row k _ s); [exact Hu|exact Hk|done|].
    wp_step. apply (counted_on_row t dim k s w); [done|done|done| | | |].
    + rewrite db_committed. cbn. do 3 f_equal. unfold bump. by destruct (_ <=? t).
    + by rewrite http_session_committed.
    + unfold committed. by destruct (Nat.eqb _ _).
    + by rewrite ticks_committed.
  - intros Hno. do 3 wp_step.
    assert (Hnone : forall s, ~ has_state (db w) dim s).
    { intros s (k & Hk & Hh). specialize (Hno k s Hk). cbn in Hno. by rewrite Hh, String.eqb_refl in Hno. }
    set (w1 := w <| depth ::= S |> <| ticks ::= S |>). assert (Hr1 : throttle_ready w1) by exact Hr.
    destruct (throttle_ready_create dim t (clock (ticks w)) w1 Hr1 Hnone) as (Hk & Hc & Hr2).
    apply wp_create_fresh; [exact (proj1 Hr1)|by intros ? -> _|]. intros k' -> _ _.
    do 3 wp_step. eapply wp_save_row; [exact (proj2 Hr2)|cbn; apply lookup_insert_eq|done|]. wp_step.
    eapply (counted_on_new_row t dim _ w w1); [done|done|done|done|done| | | |].
    + rewrite db_committed. cbn. do 3 f_equal. unfold bump. by destruct (_ <=? t).
    + by rewrite http_session_committed.
    + unfold committed. by destruct (Nat.eqb _ _).
    + rewrite ticks_committed. cbn. lia.
  - intros (k1 & s1 & k2 & s2 & H1 & P1%String.eqb_eq & H2 & P2%String.eqb_eq & Hne).
    pose proof (Hu k1 k2 s1 s2 H1 H2 Hne) as Hc. cbn in Hc. by rewrite P1, P2, String.eqb_refl in Hc.
Qed.


(** The three dimensions have different counters. *)
Lemma state_key_inj a b : _state_key a = _state_key b -> a = b.
Proof. unfold _state_key. intros H%sha256_inj. apply (inj (String.append _)) in H. by apply (inj (String.append _)) in H. Qed.

Definition id_dim (identifier : string) : string := "id:" +:+ _digest identifier.

Lemma failures_ext t d d' dim n :
  (forall s, has_state d' dim s <-> has_state d dim s) -> failures t d' dim n -> failures t d dim n.
Proof.
  intros He [(s & Hs & Hn)|[Hno Hn]]; [left; exists s; by rewrite <- He|right].
  split; [|done]. intros s. rewrite <- He. apply Hno.
Qed.

Lemma counted_ext d d' dim t n :
  (forall s, has_state d' dim s <-> has_state d dim s) ->
  (exists s, has_state d dim s /\ counted t n s) -> exists s, has_state d' dim s /\ counted t n s.
Proof. intros He (s & Hs & Hc). exists s. by rewrite He. Qed.

(** What one failure over the three dimensions leaves behind. *)
Record failure_recorded (identifier : string) (ip : option string) (st : LockoutState)
    (w w' : World) : Prop := {
  fr_ready : throttle_ready w';
  fr_frame : db w' = (db w) <| throttle_states := throttle_states (db w') |>;
  fr_session : http_session w' = http_session w;
  fr_draws : (draws w <= draws w')%nat;
  fr_counts : exists locks : list Z,
    Forall2 (fun dim lock => exists n, failures (clock w.(ticks)) (db w) dim n /\ lock = _lock_seconds (n + 1) /\
               exists s, has_state (db w') dim s /\ counted (clock w.(ticks)) (n + 1) s)
      (_dimensions identifier ip) locks /\
    st = MkLockout (negb (foldr Z.max 0 locks =? 0)) (foldr Z.max 0 locks)
           (negb (default 0 (head locks) =? 0));
  fr_others : forall dim s, dim ∉ _dimensions identifier ip ->
    has_state (db w') dim s <-> has_state (db w) dim s;
}.

Context (lockout_positive : 0 < LOGIN_LOCKOUT_SECONDS) (backoff_positive : 0 < LOGIN_MAX_BACKOFF_SECONDS).

Lemma note_lock_max d lock acc :
  0 <= lock -> 0 <= acc.1 -> 0 <= acc.2 ->
  note_lock d lock acc = (Z.max acc.1 lock, if String.prefix "id:" d then Z.max acc.2 lock else acc.2).
Proof.
  intros Hl H1 H2. unfold note_lock. destruct (Z.eqb_spec lock 0) as [->|]; [|done].
  destruct acc as [a b]. cbn in *. rewrite !Z.max_l by lia. by destruct (String.prefix _ _).
Qed.

(** The three locks of a failure as one answer; only the identifier's locks the
    account. *)
Lemma noted_locks d1 d2 d3 l1 l2 l3 :
  String.prefix "id:" d1 = true -> String.prefix "id:" d2 = false -> String.prefix "id:" d3 = false ->
  0 <= l1 -> 0 <= l2 -> 0 <= l3 ->
  lockout_of (note_lock d3 l3 (note_lock d2 l2 (note_lock d1 l1 (0, 0)))) =
    MkLockout (negb (foldr Z.max 0 [l1; l2; l3] =? 0)) (foldr Z.max 0 [l1; l2; l3])
      (negb (default 0 (head [l1; l2; l3]) =? 0)).
Proof.
  intros P1 P2 P3 H1 H2 H3.
  rewrite (note_lock_max d1), P1 by (cbn; lia). cbn [fst snd].
  rewrite (note_lock_max d2), P2 by (cbn; lia). cbn [fst snd].
  rewrite (note_lock_max d3), P3 by (cbn; lia). cbn [fst snd].
  unfold lockout_of. cbn [fst snd foldr head default].
  replace (Z.max (Z.max (Z.max 0 l1) l2) l3) with (Z.max l1 (Z.max l2 (Z.max l3 0))) by lia.
  by replace (Z.max 0 l1) with l1 by lia.
Qed.

Lemma register_database_failure_spec identifier ip w :
  throttle_ready w ->
  wp (_register_database_failure (_dimensions identifier ip))
    (fun st w' => failure_recorded identifier ip st w w') (fun _ _ => False) w.
Proof.
  intros Hr. unfold _register_database_failure. do 2 wp_step. set (t := clock (ticks w)).
  set (w0 := w <| ticks ::= S |>). assert (Hr0 : throttle_ready w0) by exact Hr.
  wp_step. cbn [_dimensions fold_m].
  set (d1 := "id:" +:+ _). set (d2 := "ip:" +:+ _). set (d3 := "combo:" +:+ _).
  assert (Hne : _state_key d1 <> _state_key d2 /\ _state_key d1 <> _state_key d3 /\ _state_key d2 <> _state_key d3)
    by (repeat split; intros H%state_key_inj; discriminate).
  destruct Hne as (H12 & H13 & H23).
  do 2 wp_step. eapply wp_mono; [by apply database_failure_spec| |done]. intros l1 w1 F1. wp_step.
  do 2 wp_step. eapply wp_mono; [apply database_failure_spec, F1| |done]. intros l2 w2 F2. wp_step.
  do 2 wp_step. eapply wp_mono; [apply database_failure_spec, F2| |done]. intros l3 w3 F3. wp_step.
  do 2 wp_step.
  destruct (fc_state _ _ _ _ _ F1) as (n1 & s1 & Hn1 & Hs1 & Hc1 & Hl1).
  destruct (fc_state _ _ _ _ _ F2) as (n2 & s2 & Hn2 & Hs2 & Hc2 & Hl2).
  destruct (fc_state _ _ _ _ _ F3) as (n3 & s3 & Hn3 & Hs3 & Hc3 & Hl3).
  pose proof (fc_others _ _ _ _ _ F1) as O1. pose proof (fc_others _ _ _ _ _ F2) as O2.
  pose proof (fc_others _ _ _ _ _ F3) as O3.
  pose proof (lock_seconds_nonneg lockout_positive backoff_positive) as Hnn.
  split.
  - apply F3.
  - rewrite (fc_frame _ _ _ _ _ F3), (fc_frame _ _ _ _ _ F2), (fc_frame _ _ _ _ _ F1). reflexivity.
  - rewrite (fc_session _ _ _ _ _ F3), (fc_session _ _ _ _ _ F2), (fc_session _ _ _ _ _ F1). reflexivity.
  - pose proof (fc_draws _ _ _ _ _ F1). pose proof (fc_draws _ _ _ _ _ F2).
    pose proof (fc_draws _ _ _ _ _ F3). cbn in *. lia.
  - exists [l1; l2; l3]. split.
    + constructor; [|constructor; [|constructor; [|constructor]]].
      * exists n1. split; [exact Hn1|]. split; [exact Hl1|].
        apply (counted_ext (db w1)); [|by exists s1]. intros s. by rewrite O3, O2 by done.
      * exists n2. split; [|split; [exact Hl2|]].
        -- apply (failures_ext t (db w0) (db w1)); [|exact Hn2]. intros s. apply O1. done.
        -- apply (counted_ext (db w2)); [|by exists s2]. intros s. by apply O3.
      * exists n3. split; [|split; [exact Hl3|by exists s3]].
        apply (failures_ext t (db w0) (db w2)); [|exact Hn3]. intros s. by rewrite O2, O1 by done.
    + apply (noted_locks d1 d2 d3); try done; [apply Str.prefix_app|rewrite Hl1|rewrite Hl2|rewrite Hl3]; apply Hnn.
  - intros dim s Hdim.
    assert (Hd : forall d, d ∈ _dimensions identifier ip -> _state_key dim <> _state_key d).
    { intros d Hd H%state_key_inj. congruence. }
    etrans; [apply O3|etrans; [apply O2|apply O1]]; apply Hd; cbn [_dimensions]; set_solver.
Qed.


(** A failed login (database counters) always completes and adds one to the
    failure count of the identifier, of the address and of their combination,
    restarting a counter whose window is over; each counter carries the lock the
    schedule gives for its new count. The result is the longest of the three
    locks, and says separately whether the identifier itself is locked; no other
    counter and nothing else in the database changes. *)
Theorem register_failure_counts identifier ip w :
  REDIS_ENABLED = false -> throttle_ready w ->
  exists st w', register_failure identifier ip w = (inr st, w') /\ failure_recorded identifier ip st w w'.
Proof.
  intros Hredis Hr. unfold register_failure. rewrite Hredis.
  apply (wp_returns _ _ _ (register_database_failure_spec identifier ip w Hr)).
Qed.

(** ** Checking *)

Definition locks_at (t : Z) (d : DB) (dims : list string) (lim : Z) : Prop :=
  exists dim s, dim ∈ dims /\ has_state d dim s /\
    LoginThrottleState.locked_until s = Some lim /\ t < lim.

Lemma locked_row_spec t d dims k s :
  throttle_states d !! k = Some s ->
  locked_row t (map _state_key dims) k s = true <->
  exists lim dim, LoginThrottleState.locked_until s = Some lim /\ t < lim /\
    dim ∈ dims /\ LoginThrottleState.dimension_hash s = _state_key dim.
Proof.
  intros Hk. unfold locked_row. rewrite andb_true_iff, bool_decide_eq_true.
  rewrite list_elem_of_In, in_map_iff.
  destruct (LoginThrottleState.locked_until s) as [u|].
  - rewrite Z.ltb_lt. split.
    + intros [(dim & Hd & Hin) Hu]. exists u, dim. by rewrite list_elem_of_In.
    + intros (u' & dim & [= <-] & Hu & Hin & Hd). rewrite list_elem_of_In in Hin. eauto.
  - split; [by intros [_ ?]|]. by intros (? & ? & [=] & _).
Qed.

Lemma foldr_max_ge {A} (f : A -> Z) l x : x ∈ l -> f x <= foldr (fun y acc => Z.max (f y) acc) 0 l.
Proof. induction l as [|y l IH]; [by intros ?%not_elem_of_nil|]. cbn. intros [->|Hx]%elem_of_cons; [lia|]. specialize (IH Hx). lia. Qed.

Lemma foldr_max_zero {A} (f : A -> Z) l :
  (forall x, 0 < f x) -> foldr (fun y acc => Z.max (f y) acc) 0 l = 0 <-> l = [].
Proof. intros Hf. destruct l as [|y l]; [done|]. cbn. specialize (Hf y). split; [lia|done]. Qed.

Lemma check_database_spec dims w :
  exists st w', _check_database dims w = (inr st, w') /\ db w' = db w /\
    http_session w' = http_session w /\ draws w' = draws w /\ account_locked st = false /\
    (locked st = true <-> exists lim, locks_at (clock w.(ticks)) (db w) dims lim) /\
    (forall lim, locks_at (clock w.(ticks)) (db w) dims lim ->
       remaining (clock w.(ticks)) lim <= retry_after st).
Proof.
  unfold _check_database, bind, now, filter_rows, read, ret. cbn -[remaining seconds].
  eexists _, _. split; [reflexivity|]. do 4 (split; [done|]). cbn [locked retry_after].
  set (t := clock (ticks w)).
  set (P := locked_row t (map _state_key dims)).
  set (f := fun s : uuid * LoginThrottleState.t => remaining t (default 0 (LoginThrottleState.locked_until s.2))).
  assert (Hrow : forall lim, locks_at t (db w) dims lim ->
    exists x, x ∈ Table.select P (throttle_states (db w)) /\ f x = remaining t lim).
  { intros lim (dim & s & Hin & (k & Hk & Hh) & Hl & Hu). exists (k, s). split.
    - apply Table.elem_of_select. split; [done|]. apply (locked_row_spec t (db w) dims k s Hk).
      by exists lim, dim.
    - unfold f. cbn. by rewrite Hl. }
  split.
  - rewrite negb_true_iff, Z.eqb_neq.
    change (foldr _ 0 _) with (foldr (fun y acc => Z.max (f y) acc) 0 (Table.select P (throttle_states (db w)))).
    rewrite (foldr_max_zero f) by (intros; unfold f, remaining; lia). split.
    + intros Hne. destruct (Table.select P _) as [|[k s] l] eqn:Es; [done|].
      assert (Hin : (k, s) ∈ Table.select P (throttle_states (db w))) by (rewrite Es; by left).
      apply Table.elem_of_select in Hin as [Hk HP].
      apply (locked_row_spec t (db w) dims k s Hk) in HP as (u & dim & Hl & Hu & Hd & Hh).
      exists u, dim, s. split; [done|]. split; [by exists k|done].
    + intros [lim Hl]. destruct (Hrow lim Hl) as (x & Hx & _). intros Hn. rewrite Hn in Hx. set_solver.
  - intros lim Hl. destruct (Hrow lim Hl) as (x & Hx & <-). by apply (foldr_max_ge f).
Qed.


(** Resetting (after a successful login) removes exactly the counters of the
    three dimensions: the next check answers not locked, and the counters of
    other identifiers and addresses stay as they were. *)
Theorem reset_unlocks identifier ip w :
  REDIS_ENABLED = false ->
  exists w1 st w2,
    reset identifier ip w = (inr tt, w1) /\
    check identifier ip w1 = (inr st, w2) /\ locked st = false /\
    (forall dim s, dim ∉ _dimensions identifier ip -> has_state (db w1) dim s <-> has_state (db w) dim s) /\
    db w1 = (db w) <| throttle_states := throttle_states (db w1) |>.
Proof.
  intros Hredis.
  set (P := fun (_ : uuid) s =>
    bool_decide (LoginThrottleState.dimension_hash s ∈ map _state_key (_dimensions identifier ip))).
  assert (Hrun : reset identifier ip w =
    (inr tt, w <| db ::= with_objects (Table.remove P) |>)) by (unfold reset; by rewrite Hredis).
  set (w1 := w <| db ::= with_objects (Table.remove P) |>) in Hrun.
  destruct (check_database_spec (_dimensions identifier ip) w1) as (st & w2 & Hc & _ & _ & _ & _ & Hiff & _).
  exists w1, st, w2. unfold check. rewrite Hredis. split; [exact Hrun|]. split; [exact Hc|]. split; [|split; [|done]].
  - apply not_true_iff_false. rewrite Hiff. intros (u & dim & s & Hin & (k & Hk & Hh) & _).
    apply (Table.lookup_remove_Some P) in Hk as [_ HP]. unfold P in HP. rewrite Hh in HP.
    apply bool_decide_eq_false in HP. apply HP. apply list_elem_of_In, in_map. by apply list_elem_of_In.
  - intros dim s Hdim. unfold has_state. split; intros (k & Hk & Hh); exists k; (split; [|done]).
    + by apply (Table.lookup_remove_Some P) in Hk as [? _].
    + apply (Table.lookup_remove_Some P). split; [done|]. unfold P. apply bool_decide_eq_false.
      rewrite Hh, list_elem_of_In, in_map_iff. intros (dim' & H%state_key_inj & Hd%list_elem_of_In). congruence.
Qed.

End counting.

(** ** Witnesses *)

(** Alice's name has failed four times; the window is still open. *)
Definition four_failures : World := sample_world
  <| db ::= fun d => d <| throttle_states := {[ 41%N :=
       LoginThrottleState.mk (_state_key (E := demo_env) (id_dim (E := demo_env) "alice")) 4 None
         (1000000000 + hours 1) 0 ]} |> |>.

Lemma four_failures_ready : throttle_ready (E := demo_env) four_failures.
Proof. split; [sample_check|exact (unique_table_singleton _ _)]. Qed.

Lemma lock_seconds_schedule_witness :
  _lock_seconds (E := demo_env) (7 + 1) = Z.min (2 * _lock_seconds (E := demo_env) 7) 3600 /\
  _lock_seconds (E := demo_env) 7 = 1200.
Proof.
  destruct (lock_seconds_schedule (E := demo_env) eq_refl eq_refl 7) as (_ & _ & _ & H & _).
  split; [|reflexivity]. apply H. vm_compute. split; congruence.
Defined.

Lemma register_failure_counts_witness :
  exists st w', register_failure (E := demo_env) "alice" (Some "192.0.2.1") four_failures = (inr st, w') /\
    st = MkLockout true 300 true.
Proof.
  destruct (register_failure_counts (E := demo_env) eq_refl eq_refl "alice" (Some "192.0.2.1") four_failures
    eq_refl four_failures_ready) as (st & w' & Hrun & _).
  exists st, w'. split; [exact Hrun|].
  assert (H : (register_failure (E := demo_env) "alice" (Some "192.0.2.1") four_failures).1
    = inr (MkLockout true 300 true)) by (vm_compute; reflexivity).
  rewrite Hrun in H. by injection H.
Defined.


Lemma reset_unlocks_witness :
  exists w1, reset (E := demo_env) "alice" None four_failures = (inr tt, w1) /\
    db w1 = (db four_failures) <| throttle_states := throttle_states (db w1) |>.
Proof.
  destruct (reset_unlocks (E := demo_env) eq_refl eq_refl "alice" None four_failures eq_refl)
    as (w1 & st & w2 & H & _ & _ & _ & Hdb).
  exists w1. split; [exact H|exact Hdb].
Defined.
