(* ===== verification/Guesses.v ===== *)
(** * Guessing a password over many connections

    A sign-in checks the throttle, compares the password and counts a failure
    ([LoginProtectionService] with its counters in the database).  Here any
    number of sign-ins with one identifier and wrong passwords, from any
    addresses, go through these parts in any order: no failure is lost, and the
    number of passwords tried before the lock is bounded by the limit and by how
    many requests the server handles at once. *)

From stdpp Require Import relations.
From S2P Require Import Prelude Env Demo Models Orm Logic Common Samples LoginProtection.

(** ** Counting in a pool *)

Definition census {A} (P : A -> bool) (cs : gmap nat A) : nat := size (filter (fun x => P x.2 = true) cs).

Lemma census_fresh {A} (P : A -> bool) cs i c :
  cs !! i = None -> census P (<[i := c]> cs) = (census P cs + Nat.b2n (P c))%nat.
Proof.
  intros Hi. unfold census. destruct (P c) eqn:Hc.
  - rewrite map_filter_insert_True by done. rewrite map_size_insert_None; [cbn; lia|].
    apply map_lookup_filter_None. by left.
  - rewrite map_filter_insert_not' by (cbn; congruence). cbn. lia.
Qed.

Lemma census_fresh_false {A} (P : A -> bool) cs i c :
  cs !! i = None -> P c = false -> census P (<[i := c]> cs) = census P cs.
Proof. intros Hi Hc. rewrite census_fresh, Hc by done. cbn. lia. Qed.

Lemma census_insert {A} (P : A -> bool) cs i c c' :
  cs !! i = Some c -> (census P (<[i := c']> cs) + Nat.b2n (P c) = census P cs + Nat.b2n (P c'))%nat.
Proof.
  intros Hi. rewrite <- (insert_delete_id cs i c Hi) at 2. rewrite <- (insert_delete_eq cs i c').
  rewrite !census_fresh by apply lookup_delete_eq. lia.
Qed.

(** ** Attempts, transaction by transaction *)

Section guesses.
Context `{E : Env, !EntropyLaws E, !CryptoLaws E, !ClockLaws E}.
Context (identifier : string).

(** Before the check; past it, with the password being compared; with the moment
    of the failure and the dimensions still to count; turned away. *)
Inductive attempt :=
| Arriving (ip : option string)
| Trying (ip : option string)
| Noting (t : Z) (dims : list string)
| Refused.

Definition advance (c : attempt) (w : World) : attempt * World :=
  match c with
  | Arriving ip =>
      match check identifier ip w with
      | (inr st, w') => (if locked st then Refused else Trying ip, w')
      | (inl _, w') => (Refused, w')
      end
  | Trying ip =>
      match now w with
      | (inr t, w') => (Noting t (_dimensions identifier ip), w')
      | (inl _, w') => (Refused, w')
      end
  | Noting t (d :: ds) =>
      match database_failure t d w with
      | (inr _, w') => (Noting t ds, w')
      | (inl _, w') => (Refused, w')
      end
  | Noting _ [] | Refused => (c, w)
  end.

(** After the check, an attempt alone is [register_failure]. *)
Lemma attempt_alone ip w :
  REDIS_ENABLED = false ->
  (Nat.iter 4 (fun p => advance p.1 p.2) (Trying ip, w)).2 = (register_failure identifier ip w).2.
Proof.
  intros Hredis. unfold register_failure. rewrite Hredis. cbn -[database_failure _dimensions].
  unfold _register_database_failure, now. cbn -[database_failure]. unfold bind, ret. cbn -[database_failure].
  destruct (database_failure _ _ _) as [[e|l1] w1]; cbn -[database_failure]; [done|].
  destruct (database_failure _ _ w1) as [[e|l2] w2]; cbn -[database_failure]; [done|].
  by destruct (database_failure _ _ w2) as [[e|l3] w3].
Qed.

(** The counter at hand is that of the identifier. *)
Let dim : string := id_dim identifier.

Definition tried (c : attempt) : bool := match c with Trying _ | Noting _ _ => true | _ => false end.
Definition noted (c : attempt) : bool := match c with Noting _ ds => negb (bool_decide (dim ∈ ds)) | _ => false end.
Definition open (c : attempt) : bool := tried c && negb (noted c).

Definition Pool : Type := (gmap nat attempt * World)%type.

Context (concurrency : nat).

(** An attempt goes on, and no more than [concurrency] of them are between the
    check and the count; one arrives; or something else happens: time passes, and
    the rest of the system does what it likes but with the counter. *)
Inductive pool_step : Pool -> Pool -> Prop :=
| acts i c cs w :
    cs !! i = Some c -> (census open (<[i := (advance c w).1]> cs) <= concurrency)%nat ->
    pool_step (cs, w) (<[i := (advance c w).1]> cs, (advance c w).2)
| arrives i ip cs w : cs !! i = None -> pool_step (cs, w) (<[i := Arriving ip]> cs, w)
| elsewhere cs w w' :
    (ticks w <= ticks w')%nat -> (throttle_ready w -> throttle_ready w') ->
    (forall s, has_state (db w') dim s <-> has_state (db w) dim s) -> pool_step (cs, w) (cs, w').

(** ** The invariant, while the first lock cannot be over *)

Hypothesis database : REDIS_ENABLED = false.
Hypothesis attempts_positive : 1 <= LOGIN_MAX_ATTEMPTS.
Hypothesis lockout_positive : 0 < LOGIN_LOCKOUT_SECONDS.
Hypothesis backoff_positive : 0 < LOGIN_MAX_BACKOFF_SECONDS.

Context (start : Z).
Definition window : Z := seconds (_lock_seconds LOGIN_MAX_ATTEMPTS).

(** The counter after [n] failures since [start]. *)
Definition tally (d : DB) (n : Z) : Prop :=
  (n = 0 /\ forall s, ~ has_state d dim s) \/
  (0 < n /\ exists s t, has_state d dim s /\ counted t n s /\ start <= t).

Definition noting_ok (w : World) (c : attempt) : Prop :=
  match c with Noting t ds => start <= t <= clock (ticks w) /\ NoDup ds | _ => True end.

Record tallied (p : Pool) : Prop := {
  o_ready : throttle_ready p.2;
  o_start : start <= clock (ticks p.2);
  o_noting : forall i c, p.1 !! i = Some c -> noting_ok p.2 c;
  o_tally : tally (db p.2) (Z.of_nat (census noted p.1));
  o_bound : Z.of_nat (census tried p.1) <= LOGIN_MAX_ATTEMPTS - 1 + Z.of_nat concurrency;
}.

Lemma tried_split cs : census tried cs = (census noted cs + census open cs)%nat.
Proof.
  induction cs as [|i c cs Hi IH] using map_ind; [done|]. rewrite !census_fresh, IH by done.
  unfold open. by destruct c as [ip|ip|t ds|]; cbn; try destruct (bool_decide _); cbn; lia.
Qed.

Lemma tally_ext d d' n :
  (forall s, has_state d' dim s <-> has_state d dim s) -> tally d n -> tally d' n.
Proof.
  intros He [[Hn Hno]|(Hn & s & t & Hs & Hrest)]; [left|right].
  - split; [done|]. intros s. rewrite He. apply Hno.
  - split; [done|]. exists s, t. by rewrite He.
Qed.

Lemma noting_ok_later w w' c : (ticks w <= ticks w')%nat -> noting_ok w c -> noting_ok w' c.
Proof.
  intros Ht. destruct c as [ip|ip|t ds|]; try done. intros [[H1 H2] H3]. split; [|done].
  pose proof (clock_mono (ticks w) (ticks w') Ht). lia.
Qed.

(** ** The lock *)

Lemma lock_from n : LOGIN_MAX_ATTEMPTS <= n ->
  0 < _lock_seconds LOGIN_MAX_ATTEMPTS <= _lock_seconds n /\ _lock_seconds n <= LOGIN_MAX_BACKOFF_SECONDS.
Proof.
  intros Hn. unfold _lock_seconds. destruct (Z.ltb_spec LOGIN_MAX_ATTEMPTS LOGIN_MAX_ATTEMPTS), (Z.ltb_spec n LOGIN_MAX_ATTEMPTS);
    try lia. replace (Z.min (LOGIN_MAX_ATTEMPTS - LOGIN_MAX_ATTEMPTS) 6) with 0 by lia. rewrite Z.pow_0_r.
  pose proof (Z.pow_le_mono_r 2 0 (Z.min (n - LOGIN_MAX_ATTEMPTS) 6)). nia.
Qed.

Lemma window_positive : 0 < window <= seconds LOGIN_MAX_BACKOFF_SECONDS.
Proof. unfold window, seconds. pose proof (lock_from LOGIN_MAX_ATTEMPTS). lia. Qed.

(** When the limit is reached a check is turned away. *)
Lemma tally_locks d n t ip : tally d n -> LOGIN_MAX_ATTEMPTS <= n -> t < start + window ->
  exists lim, locks_at t d (_dimensions identifier ip) lim.
Proof.
  intros [[-> _]|(_ & s & t0 & Hs & (_ & _ & Hl) & Ht0)] Hn Ht; [lia|].
  destruct (lock_from n Hn) as [Hlock _]. destruct (Z.eqb_spec (_lock_seconds n) 0); [lia|].
  exists (t0 + seconds (_lock_seconds n)), dim, s. split; [by left|]. split; [done|]. split; [done|].
  unfold window, seconds in *. lia.
Qed.

Lemma check_runs ip w : advances (check identifier ip) /\
  exists st w', check identifier ip w = (inr st, w') /\ db w' = db w /\ draws w' = draws w /\
    (locked st = true <-> exists lim, locks_at (clock (ticks w)) (db w) (_dimensions identifier ip) lim).
Proof.
  split; [unfold check, _check_cache, _check_database, cache_ttl, cache_get; advances|]. unfold check. rewrite database.
  destruct (check_database_spec lockout_positive backoff_positive (_dimensions identifier ip) w) as (st & w' & H1 & H2 & _ & H3 & _ & H4 & _).
  by exists st, w'.
Qed.

(** One more failure. *)
Lemma tally_counts t w lock w' n :
  failure_counted t dim lock w w' -> throttle_ready w -> tally (db w) n -> start <= t < start + window ->
  0 <= n -> tally (db w') (n + 1).
Proof.
  intros Hc [_ Hu] Hn Ht Hpos. destruct (fc_state _ _ _ _ _ Hc) as (m & s & Hm & Hs & Hcs & _).
  enough (m = n) as <- by (right; split; [lia|]; exists s, t; split; [done|]; split; [done|lia]).
  destruct Hn as [[-> Hno]|(Hn & s1 & t1 & Hs1 & (Ha & He & _) & Ht1)], Hm as [(s2 & Hs2 & ->)|[Hno2 ->]]; try done.
  - by destruct (Hno s2).
  - rewrite (has_state_unique _ _ _ _ Hu Hs2 Hs1), He. pose proof window_positive.
    destruct (Z.leb_spec (t1 + seconds LOGIN_MAX_BACKOFF_SECONDS) t); [lia|done].
  - by destruct (Hno2 s1).
Qed.

Lemma dimensions_NoDup ip : NoDup (_dimensions identifier ip).
Proof.
  unfold _dimensions. repeat (apply NoDup_cons; split); [| | |by apply NoDup_nil];
    rewrite ?not_elem_of_cons; repeat split; try done; apply not_elem_of_nil.
Qed.

(** ** The invariant is kept *)

Lemma tallied_insert i c c' cs w w' :
  tallied (cs, w) -> cs !! i = Some c -> throttle_ready w' -> (ticks w <= ticks w')%nat -> noting_ok w' c' ->
  tally (db w') (Z.of_nat (census noted (<[i := c']> cs))) ->
  Z.of_nat (census tried (<[i := c']> cs)) <= LOGIN_MAX_ATTEMPTS - 1 + Z.of_nat concurrency ->
  tallied (<[i := c']> cs, w').
Proof.
  intros [Hr Hs Hn Ht Hb] Hi Hr' Hle Hc' Ht' Hb'. cbn [fst snd] in *. split; cbn [fst snd]; [done| | |done|done].
  - pose proof (clock_mono (ticks w) (ticks w') Hle). lia.
  - intros j x [[<- <-]|[_ Hj]]%lookup_insert_Some; [done|]. by apply (noting_ok_later w), (Hn j).
Qed.

Lemma same_census (P : attempt -> bool) i c c' cs : cs !! i = Some c -> P c' = P c -> census P (<[i := c']> cs) = census P cs.
Proof. intros Hi HP. pose proof (census_insert P cs i c c' Hi) as H. rewrite HP in H. lia. Qed.

(** A part that counts nothing of the identifier. *)
Lemma tallied_aside i c c' cs w w' :
  tallied (cs, w) -> cs !! i = Some c -> throttle_ready w' -> (ticks w <= ticks w')%nat -> noting_ok w' c' ->
  (forall s, has_state (db w') dim s <-> has_state (db w) dim s) -> noted c' = noted c -> tried c' = tried c ->
  tallied (<[i := c']> cs, w').
Proof.
  intros Ho Hi Hr Hle Hc' He Hn Ht. apply (tallied_insert i c c' cs w w'); try done.
  - rewrite (same_census noted i c) by done. by apply (tally_ext (db w)), Ho.
  - rewrite (same_census tried i c) by done. apply Ho.
Qed.

Lemma throttle_ready_same w w' : db w' = db w -> (draws w <= draws w')%nat -> throttle_ready w -> throttle_ready w'.
Proof. intros Hd Hdr [Hf Hu]. split; [|by rewrite Hd]. intros n Hn. rewrite Hd. apply Hf. lia. Qed.

Lemma arriving_tallied i ip cs w :
  tallied (cs, w) -> cs !! i = Some (Arriving ip) -> clock (ticks w) < start + window ->
  (census open (<[i := (advance (Arriving ip) w).1]> cs) <= concurrency)%nat ->
  tallied (<[i := (advance (Arriving ip) w).1]> cs, (advance (Arriving ip) w).2).
Proof.
  intros Ho Hi Ht. destruct (check_runs ip w) as (Hadv & st & w' & Hrun & Hdb & Hdr & Hl). specialize (Hadv w).
  cbn [advance]. rewrite Hrun in *. cbn [fst snd] in *. intros Hopen.
  assert (Hr : throttle_ready w') by (apply (throttle_ready_same w); [done|lia|apply Ho]).
  destruct (locked st) eqn:Hlocked.
  - apply (tallied_aside i (Arriving ip) _ cs w); try done; [lia|]. intros s. by rewrite Hdb.
  - assert (Hn : census noted (<[i := Trying ip]> cs) = census noted cs) by by apply (same_census noted i (Arriving ip)).
    apply (tallied_insert i (Arriving ip) _ cs w); try done; [lia| |].
    + rewrite Hn, Hdb. apply Ho.
    + rewrite tried_split, Hn. enough (~ LOGIN_MAX_ATTEMPTS <= Z.of_nat (census noted cs)) by lia.
      intros Hmany. enough (false = true) by done. apply Hl. by apply (tally_locks _ _ _ _ (o_tally _ Ho)).
Qed.

Lemma noting_tallied i t d ds cs w :
  tallied (cs, w) -> cs !! i = Some (Noting t (d :: ds)) -> clock (ticks w) < start + window ->
  tallied (<[i := (advance (Noting t (d :: ds)) w).1]> cs, (advance (Noting t (d :: ds)) w).2).
Proof.
  intros Ho Hi Ht. pose proof (o_noting _ Ho i _ Hi) as [Htime [Hd Hnd]%NoDup_cons]. cbn [snd] in Htime.
  pose proof (database_failure_spec t d w (o_ready _ Ho)) as Hwp. unfold wp in Hwp. cbn [advance].
  destruct (database_failure t d w) as [[e|lock] w']; [done|]. cbn [fst snd].
  pose proof (fc_ticks _ _ _ _ _ Hwp) as Hle. pose proof (fc_ready _ _ _ _ _ Hwp) as Hr.
  assert (Hc' : noting_ok w' (Noting t ds)).
  { split; [|done]. pose proof (clock_mono (ticks w) (ticks w') Hle). lia. }
  destruct (decide (d = dim)) as [->|Hne].
  - pose proof (census_insert noted cs i _ (Noting t ds) Hi) as Hcount. cbn [noted] in Hcount.
    rewrite bool_decide_eq_true_2, (bool_decide_eq_false_2 _ Hd) in Hcount by by left. cbn in Hcount.
    apply (tallied_insert i (Noting t (dim :: ds)) _ cs w); try done.
    + replace (census noted (<[i := Noting t ds]> cs)) with (S (census noted cs)) by lia.
      rewrite Nat2Z.inj_succ. apply (tally_counts t w lock w' _ Hwp); [apply Ho|apply Ho|lia|lia].
    + rewrite (same_census tried i (Noting t (dim :: ds))) by done. apply Ho.
  - apply (tallied_aside i (Noting t (d :: ds)) _ cs w); try done.
    + intros s. apply (fc_others _ _ _ _ _ Hwp). by intros ?%state_key_inj.
    + cbn [noted]. f_equal. apply bool_decide_ext. rewrite elem_of_cons. split; [by right|].
      by intros [Heq|?]; [destruct Hne|].
Qed.

Lemma acts_tallied i c cs w :
  tallied (cs, w) -> cs !! i = Some c -> clock (ticks w) < start + window ->
  (census open (<[i := (advance c w).1]> cs) <= concurrency)%nat ->
  tallied (<[i := (advance c w).1]> cs, (advance c w).2).
Proof.
  intros Ho Hi Ht Hopen. destruct c as [ip|ip|t [|d ds]|].
  - by apply arriving_tallied.
  - cbn [advance now fst snd]. apply (tallied_aside i (Trying ip) _ cs w); try done.
    + exact (o_ready _ Ho).
    + cbn. lia.
    + split; [|apply dimensions_NoDup]. pose proof (o_start _ Ho). pose proof (clock_mono (ticks w) (S (ticks w))). cbn in *. lia.
    + cbn [noted]. rewrite bool_decide_eq_true_2; [done|by left].
  - cbn [advance fst snd]. by rewrite insert_id.
  - by apply noting_tallied.
  - cbn [advance fst snd]. by rewrite insert_id.
Qed.

Lemma pool_step_ticks p p' : pool_step p p' -> (ticks p.2 <= ticks p'.2)%nat.
Proof.
  intros [i c cs w Hi _|i ip cs w Hi|cs w w' Hle _ _]; cbn [fst snd]; [|lia|done].
  destruct c as [ip|ip|t [|d ds]|]; cbn [advance snd]; try done.
  - pose proof (proj1 (check_runs ip w) w) as [Hle _]. by destruct (check identifier ip w) as [[e|st] w'].
  - cbn. lia.
  - assert (Hadv : advances (database_failure t d)) by (unfold database_failure; advances).
    destruct (Hadv w) as [Hle _]. by destruct (database_failure t d w) as [[e|lock] w'].
Qed.

Lemma pool_step_tallied p p' :
  tallied p -> pool_step p p' -> clock (ticks p.2) < start + window -> tallied p'.
Proof.
  intros Ho Hstep Ht. destruct Hstep as [i c cs w Hi Hopen|i ip cs w Hi|cs w w' Hle Hr He]; [by apply acts_tallied| |].
  - destruct Ho as [Hr Hs Hn Hty Hb]. cbn [fst snd] in *. split; cbn [fst snd]; [done|done| | |].
    + by intros j x [[<- <-]|[_ Hj]]%lookup_insert_Some; [|apply (Hn j)].
    + by rewrite census_fresh_false.
    + by rewrite census_fresh_false.
  - destruct Ho as [Hr0 Hs Hn Hty Hb]. cbn [fst snd] in *. split; cbn [fst snd]; [by apply Hr| | |by apply (tally_ext (db w))|done].
    + pose proof (clock_mono (ticks w) (ticks w') Hle). lia.
    + intros j c Hj. by apply (noting_ok_later w), (Hn j).
Qed.

Lemma starting_tallied cs w :
  throttle_ready w -> (forall s, ~ has_state (db w) dim s) -> start <= clock (ticks w) ->
  (forall i c, cs !! i = Some c -> exists ip, c = Arriving ip) -> tallied (cs, w).
Proof.
  intros Hr Hno Hs Hall.
  assert (Hnone : forall P, (forall ip, P (Arriving ip) = false) -> census P cs = 0%nat).
  { intros P HP. unfold census. apply map_size_empty_iff, map_empty_filter. intros i c Hi. cbn.
    apply Hall in Hi as [ip ->]. by rewrite HP. }
  split; cbn [fst snd]; [done|done| | |].
  - by intros i c [ip ->]%Hall.
  - left. by rewrite (Hnone noted).
  - rewrite (Hnone tried) by done. lia.
Qed.

End guesses.

Section bound.
Context `{E : Env, !EntropyLaws E, !CryptoLaws E, !ClockLaws E}.
Hypothesis database : REDIS_ENABLED = false.
Hypothesis attempts_positive : 1 <= LOGIN_MAX_ATTEMPTS.
Hypothesis lockout_positive : 0 < LOGIN_LOCKOUT_SECONDS.
Hypothesis backoff_positive : 0 < LOGIN_MAX_BACKOFF_SECONDS.

(** [C16] However sign-ins with one identifier and wrong passwords interleave, from
    whatever addresses, and while the first lock lasts: no failure is lost - the
    counter of the identifier is the number of failures counted - and the
    passwords tried are at most the limit less one and as many as the server
    handles at once; only as many requests as are between check and count at the
    same time get past the limit. *)
Theorem guesses_bounded identifier concurrency cs w p :
  throttle_ready w -> (forall s, ~ has_state (db w) (id_dim identifier) s) ->
  (forall i c, cs !! i = Some c -> exists ip, c = Arriving ip) ->
  rtc (pool_step identifier concurrency) (cs, w) p ->
  clock (ticks p.2) < clock (ticks w) + seconds (_lock_seconds LOGIN_MAX_ATTEMPTS) ->
  failures (clock (ticks p.2)) (db p.2) (id_dim identifier) (Z.of_nat (census (noted identifier) p.1)) /\
  Z.of_nat (census tried p.1) <= LOGIN_MAX_ATTEMPTS - 1 + Z.of_nat concurrency.
Proof.
  intros Hr Hno Hall Hsteps. set (start := clock (ticks w)).
  assert (Ho : clock (ticks p.2) < start + window -> tallied identifier concurrency start p).
  { refine (rtc_ind_r (fun p => clock (ticks p.2) < start + window -> tallied identifier concurrency start p)
      (cs, w) _ _ p Hsteps); [intros _; by apply starting_tallied|].
    intros p1 p2 _ Hs IH Ht.
    assert (Ht1 : clock (ticks p1.2) < start + window).
    { pose proof (clock_mono _ _ (pool_step_ticks identifier concurrency database lockout_positive backoff_positive p1 p2 Hs)). lia. }
    by apply (pool_step_tallied identifier concurrency database attempts_positive lockout_positive backoff_positive start p1 p2 (IH Ht1)). }
  intros Ht. destruct (Ho Ht) as [_ _ _ Hty Hb]. split; [|exact Hb].
  destruct Hty as [[-> Hn]|(Hn & s & t & Hs & (Hc & He & _) & Hst)]; [by right|]. left. exists s. split; [done|].
  rewrite He, Hc. destruct (Z.leb_spec (t + seconds LOGIN_MAX_BACKOFF_SECONDS) (clock (ticks p.2))); [|done].
  pose proof (window_positive attempts_positive lockout_positive backoff_positive). unfold window in *. lia.
Qed.

End bound.

(** ** Witness: eight guesses with a limit of five *)

Section schedules.
Context `{E : Env} (identifier : string) (concurrency : nat).

(** One turn each, as long as the server takes no more requests than it can. *)
Fixpoint run (turns : list nat) (p : Pool) : option Pool :=
  match turns with
  | [] => Some p
  | i :: turns' =>
      c ← p.1 !! i;
      let '(c', w') := advance identifier c p.2 in
      if Nat.leb (census (open identifier) (<[i := c']> p.1)) concurrency then run turns' (<[i := c']> p.1, w') else None
  end.

Lemma run_steps turns p p' : run turns p = Some p' -> rtc (pool_step identifier concurrency) p p'.
Proof.
  revert p. induction turns as [|i turns IH]; intros [cs w]; cbn [run fst snd]; [by intros [= ->]|].
  destruct (cs !! i) as [c|] eqn:Hi; [|done]. cbn [mbind option_bind].
  destruct (advance identifier c w) as [c' w'] eqn:Hrun. destruct (Nat.leb_spec (census (open identifier) (<[i := c']> cs)) concurrency) as [Hle|]; [|done].
  intros Hrest. eapply rtc_l; [|by apply IH]. replace c' with (advance identifier c w).1 in * by by rewrite Hrun.
  replace w' with (advance identifier c w).2 in * by by rewrite Hrun. by apply acts.
Qed.

End schedules.

Section witnesses.

#[local] Instance demo : Env := demo_env.

Definition nine_requests : gmap nat attempt :=
  list_to_map ((fun i => (i, Arriving (Some ("192.0.2." +:+ pretty.pretty (N.of_nat i))))) <$> seq 0 9).

(** Four requests one after the other; four that are checked before any of them
    is counted; one more. *)
Definition turns : list nat :=
  flat_map (fun i => [i; i; i; i; i]) [0; 1; 2; 3]%nat ++ [4; 5; 6; 7]%nat ++
  flat_map (fun i => [i; i; i; i]) [4; 5; 6; 7]%nat ++ [8]%nat.

Definition guessed : option Pool := run "alice" 4 turns (nine_requests, sample_world).

Definition summary (p : Pool) : nat * nat * bool * option attempt :=
  (census tried p.1, census (noted "alice") p.1,
   clock (ticks p.2) <? clock (ticks sample_world) + seconds (_lock_seconds LOGIN_MAX_ATTEMPTS), p.1 !! 8%nat).

Lemma guessed_summary : summary <$> guessed = Some (8%nat, 8%nat, true, Some Refused).
Proof. vm_compute. reflexivity. Qed.

Lemma nine_requests_arriving i c : nine_requests !! i = Some c -> exists ip, c = Arriving ip.
Proof.
  unfold nine_requests. intros H%elem_of_list_to_map_2. apply list_elem_of_fmap in H as (j & [= -> ->] & _). by eexists.
Qed.

(** The bound is reached: five less one, and four at once. *)
Lemma guesses_bounded_witness :
  exists p, guessed = Some p /\ failures (clock (ticks p.2)) (db p.2) (id_dim "alice") 8 /\
    Z.of_nat (census tried p.1) <= 8 /\ census tried p.1 = 8%nat /\ p.1 !! 8%nat = Some Refused.
Proof.
  pose proof guessed_summary as Hs. destruct guessed as [p|] eqn:Hp; [|done]. exists p. split; [reflexivity|].
  unfold guessed in Hp. apply run_steps in Hp. injection Hs as Htried Hnoted Htime Hlast.
  destruct (guesses_bounded (E := demo) eq_refl ltac:(done) ltac:(done) ltac:(done) "alice" 4 nine_requests sample_world p
    ltac:(split; [sample_check|exact unique_table_empty]) ltac:(by intros s (k & Hk & _))
    nine_requests_arriving Hp (proj1 (Z.ltb_lt _ _) Htime)) as [Hf Hb].
  rewrite Hnoted in Hf. by repeat split.
Defined.

End witnesses.
