(* ===== verification/Authentication.v ===== *)
(** * Signing in

    [EmailOrUsernameBackend], [AuthenticationService.login] with Django's
    [login()] on the request's session, the availability gate of the JWT
    authentication and refresh, and the token retention task. *)

From S2P Require Import Prelude Env Demo Models Orm Logic Common Samples Users Tokens Sessions TwoFactor LoginProtection.

Section authentication.
Context `{E : Env}.

(** ** [EmailOrUsernameBackend] *)

(** [EmailOrUsernameBackend.authenticate]; an unknown name costs one password
    hash as well. *)
Definition authenticate (username password : string) : M (option (uuid * User.t)) :=
  if Str.is_empty username || Str.is_empty password then ret None else
  let! found := try_except
    (let! x := get (fun _ u => User.matches_identifier (Str.strip username) u) in ret (Some x))
    (fun e => if bool_decide (e = DoesNotExist) || bool_decide (e = MultipleObjectsReturned)
              then hash_password (Some password) ;; ret None
              else raise e) in
  match found with
  | Some (uid, u) =>
      ret (if User.check_password u password && User.is_active u then Some (uid, u) else None)
  | None => ret None
  end.

(** [EmailOrUsernameBackend.get_user] *)
Definition get_user (uid : uuid) : M (option (uuid * User.t)) :=
  let! users := table (R := User.t) in
  ret (match users !! uid with
       | Some u => if User.is_active u then Some (uid, u) else None
       | None => None
       end).

(** ** [django.contrib.auth.login] *)

(** [session.cycle_key()]: the data moves to a new key and the old one is
    deleted. *)
Definition cycle_key : M unit :=
  let! k := draw new_session_key in
  modify (fun w =>
    let old := match session_key (http_session w) with Some o => {[ o ]} | None => ∅ end in
    w <| db ::= fun d => d <| django_sessions ::= fun s => {[ k ]} ∪ (s ∖ old) |> |>
      <| http_session ::= fun s => s <| session_key := Some k |> |>).

(** A session of another user is flushed, an anonymous one gets a new key;
    [user_logged_in] then writes [last_login]. *)
Definition django_login (uid : uuid) : M unit :=
  let! s := read http_session in
  match session_user s with
  | Some u => when (negb (N.eqb u uid)) session_flush
  | None => cycle_key
  end ;;
  modify (fun w => w <| http_session ::= fun s => s <| session_user := Some uid |> |>) ;;
  let! t := now in
  save_fields uid (fun u => u <| User.last_login := Some t |>).

Definition set_expiry (n : Z) : M unit :=
  modify (fun w => w <| http_session ::= fun s => s <| session_expiry := Some n |> |>).

(** ** [AuthenticationService.login] *)

Definition too_many_attempts (after : Z) : exn :=
  APIException "Too many attempts. Try again later." "ACCOUNT_LOCKED" 429 [("retry_after", after)].
Definition unavailable (code : string) : exn :=
  APIException "This account is unavailable." code 403 [].
Definition invalid_credentials (code : string) (status : Z) : exn :=
  APIException "Invalid credentials." code status [].
Definition two_factor_required : exn :=
  APIException "A two-factor code is required." "TWO_FACTOR_REQUIRED" 401 [].

(** The branch for wrong credentials. *)
Definition reject_login {A} (request : Request) (identifier : string) (ip : option string) : M A :=
  let! st := register_failure identifier ip in
  SecurityEventService.record SecurityEventType.LOGIN_FAILED None (Some request)
    [("identifier_hash", PStr (_digest identifier))] ;;
  when (account_locked st) (lock_known_account identifier (retry_after st) (Some request)) ;;
  raise (invalid_credentials (if locked st then "ACCOUNT_LOCKED" else "AUTHENTICATION_FAILED")
           (if locked st then 429 else 401)).

(** The account lock: refused while it runs, cleared once it is over. *)
Definition pass_account_lock (uid : uuid) (request : Request) : M unit :=
  let! '(k, s, _) := security_settings_of uid in
  let! is_locked := is_locked s in
  match UserSecuritySettings.locked_until s with
  | None => ret tt
  | Some until =>
      if (is_locked : bool)
      then let! t := now in raise (too_many_attempts (remaining t until))
      else
        save_security_settings k (fun s => s <| UserSecuritySettings.locked_until := None |>) ;;
        SecurityEventService.record SecurityEventType.ACCOUNT_UNLOCKED (Some uid) (Some request) [] ;;
        ret tt
  end.

(** The ban and status gate. *)
Definition login_ban (started checked : Z) (uid : uuid) (_ : uuid) (b : UserBan.t) : bool :=
  N.eqb (UserBan.user b) uid && is_none (UserBan.revoked_at b)
  && (UserBan.starts_at b <=? started)
  && match UserBan.expires_at b with None => true | Some e => checked <? e end.

Definition pass_status (uid : uuid) (u : User.t) : M unit :=
  let! banned :=
    if bool_decide (User.status u = AccountStatus.BANNED) then ret true
    else let! started := now in
         let! checked := now in
         exists_row (login_ban started checked uid) in
  if (banned : bool) then raise (unavailable "ACCOUNT_BANNED")
  else if bool_decide (User.status u = AccountStatus.ACTIVE) then ret tt
  else raise (unavailable "AUTHENTICATION_FAILED").

(** [settings.ENABLE_TWO_FACTOR and user.two_factor.is_enabled] *)
Definition two_factor_enabled (uid : uuid) : M bool :=
  if negb ENABLE_TWO_FACTOR then ret false else
  try_except
    (let! '(_, c) := get (fun _ c => N.eqb (TwoFactorCredential.user c) uid) in
     ret (TwoFactorCredential.is_enabled c))
    (fun e => if bool_decide (e = DoesNotExist) then ret false else raise e).

Definition pass_two_factor (uid : uuid) (identifier : string) (ip : option string)
    (code : string) : M unit :=
  let! enabled := two_factor_enabled uid in
  if negb enabled then ret tt else
  if Str.is_empty code then raise two_factor_required else
  let! '(valid, _) := verify uid code in
  if (valid : bool) then ret tt else
  register_failure identifier ip ;;
  raise (invalid_credentials "AUTHENTICATION_FAILED" 401).

Definition session_value (k : uuid) (s : UserSession.t) : pyval :=
  PSession (AuditService.repr (session_target k)) (UserSession.identifier s) (UserSession.browser s)
    (UserSession.operating_system s) (UserSession.device s) (UserSession.ip_address s)
    (UserSession.created_at s).

(** The notice about a device that was not seen before. *)
Definition announce_device (uid : uuid) (u : User.t) (session : uuid * UserSession.t)
    (request : Request) : M unit :=
  SecurityEventService.record SecurityEventType.NEW_DEVICE_LOGIN (Some uid) (Some request) [] ;;
  let! '(_, preferences, _) := preferences_of uid in
  let! '(_, s, _) := security_settings_of uid in
  when (UserPreferences.security_emails preferences && UserSecuritySettings.notify_new_device s)
    (on_commit (email "new_device_login" (User.email u) ("New sign-in to " +:+ SITE_NAME)
      [("user", user_value uid u); ("session", session_value session.1 session.2)])).

(** What follows the gates. *)
Definition open_session (request : Request) (uid : uuid) (u : User.t) (identifier : string)
    (ip : option string) (remember_me : bool) : M ((uuid * User.t) * (uuid * UserSession.t)) :=
  reset identifier ip ;;
  django_login uid ;;
  set_expiry (if remember_me then 60 * 60 * 24 * 30 else 0) ;;
  let! '(k, s, is_new_device) := register uid request in
  let! t := now in
  save_user uid (fun u => u <| User.last_login_ip := ip |> <| User.last_login := Some t |>) ;;
  SecurityEventService.record SecurityEventType.LOGIN_SUCCESS (Some uid) (Some request) [] ;;
  let u' := u <| User.last_login_ip := ip |> <| User.last_login := Some t |> in
  when is_new_device (announce_device uid u' (k, s) request) ;;
  ret ((uid, u'), (k, s)).

Definition login (request : Request) (identifier password code : string) (remember_me : bool)
    : M ((uuid * User.t) * (uuid * UserSession.t)) :=
  let ip := get_client_ip request in
  let! lock_state := check identifier ip in
  if locked lock_state then raise (too_many_attempts (retry_after lock_state)) else
  let! user := authenticate identifier password in
  match user with
  | None => reject_login request identifier ip
  | Some (uid, u) =>
      pass_account_lock uid request ;;
      pass_status uid u ;;
      pass_two_factor uid identifier ip code ;;
      open_session request uid u identifier ip remember_me
  end.

(** ** JWT ([apps/authentication/jwt.py]) *)

Definition account_unavailable : exn := AuthenticationFailed "User account is unavailable.".

(** [ensure_account_available] *)
Definition ensure_account_available (uid : uuid) (u : User.t) : M unit :=
  let! ok := can_authenticate_now uid u in
  if (ok : bool) then ret tt else raise account_unavailable.

(** [StatusAwareJWTAuthentication.get_user]; [base] is the inherited method on
    the validated token. *)
Definition jwt_get_user (base : M (uuid * User.t)) : M (uuid * User.t) :=
  let! '(uid, u) := base in
  ensure_account_available uid u ;;
  ret (uid, u).

(** [StatusAwareTokenRefreshSerializer.validate]; [base] is the inherited
    method: the new tokens and the user the access token names. *)
Definition refresh_validate {T} (base : M (T * uuid)) : M T :=
  let! '(data, uid) := base in
  let! u := try_except (get_pk (R := User.t) uid)
    (fun e => raise (if decide (e = DoesNotExist) then account_unavailable else e)) in
  ensure_account_available uid u ;;
  ret data.

(** [cleanup_tokens]: the counts of the three deletions, added up. *)
Definition cleanup_tokens : M nat :=
  let! t := now in
  let cutoff := t - days TOKEN_RETENTION_DAYS in
  let! one_time := delete_where (fun _ k => OneTimeToken.expires_at k <? cutoff) in
  let! t' := now in
  let expired (_ : uuid) (o : OutstandingToken.t) := OutstandingToken.expires_at o <? t' in
  let! outstanding := filter_rows expired in
  let! blacklisted := delete_where (fun _ b => bool_decide (BlacklistedToken.token b ∈ outstanding.*1)) in
  let! deleted := delete_where expired in
  ret (one_time + blacklisted + deleted)%nat.

End authentication.

(** ** What a successful login has checked *)

Section login_facts.
Context `{E : Env}.

Lemma check_keeps identifier ip : evolves (keeps (fun d => d)) (check identifier ip).
Proof.
  unfold check, _check_cache, _check_database, cache_ttl, cache_get.
  destruct REDIS_ENABLED; evolve.
Qed.

Lemma authenticate_result username password w uid u w' :
  authenticate username password w = (inr (Some (uid, u)), w') ->
  db w' = db w /\ http_session w' = http_session w /\ (ticks w <= ticks w')%nat /\
  users (db w) !! uid = Some u /\ User.matches_identifier (Str.strip username) u = true /\
  User.check_password u password = true /\ User.is_active u = true.
Proof.
  unfold authenticate. destruct (_ || _); [done|]. unfold bind, try_except, get.
  destruct (Table.select _ _) as [|[k v] [|x l]] eqn:Es; cbn; [done| |done].
  destruct (User.check_password v password && User.is_active v) eqn:Ec; [|done].
  intros [= -> -> <-]. apply andb_true_iff in Ec as [Hc Ha].
  assert (Hin : (uid, u) ∈ Table.select (fun _ u => User.matches_identifier (Str.strip username) u)
    (objects (db w))) by (rewrite Es; by left).
  apply Table.elem_of_select in Hin as [Hk Hm]. repeat (split; [done|]). done.
Qed.

(** The tables the gates read. *)
Definition gate_part (d : DB) := (users d, bans d, two_factor d, recovery_codes d).

Lemma pass_account_lock_keeps uid request : evolves (keeps gate_part) (pass_account_lock uid request).
Proof.
  unfold pass_account_lock, security_settings_of, save_security_settings, is_locked. evolve; reflexivity.
Qed.

(** No running lock on the account. *)
Definition lock_over (uid : uuid) (w w' : World) : Prop :=
  exists i, (ticks w <= i)%nat /\ forall k s, security_settings (db w) !! k = Some s ->
    UserSecuritySettings.user s = uid -> UserSecuritySettings.is_locked (clock i) s = false.

Lemma pass_account_lock_spec uid request w :
  unique_rows (R := UserSecuritySettings.t) (db w) ->
  wp (pass_account_lock uid request) (fun _ w' => lock_over uid w w') (fun _ _ => True) w.
Proof.
  intros Hu. unfold pass_account_lock, security_settings_of. wp_step. apply wp_get_or_create.
  - intros k s Hk Hs%N.eqb_eq. unfold is_locked.
    assert (Hall : forall i, (ticks w <= i)%nat -> UserSecuritySettings.is_locked (clock i) s = false ->
      lock_over uid w w).
    { intros i Hi Hl. exists i. split; [done|]. intros k' s' Hk' Hs'.
      destruct (decide (k = k')) as [<-|Hne]; [by replace s' with s by (cbn in *; congruence)|].
      pose proof (Hu k k' s s' Hk Hk' Hne) as Hc. cbn in Hc. unfold same_user in Hc.
      by rewrite Hs, Hs', N.eqb_refl in Hc. }
    destruct (UserSecuritySettings.locked_until s) as [lim|] eqn:El.
    + do 4 wp_step. destruct (UserSecuritySettings.is_locked _ s) eqn:Hl; [by do 3 wp_step|].
      apply wp_any; [|done]. intros [] w' _.
      destruct (Hall (ticks w)) as (i & Hi & Hx); [done|done|]. by exists i.
    + do 3 wp_step. destruct (Hall (ticks w)) as (i & Hi & Hx); [done| |by exists i].
      unfold UserSecuritySettings.is_locked. by rewrite El.
  - intros Hno. do 5 wp_step. apply wp_any; [|done]. intros [k s] w1 _. apply wp_any; [|done].
    intros [] w' _. exists (ticks w). split; [done|]. intros k' s' Hk' Hs'.
    specialize (Hno k' s' Hk'). cbn in Hno. by rewrite Hs', N.eqb_refl in Hno.
  - done.
Qed.

(** No ban in force at the two readings the login made. *)
Definition not_banned (uid : uuid) (w : World) (d : DB) : Prop :=
  exists i j, (ticks w <= i)%nat /\ (i <= j)%nat /\
    Table.any (login_ban (clock i) (clock j) uid) (bans d) = false.

Lemma pass_status_spec uid u w :
  wp (pass_status uid u)
    (fun _ w' => db w' = db w /\ User.status u = AccountStatus.ACTIVE /\ not_banned uid w (db w))
    (fun e w' => db w' = db w /\ http_session w' = http_session w /\
       (e = unavailable "ACCOUNT_BANNED" \/ e = unavailable "AUTHENTICATION_FAILED")) w.
Proof.
  unfold pass_status. wp_step. destruct (bool_decide (User.status u = AccountStatus.BANNED)) eqn:Eb.
  - do 2 wp_step. by repeat (split; [done|]); left.
  - do 5 wp_step. cbn beta. destruct (Table.any _ _) eqn:Ea.
    + wp_step. by repeat (split; [done|]); left.
    + destruct (bool_decide (User.status u = AccountStatus.ACTIVE)) eqn:Es; wp_step.
      * split; [done|]. apply bool_decide_eq_true in Es. split; [done|].
        exists (ticks w), (S (ticks w)). repeat split; [lia|lia|exact Ea].
      * by repeat (split; [done|]); right.
Qed.

(** The second factor: not required, or a code that verified. *)
Definition second_factor (uid : uuid) (code : string) (d : DB) : Prop :=
  ENABLE_TWO_FACTOR = false \/
  (forall k c, two_factor d !! k = Some c -> TwoFactorCredential.user c = uid ->
     TwoFactorCredential.is_enabled c = false) \/
  (Str.is_empty code = false /\ exists w1 recovery w2, gate_part (db w1) = gate_part d /\
     verify uid code w1 = (inr (true, recovery), w2)).

Lemma pass_two_factor_spec uid identifier ip code w :
  unique_rows (R := TwoFactorCredential.t) (db w) ->
  wp (pass_two_factor uid identifier ip code) (fun _ w' => second_factor uid code (db w)) (fun _ _ => True) w.
Proof.
  intros Hu. unfold pass_two_factor, two_factor_enabled. wp_step.
  destruct ENABLE_TWO_FACTOR eqn:Ef; cbn [negb].
  2:{ wp_step. cbn [negb]. wp_step. by left. }
  do 3 wp_step.
  - wp_step. match goal with H : _ = true |- _ => apply N.eqb_eq in H as Hc end.
    match goal with H : objects _ !! ?k0 = Some ?c0 |- _ => rename k0 into k; rename c0 into c; rename H into Hk end.
    destruct (TwoFactorCredential.is_enabled c) eqn:Ee; cbn [negb].
    + destruct (Str.is_empty code) eqn:Ecode; [by wp_step|]. wp_step. apply wp_any; [|done].
      intros [valid rec] w2 Hv. destruct valid.
      2:{ wp_step. apply wp_any; [|done]. intros. by wp_step. }
      wp_step.
      right. right. split; [done|]. by exists w, rec, w2.
    + wp_step. right. left. intros k' c' Hk' Hc'.
      destruct (decide (k = k')) as [<-|Hne]; [by replace c' with c by (cbn in *; congruence)|].
      pose proof (Hu k k' c c' Hk Hk' Hne) as Hx. cbn in Hx. unfold same_user in Hx.
      by rewrite Hc, Hc', N.eqb_refl in Hx.
  - rewrite bool_decide_true by done. wp_step. cbn [negb]. wp_step. right. left. intros k c Hk Hc.
    match goal with H : forall k r, _ |- _ => specialize (H k c Hk) as Hx end. cbn in Hx.
    by rewrite Hc, N.eqb_refl in Hx.
  - rewrite bool_decide_false by done. by wp_step.
Qed.


(** The session a login leaves: signed in as [uid], with a live row that
    mirrors its key. *)
Definition session_of (uid k : uuid) (s : UserSession.t) (w : World) : Prop :=
  user_sessions (db w) !! k = Some s /\ UserSession.user s = uid /\ UserSession.revoked_at s = None /\
  exists key, session_key (http_session w) = Some key /\ UserSession.session_key_hash s = session_hash key.

Lemma session_save_spec w :
  wp (when (is_none (current_key (http_session w))) session_save)
    (fun _ w' => exists key, session_key (http_session w') = Some key /\
       session_user (http_session w') = session_user (http_session w) /\
       session_expiry (http_session w') = session_expiry (http_session w) /\
       user_sessions (db w') = user_sessions (db w)) (fun _ _ => False) w.
Proof.
  unfold when. destruct (is_none _) eqn:En.
  - unfold session_save. do 2 wp_step. destruct (current_key _); [done|]. do 3 wp_step. by eexists.
  - wp_step. revert En. unfold current_key. destruct (session_key _) as [k|]; [|done]. by exists k.
Qed.

Lemma register_spec uid request w :
  wp (register uid request)
    (fun r w' => session_of uid r.1.1 r.1.2 w' /\
       session_user (http_session w') = session_user (http_session w) /\
       session_expiry (http_session w') = session_expiry (http_session w))
    (fun _ _ => True) w.
Proof.
  unfold register. do 4 wp_step.
  eapply wp_mono; [apply session_save_spec| |done]. intros [] w1 (key & Hkey & Hu & He & Hus).
  do 2 wp_step. rewrite Hkey. cbn [default]. do 4 wp_step. wp_step.
  apply wp_any; [|done]. intros encrypted w2 Henc.
  pose proof (quiet_run _ _ _ _ (encrypt_value_quiet _ _) Henc) as Hq. cbn in Hq.
  pose proof (evolves_run _ _ _ _ _ (encrypt_value_evolves (keeps (fun d => d)) _ _) Henc) as Hdb. cbn in Hdb.
  set (fill := session_defaults _ _ _ _ _ _). wp_step. unfold update_or_create. do 2 wp_step.
  assert (Hend : forall k s w3, user_sessions (db w3) !! k = Some s -> UserSession.user s = uid ->
    UserSession.revoked_at s = None -> UserSession.session_key_hash s = session_hash key ->
    http_session w3 = http_session w2 ->
    session_of uid k s (committed w w3) /\
    session_user (http_session (committed w w3)) = session_user (http_session w) /\
    session_expiry (http_session (committed w w3)) = session_expiry (http_session w)).
  { intros k s w3 Hk Hus' Hr Hh Hs. unfold session_of. rewrite db_committed, http_session_committed, Hs, Hq.
    split; [|split; [exact Hu|exact He]]. repeat (split; [done|]). by exists key. }
  destruct (Table.select _ _) as [|[k s] [|y l]] eqn:Esel.
  - (do 8 wp_step); [|done]. do 2 wp_step. cbn [fst snd].
    apply Hend; [apply lookup_insert_eq|reflexivity..].
  - (do 6 wp_step); [|done|done].
    match goal with H : objects _ !! k = Some ?r |- _ => rename r into s0; rename H into Hs0 end.
    assert (Hin : (k, s) ∈ [(k, s)]) by by left. rewrite <- Esel in Hin.
    apply Table.elem_of_select in Hin as [Hs1 Hh%String.eqb_eq].
    replace s0 with s in * by (cbn in *; congruence).
    do 2 wp_step. cbn [fst snd].
    apply Hend; [apply lookup_insert_eq|reflexivity|reflexivity|exact Hh|reflexivity].
  - done.
Qed.


Lemma announce_device_keeps uid u s request :
  evolves (keeps user_sessions) (announce_device uid u s request).
Proof.
  unfold announce_device, preferences_of, new_preferences, security_settings_of. evolve; reflexivity.
Qed.

Lemma announce_device_quiet uid u s request : quiet (announce_device uid u s request).
Proof. unfold announce_device, preferences_of, new_preferences, security_settings_of. quiet. Qed.

Lemma session_of_frame uid k s w w' :
  session_of uid k s w -> keeps user_sessions (db w) (db w') -> http_session w' = http_session w ->
  session_of uid k s w'.
Proof. intros (Hk & Hu & Hr & Hkey) Hf Hs. unfold session_of. rewrite Hf, Hs. done. Qed.

Lemma django_login_spec uid w :
  wp (django_login uid) (fun _ w' => session_user (http_session w') = Some uid) (fun _ _ => True) w.
Proof.
  unfold django_login. do 3 wp_step. apply wp_any; [|done]. intros [] w1 _. do 4 wp_step.
  wp_step; done.
Qed.

Lemma open_session_spec request uid u identifier ip remember_me w :
  wp (open_session request uid u identifier ip remember_me)
    (fun r w' => r.1.1 = uid /\ session_of uid r.2.1 r.2.2 w' /\
       session_user (http_session w') = Some uid /\
       session_expiry (http_session w') = Some (if remember_me then 2592000 else 0))
    (fun _ _ => True) w.
Proof.
  unfold open_session, set_expiry. wp_step. apply wp_any; [|done]. intros [] w1 _. wp_step.
  eapply wp_mono; [apply django_login_spec| |done]. intros [] w2 Hu2. do 3 wp_step.
  eapply wp_mono; [apply register_spec| |done]. intros [[k s] fresh_device] w3 (Hs3 & Hu3 & He3).
  cbn [fst snd] in Hs3. cbn in Hu3, He3. cbn beta iota. do 3 wp_step. apply wp_any; [|done]. intros [] w4 Hsave.
  assert (H4 : keeps user_sessions (db w3) (db w4)).
  { refine (evolves_run (keeps user_sessions) _ (w3 <| ticks ::= S |>) _ _ _ Hsave). unfold save_user. evolve. reflexivity. }
  assert (Q4 : http_session w4 = http_session w3).
  { refine (quiet_run _ (w3 <| ticks ::= S |>) _ _ _ Hsave). unfold save_user. quiet. }
  wp_step. apply wp_any; [|done]. intros x w5 Hev. wp_step. apply wp_any; [|done]. intros [] w6 Hann.
  wp_step. cbn [fst snd].
  assert (H6 : keeps user_sessions (db w3) (db w6)).
  { etrans; [exact H4|]. etrans; [refine (evolves_run _ _ _ _ _ _ Hev); apply event_record_keeps; reflexivity|].
    refine (evolves_run _ _ _ _ _ _ Hann). apply evolves_when; [exact _|]. apply announce_device_keeps. }
  assert (Q6 : http_session w6 = http_session w3).
  { rewrite <- Q4, <- (quiet_run _ _ _ _ (event_record_quiet _ _ _ _) Hev).
    refine (quiet_run _ _ _ _ _ Hann). unfold when. destruct fresh_device; [apply announce_device_quiet|done]. }
  split; [done|]. split; [by apply (session_of_frame uid k s w3)|]. rewrite Q6, Hu3, He3. done.
Qed.

(** [C1] Whoever is signed in has passed every gate: the throttle was open; the
    name matches, without regard to case, the e-mail address or the user name
    of an existing account whose password was given; that account is active,
    has status ACTIVE, no running lock and no ban in force; and if it has an
    enabled second factor a code verified. The request's session then belongs
    to that user and is mirrored by a live session row under its current key. *)
Theorem login_sound request identifier password code remember_me w uid u' k s w' :
  unique_rows (R := UserSecuritySettings.t) (db w) -> unique_rows (R := TwoFactorCredential.t) (db w) ->
  login request identifier password code remember_me w = (inr ((uid, u'), (k, s)), w') ->
  exists u,
    users (db w) !! uid = Some u /\ User.matches_identifier (Str.strip identifier) u = true /\
    User.check_password u password = true /\
    User.is_active u = true /\ User.status u = AccountStatus.ACTIVE /\
    (exists st w0, check identifier (get_client_ip request) w = (inr st, w0) /\ locked st = false) /\
    (exists i, forall k0 s0, security_settings (db w) !! k0 = Some s0 ->
       UserSecuritySettings.user s0 = uid -> UserSecuritySettings.is_locked (clock i) s0 = false) /\
    (exists i j, (i <= j)%nat /\ Table.any (login_ban (clock i) (clock j) uid) (bans (db w)) = false) /\
    second_factor uid code (db w) /\
    session_of uid k s w' /\ session_user (http_session w') = Some uid /\
    session_expiry (http_session w') = Some (if remember_me then 2592000 else 0).
Proof.
  intros Hus Hut Hrun.
  assert (Hwp : on_success (login request identifier password code remember_me) (fun r w' =>
    exists u, users (db w) !! r.1.1 = Some u /\ User.matches_identifier (Str.strip identifier) u = true /\
    User.check_password u password = true /\
    User.is_active u = true /\ User.status u = AccountStatus.ACTIVE /\
    (exists st w0, check identifier (get_client_ip request) w = (inr st, w0) /\ locked st = false) /\
    (exists i, forall k0 s0, security_settings (db w) !! k0 = Some s0 ->
       UserSecuritySettings.user s0 = r.1.1 -> UserSecuritySettings.is_locked (clock i) s0 = false) /\
    (exists i j, (i <= j)%nat /\ Table.any (login_ban (clock i) (clock j) r.1.1) (bans (db w)) = false) /\
    second_factor r.1.1 code (db w) /\
    session_of r.1.1 r.2.1 r.2.2 w' /\ session_user (http_session w') = Some r.1.1 /\
    session_expiry (http_session w') = Some (if remember_me then 2592000 else 0)) w).
  2:{ exact (wp_result _ _ _ _ _ _ Hwp Hrun). }
  clear Hrun. unfold on_success, login. wp_step. apply wp_any; [|done]. intros st w0 Hcheck.
  pose proof (evolves_run _ _ _ _ _ (check_keeps _ _) Hcheck) as Hdb0. unfold keeps in Hdb0.
  destruct (locked st) eqn:El; [by wp_step|]. wp_step. apply wp_any; [|done].
  intros [[uid0 u]|] w1 Hauth.
  2:{ unfold reject_login. do 2 (wp_step; apply wp_any; [|done]; intros).
      wp_step. apply wp_any; [|done]. intros. by wp_step. }
  apply authenticate_result in Hauth as (Hdb1 & _ & _ & Hu & Hm & Hp & Ha).
  rewrite Hdb0 in Hdb1, Hu. wp_step.
  eapply wp_call; [apply pass_account_lock_spec; by rewrite Hdb1| |done].
  intros [] w2 Hlock (i & _ & Hi). rewrite Hdb1 in Hi.
  pose proof (evolves_run _ _ _ _ _ (pass_account_lock_keeps _ _) Hlock) as Hk2.
  unfold keeps, gate_part in Hk2. rewrite Hdb1 in Hk2. injection Hk2 as Hu2 Hb2 Ht2 Hr2.
  wp_step. eapply (wp_mono _ _ _ _ (fun _ _ => True)); [apply pass_status_spec| |done].
  intros [] w3 (Hdb3 & Hst & j1 & j2 & _ & Hj & Hban). rewrite Hb2 in Hban.
  wp_step. eapply wp_mono; [apply pass_two_factor_spec; unfold unique_rows; rewrite Hdb3; cbn; by rewrite Ht2| |done].
  intros [] w4 H2f. eapply wp_mono; [apply open_session_spec| |done].
  intros [[uid1 u1] [k1 s1]] w5. cbn [fst snd]. intros (-> & Hs & Hsu & Hexp).
  exists u. split; [exact Hu|]. repeat (split; [done|]). split; [by exists st, w0|].
  split; [by exists i|]. split; [by exists j1, j2|]. split; [|done].
  rewrite Hdb3 in H2f. destruct H2f as [?|[Hd|(Hc & wa & rec & wb & Hg & Hv)]]; [by left| |].
  - right. left. intros k0 c0. rewrite <- Ht2. apply Hd.
  - right. right. split; [done|]. exists wa, rec, wb. split; [|done].
    rewrite Hg. unfold gate_part. by rewrite Hu2, Hb2, Ht2, Hr2.
Qed.

End login_facts.

(** ** What a refused login leaves *)

Section refusal.
Context `{E : Env}.

Lemma lock_known_account_quiet identifier n request : quiet (lock_known_account identifier n request).
Proof.
  unfold lock_known_account, security_settings_of, is_locked, save_security_settings, preferences_of,
    new_preferences, enqueue_email. quiet.
Qed.

Lemma register_failure_quiet identifier ip : quiet (register_failure identifier ip).
Proof.
  unfold register_failure, _register_cache_failure, _register_database_failure, cache_failure,
    database_failure, cache_add, cache_set, cache_get, cache_incr. quiet.
Qed.

Lemma check_quiet identifier ip : quiet (check identifier ip).
Proof. unfold check, _check_cache, _check_database, cache_ttl, cache_get. quiet. Qed.

Lemma authenticate_quiet username password : quiet (authenticate username password).
Proof. unfold authenticate, hash_password. quiet. Qed.

Lemma reject_login_quiet {A} request identifier ip : quiet (reject_login (A := A) request identifier ip).
Proof.
  unfold reject_login. quiet; first [apply register_failure_quiet | apply lock_known_account_quiet].
Qed.

Lemma pass_account_lock_quiet uid request : quiet (pass_account_lock uid request).
Proof. unfold pass_account_lock, security_settings_of, is_locked, save_security_settings. quiet. Qed.

Lemma verify_quiet uid code : quiet (verify uid code).
Proof. unfold verify, totp_check, _consume_recovery_code. quiet. Qed.

Lemma pass_two_factor_quiet uid identifier ip code : quiet (pass_two_factor uid identifier ip code).
Proof.
  unfold pass_two_factor, two_factor_enabled. quiet; first [apply verify_quiet | apply register_failure_quiet].
Qed.

(** The session tables. *)
Definition session_tables (d : DB) := (user_sessions d, django_sessions d).

Lemma reject_login_keeps {A} request identifier ip :
  evolves (keeps session_tables) (reject_login (A := A) request identifier ip).
Proof.
  unfold reject_login, register_failure, _register_cache_failure, _register_database_failure, cache_failure,
    database_failure, cache_add, cache_set, cache_get, cache_incr, lock_known_account, security_settings_of,
    is_locked, save_security_settings, preferences_of, new_preferences, enqueue_email.
  evolve; reflexivity.
Qed.

Lemma pass_account_lock_sessions uid request : evolves (keeps session_tables) (pass_account_lock uid request).
Proof.
  unfold pass_account_lock, security_settings_of, save_security_settings, is_locked. evolve; reflexivity.
Qed.

Lemma pass_two_factor_sessions uid identifier ip code :
  evolves (keeps session_tables) (pass_two_factor uid identifier ip code).
Proof.
  unfold pass_two_factor, two_factor_enabled, register_failure, _register_cache_failure,
    _register_database_failure, cache_failure, database_failure, cache_add, cache_set, cache_get, cache_incr.
  evolve; first [reflexivity | by apply verify_keeps].
Qed.

Lemma open_session_internal request uid u identifier ip remember_me :
  fails_internally (open_session request uid u identifier ip remember_me).
Proof.
  unfold open_session, reset, cache_delete_many, django_login, cycle_key, session_flush, set_expiry, register,
    session_save, save_user, announce_device, preferences_of, new_preferences, security_settings_of.
  internal.
Qed.


(** ** Tokens *)

(** [C32] A JWT is worth no more than its account: whatever the inherited
    authentication and refresh return, the request is authenticated, or the
    tokens refreshed, exactly when the user they name exists and may
    authenticate now; otherwise the answer is the same [AuthenticationFailed]. *)
Theorem jwt_gate {T} (base_auth : M (uuid * User.t)) (base_refresh : M (T * uuid)) (data : T) w uid u w1 :
  (base_auth w = (inr (uid, u), w1) ->
   (jwt_get_user base_auth w).1 =
     if available (clock w1.(ticks)) (db w1) uid u then inr (uid, u) else inl account_unavailable) /\
  (base_refresh w = (inr (data, uid), w1) ->
   (refresh_validate base_refresh w).1 =
     match users (db w1) !! uid with
     | Some u => if available (clock w1.(ticks)) (db w1) uid u then inr data else inl account_unavailable
     | None => inl account_unavailable
     end).
Proof.
  assert (Hgate : forall v, exists w2, ensure_account_available uid v w1 =
    (if available (clock w1.(ticks)) (db w1) uid v then inr tt else inl account_unavailable, w2)).
  { intros v. destruct (can_authenticate_now_spec uid v w1) as (w2 & Hr & _).
    exists w2. unfold ensure_account_available, bind. rewrite Hr. by destruct (available _ _ _ _). }
  split; intros Hb.
  - unfold jwt_get_user, bind. rewrite Hb. destruct (Hgate u) as [w2 ->]. by destruct (available _ _ _ _).
  - unfold refresh_validate, bind, try_except, get_pk. rewrite Hb. cbn.
    destruct (users (db w1) !! uid) as [v|]; [|done].
    destruct (Hgate v) as [w2 ->]. by destruct (available _ _ _ _).
Qed.

End refusal.

(** ** Witnesses *)

Lemma login_sound_witness :
  exists r w', login (E := demo_env) sample_request "ALICE@example.test" "correct horse battery" "" true sample_world
      = (inr r, w') /\ session_user (http_session w') = Some 1%N.
Proof.
  set (m := login (E := demo_env) sample_request "ALICE@example.test" "correct horse battery" "" true sample_world).
  set (r := match m.1 with inr r => r | inl _ => ((0%N, sample_user ""), (0%N, sample_session 0 "" 0)) end).
  assert (Hrun : m = (inr r, m.2)) by (vm_compute; reflexivity).
  assert (Hr : r = ((r.1.1, r.1.2), (r.2.1, r.2.2))) by (vm_compute; reflexivity).
  assert (Hid : r.1.1 = 1%N) by (vm_compute; reflexivity).
  rewrite Hr in Hrun.
  destruct (login_sound (E := demo_env) sample_request "ALICE@example.test" "correct horse battery" "" true
    sample_world _ _ _ _ m.2 unique_table_empty unique_table_empty Hrun)
    as (u & _ & _ & _ & _ & _ & _ & _ & _ & _ & _ & Hs & _).
  exists r, m.2. rewrite Hr. split; [exact Hrun|]. rewrite <- Hid. exact Hs.
Defined.


Lemma jwt_gate_witness :
  (jwt_get_user (E := demo_env) (ret (1%N, sample_user "alice")) sample_world).1 = inr (1%N, sample_user "alice") /\
  (refresh_validate (E := demo_env) (ret ("data", 9%N)) sample_world).1 = inl account_unavailable.
Proof.
  split.
  - rewrite (proj1 (jwt_gate (E := demo_env) (ret (1%N, sample_user "alice")) (ret ("data", 1%N)) "data" sample_world
      1%N (sample_user "alice") sample_world) eq_refl). vm_compute. reflexivity.
  - rewrite (proj2 (jwt_gate (E := demo_env) (ret (9%N, sample_user "alice")) (ret ("data", 9%N)) "data" sample_world
      9%N (sample_user "alice") sample_world) eq_refl). vm_compute. reflexivity.
Defined.
