(* ===== verification/Accounts.v ===== *)
(** * Accounts ([AccountService])

    Registration, verification, password, e-mail and name changes,
    deactivation and deletion. *)

From S2P Require Import Prelude Env Demo Models Orm Logic Common Samples Users Tokens Sessions TwoFactor.

Section accounts.
Context `{E : Env}.

Definition conflict (detail : string) : exn := APIException detail "CONFLICT" 409 [].

(** [validate_password(password, user=user)]: the user's attributes are what
    the similarity validator compares with. *)
Definition validate_password (password : string) (user : option User.t) : M unit :=
  let attributes := match user with
                    | Some u => [User.username u; User.first_name u; User.last_name u; User.email u]
                    | None => []
                    end in
  if password_acceptable password attributes then ret tt
  else raise (ValidationError "password" "invalid").

Definition link (path raw : string) : pyval := PStr (SITE_URL +:+ path +:+ "?token=" +:+ raw).

(** [User.objects.filter(email__iexact=..., ...).first()] *)
Definition newest_account (a b : uuid * User.t) : bool := User.created_at b.2 <=? User.created_at a.2.

(** ** Registration and verification *)

(** [AccountService.register_user] *)
Definition register_user (email' username password first_name last_name : string)
    (request : option Request) : M (uuid * User.t) :=
  atomic (
    validate_password password None ;;
    let! '(uid, user) := try_except
      (create_user email' username (Some password) first_name last_name)
      (fun e => raise (if decide (e = IntegrityError)
        then conflict "An account with those details already exists." else e)) in
    let! c := now in let! u := now in
    create (UserProfile.mk uid "" "" "" c u) ;;
    let! p := new_preferences uid in
    create p ;;
    let! c := now in let! u := now in
    create (UserSecuritySettings.mk uid None None true c u) ;;
    let! default_role := first_row (fun _ r => String.eqb (Role.slug r) "user") in
    match default_role with
    | Some (role, _) =>
        get_or_create (fun _ r => N.eqb (UserRole.user r) uid && N.eqb (UserRole.role r) role)
          (let! f := now in let! c := now in ret (UserRole.mk uid role None f None c)) ;;
        ret tt
    | None => ret tt
    end ;;
    let! raw := issue uid TokenPurpose.EMAIL_VERIFICATION (hours 24) [] in
    AuditService.record ((AuditService.on "user.created" (user_target uid user) (Some uid) request)
      <| AuditService.after := [("status", PStr (AccountStatus.value (User.status user)))] |>) ;;
    on_commit (email "email_verification" (User.email user) ("Verify your " +:+ SITE_NAME +:+ " email")
      [("user", user_value uid user); ("verification_url", link "/verify-email" raw)]) ;;
    ret (uid, user)).

(** [AccountService.verify_email] *)
Definition verify_email (raw_token : string) (request : option Request) : M (uuid * User.t) :=
  atomic (
    let! '(_, token) := consume raw_token TokenPurpose.EMAIL_VERIFICATION in
    let uid := OneTimeToken.user token in
    let! user := get_pk (R := User.t) uid in
    if is_some (User.email_verified_at user) then ret (uid, user) else
    let! verified := now in
    let user' := user
      <| User.email_verified_at := Some verified |>
      <| User.status ::= fun s => if decide (s = AccountStatus.PENDING) then AccountStatus.ACTIVE else s |> in
    save_user uid (fun u => u <| User.email_verified_at := User.email_verified_at user' |>
                              <| User.status := User.status user' |>) ;;
    AuditService.record (AuditService.on "email.verified" (user_target uid user') (Some uid) request) ;;
    on_commit (email "welcome" (User.email user') ("Welcome to " +:+ SITE_NAME)
      [("user", user_value uid user')]) ;;
    ret (uid, user')).

(** [AccountService.resend_verification] *)
Definition resend_verification (email' : string) : M unit :=
  let! found := first_row_by newest_account (fun _ u =>
    Str.iexact (User.email u) (Str.strip email') && is_none (User.email_verified_at u)
    && User.is_active u) in
  match found with
  | None => ret tt
  | Some (uid, user) =>
      let! raw := issue uid TokenPurpose.EMAIL_VERIFICATION (hours 24) [] in
      enqueue_email "email_verification" (User.email user) ("Verify your " +:+ SITE_NAME +:+ " email")
        [("user", user_value uid user); ("verification_url", link "/verify-email" raw)]
  end.

(** ** Passwords *)

(** [AccountService.request_password_reset] *)
Definition request_password_reset (email' : string) : M unit :=
  let! found := first_row_by newest_account (fun _ u =>
    Str.iexact (User.email u) (Str.strip email') && User.is_active u) in
  match found with
  | None => ret tt
  | Some (uid, user) =>
      let! raw := issue uid TokenPurpose.PASSWORD_RESET (seconds PASSWORD_RESET_TIMEOUT) [] in
      enqueue_email "password_reset" (User.email user) ("Reset your " +:+ SITE_NAME +:+ " password")
        [("user", user_value uid user); ("reset_url", link "/reset-password" raw)]
  end.

(** What both password operations do once the new password is accepted. *)
Definition install_password (uid : uuid) (user : User.t) (new_password : string)
    (request : option Request) (exclude_current : bool) (event : SecurityEventType.t)
    (action : string) : M User.t :=
  let! hash := hash_password (Some new_password) in
  let user' := user <| User.password := hash |> in
  save_user uid (fun u => u <| User.password := hash |>) ;;
  let! '(k, _, _) := security_settings_of uid in
  let! changed := now in
  save_security_settings k (fun s => s <| UserSecuritySettings.password_changed_at := Some changed |>) ;;
  revoke_all uid (Some uid) request exclude_current ;;
  revoke_all_jwt uid ;;
  SecurityEventService.record event (Some uid) request [] ;;
  AuditService.record (AuditService.on action (user_target uid user') (Some uid) request) ;;
  on_commit (email "password_changed" (User.email user') ("Your " +:+ SITE_NAME +:+ " password was changed")
    [("user", user_value uid user')]) ;;
  ret user'.

(** [AccountService.reset_password] *)
Definition reset_password (raw_token new_password : string) (request : option Request)
    : M (uuid * User.t) :=
  atomic (
    let! '(_, token) := consume raw_token TokenPurpose.PASSWORD_RESET in
    let uid := OneTimeToken.user token in
    let! user := get_pk (R := User.t) uid in
    validate_password new_password (Some user) ;;
    let! user' := install_password uid user new_password request false
      SecurityEventType.PASSWORD_RESET "password.reset" in
    ret (uid, user')).

(** [AccountService.change_password] *)
Definition change_password (uid : uuid) (old_password new_password : string)
    (request : option Request) : M unit :=
  atomic (
    let! locked := get_pk (R := User.t) uid in
    if negb (User.check_password locked old_password) then raise authentication_failed else
    validate_password new_password (Some locked) ;;
    install_password uid locked new_password request true
      SecurityEventType.PASSWORD_CHANGED "password.changed" ;;
    ret tt).

(** ** E-mail address and user name *)

(** [User.objects.filter(email__iexact=x).exclude(pk=uid).exists()] *)
Definition email_taken (x : string) (uid : uuid) : M bool :=
  exists_row (fun k u => Str.iexact (User.email u) x && negb (N.eqb k uid)).

(** [AccountService.request_email_change] *)
Definition request_email_change (uid : uuid) (user : User.t) (password new_email : string) : M unit :=
  let normalized := User.normalize_email_address new_email in
  if negb (User.check_password user password) then raise authentication_failed else
  let! taken := email_taken normalized uid in
  if (taken : bool) then raise (conflict "That email address is unavailable.") else
  let! raw := issue uid TokenPurpose.EMAIL_CHANGE (hours 1) [("new_email", normalized)] in
  enqueue_email "email_verification" normalized ("Confirm your new " +:+ SITE_NAME +:+ " email")
    [("user", user_value uid user); ("verification_url", link "/confirm-email-change" raw)].

(** [token.metadata[key]] *)
Definition metadata_item (key : string) (metadata : list (string * string)) : M string :=
  match List.find (fun kv => String.eqb kv.1 key) metadata with
  | Some kv => ret kv.2
  | None => raise (KeyError key)
  end.

(** [AccountService.confirm_email_change] *)
Definition confirm_email_change (raw_token : string) (request : option Request) : M (uuid * User.t) :=
  atomic (
    let! '(_, token) := consume raw_token TokenPurpose.EMAIL_CHANGE in
    let uid := OneTimeToken.user token in
    let! user := get_pk (R := User.t) uid in
    let old_email := User.email user in
    let! new_email := metadata_item "new_email" (OneTimeToken.metadata token) in
    let! taken := email_taken new_email uid in
    if (taken : bool) then raise (conflict "That email address is unavailable.") else
    let! verified := now in
    let user' := user <| User.email := User.normalize_email_address new_email |>
                      <| User.email_verified_at := Some verified |> in
    save_user uid (fun u => u <| User.email := User.email user' |>
                              <| User.email_verified_at := Some verified |>) ;;
    revoke_all uid (Some uid) request true ;;
    revoke_all_jwt uid ;;
    SecurityEventService.record SecurityEventType.EMAIL_CHANGED (Some uid) request [] ;;
    AuditService.record ((AuditService.on "email.changed" (user_target uid user') (Some uid) request)
      <| AuditService.before := [("email", PStr old_email)] |>
      <| AuditService.after := [("email", PStr new_email)] |>) ;;
    on_commit (email "email_changed" old_email ("Your " +:+ SITE_NAME +:+ " email was changed")
      [("user", user_value uid user'); ("new_email", PStr new_email)]) ;;
    ret (uid, user')).

(** [user.full_clean(exclude={"password"}, validate_unique=False)]: fields,
    then the two uniqueness constraints of [Meta.constraints]. *)
Definition full_clean (uid : uuid) (u : User.t) : M unit :=
  let u := u <| User.email ::= normalize_username |> in
  if negb (user_fields_valid (User.email u) (User.username u) (User.first_name u) (User.last_name u))
  then raise (ValidationError "user" "invalid") else
  let! taken := exists_row (fun k v => negb (N.eqb k uid) && User.clash u v) in
  if (taken : bool) then raise (ValidationError "user" "unique") else ret tt.

(** [AccountService.change_username] *)
Definition change_username (uid : uuid) (username : string) (request : option Request)
    : M (uuid * User.t) :=
  atomic (
    let! locked := get_pk (R := User.t) uid in
    let old := User.username locked in
    let locked' := locked <| User.username := Str.strip username |> in
    try_except
      (full_clean uid locked' ;;
       save_user uid (fun u => u <| User.username := Str.strip (User.username locked') |>))
      (fun e => raise (if decide (e = IntegrityError)
        then conflict "That username is unavailable." else e)) ;;
    AuditService.record ((AuditService.on "username.changed" (user_target uid locked') (Some uid) request)
      <| AuditService.before := [("username", PStr old)] |>
      <| AuditService.after := [("username", PStr (User.username locked'))] |>) ;;
    ret (uid, locked')).

(** ** Leaving *)

(** [AccountService.deactivate] *)
Definition deactivate (uid : uuid) (password : string) (request : option Request) : M unit :=
  atomic (
    let! locked := get_pk (R := User.t) uid in
    if negb (User.check_password locked password) then raise authentication_failed else
    save_user uid (fun u => u <| User.status := AccountStatus.DEACTIVATED |>
                              <| User.is_active := false |>) ;;
    revoke_all uid (Some uid) request false ;;
    revoke_all_jwt uid ;;
    SecurityEventService.record SecurityEventType.ACCOUNT_DEACTIVATED (Some uid) request [] ;;
    AuditService.record (AuditService.on "account.deactivated" (user_target uid locked) (Some uid) request) ;;
    ret tt).

(** [AccountService.request_deletion] *)
Definition request_deletion (uid : uuid) (user : User.t) (password : string) : M unit :=
  if negb (User.check_password user password) then raise authentication_failed else
  let! raw := issue uid TokenPurpose.ACCOUNT_DELETION (hours 1) [] in
  enqueue_email "account_security_warning" (User.email user)
    ("Confirm deletion of your " +:+ SITE_NAME +:+ " account")
    [("user", user_value uid user); ("action_url", link "/delete-account" raw)].

Definition deleted_name (uid : uuid) : string := "deleted-" +:+ uuid_hex uid.

(** The row a deletion leaves. *)
Definition anonymise (uid : uuid) (hash : string) (u : User.t) : User.t :=
  u <| User.email := deleted_name uid +:+ "@invalid.local" |>
    <| User.username := deleted_name uid |>
    <| User.first_name := "" |>
    <| User.last_name := "" |>
    <| User.phone := "" |>
    <| User.avatar := "" |>
    <| User.status := AccountStatus.DELETED |>
    <| User.is_active := false |>
    <| User.email_verified_at := None |>
    <| User.phone_verified_at := None |>
    <| User.password := hash |>.

(** [AccountService.confirm_deletion] *)
Definition confirm_deletion (raw_token : string) (request : option Request) : M unit :=
  atomic (
    let! '(_, token) := consume raw_token TokenPurpose.ACCOUNT_DELETION in
    let uid := OneTimeToken.user token in
    let! user := get_pk (R := User.t) uid in
    let suffix := uuid_hex uid in
    let avatar_name := User.avatar user in
    let! hash := hash_password None in
    let user' := User.before_save (anonymise uid hash user) in
    save_user uid (fun u => User.before_save (anonymise uid hash u)) ;;
    update_where (fun _ p => N.eqb (UserProfile.user p) uid)
      (fun p => p <| UserProfile.bio := "" |> <| UserProfile.website := "" |>
                  <| UserProfile.location := "" |>) ;;
    revoke_all uid (Some uid) request false ;;
    revoke_all_jwt uid ;;
    SecurityEventService.record SecurityEventType.ACCOUNT_DELETED (Some uid) request [] ;;
    AuditService.record ((AuditService.on "account.deleted" (user_target uid user') (Some uid) request)
      <| AuditService.before := [("email", PStr (User.email user)); ("username", PStr (User.username user))] |>
      <| AuditService.after := [("status", PStr (AccountStatus.value AccountStatus.DELETED))] |>
      <| AuditService.target_repr := Some ("Deleted user " +:+ suffix) |>) ;;
    when (negb (Str.is_empty avatar_name)) (on_commit (DeleteStored avatar_name)) ;;
    on_commit (PublishEvent "account.deleted" (Some (uuid_str uid)) "accounts.user" (uuid_str uid))).

End accounts.

(** ** Signing a user out everywhere

    Password, e-mail, deactivation and deletion end with the same calls; with
    the constraints of the tables in place none of them can fail. *)

Section sign_out.
Context `{E : Env, !EntropyLaws E}.
Hypothesis configured : crypto_configured = true.

Record account_ready (w : World) : Prop := {
  ar_sessions : session_ready w;
  ar_users : unique_rows (R := User.t) (db w);
  ar_settings : fresh (R := UserSecuritySettings.t) w;
  ar_settings_unique : unique_rows (R := UserSecuritySettings.t) (db w);
  ar_jwt : fresh (R := BlacklistedToken.t) w;
  ar_jwt_unique : unique_rows (R := BlacklistedToken.t) (db w);
}.

(** Nothing but sessions, refresh tokens and journals changed. *)
Definition only_sign_out (d d' : DB) : Prop :=
  d' = d <| user_sessions := user_sessions d' |> <| django_sessions := django_sessions d' |>
         <| blacklisted_tokens := blacklisted_tokens d' |>
         <| audit_logs := audit_logs d' |> <| security_events := security_events d' |>.

(** Nobody is signed in as the user, by session or by refresh token, but
    through the session [except]. *)
Definition access_revoked (uid : uuid) (except : option uuid) (d : DB) : Prop :=
  (forall k s, user_sessions d !! k = Some s -> UserSession.user s = uid ->
     UserSession.is_revoked s = false -> except = Some k) /\
  (forall o r, outstanding_tokens d !! o = Some r -> OutstandingToken.user r = Some uid -> blacklisted d o).

(** The state after the sessions and refresh tokens of a user are revoked. *)
Record access_ended (uid : uuid) (except : option uuid) (w w' : World) : Prop := {
  ae_ready : account_ready w';
  ae_frame : only_sign_out (db w) (db w');
  ae_session : http_session w' = http_session w;
  ae_access : access_revoked uid except (db w');
}.

Record signed_out (uid : uuid) (except : option uuid) (event : SecurityEventType.t)
    (w w' : World) : Prop := {
  so_ended : access_ended uid except w w';
  so_event : exists k e, security_events (db w') !! k = Some e /\
    SecurityEvent.event_type e = event /\ SecurityEvent.user e = Some uid;
}.

#[export] Instance only_sign_out_preorder : PreOrder only_sign_out.
Proof.
  split; [by intros []|]. intros d1 d2 d3 H1 H2. unfold only_sign_out in *. rewrite H2, H1. reflexivity.
Qed.

Lemma revoke_all_advances uid actor request exclude : advances (revoke_all uid actor request exclude).
Proof. unfold revoke_all, current, revoke. advances. Qed.

Lemma revoke_all_jwt_advances uid : advances (revoke_all_jwt uid).
Proof. unfold revoke_all_jwt. advances. Qed.

Lemma revoke_all_jwt_quiet uid : quiet (revoke_all_jwt uid).
Proof. unfold revoke_all_jwt. quiet. Qed.

(** After [revoke_all] the only live sessions of the user are spared. *)
Lemma revoked_all_live uid except w w' k s :
  let mine := Table.select (live_of uid except) (user_sessions (db w)) in
  revoked_all mine mine w w' -> user_sessions (db w') !! k = Some s -> UserSession.user s = uid ->
  UserSession.is_revoked s = false -> except = Some k.
Proof.
  intros mine HI Hs Hu Hlive. destruct (decide (k ∈ mine.*1)) as [Hin|Hn].
  - apply list_elem_of_fmap in Hin as ([k' s0] & -> & Hin).
    destruct (ra_rows _ _ _ _ HI _ Hin) as (s' & [t ->] & Hl). by cbn in *; simplify_eq.
  - rewrite (ra_others _ _ _ _ HI k Hn) in Hs.
    destruct (decide (except = Some k)) as [|Hne]; [done|]. exfalso.
    apply Hn, list_elem_of_fmap. exists (k, s). split; [done|]. apply Table.elem_of_select.
    split; [done|]. unfold live_of. rewrite Hu, N.eqb_refl, bool_decide_false by done.
    unfold UserSession.is_revoked, is_some in Hlive. by destruct (is_none _).
Qed.

Lemma end_access {A} uid actor request exclude (k : M A) Q X w :
  account_ready w ->
  (forall w', access_ended uid (spared request exclude w) w w' -> wp k Q X w') ->
  wp (revoke_all uid actor request exclude ;; revoke_all_jwt uid ;; k) Q X w.
Proof.
  intros Hr Hk. wp_step. eapply wp_call; [by apply revoke_all_spec; [..|apply Hr]| |done].
  intros n w1 H1 [_ HI]. pose proof (ra_frame _ _ _ _ HI : db w1 = _) as F1.
  wp_step. eapply wp_call; [apply revoke_all_jwt_spec| |done].
  { eapply fresh_run; [apply revoke_all_advances|exact H1|by rewrite F1|apply Hr]. }
  { unfold unique_rows. rewrite F1. apply Hr. }
  intros m w2 H2 HJ. pose proof (js_frame _ _ _ _ HJ) as F2. apply Hk.
  assert (E2 : user_sessions (db w2) = user_sessions (db w1)) by by rewrite F2.
  pose proof (revoke_all_advances uid actor request exclude w) as A1. rewrite H1 in A1.
  pose proof (revoke_all_jwt_advances uid w1) as A2. rewrite H2 in A2. cbn in A1, A2.
  assert (F : db w2 = (db w) <| user_sessions := user_sessions (db w2) |>
     <| django_sessions := django_sessions (db w2) |> <| blacklisted_tokens := blacklisted_tokens (db w2) |>
     <| audit_logs := audit_logs (db w2) |> <| security_events := security_events (db w2) |>).
  { rewrite F2, F1. reflexivity. }
  split; [split| | |split].
  - split; [apply (journal_ready_move w1); [apply HI|by rewrite F2|by rewrite F2|lia]|].
    unfold unique_rows. cbn. rewrite E2. apply (ra_ready _ _ _ _ HI).
  - unfold unique_rows. rewrite F. apply Hr.
  - apply (fresh_draws w); [apply Hr|by rewrite F|lia].
  - unfold unique_rows. rewrite F. apply Hr.
  - apply HJ.
  - apply HJ.
  - exact F.
  - rewrite (quiet_run _ _ _ _ (revoke_all_jwt_quiet uid) H2). apply HI.
  - intros k' s Hs. rewrite E2 in Hs. by eapply revoked_all_live.
  - intros k' o Ho Hou. apply (js_done _ _ _ _ HJ (k', o)), Table.elem_of_select.
    rewrite F2 in Ho. split; [done|]. by apply bool_decide_eq_true.
Qed.

(** Journal entries change nothing else. *)
Lemma access_ended_logs uid except w w' w'' :
  access_ended uid except w w' -> logs w' w'' -> access_ended uid except w w''.
Proof.
  intros [[Hse Hu Hfs Hss Hfj Hj] Hf Hs Ha] HL. pose proof (lg_db _ _ HL) as F. pose proof (lg_draws _ _ HL).
  assert (Ept : (users (db w''), security_settings (db w''), user_sessions (db w''),
                blacklisted_tokens (db w''), outstanding_tokens (db w'')) =
              (users (db w'), security_settings (db w'), user_sessions (db w'),
                blacklisted_tokens (db w'), outstanding_tokens (db w'))) by by rewrite F.
  injection Ept as E1 E2 E3 E4 E5. split.
  - split; unfold unique_rows; cbn [objects model_User model_UserSession model_UserSecuritySettings
      model_BlacklistedToken]; rewrite ?E1, ?E2, ?E4; try done.
    + split; [apply HL|]. unfold unique_rows. cbn [objects model_UserSession]. rewrite E3. apply Hse.
    + by apply (fresh_draws w').
    + by apply (fresh_draws w').
  - etrans; [exact Hf|]. unfold only_sign_out. rewrite F. reflexivity.
  - by rewrite (lg_session _ _ HL).
  - unfold access_revoked, blacklisted. by rewrite E3, E4, E5.
Qed.

Lemma sign_out {A} uid actor request exclude event md a (k : M A) Q X w :
  account_ready w ->
  (forall w', signed_out uid (spared request exclude w) event w w' -> wp k Q X w') ->
  wp (revoke_all uid actor request exclude ;; revoke_all_jwt uid ;;
      SecurityEventService.record event (Some uid) request md ;; AuditService.record a ;; k) Q X w.
Proof.
  intros Hr Hk. apply end_access; [done|]. intros w1 H1.
  wp_step. eapply wp_call; [apply event_record_spec, (ar_sessions _ (ae_ready _ _ _ _ H1))| |done].
  intros [ke e] w2 _ (L2 & Hrow & Htype & Huser).
  wp_step. eapply wp_call; [apply audit_record_spec, L2| |done].
  intros y w3 H3 (L3 & _). apply Hk. split.
  - eapply access_ended_logs; [|exact L3]. by eapply access_ended_logs.
  - exists ke, e. split; [|done].
    pose proof (evolves_run _ _ _ _ _ (audit_record_keeps security_events a ltac:(done)) H3) as E3.
    unfold keeps in E3. by rewrite E3.
Qed.

End sign_out.

(** ** Passwords *)

Section passwords.
Context `{E : Env, !EntropyLaws E, !PasswordLaws E}.
Hypothesis configured : crypto_configured = true.

(** The security settings of a user are found or created, once. *)
Lemma settings_found uid w Q X :
  account_ready w ->
  (forall k s created w', account_ready w' -> security_settings (db w') !! k = Some s ->
     db w' = (db w) <| security_settings := security_settings (db w') |> ->
     http_session w' = http_session w -> Q (k, s, created) w') ->
  wp (security_settings_of uid) Q X w.
Proof.
  intros Hr HQ. unfold security_settings_of. apply wp_get_or_create.
  - intros k s Hs _. apply HQ; try done. by destruct (db w).
  - intros Hnone. do 5 wp_step. apply wp_create_fresh.
    + intros n Hn. by apply (ar_settings _ Hr).
    + intros k -> _. apply conflicts_false. intros k' s Hs _.
      specialize (Hnone k' s Hs). cbn in *. unfold same_user. cbn. by rewrite N.eqb_sym.
    + intros k -> Hn Hc. apply HQ; [|cbn; apply lookup_insert_eq|done|done].
      destruct Hr as [[[Ha Hs] Hus] Hu Hfs Hss Hfj Hj]. split; try done.
      * split; [|done]. split; intros n Hd; cbn in Hd |- *; [apply Ha|apply Hs]; lia.
      * intros n Hd. cbn in Hd |- *. rewrite lookup_insert_ne; [apply Hfs; lia|].
        intros Heq%uuid4_inj. lia.
      * unfold unique_rows. cbn. by apply unique_table_insert.
      * intros n Hd. cbn in Hd |- *. apply Hfj. lia.
  - intros (k1 & s1 & k2 & s2 & H1 & P1%N.eqb_eq & H2 & P2%N.eqb_eq & Hne).
    pose proof (ar_settings_unique _ Hr k1 k2 s1 s2 H1 H2 Hne) as Hc. cbn in Hc.
    unfold same_user in Hc. by rewrite P1, P2, N.eqb_refl in Hc.
Qed.

(** Writing a row without touching its constrained columns keeps the tables
    ready. *)
Lemma ready_write_user w uid (u : User.t) w' :
  account_ready w -> conflicts uid u (users (db w)) = false ->
  db w' = (db w) <| users ::= insert uid u |> -> (draws w <= draws w')%nat -> account_ready w'.
Proof.
  intros [[[Ha Hs] Hus] Hu Hfs Hss Hfj Hj] Hc Hdb Hd.
  assert (Hf : forall T `{!Model T}, objects (R := T) (db w') = objects (db w) ->
    fresh (R := T) w -> fresh (R := T) w') by (intros; by eapply fresh_draws).
  split; unfold unique_rows; rewrite ?Hdb; try done; try (apply Hf; by rewrite ?Hdb).
  - split; [split; apply Hf; by rewrite ?Hdb|]. unfold unique_rows. by rewrite Hdb.
  - cbn. by apply unique_table_insert.
Qed.

Lemma ready_save_user w uid (u u' : User.t) w' :
  account_ready w -> users (db w) !! uid = Some u -> (forall a, row_clash u' a = row_clash u a) ->
  db w' = (db w) <| users ::= insert uid u' |> -> (draws w <= draws w')%nat -> account_ready w'.
Proof.
  intros Hr Hk Hc. apply ready_write_user; [done|].
  apply (conflicts_same (R := User.t) uid u); [apply Hr|done|done].
Qed.

Lemma ready_save_settings w k (s s' : UserSecuritySettings.t) w' :
  account_ready w -> security_settings (db w) !! k = Some s ->
  (forall a, row_clash s' a = row_clash s a) ->
  db w' = (db w) <| security_settings ::= insert k s' |> -> (draws w <= draws w')%nat ->
  account_ready w'.
Proof.
  intros [[[Ha Hs] Hus] Hu Hfs Hss Hfj Hj] Hk Hc Hdb Hd.
  assert (Hf : forall T `{!Model T}, objects (R := T) (db w') = objects (db w) ->
    fresh (R := T) w -> fresh (R := T) w') by (intros; by eapply fresh_draws).
  split; unfold unique_rows; rewrite ?Hdb; try done; try (apply Hf; by rewrite ?Hdb).
  - split; [split; apply Hf; by rewrite ?Hdb|]. unfold unique_rows. by rewrite Hdb.
  - intros n Hn. cbn in Hn |- *. rewrite Hdb. cbn. rewrite lookup_insert_ne; [apply Hfs; lia|].
    intros ->. assert (Hx : security_settings (db w) !! uuid4 n = None) by (apply Hfs; lia). congruence.
  - cbn. apply unique_table_insert; [exact Hss|]. by apply (conflicts_same (R := UserSecuritySettings.t) k s).
Qed.

(** The tables an account operation relies on. *)
Definition account_part (d : DB) :=
  (users d, security_settings d, user_sessions d, blacklisted_tokens d, audit_logs d, security_events d).

Lemma ready_part w w' :
  account_ready w -> account_part (db w') = account_part (db w) -> (draws w <= draws w')%nat ->
  account_ready w'.
Proof.
  intros [[[Ha Hs] Hus] Hu Hfs Hss Hfj Hj] [= E1 E2 E3 E4 E5 E6] Hd.
  split; unfold unique_rows; cbn; rewrite ?E1, ?E2, ?E3, ?E4, ?E5, ?E6; try done;
    try by eapply fresh_draws.
  split; [split; by eapply fresh_draws|]. unfold unique_rows. cbn. by rewrite E3.
Qed.

Lemma ready_same w w' :
  account_ready w -> db w' = db w -> (draws w <= draws w')%nat -> account_ready w'.
Proof. intros Hr Hdb Hd. apply (ready_part w); [done|by rewrite Hdb|done]. Qed.

Lemma signed_out_same uid except event w w' w'' :
  signed_out uid except event w w' -> db w'' = db w' -> http_session w'' = http_session w' ->
  draws w'' = draws w' -> signed_out uid except event w w''.
Proof.
  intros [[Hr Hf Hs Ha] He] Hdb Hh Hd. split; [split|]; rewrite ?Hdb, ?Hh; try done.
  apply (ready_same w'); [done|done|lia].
Qed.

(** What installing a password leaves: the new hash, then everything signed
    out. *)
Definition password_installed (uid : uuid) (user : User.t) (new : string) (except : option uuid)
    (event : SecurityEventType.t) (w w' : World) : Prop :=
  exists n t settings w1,
    db w1 = (db w) <| users ::= insert uid (user <| User.password := make_password n new |>
                                                 <| User.updated_at := t |>) |>
                   <| security_settings := settings |> /\
    http_session w1 = http_session w /\ signed_out uid except event w1 w'.

Lemma spared_same request exclude w w' :
  http_session w' = http_session w -> user_sessions (db w') = user_sessions (db w) ->
  spared request exclude w' = spared request exclude w.
Proof. intros Hs Hd. unfold spared, current_of. by rewrite Hs, Hd. Qed.

Lemma install_password_spec uid user new request exclude event action w :
  account_ready w -> users (db w) !! uid = Some user ->
  wp (install_password uid user new request exclude event action)
    (fun _ w' => password_installed uid user new (spared request exclude w) event w w')
    (fun _ _ => False) w.
Proof.
  intros Hr Hu. unfold install_password, hash_password. do 2 wp_step. cbv zeta.
  apply wp_bind. unfold save_user. do 2 wp_step.
  apply (wp_save_row uid _ user); [apply Hr|exact Hu|done|].
  match goal with |- wp _ _ _ ?w1 =>
    assert (R1 : account_ready w1) by by (eapply ready_save_user; [exact Hr|exact Hu| |reflexivity|cbn; lia])
  end.
  wp_step. apply settings_found; [exact R1|]. intros k s created w2 R2 Hs2 F2 S2.
  do 2 wp_step. apply wp_bind. unfold save_security_settings. do 2 wp_step.
  apply (wp_save_row k _ s); [apply R2|exact Hs2|done|].
  match goal with |- wp _ _ _ ?w1 =>
    assert (R3 : account_ready w1); [eapply ready_save_settings; [exact R2|exact Hs2| |reflexivity|cbn; lia]; done|];
    apply sign_out; [exact configured|exact R3|]; set (w3 := w1) in *
  end.
  intros w' HS. do 3 wp_step.
  eexists _, _, _, w3. split; [unfold w3; cbn; rewrite F2; cbn; reflexivity|].
  split; [exact S2|]. apply (signed_out_same _ _ _ w3 w');
    [|by rewrite db_registered|by rewrite http_session_registered|by rewrite draws_registered].
  by rewrite (spared_same request exclude w w3 S2) in HS by by (cbn; rewrite F2).
Qed.

Lemma consume_quiet raw p : quiet (consume raw p).
Proof. unfold consume. quiet. Qed.

Lemma consume_advances raw p : advances (consume raw p).
Proof. unfold consume. advances. Qed.

(** The token a raw value stands for, if it can be used now. *)
Definition usable_token (raw : string) (p : TokenPurpose.t) (w : World) (k : uuid) (tok : OneTimeToken.t) : Prop :=
  one_time_tokens (db w) !! k = Some tok /\ token_query raw p k tok = true /\
  OneTimeToken.is_usable (clock w.(ticks)) tok = true.

(** Every token belongs to a stored user (a foreign key). *)
Definition token_owners (d : DB) : Prop :=
  forall k tok, one_time_tokens d !! k = Some tok -> exists u, users d !! OneTimeToken.user tok = Some u.

(** The attributes a new password must not resemble. *)
Definition acceptable (password : string) (u : User.t) : bool :=
  password_acceptable password [User.username u; User.first_name u; User.last_name u; User.email u].

(** The token was used up. *)
Definition used_up (k : uuid) (tok : OneTimeToken.t) (d : DB) : Prop :=
  exists t, one_time_tokens d !! k = Some (tok <| OneTimeToken.used_at := Some t |>).

(** A token operation fails at the token. *)
Definition no_token (raw : string) (p : TokenPurpose.t) (w : World) (e : exn) : Prop :=
  e = invalid_token /\ forall k tok, ~ usable_token raw p w k tok.

Lemma wp_consume raw p w (Q : uuid * OneTimeToken.t -> World -> Prop) (X : exn -> World -> Prop) :
  account_ready w -> unique_rows (R := OneTimeToken.t) (db w) -> token_owners (db w) ->
  (forall k tok u w', usable_token raw p w k tok -> users (db w) !! OneTimeToken.user tok = Some u ->
     account_ready w' -> http_session w' = http_session w ->
     db w' = (db w) <| one_time_tokens := one_time_tokens (db w') |> -> used_up k tok (db w') ->
     Q (k, tok <| OneTimeToken.used_at := Some (clock (S w.(ticks))) |>) w') ->
  (forall e w', no_token raw p w e -> db w' = db w -> X e w') ->
  wp (consume raw p) Q X w.
Proof.
  intros Hr Hu Ho HQ HX. eapply wp_call; [apply consume_spec| |].
  - intros [k tok'] w' Hrun (tok & Hk & Hq & Hus & Htok & Hdb). cbn [fst snd] in *. subst tok'.
    destruct (Ho k tok Hk) as [u Hou]. apply (HQ k tok u); try done.
    + apply (ready_part w); [done|by rewrite Hdb|].
      pose proof (consume_advances raw p w) as Ha. rewrite Hrun in Ha. apply Ha.
    + exact (quiet_run _ _ _ _ (consume_quiet raw p) Hrun).
    + by rewrite Hdb.
    + eexists. rewrite Hdb. cbn. apply lookup_insert_eq.
  - intros e w' _ [Hdb He]. destruct (He Hu) as [-> Hno]. apply HX; [|done]. split; [done|].
    intros k tok (Hk & Hq & Hus). by rewrite (Hno k tok Hk Hq) in Hus.
Qed.

Lemma wp_validate_password new u w (Q : unit -> World -> Prop) (X : exn -> World -> Prop) :
  (acceptable new u = true -> Q tt w) ->
  (acceptable new u = false -> X (ValidationError "password" "invalid") w) ->
  wp (validate_password new (Some u)) Q X w.
Proof.
  unfold validate_password, acceptable. intros HQ HX.
  destruct (password_acceptable _ _); [wp_step|wp_step]; auto.
Qed.


(** Changing the password takes the old one and an acceptable new one;
    then the new password verifies and every session but the caller's own and
    every refresh token is revoked. Otherwise nothing changes. *)
Theorem change_password_complete uid old new request w :
  account_ready w ->
  match change_password uid old new request w with
  | (inr _, w') => exists user user',
      users (db w) !! uid = Some user /\ User.check_password user old = true /\
      acceptable new user = true /\
      users (db w') !! uid = Some user' /\ User.check_password user' new = true /\
      access_revoked uid (spared request true w) (db w')
  | (inl e, w') => db w' = db w /\
      match users (db w) !! uid with
      | None => e = DoesNotExist
      | Some user =>
          if User.check_password user old
          then acceptable new user = false /\ e = ValidationError "password" "invalid"
          else e = authentication_failed
      end
  end.
Proof.
  intros Hr. apply wp_match. unfold change_password. do 2 wp_step. apply wp_get_pk; [intros r H|intros H]; cbn in H.
  2:{ cbn. split; [done|]. by rewrite H. }
  destruct (User.check_password r old) eqn:Hold; cbn [negb].
  2:{ wp_step. cbn. split; [done|]. by rewrite H, Hold. }
  wp_step. apply wp_validate_password; intros Hacc.
  2:{ cbn. split; [done|]. by rewrite H, Hold. }
  wp_step. eapply wp_mono; [apply install_password_spec; [by apply (ready_same w)|exact H]| |done].
  intros u w2 (n & t & settings & w3 & F3 & S3 & HS). wp_step. rewrite db_committed.
  pose proof (ae_frame _ _ _ _ (so_ended _ _ _ _ _ HS) : db w2 = _) as F2.
  exists r. eexists. do 3 (split; [done|]). split; [rewrite F2, F3; cbn; apply lookup_insert_eq|].
  split; [apply check_make_password|]. apply (so_ended _ _ _ _ _ HS).
Qed.

(** Deactivation takes the password; afterwards the account can no longer
    authenticate in any way (whatever the time and the bans), all its sessions
    and refresh tokens are revoked, and the journal says so. Otherwise nothing
    changes. *)
Theorem deactivate_complete uid password request w :
  account_ready w ->
  match deactivate uid password request w with
  | (inr _, w') => exists user user',
      users (db w) !! uid = Some user /\ User.check_password user password = true /\
      users (db w') !! uid = Some user' /\ User.status user' = AccountStatus.DEACTIVATED /\
      (forall t, available t (db w') uid user' = false) /\
      access_revoked uid None (db w') /\
      exists k e, security_events (db w') !! k = Some e /\ SecurityEvent.user e = Some uid /\
        SecurityEvent.event_type e = SecurityEventType.ACCOUNT_DEACTIVATED
  | (inl e, w') => db w' = db w /\
      match users (db w) !! uid with
      | None => e = DoesNotExist
      | Some user => User.check_password user password = false /\ e = authentication_failed
      end
  end.
Proof.
  intros Hr. apply wp_match. unfold deactivate. do 2 wp_step. apply wp_get_pk; [intros r H|intros H]; cbn in H.
  2:{ cbn. split; [done|]. by rewrite H. }
  destruct (User.check_password r password) eqn:Hpw; cbn [negb].
  2:{ wp_step. cbn. split; [done|]. by rewrite H. }
  apply wp_bind. unfold save_user. do 2 wp_step.
  apply (wp_save_row uid _ r); [apply Hr|exact H|done|].
  match goal with |- wp _ _ _ ?w1 =>
    apply sign_out; [exact configured| |];
    [eapply (ready_save_user w uid r _ w1); [exact Hr|exact H| |reflexivity|cbn; lia]; done|];
    set (w3 := w1)
  end.
  intros w2 HS. wp_step. rewrite db_committed. pose proof (ae_frame _ _ _ _ (so_ended _ _ _ _ _ HS) : db w2 = _) as F2.
  exists r. eexists. do 2 (split; [done|]). split; [rewrite F2; cbn; apply lookup_insert_eq|].
  split; [done|]. split; [done|]. split; [apply (so_ended _ _ _ _ _ HS)|].
  destruct (so_event _ _ _ _ _ HS) as (k & e & ? & ? & ?). by exists k, e.
Qed.

End passwords.

(** ** Verification, e-mail change and deletion *)

Section token_operations.
Context `{E : Env, !EntropyLaws E, !PasswordLaws E}.
Hypothesis configured : crypto_configured = true.

(** A verification token verifies its owner's address and is used up. Only
    a pending account becomes active: a suspended, banned, deactivated or
    deleted one keeps its status, and an address verified before keeps its
    date. Without a usable token nothing changes. *)
Theorem verify_email_complete raw request w :
  account_ready w -> unique_rows (R := OneTimeToken.t) (db w) -> token_owners (db w) ->
  match verify_email raw request w with
  | (inr (uid, _), w') => exists k tok user user',
      usable_token raw TokenPurpose.EMAIL_VERIFICATION w k tok /\ OneTimeToken.user tok = uid /\
      used_up k tok (db w') /\
      users (db w) !! uid = Some user /\ users (db w') !! uid = Some user' /\
      User.is_email_verified user' = true /\
      (User.is_email_verified user = true -> user' = user) /\
      User.status user' = (if negb (User.is_email_verified user) && bool_decide (User.status user = AccountStatus.PENDING)
                           then AccountStatus.ACTIVE else User.status user) /\
      (forall k', k' <> uid -> users (db w') !! k' = users (db w) !! k')
  | (inl e, w') => db w' = db w /\ no_token raw TokenPurpose.EMAIL_VERIFICATION w e
  end.
Proof.
  intros Hr Hu Ho. apply wp_match. unfold verify_email.
  wp_step. wp_step. apply wp_consume; [by apply (ready_same w)|exact Hu|exact Ho| |].
  2:{ intros e w1 He Hdb. by cbn. }
  intros k tok user w1 Htok Huser R1 S1 F1 Hused. cbn beta iota.
  wp_step. apply (wp_found _ user); [by rewrite F1|]. unfold User.is_email_verified.
  destruct (is_some (User.email_verified_at user)) eqn:Hv; cbn [negb andb].
  { wp_step. rewrite db_committed. exists k, tok, user, user. do 4 (split; [done|]).
    split; [by rewrite F1|]. rewrite Hv. do 3 (split; [done|]). intros k' _. by rewrite F1. }
  do 2 wp_step. apply wp_bind. unfold save_user. do 2 wp_step.
  apply (wp_save_row _ _ user); [apply R1|cbn; by rewrite F1|done|].
  match goal with |- wp _ _ _ ?w2 =>
    assert (R2 : account_ready w2); [eapply (ready_save_user w1 _ user);
      [exact R1|by rewrite F1| |reflexivity|cbn; lia]; done|];
    assert (F2 : db w2 = db w2) by done; set (w2' := w2) in *
  end.
  wp_step. eapply wp_call; [apply audit_record_spec, R2| |done].
  intros y w3 _ (L3 & _). do 3 wp_step. rewrite db_committed, db_registered.
  exists k, tok, user. eexists. do 2 (split; [done|]).
  rewrite (lg_db _ _ L3). cbn. split; [exact Hused|]. split; [done|].
  split; [apply lookup_insert_eq|]. rewrite Hv. split; [done|]. split; [done|]. split.
  - cbn. by case_decide; [rewrite bool_decide_true|rewrite bool_decide_false].
  - intros k' Hne. rewrite lookup_insert_ne by done. by rewrite F1.
Qed.


Definition new_email_of (tok : OneTimeToken.t) : option string :=
  snd <$> List.find (fun kv => String.eqb kv.1 "new_email") (OneTimeToken.metadata tok).

(** Another account has the address, in any case. *)
Definition taken_by_other (d : DB) (uid : uuid) (address : string) : Prop :=
  exists k v, users d !! k = Some v /\ k <> uid /\ Str.iexact (User.email v) address = true.

Lemma wp_email_taken address uid w (Q : bool -> World -> Prop) X :
  (taken_by_other (db w) uid address -> Q true w) ->
  (~ taken_by_other (db w) uid address -> Q false w) -> wp (email_taken address uid) Q X w.
Proof.
  intros Ht Hf. unfold email_taken. wp_step.
  destruct (Table.any _ _) eqn:Ea; [apply Ht|apply Hf].
  - apply Table.any_true in Ea as (k & v & Hk & [Hi Hn]%andb_true_iff).
    exists k, v. split; [done|]. split; [|done]. intros ->. by rewrite N.eqb_refl in Hn.
  - intros (k & v & Hk & Hn & Hi). rewrite Table.any_false in Ea. specialize (Ea k v Hk).
    apply N.eqb_neq in Hn. by rewrite Hi, Hn in Ea.
Qed.

Lemma free_address_no_conflict d uid u u' :
  unique_rows (R := User.t) d -> users d !! uid = Some u -> ~ taken_by_other d uid (User.email u') ->
  User.username u' = User.username u -> conflicts uid u' (users d) = false.
Proof.
  intros Hu Hk Hfree Hname. apply conflicts_false. intros k v Hv Hne. cbn. unfold User.clash.
  rewrite Hname. assert (Hc : User.clash u v = false) by (apply (Hu uid k u v); done).
  unfold User.clash in Hc. apply orb_false_iff in Hc as [_ ->]. rewrite orb_false_r.
  destruct (Str.iexact _ _) eqn:Ei; [|done]. exfalso. apply Hfree. exists k, v. by rewrite Str.iexact_sym.
Qed.

(** Confirming a new e-mail address uses up the token, gives its owner the
    (normalised, verified) address the token was issued for, provided nobody
    else has it by now in any case, and revokes every session but the caller's
    own and every refresh token. A clash is reported as CONFLICT; on any error
    the database, the token included, is as before. *)
Theorem confirm_email_change_complete raw request w :
  account_ready w -> unique_rows (R := OneTimeToken.t) (db w) -> token_owners (db w) ->
  match confirm_email_change raw request w with
  | (inr (uid, _), w') => exists k tok address user user',
      usable_token raw TokenPurpose.EMAIL_CHANGE w k tok /\ OneTimeToken.user tok = uid /\
      used_up k tok (db w') /\ new_email_of tok = Some address /\
      ~ taken_by_other (db w) uid address /\
      users (db w) !! uid = Some user /\ users (db w') !! uid = Some user' /\
      User.email user' = User.normalize_email_address address /\
      User.is_email_verified user' = true /\ User.password user' = User.password user /\
      access_revoked uid (spared request true w) (db w')
  | (inl e, w') => db w' = db w /\
      (no_token raw TokenPurpose.EMAIL_CHANGE w e \/
       exists k tok, usable_token raw TokenPurpose.EMAIL_CHANGE w k tok /\
         match new_email_of tok with
         | None => e = KeyError "new_email"
         | Some address =>
             taken_by_other (db w) (OneTimeToken.user tok) address /\
               e = conflict "That email address is unavailable." \/
             User.normalize_email_address address <> address /\ e = IntegrityError
         end)
  end.
Proof.
  intros Hr Hu Ho. apply wp_match. unfold confirm_email_change.
  wp_step. wp_step. apply wp_consume; [by apply (ready_same w)|exact Hu|exact Ho| |].
  2:{ intros e w1 He Hdb. cbn. split; [done|]. by left. }
  intros k tok user w1 Htok Huser R1 S1 F1 Hused. cbn beta iota.
  wp_step. apply (wp_found _ user); [by rewrite F1|]. cbv zeta. wp_step. unfold metadata_item.
  set (meta := List.find _ _).
  assert (Hmeta : new_email_of tok = snd <$> meta) by done.
  destruct meta as [kv|]; [|wp_step; split; [done|]; right; exists k, tok; by rewrite Hmeta].
  wp_step. set (address := kv.2) in *.
  wp_step. apply wp_email_taken; intros Htaken; unfold taken_by_other in Htaken; rewrite F1 in Htaken.
  { wp_step. split; [done|]. right. exists k, tok. split; [done|]. rewrite Hmeta. left.
    split; [exact Htaken|done]. }
  do 2 wp_step. apply wp_bind. unfold save_user. do 2 wp_step.
  assert (Hfree : ~ taken_by_other (db w1) (OneTimeToken.user tok) address)
    by (unfold taken_by_other; by rewrite F1).
  assert (Huser1 : users (db w1) !! OneTimeToken.user tok = Some user) by by rewrite F1.
  apply wp_save_fields.
  - intros r Hr1 Hc. cbn in Hr1, Hc. assert (r = user) as -> by congruence. match goal with |- wp _ _ _ ?w2 =>
      assert (R2 : account_ready w2) by
        (eapply ready_write_user; [exact R1|exact Hc|reflexivity|cbn; lia]);
      apply sign_out; [exact configured|exact R2|]; set (w2' := w2) in *
    end.
    intros w3 HS. do 3 wp_step. rewrite db_committed, db_registered.
    pose proof (ae_frame _ _ _ _ (so_ended _ _ _ _ _ HS) : db w3 = _) as F3.
    exists k, tok, address, user. eexists. do 2 (split; [done|]).
    split; [unfold used_up; rewrite F3; exact Hused|]. split; [by rewrite Hmeta|].
    do 2 (split; [done|]). split; [rewrite F3; apply lookup_insert_eq|].
    do 3 (split; [done|]).
    rewrite (spared_same request true w w2') in HS by (done || (cbn; by rewrite F1)).
    apply (so_ended _ _ _ _ _ HS).
  - intros Hn. cbn in Hn. congruence.
  - intros r Hr1 Hc. split; [done|]. right. exists k, tok. split; [done|]. rewrite Hmeta. right.
    split; [|done]. fold address. intros Heq. cbn in Hr1, Hc. assert (r = user) as -> by congruence.
    rewrite (free_address_no_conflict (db w1) _ user) in Hc; [done|apply R1|done| |done].
    cbn. by rewrite Heq.
Qed.


(** The row of a deleted account carries no personal data. *)
Definition anonymous_row (uid : uuid) (u : User.t) : Prop :=
  User.email u = User.normalize_email_address (deleted_name uid +:+ "@invalid.local") /\
  User.username u = Str.strip (deleted_name uid) /\
  User.first_name u = "" /\ User.last_name u = "" /\ User.phone u = "" /\ User.avatar u = "" /\
  User.status u = AccountStatus.DELETED /\ User.is_active u = false.

(** [C34] Confirming a deletion uses up the token and leaves an account that
    carries no personal data (nor does its profile), that no password opens,
    that can never authenticate and through which nobody is signed in. It only
    fails without a usable token, or when another row already bears the
    anonymous name; then nothing changes. *)
Theorem confirm_deletion_complete raw request w :
  account_ready w -> unique_rows (R := OneTimeToken.t) (db w) -> token_owners (db w) ->
  match confirm_deletion raw request w with
  | (inr _, w') => exists k tok user,
      let uid := OneTimeToken.user tok in
      usable_token raw TokenPurpose.ACCOUNT_DELETION w k tok /\ used_up k tok (db w') /\
      users (db w') !! uid = Some user /\ anonymous_row uid user /\
      (forall p, User.check_password user p = false) /\
      (forall t, available t (db w') uid user = false) /\
      (forall kp p, profiles (db w') !! kp = Some p -> UserProfile.user p = uid ->
         UserProfile.bio p = "" /\ UserProfile.website p = "" /\ UserProfile.location p = "") /\
      access_revoked uid None (db w')
  | (inl e, w') => db w' = db w /\
      (no_token raw TokenPurpose.ACCOUNT_DELETION w e \/
       e = IntegrityError /\ exists k tok uid' v, usable_token raw TokenPurpose.ACCOUNT_DELETION w k tok /\
         users (db w) !! uid' = Some v /\ uid' <> OneTimeToken.user tok /\
         exists row, anonymous_row (OneTimeToken.user tok) row /\ User.clash row v = true)
  end.
Proof.
  intros Hr Hu Ho. apply wp_match. unfold confirm_deletion.
  wp_step. wp_step. apply wp_consume; [by apply (ready_same w)|exact Hu|exact Ho| |].
  2:{ intros e w1 He Hdb. cbn. split; [done|]. by left. }
  intros k tok user w1 Htok Huser R1 S1 F1 Hused. cbn beta iota.
  assert (Huser1 : users (db w1) !! OneTimeToken.user tok = Some user) by by rewrite F1.
  wp_step. apply (wp_found _ user); [done|]. cbv zeta. unfold hash_password.
  do 2 wp_step. apply wp_bind. unfold save_user. do 2 wp_step. apply wp_save_fields.
  - intros r Hr1 Hc. cbn in Hr1, Hc. assert (r = user) as -> by congruence.
    match goal with |- wp _ _ _ ?w2 =>
      assert (R2 : account_ready w2) by
        (eapply ready_write_user; [exact R1|exact Hc|reflexivity|cbn; lia]); set (wu := w2) in *
    end.
    do 2 wp_step. apply sign_out; [exact configured|by apply (ready_part wu)|].
    intros w3 HS. pose proof (ae_frame _ _ _ _ (so_ended _ _ _ _ _ HS) : db w3 = _) as F3.
    match goal with |- wp _ ?Q ?X _ => assert (Hend : forall w4, db w4 = db w3 -> Q tt w4) end.
    { intros w4 F4. cbn beta. rewrite db_committed, F4.
      exists k, tok. eexists. cbv zeta. split; [done|].
      split; [unfold used_up; rewrite F3; exact Hused|].
      split; [rewrite F3; apply lookup_insert_eq|].
      split; [repeat (split; [reflexivity|]); reflexivity|].
      split; [intros p; apply check_unusable_password|]. split; [done|]. split; [|apply (so_ended _ _ _ _ _ HS)].
      intros kp p Hp Hpu. rewrite F3 in Hp. cbn in Hp.
      rewrite Table.lookup_update in Hp. apply fmap_Some in Hp as (p0 & _ & ->).
      revert Hpu. destruct (N.eqb_spec (UserProfile.user p0) (OneTimeToken.user tok)); cbn; [done|].
      done. }
    wp_step. unfold when. destruct (negb _); do 2 wp_step; apply Hend; by rewrite ?db_registered.
  - intros Hn. cbn in Hn. congruence.
  - intros r Hr1 Hc. split; [done|]. right. split; [done|].
    cbn in Hc. apply Table.any_true in Hc as (uid' & v & Hv & [Hne Hcl]%andb_true_iff).
    exists k, tok, uid', v. split; [done|]. split; [by rewrite F1 in Hv|].
    split; [intros ->; by rewrite N.eqb_refl in Hne|]. eexists. split; [|exact Hcl].
    repeat (split; [reflexivity|]); reflexivity.
Qed.

End token_operations.

(** ** Names and requests *)

Section names.
Context `{E : Env, !EntropyLaws E}.

(** Another account has the name, in any case. *)
Definition name_taken (d : DB) (uid : uuid) (name : string) : Prop :=
  exists k v, users d !! k = Some v /\ k <> uid /\ Str.iexact (User.username v) name = true.

(** Changing the user name stores the stripped name on that account only,
    and only when nobody else has it in any case and the fields are valid; on
    an error nothing changes. A name that is taken is reported by the
    validation of the constraints: the CONFLICT the code has for it, which
    stands for the database's own refusal, is never the answer. *)
Theorem change_username_complete uid username request w :
  account_ready w ->
  match change_username uid username request w with
  | (inr (uid', _), w') => exists user t,
      uid' = uid /\ users (db w) !! uid = Some user /\ ~ name_taken (db w) uid (Str.strip username) /\
      users (db w') = <[uid := user <| User.username := Str.strip username |> <| User.updated_at := t |>]>
                        (users (db w))
  | (inl e, w') => db w' = db w /\ e <> conflict "That username is unavailable." /\
      (e = DoesNotExist \/ e = ValidationError "user" "invalid" \/ e = ValidationError "user" "unique")
  end.
Proof.
  intros Hr. apply wp_match. unfold change_username. do 2 wp_step.
  apply wp_get_pk; [intros user Hu|intros Hu]; cbn in Hu.
  2:{ split; [done|]. by auto. }
  cbv zeta. wp_step. wp_step. wp_step. unfold full_clean. cbv zeta.
  destruct (user_fields_valid _ _ _ _); cbn [negb].
  2:{ wp_step. rewrite decide_False by done. wp_step. split; [done|]. by auto. }
  do 2 wp_step. destruct (Table.any _ _) eqn:Ec.
  { wp_step. rewrite decide_False by done. wp_step. split; [done|]. by auto. }
  wp_step. unfold save_user. do 2 wp_step.
  assert (Hfree : ~ name_taken (db w) uid (Str.strip username)).
  { intros (k & v & Hk & Hne & Hi). rewrite Table.any_false in Ec. specialize (Ec k v Hk).
    apply N.eqb_neq in Hne. rewrite Hne in Ec. unfold User.clash in Ec. cbn -[Str.strip Str.iexact] in Ec.
    by rewrite (Str.iexact_sym (Str.strip username)), Hi, orb_true_r in Ec. }
  assert (Hclear : forall t, conflicts uid (user <| User.username := Str.strip username |>
      <| User.updated_at := t |>) (users (db w)) = false).
  { intros t. apply conflicts_false. intros k v Hv Hne. cbn -[Str.strip Str.iexact]. unfold User.clash. cbn -[Str.strip Str.iexact].
    assert (Hc : User.clash user v = false) by (apply (ar_users _ Hr uid k user v); done).
    unfold User.clash in Hc. apply orb_false_iff in Hc as [-> _]. cbn [orb].
    destruct (Str.iexact _ _) eqn:Ei; [|done]. exfalso. apply Hfree. exists k, v. by rewrite Str.iexact_sym. }
  apply wp_save_fields; cbn -[Str.strip Str.iexact]; rewrite ?Str.strip_idem.
  - intros r Hr1 Hc. assert (r = user) as -> by congruence. wp_step.
    eapply wp_call; [apply audit_record_spec| |done].
    { apply (journal_ready_move w); [apply Hr|done|done|done]. }
    intros x w1 _ (L & _). wp_step. rewrite db_committed, (lg_db _ _ L). cbn -[Str.strip Str.iexact].
    exists user. eexists. split; [done|]. split; [done|]. split; [done|]. by rewrite ?Str.strip_idem.
  - intros Hn. congruence.
  - intros r Hr1 Hc. assert (r = user) as -> by congruence. exfalso.
    pose proof (Hclear (clock (ticks w))) as Hcl. cbn -[Str.strip Str.iexact] in Hc, Hcl.
    rewrite ?Str.strip_idem in Hc. congruence.
Qed.

End names.

(** ** Asking for a password reset *)

Section reset_requests.
Context `{E : Env, !EntropyLaws E}.

(** The random values still to be drawn are not the tokens in the table. *)
Definition tokens_unseen (w : World) : Prop :=
  forall n p k tok, (draws w <= n)%nat -> one_time_tokens (db w) !! k = Some tok ->
    OneTimeToken.token_hash tok <> token_key (token_urlsafe n 32) p.

Lemma issue_total u p ttl md w :
  fresh (R := OneTimeToken.t) w -> tokens_unseen w -> hooks w = [] ->
  wp (issue u p ttl md)
    (fun raw w' => exists k created,
       one_time_tokens (db w') !! k =
         Some (issued_token u p raw md created (clock w.(ticks) + ttl)) /\
       db w' = (db w) <| one_time_tokens := one_time_tokens (db w') |> /\
       effects w' = effects w /\ hooks w' = hooks w /\ depth w' = depth w)
    (fun _ _ => False) w.
Proof.
  intros Hf Hn Hh. unfold issue, generate_token. do 10 wp_step. apply wp_create_fresh.
  - intros n Hd. cbn -[Table.update] in Hd |- *. rewrite Table.lookup_update, fmap_None. apply Hf. lia.
  - intros k _ _. apply conflicts_false. intros k' tok Hk' _. cbn -[Table.update] in Hk' |- *.
    rewrite Table.lookup_update in Hk'. apply fmap_Some in Hk' as (tok0 & Hk0 & ->).
    unfold OneTimeToken.clash. apply String.eqb_neq. intros Heq. apply (Hn (draws w) p k' tok0); [lia|done|].
    cbn in Heq. rewrite Heq. by destruct (outstanding_for _ _ _ _).
  - intros k -> _ _. wp_step. eexists _, _. unfold committed. cbn -[Table.update].
    destruct (Nat.eqb _ _); cbn -[Table.update]; rewrite ?Hh, ?app_nil_r;
      (split; [apply lookup_insert_eq|done]).
Qed.


End reset_requests.

(** ** Registration *)

Section registration.
Context `{E : Env, !PasswordLaws E}.

Definition stored_email (address : string) : string :=
  User.normalize_email_address (normalize_username (User.normalize_email_address address)).

Definition stored_username (name : string) : string := Str.strip (Str.strip name).

(** What a new account looks like. *)
Record new_account (address name password : string) (u : User.t) : Prop := {
  na_email : User.email u = stored_email address;
  na_name : User.username u = stored_username name;
  na_status : User.status u = AccountStatus.PENDING;
  na_plain : User.is_staff u = false /\ User.is_superuser u = false;
  na_unverified : User.is_email_verified u = false;
  na_password : User.check_password u password = true;
}.

Lemma create_user_spec address name password first last w :
  wp (create_user address name (Some password) first last)
    (fun x w' => new_account address name password x.2 /\
       users (db w) !! x.1 = None /\ conflicts x.1 x.2 (users (db w)) = false /\
       db w' = (db w) <| users ::= insert x.1 x.2 |>)
    (fun e w' => db w' = db w /\
       (e = IntegrityError \/ (exists m, e = ValueError m) \/ exists m c, e = ValidationError m c)) w.
Proof.
  unfold create_user, _create_user, hash_password.
  destruct (Str.is_empty address); [wp_step; split; [done|]; right; left; by eexists|].
  destruct (Str.is_empty name); [wp_step; split; [done|]; right; left; by eexists|].
  do 4 wp_step. cbv zeta. destruct (user_fields_valid _ _ _ _); cbn [negb].
  2:{ wp_step. split; [done|]. right. right. by eexists _, _. }
  do 5 wp_step.
  - split; [|by split].
    split; try done. cbn. apply check_make_password.
  - split; [done|]. by left.
Qed.

Definition registration_part (d : DB) := (users d, roles d).

Lemma create_keeps_part {R} `{!Model R} (r : R) :
  (forall f d, registration_part (with_objects f d) = registration_part d) ->
  evolves (keeps registration_part) (create r).
Proof. intros Hp. evolve. apply Hp. Qed.

(** One statement that does not touch users and roles. *)
Ltac keep_part lemma w' P' :=
  repeat (lazymatch goal with |- wp (create _) _ _ _ => fail | |- _ => wp_step end);
  apply wp_any; [|done];
  let x := fresh "x" in let H := fresh "H" in
  intros x w' H;
  lazymatch goal with P : registration_part (db _) = ?p |- _ =>
    assert (P' : registration_part (db w') = p) by
      (etrans; [refine (evolves_run _ _ _ _ _ _ H); apply lemma; reflexivity|exact P]);
    clear P
  end.

Lemma assign_role_spec uid (found : option (uuid * Role.t)) part w :
  registration_part (db w) = part ->
  wp (match found with
      | Some (role, _) =>
          get_or_create (fun _ r => N.eqb (UserRole.user r) uid && N.eqb (UserRole.role r) role)
            (let! f := now in let! c := now in ret (UserRole.mk uid role None f None c)) ;;
          ret tt
      | None => ret tt
      end)
    (fun _ w' => registration_part (db w') = part /\
       forall role r, found = Some (role, r) ->
         exists k a, user_roles (db w') !! k = Some a /\ UserRole.user a = uid /\ UserRole.role a = role)
    (fun _ _ => True) w.
Proof.
  intros Hp. destruct found as [[role r']|]; [|by wp_step]. wp_step. apply wp_get_or_create.
  - intros k a Ha [Hau Har]%andb_true_iff. wp_step. split; [exact Hp|]. intros ?? [= <- _].
    exists k, a. apply N.eqb_eq in Hau, Har. by split.
  - intros _. do 5 wp_step. wp_step; [|done]. wp_step. split; [exact Hp|]. intros ?? [= <- _].
    eexists _, _. split; [apply lookup_insert_eq|done].
  - done.
Qed.


End registration.

(** ** Witnesses *)

Section witnesses.

(** Alice has a token of every purpose, with the raw value of its purpose. *)
Definition sample_token (p : TokenPurpose.t) (md : list (string * string)) : OneTimeToken.t :=
  issued_token (E := demo_env) 1 p (TokenPurpose.value p) md 0 (days 100000).

Definition account_world : World := sample_world <| db ::= fun d => d
  <| one_time_tokens := {[ 21%N := sample_token TokenPurpose.EMAIL_VERIFICATION [];
                           22%N := sample_token TokenPurpose.PASSWORD_RESET [];
                           23%N := sample_token TokenPurpose.EMAIL_CHANGE [("new_email", "alice@new.test")];
                           24%N := sample_token TokenPurpose.ACCOUNT_DELETION [] ]} |> |>.

Lemma account_world_ready : account_ready (E := demo_env) account_world.
Proof. split; [split; [split|]|..]; sample_check. Qed.

Lemma account_world_tokens : unique_rows (R := OneTimeToken.t) (db account_world).
Proof. sample_check. Qed.

Lemma account_world_owners : token_owners (db account_world).
Proof.
  intros k tok Hk. apply elem_of_map_to_list in Hk. revert Hk. vm_compute map_to_list.
  intros Hin. exists (sample_user "alice").
  repeat (apply elem_of_cons in Hin as [Hin|Hin]; [by injection Hin as _ ->|]). by apply not_elem_of_nil in Hin.
Qed.


Lemma change_password_complete_witness :
  exists u w' user',
    change_password (E := demo_env) 1 "correct horse battery" "a new passphrase" (Some sample_request)
      account_world = (inr u, w') /\
    users (db w') !! 1%N = Some user' /\
    User.check_password (H := demo_env) user' "a new passphrase" = true /\
    access_revoked 1 (Some 11%N) (db w').
Proof.
  pose proof (change_password_complete (E := demo_env) eq_refl 1 "correct horse battery" "a new passphrase"
    (Some sample_request) account_world account_world_ready) as H.
  replace (spared _ _ _) with (Some 11%N) in H by (vm_compute; reflexivity).
  run_returns (change_password (E := demo_env) 1 "correct horse battery" "a new passphrase"
    (Some sample_request) account_world) H.
  destruct H as (user & user' & _ & _ & _ & H1 & H2 & H3).
  exists a, w', user'. split; [done|]. split; [exact H1|]. split; [exact H2|exact H3].
Defined.

Lemma deactivate_complete_witness :
  exists u w' user',
    deactivate (E := demo_env) 1 "correct horse battery" None account_world = (inr u, w') /\
    users (db w') !! 1%N = Some user' /\ User.status user' = AccountStatus.DEACTIVATED.
Proof.
  pose proof (deactivate_complete (E := demo_env) eq_refl 1 "correct horse battery" None
    account_world account_world_ready) as H.
  run_returns (deactivate (E := demo_env) 1 "correct horse battery" None account_world) H.
  destruct H as (user & user' & _ & _ & H1 & H2 & _).
  exists a, w', user'. split; [done|]. split; [exact H1|exact H2].
Defined.

(** Alice before her address was verified. *)
Definition pending_world : World := account_world <| db ::= fun d => d
  <| users ::= insert 1%N ((sample_user "alice") <| User.status := AccountStatus.PENDING |>
                             <| User.email_verified_at := None |>) |> |>.

Lemma pending_world_ready : account_ready (E := demo_env) pending_world.
Proof. split; [split; [split|]|..]; sample_check. Qed.

Lemma pending_world_owners : token_owners (db pending_world).
Proof.
  intros k tok Hk. apply elem_of_map_to_list in Hk. revert Hk. vm_compute map_to_list.
  intros Hin. eexists.
  repeat (apply elem_of_cons in Hin as [Hin|Hin]; [injection Hin as _ ->; reflexivity|]).
  by apply not_elem_of_nil in Hin.
Qed.

Lemma verify_email_complete_witness :
  exists uid u w' user',
    verify_email (E := demo_env) "email_verification" None pending_world = (inr (uid, u), w') /\
    users (db w') !! uid = Some user' /\ User.is_email_verified user' = true.
Proof.
  pose proof (verify_email_complete (E := demo_env) "email_verification" None pending_world
    pending_world_ready account_world_tokens pending_world_owners) as H.
  run_returns (verify_email (E := demo_env) "email_verification" None pending_world) H.
  destruct a as [uid u]. destruct H as (k & tok & user & user' & _ & _ & _ & _ & H1 & H2 & _).
  exists uid, u, w', user'. split; [done|]. split; [exact H1|exact H2].
Defined.

Lemma confirm_email_change_complete_witness :
  exists uid u w' user',
    confirm_email_change (E := demo_env) "email_change" (Some sample_request) account_world
      = (inr (uid, u), w') /\
    users (db w') !! uid = Some user' /\ User.is_email_verified user' = true.
Proof.
  pose proof (confirm_email_change_complete (E := demo_env) eq_refl "email_change" (Some sample_request)
    account_world account_world_ready account_world_tokens account_world_owners) as H.
  run_returns (confirm_email_change (E := demo_env) "email_change" (Some sample_request) account_world) H.
  destruct a as [uid u].
  destruct H as (k & tok & address & user & user' & _ & _ & _ & _ & _ & _ & H1 & _ & H2 & _).
  exists uid, u, w', user'. split; [done|]. split; [exact H1|exact H2].
Defined.

Lemma confirm_deletion_complete_witness :
  exists u w' k tok user,
    confirm_deletion (E := demo_env) "account_deletion" None account_world = (inr u, w') /\
    users (db w') !! OneTimeToken.user tok = Some user /\ anonymous_row (E := demo_env) (OneTimeToken.user tok) user /\
    used_up k tok (db w').
Proof.
  pose proof (confirm_deletion_complete (E := demo_env) eq_refl "account_deletion" None
    account_world account_world_ready account_world_tokens account_world_owners) as H.
  run_returns (confirm_deletion (E := demo_env) "account_deletion" None account_world) H.
  destruct H as (k & tok & user & _ & H0 & H1 & H2 & _).
  exists a, w', k, tok, user. split; [done|]. split; [exact H1|]. split; [exact H2|exact H0].
Defined.

Lemma change_username_complete_witness :
  exists e w', change_username (E := demo_env) 1 " BOB " None account_world = (inl e, w') /\
    db w' = db account_world /\ e <> conflict "That username is unavailable.".
Proof.
  pose proof (change_username_complete (E := demo_env) 1 " BOB " None account_world account_world_ready) as H.
  run_raises (change_username (E := demo_env) 1 " BOB " None account_world) H.
  destruct H as (H1 & H2 & _). exists e, w'. split; [done|]. by split.
Defined.

Lemma account_world_unseen : tokens_unseen (E := demo_env) account_world.
Proof.
  intros n p k tok _ Hk%elem_of_map_to_list. revert Hk. vm_compute map_to_list. intros Hin.
  repeat (apply elem_of_cons in Hin as [Hin|Hin];
    [injection Hin as _ ->; destruct p; discriminate|]).
  by apply not_elem_of_nil in Hin.
Qed.



End witnesses.
