(* ===== verification/Bans.v ===== *)
(** * Bans ([BanService] and [expire_temporary_bans]) *)

From S2P Require Import Prelude Env Demo Models Orm Logic Common Samples Users Tokens Sessions Accounts.

Section bans.
Context `{E : Env}.

(** [BanService.ban]; the check constraint on the expiry is the database's. *)
Definition ban (uid : uuid) (reason : string) (actor : option uuid) (starts_at expires_at : option Z)
    (request : option Request) : M (uuid * UserBan.t) :=
  atomic (
    let! locked := get_pk (R := User.t) uid in
    let! starts := match starts_at with Some t => ret t | None => now end in
    let! created := now in
    let row := UserBan.mk uid reason actor starts expires_at created None in
    (if UserBan.valid row then ret tt else raise IntegrityError) ;;
    let! '(k, b) := create row in
    let! t := now in
    when (UserBan.starts_at b <=? t) (
      save_user uid (fun u => u <| User.status := AccountStatus.BANNED |>) ;;
      revoke_all uid actor request false ;;
      revoke_all_jwt uid ;;
      ret tt) ;;
    AuditService.record ((AuditService.on "account.banned" (user_target uid locked) actor request)
      <| AuditService.after :=
           [("reason", PStr reason);
            ("expires_at", match expires_at with Some e => PStr (isoformat e) | None => PNone end)] |>) ;;
    ret (k, b)).

(** [user.bans.filter(revoked_at null, starts_at <= t1).filter(expires_at null
    or > t2).exists()]: on the related manager of one user both filters speak
    of the same ban. *)
Definition still_banned (t1 t2 : Z) (uid : uuid) (_ : uuid) (b : UserBan.t) : bool :=
  N.eqb (UserBan.user b) uid && is_none (UserBan.revoked_at b) && (UserBan.starts_at b <=? t1)
  && match UserBan.expires_at b with None => true | Some e => t2 <? e end.

(** [BanService.revoke] *)
Definition revoke_ban (ban : uuid) (actor : option uuid) (request : option Request) : M unit :=
  atomic (
    let! locked := get_pk (R := UserBan.t) ban in
    let uid := UserBan.user locked in
    let! user := get_pk (R := User.t) uid in
    if is_some (UserBan.revoked_at locked) then ret tt else
    let! revoked := now in
    save_fields ban (fun b => b <| UserBan.revoked_at := Some revoked |>) ;;
    let! t1 := now in
    let! t2 := now in
    let! still := exists_row (still_banned t1 t2 uid) in
    when (negb still && bool_decide (User.status user = AccountStatus.BANNED))
      (save_user uid (fun u => u <| User.status := AccountStatus.ACTIVE |>)) ;;
    AuditService.record (AuditService.on "account.ban_revoked" (user_target uid user) actor request) ;;
    ret tt).

(** ** [expire_temporary_bans]

    [.filter(bans__a).filter(bans__b)] on users joins the ban table twice: one
    ban has to be unrevoked and started, and one ban, not necessarily the same,
    has to be unexpired. *)

Definition has_ban (d : DB) (uid : uuid) (P : UserBan.t -> bool) : bool :=
  Table.any (fun _ b => N.eqb (UserBan.user b) uid && P b) (bans d).

Definition started_ban (t : Z) (b : UserBan.t) : bool :=
  is_none (UserBan.revoked_at b) && (UserBan.starts_at b <=? t).
Definition unexpired_ban (t : Z) (b : UserBan.t) : bool :=
  match UserBan.expires_at b with None => true | Some e => t <? e end.
Definition lapsed_ban (t : Z) (b : UserBan.t) : bool :=
  match UserBan.expires_at b with Some e => e <=? t | None => false end
  && is_none (UserBan.revoked_at b).

(** [users_to_activate] *)
Definition to_activate (t : Z) (d : DB) (uid : uuid) (u : User.t) : bool :=
  negb (bool_decide (User.status u = AccountStatus.BANNED))
  && has_ban d uid (started_ban t) && has_ban d uid (unexpired_ban t).

Definition activate_ban (uid : uuid) (user : User.t) : M unit :=
  save_user uid (fun u => u <| User.status := AccountStatus.BANNED |>) ;;
  revoke_all uid None None false ;;
  revoke_all_jwt uid ;;
  AuditService.record (AuditService.on "account.ban_activated" (user_target uid user) None None) ;;
  ret tt.

(** The second half: users whose temporary ban is over. *)
Definition release (t : Z) (updated : nat) (x : uuid * User.t) : M nat :=
  let! has_active := exists_row (still_banned t t x.1) in
  if (has_active : bool) then ret updated else
  save_user x.1 (fun u => u <| User.status := AccountStatus.ACTIVE |>) ;;
  ret (S updated).

Definition expire_temporary_bans : M nat :=
  let! t := now in
  let! d := read db in
  let! users_to_activate := filter_rows (to_activate t d) in
  for_each users_to_activate (fun x => activate_ban x.1 x.2) ;;
  let! d := read db in
  let! lapsed := filter_rows (fun uid u =>
    bool_decide (User.status u = AccountStatus.BANNED) && has_ban d uid (lapsed_ban t)) in
  let! updated := fold_m (release t) 0%nat lapsed in
  ret (updated + length users_to_activate)%nat.

End bans.

(** ** Imposing and lifting a ban *)

Section ban_facts.
Context `{E : Env, !EntropyLaws E}.
Hypothesis configured : crypto_configured = true.

(** An active ban on the user exists at that time. *)
Definition banned_at (t : Z) (d : DB) (uid : uuid) : bool := Table.any (active_ban t uid) (bans d).

Lemma banned_unavailable t d uid u : banned_at t d uid = true -> available t d uid u = false.
Proof. unfold banned_at, available. intros ->. by rewrite andb_false_r. Qed.

Lemma still_banned_active t uid k b : still_banned t t uid k b = active_ban t uid k b.
Proof. unfold still_banned, active_ban, UserBan.is_active. by rewrite !andb_assoc. Qed.

(** A ban in the table keeps its user out during its term. *)
Lemma term_enforced t d k b u :
  bans d !! k = Some b -> UserBan.revoked_at b = None -> UserBan.starts_at b <= t ->
  (forall e, UserBan.expires_at b = Some e -> t < e) -> available t d (UserBan.user b) u = false.
Proof.
  intros Hk Hr Hs He. apply banned_unavailable, Table.any_true. exists k, b. split; [done|].
  unfold active_ban, UserBan.is_active. rewrite Hr, N.eqb_refl. cbn.
  replace (_ <=? t) with true by lia. cbn.
  destruct (UserBan.expires_at b) as [e|]; [|done]. specialize (He e eq_refl). lia.
Qed.

(** What a ban leaves, decided at time [t]. *)
Record ban_imposed (t : Z) (uid : uuid) (k : uuid) (b : UserBan.t) (user : User.t) (w w' : World) : Prop := {
  bi_new : bans (db w) !! k = None;
  bi_row : bans (db w') = <[k := b]> (bans (db w));
  bi_user : users (db w) !! uid = Some user;
  bi_status : exists user', users (db w') !! uid = Some user' /\
    if UserBan.starts_at b <=? t
    then User.status user' = AccountStatus.BANNED /\ access_revoked uid None (db w')
    else user' = user /\ user_sessions (db w') = user_sessions (db w);
}.

Lemma ban_imposed_logs t uid k b user w w1 w' :
  ban_imposed t uid k b user w w1 -> logs w1 w' -> ban_imposed t uid k b user w w'.
Proof.
  intros [Hn Hb Hu (user' & Hu' & Hc)] L. pose proof (lg_db _ _ L) as F.
  split; [done|by rewrite F|done|]. exists user'. rewrite F. by split.
Qed.

(** The row a ban adds. *)
Definition ban_row (uid : uuid) (reason : string) (actor : option uuid) (starts : Z)
    (expires : option Z) (created : Z) : UserBan.t := UserBan.mk uid reason actor starts expires created None.

Lemma ban_status_spec uid actor request k b user w w2 t :
  account_ready w2 -> users (db w) !! uid = Some user -> bans (db w) !! k = None ->
  db w2 = (db w) <| bans ::= insert k b |> ->
  wp (when (UserBan.starts_at b <=? t) (
      save_user uid (fun u => u <| User.status := AccountStatus.BANNED |>) ;;
      revoke_all uid actor request false ;;
      revoke_all_jwt uid ;;
      ret tt))
    (fun _ w3 => account_ready w3 /\ ban_imposed t uid k b user w w3) (fun _ _ => False) w2.
Proof.
  intros R2 Hu Hn F2. unfold when. destruct (UserBan.starts_at b <=? t) eqn:Hs.
  2:{ wp_step. split; [done|]. split; rewrite ?F2; try done. exists user. by rewrite Hs. }
  apply wp_bind. unfold save_user. do 2 wp_step.
  apply (wp_save_row uid _ user); [apply R2|cbn; by rewrite F2|done|].
  match goal with |- wp _ _ _ ?x => set (w3 := x);
    assert (R3 : account_ready w3) end.
  { eapply (ready_save_user w2 uid user); [exact R2|by rewrite F2| |reflexivity|unfold w3; cbn; lia]. done. }
  apply end_access; [exact configured|exact R3|]. intros w4 HE. wp_step.
  pose proof (ae_frame _ _ _ _ HE : db w4 = _) as F4. split; [apply HE|].
  split; [done|rewrite F4; cbn; by rewrite F2|done|].
  eexists. rewrite Hs. split; [rewrite F4; cbn; apply lookup_insert_eq|]. split; [done|apply HE].
Qed.

(** [C22] A ban is stored as given, and the user cannot authenticate at any
    moment of its term. A term that has begun when it is imposed also sets the
    status and ends every session and refresh token; one that starts later
    leaves the account as it is. A term that ends before it begins, or a user
    that does not exist, is an error that changes nothing. *)
Theorem ban_complete uid reason actor starts_at expires_at request w :
  account_ready w -> fresh (R := UserBan.t) w ->
  let starts := default (clock w.(ticks)) starts_at in
  let decided := clock (w.(ticks) + (if is_none starts_at then 2 else 1)%nat) in
  match ban uid reason actor starts_at expires_at request w with
  | (inr (k, b), w') => exists user created,
      b = ban_row uid reason actor starts expires_at created /\
      ban_imposed decided uid k b user w w' /\
      (forall t u, starts <= t -> (forall e, expires_at = Some e -> t < e) ->
         available t (db w') uid u = false)
  | (inl e, w') => db w' = db w /\
      (users (db w) !! uid = None /\ e = DoesNotExist \/
       e = IntegrityError /\ exists x, expires_at = Some x /\ x <= starts)
  end.
Proof.
  intros Hr Hf starts decided. apply wp_match. unfold ban. do 2 wp_step.
  apply wp_get_pk; [intros user Hu|intros Hu]; cbn in Hu; [|split; [done|by left]].
  wp_step. apply (wp_mono _ (fun s w1 => s = starts /\ db w1 = db w /\ draws w1 = draws w /\
    decided = clock (S (ticks w1))) _ (fun _ _ => False)); [| |done].
  { unfold decided, starts. destruct starts_at; wp_step; cbn; repeat split; f_equal; lia. }
  intros s w1 (-> & D1 & R1 & T1). do 2 wp_step. cbv zeta. wp_step.
  destruct (UserBan.valid _) eqn:Hv.
  2:{ wp_step. split; [done|]. right. split; [done|]. unfold UserBan.valid in Hv. cbn in Hv.
      destruct expires_at as [x|]; [|done]. exists x. split; [done|]. lia. }
  do 2 wp_step. apply wp_create_fresh.
  { intros n Hn. cbn in Hn |- *. rewrite D1. apply Hf. lia. }
  { intros k _ _. by apply conflicts_false. }
  intros k Hkd Hn _. cbn beta iota. do 2 wp_step.
  match goal with |- wp (bind (when (_ <=? ?t) _) _) _ _ ?x => replace t with decided by exact T1; set (w2 := x) end.
  set (b := UserBan.mk _ _ _ _ _ _ _) in *.
  assert (D2 : db w2 = (db w) <| bans ::= insert k b |>) by (unfold w2; cbn; by rewrite D1).
  assert (R2 : account_ready w2) by
    (apply (ready_part w); [exact Hr|by rewrite D2|unfold w2; cbn; lia]).
  assert (Hk : bans (db w) !! k = None) by (cbn in Hn; by rewrite D1 in Hn).
  wp_step. eapply wp_call; [by apply (ban_status_spec uid actor request k b user w)| |done].
  intros [] w3 _ [R3 H3]. wp_step. eapply wp_call; [apply audit_record_spec, (ar_sessions _ R3)| |done].
  intros x w4 _ (L4 & _). wp_step. pose proof (ban_imposed_logs _ _ _ _ _ _ _ _ H3 L4) as H4.
  exists user. eexists. split; [reflexivity|]. split.
  - destruct H4 as [A B C (u' & D & F)]. split; rewrite ?db_committed; try done. exists u'. by rewrite ?db_committed.
  - intros t u Hs He. rewrite db_committed. apply (term_enforced t (db w4) k b u); try done.
    rewrite (bi_row _ _ _ _ _ _ _ H4). apply lookup_insert_eq.
Qed.

Lemma returns_unit (m : M unit) (Q : World -> Prop) w :
  wp m (fun _ => Q) (fun _ _ => False) w -> exists w', m w = (inr tt, w') /\ Q w'.
Proof. intros Hwp. destruct (wp_returns _ _ _ Hwp) as ([] & w' & ? & ?). by exists w'. Qed.

(** Lifting a ban revokes it. If no other ban of the user is in force then
    and the status is BANNED the account becomes ACTIVE, whatever its status
    was before the ban; otherwise the status stays. Nothing else about the
    account and no other ban changes, and lifting a lifted ban does nothing. *)
Theorem revoke_ban_complete k actor request b user w :
  account_ready w -> bans (db w) !! k = Some b -> users (db w) !! UserBan.user b = Some user ->
  let uid := UserBan.user b in
  exists w', revoke_ban k actor request w = (inr tt, w') /\
    if is_some (UserBan.revoked_at b) then db w' = db w
    else exists t t1 t2 user',
      bans (db w') = <[k := b <| UserBan.revoked_at := Some t |>]> (bans (db w)) /\
      users (db w') !! uid = Some user' /\
      (forall k', k' <> uid -> users (db w') !! k' = users (db w) !! k') /\
      User.status user' =
        (if negb (Table.any (still_banned t1 t2 uid) (bans (db w'))) &&
            bool_decide (User.status user = AccountStatus.BANNED)
         then AccountStatus.ACTIVE else User.status user) /\
      User.password user' = User.password user /\ User.email user' = User.email user /\
      User.is_active user' = User.is_active user.
Proof.
  intros Hr Hk Hu uid. apply returns_unit. unfold revoke_ban. do 2 wp_step.
  apply (wp_found k b); [done|]. wp_step. apply (wp_found uid user); [done|].
  destruct (is_some _); [wp_step; by rewrite db_committed|].
  do 3 wp_step. apply wp_save_fields; [|intros Hn; cbn in Hn; congruence|].
  2:{ intros b' Hb' Hc. exfalso. by rewrite (proj2 (conflicts_false _ _ _)) in Hc. }
  intros b' Hb' _. assert (b' = b) as -> by (cbn in Hb'; congruence). cbn [objects] in *.
  do 6 wp_step.
  match goal with |- context[Table.any (still_banned ?a ?c _) _] => set (t1 := a); set (t2 := c) end.
  match goal with |- wp _ _ _ ?x => set (w1 := x);
    assert (F1 : bans (db w1) = <[k := b <| UserBan.revoked_at := Some (clock (ticks w)) |>]> (bans (db w)))
      by done; assert (R1 : account_ready w1) by (apply (ready_part w); [exact Hr|done|unfold w1; cbn; lia]) end.
  match goal with |- context[Table.any (still_banned t1 t2 _) ?x] => change x with (bans (db w1)) end.
  set (lift := negb _ && _).
  wp_step. apply (wp_mono _ (fun _ w2 => journal_ready w2 /\ bans (db w2) = bans (db w1) /\
    exists user', users (db w2) = <[uid := user']> (users (db w)) /\
      User.status user' = (if lift then AccountStatus.ACTIVE else User.status user) /\
      User.password user' = User.password user /\ User.email user' = User.email user /\
      User.is_active user' = User.is_active user) _ (fun _ _ => False)); [| |done].
  { unfold when. destruct lift.
    - unfold save_user. do 2 wp_step. apply (wp_save_row uid _ user); [apply R1|exact Hu|done|]. cbv beta.
      split; [apply (journal_ready_move w1); [apply R1|done|done|cbn; lia]|]. split; [done|].
      eexists. split; [reflexivity|done].
    - wp_step. cbv beta. split; [apply R1|]. split; [done|]. exists user. split; [|done]. cbn.
      by rewrite insert_id. }
  intros [] w2 (R2 & F2 & user' & U2 & Hs & Hp & He & Ha). wp_step.
  eapply wp_call; [by apply audit_record_spec| |done]. intros x w3 _ (L3 & _). wp_step.
  rewrite db_committed, (lg_db _ _ L3). cbn -[Table.any].
  exists (clock (ticks w)), t1, t2, user'. rewrite F2, U2. split; [exact F1|].
  split; [apply lookup_insert_eq|]. split; [intros k' Hne; by rewrite lookup_insert_ne|].
  split; [exact Hs|done].
Qed.

End ban_facts.

(** ** The periodic task *)

Section expiry.
Context `{E : Env, !EntropyLaws E}.
Hypothesis configured : crypto_configured = true.

(** Live sessions are only lost, blacklisted tokens only gained. *)
Definition no_new_access (d d' : DB) : Prop :=
  (forall k s', user_sessions d' !! k = Some s' -> UserSession.is_revoked s' = false ->
     exists s, user_sessions d !! k = Some s /\ UserSession.user s = UserSession.user s' /\
       UserSession.is_revoked s = false) /\
  outstanding_tokens d' = outstanding_tokens d /\ blacklisted_tokens d ⊆ blacklisted_tokens d'.

#[export] Instance no_new_access_preorder : PreOrder no_new_access.
Proof.
  split; [split; [eauto|done]|]. intros d1 d2 d3 (S1 & O1 & B1) (S2 & O2 & B2). split; [|split].
  - intros k s' Hs Hl. destruct (S2 k s' Hs Hl) as (s & Hs2 & <- & Hl2). by apply S1.
  - by rewrite O2.
  - by etrans.
Qed.

Lemma no_new_access_same d d' :
  user_sessions d' = user_sessions d -> outstanding_tokens d' = outstanding_tokens d ->
  blacklisted_tokens d' = blacklisted_tokens d -> no_new_access d d'.
Proof. intros Hs Ho Hb. split; [rewrite Hs; eauto|]. by rewrite Hb. Qed.

Lemma access_revoked_mono uid d d' :
  access_revoked uid None d -> no_new_access d d' -> access_revoked uid None d'.
Proof.
  intros [Hs Hj] (Ns & No & Nb). split.
  - intros k s' Hs' Hu Hl. destruct (Ns k s' Hs' Hl) as (s & Hk & Hus & Hl').
    apply (Hs k s); [done|congruence|done].
  - intros o r Ho Hu. rewrite No in Ho. destruct (Hj o r Ho Hu) as (k & b & Hb & Ht).
    exists k, b. split; [|done]. by eapply lookup_weaken.
Qed.

Lemma activate_ban_access uid user : evolves no_new_access (activate_ban uid user).
Proof.
  unfold activate_ban, save_user, revoke_all, current, revoke, decrypt_value, key_material,
    revoke_all_jwt, SecurityEventService.record, AuditService.record.
  evolve; try by apply no_new_access_same.
  all: try (intros w0; by apply no_new_access_same).
  - split; [|done]. intros k s'. cbn. rewrite lookup_insert_Some. intros [[<- <-]|[_ Hs]] Hl; [done|eauto].
  - split; [cbn; eauto|]. split; [done|]. by apply insert_subseteq.
Qed.

(** The status the task decides on for a user. *)
Definition activated_status (t : Z) (d : DB) (uid : uuid) (s : AccountStatus.t) : AccountStatus.t :=
  if negb (bool_decide (s = AccountStatus.BANNED)) && has_ban d uid (started_ban t) &&
     has_ban d uid (unexpired_ban t)
  then AccountStatus.BANNED else s.

Definition released_status (t : Z) (d : DB) (uid : uuid) (s : AccountStatus.t) : AccountStatus.t :=
  if bool_decide (s = AccountStatus.BANNED) && has_ban d uid (lapsed_ban t) && negb (banned_at t d uid)
  then AccountStatus.ACTIVE else s.

Definition expired_status (t : Z) (d : DB) (uid : uuid) (s : AccountStatus.t) : AccountStatus.t :=
  released_status t d uid (activated_status t d uid s).

(** Where a loop over users has got to: the visited ones have the status
    [next] gives them. *)
Record statuses (next : uuid -> AccountStatus.t -> AccountStatus.t) (visited : uuid -> Prop)
    (w w' : World) : Prop := {
  st_ready : account_ready w';
  st_bans : bans (db w') = bans (db w);
  st_access : no_new_access (db w) (db w');
  st_users : forall uid u, users (db w) !! uid = Some u -> exists u', users (db w') !! uid = Some u' /\
    (visited uid -> User.status u' = next uid (User.status u)) /\
    (~ visited uid -> User.status u' = User.status u);
  st_none : forall uid, users (db w) !! uid = None -> users (db w') !! uid = None;
}.

(** Visiting one user, whose row is overwritten with the next status. *)
Lemma statuses_visit next visited w w1 w2 uid u1 u2 :
  statuses next visited w w1 -> ~ visited uid ->
  account_ready w2 -> bans (db w2) = bans (db w1) -> no_new_access (db w1) (db w2) ->
  users (db w1) !! uid = Some u1 -> users (db w2) = <[uid := u2]> (users (db w1)) ->
  User.status u2 = next uid (User.status u1) ->
  statuses next (fun k => visited k \/ k = uid) w w2.
Proof.
  intros [R1 B1 A1 S1 N1] Hv R2 B2 A2 H1 H2 Hs. split; [done|congruence|by etrans| |].
  - intros k u Hk. destruct (S1 k u Hk) as (u' & Hu' & Hvis & Hnot). rewrite H2, lookup_insert.
    case_decide as Heq; [subst k|].
    + exists u2. split; [done|]. assert (u1 = u') as -> by congruence. split; [|naive_solver].
      intros _. by rewrite Hs, Hnot.
    + exists u'. split; [done|]. naive_solver.
  - intros k Hk. rewrite H2, lookup_insert_ne; [by apply N1|]. intros <-. rewrite (N1 _ Hk) in H1. done.
Qed.

Lemma statuses_ext next visited visited' w w' :
  (forall k, visited k <-> visited' k) -> statuses next visited w w' -> statuses next visited' w w'.
Proof.
  intros Hext [R B A S N]. split; try done. intros uid u Hu. destruct (S uid u Hu) as (u' & Hu' & H1 & H2).
  exists u'. split; [done|]. rewrite <- (Hext uid). done.
Qed.

Lemma activate_ban_spec next visited w w1 uid u1 user :
  statuses next visited w w1 -> ~ visited uid -> users (db w1) !! uid = Some u1 ->
  next uid (User.status u1) = AccountStatus.BANNED ->
  wp (activate_ban uid user)
    (fun _ w2 => statuses next (fun k => visited k \/ k = uid) w w2 /\ access_revoked uid None (db w2) /\
       no_new_access (db w1) (db w2))
    (fun _ _ => False) w1.
Proof.
  intros HI Hv Hu Hnext.
  assert (Hwp : wp (activate_ban uid user) (fun _ w2 => account_ready w2 /\ bans (db w2) = bans (db w1) /\
    (exists u2, users (db w2) = <[uid := u2]> (users (db w1)) /\ User.status u2 = AccountStatus.BANNED) /\
    access_revoked uid None (db w2)) (fun _ _ => False) w1).
  { unfold activate_ban, save_user. apply wp_bind. do 2 wp_step.
    apply (wp_save_row uid _ u1); [apply HI|exact Hu|done|].
    match goal with |- wp _ _ _ ?x => set (wu := x) end.
    assert (Ru : account_ready wu).
    { eapply (ready_save_user w1 uid u1); [apply HI|exact Hu| |reflexivity|unfold wu; cbn; lia]. done. }
    apply end_access; [exact configured|exact Ru|]. intros w3 HE. wp_step.
    eapply wp_call; [apply audit_record_spec, (ar_sessions _ (ae_ready _ _ _ _ HE))| |done].
    intros x w4 _ (L4 & _). wp_step. pose proof (access_ended_logs _ _ _ _ _ HE L4) as H4.
    pose proof (ae_frame _ _ _ _ H4 : db w4 = _) as F4. split; [apply H4|]. split; [by rewrite F4|].
    split; [|apply H4]. eexists. split; [by rewrite F4|done]. }
  eapply wp_call; [exact Hwp| |done]. intros [] w2 Hrun (R2 & B2 & (u2 & U2 & S2) & A2).
  pose proof (evolves_run _ _ _ _ _ (activate_ban_access uid user) Hrun) as N2.
  split; [|by split]. eapply statuses_visit; try done. by rewrite S2.
Qed.


Lemma release_spec t next visited w w1 x n :
  statuses next visited w w1 -> ~ visited x.1 -> (exists u, users (db w) !! x.1 = Some u) ->
  (forall u1, users (db w1) !! x.1 = Some u1 -> next x.1 (User.status u1) =
     if banned_at t (db w) x.1 then User.status u1 else AccountStatus.ACTIVE) ->
  wp (release t n x)
    (fun _ w2 => statuses next (fun k => visited k \/ k = x.1) w w2) (fun _ _ => False) w1.
Proof.
  intros HI Hv [u Hu] Hnext. destruct (st_users _ _ _ _ HI _ _ Hu) as (u1 & H1 & _).
  unfold release. do 2 wp_step. change (objects (db w1)) with (bans (db w1)).
  assert (Hb : Table.any (still_banned t t x.1) (bans (db w1)) = banned_at t (db w) x.1).
  { rewrite (st_bans _ _ _ _ HI). apply Table.any_ext. intros k.
    by setoid_rewrite still_banned_active. }
  rewrite Hb. specialize (Hnext u1 H1). destruct (banned_at t (db w) x.1).
  - wp_step. eapply statuses_visit; [exact HI|exact Hv|apply HI|done|reflexivity|exact H1| |by symmetry].
    by rewrite insert_id.
  - apply wp_bind. unfold save_user. do 2 wp_step.
    apply (wp_save_row x.1 _ u1); [apply HI|exact H1|done|]. wp_step.
    eapply statuses_visit; [exact HI|exact Hv| |done|by apply no_new_access_same|exact H1|reflexivity|done].
    eapply (ready_save_user w1 x.1 u1); [apply HI|exact H1| |reflexivity|cbn; lia]. done.
Qed.

Lemma select_keys {R} (P : uuid -> R -> bool) t k :
  k ∈ (Table.select P t).*1 <-> exists r, t !! k = Some r /\ P k r = true.
Proof.
  rewrite list_elem_of_fmap. split.
  - intros ([k' r] & -> & Hin%Table.elem_of_select). by exists r.
  - intros (r & Hr). exists (k, r). split; [done|]. by apply Table.elem_of_select.
Qed.

Lemma loop_position {R} (l seen rest : list (uuid * R)) x :
  NoDup l.*1 -> l = seen ++ x :: rest -> x.1 ∉ seen.*1.
Proof.
  intros Hnd ->. rewrite fmap_app in Hnd. apply NoDup_app in Hnd as (_ & Hd & _).
  intros Hin. apply (Hd _ Hin). by left.
Qed.

Lemma visited_snoc {R} (seen : list (uuid * R)) x k :
  (k ∈ seen.*1 \/ k = x.1) <-> k ∈ (seen ++ [x]).*1.
Proof. rewrite fmap_app, elem_of_app. cbn. by rewrite list_elem_of_singleton. Qed.

(** The first loop sets the status of the users to activate. *)
Lemma activation_spec t w0 w :
  account_ready w -> db w = db w0 ->
  let l := Table.select (to_activate t (db w0)) (users (db w0)) in
  wp (for_each l (fun x => activate_ban x.1 x.2))
    (fun _ w' => statuses (fun _ _ => AccountStatus.BANNED) (fun k => k ∈ l.*1) w0 w' /\
       forall k, k ∈ l.*1 -> access_revoked k None (db w')) (fun _ _ => False) w.
Proof.
  intros Hr H0 l.
  apply (wp_for_each (fun seen w' => statuses (fun _ _ => AccountStatus.BANNED) (fun k => k ∈ seen.*1) w0 w' /\
    forall k, k ∈ seen.*1 -> access_revoked k None (db w'))).
  - intros seen x rest w1 Hl [HI Hacc]. assert (Hx : x ∈ l) by (rewrite Hl; set_solver).
    destruct x as [uid u]. apply Table.elem_of_select in Hx as [Hu _].
    destruct (st_users _ _ _ _ HI _ _ Hu) as (u1 & H1 & _).
    eapply wp_mono; [eapply (activate_ban_spec _ _ w0 w1 uid u1); [exact HI| |exact H1|done]| |done].
    + apply (loop_position l seen rest (uid, u)); [apply Table.select_NoDup|done].
    + intros [] w2 (HI2 & Ha & Hm). split; [eapply statuses_ext; [|exact HI2]; apply (visited_snoc seen (uid, u))|].
      intros k [Hk|Hk]%(visited_snoc seen (uid, u)).
      * by eapply access_revoked_mono; [apply Hacc|].
      * by subst k.
  - split; [|by intros k ?%not_elem_of_nil]. split; rewrite ?H0; try done.
    intros uid u Hu. exists u. split; [done|]. split; [|done]. by intros ?%not_elem_of_nil.
Qed.

Definition is_lapsed (t : Z) (d : DB) (uid : uuid) (u : User.t) : bool :=
  bool_decide (User.status u = AccountStatus.BANNED) && has_ban d uid (lapsed_ban t).

Lemma release_loop_spec t w0 w :
  account_ready w -> bans (db w) = bans (db w0) ->
  let l := Table.select (is_lapsed t (db w)) (users (db w)) in
  wp (fold_m (release t) 0%nat l)
    (fun _ w' => statuses (released_status t (db w0)) (fun k => k ∈ l.*1) w w') (fun _ _ => False) w.
Proof.
  intros Hr Hbans l.
  apply (wp_fold_m (fun seen _ w' => statuses (released_status t (db w0)) (fun k => k ∈ seen.*1) w w')).
  - intros seen x rest n w2 Hl H2. assert (Hx : x ∈ l) by (rewrite Hl; set_solver).
    destruct x as [uid u]. apply Table.elem_of_select in Hx as [Hu [Hs%bool_decide_eq_true Hb]%andb_true_iff].
    assert (Hv : uid ∉ seen.*1) by (apply (loop_position l seen rest (uid, u)); [apply Table.select_NoDup|done]).
    destruct (st_users _ _ _ _ H2 _ _ Hu) as (u2 & Hu2 & _ & Hst).
    eapply wp_mono; [eapply (release_spec t _ _ w w2 (uid, u) n); [exact H2|exact Hv|by exists u|]| |done].
    + intros u1 Hu1. assert (u1 = u2) as -> by (cbn in Hu1; congruence).
      assert (Hb0 : has_ban (db w0) uid (lapsed_ban t) = true) by (unfold has_ban in *; by rewrite <- Hbans).
      rewrite Hst, Hs by done. cbn [fst]. unfold released_status, banned_at.
      rewrite Hb0, bool_decide_true, Hbans by done. by destruct (Table.any _ _).
    + intros m w3 H3. eapply statuses_ext; [|exact H3]. apply (visited_snoc seen (uid, u)).
  - split; try done. intros uid u Hu. exists u. split; [done|]. split; [|done]. by intros ?%not_elem_of_nil.
Qed.

(** Both loops together: every user has its [expired_status]. *)
Lemma both_loops t w w1 w2 :
  statuses (fun _ _ => AccountStatus.BANNED)
    (fun k => k ∈ (Table.select (to_activate t (db w)) (users (db w))).*1) w w1 ->
  statuses (released_status t (db w)) (fun k => k ∈ (Table.select (is_lapsed t (db w1)) (users (db w1))).*1) w1 w2 ->
  forall uid u, users (db w) !! uid = Some u -> exists u', users (db w2) !! uid = Some u' /\
    User.status u' = expired_status t (db w) uid (User.status u).
Proof.
  intros H1 H2 uid u Hu. destruct (st_users _ _ _ _ H1 uid u Hu) as (u1 & Hu1 & Hin & Hout).
  destruct (st_users _ _ _ _ H2 uid u1 Hu1) as (u2 & Hu2 & Hin2 & Hout2). exists u2. split; [done|].
  assert (Hs1 : User.status u1 = activated_status t (db w) uid (User.status u)).
  { unfold activated_status. fold (to_activate t (db w) uid u). destruct (to_activate t (db w) uid u) eqn:Hact.
    - apply Hin, select_keys. by exists u.
    - apply Hout. intros (u' & Hu' & Hact')%select_keys. congruence. }
  unfold expired_status. rewrite <- Hs1.
  destruct (decide (uid ∈ (Table.select (is_lapsed t (db w1)) (users (db w1))).*1)) as [Hd|Hd]; [by apply Hin2|].
  rewrite (Hout2 Hd). unfold released_status. destruct (bool_decide _ && has_ban _ _ _) eqn:Hb; [|done].
  exfalso. apply Hd, select_keys. exists u1. split; [done|]. unfold is_lapsed, has_ban in Hb |- *.
  by rewrite (st_bans _ _ _ _ H1).
Qed.

(** [C37] The periodic task always completes and decides every status from the
    bans at its first clock reading: an account that is not BANNED becomes
    BANNED when one of its bans is unrevoked and begun and one, not
    necessarily the same, has no expiry or one to come; its sessions and
    refresh tokens are revoked. Then a BANNED account (those just activated
    included) with an unrevoked ban that is over becomes ACTIVE unless a ban is
    in force. The bans themselves are not touched. *)
Theorem expire_temporary_bans_statuses w :
  account_ready w ->
  let t := clock w.(ticks) in
  exists n w', expire_temporary_bans w = (inr n, w') /\ bans (db w') = bans (db w) /\
    (forall uid u, users (db w) !! uid = Some u -> exists u', users (db w') !! uid = Some u' /\
       User.status u' = expired_status t (db w) uid (User.status u)) /\
    (forall uid u, users (db w) !! uid = Some u -> to_activate t (db w) uid u = true ->
       access_revoked uid None (db w')).
Proof.
  intros Hr t.
  assert (Hwp : wp expire_temporary_bans (fun _ w' => bans (db w') = bans (db w) /\
    (forall uid u, users (db w) !! uid = Some u -> exists u', users (db w') !! uid = Some u' /\
       User.status u' = expired_status t (db w) uid (User.status u)) /\
    (forall uid u, users (db w) !! uid = Some u -> to_activate t (db w) uid u = true ->
       access_revoked uid None (db w'))) (fun _ _ => False) w).
  { unfold expire_temporary_bans. do 7 wp_step.
    eapply wp_mono; [apply (activation_spec t w); [by apply (ready_same w); [| |cbn; lia]|done]| |done].
    intros [] w1 [H1 Hacc]. do 5 wp_step. cbn beta.
    eapply wp_mono; [apply (release_loop_spec t w w1); [apply H1|apply H1]| |done].
    intros m w2 H2. wp_step. split; [|split].
    - by rewrite (st_bans _ _ _ _ H2), (st_bans _ _ _ _ H1).
    - by apply (both_loops t w w1 w2).
    - intros uid u Hu Hact. eapply access_revoked_mono; [apply Hacc|apply H2]. apply select_keys. by exists u. }
  destruct (wp_returns _ _ _ Hwp) as (n & w' & Hrun & HQ). by exists n, w'.
Qed.

End expiry.

(** ** Witnesses *)

Section witnesses.

Lemma ban_complete_witness :
  exists k b w' user', ban (E := demo_env) 1 "spam" (Some 2%N) None None None account_world = (inr (k, b), w') /\
    users (db w') !! 1%N = Some user' /\ User.status user' = AccountStatus.BANNED /\
    access_revoked 1 None (db w').
Proof.
  pose proof (ban_complete (E := demo_env) eq_refl 1 "spam" (Some 2%N) None None None account_world
    account_world_ready ltac:(sample_check)) as H.
  cbv zeta in H. run_returns (ban (E := demo_env) 1 "spam" (Some 2%N) None None None account_world) H.
  destruct a as [k b]. destruct H as (user & created & -> & [_ _ _ (user' & Hu & Hs)] & _).
  exists k, (ban_row 1 "spam" (Some 2%N) (clock (Env := demo_env) (ticks account_world)) None created), w', user'.
  split; [done|]. split; [exact Hu|]. exact Hs.
Defined.

(** Alice was suspended, then banned. *)
Definition banned_world : World := account_world <| db ::= fun d => d
  <| users ::= insert 1%N ((sample_user "alice") <| User.status := AccountStatus.BANNED |>) |>
  <| bans := {[ 31%N := ban_row 1 "spam" None 0 None 0 ]} |> |>.

Lemma banned_world_ready : account_ready (E := demo_env) banned_world.
Proof. split; [split; [split|]|..]; sample_check. Qed.

Lemma revoke_ban_complete_witness :
  exists w' user', revoke_ban (E := demo_env) 31 None None banned_world = (inr tt, w') /\
    users (db w') !! 1%N = Some user' /\
    (User.status user' = AccountStatus.ACTIVE \/ User.status user' = AccountStatus.BANNED).
Proof.
  destruct (revoke_ban_complete (E := demo_env) 31 None None (ban_row 1 "spam" None 0 None 0)
    ((sample_user "alice") <| User.status := AccountStatus.BANNED |>) banned_world banned_world_ready
    eq_refl eq_refl) as (w' & Hrun & t & t1 & t2 & user' & Hb & Hu & _ & Hs & _).
  exists w', user'. split; [exact Hrun|]. split; [exact Hu|]. rewrite Hs.
  destruct (_ && _); [by left|by right].
Defined.

(** An active account with a ban that is over and another that was lifted:
    every run of the task signs it out and leaves it active. *)
Definition two_bans_world : World := account_world <| db ::= fun d => d
  <| bans := {[ 31%N := ban_row 1 "spam" None 0 (Some 10) 0;
                32%N := (ban_row 1 "appeal granted" None 0 None 0) <| UserBan.revoked_at := Some 5 |> ]} |> |>.

Lemma two_bans_world_ready : account_ready (E := demo_env) two_bans_world.
Proof. split; [split; [split|]|..]; sample_check. Qed.

Lemma expire_temporary_bans_statuses_witness :
  exists n w' user', expire_temporary_bans (E := demo_env) two_bans_world = (inr n, w') /\
    users (db w') !! 1%N = Some user' /\ User.status user' = AccountStatus.ACTIVE /\
    access_revoked 1 None (db w').
Proof.
  destruct (expire_temporary_bans_statuses (E := demo_env) eq_refl two_bans_world two_bans_world_ready)
    as (n & w' & Hrun & _ & Hst & Hacc).
  destruct (Hst 1%N (sample_user "alice") eq_refl) as (user' & Hu & Hs).
  exists n, w', user'. split; [exact Hrun|]. split; [exact Hu|]. split.
  - rewrite Hs. vm_compute. reflexivity.
  - apply (Hacc 1%N (sample_user "alice")); vm_compute; reflexivity.
Defined.

End witnesses.
