(* ===== verification/Authorization.v ===== *)
(** * Authorization ([apps/authorization], [common/permissions], [bootstrap])

    Permission resolution, the registry of codenames, the permission classes
    of the API and the synchronisation command. *)

From S2P Require Import Prelude Env Demo Models Orm Logic Common Samples Users.

Section authorization.
Context `{E : Env}.

(** ** [PermissionService] *)

(** [role_assignments.filter(valid_from__lte=now).filter(valid_until null or > now)] *)
Definition valid_assignment (t : Z) (uid : uuid) (_ : uuid) (r : UserRole.t) : bool :=
  N.eqb (UserRole.user r) uid && UserRole.is_valid t r.

(** The codenames of the permissions linked to a role. *)
Definition role_codenames (d : DB) (role : uuid) : list string :=
  omap (fun l => Permission.codename <$> permissions d !! RolePermission.permission l.2)
    (Table.select (fun _ l => N.eqb (RolePermission.role l) role) (role_permissions d)).

(** [filter(role__permissions__codename=codename)] *)
Definition grants (d : DB) (codename : string) (r : UserRole.t) : bool :=
  bool_decide (codename ∈ role_codenames d (UserRole.role r)).

(** [UserPermissionOverride.objects.filter(user=user, permission__codename=codename)] *)
Definition override_row (d : DB) (uid : uuid) (codename : string) (_ : uuid)
    (o : UserPermissionOverride.t) : bool :=
  N.eqb (UserPermissionOverride.user o) uid
  && bool_decide (Permission.codename <$> permissions d !! UserPermissionOverride.permission o
                  = Some codename).

(** [PermissionService.has_permission]; [None] is an anonymous user. *)
Definition has_permission (user : option (uuid * User.t)) (codename : string) : M bool :=
  match user with
  | None => ret false
  | Some (uid, u) =>
      let! ok := can_authenticate_now uid u in
      if negb ok then ret false else
      let! d := read db in
      let! override := first_row (override_row d uid codename) in
      match UserPermissionOverride.effect ∘ snd <$> override with
      | Some OverrideEffect.DENY => ret false
      | Some OverrideEffect.ALLOW => ret true
      | None =>
          if User.is_superuser u then ret true else
          let! t := now in
          exists_row (fun k r => valid_assignment t uid k r && grants d codename r)
      end
  end.

(** [values_list("role__permissions__codename")] is a LEFT JOIN: an assignment
    whose role has no permission contributes one [None]. *)
Definition assignment_codes (d : DB) (r : UserRole.t) : list (option string) :=
  match role_codenames d (UserRole.role r) with
  | [] => [None]
  | codes => Some <$> codes
  end.

(** [dict(user.permission_overrides.values_list("permission__codename", "effect"))]
    restricted to one effect. *)
Definition override_codes (d : DB) (uid : uuid) (effect : OverrideEffect.t) : list (option string) :=
  omap (fun o => match permissions d !! UserPermissionOverride.permission o.2 with
                 | Some p => Some (Some (Permission.codename p))
                 | None => None
                 end)
    (Table.select (fun _ o => N.eqb (UserPermissionOverride.user o) uid
                              && bool_decide (UserPermissionOverride.effect o = effect))
       (permission_overrides d)).

(** [PermissionService.permission_codes] *)
Definition permission_codes (user : option (uuid * User.t)) : M (gset (option string)) :=
  match user with
  | None => ret ∅
  | Some (uid, u) =>
      let! ok := can_authenticate_now uid u in
      if negb ok then ret ∅ else
      let! t := now in
      let! d := read db in
      let role_codes :=
        if User.is_superuser u
        then list_to_set ((fun p => Some (Permission.codename p.2)) <$> Table.select (fun _ _ => true) (permissions d))
        else list_to_set (concat (assignment_codes d ∘ snd <$> Table.select (valid_assignment t uid) (user_roles d))) in
      ret ((role_codes ∪ list_to_set (override_codes d uid OverrideEffect.ALLOW))
           ∖ list_to_set (override_codes d uid OverrideEffect.DENY))
  end.

(** ** The permission classes of the API *)

(** [HasPermission.has_permission]; [required] is the view's
    [required_permission]. *)
Definition view_permission (view : string) (required : option string)
    (user : option (uuid * User.t)) : M bool :=
  match required with
  | Some codename =>
      if Str.is_empty codename
      then raise (RuntimeError (view +:+ " must define required_permission"))
      else has_permission user codename
  | None => raise (RuntimeError (view +:+ " must define required_permission"))
  end.

(** [IsOwnerOrHasPermission.has_permission] and [.has_object_permission]: the
    owner is the object itself or what its owner field refers to. *)
Definition owner_view_permission (user : option (uuid * User.t)) : M bool := ret (is_some user).

Definition object_permission (view : string) (required : option string)
    (user : option (uuid * User.t)) (owner object : option uuid) : M bool :=
  if bool_decide (owner = fst <$> user) || bool_decide (is_some object = true /\ object = fst <$> user)
  then ret true
  else view_permission view required user.

(** ** The registry ([apps/authorization/registry.py]) *)

Definition BASE_PERMISSIONS : list (string * string) :=
  [("users.view", "View users");
   ("users.create", "Create users");
   ("users.update", "Update users");
   ("users.delete", "Delete users");
   ("users.ban", "Ban and unban users");
   ("roles.view", "View roles and permissions");
   ("roles.manage", "Manage roles and permission assignments");
   ("settings.view", "View runtime settings");
   ("settings.update", "Update runtime settings");
   ("audit.view", "View audit logs");
   ("security_events.view", "View security events");
   ("notifications.manage", "Manage notifications");
   ("api_keys.manage", "Manage API keys for other users");
   ("feature_flags.view", "View feature flags");
   ("feature_flags.update", "Update feature flags");
   ("webhooks.manage", "Manage webhook endpoints");
   ("files.manage", "Manage uploaded files")].

(** The module-level dictionary. *)
Definition registry : Type := gmap string string.
Definition initial_registry : registry := list_to_map BASE_PERMISSIONS.

(** [register_permissions]: entries before a conflicting one stay registered. *)
Fixpoint register_permissions (l : list (string * string)) (r : registry) : (exn + unit) * registry :=
  match l with
  | [] => (inr tt, r)
  | (codename, description) :: l' =>
      match r !! codename with
      | Some d =>
          if String.eqb d description then register_permissions l' (<[codename := description]> r)
          else (inl (ValueError ("Permission '" +:+ codename
                  +:+ "' is already registered with a different description")), r)
      | None => register_permissions l' (<[codename := description]> r)
      end
  end.

(** [dict(sorted(_registry.items()))] *)
Definition by_codename (a b : string * string) : Prop := String.leb a.1 b.1 = true.
#[export] Instance by_codename_dec : RelDecision by_codename.
Proof. intros a b. unfold by_codename. apply _. Defined.

Definition get_registered_permissions (r : registry) : list (string * string) :=
  merge_sort by_codename (map_to_list r).

(** ** The [bootstrap] command *)

Record role_definition := MkRole {
  rd_slug : string;
  rd_name : string;
  rd_description : string;
  rd_priority : Z;
  (** [None] stands for the wildcard *)
  rd_permissions : option (list string);
}.

Definition ROLE_DEFINITIONS : list role_definition :=
  [MkRole "super-admin" "Super Admin" "Full registered application access." 1000 None;
   MkRole "admin" "Admin" "Administrative access except system role management." 800 None;
   MkRole "moderator" "Moderator" "User safety and audit visibility." 500
     (Some ["users.view"; "users.update"; "users.ban"; "audit.view"; "security_events.view"]);
   MkRole "user" "User" "Default authenticated account role." 100 (Some [])].

(** [Permission.objects.update_or_create(codename=...)] *)
Definition sync_permission (rows : gmap string uuid) (entry : string * string) : M (gmap string uuid) :=
  let '(codename, description) := entry in
  let! '(k, _, _) := update_or_create
    (fun _ p => String.eqb (Permission.codename p) codename)
    (let! t := now in
     ret (fun p => p <| Permission.description := description |> <| Permission.is_system := true |>
                     <| Permission.updated_at := t |>))
    (let! c := now in let! t := now in ret (Permission.mk codename description true c t)) in
  ret (<[codename := k]> rows).

(** [RolePermission.objects.get_or_create(role=..., permission=rows[codename])] *)
Definition link_permission (rows : gmap string uuid) (role : uuid) (codename : string) : M unit :=
  match rows !! codename with
  | None => raise (KeyError codename)
  | Some permission =>
      get_or_create
        (fun _ l => N.eqb (RolePermission.role l) role && N.eqb (RolePermission.permission l) permission)
        (let! c := now in ret (RolePermission.mk role permission c)) ;;
      ret tt
  end.

Definition sync_role (r : registry) (rows : gmap string uuid) (d : role_definition) : M unit :=
  let! '(role, _, _) := update_or_create
    (fun _ x => String.eqb (Role.slug x) (rd_slug d))
    (let! t := now in
     ret (fun x => x <| Role.name := rd_name d |> <| Role.description := rd_description d |>
                     <| Role.priority := rd_priority d |> <| Role.is_system := true |>
                     <| Role.updated_at := t |>))
    (let! c := now in let! t := now in
     ret (Role.mk (rd_name d) (rd_slug d) (rd_description d) (rd_priority d) true c t)) in
  let desired := match rd_permissions d with
                 | None => (get_registered_permissions r).*1
                 | Some l => remove_dups l
                 end in
  for_each desired (link_permission rows role).

(** [Command.handle] *)
Definition handle (r : registry) : M unit :=
  atomic (
    let! rows := fold_m sync_permission ∅ (get_registered_permissions r) in
    for_each ROLE_DEFINITIONS (sync_role r rows) ;;
    get_or_create (fun _ s => String.eqb (Setting.key s) "site.registration_enabled")
      (let! c := now in let! t := now in
       ret (Setting.mk "site.registration_enabled" (PBool true) SettingValueType.BOOLEAN "site" true
              "Allow public user registration." c t)) ;;
    get_or_create (fun _ f => String.eqb (FeatureFlag.key f) "registration.enabled")
      (let! c := now in let! t := now in
       ret (FeatureFlag.mk "registration.enabled" true "Registration feature switch." c t)) ;;
    ret tt).

(** ** Deleting system records ([Permission.delete], [Role.delete]) *)

Definition delete_permission (k : uuid) : M unit :=
  let! p := get_pk (R := Permission.t) k in
  if Permission.is_system p
  then raise (ValidationError "System permissions cannot be deleted." "")
  else
    delete_where (fun _ l => N.eqb (RolePermission.permission l) k) ;;
    delete_where (fun _ o => N.eqb (UserPermissionOverride.permission o) k) ;;
    delete_row (R := Permission.t) k.

(** Assignments protect their role ([on_delete=PROTECT]): the database error
    is Django's [ProtectedError]. *)
Definition delete_role (k : uuid) : M unit :=
  let! r := get_pk (R := Role.t) k in
  if Role.is_system r
  then raise (ValidationError "System roles cannot be deleted." "")
  else
    let! used := exists_row (fun _ a => N.eqb (UserRole.role a) k) in
    if (used : bool) then raise IntegrityError else
    delete_where (fun _ l => N.eqb (RolePermission.role l) k) ;;
    delete_row (R := Role.t) k.

(** [Permission.clean]: two dot-separated parts, alphanumeric up to
    underscores. *)
Definition is_alnum (c : ascii) : bool :=
  let n := N_of_ascii c in
  ((48 <=? n) && (n <=? 57) || (65 <=? n) && (n <=? 90) || (97 <=? n) && (n <=? 122))%N.

Fixpoint all_chars (P : ascii -> bool) (s : string) : bool :=
  match s with EmptyString => true | String c s' => P c && all_chars P s' end.

Definition codename_part (s : string) : bool :=
  let s := Str.remove_char "_" s in negb (Str.is_empty s) && all_chars is_alnum s.

Definition codename_valid (codename : string) : bool :=
  match Str.split_once "." codename with
  | (a, Some b) => negb (Str.has_char "." b) && codename_part a && codename_part b
  | (_, None) => false
  end.

End authorization.

(** ** Resolution *)

Section resolution.
Context `{E : Env}.

(** The user has an override of that effect for the codename. *)
Definition overridden (d : DB) (uid : uuid) (codename : string) (effect : OverrideEffect.t) : Prop :=
  exists k o p, permission_overrides d !! k = Some o /\ UserPermissionOverride.user o = uid /\
    permissions d !! UserPermissionOverride.permission o = Some p /\ Permission.codename p = codename /\
    UserPermissionOverride.effect o = effect.

(** A role assigned to the user, valid at [t], is linked to the permission. *)
Definition granted (t : Z) (d : DB) (uid : uuid) (codename : string) : Prop :=
  exists k a l link p, user_roles d !! k = Some a /\ UserRole.user a = uid /\ UserRole.is_valid t a = true /\
    role_permissions d !! l = Some link /\ RolePermission.role link = UserRole.role a /\
    permissions d !! RolePermission.permission link = Some p /\ Permission.codename p = codename.

(** Who may do what: a DENY override wins over an ALLOW one, that over being a
    superuser, and that over the roles. *)
Definition may (t : Z) (d : DB) (uid : uuid) (u : User.t) (codename : string) : Prop :=
  ~ overridden d uid codename OverrideEffect.DENY /\
  (overridden d uid codename OverrideEffect.ALLOW \/ User.is_superuser u = true \/ granted t d uid codename).

Lemma role_codenames_spec d role codename :
  codename ∈ role_codenames d role <->
  exists l link p, role_permissions d !! l = Some link /\ RolePermission.role link = role /\
    permissions d !! RolePermission.permission link = Some p /\ Permission.codename p = codename.
Proof.
  unfold role_codenames. rewrite list_elem_of_omap. split.
  - intros ([l link] & Hin%Table.elem_of_select & Hp). destruct Hin as [Hl Hr%N.eqb_eq].
    apply fmap_Some in Hp as (p & Hp & ->). by exists l, link, p.
  - intros (l & link & p & Hl & Hr & Hp & Hc). exists (l, link). split.
    + apply Table.elem_of_select. split; [done|]. by apply N.eqb_eq.
    + cbn in *. by rewrite Hp, <- Hc.
Qed.

Lemma granted_spec t d uid codename :
  Table.any (fun k r => valid_assignment t uid k r && grants d codename r) (user_roles d) = true <->
  granted t d uid codename.
Proof.
  rewrite Table.any_true. unfold granted, valid_assignment, grants. split.
  - intros (k & a & Ha & [[Hu%N.eqb_eq Hv]%andb_true_iff Hg%bool_decide_eq_true]%andb_true_iff).
    apply role_codenames_spec in Hg as (l & link & p & Hg). exists k, a, l, link, p. naive_solver.
  - intros (k & a & l & link & p & Ha & Hu & Hv & Hg). exists k, a. split; [done|].
    rewrite Hu, N.eqb_refl, Hv. cbn. apply bool_decide_eq_true, role_codenames_spec. by exists l, link, p.
Qed.

(** The codenames and the overrides of a user are unique. *)
Definition resolvable (d : DB) : Prop :=
  unique_rows (R := Permission.t) d /\ unique_rows (R := UserPermissionOverride.t) d.

Lemma override_unique d uid codename effect effect' :
  resolvable d -> overridden d uid codename effect -> overridden d uid codename effect' -> effect = effect'.
Proof.
  intros [Hp Ho] (k & o & p & Hk & Hu & Hpk & Hc & He) (k' & o' & p' & Hk' & Hu' & Hpk' & Hc' & He').
  assert (Heq : UserPermissionOverride.permission o = UserPermissionOverride.permission o').
  { destruct (decide (UserPermissionOverride.permission o = UserPermissionOverride.permission o')) as [|Hne]; [done|].
    exfalso. pose proof (Hp _ _ p p' Hpk Hpk' Hne) as Hcl. cbn in Hcl. apply String.eqb_neq in Hcl. congruence. }
  destruct (decide (k = k')) as [->|Hne]; [congruence|]. exfalso.
  pose proof (Ho k k' o o' Hk Hk' Hne) as Hcl. cbn in Hcl. unfold UserPermissionOverride.clash in Hcl.
  by rewrite Hu, Hu', Heq, !N.eqb_refl in Hcl.
Qed.

(** The override the query finds. *)
Lemma first_override d uid codename :
  match Table.first pk_order (override_row d uid codename) (permission_overrides d) with
  | Some (_, o) => overridden d uid codename (UserPermissionOverride.effect o)
  | None => forall effect, ~ overridden d uid codename effect
  end.
Proof.
  destruct (Table.first _ _ _) as [[k o]|] eqn:Ef.
  - apply Table.first_Some in Ef as [Hk [Hu%N.eqb_eq Hc%bool_decide_eq_true]%andb_true_iff].
    apply fmap_Some in Hc as (p & Hp & Hc). by exists k, o, p.
  - intros effect (k & o & p & Hk & Hu & Hp & Hc & _).
    apply (proj1 (Table.first_None _ _ _)) with (k := k) (r := o) in Ef; [|done].
    unfold override_row in Ef. rewrite Hu, N.eqb_refl, Hp in Ef. cbn in Ef.
    by rewrite bool_decide_true in Ef by (by rewrite Hc).
Qed.

Lemma has_permission_spec user codename w :
  resolvable (db w) ->
  exists b w', has_permission user codename w = (inr b, w') /\ db w' = db w /\
    (b = true <-> exists uid u, user = Some (uid, u) /\ available (clock w.(ticks)) (db w) uid u = true /\
       may (clock (S w.(ticks))) (db w) uid u codename).
Proof.
  intros Hres. destruct user as [[uid u]|]; [|exists false, w; split; [done|]; split; [done|]; naive_solver].
  assert (Hav : can_authenticate_now uid u w = (inr (available (clock (ticks w)) (db w) uid u),
    if User.is_active u && bool_decide (User.status u = AccountStatus.ACTIVE) then w <| ticks ::= S |> else w)).
  { unfold can_authenticate_now, available. by destruct (User.is_active u && _). }
  cbn [has_permission]. unfold bind at 1. rewrite Hav.
  destruct (available _ _ _ _) eqn:Ha; cbn [negb].
  2:{ eexists false, _. split; [done|]. split; [by destruct (User.is_active u && _)|].
      split; [done|]. intros (? & ? & [= <- <-] & ? & _). congruence. }
  assert (Hact : User.is_active u && bool_decide (User.status u = AccountStatus.ACTIVE) = true)
    by (unfold available in Ha; by destruct (User.is_active u && _)).
  rewrite Hact.
  assert (Hmay : forall b, (b = true <-> may (clock (S (ticks w))) (db w) uid u codename) ->
    (b = true <-> exists uid' u', Some (uid, u) = Some (uid', u') /\
       available (clock (ticks w)) (db w) uid' u' = true /\ may (clock (S (ticks w))) (db w) uid' u' codename)).
  { intros b ->. split; [intros Hm; by exists uid, u|]. by intros (? & ? & [= <- <-] & _ & ?). }
  pose proof (first_override (db w) uid codename) as Hov.
  unfold bind, read, first_row, first_row_by. cbn.
  destruct (Table.first _ _ _) as [[k o]|]; cbn.
  - destruct (UserPermissionOverride.effect o); cbn; eexists _, _; (split; [done|]; split; [done|]; apply Hmay).
    + split; [|done]. intros _. split; [|by left]. intros Hd. by pose proof (override_unique _ _ _ _ _ Hres Hov Hd).
    + split; [done|]. by intros [Hn _].
  - destruct (User.is_superuser u) eqn:Hsu; cbn; eexists _, _; (split; [done|]; split; [done|]; apply Hmay).
    + split; [|done]. intros _. split; [apply Hov|]. right. by left.
    + rewrite granted_spec. unfold may. rewrite Hsu. split; [intros Hg; split; [apply Hov|]; by right; right|].
      intros [_ [Ho|[?|Hg]]]; [by apply Hov in Ho|done|done].
Qed.

(** [C7] [has_permission] answers exactly the stated precedence: nobody without
    an account that may authenticate now; a DENY override beats an ALLOW one,
    which beats superuser status, which beats role assignments valid now. *)
Theorem has_permission_decides user codename w :
  resolvable (db w) ->
  exists b w', has_permission user codename w = (inr b, w') /\ db w' = db w /\
    (b = true <-> exists uid u, user = Some (uid, u) /\ available (clock w.(ticks)) (db w) uid u = true /\
       may (clock (S w.(ticks))) (db w) uid u codename).
Proof. apply has_permission_spec. Qed.


Definition registered (d : DB) (codename : string) : Prop :=
  exists k p, permissions d !! k = Some p /\ Permission.codename p = codename.

Lemma override_codes_spec d uid effect x :
  x ∈ override_codes d uid effect <-> exists codename, x = Some codename /\ overridden d uid codename effect.
Proof.
  unfold override_codes. rewrite list_elem_of_omap. split.
  - intros ([k o] & [Hk [Hu%N.eqb_eq He%bool_decide_eq_true]%andb_true_iff]%Table.elem_of_select & Hx).
    cbn in Hx. destruct (permissions d !! _) as [p|] eqn:Hp; [|done]. injection Hx as <-.
    exists (Permission.codename p). split; [done|]. by exists k, o, p.
  - intros (codename & -> & k & o & p & Hk & Hu & Hp & Hc & He). exists (k, o). split.
    + apply Table.elem_of_select. split; [done|]. by rewrite Hu, N.eqb_refl, He, bool_decide_true.
    + cbn. by rewrite Hp, Hc.
Qed.

Lemma assignment_codes_spec d a x :
  x ∈ assignment_codes d a <->
  (exists codename, x = Some codename /\ codename ∈ role_codenames d (UserRole.role a)) \/
  (x = None /\ role_codenames d (UserRole.role a) = []).
Proof.
  unfold assignment_codes. destruct (role_codenames d (UserRole.role a)) as [|c l] eqn:El.
  - rewrite list_elem_of_singleton. split; [by right|]. intros [(c & _ & H)|[-> _]]; [|done].
    by apply not_elem_of_nil in H.
  - rewrite <- El, list_elem_of_fmap. split; [intros (c' & -> & H); left; by exists c'|].
    intros [(c' & -> & H)|[_ H]]; [by exists c'|]. congruence.
Qed.

Lemma role_codes_spec t d uid x :
  x ∈ concat (assignment_codes d ∘ snd <$> Table.select (valid_assignment t uid) (user_roles d)) <->
  (exists codename, x = Some codename /\ granted t d uid codename) \/
  (x = None /\ exists k a, user_roles d !! k = Some a /\ UserRole.user a = uid /\
     UserRole.is_valid t a = true /\ role_codenames d (UserRole.role a) = []).
Proof.
  rewrite list_elem_of_In, in_concat. split.
  - intros (codes & Hcodes & Hx%list_elem_of_In). apply list_elem_of_In in Hcodes.
    apply list_elem_of_fmap in Hcodes as ([k a] & -> & [Ha [Hu%N.eqb_eq Hv]%andb_true_iff]%Table.elem_of_select).
    cbn in *. apply assignment_codes_spec in Hx as [(c & -> & Hc)|[-> Hc]].
    + left. exists c. split; [done|]. apply role_codenames_spec in Hc as (l & link & p & Hc).
      exists k, a, l, link, p. naive_solver.
    + right. split; [done|]. by exists k, a.
  - assert (Hmem : forall k a, user_roles d !! k = Some a -> UserRole.user a = uid ->
      UserRole.is_valid t a = true -> In (assignment_codes d a)
        (assignment_codes d ∘ snd <$> Table.select (valid_assignment t uid) (user_roles d))).
    { intros k a Ha Hu Hv. apply list_elem_of_In, list_elem_of_fmap. exists (k, a). split; [done|].
      apply Table.elem_of_select. split; [done|]. unfold valid_assignment. by rewrite Hu, N.eqb_refl, Hv. }
    intros [(c & -> & k & a & l & link & p & Ha & Hu & Hv & Hrest)|(-> & k & a & Ha & Hu & Hv & Hrest)];
      (eexists; split; [by eapply Hmem|]; apply list_elem_of_In, assignment_codes_spec).
    + left. exists c. split; [done|]. apply role_codenames_spec. by exists l, link, p.
    + by right.
Qed.

Definition role_set (t : Z) (d : DB) (uid : uuid) (u : User.t) : gset (option string) :=
  if User.is_superuser u
  then list_to_set ((fun p => Some (Permission.codename p.2)) <$> Table.select (fun _ _ => true) (permissions d))
  else list_to_set (concat (assignment_codes d ∘ snd <$> Table.select (valid_assignment t uid) (user_roles d))).

Lemma role_set_spec t d uid u x :
  x ∈ role_set t d uid u <->
  (exists codename, x = Some codename /\ registered d codename /\
     (User.is_superuser u = true \/ granted t d uid codename)) \/
  (x = None /\ User.is_superuser u = false /\ exists k a, user_roles d !! k = Some a /\ UserRole.user a = uid /\
     UserRole.is_valid t a = true /\ role_codenames d (UserRole.role a) = []).
Proof.
  unfold role_set. destruct (User.is_superuser u); rewrite elem_of_list_to_set.
  - rewrite list_elem_of_fmap. split.
    + intros ([k p] & -> & [Hp _]%Table.elem_of_select). left. eexists. split; [done|]. split; [by exists k, p|by left].
    + intros [(c & -> & (k & p & Hp & <-) & _)|(_ & ? & _)]; [|done].
      exists (k, p). split; [done|]. by apply Table.elem_of_select.
  - rewrite role_codes_spec. split.
    + intros [(c & -> & Hg)|[-> H]]; [left|by right]. exists c. split; [done|]. split; [|by right].
      destruct Hg as (k & a & l & link & p & _ & _ & _ & _ & _ & Hp & Hc). by eexists _, p.
    + intros [(c & -> & _ & [?|Hg])|(-> & _ & H)]; [done| |by right]. left. by exists c.
Qed.

(** [permission_codes] lists exactly the registered codenames that
    [has_permission] would answer true for; and, through the LEFT JOIN of its
    query, [None] as soon as one valid assignment (of a user who is no
    superuser) is to a role without permissions. *)
Theorem permission_codes_lists user w :
  resolvable (db w) ->
  exists codes w', permission_codes user w = (inr codes, w') /\ db w' = db w /\
    (forall codename, Some codename ∈ codes <-> registered (db w) codename /\
       exists uid u, user = Some (uid, u) /\ available (clock w.(ticks)) (db w) uid u = true /\
         may (clock (S w.(ticks))) (db w) uid u codename) /\
    (None ∈ codes <-> exists uid u, user = Some (uid, u) /\ User.is_superuser u = false /\
       available (clock w.(ticks)) (db w) uid u = true /\
       exists k a, user_roles (db w) !! k = Some a /\ UserRole.user a = uid /\
         UserRole.is_valid (clock (S w.(ticks))) a = true /\ role_codenames (db w) (UserRole.role a) = []).
Proof.
  intros Hres. destruct user as [[uid u]|].
  2:{ exists ∅, w. split; [done|]. split; [done|]. split; [intros codename|]; rewrite elem_of_empty; naive_solver. }
  assert (Hav : can_authenticate_now uid u w = (inr (available (clock (ticks w)) (db w) uid u),
    if User.is_active u && bool_decide (User.status u = AccountStatus.ACTIVE) then w <| ticks ::= S |> else w)).
  { unfold can_authenticate_now, available. by destruct (User.is_active u && _). }
  cbn [permission_codes]. unfold bind at 1. rewrite Hav.
  destruct (available _ _ _ _) eqn:Ha; cbn [negb].
  2:{ eexists ∅, _. split; [done|]. split; [by destruct (User.is_active u && _)|].
      split; [intros codename|]; rewrite elem_of_empty; (split; [done|]); naive_solver congruence. }
  assert (Hact : User.is_active u && bool_decide (User.status u = AccountStatus.ACTIVE) = true)
    by (unfold available in Ha; by destruct (User.is_active u && _)).
  rewrite Hact. unfold bind, read. cbn. set (t := clock (S (ticks w))). set (d := db w) in *.
  eexists _, _. split; [done|]. split; [done|].
  assert (Hreg : forall codename effect, overridden d uid codename effect -> registered d codename).
  { intros c e (k & o & p & _ & _ & Hp & Hc & _). by exists (UserPermissionOverride.permission o), p. }
  fold (role_set t d uid u).
  assert (Hcodes : forall x, x ∈ (role_set t d uid u ∪ list_to_set (override_codes d uid OverrideEffect.ALLOW))
      ∖ list_to_set (override_codes d uid OverrideEffect.DENY) <->
    (x ∈ role_set t d uid u \/ exists c, x = Some c /\ overridden d uid c OverrideEffect.ALLOW) /\
    ~ exists c, x = Some c /\ overridden d uid c OverrideEffect.DENY).
  { intros x. by rewrite elem_of_difference, elem_of_union, !elem_of_list_to_set, !override_codes_spec. }
  split.
  - intros codename. rewrite Hcodes, role_set_spec. unfold may. split.
    + intros [Hin Hdeny].
      assert (Hr : registered d codename /\ (overridden d uid codename OverrideEffect.ALLOW \/
        User.is_superuser u = true \/ granted t d uid codename)).
      { destruct Hin as [[(c & [= <-] & Hr & Hg)|(? & _)]|(c & [= <-] & Ho)]; [by split; [|right]|done|].
        split; [by eapply Hreg|by left]. }
      destruct Hr as [Hr Hg]. split; [done|]. exists uid, u. split; [done|]. split; [done|]. split; [|done].
      intros Hd. apply Hdeny. by exists codename.
    + intros (Hr & uid' & u' & [= <- <-] & _ & Hd & Hg). split; [|by intros (c & [= <-] & ?)].
      destruct Hg as [Ho|Hg]; [right; by exists codename|]. left. left. by exists codename.
  - rewrite Hcodes, role_set_spec. split.
    + intros [[[(c & ? & _)|(_ & Hs & Hr)]|(c & ? & _)] _]; [done| |done]. by exists uid, u.
    + intros (uid' & u' & [= <- <-] & Hs & _ & Hr). split; [|by intros (c & ? & _)]. left. by right.
Qed.

End resolution.

(** ** Witnesses *)

Section witnesses.

(** Alice has the roles 51 (may view users) and 52 (no permissions) and is
    denied banning them. *)
Definition roles_world : World := sample_world <| db ::= fun d => d
  <| permissions := {[ 41%N := Permission.mk "users.view" "View users" true 0 0;
                       42%N := Permission.mk "users.ban" "Ban users" true 0 0 ]} |>
  <| roles := {[ 51%N := Role.mk "Viewer" "viewer" "" 10 false 0 0; 52%N := Role.mk "Empty" "empty" "" 10 false 0 0 ]} |>
  <| role_permissions := {[ 61%N := RolePermission.mk 51 41 0; 62%N := RolePermission.mk 51 42 0 ]} |>
  <| user_roles := {[ 71%N := UserRole.mk 1 51 None 0 None 0; 72%N := UserRole.mk 1 52 None 0 None 0 ]} |>
  <| permission_overrides := {[ 81%N := UserPermissionOverride.mk 1 42 OverrideEffect.DENY "" None 0 0 ]} |> |>.

Lemma roles_world_resolvable : resolvable (db roles_world).
Proof. split; apply unique_by_check; vm_compute; reflexivity. Qed.

Lemma has_permission_decides_witness :
  exists b w', has_permission (E := demo_env) (Some (1%N, sample_user "alice")) "users.ban" roles_world = (inr b, w') /\
    b = false.
Proof.
  destruct (has_permission_decides (E := demo_env) (Some (1%N, sample_user "alice")) "users.ban" roles_world
    roles_world_resolvable) as (b & w' & Hrun & _ & Hb).
  exists b, w'. split; [exact Hrun|]. destruct b; [|done]. exfalso.
  destruct (proj1 Hb eq_refl) as (uid & u & Heq & _ & Hd & _). injection Heq as <- <-. apply Hd.
  exists 81%N, (UserPermissionOverride.mk 1 42 OverrideEffect.DENY "" None 0 0),
    (Permission.mk "users.ban" "Ban users" true 0 0). repeat split.
Defined.

Lemma permission_codes_lists_witness :
  exists codes w', permission_codes (E := demo_env) (Some (1%N, sample_user "alice")) roles_world = (inr codes, w') /\
    None ∈ codes.
Proof.
  destruct (permission_codes_lists (E := demo_env) (Some (1%N, sample_user "alice")) roles_world
    roles_world_resolvable) as (codes & w' & Hrun & _ & _ & Hn).
  exists codes, w'. split; [exact Hrun|]. apply Hn. exists 1%N, (sample_user "alice").
  split; [reflexivity|]. split; [reflexivity|]. split; [vm_compute; reflexivity|].
  exists 72%N, (UserRole.mk 1 52 None 0 None 0). repeat split; vm_compute; reflexivity.
Defined.

End witnesses.
