(* ===== verification/ApiKeys.v ===== *)
(** * API keys ([apps/api_keys]) *)

From S2P Require Import Prelude Env Demo Models Orm Logic Common Samples Users.

Section api_keys.
Context `{E : Env}.

Definition marker : string := "dk".

(** [APIKeyService._hash] *)
Definition key_hash_of (raw_key : string) : string :=
  keyed_hash_with (if Str.is_empty API_KEY_PEPPER then SECRET_KEY else API_KEY_PEPPER) raw_key "api-key".

(** [f"{marker}_{prefix}.{secret}"] *)
Definition raw_key_of (prefix secret : string) : string :=
  marker +:+ "_" +:+ prefix +:+ "." +:+ secret.

Definition key_target (k : uuid) (a : APIKey.t) : AuditService.Target :=
  AuditService.MkTarget "api_keys.apikey" k (APIKey.name a +:+ " (" +:+ APIKey.prefix a +:+ ")").

(** [sorted(set(scopes))] *)
Definition string_le (a b : string) : Prop := String.leb a b = true.
#[export] Instance string_le_dec : RelDecision string_le.
Proof. intros a b. unfold string_le. apply _. Defined.
Definition sorted_set (l : list string) : list string := merge_sort string_le (remove_dups l).

(** [APIKeyService.create] *)
Definition create_key (owner : uuid) (name : string) (scopes : list string) (expires_at : option Z)
    (actor : option uuid) (request : option Request) : M (uuid * APIKey.t * string) :=
  atomic (
    let! prefix := draw (fun n => token_hex n 6) in
    let! secret := draw (fun n => token_urlsafe n 32) in
    let raw := raw_key_of prefix secret in
    let! created := now in
    let! '(k, a) := create (APIKey.mk owner name prefix (key_hash_of raw) (sorted_set scopes)
                              created None None expires_at None) in
    SecurityEventService.record SecurityEventType.API_KEY_CREATED (Some owner) request
      [("prefix", PStr prefix)] ;;
    AuditService.record
      ((AuditService.on "api_key.created" (key_target k a)
          (match actor with Some x => Some x | None => Some owner end) request)
        <| AuditService.after := [("name", PStr name); ("scopes", PList (PStr <$> APIKey.scopes a));
                                  ("prefix", PStr prefix)] |>) ;;
    ret (k, a, raw)).

(** [raw_key.split("_", 1)[1].split(".", 1)[0]] of a well-formed key. *)
Definition key_prefix (raw_key : string) : option string :=
  if String.prefix (marker +:+ "_") raw_key && Str.has_char "." raw_key
  then match (Str.split_once "_" raw_key).2 with
       | Some rest => Some (Str.split_once "." rest).1
       | None => None
       end
  else None.

Definition newest_key (a b : uuid * APIKey.t) : bool := APIKey.created_at b.2 <=? APIKey.created_at a.2.

(** [APIKey.is_active] *)
Definition key_is_active (a : APIKey.t) : M bool :=
  if is_some (APIKey.revoked_at a) then ret false else
  match APIKey.expires_at a with
  | None => ret true
  | Some e => let! t := now in ret (t <? e)
  end.

(** [APIKeyService.authenticate] *)
Definition authenticate_key (raw_key : string) (ip : option string) : M (option (uuid * APIKey.t)) :=
  match key_prefix raw_key with
  | None => ret None
  | Some prefix =>
      let! found := first_row_by newest_key (fun _ a => String.eqb (APIKey.prefix a) prefix) in
      match found with
      | None => ret None
      | Some (k, a) =>
          let! active := key_is_active a in
          if negb active then ret None else
          let! owner := get_pk (R := User.t) (APIKey.owner a) in
          let! ok := can_authenticate_now (APIKey.owner a) owner in
          if negb ok then ret None else
          if negb (String.eqb (APIKey.key_hash a) (key_hash_of raw_key)) then ret None else
          let! t := now in
          update_where (fun k' _ => N.eqb k' k)
            (fun a => a <| APIKey.last_used_at := Some t |> <| APIKey.last_used_ip := ip |>) ;;
          ret (Some (k, a))
      end
  end.

(** [APIKeyService.revoke] *)
Definition revoke_key (k : uuid) (actor : option uuid) (request : option Request) : M unit :=
  atomic (
    let! locked := get_pk (R := APIKey.t) k in
    if is_some (APIKey.revoked_at locked) then ret tt else
    let! revoked := now in
    save_fields k (fun a => a <| APIKey.revoked_at := Some revoked |>) ;;
    SecurityEventService.record SecurityEventType.API_KEY_REVOKED (Some (APIKey.owner locked)) request
      [("prefix", PStr (APIKey.prefix locked))] ;;
    AuditService.record
      ((AuditService.on "api_key.revoked" (key_target k locked)
          (match actor with Some x => Some x | None => Some (APIKey.owner locked) end) request)
        <| AuditService.after := [("revoked_at", PStr (isoformat revoked))] |>) ;;
    ret tt).

(** [APIKeyAuthentication.authenticate] on the [X-API-Key] header: the user
    and key, nothing when the scheme does not apply, or an error. *)
Definition api_key_authentication (header : option string) (ip : option string)
    : M (option (uuid * (uuid * APIKey.t))) :=
  if negb ENABLE_API_KEYS then ret None else
  match header with
  | None => ret None
  | Some raw =>
      if Str.is_empty raw then ret None else
      let! found := authenticate_key raw ip in
      match found with
      | None => raise (AuthenticationFailed "Invalid API key.")
      | Some (k, a) =>
          let! owner := get_pk (R := User.t) (APIKey.owner a) in
          let! ok := can_authenticate_now (APIKey.owner a) owner in
          if negb ok then raise (AuthenticationFailed "Invalid API key.")
          else ret (Some (APIKey.owner a, (k, a)))
      end
  end.

(** ** Scopes ([HasAPIKeyScope]) *)

(** What a view declares: [required_api_key_scopes_by_method] wins over
    [required_api_key_scopes]. *)
Record view_scopes := MkScopes {
  scopes_by_method : option (list (string * list string));
  scopes_for_all : option (list string);
}.

Definition has_scope (key : option APIKey.t) (view : view_scopes) (method : string) : bool :=
  match key with
  | None => true
  | Some a =>
      match scopes_by_method view, scopes_for_all view with
      | None, None => false
      | Some by_method, _ =>
          let required := match List.find (fun kv => String.eqb kv.1 method) by_method with
                          | Some kv => kv.2
                          | None => []
                          end in
          forallb (fun s => bool_decide (s ∈ APIKey.scopes a)) required
      | None, Some required => forallb (fun s => bool_decide (s ∈ APIKey.scopes a)) required
      end
  end.

(** The declarations of the views an API key can reach. *)
Definition current_user_scopes : view_scopes := MkScopes None (Some ["profile.read"]).
Definition profile_scopes : view_scopes :=
  MkScopes (Some [("GET", ["profile.read"]); ("PUT", ["profile.write"]); ("PATCH", ["profile.write"])]) None.
Definition notification_scopes : view_scopes := MkScopes None (Some ["notifications.read"]).

End api_keys.

(** ** Creation and authentication *)

Section key_facts.
Context `{E : Env, !EntropyLaws E, !CryptoLaws E}.

(** The prefix of a created key is what authentication reads back. *)
Lemma key_prefix_of_raw prefix secret :
  Str.has_char "." prefix = false -> key_prefix (raw_key_of prefix secret) = Some prefix.
Proof.
  intros Hp. unfold key_prefix.
  assert (Hdot : Str.has_char "." (raw_key_of prefix secret) = true).
  { unfold raw_key_of. rewrite !Str.has_char_app. cbn. by rewrite !orb_true_r. }
  assert (Hpre : String.prefix (marker +:+ "_") (raw_key_of prefix secret) = true)
    by exact (Str.prefix_app "dk_" (prefix +:+ "." +:+ secret)).
  rewrite Hdot, Hpre. cbn [andb].
  change (Str.split_once "_" (raw_key_of prefix secret)) with ("dk", Some (prefix +:+ String "." secret)).
  cbn [snd]. by rewrite (Str.split_once_app "." prefix secret Hp).
Qed.

Lemma key_hash_inj a b : key_hash_of a = key_hash_of b -> a = b.
Proof. apply hmac_inj. Qed.

(** The key can be used at [t]. *)
Definition key_live (t : Z) (a : APIKey.t) : Prop :=
  APIKey.revoked_at a = None /\ forall e, APIKey.expires_at a = Some e -> t < e.

(** The row after a successful use. *)
Definition used_key (a a' : APIKey.t) (ip : option string) : Prop :=
  exists t, a' = a <| APIKey.last_used_at := Some t |> <| APIKey.last_used_ip := ip |>.

(** [api_keys] rows belong to stored users (a foreign key). *)
Definition key_owners (d : DB) : Prop :=
  forall k a, api_keys d !! k = Some a -> exists u, users d !! APIKey.owner a = Some u.

Lemma key_is_active_spec a w :
  wp (key_is_active a) (fun b w' => db w' = db w /\ (ticks w <= ticks w' <= S (ticks w))%nat /\
    (b = true <-> key_live (clock w.(ticks)) a)) (fun _ _ => False) w.
Proof.
  unfold key_is_active, key_live. destruct (APIKey.revoked_at a); cbn [is_some is_none negb].
  { wp_step. split; [done|]. split; [lia|]. split; [done|]. by intros []. }
  destruct (APIKey.expires_at a) as [e|].
  - do 3 wp_step. cbn. split; [done|]. split; [lia|]. rewrite Z.ltb_lt. split; [|intros [_ H]; by apply H].
    intros Hlt. split; [done|]. by intros e' [= <-].
  - wp_step. split; [done|]. split; [lia|]. done.
Qed.

(** What authentication does, on both outcomes. *)
Lemma authenticate_key_spec raw ip w :
  unique_rows (R := APIKey.t) (db w) -> key_owners (db w) ->
  exists r w', authenticate_key raw ip w = (inr r, w') /\
    match r with
    | Some (k, a) => exists t1 t2 a' u,
        api_keys (db w) !! k = Some a /\ key_prefix raw = Some (APIKey.prefix a) /\
        (forall raw', key_hash_of raw' = APIKey.key_hash a <-> raw' = raw) /\
        key_live t1 a /\ users (db w) !! APIKey.owner a = Some u /\ available t2 (db w) (APIKey.owner a) u = true /\
        used_key a a' ip /\ db w' = (db w) <| api_keys ::= insert k a' |>
    | None => db w' = db w /\
        forall k a, api_keys (db w) !! k = Some a -> key_prefix raw = Some (APIKey.prefix a) ->
          key_hash_of raw = APIKey.key_hash a ->
          ~ key_live (clock w.(ticks)) a \/
          exists u t, users (db w) !! APIKey.owner a = Some u /\ available t (db w) (APIKey.owner a) u = false
    end.
Proof.
  intros Hu Ho. apply wp_returns. unfold authenticate_key.
  destruct (key_prefix raw) as [prefix|] eqn:Hp; [|wp_step; split; [done|]; naive_solver].
  do 2 wp_step. change (objects (db w)) with (api_keys (db w)).
  set (P := fun (_ : uuid) (a : APIKey.t) => String.eqb (APIKey.prefix a) prefix).
  assert (Huniq : forall k k' a a', api_keys (db w) !! k = Some a -> api_keys (db w) !! k' = Some a' ->
    P k a = true -> P k' a' = true -> k' = k).
  { intros k k' a a' Hk Hk' Ha%String.eqb_eq Ha'%String.eqb_eq. destruct (decide (k' = k)) as [|Hne]; [done|].
    exfalso. pose proof (Hu k' k a' a Hk' Hk Hne) as Hcl. cbn in Hcl. apply String.eqb_neq in Hcl. congruence. }
  destruct (Table.first _ _ _) as [[k a]|] eqn:Ef.
  2:{ wp_step. split; [done|]. intros k a Hk [= ->] _. exfalso.
      pose proof (proj1 (Table.first_None _ _ _) Ef k a Hk) as HP. unfold P in HP.
      by rewrite String.eqb_refl in HP. }
  apply Table.first_Some in Ef as [Hk HP]. pose proof HP as Hpa%String.eqb_eq.
  assert (Hnone : (~ key_live (clock w.(ticks)) a \/ (exists u t, users (db w) !! APIKey.owner a = Some u /\
      available t (db w) (APIKey.owner a) u = false) \/ APIKey.key_hash a <> key_hash_of raw) ->
    forall k' a', api_keys (db w) !! k' = Some a' -> Some prefix = Some (APIKey.prefix a') ->
      key_hash_of raw = APIKey.key_hash a' -> ~ key_live (clock w.(ticks)) a' \/
      exists u t, users (db w) !! APIKey.owner a' = Some u /\ available t (db w) (APIKey.owner a') u = false).
  { intros Hwhy k' a' Hk' [= Hpx] Hh. assert (k' = k) as ->.
    { apply (Huniq k k' a a'); [done|done|done|]. unfold P. rewrite Hpx. apply String.eqb_refl. }
    assert (a' = a) as -> by congruence. destruct Hwhy as [?|[?|Hn]]; [by left|by right|congruence]. }
  wp_step. eapply wp_mono; [apply key_is_active_spec| |done].
  intros active w1 (D1 & T1 & Hact). destruct active; cbn [negb].
  2:{ wp_step. split; [done|]. apply Hnone. left. intros Hl. apply Hact in Hl. done. }
  destruct (Ho k a Hk) as [u Hou].
  wp_step. apply (wp_found _ u); [by rewrite D1|]. wp_step.
  destruct (can_authenticate_now_spec (APIKey.owner a) u w1) as (w2 & Hrun & D2 & _).
  unfold wp at 1. rewrite Hrun, D1. cbv beta iota.
  destruct (available (clock (ticks w1)) (db w) (APIKey.owner a) u) eqn:Hav; cbn [negb].
  2:{ wp_step. split; [congruence|]. apply Hnone. right. left. by eexists u, _. }
  destruct (String.eqb_spec (APIKey.key_hash a) (key_hash_of raw)) as [Hh|Hh]; cbn [negb].
  2:{ wp_step. split; [congruence|]. apply Hnone. by right; right. }
  do 5 wp_step. eexists _, _, _, u. split; [done|]. split; [by rewrite Hpa|].
  split; [intros raw'; rewrite Hh; split; [apply key_hash_inj|by intros ->]|].
  split; [by apply Hact|]. split; [done|]. split; [exact Hav|]. split; [by eexists|].
  cbn. rewrite D2, D1. f_equal. apply map_eq. intros k'. rewrite Table.lookup_update, lookup_insert.
  case_decide as Heq; [subst k'; by rewrite Hk; cbn; rewrite N.eqb_refl|].
  destruct (api_keys (db w) !! k') as [a'|]; cbn; [|done]. by destruct (N.eqb_spec k' k).
Qed.


Lemma create_key_spec owner name scopes expires actor request w :
  unique_rows (R := APIKey.t) (db w) ->
  wp (create_key owner name scopes expires actor request)
    (fun x w' => let '(k, a, raw) := x in
       api_keys (db w') !! k = Some a /\ unique_rows (R := APIKey.t) (db w') /\
       key_prefix raw = Some (APIKey.prefix a) /\ APIKey.key_hash a = key_hash_of raw /\
       APIKey.owner a = owner /\ APIKey.revoked_at a = None /\ APIKey.expires_at a = expires /\
       (forall s, s ∈ APIKey.scopes a <-> s ∈ scopes)) (fun _ _ => True) w.
Proof.
  intros Hu. unfold create_key. do 8 wp_step. wp_step; [|done]. cbn beta iota. wp_step.
  apply wp_any; [|done]. intros x w1 Hr1. wp_step. apply wp_any; [|done]. intros y w2 Hr2. wp_step.
  pose proof (evolves_run _ _ _ _ _ (event_record_keeps api_keys _ _ _ _ ltac:(done)) Hr1) as E1.
  pose proof (evolves_run _ _ _ _ _ (audit_record_keeps api_keys _ ltac:(done)) Hr2) as E2.
  unfold keeps in E1, E2. unfold unique_rows. cbn [objects model_APIKey]. rewrite db_committed, E2, E1.
  cbn in *. split; [apply lookup_insert_eq|]. split; [by apply unique_table_insert|].
  split; [apply key_prefix_of_raw, token_hex_dotless|]. repeat (split; [done|]).
  intros s. unfold sorted_set. rewrite merge_sort_Permutation. apply elem_of_remove_dups.
Qed.

(** The raw value returned by [create] is the key: until it expires or is
    revoked, and as long as its owner may authenticate, it opens exactly the
    created key, with exactly the requested scopes. *)
Theorem create_key_authenticates owner name scopes expires actor request ip w k a raw w1 w2 u :
  unique_rows (R := APIKey.t) (db w) ->
  create_key owner name scopes expires actor request w = (inr (k, a, raw), w1) ->
  db w2 = db w1 -> key_owners (db w2) -> users (db w2) !! owner = Some u ->
  (forall t, available t (db w2) owner u = true) ->
  (forall e, expires = Some e -> clock w2.(ticks) < e) ->
  exists w3, authenticate_key raw ip w2 = (inr (Some (k, a)), w3) /\
    (forall s, s ∈ APIKey.scopes a <-> s ∈ scopes).
Proof.
  intros Hu Hrun Hdb Ho Hou Hav He.
  destruct (wp_result _ _ _ _ _ _ (create_key_spec owner name scopes expires actor request w Hu) Hrun)
    as (Hk & Hu1 & Hp & Hh & Hown & Hrev & Hexp & Hsc). rewrite <- Hdb in Hk, Hu1.
  destruct (authenticate_key_spec raw ip w2 Hu1 Ho) as ([[k' a']|] & w3 & Hauth & H).
  - destruct H as (_ & _ & _ & _ & Hk' & Hp' & _). exists w3. split; [|done].
    assert (k' = k) as ->.
    { destruct (decide (k' = k)) as [|Hne]; [done|]. exfalso.
      pose proof (Hu1 k' k a' a Hk' Hk Hne) as Hcl. cbn in Hcl. apply String.eqb_neq in Hcl. congruence. }
    assert (a' = a) as -> by congruence. done.
  - exfalso. destruct H as [_ H]. destruct (H k a Hk Hp) as [Hdead|(u' & t & Hu' & Hun)]; [congruence| |].
    + apply Hdead. split; [done|]. by rewrite Hexp.
    + rewrite Hown in Hu', Hun. assert (u' = u) as -> by congruence. by rewrite Hav in Hun.
Qed.

End key_facts.

(** ** Witnesses *)

Section witnesses.

Definition sample_key : M (uuid * APIKey.t * string) :=
  create_key (E := demo_env) 1 "ci" ["profile.read"] None None None.

Definition key_world : World := (sample_key sample_world).2.

Lemma key_world_owners : key_owners (db key_world).
Proof.
  intros k a Hk%elem_of_map_to_list. revert Hk. vm_compute map_to_list. intros Hin.
  exists (sample_user "alice"). apply list_elem_of_singleton in Hin. by injection Hin as _ ->.
Qed.

Lemma key_world_user : users (db key_world) !! 1%N = Some (sample_user "alice").
Proof. vm_compute. reflexivity. Qed.

Lemma key_world_available t : available t (db key_world) 1 (sample_user "alice") = true.
Proof. vm_compute. reflexivity. Qed.

Lemma key_world_run : exists k a,
  create_key (E := demo_env) 1 "ci" ["profile.read"] None None None sample_world
    = (inr (k, a, "dk_000000000000.tok1"), key_world).
Proof.
  unfold key_world, sample_key.
  assert (Hraw : match (create_key (E := demo_env) 1 "ci" ["profile.read"] None None None sample_world).1 with
                 | inr x => x.2 = "dk_000000000000.tok1" | _ => False end) by (vm_compute; reflexivity).
  destruct (create_key _ _ _ _ _ _ _) as [[e|[[k a] raw]] w1]; [done|]. cbn in *. subst raw. by exists k, a.
Qed.

Lemma create_key_authenticates_witness :
  exists k a w3,
    create_key (E := demo_env) 1 "ci" ["profile.read"] None None None sample_world
      = (inr (k, a, "dk_000000000000.tok1"), key_world) /\
    authenticate_key (E := demo_env) "dk_000000000000.tok1" None key_world = (inr (Some (k, a)), w3).
Proof.
  destruct key_world_run as (k & a & Hrun).
  destruct (create_key_authenticates (E := demo_env) 1 "ci" ["profile.read"] None None None None
    sample_world k a _ key_world key_world (sample_user "alice") unique_table_empty Hrun eq_refl
    key_world_owners key_world_user key_world_available) as (w3 & Hauth & _); [done|].
  exists k, a, w3. split; [exact Hrun|exact Hauth].
Defined.


End witnesses.
