(* ===== verification/Webhooks.v ===== *)
(** * Webhooks ([apps/webhooks]) *)

From S2P Require Import Prelude Env Demo Models Orm Logic Common Samples Users ApiKeys.

Section webhooks.
Context `{E : Env}.

(** ** [WebhookService] *)

(** [WebhookService.validate_url] *)
Definition validate_url (url : string) : M unit :=
  let parsed := urlparse url in
  let allowed := if String.eqb APP_ENV "production" then ["https"] else ["http"; "https"] in
  if negb (bool_decide (scheme parsed ∈ allowed))
  then raise (ValidationError "Webhook URLs must use an allowed HTTP scheme." "") else
  if Str.is_empty (hostname parsed) || negb (Str.is_empty (url_username parsed))
     || negb (Str.is_empty (url_password parsed))
  then raise (ValidationError "Webhook URL is invalid." "") else
  match port parsed with
  | inl e => raise e
  | inr p =>
      let p := match p with Some 0 | None => 443 | Some n => n end in
      let! resolved := draw (fun n => getaddrinfo n (hostname parsed) p) in
      match resolved with
      | None => raise (ValidationError "Webhook hostname could not be resolved." "")
      | Some addresses =>
          if forallb ip_is_global addresses then ret tt
          else raise (ValidationError "Webhook URLs cannot resolve to private or reserved addresses." "")
      end
  end.

(** [WebhookService.create_endpoint] *)
Definition create_endpoint (owner : option uuid) (name url : string) (event_types : list string)
    : M (uuid * WebhookEndpoint.t * string) :=
  atomic (
    validate_url url ;;
    let! secret := generate_token 32 in
    let! encrypted := encrypt_value secret "webhook-secret" in
    let! c := now in let! t := now in
    let! '(k, endpoint) := create
      (WebhookEndpoint.mk owner name url (sorted_set event_types)
         (keyed_hash secret "webhook-secret") encrypted true c t) in
    ret (k, endpoint, secret)).

(** The endpoints an event goes to. *)
Definition subscribed (event_type : string) (_ : uuid) (e : WebhookEndpoint.t) : bool :=
  WebhookEndpoint.is_active e && bool_decide (event_type ∈ WebhookEndpoint.event_types e).

(** [WebhookService.emit] *)
Definition emit (event_type : string) (payload : pyval) : M (uuid * WebhookEvent.t) :=
  atomic (
    let! created := now in
    let! '(event, e) := create (WebhookEvent.mk event_type payload created) in
    let! endpoints := filter_rows (subscribed event_type) in
    for_each endpoints (fun x =>
      let! created := now in
      create (WebhookDelivery.mk x.1 event DeliveryStatus.PENDING 0 None "" None None created) ;;
      ret tt) ;;
    when (ENABLE_WEBHOOKS && negb (Nat.eqb (length endpoints) 0)) (on_commit DispatchWebhooks) ;;
    ret (event, e)).

(** [WebhookService.serialize_event] *)
Definition serialize_event (k : uuid) (e : WebhookEvent.t) : string :=
  json_dumps (PDict [("id", PStr (uuid_str k)); ("type", PStr (WebhookEvent.event_type e));
                     ("created_at", PStr (isoformat (WebhookEvent.created_at e)));
                     ("data", WebhookEvent.payload e)]).

(** The decimal digits of [str(int(time.time()))]. *)
Definition digits (n : Z) : string := pretty.pretty n.

(** [hmac(secret, timestamp + "." + body)] *)
Definition signature (secret timestamp body : string) : string :=
  hmac_sha256 secret (timestamp +:+ "." +:+ body).

(** [WebhookService.signature_headers] *)
Definition signature_headers (endpoint : WebhookEndpoint.t) (event : uuid) (body : string)
    : M (list (string * string)) :=
  let! secret := decrypt_value (WebhookEndpoint.encrypted_secret endpoint) "webhook-secret" in
  let! t := now in
  let timestamp := digits (whole_seconds t) in
  ret [("Content-Type", "application/json");
       ("User-Agent", APP_NAME +:+ "-Webhooks/1.0");
       ("X-Webhook-ID", uuid_str event);
       ("X-Webhook-Timestamp", timestamp);
       ("X-Webhook-Signature", "v1=" +:+ signature secret timestamp body)].

(** ** [deliver_webhook] *)

Definition stale_after : Z := minutes 15.

(** A delivery somebody else is working on. *)
Definition in_flight (t : Z) (d : WebhookDelivery.t) : bool :=
  bool_decide (WebhookDelivery.status d = DeliveryStatus.PROCESSING)
  && match WebhookDelivery.last_attempt_at d with
     | Some a => t - stale_after <? a
     | None => false
     end.

Definition finished (s : DeliveryStatus.t) : bool :=
  match s with DeliveryStatus.SUCCEEDED | DeliveryStatus.ABANDONED => true | _ => false end.

(** The first transaction: the delivery to attempt, if it is our turn. *)
Definition claim (k : uuid) : M (option WebhookDelivery.t) :=
  atomic (
    let! delivery := get_pk (R := WebhookDelivery.t) k in
    if finished (WebhookDelivery.status delivery) then ret None else
    let! t := now in
    if in_flight t delivery then ret None else
    let! started := now in
    let claimed (d : WebhookDelivery.t) := d
      <| WebhookDelivery.attempt_count := WebhookDelivery.attempt_count delivery + 1 |>
      <| WebhookDelivery.last_attempt_at := Some started |>
      <| WebhookDelivery.status := DeliveryStatus.PROCESSING |> in
    save_fields k claimed ;;
    ret (Some (claimed delivery))).

(** The request; [None] when it failed in a way the task handles. *)
Definition send (endpoint : WebhookEndpoint.t) (event_id : uuid) (event : WebhookEvent.t)
    : M (option (Z * string)) :=
  try_except
    (validate_url (WebhookEndpoint.url endpoint) ;;
     let body := serialize_event event_id event in
     let! headers := signature_headers endpoint event_id body in
     let! result := draw (fun n => http_post n (WebhookEndpoint.url endpoint) body headers) in
     match result with
     | HttpResponse status text => ret (Some (status, text))
     | HttpFailed m => raise (HTTPError m)
     | HttpRaised e => raise e
     end)
    (fun e => match e with
              | HTTPError _ | ValidationError _ _ => ret None
              | _ => raise e
              end).

Definition max_attempts : Z := 8.

(** Seconds before the attempt after the [n]-th one. *)
Definition backoff (n : Z) : Z := Z.min 3600 (30 * 2 ^ (n - 1)).

Definition success (status : Z) : bool := (200 <=? status) && (status <? 300).

(** What a failed attempt does to the delivery. *)
Definition failed (t : Z) (d : WebhookDelivery.t) : WebhookDelivery.t :=
  if max_attempts <=? WebhookDelivery.attempt_count d
  then d <| WebhookDelivery.status := DeliveryStatus.ABANDONED |>
         <| WebhookDelivery.next_retry_at := None |>
  else d <| WebhookDelivery.status := DeliveryStatus.FAILED |>
         <| WebhookDelivery.next_retry_at := Some (t + seconds (backoff (WebhookDelivery.attempt_count d))) |>.

(** The delivery after the attempt. *)
Definition settle (d : WebhookDelivery.t) (outcome : option (Z * string)) : M WebhookDelivery.t :=
  let d := match outcome with
           | Some (status, text) =>
               d <| WebhookDelivery.response_code := Some status |>
                 <| WebhookDelivery.response_body := Str.take 4096 text |>
           | None => d
           end in
  match outcome with
  | Some (status, _) =>
      if success status
      then ret (d <| WebhookDelivery.status := DeliveryStatus.SUCCEEDED |>
                  <| WebhookDelivery.next_retry_at := None |>)
      else let! t := now in ret (failed t d)
  | None => let! t := now in ret (failed t d)
  end.

Definition deliver_webhook (k : uuid) : M unit :=
  let! claimed := claim k in
  match claimed with
  | None => ret tt
  | Some d =>
      let! endpoint := get_pk (R := WebhookEndpoint.t) (WebhookDelivery.endpoint d) in
      let! event := get_pk (R := WebhookEvent.t) (WebhookDelivery.event d) in
      let! outcome := send endpoint (WebhookDelivery.event d) event in
      let! d' := settle d outcome in
      save_fields k (fun r => r
        <| WebhookDelivery.response_code := WebhookDelivery.response_code d' |>
        <| WebhookDelivery.response_body := WebhookDelivery.response_body d' |>
        <| WebhookDelivery.status := WebhookDelivery.status d' |>
        <| WebhookDelivery.next_retry_at := WebhookDelivery.next_retry_at d' |>)
  end.

(** ** [dispatch_pending_webhooks] *)

Definition endpoint_active (d : DB) (w : WebhookDelivery.t) : bool :=
  match webhook_endpoints d !! WebhookDelivery.endpoint w with
  | Some e => WebhookEndpoint.is_active e
  | None => false
  end.

Definition fresh_delivery (d : DB) (_ : uuid) (w : WebhookDelivery.t) : bool :=
  bool_decide (WebhookDelivery.status w = DeliveryStatus.PENDING) && endpoint_active d w
  && is_none (WebhookDelivery.next_retry_at w).
Definition due_delivery (t : Z) (d : DB) (_ : uuid) (w : WebhookDelivery.t) : bool :=
  bool_decide (WebhookDelivery.status w = DeliveryStatus.FAILED)
  && match WebhookDelivery.next_retry_at w with Some r => r <=? t | None => false end
  && endpoint_active d w.
Definition stale_delivery (t : Z) (d : DB) (_ : uuid) (w : WebhookDelivery.t) : bool :=
  bool_decide (WebhookDelivery.status w = DeliveryStatus.PROCESSING)
  && match WebhookDelivery.last_attempt_at w with Some a => a <? t - stale_after | None => false end
  && endpoint_active d w.

Definition batch_size : nat := 100.

(** The deliveries of one run: new ones, due retries, then stale ones, at most
    a batch. *)
Definition pending_ids (t : Z) (d : DB) : list uuid :=
  let pick P n := take n (Table.select P (webhook_deliveries d)).*1 in
  let ids := pick (fresh_delivery d) batch_size in
  let ids := ids ++ pick (due_delivery t d) (batch_size - length ids)%nat in
  ids ++ pick (stale_delivery t d) (batch_size - length ids)%nat.

(** [task.delay(...)]: a message when Celery is on, the call itself when it is
    off ([common/tasks.py]). *)
Definition delay_delivery (k : uuid) : M unit :=
  if CELERY_ENABLED && negb CELERY_TASK_ALWAYS_EAGER
  then perform (QueueTask "apps.webhooks.tasks.deliver_webhook" (uuid_str k))
  else deliver_webhook k.

Definition dispatch_pending_webhooks : M nat :=
  if negb ENABLE_WEBHOOKS then ret 0%nat else
  let! t := now in
  let! d := read db in
  let ids := pending_ids t d in
  for_each ids delay_delivery ;;
  ret (length ids).

End webhooks.

(** ** The delivery state machine *)

Section delivery_machine.
Context `{E : Env}.

(** A claimed delivery: one more attempt, in progress since [t]. *)
Definition claimed_at (t : Z) (d : WebhookDelivery.t) : WebhookDelivery.t := d
  <| WebhookDelivery.attempt_count := WebhookDelivery.attempt_count d + 1 |>
  <| WebhookDelivery.last_attempt_at := Some t |>
  <| WebhookDelivery.status := DeliveryStatus.PROCESSING |>.

Definition answered (code : Z) (text : string) (d : WebhookDelivery.t) : WebhookDelivery.t := d
  <| WebhookDelivery.response_code := Some code |>
  <| WebhookDelivery.response_body := Str.take 4096 text |>.

Definition succeeded (d : WebhookDelivery.t) : WebhookDelivery.t := d
  <| WebhookDelivery.status := DeliveryStatus.SUCCEEDED |>
  <| WebhookDelivery.next_retry_at := None |>.

(** Whether a worker may start an attempt at [t]. *)
Definition available_at (t : Z) (d : WebhookDelivery.t) : Prop :=
  finished (WebhookDelivery.status d) = false /\ in_flight t d = false.

(** One run of [deliver_webhook] on a delivery; the flag says whether the run
    returned or an exception escaped it. *)
Inductive attempt : bool -> WebhookDelivery.t -> WebhookDelivery.t -> Prop :=
| attempt_idle t d :
    ~ available_at t d -> attempt true d d
| attempt_delivered t t0 code text d :
    available_at t d -> success code = true ->
    attempt true d (succeeded (answered code text (claimed_at t0 d)))
| attempt_refused t t0 t1 code text d :
    available_at t d -> success code = false ->
    attempt true d (failed t1 (answered code text (claimed_at t0 d)))
| attempt_unreachable t t0 t1 d :
    available_at t d -> attempt true d (failed t1 (claimed_at t0 d))
| attempt_crashed t t0 d :
    available_at t d -> attempt false d (claimed_at t0 d).

(** A delivery as [emit] creates it. *)
Definition new_delivery (endpoint event : uuid) (created : Z) : WebhookDelivery.t :=
  WebhookDelivery.mk endpoint event DeliveryStatus.PENDING 0 None "" None None created.

(** What holds of a delivery between runs that returned. *)
Definition delivery_ok (d : WebhookDelivery.t) : Prop :=
  let n := WebhookDelivery.attempt_count d in
  let retry := WebhookDelivery.next_retry_at d in
  match WebhookDelivery.status d with
  | DeliveryStatus.PENDING => n = 0 /\ retry = None
  | DeliveryStatus.PROCESSING => False
  | DeliveryStatus.SUCCEEDED => 1 <= n <= max_attempts /\ retry = None
  | DeliveryStatus.FAILED =>
      1 <= n < max_attempts /\ exists t s, retry = Some (t + seconds s) /\ 30 <= s <= 3600
  | DeliveryStatus.ABANDONED => n = max_attempts /\ retry = None
  end.

Lemma backoff_bounds n : 1 <= n -> 30 <= backoff n <= 3600.
Proof.
  intros Hn. unfold backoff. pose proof (Z.pow_pos_nonneg 2 (n - 1)). lia.
Qed.

Lemma failed_ok t d :
  1 <= WebhookDelivery.attempt_count d <= max_attempts -> delivery_ok (failed t d).
Proof.
  intros Hn. unfold failed. destruct (Z.leb_spec max_attempts (WebhookDelivery.attempt_count d)) as [Hm|Hm].
  - unfold delivery_ok. cbn. split; [unfold max_attempts in *; lia|done].
  - unfold delivery_ok. cbn. split; [lia|]. exists t, (backoff (WebhookDelivery.attempt_count d)).
    split; [done|]. apply backoff_bounds. lia.
Qed.

Lemma attempt_ok d d' : delivery_ok d -> attempt true d d' -> delivery_ok d'.
Proof.
  intros Hd Ha. inversion Ha as [|t t0 code text ? [Hf _] _|t t0 t1 code text ? [Hf _] _|t t0 t1 ? [Hf _]|];
    subst; try done.
  all: assert (Hn : 0 <= WebhookDelivery.attempt_count d < max_attempts) by
    (unfold delivery_ok in Hd; unfold max_attempts in *; destruct (WebhookDelivery.status d); try done; lia).
  - unfold delivery_ok. cbn. split; [lia|done].
  - apply failed_ok. cbn. lia.
  - apply failed_ok. cbn. lia.
Qed.


End delivery_machine.

(** ** The task refines the machine *)

Section refinement.
Context `{E : Env}.

Definition escaped {A} (r : exn + A) : bool := match r with inl _ => true | inr _ => false end.

(** The outcome of an attempt, as [settle] records it. *)
Definition settled (t : Z) (outcome : option (Z * string)) (d : WebhookDelivery.t) : WebhookDelivery.t :=
  match outcome with
  | Some (code, text) =>
      if success code then succeeded (answered code text d) else failed t (answered code text d)
  | None => failed t d
  end.

Lemma settle_spec d outcome w :
  wp (settle d outcome) (fun d' w' => db w' = db w /\ exists t, d' = settled t outcome d) (fun _ _ => False) w.
Proof.
  unfold settle. destruct outcome as [[code text]|].
  - unfold settled. destruct (success code).
    + wp_step. split; [done|]. by exists 0.
    + do 3 wp_step. split; [done|]. by eexists.
  - do 3 wp_step. split; [done|]. by eexists.
Qed.

Lemma send_keeps endpoint k event : evolves (keeps (fun d => d)) (send endpoint k event).
Proof. unfold send, validate_url, signature_headers. evolve; reflexivity. Qed.

(** The attempt that [settled] completes. *)
Lemma attempt_settled t t0 t1 outcome d :
  available_at t d -> attempt true d (settled t1 outcome (claimed_at t0 d)).
Proof.
  intros Ha. unfold settled. destruct outcome as [[code text]|]; [|by eapply attempt_unreachable].
  destruct (success code) eqn:Hs; [by eapply attempt_delivered|by eapply attempt_refused].
Qed.

Lemma settled_fields t outcome d :
  let d' := settled t outcome d in
  d <| WebhookDelivery.response_code := WebhookDelivery.response_code d' |>
    <| WebhookDelivery.response_body := WebhookDelivery.response_body d' |>
    <| WebhookDelivery.status := WebhookDelivery.status d' |>
    <| WebhookDelivery.next_retry_at := WebhookDelivery.next_retry_at d' |> = d' /\
  (forall a, row_clash d' a = row_clash d a).
Proof.
  unfold settled, failed. destruct outcome as [[code text]|]; [destruct (success code)|];
    try destruct (_ <=? _); done.
Qed.

(** What [claim] does: nothing, or it puts the delivery in progress; the clock
    it reads first decides. *)
Lemma claim_spec k d w :
  unique_rows (R := WebhookDelivery.t) (db w) -> webhook_deliveries (db w) !! k = Some d ->
  wp (claim k) (fun x w' =>
    match x with
    | None => db w' = db w /\ ~ available_at (clock (ticks w)) d
    | Some d' => exists t, available_at (clock (ticks w)) d /\ d' = claimed_at t d /\
        db w' = (db w) <| webhook_deliveries ::= insert k d' |>
    end) (fun _ _ => False) w.
Proof.
  intros Hu Hk. unfold claim. do 2 wp_step. apply (wp_found k d); [exact Hk|].
  destruct (finished (WebhookDelivery.status d)) eqn:Hf.
  { wp_step. rewrite db_committed. split; [done|]. intros [? _]. congruence. }
  do 2 wp_step. destruct (in_flight _ d) eqn:Hi.
  { wp_step. rewrite db_committed. split; [done|]. intros [_ Hn]. cbn in Hi. by rewrite Hi in Hn. }
  do 3 wp_step. apply (wp_save_row k _ d); [exact Hu|exact Hk|done|]. wp_step. rewrite db_committed.
  eexists. split; [by split|]. split; reflexivity.
Qed.

(** What a run that ends in the state [w'] did to the delivery [k], which was
    [d]: an attempt of the machine, and a real one if the delivery was
    available. *)
Definition attempted_run (b : bool) (k : uuid) (d : WebhookDelivery.t) (w w' : World) : Prop :=
  exists d', attempt b d d' /\ db w' = (db w) <| webhook_deliveries ::= insert k d' |> /\
    (available_at (clock (ticks w)) d -> WebhookDelivery.attempt_count d' = WebhookDelivery.attempt_count d + 1).

Lemma settled_count t outcome d :
  WebhookDelivery.attempt_count (settled t outcome d) = WebhookDelivery.attempt_count d.
Proof.
  unfold settled, failed. destruct outcome as [[code text]|]; [destruct (success code)|]; by try destruct (_ <=? _).
Qed.

Lemma get_pk_keeps {R} `{!Model R} k : evolves (keeps (fun d => d)) (get_pk (R := R) k).
Proof. evolve; reflexivity. Qed.

(** After a claim: an exception that escapes leaves the claim as it is. *)
Lemma wp_claimed {A} (m : M A) (Q : A -> World -> Prop) k d t w w1 :
  evolves (keeps (fun d => d)) m ->
  available_at (clock (ticks w)) d -> db w1 = (db w) <| webhook_deliveries ::= insert k (claimed_at t d) |> ->
  (forall a w2, db w2 = db w1 -> Q a w2) -> wp m Q (fun _ w2 => attempted_run false k d w w2) w1.
Proof.
  intros Hm Ha D1 HQ. apply wp_any.
  - intros a w2 Hr. by apply HQ, (evolves_run _ _ _ _ _ Hm Hr).
  - intros e w2 Hr. pose proof (evolves_run _ _ _ _ _ Hm Hr) as D2. unfold keeps in D2.
    exists (claimed_at t d). split; [by eapply attempt_crashed|]. split; [by rewrite D2, D1|done].
Qed.

Lemma deliver_spec k d w :
  unique_rows (R := WebhookDelivery.t) (db w) -> webhook_deliveries (db w) !! k = Some d ->
  wp (deliver_webhook k) (fun _ => attempted_run true k d w) (fun _ => attempted_run false k d w) w.
Proof.
  intros Hu Hk. unfold deliver_webhook. wp_step. eapply wp_call; [by apply claim_spec| |done].
  intros [dc|] w1 _.
  2:{ intros (D1 & Hn). wp_step. exists d. split; [by eapply attempt_idle|].
      split; [|done]. rewrite D1. by destruct (db w); cbn in *; rewrite insert_id. }
  intros (t & Ha & -> & D1).
  wp_step. apply (wp_claimed _ _ k d t); [apply get_pk_keeps|done|done|]. intros endpoint w2 D2.
  wp_step. apply (wp_claimed _ _ k d t); [apply get_pk_keeps|done|by rewrite D2|]. intros event w3 D3.
  wp_step. apply (wp_claimed _ _ k d t); [apply send_keeps|done|by rewrite D3, D2|]. intros outcome w4 D4.
  wp_step. eapply wp_mono; [apply settle_spec| |done].
  intros d' w5 (D5 & t1 & ->). destruct (settled_fields t1 outcome (claimed_at t d)) as [Hf Hc].
  assert (D : db w5 = (db w) <| webhook_deliveries ::= insert k (claimed_at t d) |>) by by rewrite D5, D4, D3, D2, D1.
  apply (wp_save_row k _ (claimed_at t d)).
  - unfold unique_rows. rewrite D. cbn. apply unique_table_insert; [exact Hu|].
    by apply (conflicts_same (R := WebhookDelivery.t) k d).
  - rewrite D. cbn. apply lookup_insert_eq.
  - intros a. rewrite Hf. apply Hc.
  - rewrite Hf. exists (settled t1 outcome (claimed_at t d)). split; [by eapply attempt_settled|].
    split; [cbn; rewrite D; cbn; by rewrite insert_insert_eq|]. by rewrite settled_count.
Qed.


End refinement.

(** ** Witnesses *)

Section witnesses.

(** An endpoint that cannot be reached, with a new delivery. *)
Definition sample_endpoint : WebhookEndpoint.t :=
  WebhookEndpoint.mk (Some 1%N) "ops" "down" ["user.created"] ""
    (purpose_key (E := demo_env) "webhook-secret" +:+ "$" +:+ "s3cret") true 0 0.

Definition webhook_world : World := sample_world <| db ::= fun d => d
  <| webhook_endpoints := {[ 91%N := sample_endpoint ]} |>
  <| webhook_events := {[ 92%N := WebhookEvent.mk "user.created" PNone 0 ]} |>
  <| webhook_deliveries := {[ 93%N := new_delivery 91 92 0 ]} |> |>.


(** The first attempt fails and waits thirty seconds. *)
Example first_attempt_fails :
  match webhook_deliveries (db (deliver_webhook (E := demo_env) 93 webhook_world).2) !! 93%N with
  | Some d => WebhookDelivery.status d = DeliveryStatus.FAILED /\ WebhookDelivery.attempt_count d = 1
  | None => False
  end.
Proof. vm_compute. split; reflexivity. Qed.

End witnesses.
