(* ===== verification/Workers.v ===== *)
(** * Interleaved webhook workers

    [deliver_webhook] of apps/webhooks/tasks.py reserves a delivery in a short
    transaction, talks to the network outside of it and stores the outcome with
    a last write.  Here any number of workers run these three parts on the same
    delivery in any order, with time and the rest of the system in between. *)

From stdpp Require Import relations.
From S2P Require Import Prelude Env Demo Models Orm Logic Common Samples Webhooks.

Section workers.
Context `{E : Env}.

(** ** A worker, transaction by transaction *)

(** What a worker does next: reserve the delivery, attempt the reserved one,
    store the outcome; or the task has ended. *)
Inductive worker :=
| Starting
| Sending (d : WebhookDelivery.t)
| Saving (d : WebhookDelivery.t)
| Stopped (r : exn + unit).

(** The part outside the transactions. *)
Definition attempt_delivery (d : WebhookDelivery.t) : M WebhookDelivery.t :=
  let! endpoint := get_pk (R := WebhookEndpoint.t) (WebhookDelivery.endpoint d) in
  let! event := get_pk (R := WebhookEvent.t) (WebhookDelivery.event d) in
  let! outcome := send endpoint (WebhookDelivery.event d) event in
  settle d outcome.

(** The fields of the last [delivery.save]. *)
Definition with_outcome (d r : WebhookDelivery.t) : WebhookDelivery.t := r
  <| WebhookDelivery.response_code := WebhookDelivery.response_code d |>
  <| WebhookDelivery.response_body := WebhookDelivery.response_body d |>
  <| WebhookDelivery.status := WebhookDelivery.status d |>
  <| WebhookDelivery.next_retry_at := WebhookDelivery.next_retry_at d |>.

(** [m], then [next]; an exception ends the task. *)
Definition or_stop {A} (m : M A) (next : A -> worker) : M worker :=
  try_except (let! a := m in ret (next a)) (fun e => ret (Stopped (inl e))).

(** One part of the task, without interruption. *)
Definition advance (k : uuid) (wk : worker) : M worker :=
  match wk with
  | Starting => or_stop (claim k) (fun c => match c with Some d => Sending d | None => Stopped (inr tt) end)
  | Sending d => or_stop (attempt_delivery d) Saving
  | Saving d => or_stop (save_fields k (with_outcome d)) (fun _ => Stopped (inr tt))
  | Stopped r => ret (Stopped r)
  end.

Lemma or_stop_run {A} (m : M A) next w :
  or_stop m next w = (inr (match (m w).1 with inr a => next a | inl e => Stopped (inl e) end), (m w).2).
Proof. unfold or_stop, try_except, bind, ret. by destruct (m w) as [[e|a] w']. Qed.

Lemma advance_total k wk w : exists wk', (advance k wk w).1 = inr wk'.
Proof. destruct wk; cbn [advance]; rewrite ?or_stop_run; by eexists. Qed.

(** A worker alone runs the task: three parts, and it has stopped with the same
    result in the same state. *)
Lemma worker_runs_task k w :
  (let! a := advance k Starting in let! b := advance k a in advance k b) w =
    (inr (Stopped (deliver_webhook k w).1), (deliver_webhook k w).2).
Proof.
  unfold deliver_webhook, bind. cbn [advance]. rewrite or_stop_run.
  destruct (claim k w) as [[e|[d|]] w1]; cbn [fst snd advance]; [done| |done].
  rewrite or_stop_run. unfold attempt_delivery, bind.
  destruct (get_pk (WebhookDelivery.endpoint d) w1) as [[e|endpoint] w2]; [done|].
  destruct (get_pk (WebhookDelivery.event d) w2) as [[e|event] w3]; [done|].
  destruct (send endpoint (WebhookDelivery.event d) event w3) as [[e|outcome] w4]; [done|].
  destruct (settle d outcome w4) as [[e|d'] w5]; [done|]. cbn [fst snd advance]. rewrite or_stop_run.
  destruct (save_fields k (with_outcome d') w5) as [[e|[]] w6] eqn:Hs; unfold with_outcome in Hs; rewrite Hs; reflexivity.
Qed.

(** ** Workers on one delivery *)

Section pool.
Context (k : uuid).

Definition Pool : Type := (gmap nat worker * World)%type.

(** A worker does its next part, a worker starts, or something else happens:
    time passes, and other parts of the system leave the deliveries alone. *)
Inductive pool_step : Pool -> Pool -> Prop :=
| works i wk wk' ws w w' :
    ws !! i = Some wk -> advance k wk w = (inr wk', w') -> pool_step (ws, w) (<[i := wk']> ws, w')
| joins i ws w : ws !! i = None -> pool_step (ws, w) (<[i := Starting]> ws, w)
| elsewhere ws w w' : webhook_deliveries (db w') = webhook_deliveries (db w) -> pool_step (ws, w) (ws, w').

(** The delivery a worker holds, between its two transactions. *)
Definition held (wk : worker) : option WebhookDelivery.t :=
  match wk with Sending d | Saving d => Some d | _ => None end.

Definition holding (ws : gmap nat worker) (i : nat) : Prop := exists wk d, ws !! i = Some wk /\ held wk = Some d.

(** Nobody holds the delivery for as long as it takes others to call it stale. *)
Definition timely (p : Pool) : Prop :=
  forall i wk d a, p.1 !! i = Some wk -> held wk = Some d -> WebhookDelivery.last_attempt_at d = Some a ->
    clock (ticks p.2) - stale_after < a.

Definition timely_step (p p' : Pool) : Prop := pool_step p p' /\ timely p'.

(** An attempt of the machine, whatever becomes of the run. *)
Definition any_attempt (d d' : WebhookDelivery.t) : Prop := exists b, attempt b d d'.

(** How the stored row relates to a delivery that was only attempted by one
    worker after the other: it is that delivery, or its reservation by the only
    worker that holds it. *)
Inductive serial (d : WebhookDelivery.t) (ws : gmap nat worker) : WebhookDelivery.t -> Prop :=
| unreserved : (forall i, ~ holding ws i) -> serial d ws d
| reserved t t0 i wk :
    available_at t d -> ws !! i = Some wk ->
    (wk = Sending (claimed_at t0 d) \/ exists t1 o, wk = Saving (settled t1 o (claimed_at t0 d))) ->
    (forall j, holding ws j -> j = i) -> serial d ws (claimed_at t0 d).

Definition consistent (d0 : WebhookDelivery.t) (p : Pool) : Prop :=
  unique_rows (R := WebhookDelivery.t) (db p.2) /\
  exists d r, rtc any_attempt d0 d /\ webhook_deliveries (db p.2) !! k = Some r /\ serial d p.1 r.

Lemma serial_exclusive d ws r i j : serial d ws r -> holding ws i -> holding ws j -> i = j.
Proof. intros [Hn|t t0 l wk _ _ _ Hl] Hi Hj; [by destruct (Hn i)|]. by rewrite (Hl i), (Hl j). Qed.

Lemma held_claimed t0 d wk :
  wk = Sending (claimed_at t0 d) \/ (exists t1 o, wk = Saving (settled t1 o (claimed_at t0 d))) ->
  exists x, held wk = Some x /\ WebhookDelivery.last_attempt_at x = Some t0.
Proof.
  intros [->|(t1 & o & ->)]; (eexists; split; [reflexivity|]); [done|].
  unfold settled, failed. destruct o as [[code text]|]; [destruct (success code)|]; by try destruct (_ <=? _).
Qed.

(** Holding after one worker has changed. *)
Lemma holding_insert ws i wk j :
  holding (<[i := wk]> ws) j <-> (j = i /\ held wk <> None) \/ (j <> i /\ holding ws j).
Proof.
  unfold holding. destruct (decide (j = i)) as [->|Hne].
  - rewrite lookup_insert_eq. split.
    + intros (x & d & [= <-] & Hd). left. split; [done|congruence].
    + intros [[_ Hd]|[[] _]]; [|done]. destruct (held wk) as [d|] eqn:He; [|done]. by exists wk, d.
  - rewrite lookup_insert_ne by done. split; [intros H; by right|]. by intros [[? _]|[_ H]].
Qed.

Lemma serial_idle d ws r i wk' :
  serial d ws r -> (forall wk, ws !! i = Some wk -> held wk = None) -> held wk' = None -> serial d (<[i := wk']> ws) r.
Proof.
  intros Hs Hi Hn'. destruct Hs as [Hno|t t0 l x Ha Hl Hx Hal].
  - apply unreserved. intros j [[_ ?]|[_ ?]]%holding_insert; [congruence|by destruct (Hno j)].
  - apply (reserved d (<[i := wk']> ws) t t0 l x); [done| |done|].
    + rewrite lookup_insert_ne; [done|]. intros ->. destruct (held_claimed _ _ _ Hx) as (y & Hy & _).
      pose proof (Hi x Hl). congruence.
    + intros j [[_ ?]|[_ Hj]]%holding_insert; [congruence|by apply Hal].
Qed.

(** The worker that holds the delivery is the one of the reservation. *)
Lemma serial_holder d ws r i wk x :
  serial d ws r -> ws !! i = Some wk -> held wk = Some x ->
  exists t t0, available_at t d /\ r = claimed_at t0 d /\ (forall j, holding ws j -> j = i) /\
    (wk = Sending (claimed_at t0 d) \/ exists t1 o, wk = Saving (settled t1 o (claimed_at t0 d))).
Proof.
  intros Hs Hi Hx. assert (Hh : holding ws i) by by exists wk, x.
  destruct Hs as [Hno|t t0 l y Ha Hl Hy Hal]; [by destruct (Hno i)|]. exists t, t0.
  replace l with i in * by by rewrite (Hal i). replace y with wk in * by congruence. done.
Qed.

(** Once the only holder has stopped, nobody holds the delivery. *)
Lemma serial_stopped d ws i r :
  (forall j, holding ws j -> j = i) -> serial d (<[i := Stopped r]> ws) d.
Proof.
  intros Hal. apply unreserved. intros j [[_ Hj]|[Hne Hj]]%holding_insert; [by apply Hj|]. by apply Hne, Hal.
Qed.

Lemma attempt_delivery_spec d w :
  wp (attempt_delivery d) (fun d' w' => db w' = db w /\ exists t o, d' = settled t o d) (fun _ w' => db w' = db w) w.
Proof.
  unfold attempt_delivery. wp_step. apply wp_any; [|intros e w1 Hr; by apply (evolves_run _ _ _ _ _ (get_pk_keeps _) Hr)].
  intros endpoint w1 H1%(evolves_run _ _ _ _ _ (get_pk_keeps _)). wp_step.
  apply wp_any; [|intros e w2 H2%(evolves_run _ _ _ _ _ (get_pk_keeps _)); by etrans].
  intros event w2 H2%(evolves_run _ _ _ _ _ (get_pk_keeps _)). wp_step.
  apply wp_any; [|intros e w3 H3%(evolves_run _ _ _ _ _ (send_keeps _ _ _)); by do 2 (etrans; [done|])].
  intros outcome w3 H3%(evolves_run _ _ _ _ _ (send_keeps _ _ _)). unfold keeps in *.
  eapply wp_mono; [apply settle_spec| |done]. intros d' w4 (H4 & t & ->). split; [congruence|by exists t, outcome].
Qed.

(** The three parts keep the pool consistent. *)
Lemma claim_step d0 ws i w r w' :
  consistent d0 (ws, w) -> timely (ws, w) -> ws !! i = Some Starting -> claim k w = (r, w') ->
  consistent d0 (<[i := match r with inr (Some d) => Sending d | inr None => Stopped (inr tt)
                                   | inl e => Stopped (inl e) end]> ws, w').
Proof.
  intros (Hu & d & x & Hr & Hx & Hs) Ht Hi Hrun. cbn [fst snd] in *.
  assert (Hfree : forall wk, ws !! i = Some wk -> held wk = None) by (intros wk Hwk; by simplify_eq).
  pose proof (claim_spec k x w Hu Hx) as Hwp. unfold wp in Hwp. rewrite Hrun in Hwp.
  destruct r as [e|[x'|]]; [done| |].
  - destruct Hwp as (t0 & Ha & -> & Hdb). destruct Hs as [Hno|t t1 l wk Ha0 Hl Hwk Hal].
    + split; cbn [fst snd].
      { unfold unique_rows. rewrite Hdb. cbn. by apply unique_table_insert, (conflicts_same (R := WebhookDelivery.t) k d). }
      exists d, (claimed_at t0 d). split; [done|]. split; [rewrite Hdb; cbn; apply lookup_insert_eq|].
      apply (reserved d _ _ t0 i (Sending (claimed_at t0 d)) Ha); [apply lookup_insert_eq|by left|].
      intros j [[? _]|[_ Hj]]%holding_insert; [done|by destruct (Hno j)].
    + exfalso. destruct Ha as [_ Hflight]. destruct (held_claimed _ _ _ Hwk) as (y & Hy & Hlast).
      pose proof (Ht l wk y t1 Hl Hy Hlast) as Hlt. cbn [fst snd] in Hlt. unfold in_flight in Hflight. cbn in Hflight.
      by rewrite (proj2 (Z.ltb_lt _ _) Hlt) in Hflight.
  - destruct Hwp as [Hdb _]. split; cbn [fst snd]; [unfold unique_rows; by rewrite Hdb|]. rewrite Hdb.
    exists d, x. split; [done|]. split; [done|]. by apply serial_idle.
Qed.

Lemma send_step d0 ws i dd w r w' :
  consistent d0 (ws, w) -> ws !! i = Some (Sending dd) -> attempt_delivery dd w = (r, w') ->
  consistent d0 (<[i := match r with inr d => Saving d | inl e => Stopped (inl e) end]> ws, w').
Proof.
  intros (Hu & d & x & Hr & Hx & Hs) Hi Hrun. cbn [fst snd] in *.
  destruct (serial_holder d ws x i _ dd Hs Hi eq_refl) as (t & t0 & Ha & -> & Hal & [[= ->]|(? & ? & ?)]); [|done].
  pose proof (attempt_delivery_spec (claimed_at t0 d) w) as Hwp. unfold wp in Hwp. rewrite Hrun in Hwp.
  assert (Hdb : db w' = db w) by (destruct r; [done|by destruct Hwp]).
  split; cbn [fst snd]; [unfold unique_rows; by rewrite Hdb|]. rewrite Hdb. destruct r as [e|d'].
  - exists (claimed_at t0 d), (claimed_at t0 d). split; [|split; [done|by apply serial_stopped]].
    eapply rtc_r; [done|]. exists false. by eapply attempt_crashed.
  - destruct Hwp as [_ (t1 & o & ->)]. exists d, (claimed_at t0 d). split; [done|]. split; [done|].
    eapply (reserved d _ _ t0 i); [done|apply lookup_insert_eq|right; by exists t1, o|].
    intros j [[? _]|[_ Hj]]%holding_insert; [done|by apply Hal].
Qed.

Lemma save_step d0 ws i dd w r w' :
  consistent d0 (ws, w) -> ws !! i = Some (Saving dd) -> save_fields k (with_outcome dd) w = (r, w') ->
  consistent d0 (<[i := Stopped r]> ws, w').
Proof.
  intros (Hu & d & x & Hr & Hx & Hs) Hi Hrun. cbn [fst snd] in *.
  destruct (serial_holder d ws x i _ dd Hs Hi eq_refl) as (t & t0 & Ha & -> & Hal & [?|(t1 & o & [= ->])]); [done|].
  destruct (settled_fields t1 o (claimed_at t0 d)) as [Hf Hc].
  fold (with_outcome (settled t1 o (claimed_at t0 d)) (claimed_at t0 d)) in Hf.
  pose proof (wp_save_row k (with_outcome (settled t1 o (claimed_at t0 d))) (claimed_at t0 d)
    (fun _ w' => db w' = (db w) <| webhook_deliveries ::= insert k (settled t1 o (claimed_at t0 d)) |>)
    (fun _ _ => False) w Hu Hx) as Hwp.
  rewrite Hf in Hwp. specialize (Hwp Hc eq_refl). unfold wp in Hwp. rewrite Hrun in Hwp. destruct r as [e|[]]; [done|].
  split; cbn [fst snd].
  - unfold unique_rows. rewrite Hwp. cbn. apply unique_table_insert; [done|].
    by apply (conflicts_same (R := WebhookDelivery.t) k (claimed_at t0 d)).
  - exists (settled t1 o (claimed_at t0 d)), (settled t1 o (claimed_at t0 d)).
    split; [|split; [rewrite Hwp; cbn; apply lookup_insert_eq|by apply serial_stopped]].
    eapply rtc_r; [done|]. exists true. by eapply attempt_settled.
Qed.

Lemma step_consistent d0 p p' : consistent d0 p -> timely p -> pool_step p p' -> consistent d0 p'.
Proof.
  intros Hc Ht Hstep. destruct Hstep as [i wk wk' ws w w' Hi Hrun|i ws w Hi|ws w w' Hd].
  - destruct wk as [|dd|dd|r]; cbn [advance] in Hrun; rewrite ?or_stop_run in Hrun.
    + injection Hrun as <- <-. pose proof (claim_step d0 ws i w _ _ Hc Ht Hi (surjective_pairing _)) as Hs.
      destruct (claim k w) as [[e|[d|]] w1]; exact Hs.
    + injection Hrun as <- <-. exact (send_step d0 ws i dd w _ _ Hc Hi (surjective_pairing _)).
    + injection Hrun as <- <-. pose proof (save_step d0 ws i dd w _ _ Hc Hi (surjective_pairing _)) as Hs.
      destruct (save_fields k (with_outcome dd) w) as [[e|[]] w1]; exact Hs.
    + injection Hrun as <- <-. by rewrite insert_id.
  - destruct Hc as (Hu & d & x & Hr & Hx & Hs). split; [done|]. exists d, x. split; [done|]. split; [done|].
    apply serial_idle; [done| |done]. intros wk Hwk. cbn [fst] in *. congruence.
  - destruct Hc as (Hu & d & x & Hr & Hx & Hs). cbn [fst snd] in *. split; cbn [fst snd].
    + unfold unique_rows in *. cbn in *. by rewrite Hd.
    + exists d, x. by rewrite Hd.
Qed.

(** [C11] Reservation works without holding a lock during the network request:
    whatever the order in which any number of workers, started at any time, run
    their transactions and requests on a delivery, and whatever happens in
    between, at most one worker holds the delivery at a time, and the stored row
    is always one that workers running one after the other would have produced,
    or the reservation by the only worker that holds it - as long as nobody holds
    it for the fifteen minutes after which it counts as stale. *)
Theorem workers_serialise d0 ws w p :
  unique_rows (R := WebhookDelivery.t) (db w) -> webhook_deliveries (db w) !! k = Some d0 ->
  (forall i wk, ws !! i = Some wk -> wk = Starting) -> rtc timely_step (ws, w) p ->
  (forall i j, holding p.1 i -> holding p.1 j -> i = j) /\
  exists d r, rtc any_attempt d0 d /\ webhook_deliveries (db p.2) !! k = Some r /\
    (r = d \/ exists t t0 i, available_at t d /\ holding p.1 i /\ r = claimed_at t0 d).
Proof.
  intros Hu Hk Hstart Hsteps.
  assert (Hno : forall i, ~ holding ws i) by (intros i (wk & x & Hwk & Hx); by rewrite (Hstart i wk Hwk) in Hx).
  assert (Hp : consistent d0 p /\ timely p).
  { refine (rtc_ind_r (fun p => consistent d0 p /\ timely p) (ws, w) _ _ p Hsteps).
    - split; [|intros i wk x a Hi Hx; by destruct (Hno i); exists wk, x].
      split; [done|]. exists d0, d0. split; [apply rtc_refl|]. split; [done|by apply unreserved].
    - intros p1 p2 _ [Hstep Ht] [Hc Ht1]. split; [by eapply step_consistent|done]. }
  destruct Hp as [(_ & d & r & Hr & Hx & Hs) _]. split; [intros i j; by apply (serial_exclusive d p.1 r)|].
  exists d, r. split; [done|]. split; [done|]. destruct Hs as [_|t t0 i wk Ha Hi Hwk _]; [by left|right].
  destruct (held_claimed _ _ _ Hwk) as (y & Hy & _). exists t, t0, i. split; [done|]. split; [by exists wk, y|done].
Qed.

End pool.

End workers.

(** ** Witness: two workers on the delivery of [webhook_world] *)

Section witnesses.

#[local] Instance demo : Env := demo_env.

Definition turn (p : Pool) (i : nat) : Pool :=
  match p.1 !! i with
  | Some wk => match advance 93 wk p.2 with
               | (inr wk', w') => (<[i := wk']> p.1, w')
               | (inl _, w') => (p.1, w')
               end
  | None => p
  end.

Definition timely_check (p : Pool) : bool :=
  forallb (fun x => match held x.2 ≫= WebhookDelivery.last_attempt_at with
                    | Some a => clock (ticks p.2) - stale_after <? a
                    | None => true
                    end) (map_to_list p.1).

Lemma turn_timely p i : timely_check (turn p i) = true -> is_some (p.1 !! i) = true -> timely_step 93 p (turn p i).
Proof.
  intros Hc Hi. split.
  - unfold turn. destruct p as [ws w]. cbn [fst snd] in *. destruct (ws !! i) as [wk|] eqn:Hwk; [|done].
    destruct (advance_total 93 wk w) as [wk' Hwk']. destruct (advance 93 wk w) as [r w'] eqn:Hrun. cbn in Hwk'. subst r.
    by eapply works.
  - intros j wk d a Hj Hd Ha. unfold timely_check in Hc. rewrite forallb_forall in Hc.
    specialize (Hc (j, wk)). cbn [fst snd] in Hc. rewrite Hd in Hc. cbn in Hc. rewrite Ha in Hc. apply Z.ltb_lt, Hc.
    apply list_elem_of_In. by apply elem_of_map_to_list.
Qed.

Definition two_workers : gmap nat worker := {[ 0%nat := Starting; 1%nat := Starting ]}.

Lemma two_workers_start i wk : two_workers !! i = Some wk -> wk = Starting.
Proof. unfold two_workers. by intros [[_ <-]|[_ [_ <-]%lookup_singleton_Some]]%lookup_insert_Some. Qed.

(** The first worker reserves the delivery, the second finds it reserved, the
    first sends and stores the outcome. *)
Definition played : Pool := turn (turn (turn (turn (two_workers, webhook_world) 0) 1) 0) 0.

Lemma played_steps : rtc (timely_step 93) (two_workers, webhook_world) played.
Proof.
  unfold played. repeat (eapply rtc_r; [|apply turn_timely; vm_compute; reflexivity]). apply rtc_refl.
Qed.

Lemma played_status : WebhookDelivery.status <$> (webhook_deliveries (db played.2) !! 93%N) = Some DeliveryStatus.FAILED.
Proof. vm_compute. reflexivity. Qed.

Lemma workers_serialise_witness :
  exists d r, rtc any_attempt (new_delivery 91 92 0) d /\ webhook_deliveries (db played.2) !! 93%N = Some r /\
    WebhookDelivery.status r = DeliveryStatus.FAILED.
Proof.
  pose proof (workers_serialise 93 (new_delivery 91 92 0) two_workers webhook_world played
    (unique_table_singleton _ _) eq_refl two_workers_start played_steps) as (_ & d & r & Hr & Hx & _).
  exists d, r. split; [exact Hr|]. split; [exact Hx|]. pose proof played_status as Hs. rewrite Hx in Hs.
  by injection Hs.
Defined.

End witnesses.
