(* ===== verification/Races.v ===== *)
(** * Racing for a secret that is good for one use

    One-time tokens ([TokenService.consume]) and recovery codes
    ([_consume_recovery_code]) are spent in a transaction that locks the row,
    looks at it and marks it.  [OneShot] is that shape; here any number of such
    transactions run against the same table, statement by statement and in any
    order, with the rest of the system in between. *)

From stdpp Require Import relations.
From S2P Require Import Prelude Env Demo Models Orm Logic Transactions Common Tokens TwoFactor.

(** ** The shape *)

(** The parts of a transaction that spends a row of the table [R]: SELECT FOR
    UPDATE, which ends the transaction or locks a row; a look at the row; the
    writes.  [fresh] says that a row is not spent. *)
Record OneShot (R Q A : Type) := MkOneShot {
  lock : Q -> M (A + (uuid * R));
  inspect : Q -> uuid -> R -> M unit;
  spend : Q -> uuid -> R -> M A;
  fresh : R -> bool;
}.
Arguments lock {R Q A}.
Arguments inspect {R Q A}.
Arguments spend {R Q A}.
Arguments fresh {R Q A}.

(** The transaction as one computation. *)
Definition one_shot {R Q A} (S : OneShot R Q A) (q : Q) : M A :=
  atomic (
    let! found := lock S q in
    match found with
    | inl a => ret a
    | inr (k, r) => inspect S q k r ;; spend S q k r
    end).

Class OneShotLaws {R Q A} `{!Model R} (S : OneShot R Q A) : Prop := {
  lock_reads : forall q, reads (lock S q);
  inspect_reads : forall q k r, reads (inspect S q k r);
  lock_found : forall q w k r w', lock S q w = (inr (inr (k, r)), w') -> objects (db w) !! k = Some r;
  inspected_fresh : forall q k r w0 w0' w w',
    lock S q w0 = (inr (inr (k, r)), w0') -> inspect S q k r w = (inr tt, w') -> fresh S r = true;
  spend_marks : forall q k r w a w',
    unique_rows (db w) -> objects (db w) !! k = Some r -> fresh S r = true -> spend S q k r w = (inr a, w') ->
    exists r', fresh S r' = false /\ objects (db w') = <[k := r']> (objects (db w)) /\ unique_rows (R := R) (db w');
}.

(** ** Transactions, statement by statement *)

Section races.
Context {R Q A : Type} `{!Model R, !ModelLaws R} (S : OneShot R Q A) `{!OneShotLaws S}.

(** What a transaction does next: lock the row, look at it, write and commit;
    or it has ended, with the row spent or without. *)
Inductive racer :=
| Arriving (q : Q)
| Locked (q : Q) (k : uuid) (r : R)
| Inspected (q : Q) (k : uuid) (r : R)
| Spent (k : uuid) (a : A)
| Refused (result : exn + A).

(** The last part carries the commit, or the rollback of its own writes. *)
Definition advance (c : racer) (w : World) : racer * World :=
  match c with
  | Arriving q =>
      match inside (lock S q) w with
      | (inr (inr (k, r)), w') => (Locked q k r, w')
      | (inr (inl a), w') => (Refused (inr a), w')
      | (inl e, w') => (Refused (inl e), w')
      end
  | Locked q k r =>
      match inside (inspect S q k r) w with
      | (inr tt, w') => (Inspected q k r, w')
      | (inl e, w') => (Refused (inl e), w')
      end
  | Inspected q k r =>
      match atomic (spend S q k r) w with
      | (inr a, w') => (Spent k a, w')
      | (inl e, w') => (Refused (inl e), w')
      end
  | Spent _ _ | Refused _ => (c, w)
  end.

Definition result (c : racer) : option (exn + A) :=
  match c with Spent _ a => Some (inr a) | Refused x => Some x | _ => None end.

Lemma inside_inspect q k r w w1 :
  db w1 = db w -> hooks w1 = hooks w -> depth w1 = Datatypes.S (depth w) ->
  let w2 := (inspect S q k r w1).2 in
  inside (inspect S q k r) (w1 <| depth := depth w |>) = ((inspect S q k r w1).1, w2 <| depth := depth w |>) /\
  db w2 = db w /\ hooks w2 = hooks w /\ depth w2 = Datatypes.S (depth w).
Proof.
  intros Hd Hh Hp w2. destruct (inspect_reads (S := S) q k r w1) as (Hd2 & Hh2 & Hp2). subst w2. split; [|by rewrite Hd2, Hh2, Hp2].
  unfold inside. rewrite reopened by done. by destruct (inspect S q k r w1).
Qed.

(** A transaction alone runs the three parts. *)
Lemma alone q w :
  hooks w = [] ->
  let '(c1, w1) := advance (Arriving q) w in let '(c2, w2) := advance c1 w1 in let '(c3, w3) := advance c2 w2 in
  result c3 = Some (one_shot S q w).1 /\ w3 = (one_shot S q w).2.
Proof.
  intros Hnil. unfold one_shot, atomic. cbn [advance]. unfold inside at 1.
  destruct (lock_reads (S := S) q (w <| depth ::= Datatypes.S |>)) as (Hd & Hh & Hp). unfold bind.
  destruct (lock S q (w <| depth ::= Datatypes.S |>)) as [[e|[a|[k r]]] w1]; cbn in Hd, Hh, Hp; cbn [advance].
  - split; [done|]. symmetry. by apply rewound.
  - split; [done|]. symmetry. apply committed_nothing. cbn. by rewrite Hh.
  - destruct (inside_inspect q k r w w1 Hd Hh Hp) as (-> & Hd2 & Hh2 & Hp2). unfold bind.
    destruct (inspect S q k r w1) as [[e|[]] w2]; cbn [fst snd] in Hd2, Hh2, Hp2 |- *; cbn [advance].
    + split; [done|]. symmetry. by apply rewound.
    + unfold atomic. rewrite reopened by done. destruct (spend S q k r w2) as [[e|a] w3]; cbn; [|done].
      by rewrite Hd2, Hh2.
Qed.

(** ** Any number of transactions *)

Definition Race : Type := (gmap nat racer * World)%type.

(** The row a transaction has locked. *)
Definition locked_row (c : racer) : option (uuid * R) :=
  match c with Locked _ k r | Inspected _ k r => Some (k, r) | _ => None end.

Definition locking (cs : gmap nat racer) (i : nat) (k : uuid) : Prop :=
  exists c r, cs !! i = Some c /\ locked_row c = Some (k, r).

(** A row that is not spent. *)
Definition unspent (d : DB) (k : uuid) : Prop := exists r, objects d !! k = Some r /\ fresh S r = true.

(** A transaction does its next part, and gets a row only if no other one has
    it; one breaks off and is rolled back; one begins; or something else
    happens: time passes, and the rest of the system changes what it likes but
    the locked rows, and gives no spent row back. *)
Inductive race_step : Race -> Race -> Prop :=
| acts i c c' cs w w' :
    cs !! i = Some c -> advance c w = (c', w') ->
    (forall k r j, locked_row c' = Some (k, r) -> j <> i -> ~ locking cs j k) ->
    race_step (cs, w) (<[i := c']> cs, w')
| breaks_off i c e cs w : cs !! i = Some c -> result c = None -> race_step (cs, w) (<[i := Refused (inl e)]> cs, w)
| begins i q cs w : cs !! i = None -> race_step (cs, w) (<[i := Arriving q]> cs, w)
| elsewhere cs w w' :
    (unique_rows (R := R) (db w) -> unique_rows (R := R) (db w')) ->
    (forall i k, locking cs i k -> objects (R := R) (db w') !! k = objects (db w) !! k) ->
    (forall k i a, cs !! i = Some (Spent k a) -> unspent (db w') k -> unspent (db w) k) ->
    race_step (cs, w) (cs, w').

Record in_order (p : Race) : Prop := {
  o_unique : unique_rows (R := R) (db p.2);
  o_alone : forall i j k, locking p.1 i k -> locking p.1 j k -> i = j;
  o_row : forall i c k r, p.1 !! i = Some c -> locked_row c = Some (k, r) -> objects (db p.2) !! k = Some r;
  o_locked : forall i q k r, p.1 !! i = Some (Locked q k r) -> exists w w', lock S q w = (inr (inr (k, r)), w');
  o_fresh : forall i q k r, p.1 !! i = Some (Inspected q k r) -> fresh S r = true;
  o_spent : forall i k a, p.1 !! i = Some (Spent k a) -> ~ unspent (db p.2) k;
  o_once : forall i j k a b, p.1 !! i = Some (Spent k a) -> p.1 !! j = Some (Spent k b) -> i = j;
}.

(** What a transaction has to be for the race to stay in order. *)
Definition fits (cs : gmap nat racer) (i : nat) (w : World) (c : racer) : Prop :=
  (forall k r, locked_row c = Some (k, r) ->
     objects (db w) !! k = Some r /\ forall j, j <> i -> ~ locking cs j k) /\
  match c with
  | Locked q k r => exists w1 w2, lock S q w1 = (inr (inr (k, r)), w2)
  | Inspected q k r => fresh S r = true
  | Spent k _ => ~ unspent (db w) k /\ forall j b, j <> i -> cs !! j <> Some (Spent k b)
  | _ => True
  end.

Lemma locking_insert cs i c j k :
  locking (<[i := c]> cs) j k <->
  (j = i /\ exists r, locked_row c = Some (k, r)) \/ (j <> i /\ locking cs j k).
Proof.
  unfold locking. destruct (decide (j = i)) as [->|Hne].
  - rewrite lookup_insert_eq. split; [intros (x & r & [= <-] & Hr); left; split; [done|by exists r]|].
    intros [[_ [r Hr]]|[[] _]]; [|done]. by exists c, r.
  - rewrite lookup_insert_ne by done. split; [intros H; by right|]. by intros [[? _]|[_ H]].
Qed.

Lemma in_order_insert i c cs w w' :
  in_order (cs, w) -> unique_rows (R := R) (db w') ->
  (forall j k, j <> i -> locking cs j k -> objects (R := R) (db w') !! k = objects (db w) !! k) ->
  (forall j k a, cs !! j = Some (Spent k a) -> unspent (db w') k -> unspent (db w) k) ->
  fits cs i w' c -> in_order (<[i := c]> cs, w').
Proof.
  intros [Hu Hal Hrow Hl Hf Hsp Hon] Hu' Hkeep Hback [Hown Hc]. cbn [fst snd] in *. split; cbn [fst snd]; [done|..].
  - intros j1 j2 k [[-> [r Hr]]|[N1 L1]]%locking_insert [[-> [r2 Hr2]]|[N2 L2]]%locking_insert; [done|..].
    + by destruct (proj2 (Hown k r Hr) j2 N2).
    + by destruct (proj2 (Hown k r2 Hr2) j1 N1).
    + by apply (Hal j1 j2 k).
  - intros j x k r [[<- <-]|[Hne Hj]]%lookup_insert_Some Hr; [by apply Hown|].
    rewrite (Hkeep j k); [by apply (Hrow j x)|done|by exists x, r].
  - intros j q k r [[<- ->]|[_ Hj]]%lookup_insert_Some; [done|by apply (Hl j)].
  - intros j q k r [[<- ->]|[_ Hj]]%lookup_insert_Some; [done|by apply (Hf j q k)].
  - intros j k a [[<- ->]|[_ Hj]]%lookup_insert_Some; [apply Hc|]. intros Hun. by apply (Hsp j k a Hj), (Hback j k a).
  - intros j1 j2 k a b [[<- ->]|[N1 L1]]%lookup_insert_Some [[<- H2]|[N2 L2]]%lookup_insert_Some; [done|..].
    + by destruct (proj2 Hc j2 b (not_eq_sym N2)).
    + subst c. by destruct (proj2 Hc j1 a (not_eq_sym N1)).
    + by apply (Hon j1 j2 k a b).
Qed.

(** A part that only reads keeps the race in order. *)
Lemma in_order_read i c cs w w' :
  in_order (cs, w) -> db w' = db w -> fits cs i w c -> in_order (<[i := c]> cs, w').
Proof.
  intros Ho Hd Hc. apply (in_order_insert i c cs w w' Ho); rewrite ?Hd; [apply Ho|done|done|].
  unfold fits. by rewrite Hd.
Qed.

Lemma refused_fits cs i w x : fits cs i w (Refused x).
Proof. by split. Qed.

Lemma acts_in_order i c c' cs w w' :
  in_order (cs, w) -> cs !! i = Some c -> advance c w = (c', w') ->
  (forall k r j, locked_row c' = Some (k, r) -> j <> i -> ~ locking cs j k) -> in_order (<[i := c']> cs, w').
Proof.
  intros Ho Hi Hrun Hfree. destruct c as [q|q k r|q k r|k a|x]; cbn [advance] in Hrun.
  - pose proof (inside_reads _ w (lock_reads (S := S) q)) as Hd.
    destruct (inside (lock S q) w) as [[e|[a|[k r]]] w1] eqn:Hin; cbn [snd] in Hd; injection Hrun as <- <-.
    1,2: (apply (in_order_read _ _ _ w); [done|done|apply refused_fits]).
    apply (in_order_read _ _ _ w); [done|done|]. pose proof Hin as (w2 & w3 & Hl)%inside_run. split; [|by exists w2, w3].
    intros k' r' [= <- <-]. split; [|intros j; by apply (Hfree k r)].
    unfold inside in Hin. destruct (lock S q _) as [x w4] eqn:Hlk. injection Hin as -> _.
    by apply (lock_found (S := S)) in Hlk.
  - pose proof (inside_reads _ w (inspect_reads (S := S) q k r)) as Hd.
    destruct (inside (inspect S q k r) w) as [[e|[]] w1] eqn:Hin; cbn [snd] in Hd; injection Hrun as <- <-;
      (apply (in_order_read _ _ _ w); [done|done|]); [apply refused_fits|]. split.
    + intros k' r' [= <- <-]. split; [by apply (o_row _ Ho i _ k r Hi)|intros j; by apply (Hfree k r)].
    + pose proof Hin as (w2 & w3 & Hins)%inside_run. destruct (o_locked _ Ho i q k r Hi) as (w4 & w5 & Hl).
      by apply (inspected_fresh (S := S) q k r w4 w5 w2 w3).
  - pose proof (o_row _ Ho i _ k r Hi eq_refl) as Hk. pose proof (o_fresh _ Ho i q k r Hi) as Hf. cbn [snd] in Hk.
    unfold atomic in Hrun. set (w1 := w <| depth ::= Datatypes.S |>) in Hrun.
    destruct (spend S q k r w1) as [[e|a] w2] eqn:Hsp; injection Hrun as <- Hw'.
    { apply (in_order_read _ _ _ w); [done|by rewrite <- Hw'|apply refused_fits]. }
    destruct (spend_marks (S := S) q k r w1 a w2 (o_unique _ Ho) Hk Hf Hsp) as (r' & Hr' & Hobj & Hu).
    change (db w1) with (db w) in Hobj.
    assert (Hd : db w' = db w2) by (rewrite <- Hw'; by destruct (Nat.eqb _ _)). rewrite <- Hd in Hobj, Hu.
    assert (Hmine : locking cs i k) by by eexists _, _.
    apply (in_order_insert _ _ _ w); [done|done| | |split; [done|]].
    + intros j k' Hj Hlk. rewrite Hobj. apply lookup_insert_ne. intros <-. by apply Hj, (o_alone _ Ho j i k).
    + intros j k' b Hj (x & Hx & Hfx). rewrite Hobj in Hx. apply lookup_insert_Some in Hx as [[_ <-]|[_ Hx]]; [congruence|].
      by exists x.
    + split; [|intros j b _ Hj; by apply (o_spent _ Ho j k b Hj); exists r].
      intros (x & Hx & Hfx). rewrite Hobj, lookup_insert_eq in Hx. congruence.
  - injection Hrun as <- <-. by rewrite insert_id.
  - injection Hrun as <- <-. by rewrite insert_id.
Qed.

Lemma race_step_in_order p p' : in_order p -> race_step p p' -> in_order p'.
Proof.
  intros Ho Hstep. destruct Hstep as [i c c' cs w w' Hi Hrun Hfree|i c e cs w Hi Hc|i q cs w Hi|cs w w' Hu Hkeep Hback].
  - by apply (acts_in_order i c c' cs w w').
  - by apply (in_order_read _ _ _ w); [| |apply refused_fits].
  - by apply (in_order_read _ _ _ w).
  - destruct Ho as [Hu0 Hal Hrow Hl Hf Hsp Hon]. cbn [fst snd] in *. split; cbn [fst snd]; auto.
    + intros i c k r Hi Hr. rewrite (Hkeep i k); [by apply (Hrow i c)|by exists c, r].
    + intros i k a Hi Hun. by apply (Hsp i k a Hi), (Hback k i a Hi).
Qed.

Lemma starting_in_order cs w :
  unique_rows (R := R) (db w) -> (forall i c, cs !! i = Some c -> exists q, c = Arriving q) -> in_order (cs, w).
Proof.
  intros Hu Hstart. split; cbn [fst snd]; [done| | | | | |].
  - by intros i j k (c & r & [q ->]%Hstart & Hr).
  - by intros i c k r [q ->]%Hstart.
  - by intros i q k r [? ?]%Hstart.
  - by intros i q k r [? ?]%Hstart.
  - by intros i k a [? ?]%Hstart.
  - by intros i j k a b [? ?]%Hstart.
Qed.

Lemma race_in_order cs w p :
  unique_rows (R := R) (db w) -> (forall i c, cs !! i = Some c -> exists q, c = Arriving q) ->
  rtc race_step (cs, w) p -> in_order p.
Proof.
  intros Hu Hstart Hsteps. refine (rtc_ind_r (fun p => in_order p) (cs, w) _ _ p Hsteps); [by apply starting_in_order|].
  intros p1 p2 _ Hs Ho. by apply (race_step_in_order p1).
Qed.

(** No row is spent twice. *)
Lemma spent_once cs w p :
  unique_rows (R := R) (db w) -> (forall i c, cs !! i = Some c -> exists q, c = Arriving q) -> rtc race_step (cs, w) p ->
  forall i k a, p.1 !! i = Some (Spent k a) ->
    ~ unspent (db p.2) k /\ forall j b, p.1 !! j = Some (Spent k b) -> j = i.
Proof.
  intros Hu Hstart Hsteps. pose proof (race_in_order cs w p Hu Hstart Hsteps) as Ho.
  intros i k a Hi. split; [by apply (o_spent _ Ho i k a)|]. intros j b Hj. by apply (o_once _ Ho j i k b a).
Qed.

(** ** Nobody waits for ever *)

Lemma advance_same_row c w k r k' r' :
  locked_row c = Some (k, r) -> locked_row (advance c w).1 = Some (k', r') -> k' = k.
Proof.
  destruct c as [q|q k1 r1|q k1 r1|? ?|?]; try done; cbn [locked_row advance]; intros [= <- <-].
  - destruct (inside _ w) as [[e|[]] w1]; cbn; [done|congruence].
  - by destruct (atomic _ w) as [[e|a] w1].
Qed.

(** While a transaction has not ended, one of them can act. *)
Lemma never_stuck cs w i c :
  in_order (cs, w) -> cs !! i = Some c -> result c = None ->
  exists j c1, cs !! j = Some c1 /\ result c1 = None /\
    race_step (cs, w) (<[j := (advance c1 w).1]> cs, (advance c1 w).2).
Proof.
  intros Ho Hi Hc. set (held := filter (fun x => is_Some (locked_row x.2)) cs).
  destruct (decide (held = ∅)) as [He|[j [c1 Hj]]%map_choose].
  - exists i, c. split; [done|]. split; [done|]. eapply acts; [done|apply surjective_pairing|].
    intros k r j _ _ (x & r' & Hj & Hr). apply (map_filter_empty_not_lookup _ _ j x He); [by exists (k, r')|done].
  - apply map_lookup_filter_Some in Hj as [Hj [[k r] Hr]]. cbn in Hr. exists j, c1. split; [done|].
    split; [by destruct c1|]. eapply acts; [done|apply surjective_pairing|].
    intros k' r' x Hr' Hne Hx. rewrite (advance_same_row c1 w k r k' r' Hr Hr') in Hx.
    apply Hne, (o_alone _ Ho x j k Hx). by exists c1, r.
Qed.

(** ** Somebody gets it *)

Section winner.
Context (k0 : uuid) (r0 : R) (aims : Q -> Prop) (good : nat -> Prop).

(** At a good time a transaction that aims at the row, and finds it there, gets
    through each of its parts. *)
Hypothesis lock_works : forall q w, aims q -> unique_rows (R := R) (db w) -> objects (db w) !! k0 = Some r0 ->
  exists w', lock S q w = (inr (inr (k0, r0)), w').
Hypothesis inspect_works : forall q w, aims q -> good (ticks w) -> exists w', inspect S q k0 r0 w = (inr tt, w').
Hypothesis spend_works : forall q w, aims q -> unique_rows (R := R) (db w) -> objects (db w) !! k0 = Some r0 ->
  exists a w', spend S q k0 r0 w = (inr a, w').

(** The transactions act, and what happens else leaves the row alone. *)
Inductive calm_step : Race -> Race -> Prop :=
| calm_acts i c cs w :
    cs !! i = Some c -> race_step (cs, w) (<[i := (advance c w).1]> cs, (advance c w).2) ->
    calm_step (cs, w) (<[i := (advance c w).1]> cs, (advance c w).2)
| calm_elsewhere cs w w' :
    race_step (cs, w) (cs, w') -> objects (R := R) (db w') !! k0 = objects (db w) !! k0 ->
    calm_step (cs, w) (cs, w').

Definition good_step (p p' : Race) : Prop := good (ticks p.2) /\ calm_step p p'.

Definition aiming (c : racer) : Prop :=
  exists q, aims q /\ (c = Arriving q \/ c = Locked q k0 r0 \/ c = Inspected q k0 r0).

Definition open_race (p : Race) : Prop :=
  objects (R := R) (db p.2) !! k0 = Some r0 /\ forall i c, p.1 !! i = Some c -> aiming c.

Definition won (p : Race) : Prop := exists i a, p.1 !! i = Some (Spent k0 a).

Lemma advance_aiming c w :
  aiming c -> good (ticks w) -> unique_rows (R := R) (db w) -> objects (db w) !! k0 = Some r0 ->
  (aiming (advance c w).1 /\ db (advance c w).2 = db w) \/ exists a, (advance c w).1 = Spent k0 a.
Proof.
  intros (q & Hq & [->|[->| ->]]) Hg Hu Hk; set (w0 := w <| depth ::= Datatypes.S |>); cbn [advance].
  - left. destruct (lock_works q w0 Hq Hu Hk) as (w1 & Hl).
    pose proof (inside_reads _ w (lock_reads (S := S) q)) as Hd. revert Hd. unfold inside. fold w0. rewrite Hl. cbn.
    intros Hd. split; [exists q; auto|done].
  - left. destruct (inspect_works q w0 Hq Hg) as (w1 & Hl).
    pose proof (inside_reads _ w (inspect_reads (S := S) q k0 r0)) as Hd. revert Hd. unfold inside. fold w0. rewrite Hl. cbn.
    intros Hd. split; [exists q; auto|done].
  - right. destruct (spend_works q w0 Hq Hu Hk) as (a & w1 & Hs). exists a.
    unfold atomic. fold w0. by rewrite Hs.
Qed.

Lemma good_step_won p p' : in_order p -> open_race p \/ won p -> good_step p p' -> open_race p' \/ won p'.
Proof.
  intros Ho Hp [Hg Hstep]. destruct Hstep as [i c cs w Hi _|cs w w' _ Hk]; cbn [fst snd] in *.
  - destruct Hp as [[Hrow Haim]|(j & a & Hj)].
    + destruct (advance_aiming c w (Haim i c Hi) Hg (o_unique _ Ho) Hrow) as [[Hc Hd]|[a Ha]].
      * left. split; cbn [fst snd] in *; [by rewrite Hd|]. intros j x [[<- <-]|[_ Hj]]%lookup_insert_Some; [done|by apply (Haim j)].
      * right. exists i, a. cbn [fst]. by rewrite lookup_insert_eq, Ha.
    + right. exists j, a. cbn [fst] in *. destruct (decide (j = i)) as [->|Hne]; [|by rewrite lookup_insert_ne].
      rewrite lookup_insert_eq. by replace c with (Spent k0 a) by congruence.
  - destruct Hp as [[Hrow Haim]|Hw]; [left|by right]. split; cbn [fst snd] in *; [by rewrite Hk|done].
Qed.

Lemma good_step_race p p' : good_step p p' -> race_step p p'.
Proof. by intros [_ []]. Qed.

Lemma somebody_wins cs w p :
  unique_rows (R := R) (db w) -> objects (db w) !! k0 = Some r0 ->
  (forall i c, cs !! i = Some c -> exists q, aims q /\ c = Arriving q) -> rtc good_step (cs, w) p ->
  p.1 <> ∅ -> (forall i c, p.1 !! i = Some c -> result c <> None) ->
  exists i a, p.1 !! i = Some (Spent k0 a).
Proof.
  intros Hu Hk Hstart Hsteps Hne Hend.
  assert (Hp : in_order p /\ (open_race p \/ won p)).
  { refine (rtc_ind_r (fun p => in_order p /\ (open_race p \/ won p)) (cs, w) _ _ p Hsteps).
    - split; [apply starting_in_order; [done|]; intros i c Hi; destruct (Hstart i c Hi) as (q & _ & ->); by exists q|].
      left. split; [done|]. intros i c Hi. destruct (Hstart i c Hi) as (q & Hq & ->). exists q. auto.
    - intros p1 p2 _ Hs [Ho Hp]. split; [by apply (race_step_in_order p1), good_step_race|by apply (good_step_won p1)]. }
  destruct Hp as [_ [[_ Haim]|Hw]]; [|done]. apply map_choose in Hne as (i & c & Hi).
  destruct (Haim i c Hi) as (q & _ & Hc). destruct (Hend i c Hi). by destruct Hc as [->|[->| ->]].
Qed.

(** A schedule as a list of turns: a turn is a step if the row that the
    transaction gets is free. *)
Definition row_free (cs : gmap nat racer) (i : nat) (k : uuid) : bool :=
  forallb (fun x => Nat.eqb x.1 i || match locked_row x.2 with Some (l, _) => negb (N.eqb l k) | None => true end)
    (map_to_list cs).

Definition turn (p : Race) (i : nat) : Race :=
  match p.1 !! i with Some c => (<[i := (advance c p.2).1]> p.1, (advance c p.2).2) | None => p end.

Definition may_turn (p : Race) (i : nat) : bool :=
  match p.1 !! i with
  | Some c => match locked_row (advance c p.2).1 with Some (k, _) => row_free p.1 i k | None => true end
  | None => false
  end.

Lemma turn_good p i : good (ticks p.2) -> may_turn p i = true -> good_step p (turn p i).
Proof.
  destruct p as [cs w]. unfold may_turn, turn. cbn [fst snd]. intros Hg Ht. split; [done|].
  destruct (cs !! i) as [c|] eqn:Hi; [|done]. apply calm_acts; [done|].
  eapply acts; [done|apply surjective_pairing|]. intros k r j Hr Hne (x & r' & Hj & Hx). rewrite Hr in Ht.
  unfold row_free in Ht. rewrite forallb_forall in Ht. specialize (Ht (j, x)). cbn [fst snd] in Ht.
  rewrite Hx, (proj2 (Nat.eqb_neq _ _) Hne), N.eqb_refl in Ht. cbn in Ht.
  enough (false = true) by done. apply Ht. apply list_elem_of_In. by apply elem_of_map_to_list.
Qed.

End winner.

End races.

(** ** One-time tokens *)

Section tokens.
Context `{E : Env}.

(** [TokenService.consume] *)
Definition token_spending : OneShot OneTimeToken.t (string * TokenPurpose.t) (uuid * OneTimeToken.t) := {|
  lock q :=
    let! x := try_except (get (token_query q.1 q.2))
      (fun e => raise (if decide (e = DoesNotExist) then invalid_token else e)) in
    ret (inr x);
  inspect _ _ token :=
    let! checked := now in
    if negb (OneTimeToken.is_usable checked token) then raise invalid_token else ret tt;
  spend _ k token :=
    let! used := now in
    save_fields k (fun r => r <| OneTimeToken.used_at := Some used |>) ;;
    ret (k, token <| OneTimeToken.used_at := Some used |>);
  fresh token := is_none (OneTimeToken.used_at token);
|}.

Lemma consume_one_shot raw purpose w : one_shot token_spending (raw, purpose) w = consume raw purpose w.
Proof.
  apply atomic_ext. clear w. intros w. cbn [lock inspect spend token_spending fst snd]. unfold bind.
  destruct (try_except _ _ w) as [[e|[k r]] w1]; [done|]. cbn [ret]. unfold now at 1 3. by destruct (negb _).
Qed.

#[export] Instance token_laws : OneShotLaws token_spending.
Proof.
  split; cbn [lock inspect spend fresh token_spending].
  - intros q w. unfold try_except, bind, get. destruct (Table.select _ _) as [|x [|y l]]; by cbn.
  - intros q k r w. unfold bind, now. cbn. by destruct (negb _).
  - intros q w k r w'. unfold try_except, bind, get. destruct (Table.select _ _) as [|x [|y l]] eqn:Hs; [done| |done].
    cbn. intros [= -> _]. pose proof (proj1 (Table.elem_of_select (token_query q.1 q.2) (objects (db w)) k r)) as Hin.
    rewrite Hs in Hin. apply Hin. by left.
  - intros q k r w0 w0' w w' _. unfold bind, now. cbn. unfold OneTimeToken.is_usable. by destruct (is_none _).
  - intros q k r w a w' Hu Hk _ Hrun.
    refine (wp_result _ (fun _ w' => exists r', _ = false /\ objects (db w') = <[k := r']> (objects (db w)) /\
      unique_rows (R := OneTimeToken.t) (db w')) (fun _ _ => True) _ _ _ _ Hrun). do 3 wp_step. apply (wp_save_row k _ r); [done|done|done|].
    wp_step. eexists. split; [|split; [reflexivity|]]; [done|]. unfold unique_rows. cbn.
    apply unique_table_insert; [done|]. by apply (conflicts_same k r).
Qed.

(** [C12] However requests that consume one-time tokens interleave, the same
    token or others, and whatever happens to the rest of the system, a token is
    accepted for one of them at most, and then is not usable; and some request
    can always go on, so that no lock waits for ever.  Of requests with the same
    usable token exactly one is accepted, if none breaks off, the token does not
    expire meanwhile and nothing else changes it. *)
Theorem consume_race cs w :
  unique_rows (R := OneTimeToken.t) (db w) -> (forall i c, cs !! i = Some c -> exists q, c = Arriving q) ->
  (forall p, rtc (race_step token_spending) (cs, w) p ->
     (forall i k a, p.1 !! i = Some (Spent k a) ->
        ~ unspent token_spending (db p.2) k /\ forall j b, p.1 !! j = Some (Spent k b) -> j = i) /\
     (forall i c, p.1 !! i = Some c -> result c = None ->
        exists j c1 p', p.1 !! j = Some c1 /\ result c1 = None /\ race_step token_spending p p' /\
          p'.1 = <[j := (advance token_spending c1 p.2).1]> p.1)) /\
  (forall raw purpose k0 r0 p,
     one_time_tokens (db w) !! k0 = Some r0 -> token_query raw purpose k0 r0 = true -> OneTimeToken.used_at r0 = None ->
     (forall i c, cs !! i = Some c -> c = Arriving (raw, purpose)) ->
     rtc (good_step token_spending k0 (fun n => clock n < OneTimeToken.expires_at r0)) (cs, w) p ->
     p.1 <> ∅ -> (forall i c, p.1 !! i = Some c -> result c <> None) ->
     exists i a, p.1 !! i = Some (Spent k0 a) /\ forall j b, p.1 !! j = Some (Spent k0 b) -> j = i).
Proof.
  intros Hu Hstart. split.
  - intros p Hsteps. split; [by apply (spent_once _ cs w)|]. intros i c Hi Hc.
    pose proof (race_in_order _ cs w p Hu Hstart Hsteps) as Ho. destruct p as [cs' w'].
    destruct (never_stuck _ cs' w' i c Ho Hi Hc) as (j & c1 & Hj & Hr & Hs). by eexists j, c1, _.
  - intros raw purpose k0 r0 p Hk Hq Hn Hall Hsteps Hne Hend.
    assert (Hw : exists i a, p.1 !! i = Some (Spent k0 a)).
    { refine (somebody_wins _ k0 r0 (fun q => q = (raw, purpose)) (fun n => clock n < OneTimeToken.expires_at r0)
        _ _ _ cs w p Hu Hk _ Hsteps Hne Hend).
      - intros q w1 -> Hu1 Hk1. exists w1. cbn. unfold try_except, bind, get.
        by rewrite (Table.select_unique _ _ k0 r0); [|done|done|intros k' r' Hk' Hq'; eapply token_query_unique].
      - intros q w1 _ Hg. cbn. unfold bind, now. unfold OneTimeToken.is_usable. rewrite Hn, (proj2 (Z.ltb_lt _ _) Hg).
        cbn. by eexists.
      - intros q w1 _ Hu1 Hk1. cbn [spend token_spending].
        refine (wp_completes _ w1 _). do 3 wp_step. by apply (wp_save_row k0 _ r0).
      - intros i c Hi. exists (raw, purpose). split; [done|by apply (Hall i)]. }
    destruct Hw as (i & a & Hi). exists i, a. split; [done|]. intros j b Hj.
    assert (Hrace : rtc (race_step token_spending) (cs, w) p).
    { clear -Hsteps. induction Hsteps as [|p1 p2 p3 H12%good_step_race _ IH]; [done|by eapply rtc_l]. }
    destruct (spent_once token_spending cs w p Hu Hstart Hrace i k0 a Hi) as [_ Hx]. by apply (Hx j b).
Qed.

(** A request alone runs [consume]. *)
Lemma consume_alone raw purpose w :
  hooks w = [] ->
  let '(c1, w1) := advance token_spending (Arriving (raw, purpose)) w in
  let '(c2, w2) := advance token_spending c1 w1 in let '(c3, w3) := advance token_spending c2 w2 in
  result c3 = Some (consume raw purpose w).1 /\ w3 = (consume raw purpose w).2.
Proof. intros Hh. rewrite <- consume_one_shot. exact (alone token_spending _ w Hh). Qed.

End tokens.

(** ** Recovery codes *)

Section codes.
Context `{E : Env}.

(** [TwoFactorService._consume_recovery_code] *)
Definition code_spending : OneShot RecoveryCode.t (uuid * TwoFactorCredential.t * string) bool := {|
  lock q :=
    let! recovery := first_row (fun _ c =>
      N.eqb (RecoveryCode.credential c) q.1.1 && String.eqb (RecoveryCode.code_hash c) (_recovery_hash q.2)
      && is_none (RecoveryCode.used_at c)) in
    ret (match recovery with Some x => inr x | None => inl false end);
  inspect _ _ _ := ret tt;
  spend q k _ :=
    let! used := now in
    save_fields k (fun c => c <| RecoveryCode.used_at := Some used |>) ;;
    SecurityEventService.record SecurityEventType.RECOVERY_CODE_USED (Some (TwoFactorCredential.user q.1.2)) None [] ;;
    ret true;
  fresh c := is_none (RecoveryCode.used_at c);
|}.

Lemma consume_code_one_shot k c code w : one_shot code_spending (k, c, code) w = _consume_recovery_code k c code w.
Proof.
  apply atomic_ext. clear w. intros w. cbn [lock inspect spend code_spending fst snd]. unfold bind, first_row, first_row_by, read.
  cbn [ret]. by destruct (Table.first _ _ _) as [[r x]|].
Qed.

#[export] Instance code_laws : OneShotLaws code_spending.
Proof.
  split; cbn [lock inspect spend fresh code_spending].
  - done.
  - done.
  - intros q w k r w'. unfold bind, first_row, first_row_by, read, ret. intros [= Hf _]. destruct (Table.first _ _ _) as [[k1 r1]|] eqn:H; [|done]. injection Hf as -> ->.
    by apply Table.first_Some in H as [H _].
  - intros q k r w0 w0' w w'. unfold bind, first_row, first_row_by, read, ret. intros [= Hf _] _. destruct (Table.first _ _ _) as [[k1 r1]|] eqn:H; [|done]. injection Hf as -> ->.
    by apply Table.first_Some in H as [_ [_ H]%andb_true_iff].
  - intros q k r w a w' Hu Hk _ Hrun.
    refine (wp_result _ (fun _ w' => exists r', _ = false /\ objects (db w') = <[k := r']> (objects (db w)) /\
      unique_rows (R := RecoveryCode.t) (db w')) (fun _ _ => True) _ _ _ _ Hrun).
    do 3 wp_step. apply (wp_save_row k _ r); [done|done|done|]. wp_step.
    apply wp_any; [|done]. intros [] w1 H1%(evolves_run _ _ _ _ _ (event_record_keeps recovery_codes _ _ _ _ ltac:(done))).
    unfold keeps in H1. wp_step. eexists. split; [|split; [exact H1|]]; [done|].
    unfold unique_rows. change (objects (db w1)) with (recovery_codes (db w1)). rewrite H1.
    apply unique_table_insert; [done|]. by apply (conflicts_same k r).
Qed.

(** Recovery codes are good for one request, however requests interleave. *)
Theorem recovery_code_race cs w p :
  unique_rows (R := RecoveryCode.t) (db w) -> (forall i c, cs !! i = Some c -> exists q, c = Arriving q) ->
  rtc (race_step code_spending) (cs, w) p ->
  forall i k a, p.1 !! i = Some (Spent k a) ->
    ~ unspent code_spending (db p.2) k /\ forall j b, p.1 !! j = Some (Spent k b) -> j = i.
Proof. exact (spent_once code_spending cs w p). Qed.

End codes.

(** ** Witness: two requests with the token of [Tokens.demo_issue] *)

Section witnesses.

#[local] Instance demo : Env := demo_env.

Definition token_world : World := (demo_issue (initial_world empty_db)).2.
Definition token_request : Type := racer (R := OneTimeToken.t) (Q := string * TokenPurpose.t) (A := uuid * OneTimeToken.t).
Definition two_requests : gmap nat token_request :=
  {[ 0%nat := Arriving ("tok0", TokenPurpose.PASSWORD_RESET); 1%nat := Arriving ("tok0", TokenPurpose.PASSWORD_RESET) ]}.

Lemma two_requests_same i c : two_requests !! i = Some c -> c = Arriving ("tok0", TokenPurpose.PASSWORD_RESET).
Proof. unfold two_requests. by intros [[_ <-]|[_ [_ <-]%lookup_singleton_Some]]%lookup_insert_Some. Qed.

Definition demo_token : OneTimeToken.t :=
  issued_token 1 TokenPurpose.PASSWORD_RESET "tok0" [("k", "v")] 1000001000 4600000000.

Lemma demo_token_stored : one_time_tokens (db token_world) !! 1001%N = Some demo_token.
Proof. vm_compute. reflexivity. Qed.

Lemma token_world_unique : unique_rows (R := OneTimeToken.t) (db token_world).
Proof. exact (issue_unique 1 TokenPurpose.PASSWORD_RESET (hours 1) [("k", "v")] (initial_world empty_db) unique_table_empty). Qed.

(** The first request locks the row, looks at it and commits; then the second
    one gets the row. *)
Definition raced : Race := foldl (turn token_spending) (two_requests, token_world) [0; 0; 0; 1; 1]%nat.

Definition usable_at (n : nat) : Prop := clock n < OneTimeToken.expires_at demo_token.

Lemma raced_steps : rtc (good_step token_spending 1001 usable_at) (two_requests, token_world) raced.
Proof.
  unfold raced. cbn [foldl].
  repeat (eapply rtc_r; [|apply turn_good; [apply (proj1 (Z.ltb_lt _ _))|]; vm_compute; reflexivity]). apply rtc_refl.
Qed.

Lemma raced_ended i c : raced.1 !! i = Some c -> result c <> None.
Proof.
  intros Hi Hc. assert (Hall : forallb (fun x => is_some (result x.2)) (map_to_list raced.1) = true)
    by (vm_compute; reflexivity).
  rewrite forallb_forall in Hall. specialize (Hall (i, c)). cbn [snd] in Hall. rewrite Hc in Hall.
  enough (false = true) by done. apply Hall. apply list_elem_of_In. by apply elem_of_map_to_list.
Qed.

Lemma consume_race_witness :
  exists i a, raced.1 !! i = Some (Spent 1001 a) /\ forall j b, raced.1 !! j = Some (Spent 1001 b) -> j = i.
Proof.
  refine (proj2 (consume_race two_requests token_world token_world_unique _) "tok0" TokenPurpose.PASSWORD_RESET 1001%N
    demo_token raced demo_token_stored _ _ two_requests_same raced_steps _ raced_ended).
  - intros i c Hi%two_requests_same. by exists ("tok0", TokenPurpose.PASSWORD_RESET).
  - vm_compute. reflexivity.
  - reflexivity.
  - intros He. assert (Hs : raced.1 !! 0%nat <> None) by (vm_compute; discriminate). by rewrite He in Hs.
Defined.

End witnesses.
