(* ===== verification/Responses.v ===== *)
(** * Response envelopes

    [common/responses.py], [common/exceptions/handler.py] and
    [common/pagination/page_number.py]: every answer of the API is a success
    envelope, a page of one, or an error envelope.  The part of REST framework
    the handler calls ([APIView.handle_exception] and [exception_handler]) has
    its documented meaning. *)

From stdpp Require Import pretty.
From S2P Require Import Prelude Env.

Record Response := MkResponse {
  status_code : Z;
  data : pyval;
  headers : list (string * string);
}.

(** ** Success *)

(** [success_response(data, status=status)], without [meta] and [headers]. *)
Definition success_body (d : pyval) : pyval :=
  PDict [("success", PBool true); ("data", d); ("meta", PDict []); ("error", PNone)].
Definition success_response (d : pyval) (status : Z) : Response := MkResponse status (success_body d) [].

(** ** Errors *)

(** [APIException(detail, code=code, status_code=status_code, fields=fields)] *)
Definition api_exception (detail code : option string) (status_code : option Z) (fields : list (string * Z)) : exn :=
  let or_default (s : option string) (fallback : string) :=
    match s with Some s => if Str.is_empty s then fallback else s | None => fallback end in
  APIException (or_default detail "The request could not be processed.") (or_default code "BAD_REQUEST")
    (default 400 status_code) fields.

(** [exc.detail] of the exceptions REST framework knows (as its handler puts it
    into the response) and their status code. *)
Definition detail (message : string) : pyval := PDict [("detail", PStr message)].

Definition throttled_message (wait : Z) : string :=
  "Request was throttled. Expected available in " +:+ pretty wait
    +:+ (if wait =? 1 then " second." else " seconds.").

Definition exception_data (e : exn) : option (pyval * Z) :=
  match e with
  | APIException message _ status _ => Some (detail message, status)
  | InvalidFields errors => Some (PDict ((fun x => (x.1, PList (PStr <$> x.2))) <$> errors), 400)
  | NotAuthenticated => Some (detail "Authentication credentials were not provided.", 401)
  | AuthenticationFailed message => Some (detail message, 401)
  | PermissionDenied message => Some (detail message, 403)
  | DjangoPermissionDenied =>
      Some (detail "You do not have permission to perform this action.", 403)
  | NotFound message | Http404 message => Some (detail message, 404)
  | MethodNotAllowed m => Some (detail ("Method " +:+ Str.quoted m +:+ " not allowed."), 405)
  | Throttled wait => Some (detail (throttled_message wait), 429)
  | _ => None
  end.

(** [rest_framework.views.exception_handler] after [APIView.handle_exception]:
    without a [WWW-Authenticate] header to send, the two authentication errors
    answer 403; [None] is an exception it does not handle. *)
Definition unauthenticated (e : exn) : bool :=
  match e with NotAuthenticated | AuthenticationFailed _ => true | _ => false end.

Definition exception_headers (auth_header : option string) (e : exn) : list (string * string) :=
  match auth_header, e with
  | Some h, (NotAuthenticated | AuthenticationFailed _) => [("WWW-Authenticate", h)]
  | _, Throttled wait => [("Retry-After", pretty wait)]
  | _, _ => []
  end.

Definition exception_handler (auth_header : option string) (e : exn) : option Response :=
  match exception_data e with
  | None => None
  | Some (d, status) =>
      Some (MkResponse (if unauthenticated e && is_none auth_header then 403 else status) d
              (exception_headers auth_header e))
  end.

(** ** The error envelope *)

(** [_error_code] *)
Definition _error_code (e : exn) (status : Z) : string :=
  match e with
  | APIException _ code _ _ => code
  | InvalidFields _ => "VALIDATION_ERROR"
  | NotAuthenticated => "AUTHENTICATION_REQUIRED"
  | AuthenticationFailed _ => "AUTHENTICATION_FAILED"
  | PermissionDenied _ | DjangoPermissionDenied => "PERMISSION_DENIED"
  | NotFound _ | Http404 _ => "RESOURCE_NOT_FOUND"
  | Throttled _ => "RATE_LIMITED"
  | _ => if 500 <=? status then "INTERNAL_ERROR" else "BAD_REQUEST"
  end.

Definition error_body (code message : string) (fields request_id : pyval) : pyval :=
  PDict [("success", PBool false); ("data", PNone);
         ("error", PDict [("code", PStr code); ("message", PStr message); ("fields", fields);
                          ("request_id", request_id)])].

(** [getattr(request, "request_id", None)] *)
Definition request_id_value (r : option string) : pyval :=
  match r with Some i => PStr i | None => PNone end.

Definition dict_get (key : string) (l : list (string * pyval)) : option pyval :=
  snd <$> List.find (fun kv => String.eqb kv.1 key) l.

(** [str(v)] of a detail, which REST framework keeps as text. *)
Definition text_of (v : pyval) : string := match v with PStr s => s | _ => "" end.

(** Message and fields of a response REST framework made. *)
Definition message_fields (e : exn) (d : pyval) : string * pyval :=
  let default_message := "The request could not be processed." in
  match e with
  | InvalidFields _ => ("Validation failed.", d)
  | _ =>
      match d with
      | PDict l => match dict_get "detail" l with
                   | Some v => (text_of v, PDict [])
                   | None => (default_message, d)
                   end
      | PList _ => (default_message, PDict [("non_field_errors", d)])
      | _ => (default_message, PDict [])
      end
  end.

(** [api_exception_handler] *)
Definition api_exception_handler (auth_header : option string) (e : exn) (request_id : option string)
    : Response :=
  match exception_handler auth_header e with
  | None =>
      MkResponse 500 (error_body "INTERNAL_ERROR" "An unexpected error occurred." (PDict [])
                        (request_id_value request_id)) []
  | Some response =>
      let code := _error_code e (status_code response) in
      let '(message, fields) := message_fields e (data response) in
      let '(message, fields) :=
        match e with
        | APIException m _ _ [] => (m, fields)
        | APIException m _ _ fs => (m, PDict ((fun x => (x.1, PInt x.2)) <$> fs))
        | _ => (message, fields)
        end in
      MkResponse (status_code response) (error_body code message fields (request_id_value request_id))
        (headers response)
  end.

(** ** Pages *)

Definition page_size : Z := 25.
Definition max_page_size : Z := 100.

(** [PageNumberPagination.get_page_size] on the integer the [page_size]
    parameter holds, if it holds one: a positive number, cut off at the
    maximum. *)
Definition get_page_size (requested : option Z) : Z :=
  match requested with
  | Some n => if 0 <? n then Z.min n max_page_size else page_size
  | None => page_size
  end.

(** [Paginator]: the number of pages of [count] rows (at least one) and the
    rows of a page. *)
Definition num_pages (count size : Z) : Z := (Z.max 1 count + size - 1) / size.

Definition page_rows {A} (rows : list A) (size page : Z) : list A :=
  take (Z.to_nat size) (drop (Z.to_nat ((page - 1) * size)) rows).

(** [paginate_queryset]: the rows of the page, if there is such a page. *)
Definition paginate {A} (rows : list A) (requested : option Z) (page : Z) : exn + list A :=
  let size := get_page_size requested in
  if (page <? 1) || (num_pages (Z.of_nat (length rows)) size <? page)
  then inl (NotFound "Invalid page.") else inr (page_rows rows size page).

(** [StandardPagination.get_paginated_response]; [count] is the number of all
    rows and [link page] the address of a page. *)
Definition paginated (count : Z) (page_data : list pyval) (link : Z -> string) (requested : option Z)
    (page : Z) : Response :=
  let size := get_page_size requested in
  let pages := num_pages count size in
  MkResponse 200 (PDict
    [("success", PBool true);
     ("data", PList page_data);
     ("meta", PDict [("pagination", PDict
        [("page", PInt page); ("page_size", PInt size); ("pages", PInt pages); ("count", PInt count);
         ("next", if page <? pages then PStr (link (page + 1)) else PNone);
         ("previous", if 1 <? page then PStr (link (page - 1)) else PNone)])]);
     ("error", PNone)]) [].
