(* ===== verification/Idempotency.v ===== *)
(** * Idempotent requests ([common/idempotency.py]) *)

From S2P Require Import Prelude Env Demo Models Orm Logic Common Samples Users Accounts Responses.

(** The parts of a DRF request the decorator uses. *)
Record IdemRequest := MkIdem {
  idempotency_key : string;
  idem_user : option uuid;
  method : string;
  path : string;
  body : string;
}.

Section idempotency.
Context `{E : Env}.

Definition in_progress : exn := conflict "A request with this Idempotency-Key is in progress.".
Definition different_request : exn :=
  conflict "This Idempotency-Key was used for a different request.".

Definition idem_key_hash (raw : string) : string := keyed_hash raw "idempotency".
Definition idem_request_hash (r : IdemRequest) : string := sha256 (method r +:+ path r +:+ body r).

Definition idem_record (uid : uuid) (key : string) (_ : uuid) (r : IdempotencyRecord.t) : bool :=
  N.eqb (IdempotencyRecord.user r) uid && String.eqb (IdempotencyRecord.key_hash r) (idem_key_hash key).

Definition replayed (status : Z) (body : option pyval) : Response :=
  MkResponse status (default PNone body) [("Idempotent-Replayed", "true")].

(** [idempotent(ttl=ttl)(method)]; [serializable] says whether [json.dumps]
    accepts the response data. *)
Definition idempotent (ttl : Z) (serializable : pyval -> bool) (view : IdemRequest -> M Response)
    (request : IdemRequest) : M Response :=
  let raw_key := idempotency_key request in
  if Str.is_empty raw_key then view request else
  match idem_user request with
  | None => raise (APIException "Authentication is required for idempotency."
                     "AUTHENTICATION_REQUIRED" 401 [])
  | Some uid =>
      if 255 <? Z.of_nat (String.length raw_key)
      then raise (APIException "Invalid Idempotency-Key." "VALIDATION_ERROR" 400 []) else
      let request_hash := idem_request_hash request in
      atomic (
        let! record := first_row (idem_record uid raw_key) in
        match record with
        | Some (_, r) =>
            if negb (String.eqb (IdempotencyRecord.request_hash r) request_hash)
            then raise different_request else
            match IdempotencyRecord.response_status r with
            | None => raise in_progress
            | Some status => ret (replayed status (IdempotencyRecord.response_body r))
            end
        | None =>
            let! t := now in
            let! created := now in
            let! '(k, _) := try_except
              (create (IdempotencyRecord.mk uid (idem_key_hash raw_key) (method request) (path request)
                         request_hash None None created (t + ttl)))
              (fun e => raise (if decide (e = IntegrityError) then in_progress else e)) in
            let! response := view request in
            (if serializable (data response) then ret tt
             else raise (RuntimeError "Idempotent responses must be JSON serializable")) ;;
            save_fields k (fun r => r
              <| IdempotencyRecord.response_status := Some (status_code response) |>
              <| IdempotencyRecord.response_body := Some (data response) |>) ;;
            ret response
        end)
  end.

End idempotency.

(** ** At most once *)

Section once.
Context `{E : Env, !CryptoLaws E}.

(** What identifies a request: the concatenation that is hashed. *)
Definition request_text (r : IdemRequest) : string := method r +:+ path r +:+ body r.

(** The record of a key that was answered. *)
Definition recorded (uid : uuid) (request : IdemRequest) (response : Response) (d : DB) : Prop :=
  unique_rows (R := IdempotencyRecord.t) d /\
  exists k r, idempotency_records d !! k = Some r /\ idem_record uid (idempotency_key request) k r = true /\
    IdempotencyRecord.request_hash r = idem_request_hash request /\
    IdempotencyRecord.response_status r = Some (status_code response) /\
    IdempotencyRecord.response_body r = Some (data response).

Lemma idem_record_unique uid key d k1 k2 r1 r2 :
  unique_rows (R := IdempotencyRecord.t) d ->
  idempotency_records d !! k1 = Some r1 -> idem_record uid key k1 r1 = true ->
  idempotency_records d !! k2 = Some r2 -> idem_record uid key k2 r2 = true -> k1 = k2.
Proof.
  intros Hu H1 [P1%N.eqb_eq Q1%String.eqb_eq]%andb_true_iff H2 [P2%N.eqb_eq Q2%String.eqb_eq]%andb_true_iff.
  destruct (decide (k1 = k2)) as [|Hne]; [done|]. exfalso.
  pose proof (Hu k1 k2 r1 r2 H1 H2 Hne) as Hc. cbn in Hc. unfold IdempotencyRecord.clash in Hc.
  by rewrite P1, P2, Q1, Q2, N.eqb_refl, String.eqb_refl in Hc.
Qed.

Lemma idempotent_first ttl serializable view request uid w :
  unique_rows (R := IdempotencyRecord.t) (db w) ->
  (forall k r, idempotency_records (db w) !! k = Some r -> idem_record uid (idempotency_key request) k r = false) ->
  idem_user request = Some uid -> Str.is_empty (idempotency_key request) = false ->
  Z.of_nat (String.length (idempotency_key request)) <= 255 ->
  evolves (keeps idempotency_records) (view request) ->
  wp (idempotent ttl serializable view request)
    (fun response w1 => recorded uid request response (db w1)) (fun _ w1 => db w1 = db w) w.
Proof.
  intros Hu Hnone Huser Hkey Hlen Hview. unfold idempotent. rewrite Hkey, Huser.
  replace (255 <? _) with false by lia. cbv zeta. do 3 wp_step.
  replace (Table.first _ _ _) with (@None (uuid * IdempotencyRecord.t)) by (symmetry; by apply Table.first_None).
  do 6 wp_step. wp_step.
  { wp_step. apply wp_any; [|done]. intros response w1 Hrun.
    pose proof (evolves_run _ _ _ _ _ Hview Hrun) as E1. unfold keeps in E1. cbn in E1.
    wp_step. destruct (serializable _); [|by wp_step]. wp_step. wp_step.
    apply wp_save_fields; try done. intros r Hr Hc. cbn in Hr, Hc. wp_step. rewrite db_committed.
    assert (Hkr : r = IdempotencyRecord.mk uid (idem_key_hash (idempotency_key request)) (method request)
      (path request) (idem_request_hash request) None None (clock (S (ticks w))) (clock (ticks w) + ttl)).
    { rewrite E1, lookup_insert_eq in Hr. by injection Hr as <-. }
    assert (Hu1 : unique_rows (R := IdempotencyRecord.t) (db w1)).
    { unfold unique_rows. cbn. rewrite E1. by apply unique_table_insert. }
    subst r. split; [unfold unique_rows; cbn; by apply unique_table_insert|].
    eexists k, _. split; [cbn; apply lookup_insert_eq|]. split; [|done].
    unfold idem_record. cbn. by rewrite N.eqb_refl, String.eqb_refl. }
  by wp_step.
Qed.

Lemma idempotent_again ttl serializable view request request' uid response w :
  recorded uid request response (db w) -> hooks w = [] ->
  idem_user request' = Some uid -> idempotency_key request' = idempotency_key request ->
  Str.is_empty (idempotency_key request) = false ->
  Z.of_nat (String.length (idempotency_key request)) <= 255 ->
  exists r w', idempotent ttl serializable view request' w = (r, w') /\ db w' = db w /\ effects w' = effects w /\
    r = if String.eqb (request_text request) (request_text request')
        then inr (replayed (status_code response) (Some (data response)))
        else inl different_request.
Proof.
  intros (Hu & k & r & Hk & HP & Hh & Hs & Hb) Hhooks Huser Hsame Hkey Hlen.
  unfold idempotent. rewrite Hsame, Hkey, Huser. replace (255 <? _) with false by lia.
  unfold atomic, bind, first_row, first_row_by, read. cbn -[Table.first].
  rewrite (Table.first_unique pk_order _ (idempotency_records (db w)) k r Hk HP).
  2:{ intros k' r' Hk' HP'. by eapply idem_record_unique. }
  rewrite Hh. unfold idem_request_hash. fold (request_text request). fold (request_text request').
  assert (Hhash : String.eqb (sha256 (request_text request)) (sha256 (request_text request'))
    = String.eqb (request_text request) (request_text request')).
  { apply eq_true_iff_eq. rewrite !String.eqb_eq. split; [apply sha256_inj|by intros ->]. }
  rewrite Hhash, Hs, Hb. unfold raise, ret.
  destruct (String.eqb (request_text request) (request_text request')); cbn; eexists _, _; (split; [reflexivity|]).
  - destruct (Nat.eqb _ _); cbn; rewrite ?Hhooks, ?app_nil_r; done.
  - done.
Qed.

(** [C19] A request with an Idempotency-Key takes effect at most once. If the
    view fails nothing remains, not even the key. If it succeeds, every later
    request of the user with that key leaves the database and the outside
    world alone, whatever its view would have done: it gets the recorded status
    and body when its method, path and body concatenate to the same text, and
    CONFLICT otherwise. *)
Theorem idempotent_once ttl serializable view request uid w :
  unique_rows (R := IdempotencyRecord.t) (db w) ->
  (forall k r, idempotency_records (db w) !! k = Some r -> idem_record uid (idempotency_key request) k r = false) ->
  idem_user request = Some uid -> Str.is_empty (idempotency_key request) = false ->
  Z.of_nat (String.length (idempotency_key request)) <= 255 ->
  evolves (keeps idempotency_records) (view request) ->
  match idempotent ttl serializable view request w with
  | (inl _, w1) => db w1 = db w
  | (inr response, w1) => forall view' request' w2,
      idempotency_records (db w2) = idempotency_records (db w1) -> hooks w2 = [] ->
      idem_user request' = Some uid -> idempotency_key request' = idempotency_key request ->
      exists r w3, idempotent ttl serializable view' request' w2 = (r, w3) /\
        db w3 = db w2 /\ effects w3 = effects w2 /\
        r = if String.eqb (request_text request) (request_text request')
            then inr (replayed (status_code response) (Some (data response)))
            else inl different_request
  end.
Proof.
  intros Hu Hnone Huser Hkey Hlen Hview.
  pose proof (idempotent_first ttl serializable view request uid w Hu Hnone Huser Hkey Hlen Hview) as Hwp.
  unfold wp in Hwp. destruct (idempotent _ _ view request w) as [[e|response] w1]; [exact Hwp|].
  intros view' request' w2 Hrec Hh Hu' Hk'. apply (idempotent_again _ _ _ request _ uid); try done.
  destruct Hwp as (Hun & k & r & Hr). split; [|exists k, r; by rewrite Hrec].
  unfold unique_rows. cbn. by rewrite Hrec.
Qed.

End once.

(** ** Witness *)

Section witnesses.

Definition sample_view (r : IdemRequest) : M Response :=
  perform DispatchWebhooks ;; ret (MkResponse 201 (PStr "created") []).

Lemma no_records k r : idempotency_records (db sample_world) !! k = Some r ->
  idem_record (E := demo_env) 1 "key" k r = false.
Proof. intros Hk. replace (idempotency_records (db sample_world)) with (∅ : gmap uuid IdempotencyRecord.t) in Hk
  by (vm_compute; reflexivity). by rewrite lookup_empty in Hk. Qed.

Lemma idempotent_once_witness :
  exists response w1, idempotent (E := demo_env) (hours 24) (fun _ => true) sample_view
      (MkIdem "key" (Some 1%N) "POST" "/api/v1/a" "bc") sample_world = (inr response, w1) /\
    (* a different request that concatenates to the same text is taken for the first *)
    exists w3, idempotent (E := demo_env) (hours 24) (fun _ => true) sample_view
        (MkIdem "key" (Some 1%N) "POST" "/api/v1/ab" "c") w1
      = (inr (replayed (status_code response) (Some (data response))), w3) /\ effects w3 = effects w1.
Proof.
  pose proof (idempotent_once (E := demo_env) (hours 24) (fun _ => true) sample_view
    (MkIdem "key" (Some 1%N) "POST" "/api/v1/a" "bc") 1 sample_world unique_table_empty) as H.
  assert (Hh : hooks (idempotent (E := demo_env) (hours 24) (fun _ => true) sample_view
    (MkIdem "key" (Some 1%N) "POST" "/api/v1/a" "bc") sample_world).2 = []) by (vm_compute; reflexivity).
  assert (Hev : evolves (keeps idempotency_records) (sample_view (MkIdem "key" (Some 1%N) "POST" "/api/v1/a" "bc")))
    by (intros w; reflexivity).
  specialize (H no_records eq_refl eq_refl ltac:(cbn; lia) Hev).
  run_returns (idempotent (E := demo_env) (hours 24) (fun _ => true) sample_view
    (MkIdem "key" (Some 1%N) "POST" "/api/v1/a" "bc") sample_world) H.
  destruct (H sample_view (MkIdem "key" (Some 1%N) "POST" "/api/v1/ab" "c") w' eq_refl Hh eq_refl eq_refl)
    as (r & w3 & Hrun3 & _ & He & ->).
  exists a, w'. split; [reflexivity|]. exists w3. split; [exact Hrun3|exact He].
Defined.

End witnesses.
