(* ===== verification/Services.v ===== *)
(** * Files, notifications, runtime settings and feature flags

    [apps/files], [apps/notifications] and [apps/core/services.py] with their
    retention tasks, and the retention of the audit journal. *)

From S2P Require Import Prelude Env Models Orm Logic Common Users LoginProtection.

Section services.
Context `{E : Env}.

(** ** Notifications *)

Record NotificationMessage := MkMessage {
  type : string;
  title : string;
  message : string;
  message_data : pyval;
  message_expires_at : option Z;
}.

Definition message_value (m : NotificationMessage) : pyval :=
  PDataclass (title m)
    [("type", PStr (type m)); ("title", PStr (title m)); ("message", PStr (message m));
     ("data", message_data m);
     ("expires_at", match message_expires_at m with Some t => PDatetime t | None => PNone end)].

(** [NotificationService.notify] *)
Definition notify (uid : uuid) (user : User.t) (m : NotificationMessage) (channels : list string)
    : M (option (uuid * Notification.t)) :=
  let! notification :=
    if ENABLE_NOTIFICATIONS && bool_decide ("in_app" ∈ channels) then
      let! created := now in
      let! x := create (Notification.mk uid (type m) (title m) (message m) (message_data m) None created
                          (message_expires_at m)) in
      ret (Some x)
    else ret None in
  let! '(_, preferences, _) := preferences_of uid in
  when (bool_decide ("email" ∈ channels) && UserPreferences.email_notifications preferences)
    (on_commit (email "notification" (User.email user) (title m)
      [("user", user_value uid user); ("notification", message_value m)])) ;;
  ret notification.

(** [NotificationViewSet.get_queryset] *)
Definition visible_notification (t : Z) (uid : uuid) (_ : uuid) (n : Notification.t) : bool :=
  N.eqb (Notification.user n) uid
  && match Notification.expires_at n with None => true | Some e => t <? e end.

(** [NotificationViewSet.mark_read], on a notification of the queryset. *)
Definition mark_read (uid k : uuid) : M Notification.t :=
  let! t := now in
  let! '(_, n) := get (fun k' n => N.eqb k' k && visible_notification t uid k' n) in
  match Notification.read_at n with
  | Some _ => ret n
  | None =>
      let! read := now in
      save_fields k (fun n => n <| Notification.read_at := Some read |>) ;;
      ret (n <| Notification.read_at := Some read |>)
  end.

(** [NotificationViewSet.mark_all_read] *)
Definition mark_all_read (uid : uuid) : M nat :=
  let! t := now in
  let! read := now in
  update_where (fun k n => visible_notification t uid k n && is_none (Notification.read_at n))
    (fun n => n <| Notification.read_at := Some read |>).

(** [NotificationViewSet.destroy] *)
Definition destroy_notification (uid k : uuid) : M unit :=
  let! t := now in
  let! '(k', _) := get (fun k' n => N.eqb k' k && visible_notification t uid k' n) in
  delete_row (R := Notification.t) k'.

(** [cleanup_notifications] *)
Definition cleanup_notifications : M nat :=
  let! t := now in
  let cutoff := t - days NOTIFICATION_RETENTION_DAYS in
  let! t' := now in
  delete_where (fun _ n =>
    match Notification.expires_at n with Some e => e <? t' | None => false end
    || (Notification.created_at n <? cutoff) && is_some (Notification.read_at n)).

(** ** Files *)

(** What the validator sees of an upload: PIL's and [filetype]'s answers are
    the environment's. *)
Record Upload := MkUpload {
  file_name : string;
  file_size : Z;
  content : string;
  guessed_mime : option string;
  image_size : option (Z * Z);
  image_intact : bool;
}.

Record SecureFileValidator := MkValidator {
  allowed_extensions : list string;
  allowed_mime_types : list string;
  max_size : Z;
  malware_scanner : option (Upload -> M unit);
}.

(** [s.lstrip(".")] *)
Fixpoint lstrip_dots (s : string) : string :=
  match s with
  | String c s' => if Ascii.eqb c "." then lstrip_dots s' else s
  | EmptyString => EmptyString
  end.

(** [SecureFileValidator.__init__]; [max_size or settings.MAX_UPLOAD_SIZE] *)
Definition new_validator (extensions mimes : list string) (max : option Z)
    (scanner : option (Upload -> M unit)) : SecureFileValidator :=
  MkValidator (map (fun e => lstrip_dots (Str.casefold e)) extensions) mimes
    (match max with Some n => if n =? 0 then MAX_UPLOAD_SIZE else n | None => MAX_UPLOAD_SIZE end)
    scanner.

(** The part of a name after its last [c], if there is one. *)
Fixpoint after_last (c : ascii) (s : string) : option string :=
  match s with
  | EmptyString => None
  | String d s' =>
      match after_last c s' with
      | Some t => Some t
      | None => if Ascii.eqb d c then Some s' else None
      end
  end.

(** [Path(name).suffix.lower().lstrip(".")]: a name without a directory part
    has a suffix when its last dot is neither its first nor its last
    character. *)
Definition suffix (name : string) : string :=
  match after_last "." name with
  | Some t => if Str.is_empty t || String.eqb name ("." +:+ t) then "" else Str.casefold t
  | None => ""
  end.

Record FileMetadata := MkMetadata {
  content_type : string;
  size : Z;
  checksum_sha256 : string;
}.

Definition rejected (message code : string) : exn := ValidationError message code.

(** The image checks; PIL reports an unreadable image as [None] or by
    [image_intact]. *)
Definition check_image (u : Upload) : M unit :=
  match image_size u with
  | None => raise (rejected "The image is invalid." "invalid_image")
  | Some (w, h) =>
      if MAX_IMAGE_PIXELS <? w * h
      then raise (rejected "Image dimensions are too large." "image_too_large")
      else if image_intact u then ret tt
      else raise (rejected "The image is invalid." "invalid_image")
  end.

(** [SecureFileValidator.__call__] *)
Definition validate_upload (v : SecureFileValidator) (u : Upload) : M FileMetadata :=
  let extension := lstrip_dots (suffix (file_name u)) in
  if negb (bool_decide (extension ∈ allowed_extensions v))
  then raise (rejected "This file extension is not allowed." "invalid_extension") else
  if max_size v <? file_size u
  then raise (rejected "This file is too large." "file_too_large") else
  let detected_mime := default "application/octet-stream" (guessed_mime u) in
  if negb (bool_decide (detected_mime ∈ allowed_mime_types v))
  then raise (rejected "The file content type is not allowed." "invalid_content_type") else
  when (String.prefix "image/" detected_mime) (check_image u) ;;
  match malware_scanner v with Some scan => scan u | None => ret tt end ;;
  ret (MkMetadata detected_mime (file_size u) (sha256 (content u))).

(** [secure_upload_path] *)
Definition extension_of (filename : string) : string :=
  match after_last "." filename with Some t => Str.casefold t | None => "bin" end.

Definition secure_upload_path (owner : option uuid) (filename : string) : M string :=
  let owner := match owner with Some o => uuid_str o | None => "system" end in
  draw (fun n => "uploads/" +:+ owner +:+ "/" +:+ uuid_hex (uuid4 n) +:+ "." +:+ extension_of filename).

(** [FileService.store] *)
Definition store (owner : option uuid) (u : Upload) (v : SecureFileValidator) : M (uuid * StoredFile.t) :=
  atomic (
    let! m := validate_upload v u in
    let! path := secure_upload_path owner (file_name u) in
    let! created := now in
    create (StoredFile.mk owner path (Str.take 255 (file_name u)) (content_type m) (size m)
              (checksum_sha256 m) FileStatus.READY created None)).

(** [cleanup_unused_files] *)
Definition unused_file (cutoff : Z) (_ : uuid) (f : StoredFile.t) : bool :=
  bool_decide (StoredFile.status f = FileStatus.PENDING) && (StoredFile.created_at f <? cutoff)
  && is_none (StoredFile.deleted_at f).

Definition cleanup_unused_files : M nat :=
  let! t := now in
  let! files := filter_rows (unused_file (t - days FILE_RETENTION_DAYS)) in
  for_each files (fun x =>
    perform (DeleteStored (StoredFile.file x.2)) ;;
    let! deleted := now in
    save_fields x.1 (fun f => f <| StoredFile.deleted_at := Some deleted |>)) ;;
  ret (length files).

(** ** Runtime settings *)

Definition cache_timeout : Z := 300.

Definition setting_cache_key (key : string) (public_only : bool) : string :=
  "runtime-setting:" +:+ key +:+ ":" +:+ (if public_only then "1" else "0").

(** [RuntimeSettingService.get]: a cached [None] counts as a miss. *)
Definition get_setting (key : string) (default_value : pyval) (public_only : bool) : M pyval :=
  let cache_key := setting_cache_key key public_only in
  let! cached := cache_get cache_key in
  match cached with
  | Some PNone | None =>
      let! row := first_row (fun _ s => String.eqb (Setting.key s) key
                                        && (negb public_only || Setting.is_public s)) in
      let value := match row with Some (_, s) => Setting.value s | None => default_value end in
      cache_set cache_key value cache_timeout ;;
      ret value
  | Some v => ret v
  end.

(** [Setting.clean] *)
Definition secret_words : list string :=
  ["password"; "secret"; "credential"; "private_key"; "access_key"; "token"; "dsn"].

(** [(^|[._-])WORD($|[._-])]: [boundary] says whether a separator, or the
    start, comes just before. *)
Definition is_separator (c : ascii) : bool :=
  Ascii.eqb c "." || Ascii.eqb c "_" || Ascii.eqb c "-".

Definition ends_word (s : string) : bool :=
  match s with EmptyString => true | String c _ => is_separator c end.

Fixpoint has_word (word : string) (boundary : bool) (s : string) : bool :=
  (boundary && String.prefix word s && ends_word (substring (String.length word) (String.length s) s))
  || match s with
     | EmptyString => false
     | String c s' => has_word word (is_separator c) s'
     end.

Definition secret_like (key : string) : bool :=
  existsb (fun word => has_word word true (Str.casefold key)) secret_words.

Definition type_matches (t : SettingValueType.t) (v : pyval) : bool :=
  match t, v with
  | SettingValueType.STRING, PStr _ => true
  | SettingValueType.INTEGER, PInt _ => true
  | SettingValueType.BOOLEAN, PBool _ => true
  | SettingValueType.JSON, _ => true
  | _, _ => false
  end.

Definition clean_setting (s : Setting.t) : M unit :=
  if secret_like (Setting.key s)
  then raise (ValidationError "Secret-like values must be stored outside the database." "key") else
  if type_matches (Setting.value_type s) (Setting.value s) then ret tt
  else raise (ValidationError "Value does not match type" "value").

(** The keyword arguments [RuntimeSettingService.set] may carry. *)
Record setting_defaults := MkSettingDefaults {
  d_group : option string;
  d_is_public : option bool;
  d_description : option string;
}.

Definition fill_setting (value : pyval) (vt : SettingValueType.t) (d : setting_defaults)
    (s : Setting.t) : Setting.t :=
  s <| Setting.value := value |> <| Setting.value_type := vt |>
    <| Setting.group ::= fun g => default g (d_group d) |>
    <| Setting.is_public ::= fun p => default p (d_is_public d) |>
    <| Setting.description ::= fun x => default x (d_description d) |>.

Definition setting_target (k : uuid) (s : Setting.t) : AuditService.Target :=
  AuditService.MkTarget "core.setting" k (Setting.key s).

(** [RuntimeSettingService.set] *)
Definition set_setting (key : string) (value : pyval) (vt : SettingValueType.t)
    (actor : option uuid) (d : setting_defaults) : M (uuid * Setting.t) :=
  atomic (
    let! found := first_row (fun _ s => String.eqb (Setting.key s) key) in
    let! '(k, row) :=
      match found with
      | Some (k, s) =>
          let row := fill_setting value vt d s in
          clean_setting row ;;
          let! t := now in
          let f r := (fill_setting value vt d r) <| Setting.updated_at := t |> in
          save_fields k f ;; ret (k, f s)
      | None =>
          let row := fill_setting value vt d
            (Setting.mk key PNone SettingValueType.STRING "general" false "" 0 0) in
          clean_setting row ;;
          let! c := now in let! t := now in
          create (row <| Setting.created_at := c |> <| Setting.updated_at := t |>)
      end in
    cache_delete_many [setting_cache_key key false] ;;
    cache_delete_many [setting_cache_key key true] ;;
    AuditService.record (AuditService.on
      (if is_none found then "setting.created" else "setting.updated")
      (setting_target k row) actor None) ;;
    ret (k, row)).

(** [FeatureFlagService.is_enabled] *)
Definition flag_enabled (key : string) (default_value : bool) : M bool :=
  let! row := first_row (fun _ f => String.eqb (FeatureFlag.key f) key) in
  ret (match row with Some (_, f) => FeatureFlag.enabled f | None => default_value end).

(** ** The audit journal *)

(** [AuditLog.save] on a stored row and [AuditLog.delete]; [AuditLogQuerySet]. *)
Definition audit_update (_ : uuid) : M unit :=
  raise (ValidationError "Audit logs are immutable." "").
Definition audit_delete (_ : uuid) : M unit :=
  raise (ValidationError "Audit logs cannot be deleted through the application." "").

Definition audit_queryset_update (_ : uuid -> AuditLog.t -> bool) : M nat :=
  raise (ValidationError "Audit logs cannot be updated through the application." "").
Definition audit_queryset_delete (_ : uuid -> AuditLog.t -> bool) : M nat :=
  raise (ValidationError "Use the explicit retention operation for audit deletion." "").
Definition hard_delete_for_retention (rows : uuid -> AuditLog.t -> bool) : M nat := delete_where rows.

(** [cleanup_audit_logs] *)
Definition cleanup_audit_logs : M nat :=
  if AUDIT_RETENTION_DAYS <=? 0 then ret 0%nat else
  let! t := now in
  hard_delete_for_retention (fun _ l => AuditLog.created_at l <? t - days AUDIT_RETENTION_DAYS).

End services.
