(* ===== verification/Api.v ===== *)
(** * The API: requests, forms and the dispatch of a view

    How a request reaches a view of [apps/api/views] under the settings of
    [REST_FRAMEWORK] in config/settings/base.py: [UserSessionMiddleware], the
    three authentication classes in order, the permission classes, the
    throttle classes, the view, and [api_exception_handler] for whatever is
    raised on the way.  REST framework itself ([APIView.dispatch],
    [SessionAuthentication], the throttles, serializer fields) has its
    documented meaning; what it computes from the raw request is an input. *)

From S2P Require Import Prelude Env Models Orm Logic Common Users Sessions Authentication Authorization ApiKeys Responses.

(** ** Requests *)

(** [django_user] is the user [AuthenticationMiddleware] found in the session;
    [bearer] what the JWT library makes of the [Authorization] header (absent,
    refused, or the user a valid access token names); [over_limit] the seconds
    a throttle scope has to wait. *)
Record HttpRequest := MkHttp {
  http : Request;
  http_method : string;
  http_path : string;
  http_body : string;
  django_user : option (uuid * User.t);
  csrf_valid : bool;
  api_key_header : option string;
  bearer : option (exn + uuid);
  idempotency_header : string;
  over_limit : string -> option Z;
}.

(** [request.user] (absent when anonymous) and [request.auth_api_key]. *)
Record Auth := MkAuth {
  auth_user : option (uuid * User.t);
  auth_api_key : option APIKey.t;
}.

Inductive throttle := AnonRate | UserRate | Scoped (scope : string).

(** What a view declares: whether it has authentication classes and the header
    an authentication error sends, the permission classes, each with the message
    of a refusal, the throttles, and the method itself. *)
Record View := MkView {
  authenticates : bool;
  auth_header : option string;
  permission_classes : HttpRequest -> Auth -> list (M bool * string);
  throttle_classes : list throttle;
  throttle_scope : option string;
  handler : HttpRequest -> Auth -> M Response;
}.

Section api.
Context `{E : Env}.

(** ** Authentication *)

(** [APIKeyAuthentication]: the owner of the key. *)
Definition by_api_key (r : HttpRequest) : M (option Auth) :=
  let! found := api_key_authentication (api_key_header r) (get_client_ip (http r)) in
  match found with
  | None => ret None
  | Some (uid, (_, key)) =>
      let! owner := get_pk (R := User.t) uid in
      ret (Some (MkAuth (Some (uid, owner)) (Some key)))
  end.

(** [JWTAuthentication.get_user]: the user must exist and be active. *)
Definition token_user (uid : uuid) : M (uuid * User.t) :=
  let! users := table (R := User.t) in
  match users !! uid with
  | None => raise (AuthenticationFailed "User not found")
  | Some u => if User.is_active u then ret (uid, u) else raise (AuthenticationFailed "User is inactive")
  end.

Definition by_bearer (r : HttpRequest) : M (option Auth) :=
  match bearer r with
  | None => ret None
  | Some (inl e) => raise e
  | Some (inr uid) =>
      let! user := jwt_get_user (token_user uid) in
      ret (Some (MkAuth (Some user) None))
  end.

(** [SessionAuthentication]: the user of the Django request, if active; CSRF is
    enforced for it. *)
Definition by_session (r : HttpRequest) : M (option Auth) :=
  match django_user r with
  | Some (uid, u) =>
      if negb (User.is_active u) then ret None else
      if csrf_valid r then ret (Some (MkAuth (Some (uid, u)) None))
      else raise (PermissionDenied "CSRF Failed")
  | None => ret None
  end.

(** The first class that recognises the request decides. *)
Fixpoint first_success {A} (l : list (M (option A))) (otherwise : A) : M A :=
  match l with
  | [] => ret otherwise
  | m :: l' => let! found := m in
               match found with Some a => ret a | None => first_success l' otherwise end
  end.

Definition anonymous : Auth := MkAuth None None.

Definition perform_authentication (r : HttpRequest) : M Auth :=
  first_success [by_api_key r; by_bearer r; by_session r] anonymous.

(** ** Permissions *)

(** [permission_denied]: 401 without credentials, 403 with them. *)
Definition permission_denied (a : Auth) (message : string) : exn :=
  match auth_user a with
  | None => NotAuthenticated
  | Some _ => PermissionDenied message
  end.

Definition default_denial : string := "You do not have permission to perform this action.".

Definition check_permissions (l : list (M bool * string)) (a : Auth) : M unit :=
  for_each l (fun p =>
    let! ok := p.1 in
    if (ok : bool) then ret tt else raise (permission_denied a p.2)).

(** The permission classes the views use. *)
Definition is_authenticated (a : Auth) : M bool * string :=
  (ret (is_some (auth_user a)), default_denial).

Definition has_api_key_scope (scopes : view_scopes) (r : HttpRequest) (a : Auth) : M bool * string :=
  (ret (has_scope (auth_api_key a) scopes (http_method r)), default_denial).

(** [HasPermission] and [IsOwnerOrHasPermission] *)
Definition has_codename (view codename : string) (a : Auth) : M bool * string :=
  (view_permission view (Some codename) (auth_user a), "You do not have the required permission.").

Definition no_scopes : view_scopes := MkScopes None None.

(** [AllowAny]; [DEFAULT_PERMISSION_CLASSES]; and the classes of the
    administrative view sets. *)
Definition allow_any (_ : HttpRequest) (_ : Auth) : list (M bool * string) := [].

Definition default_permissions (scopes : view_scopes) (r : HttpRequest) (a : Auth)
    : list (M bool * string) :=
  [is_authenticated a; has_api_key_scope scopes r a].

Definition codename_permissions (view codename : string) (r : HttpRequest) (a : Auth)
    : list (M bool * string) :=
  [has_codename view codename a; has_api_key_scope no_scopes r a].

(** ** Throttles *)

(** [allow_request]: [ScopedRateThrottle] takes its scope from the view's
    [throttle_scope] and lets a view without one pass; the rate of anonymous
    requests does not count authenticated ones. *)
Definition throttle_wait (v : View) (r : HttpRequest) (a : Auth) (t : throttle) : option Z :=
  match t with
  | AnonRate => if is_some (auth_user a) then None else over_limit r "anon"
  | UserRate => over_limit r "user"
  | Scoped _ => throttle_scope v ≫= over_limit r
  end.

Definition check_throttles (v : View) (r : HttpRequest) (a : Auth) : M unit :=
  match omap (throttle_wait v r a) (throttle_classes v) with
  | [] => ret tt
  | w :: ws => raise (Throttled (foldr Z.max w ws))
  end.

(** [DEFAULT_THROTTLE_CLASSES]; the subclasses of apps/api/throttles.py. *)
Definition default_throttles : list throttle := [AnonRate; UserRate].
Definition LoginThrottle : throttle := Scoped "login".
Definition RegisterThrottle : throttle := Scoped "register".
Definition PasswordResetThrottle : throttle := Scoped "password_reset".
Definition EmailVerificationThrottle : throttle := Scoped "email_verification".
Definition APIKeyThrottle : throttle := Scoped "api_key".

(** ** Dispatch *)

(** [APIView.dispatch] up to the exception handler. *)
Definition serve (v : View) (r : HttpRequest) : M Response :=
  let! a := if authenticates v then perform_authentication r else ret anonymous in
  check_permissions (permission_classes v r a) a ;;
  check_throttles v r a ;;
  handler v r a.

Definition dispatch (v : View) (r : HttpRequest) : M Response :=
  try_except (serve v r)
    (fun e => ret (api_exception_handler (auth_header v) e (Some (request_id (http r))))).

(** A request of a browser passes [UserSessionMiddleware] first, which may end
    the session but leaves [request.user] as it is. *)
Definition respond (v : View) (r : HttpRequest) : M Response :=
  session_middleware (django_user r) ;;
  dispatch v r.

(** ** Serializers

    A field of REST framework gives its messages or the value it parsed; the
    [validate_<field>] methods of the code run on parsed values, and
    [is_valid(raise_exception=True)] raises the messages of all fields. *)

Definition field (A : Type) : Type := (list string + A)%type.
Definition errors : Type := list (string * list string).
Definition form (A : Type) : Type := M (errors + A).

Definition invalid (message : string) : exn := InvalidFields [("", [message])].

(** What a validation method may raise to reject a value. *)
Definition rejection (e : exn) : option (list string) :=
  match e with
  | InvalidFields l => Some (concat (snd <$> l))
  | ValidationError message _ => Some [message]
  | _ => None
  end.

Definition field_of {A} (name : string) (x : field A) (validate : A -> M A) : form A :=
  match x with
  | inl messages => ret (inl [(name, messages)])
  | inr a =>
      try_except (let! v := validate a in ret (inr v))
        (fun e => match rejection e with
                  | Some messages => ret (inl [(name, messages)])
                  | None => raise e
                  end)
  end.

Definition plain {A} (name : string) (x : field A) : form A := field_of name x ret.

Definition also {A B} (fa : form A) (fb : form B) : form (A * B) :=
  let! a := fa in
  let! b := fb in
  ret (match a, b with
       | inr a, inr b => inr (a, b)
       | inl e, inr _ => inl e
       | inr _, inl e => inl e
       | inl e, inl e' => inl (e ++ e')
       end).

(** A field that is not required. *)
Definition present {A} (x : option (field A)) (f : field A -> form A) : form (option A) :=
  match x with
  | None => ret (inr None)
  | Some a => let! r := f a in
              ret (match r with inl e => inl e | inr v => inr (Some v) end)
  end.

Definition validated {A} (f : form A) : M A :=
  let! r := f in
  match r with
  | inr a => ret a
  | inl e => raise (InvalidFields e)
  end.

(** ** Rendering

    REST framework writes datetimes, identifiers and choices as text; datetimes
    stay datetimes here. *)

Definition time (t : Z) : pyval := PDatetime t.
Definition optional {A} (f : A -> pyval) (x : option A) : pyval :=
  match x with Some a => f a | None => PNone end.
Definition ident (k : uuid) : pyval := PStr (uuid_str k).

(** [sorted(codes)]: [None] cannot be compared with a string. *)
Definition sorted_codes (codes : gset (option string)) : exn + list pyval :=
  let texts := omap id (elements codes) in
  if bool_decide (None ∈ codes) then
    match texts with [] => inr [PNone] | _ => inl TypeError end
  else inr (PStr <$> merge_sort string_le texts).

(** [UserSerializer.get_permissions]; [requester] is [request.user]. *)
Definition get_permissions (requester : option (uuid * User.t)) (user : uuid * User.t) : M (list pyval) :=
  if bool_decide (fst <$> requester = Some user.1) then
    let! codes := permission_codes (Some user) in
    match sorted_codes codes with
    | inl e => raise e
    | inr l => ret l
    end
  else ret [].

(** [UserSerializer(user).data] *)
Definition user_data (requester : option (uuid * User.t)) (user : uuid * User.t) : M pyval :=
  let! permissions := get_permissions requester user in
  let '(k, u) := user in
  ret (PDict
    [("id", ident k); ("email", PStr (User.email u)); ("username", PStr (User.username u));
     ("first_name", PStr (User.first_name u)); ("last_name", PStr (User.last_name u));
     ("display_name", PStr (User.display_name u));
     ("avatar", if Str.is_empty (User.avatar u) then PNone else PStr (User.avatar u));
     ("status", PStr (AccountStatus.value (User.status u)));
     ("is_email_verified", PBool (User.is_email_verified u));
     ("is_phone_verified", PBool (User.is_phone_verified u));
     ("date_joined", time (User.date_joined u)); ("last_login", optional time (User.last_login u));
     ("created_at", time (User.created_at u)); ("updated_at", time (User.updated_at u));
     ("permissions", PList permissions)]).

End api.
