(* ===== verification/AuthViews.v ===== *)
(** * The authentication endpoints ([apps/api/views/auth.py])

    One definition per view; its arguments are what the fields of the view's
    serializer made of the request data.  The JWT library is the parameter
    [TokenCodec]. *)

From S2P Require Import Prelude Env Demo Models Orm Logic Common Samples Users Tokens Sessions TwoFactor LoginProtection Authentication Accounts Authorization ApiKeys Services Responses Api.

(** Encoding of the [n]-th token pair of a user; the identifier, user and expiry
    of a refresh token whose signature and expiry are in order; the configured
    life time. *)
Class TokenCodec := MkCodec {
  encode_refresh : nat -> uuid -> string;
  encode_access : nat -> uuid -> string;
  decode_refresh : string -> option (string * option uuid * Z);
  refresh_lifetime : Z;
}.

Section auth_views.
Context `{E : Env, !TokenCodec}.

(** ** Serializers ([apps/api/serializers/auth.py]) *)

Definition duplicate_details : string := "An account with those details already exists.".

Definition validate_email (value : string) : M string :=
  let normalized := User.normalize_email_address value in
  let! taken := exists_row (fun _ u => Str.iexact (User.email u) normalized) in
  if (taken : bool) then raise (invalid duplicate_details) else ret normalized.

Definition validate_username (value : string) : M string :=
  let value := Str.strip value in
  let! taken := exists_row (fun _ u => Str.iexact (User.username u) value) in
  if (taken : bool) then raise (invalid duplicate_details) else ret value.

Definition validate_new_password (value : string) : M string :=
  validate_password value None ;; ret value.

Definition validate_own_username (uid : uuid) (value : string) : M string :=
  let value := Str.strip value in
  let! taken := exists_row (fun k u => Str.iexact (User.username u) value && negb (N.eqb k uid)) in
  if (taken : bool) then raise (invalid "That username is unavailable.") else ret value.

(** ** Shared by the views *)

(** A view with the default permission and throttle classes: its handler sees
    an authenticated [request.user] (the permission [IsAuthenticated] has seen
    to it). *)
Definition user_view (h : HttpRequest -> uuid -> User.t -> M Response) : View :=
  MkView true None (default_permissions no_scopes) default_throttles None
    (fun r a => match auth_user a with
                | Some (uid, u) => h r uid u
                | None => raise NotAuthenticated
                end).

(** A view with [permission_classes = [AllowAny]]. *)
Definition open_view (throttles : list throttle) (h : HttpRequest -> Auth -> M Response) : View :=
  MkView true None allow_any throttles None h.

Definition flag (name : string) : Response := success_response (PDict [(name, PBool true)]) 200.
Definition notice (text : string) : Response := success_response (PDict [("message", PStr text)]) 200.

(** ** Registration, sign-in and sign-out *)

Definition RegisterView (email username password : field string)
    (first_name last_name : field (option string)) : View :=
  open_view [RegisterThrottle] (fun r a =>
    let! enabled := get_setting "site.registration_enabled" (PBool true) false in
    if match enabled with PBool false | PInt 0 | PStr "" | PNone | PList [] | PDict [] => true | _ => false end
    then raise (APIException "Registration is disabled." "REGISTRATION_DISABLED" 403 []) else
    let! '(email, (username, (password, (first_name, last_name)))) := validated
      (also (field_of "email" email validate_email)
      (also (field_of "username" username validate_username)
      (also (field_of "password" password validate_new_password)
      (also (plain "first_name" first_name) (plain "last_name" last_name))))) in
    let! user := register_user email username password (default "" first_name) (default "" last_name)
                   (Some (http r)) in
    let! d := user_data (auth_user a) user in
    ret (success_response d 201)).

(** [RefreshToken.for_user(user)]: the token is recorded as outstanding. *)
Definition for_user (uid : uuid) : M (string * string) :=
  let! n := draw (fun n => n) in
  let! t := now in
  create (OutstandingToken.mk (Some uid) (uuid_hex (uuid4 n)) (t + refresh_lifetime)) ;;
  ret (encode_refresh n uid, encode_access n uid).

Definition LoginView (identifier password : field string) (code : field (option string))
    (remember_me : field bool) : View :=
  open_view [LoginThrottle] (fun r _ =>
    let! '(identifier, (password, (code, remember_me))) := validated
      (also (plain "identifier" identifier) (also (plain "password" password)
      (also (plain "code" code) (plain "remember_me" remember_me)))) in
    let! '(user, session) := login (http r) identifier password (default "" code) remember_me in
    let! '(refresh, access) := for_user user.1 in
    let! d := user_data (Some user) user in
    ret (success_response (PDict
      [("user", d); ("access", PStr access); ("refresh", PStr refresh);
       ("session_id", PStr (UserSession.identifier session.2))]) 200)).

(** [base] is the inherited validation of the refresh token. *)
Definition RefreshView (base : M (pyval * uuid)) : View :=
  MkView false (Some ("Bearer realm=" +:+ Str.quoted "api")) allow_any default_throttles None (fun _ _ =>
    let! d := refresh_validate base in
    ret (success_response d 200)).

(** [RefreshToken(raw).blacklist()]: a token that is unreadable, expired or
    blacklisted raises [TokenError]. *)
Definition blacklist_refresh (raw : string) : M unit :=
  let invalid_refresh := APIException "Invalid refresh token." "INVALID_TOKEN" 400 [] in
  match decode_refresh raw with
  | None => raise invalid_refresh
  | Some (jti, user, expires) =>
      let issued (_ : uuid) (o : OutstandingToken.t) := String.eqb (OutstandingToken.jti o) jti in
      let! found := first_row issued in
      let! blacklisted := match found with
                          | Some (k, _) => exists_row (fun _ b => N.eqb (BlacklistedToken.token b) k)
                          | None => ret false
                          end in
      if (blacklisted : bool) then raise invalid_refresh else
      let! '(k, _, _) := get_or_create issued (ret (OutstandingToken.mk user jti expires)) in
      get_or_create (fun _ b => N.eqb (BlacklistedToken.token b) k)
        (let! t := now in ret (BlacklistedToken.mk k t)) ;;
      ret tt
  end.

Definition LogoutView (refresh : field (option string)) : View :=
  user_view (fun r uid _ =>
    let! refresh := validated (plain "refresh" refresh) in
    when (negb (Str.is_empty (default "" refresh))) (blacklist_refresh (default "" refresh)) ;;
    let! cur := current in
    match cur with
    | Some (k, _) => revoke k (Some uid) (Some (http r))
    | None => ret tt
    end ;;
    session_flush ;;
    ret (flag "logged_out")).

(** ** Verification and passwords *)

Definition VerifyEmailView (token : field string) : View :=
  open_view [EmailVerificationThrottle] (fun r _ =>
    let! token := validated (plain "token" token) in
    verify_email token (Some (http r)) ;;
    ret (flag "verified")).

Definition ResendVerificationView (email : field string) : View :=
  open_view [EmailVerificationThrottle] (fun _ _ =>
    let! email := validated (plain "email" email) in
    resend_verification email ;;
    ret (notice "If eligible, a verification email will be sent.")).

Definition PasswordResetRequestView (email : field string) : View :=
  open_view [PasswordResetThrottle] (fun _ _ =>
    let! email := validated (plain "email" email) in
    request_password_reset email ;;
    ret (notice "If eligible, a password reset email will be sent.")).

Definition PasswordResetConfirmView (token new_password : field string) : View :=
  open_view [PasswordResetThrottle] (fun r _ =>
    let! '(token, new_password) := validated
      (also (plain "token" token) (field_of "new_password" new_password validate_new_password)) in
    reset_password token new_password (Some (http r)) ;;
    ret (flag "password_reset")).

(** [update_session_auth_hash] moves the session to a new key. *)
Definition ChangePasswordView (old_password new_password : field string) : View :=
  user_view (fun r uid _ =>
    let! '(old_password, new_password) := validated
      (also (plain "old_password" old_password) (plain "new_password" new_password)) in
    change_password uid old_password new_password (Some (http r)) ;;
    get_pk (R := User.t) uid ;;
    cycle_key ;;
    ret (flag "password_changed")).

(** ** E-mail address, user name, leaving *)

Definition ChangeEmailView (password new_email : field string) : View :=
  user_view (fun _ uid u =>
    let! '(password, new_email) := validated
      (also (plain "password" password) (plain "new_email" new_email)) in
    request_email_change uid u password new_email ;;
    ret (notice "A confirmation email will be sent to the new address.")).

Definition ConfirmEmailChangeView (token : field string) : View :=
  open_view default_throttles (fun r _ =>
    let! token := validated (plain "token" token) in
    confirm_email_change token (Some (http r)) ;;
    ret (flag "email_changed")).

Definition ChangeUsernameView (username : field string) : View :=
  user_view (fun r uid u =>
    let! username := validated (field_of "username" username (validate_own_username uid)) in
    let! user := change_username uid username (Some (http r)) in
    let! d := user_data (Some (uid, u)) user in
    ret (success_response d 200)).

Definition DeactivateAccountView (password : field string) : View :=
  user_view (fun r uid _ =>
    let! password := validated (plain "password" password) in
    deactivate uid password (Some (http r)) ;;
    session_flush ;;
    ret (flag "deactivated")).

Definition DeleteAccountRequestView (password : field string) : View :=
  user_view (fun _ uid u =>
    let! password := validated (plain "password" password) in
    request_deletion uid u password ;;
    ret (notice "A deletion confirmation email will be sent.")).

Definition DeleteAccountConfirmView (token : field string) : View :=
  open_view default_throttles (fun r _ =>
    let! token := validated (plain "token" token) in
    confirm_deletion token (Some (http r)) ;;
    ret (flag "deleted")).

(** ** Two-factor authentication *)

Definition TwoFactorSetupView (password : field string) : View :=
  user_view (fun _ uid u =>
    if negb ENABLE_TWO_FACTOR
    then raise (APIException "Two-factor authentication is disabled." "FEATURE_DISABLED" 404 []) else
    let! password := validated (plain "password" password) in
    let! '(secret, uri) := begin_setup uid u password in
    ret (success_response (PDict [("secret", PStr secret); ("provisioning_uri", PStr uri)]) 200)).

Definition TwoFactorConfirmView (code : field string) : View :=
  user_view (fun r uid u =>
    let! code := validated (plain "code" code) in
    let! codes := confirm_setup uid u code (Some (http r)) in
    ret (success_response (PDict [("enabled", PBool true); ("recovery_codes", PList (PStr <$> codes))]) 200)).

Definition TwoFactorDisableView (code password : field string) : View :=
  user_view (fun r uid u =>
    let! '(code, password) := validated (also (plain "code" code) (plain "password" password)) in
    disable uid u password code (Some (http r)) ;;
    ret (flag "disabled")).

Definition RecoveryCodeRegenerateView (code : field string) : View :=
  user_view (fun r uid u =>
    let! code := validated (plain "code" code) in
    let! codes := regenerate_codes uid u code (Some (http r)) in
    ret (success_response (PDict [("recovery_codes", PList (PStr <$> codes))]) 200)).

End auth_views.
