(* ===== verification/Resources.v ===== *)
(** * Resource endpoints: the shared parts

    What the view sets of apps/api/views take from REST framework's generic
    views (fetching the object, listing a page, saving a serializer) and the
    audited writes of [AuthorizationViewSet], [SettingViewSet] and
    [FeatureFlagViewSet]. *)

From S2P Require Import Prelude Env Models Orm Logic Common Users Responses Api.

(** ** Serializer writes

    A validated field of a model serializer: its name, how its value and the
    column of a row appear in the audit journal, and the assignment. *)
Record write (R : Type) := MkWrite {
  w_field : string;
  w_value : DB -> pyval;
  w_get : DB -> R -> pyval;
  w_set : R -> R;
}.
Arguments MkWrite {R} _ _ _ _.
Arguments w_field {R} _.
Arguments w_value {R} _ _.
Arguments w_get {R} _ _ _.
Arguments w_set {R} _ _.

Definition apply_writes {R} (l : list (write R)) (r : R) : R := fold_left (fun r w => w_set w r) l r.
Definition has_write {R} (l : list (write R)) (name : string) : bool :=
  existsb (fun w => String.eqb (w_field w) name) l.

(** [serializer.validated_data], and [{field: getattr(row, field) ...}]. *)
Definition validated_data {R} (d : DB) (l : list (write R)) : list (string * pyval) :=
  (fun w => (w_field w, w_value w d)) <$> l.
Definition current_data {R} (d : DB) (l : list (write R)) (r : R) : list (string * pyval) :=
  (fun w => (w_field w, w_get w d r)) <$> l.

(** A field of the request data, when it is present. *)
Definition field_write `{E : Env} {R A} (name : string) (x : option (field A)) (validate : A -> M A)
    (value : DB -> A -> pyval) (get : R -> A) (set : A -> R -> R) : list (form (write R)) :=
  match x with
  | None => []
  | Some f =>
      [let! r := field_of name f validate in
       ret (match r with
            | inl e => inl e
            | inr a => inr (MkWrite name (fun d => value d a) (fun d row => value d (get row)) (set a))
            end)]
  end.

Fixpoint collect {A} (l : list (form A)) : form (list A) :=
  match l with
  | [] => ret (inr [])
  | f :: l' => let! r := also f (collect l') in
               ret (match r with inl e => inl e | inr (a, t) => inr (a :: t) end)
  end.

Definition text (_ : DB) (s : string) : pyval := PStr s.
Definition truth (_ : DB) (b : bool) : pyval := PBool b.
Definition number (_ : DB) (n : Z) : pyval := PInt n.
Definition moment (_ : DB) (t : Z) : pyval := PDatetime t.
Definition moment_or_none (_ : DB) (t : option Z) : pyval := optional PDatetime t.

(** Related rows appear as the objects themselves. *)
Definition role_object (d : DB) (k : uuid) : pyval :=
  optional (fun r => PObject (Role.name r) []) (roles d !! k).
Definition permission_object (d : DB) (k : uuid) : pyval :=
  optional (fun p => PObject (Permission.codename p) []) (permissions d !! k).
Definition user_object (d : DB) (k : uuid) : pyval := optional (user_value k) (users d !! k).

Section resources.
Context `{E : Env}.

(** ** Objects and pages *)

(** [get_object()]: the row of the view's queryset with that key, or 404. *)
Definition get_object {R} `{Model R} (model : string) (P : uuid -> R -> bool) : M (uuid * R) :=
  let! rows := filter_rows P in
  match rows with
  | x :: _ => ret x
  | [] => raise (Http404 ("No " +:+ model +:+ " matches the given query."))
  end.

Definition with_key {R} (k : uuid) (k' : uuid) (_ : R) : bool := N.eqb k' k.
Definition every {R} (_ : uuid) (_ : R) : bool := true.

(** The parameters of a listing: what the filter, search and ordering back ends
    make of the queryset, and the page. *)
Record ListQuery (R : Type) := MkList {
  backends : list (uuid * R) -> list (uuid * R);
  requested_size : option Z;
  page_number : Z;
  page_link : Z -> string;
}.
Arguments backends {R} _ _.
Arguments requested_size {R} _.
Arguments page_number {R} _.
Arguments page_link {R} _ _.

(** Serializing with [many=True]: one row after the other. *)
Fixpoint render_rows {A} (render : A -> M pyval) (l : list A) : M (list pyval) :=
  match l with
  | [] => ret []
  | a :: l' => let! v := render a in let! vs := render_rows render l' in ret (v :: vs)
  end.

Definition list_serialized {R} `{Model R} (P : uuid -> R -> bool) (render : uuid * R -> M pyval)
    (q : ListQuery R) : M Response :=
  let! rows := filter_rows P in
  let rows := backends q rows in
  match paginate rows (requested_size q) (page_number q) with
  | inl e => raise e
  | inr on_page =>
      let! page_data := render_rows render on_page in
      ret (paginated (Z.of_nat (length rows)) page_data (page_link q) (requested_size q) (page_number q))
  end.

Definition list_rows {R} `{Model R} (P : uuid -> R -> bool) (render : uuid * R -> pyval)
    (q : ListQuery R) : M Response :=
  list_serialized P (fun x => ret (render x)) q.

(** The answers of the generic views, which do not use the envelope. *)
Definition bare (d : pyval) (status : Z) : Response := MkResponse status d [].

(** ** Audited writes *)

Record Audited (R : Type) := MkAudited {
  audit_name : string;
  audit_target : uuid -> R -> AuditService.Target;
  (** [auto_now] *)
  stamp : Z -> R -> R;
}.
Arguments audit_name {R} _.
Arguments audit_target {R} _ _ _.
Arguments stamp {R} _ _ _.

Section audited.
Context {R : Type} `{Model R}.
Variable (A : Audited R).

(** [perform_create]: [new] makes the row [serializer.save()] fills and inserts. *)
Definition perform_create (l : list (write R)) (new : M R) (actor : uuid) (r : HttpRequest)
    : M (uuid * R) :=
  let! blank := new in
  let! '(k, row) := create (apply_writes l blank) in
  let! d := read db in
  AuditService.record
    ((AuditService.on (audit_name A +:+ ".created") (audit_target A k row) (Some actor) (Some (http r)))
      <| AuditService.after := validated_data d l |>) ;;
  ret (k, row).

(** [perform_update] *)
Definition perform_update (l : list (write R)) (x : uuid * R) (actor : uuid) (r : HttpRequest)
    : M (uuid * R) :=
  let '(k, row) := x in
  let! d := read db in
  let before := current_data d l row in
  let! t := now in
  let f r := stamp A t (apply_writes l r) in
  save_fields k f ;;
  let! d := read db in
  AuditService.record
    ((AuditService.on (audit_name A +:+ ".updated") (audit_target A k (f row)) (Some actor) (Some (http r)))
      <| AuditService.before := before |> <| AuditService.after := validated_data d l |>) ;;
  ret (k, f row).

(** [AuthorizationViewSet.perform_destroy]: the journal entry comes before the
    deletion. *)
Definition perform_destroy (is_system : R -> bool) (delete : uuid -> M unit) (x : uuid * R)
    (actor : uuid) (r : HttpRequest) : M unit :=
  if is_system x.2
  then raise (APIException "System authorization records cannot be deleted." "CONFLICT" 409 []) else
  AuditService.record
    (AuditService.on (audit_name A +:+ ".deleted") (audit_target A x.1 x.2) (Some actor) (Some (http r))) ;;
  delete x.1.

End audited.

(** The view of an administrative action behind [required_permission]. *)
Definition admin_view (view codename : string) (h : HttpRequest -> uuid -> M Response) : View :=
  MkView true None (codename_permissions view codename) default_throttles None
    (fun r a => match auth_user a with
                | Some (uid, _) => h r uid
                | None => raise NotAuthenticated
                end).

End resources.
Arguments backends {R} _ _.
Arguments requested_size {R} _.
Arguments page_number {R} _.
Arguments page_link {R} _ _.
Arguments MkAudited {R} _ _ _.
Arguments MkList {R} _ _ _ _.
