(* ===== verification/AccountViews.v ===== *)
(** * Account, session, API key and notification endpoints

    [apps/api/views/accounts.py], [sessions.py], [api_keys.py] and
    [notifications.py] with their serializers. *)

From S2P Require Import Prelude Env Models Orm Logic Common Users Sessions Tokens Authentication ApiKeys Idempotency Services Responses Api AuthViews Resources.

(** The codes of [settings.LANGUAGES]. *)
Definition LANGUAGES : list string := ["en"; "tr"].

Section account_views.
Context `{E : Env}.

(** ** The current user *)

Definition scoped_view (scopes : view_scopes) (h : HttpRequest -> uuid -> User.t -> M Response) : View :=
  MkView true None (default_permissions scopes) default_throttles None
    (fun r a => match auth_user a with
                | Some (uid, u) => h r uid u
                | None => raise NotAuthenticated
                end).

Definition CurrentUserView : View :=
  scoped_view current_user_scopes (fun _ uid u =>
    let! d := user_data (Some (uid, u)) (uid, u) in
    ret (success_response d 200)).

Definition profile_data (x : uuid * UserProfile.t) : pyval :=
  let '(k, p) := x in
  PDict [("id", ident k); ("bio", PStr (UserProfile.bio p)); ("website", PStr (UserProfile.website p));
         ("location", PStr (UserProfile.location p)); ("created_at", time (UserProfile.created_at p));
         ("updated_at", time (UserProfile.updated_at p))].

Definition profile_of (uid : uuid) : M (uuid * UserProfile.t) :=
  let! '(x, _) := get_or_create (fun _ p => N.eqb (UserProfile.user p) uid)
    (let! c := now in let! t := now in ret (UserProfile.mk uid "" "" "" c t)) in
  ret x.

Definition CurrentUserProfileView : View :=
  scoped_view profile_scopes (fun _ uid _ =>
    let! x := profile_of uid in
    ret (success_response (profile_data x) 200)).

(** PUT and PATCH; an absent field is not written. *)
Definition CurrentUserProfileUpdate (bio website location : option (field string)) : View :=
  scoped_view profile_scopes (fun _ uid _ =>
    let! x := profile_of uid in
    let! l := validated (collect
      (field_write "bio" bio ret text UserProfile.bio (fun v p => p <| UserProfile.bio := v |>)
       ++ field_write "website" website ret text UserProfile.website (fun v p => p <| UserProfile.website := v |>)
       ++ field_write "location" location ret text UserProfile.location
            (fun v p => p <| UserProfile.location := v |>))) in
    let! t := now in
    let f p := (apply_writes l p) <| UserProfile.updated_at := t |> in
    save_fields x.1 f ;;
    ret (success_response (profile_data (x.1, f x.2)) 200)).

Definition preferences_data (x : uuid * UserPreferences.t) : pyval :=
  let '(k, p) := x in
  PDict [("id", ident k); ("language", PStr (UserPreferences.language p));
         ("timezone", PStr (UserPreferences.timezone p));
         ("email_notifications", PBool (UserPreferences.email_notifications p));
         ("security_emails", PBool (UserPreferences.security_emails p));
         ("created_at", time (UserPreferences.created_at p));
         ("updated_at", time (UserPreferences.updated_at p))].

Definition validate_language (value : string) : M string :=
  if bool_decide (value ∈ LANGUAGES) then ret value else raise (invalid "Unsupported language.").

(** [known] says which names [ZoneInfo] knows. *)
Definition validate_timezone (known : string -> bool) (value : string) : M string :=
  if known value then ret value else raise (invalid "Unknown timezone.").

Definition CurrentUserPreferencesView : View :=
  scoped_view profile_scopes (fun _ uid _ =>
    let! '(x, _) := preferences_of uid in
    ret (success_response (preferences_data x) 200)).

Definition CurrentUserPreferencesUpdate (known : string -> bool) (language timezone : option (field string))
    (email_notifications security_emails : option (field bool)) : View :=
  scoped_view profile_scopes (fun _ uid _ =>
    let! '(x, _) := preferences_of uid in
    let! l := validated (collect
      (field_write "language" language validate_language text UserPreferences.language
         (fun v p => p <| UserPreferences.language := v |>)
       ++ field_write "timezone" timezone (validate_timezone known) text UserPreferences.timezone
            (fun v p => p <| UserPreferences.timezone := v |>)
       ++ field_write "email_notifications" email_notifications ret truth
            UserPreferences.email_notifications (fun v p => p <| UserPreferences.email_notifications := v |>)
       ++ field_write "security_emails" security_emails ret truth
            UserPreferences.security_emails (fun v p => p <| UserPreferences.security_emails := v |>))) in
    let! t := now in
    let f p := (apply_writes l p) <| UserPreferences.updated_at := t |> in
    save_fields x.1 f ;;
    ret (success_response (preferences_data (x.1, f x.2)) 200)).

(** ** Security events *)

Definition event_data (x : uuid * SecurityEvent.t) : pyval :=
  let '(k, e) := x in
  PDict [("id", ident k); ("user", optional ident (SecurityEvent.user e));
         ("event_type", PStr (SecurityEventType.value (SecurityEvent.event_type e)));
         ("ip_address", optional PStr (SecurityEvent.ip_address e));
         ("user_agent", PStr (SecurityEvent.user_agent e)); ("request_id", PStr (SecurityEvent.request_id e));
         ("metadata", PDict (SecurityEvent.metadata e)); ("created_at", time (SecurityEvent.created_at e))].

Definition SecurityEventListView (q : ListQuery SecurityEvent.t) : View :=
  user_view (fun _ uid _ =>
    list_rows (fun _ e => bool_decide (SecurityEvent.user e = Some uid)) event_data q).

Definition SecurityEventAdminList (q : ListQuery SecurityEvent.t) : View :=
  admin_view "SecurityEventAdminViewSet" "security_events.view" (fun _ _ => list_rows every event_data q).

Definition SecurityEventAdminRetrieve (k : uuid) : View :=
  admin_view "SecurityEventAdminViewSet" "security_events.view" (fun _ _ =>
    let! x := get_object "SecurityEvent" (with_key (R := SecurityEvent.t) k) in
    ret (bare (event_data x) 200)).

(** ** Administration of users *)

Definition user_admin_data (x : uuid * User.t) : pyval :=
  let '(k, u) := x in
  PDict [("id", ident k); ("email", PStr (User.email u)); ("username", PStr (User.username u));
         ("first_name", PStr (User.first_name u)); ("last_name", PStr (User.last_name u));
         ("status", PStr (AccountStatus.value (User.status u)));
         ("email_verified_at", optional time (User.email_verified_at u));
         ("phone_verified_at", optional time (User.phone_verified_at u));
         ("is_active", PBool (User.is_active u)); ("is_staff", PBool (User.is_staff u));
         ("date_joined", time (User.date_joined u)); ("last_login", optional time (User.last_login u));
         ("last_login_ip", optional PStr (User.last_login_ip u)); ("created_at", time (User.created_at u));
         ("updated_at", time (User.updated_at u))].

(** [UserAdminSerializer.validate_*]; [instance] is the user being changed. *)
Definition other_than (instance : option uuid) (k : uuid) : bool := bool_decide (instance <> Some k).

Definition admin_validate_email (instance : option uuid) (value : string) : M string :=
  let normalized := User.normalize_email_address value in
  let! taken := exists_row (fun k u => Str.iexact (User.email u) normalized && other_than instance k) in
  if (taken : bool) then raise (invalid "That email address is unavailable.") else ret normalized.

Definition admin_validate_username (instance : option uuid) (value : string) : M string :=
  let! taken := exists_row (fun k u => Str.iexact (User.username u) (Str.strip value) && other_than instance k) in
  if (taken : bool) then raise (invalid "That username is unavailable.") else ret (Str.strip value).

Definition validate_status (value : AccountStatus.t) : M AccountStatus.t :=
  if bool_decide (value = AccountStatus.BANNED) || bool_decide (value = AccountStatus.DELETED)
  then raise (invalid "Use the dedicated ban or account-deletion lifecycle service.")
  else ret value.

Definition status_value (_ : DB) (s : AccountStatus.t) : pyval := PStr (AccountStatus.value s).

(** The writable fields of the request. *)
Record UserAdminFields := MkUserAdmin {
  f_email : option (field string);
  f_username : option (field string);
  f_first_name : option (field string);
  f_last_name : option (field string);
  f_status : option (field AccountStatus.t);
  f_email_verified_at : option (field (option Z));
  f_phone_verified_at : option (field (option Z));
  f_is_active : option (field bool);
  f_is_staff : option (field bool);
}.

Definition user_admin_form (instance : option uuid) (f : UserAdminFields) : form (list (write User.t)) :=
  collect
    (field_write "email" (f_email f) (admin_validate_email instance) text User.email
       (fun v u => u <| User.email := v |>)
     ++ field_write "username" (f_username f) (admin_validate_username instance) text User.username
       (fun v u => u <| User.username := v |>)
     ++ field_write "first_name" (f_first_name f) ret text User.first_name
       (fun v u => u <| User.first_name := v |>)
     ++ field_write "last_name" (f_last_name f) ret text User.last_name
       (fun v u => u <| User.last_name := v |>)
     ++ field_write "status" (f_status f) validate_status status_value User.status
       (fun v u => u <| User.status := v |>)
     ++ field_write "email_verified_at" (f_email_verified_at f) ret moment_or_none User.email_verified_at
       (fun v u => u <| User.email_verified_at := v |>)
     ++ field_write "phone_verified_at" (f_phone_verified_at f) ret moment_or_none User.phone_verified_at
       (fun v u => u <| User.phone_verified_at := v |>)
     ++ field_write "is_active" (f_is_active f) ret truth User.is_active
       (fun v u => u <| User.is_active := v |>)
     ++ field_write "is_staff" (f_is_staff f) ret truth User.is_staff
       (fun v u => u <| User.is_staff := v |>)).

(** [UserAdminViewSet.perform_update] *)
Definition update_user (l : list (write User.t)) (x : uuid * User.t) (actor : uuid) (r : HttpRequest)
    : M (uuid * User.t) :=
  atomic (
    let '(k, u) := x in
    let! d := read db in
    let before := current_data d l u in
    let! t := now in
    let f u := User.before_save ((apply_writes l u) <| User.updated_at := t |>) in
    save_fields k f ;;
    when (has_write l "email" || has_write l "status" || has_write l "is_active")
      (revoke_all k (Some actor) (Some (http r)) false ;; revoke_all_jwt k ;; ret tt) ;;
    let! d := read db in
    AuditService.record
      ((AuditService.on "user.updated" (user_target k (f u)) (Some actor) (Some (http r)))
        <| AuditService.before := before |> <| AuditService.after := validated_data d l |>) ;;
    ret (k, f u)).

Definition UserAdminList (q : ListQuery User.t) : View :=
  admin_view "UserAdminViewSet" "users.view" (fun _ _ => list_rows every user_admin_data q).

Definition UserAdminRetrieve (k : uuid) : View :=
  admin_view "UserAdminViewSet" "users.view" (fun _ _ =>
    let! x := get_object "User" (with_key (R := User.t) k) in
    ret (bare (user_admin_data x) 200)).

Definition UserAdminUpdate (k : uuid) (f : UserAdminFields) : View :=
  admin_view "UserAdminViewSet" "users.update" (fun r actor =>
    let! x := get_object "User" (with_key (R := User.t) k) in
    let! l := validated (user_admin_form (Some k) f) in
    let! x' := update_user l x actor r in
    ret (bare (user_admin_data x') 200)).

(** Creation and deletion are refused. *)
Definition UserAdminCreate (f : UserAdminFields) : View :=
  admin_view "UserAdminViewSet" "users.create" (fun _ _ =>
    validated (user_admin_form None f) ;;
    raise (APIException "Use the registration or administrative account service."
             "METHOD_NOT_ALLOWED" 405 [])).

Definition UserAdminDestroy : View :=
  admin_view "UserAdminViewSet" "users.delete" (fun _ _ =>
    raise (APIException "Use the account deletion service." "METHOD_NOT_ALLOWED" 405 [])).

(** ** Sessions *)

(** [UserSessionSerializer]; no service writes [location]. *)
Definition session_data (cur : option (uuid * UserSession.t)) (x : uuid * UserSession.t) : pyval :=
  let '(k, s) := x in
  PDict [("id", ident k); ("identifier", PStr (UserSession.identifier s));
         ("ip_address", optional PStr (UserSession.ip_address s)); ("browser", PStr (UserSession.browser s));
         ("operating_system", PStr (UserSession.operating_system s)); ("device", PStr (UserSession.device s));
         ("location", PStr ""); ("created_at", time (UserSession.created_at s));
         ("last_activity_at", time (UserSession.last_activity_at s));
         ("is_current", PBool (bool_decide (fst <$> cur = Some k)));
         ("is_revoked", PBool (UserSession.is_revoked s)); ("revoked_at", optional time (UserSession.revoked_at s))].

Definition own_session (uid : uuid) (identifier : string) (_ : uuid) (s : UserSession.t) : bool :=
  N.eqb (UserSession.user s) uid && String.eqb (UserSession.identifier s) identifier.

Definition UserSessionList (q : ListQuery UserSession.t) : View :=
  user_view (fun _ uid _ =>
    let! cur := current in
    list_rows (fun _ s => N.eqb (UserSession.user s) uid) (session_data cur) q).

Definition UserSessionRetrieve (identifier : string) : View :=
  user_view (fun _ uid _ =>
    let! x := get_object "UserSession" (own_session uid identifier) in
    let! cur := current in
    ret (success_response (session_data cur x) 200)).

Definition UserSessionRevoke (identifier : string) : View :=
  user_view (fun r uid _ =>
    let! '(k, _) := get_object "UserSession" (own_session uid identifier) in
    revoke k (Some uid) (Some (http r)) ;;
    ret (flag "revoked")).

Definition revoked_count (n : nat) : Response :=
  success_response (PDict [("revoked_count", PInt (Z.of_nat n))]) 200.

Definition UserSessionRevokeOthers : View :=
  user_view (fun r uid _ =>
    let! n := revoke_all uid (Some uid) (Some (http r)) true in ret (revoked_count n)).

Definition UserSessionRevokeAll : View :=
  user_view (fun r uid _ =>
    let! n := revoke_all uid (Some uid) (Some (http r)) false in ret (revoked_count n)).

(** ** API keys *)

Definition key_data (k : uuid) (a : APIKey.t) : M (list (string * pyval)) :=
  let! active := key_is_active a in
  ret [("id", ident k); ("name", PStr (APIKey.name a)); ("prefix", PStr (APIKey.prefix a));
       ("scopes", PList (PStr <$> APIKey.scopes a)); ("created_at", time (APIKey.created_at a));
       ("last_used_at", optional time (APIKey.last_used_at a));
       ("last_used_ip", optional PStr (APIKey.last_used_ip a));
       ("expires_at", optional time (APIKey.expires_at a));
       ("revoked_at", optional time (APIKey.revoked_at a)); ("is_active", PBool active)].

Fixpoint join (separator : string) (l : list string) : string :=
  match l with
  | [] => ""
  | [s] => s
  | s :: l' => s +:+ separator +:+ join separator l'
  end.

Definition validate_scopes (value : list string) : M (list string) :=
  let unknown := List.filter (fun s => negb (bool_decide (s ∈ API_KEY_AVAILABLE_SCOPES))) value in
  match unknown with
  | [] => ret (sorted_set value)
  | _ => raise (invalid ("Unknown scopes: " +:+ join ", " (sorted_set unknown)))
  end.

Definition validate_expires_at (value : option Z) : M (option Z) :=
  match value with
  | None => ret None
  | Some e => let! t := now in
              if e <=? t then raise (invalid "Expiry must be in the future.") else ret (Some e)
  end.

(** The default permissions without a scope declaration: no API key passes. *)
Definition api_key_view (h : HttpRequest -> uuid -> M Response) : View :=
  MkView true None (default_permissions no_scopes) [APIKeyThrottle] None
    (fun r a => match auth_user a with Some (uid, _) => h r uid | None => raise NotAuthenticated end).

(** [APIKeyViewSet.create] behind [@idempotent()].  The column [scopes] has a
    default, so its field is not required; [APIKeyService.create] requires the
    argument. *)
Definition create_api_key (uid : uuid) (r : HttpRequest) (name : field string)
    (scopes : option (field (list string))) (expires_at : option (field (option Z))) : M Response :=
  if negb ENABLE_API_KEYS
  then raise (APIException "API keys are disabled." "FEATURE_DISABLED" 404 []) else
  let! '(name, (scopes, expires_at)) := validated
    (also (plain "name" name) (also (present scopes (fun x => field_of "scopes" x validate_scopes))
       (present expires_at (fun x => field_of "expires_at" x validate_expires_at)))) in
  match scopes with
  | None => raise TypeError
  | Some scopes =>
  let! '(k, a, raw) := create_key uid name scopes (expires_at ≫= id) (Some uid) (Some (http r)) in
  let! d := key_data k a in
  ret (success_response (PDict (d ++ [("key", PStr raw)])) 201)
  end.

Definition APIKeyCreate (serializable : pyval -> bool) (name : field string)
    (scopes : option (field (list string))) (expires_at : option (field (option Z))) : View :=
  api_key_view (fun r uid =>
    idempotent (hours 24) serializable (fun _ => create_api_key uid r name scopes expires_at)
      (MkIdem (idempotency_header r) (Some uid) (http_method r) (http_path r) (http_body r))).

Definition own_key (uid k : uuid) (k' : uuid) (a : APIKey.t) : bool :=
  N.eqb k' k && N.eqb (APIKey.owner a) uid.

Definition APIKeyList (q : ListQuery APIKey.t) : View :=
  api_key_view (fun _ uid =>
    list_serialized (fun _ a => N.eqb (APIKey.owner a) uid)
      (fun x => let! d := key_data x.1 x.2 in ret (PDict d)) q).

Definition APIKeyRetrieve (k : uuid) : View :=
  api_key_view (fun _ uid =>
    let! '(k, a) := get_object "APIKey" (own_key uid k) in
    let! d := key_data k a in
    ret (success_response (PDict d) 200)).

Definition APIKeyRevoke (k : uuid) : View :=
  api_key_view (fun r uid =>
    let! '(k, _) := get_object "APIKey" (own_key uid k) in
    revoke_key k (Some uid) (Some (http r)) ;;
    ret (flag "revoked")).

(** ** Notifications *)

Definition notification_data (x : uuid * Notification.t) : pyval :=
  let '(k, n) := x in
  PDict [("id", ident k); ("type", PStr (Notification.type n)); ("title", PStr (Notification.title n));
         ("message", PStr (Notification.message n)); ("data", Notification.data n);
         ("is_read", PBool (is_some (Notification.read_at n)));
         ("read_at", optional time (Notification.read_at n));
         ("created_at", time (Notification.created_at n));
         ("expires_at", optional time (Notification.expires_at n))].

Definition notification_view (h : uuid -> M Response) : View :=
  scoped_view notification_scopes (fun _ uid _ => h uid).

Definition NotificationList (q : ListQuery Notification.t) : View :=
  notification_view (fun uid =>
    let! t := now in list_rows (visible_notification t uid) notification_data q).

Definition NotificationRetrieve (k : uuid) : View :=
  notification_view (fun uid =>
    let! t := now in
    let! x := get_object "Notification" (fun k' n => N.eqb k' k && visible_notification t uid k' n) in
    ret (success_response (notification_data x) 200)).

Definition missing_notification (e : exn) : exn :=
  if decide (e = DoesNotExist) then Http404 "No Notification matches the given query." else e.

Definition NotificationMarkRead (k : uuid) : View :=
  notification_view (fun uid =>
    let! n := try_except (mark_read uid k) (fun e => raise (missing_notification e)) in
    ret (success_response (notification_data (k, n)) 200)).

Definition NotificationMarkAllRead : View :=
  notification_view (fun uid =>
    let! n := mark_all_read uid in
    ret (success_response (PDict [("updated_count", PInt (Z.of_nat n))]) 200)).

Definition NotificationDestroy (k : uuid) : View :=
  notification_view (fun uid =>
    try_except (destroy_notification uid k) (fun e => raise (missing_notification e)) ;;
    ret (flag "deleted")).

End account_views.
