(* ===== verification/Replays.v ===== *)
(** * Requests that race with one Idempotency-Key

    The decorator of common/idempotency.py runs in one transaction: it looks for
    the record of the key, inserts one, runs the view and stores the answer.
    What others see of that is the end; the unique constraint makes a second
    insertion of the key wait for it.  Here any number of requests of a user
    with the same key go through these parts in any order. *)

From stdpp Require Import relations.
From S2P Require Import Prelude Env Demo Models Orm Logic Transactions Common Samples Users ApiKeys Responses Idempotency Api AccountViews.

Section replays.
Context `{E : Env, !CryptoLaws E}.
Context (ttl : Z) (serializable : pyval -> bool) (view : IdemRequest -> M Response).
Context (uid : uuid) (key : string).

(** The requests at hand. *)
Record carries (r : IdemRequest) : Prop := {
  carries_user : idem_user r = Some uid;
  carries_key : idempotency_key r = key;
}.
Hypothesis key_given : Str.is_empty key = false.
Hypothesis key_short : Z.of_nat (String.length key) <= 255.

(** The views leave the records alone. *)
Hypothesis view_keeps : forall r, evolves (keeps idempotency_records) (view r).

(** ** The parts *)

(** SELECT ... FOR UPDATE, and what a record that is there decides. *)
Definition look (r : IdemRequest) : M (option Response) :=
  let! record := first_row (idem_record uid key) in
  match record with
  | Some (_, x) =>
      if negb (String.eqb (IdempotencyRecord.request_hash x) (idem_request_hash r)) then raise different_request else
      match IdempotencyRecord.response_status x with
      | None => raise in_progress
      | Some status => ret (Some (replayed status (IdempotencyRecord.response_body x)))
      end
  | None => ret None
  end.

(** The insertion, the view and the stored answer. *)
Definition answer (r : IdemRequest) : M Response :=
  let! t := now in
  let! created := now in
  let! '(k, _) := try_except
    (create (IdempotencyRecord.mk uid (idem_key_hash key) (method r) (path r) (idem_request_hash r) None None
               created (t + ttl)))
    (fun e => raise (if decide (e = IntegrityError) then in_progress else e)) in
  let! response := view r in
  (if serializable (data response) then ret tt
   else raise (RuntimeError "Idempotent responses must be JSON serializable")) ;;
  save_fields k (fun x => x
    <| IdempotencyRecord.response_status := Some (status_code response) |>
    <| IdempotencyRecord.response_body := Some (data response) |>) ;;
  ret response.

(** The record of the key, as committed. *)
Definition record_of_key (d : DB) (k : uuid) (x : IdempotencyRecord.t) : Prop :=
  idempotency_records d !! k = Some x /\ idem_record uid key k x = true.
Definition known (d : DB) : bool := Table.any (idem_record uid key) (idempotency_records d).

(** ** Requests, part by part *)

(** Before the look; before the insertion; with the row inserted and not
    committed; answered by the view; ended in another way. *)
Inductive request :=
| Arriving (r : IdemRequest)
| Missing (r : IdemRequest)
| Reserved (r : IdemRequest)
| Answered (r : IdemRequest) (response : Response)
| Ended (r : IdemRequest) (result : exn + Response).

Definition advance (c : request) (w : World) : request * World :=
  match c with
  | Arriving r =>
      match inside (look r) w with
      | (inr None, w') => (Missing r, w')
      | (inr (Some response), w') => (Ended r (inr response), w')
      | (inl e, w') => (Ended r (inl e), w')
      end
  | Missing r => if known (db w) then (Ended r (inl in_progress), w) else (Reserved r, w)
  | Reserved r =>
      match atomic (answer r) w with
      | (inr response, w') => (Answered r response, w')
      | (inl e, w') => (Ended r (inl e), w')
      end
  | Answered _ _ | Ended _ _ => (c, w)
  end.

Definition result (c : request) : option (exn + Response) :=
  match c with Answered _ response => Some (inr response) | Ended _ x => Some x | _ => None end.

Lemma idempotent_parts r w : carries r ->
  idempotent ttl serializable view r w =
    atomic (let! found := look r in match found with Some response => ret response | None => answer r end) w.
Proof.
  intros [Hu Hk]. unfold idempotent. rewrite Hu, Hk, key_given. replace (255 <? _) with false by lia.
  apply atomic_ext. clear w. intros w. unfold look, bind, first_row, first_row_by, read.
  destruct (Table.first _ _ _) as [[k x]|]; cbn [ret]; [|reflexivity].
  destruct (negb _); [done|]. by destruct (IdempotencyRecord.response_status x).
Qed.

Lemma look_reads r : reads (look r).
Proof.
  intros w. unfold look, bind, first_row, first_row_by, read. destruct (Table.first _ _ _) as [[k x]|]; [|done].
  destruct (negb _); [done|]. by destruct (IdempotencyRecord.response_status x).
Qed.

Lemma look_spec r w :
  wp (look r)
    (fun found _ => match found with
       | None => known (db w) = false
       | Some response => exists k x status, record_of_key (db w) k x /\
           IdempotencyRecord.request_hash x = idem_request_hash r /\
           IdempotencyRecord.response_status x = Some status /\
           response = replayed status (IdempotencyRecord.response_body x)
       end)
    (fun _ _ => known (db w) = true) w.
Proof.
  unfold look, known. do 2 wp_step. destruct (Table.first _ _ _) as [[k x]|] eqn:Hf.
  - apply Table.first_Some in Hf as [Hx HP]. assert (Hany : Table.any (idem_record uid key) (idempotency_records (db w)) = true).
    { apply Table.any_true. by exists k, x. }
    destruct (String.eqb_spec (IdempotencyRecord.request_hash x) (idem_request_hash r)) as [Hh|]; cbn [negb]; [|by wp_step].
    destruct (IdempotencyRecord.response_status x) as [status|] eqn:Hs; wp_step; [|done]. by exists k, x, status.
  - wp_step. apply Table.any_false. by apply (Table.first_None pk_order).
Qed.

(** A request alone runs the decorated view. *)
Lemma alone_decorated r w : carries r -> hooks w = [] ->
  let '(c1, w1) := advance (Arriving r) w in let '(c2, w2) := advance c1 w1 in let '(c3, w3) := advance c2 w2 in
  result c3 = Some (idempotent ttl serializable view r w).1 /\ w3 = (idempotent ttl serializable view r w).2.
Proof.
  intros Hr Hnil. rewrite idempotent_parts by done. unfold atomic. cbn [advance]. unfold inside at 1.
  set (w0 := w <| depth ::= S |>). destruct (look_reads r w0) as (Hd & Hh & Hp). pose proof (look_spec r w0) as Hl.
  unfold wp in Hl. unfold bind. destruct (look r w0) as [[e|[response|]] w1]; cbn [fst snd] in *; cbn [advance result].
  - split; [done|]. symmetry. by apply rewound.
  - split; [done|]. symmetry. apply committed_nothing. cbn. by rewrite Hh.
  - cbn in Hd. replace (known (db (w1 <| depth := depth w |>))) with false by (cbn; by rewrite Hd). cbn [advance].
    unfold atomic. rewrite reopened by done. destruct (answer r w1) as [[e|response] w2]; cbn in *; [by rewrite Hd, Hh|done].
Qed.

(** ** Any number of requests *)

Definition Pool : Type := (gmap nat request * World)%type.

Definition carried (c : request) : IdemRequest :=
  match c with Arriving r | Missing r | Reserved r | Answered r _ | Ended r _ => r end.

Definition reserving (cs : gmap nat request) (i : nat) : Prop := exists r, cs !! i = Some (Reserved r).

Definition same_records (d d' : DB) : Prop := forall k x, record_of_key d' k x <-> record_of_key d k x.

(** A request does its next part, and inserts the key only when no other one has
    it inserted; one breaks off; one arrives; or something else happens, which
    leaves the records of the key alone. *)
Inductive pool_step : Pool -> Pool -> Prop :=
| acts i c c' cs w w' :
    cs !! i = Some c -> advance c w = (c', w') ->
    (forall r j, c' = Reserved r -> j <> i -> ~ reserving cs j) ->
    pool_step (cs, w) (<[i := c']> cs, w')
| breaks_off i c e cs w :
    cs !! i = Some c -> result c = None -> pool_step (cs, w) (<[i := Ended (carried c) (inl e)]> cs, w)
| arrives i r cs w : cs !! i = None -> carries r -> pool_step (cs, w) (<[i := Arriving r]> cs, w)
| elsewhere cs w w' :
    (unique_rows (R := IdempotencyRecord.t) (db w) -> unique_rows (R := IdempotencyRecord.t) (db w')) ->
    same_records (db w) (db w') -> pool_step (cs, w) (cs, w').

Definition replays (cs : gmap nat request) (r : IdemRequest) (response : Response) : Prop :=
  exists j r' response', cs !! j = Some (Answered r' response') /\ request_text r = request_text r' /\
    response = replayed (status_code response') (Some (data response')).

Record orderly (p : Pool) : Prop := {
  o_carries : forall i c, p.1 !! i = Some c -> carries (carried c);
  o_unique : unique_rows (R := IdempotencyRecord.t) (db p.2);
  o_one : forall i j, reserving p.1 i -> reserving p.1 j -> i = j;
  o_free : forall i, reserving p.1 i -> known (db p.2) = false;
  o_recorded : forall i r response, p.1 !! i = Some (Answered r response) -> recorded uid r response (db p.2);
  o_known : known (db p.2) = true -> exists i r response, p.1 !! i = Some (Answered r response);
  o_once : forall i j r r' x x', p.1 !! i = Some (Answered r x) -> p.1 !! j = Some (Answered r' x') -> i = j;
  o_replays : forall i r response, p.1 !! i = Some (Ended r (inr response)) -> replays p.1 r response;
}.

Lemma known_spec d : known d = true <-> exists k x, record_of_key d k x.
Proof. unfold known. by rewrite Table.any_true. Qed.

Lemma known_same d d' : same_records d d' -> known d' = known d.
Proof.
  intros Hs. apply eq_true_iff_eq. rewrite !known_spec. by split; intros (k & x & Hx); exists k, x; apply Hs.
Qed.

Lemma recorded_known r response d : carries r -> recorded uid r response d -> known d = true.
Proof. intros [_ Hk] (_ & k & x & Hx & HP & _). rewrite Hk in HP. apply known_spec. by exists k, x. Qed.

Lemma recorded_same r response d d' : carries r ->
  unique_rows (R := IdempotencyRecord.t) d' -> same_records d d' -> recorded uid r response d -> recorded uid r response d'.
Proof.
  intros [_ Hc] Hu Hs (_ & k & x & Hx & HP & Hrest). split; [done|]. exists k, x. rewrite Hc in *.
  assert (Hr : record_of_key d' k x) by by apply Hs. by destruct Hr.
Qed.

(** A request that is neither reserving nor answered changes nothing for the
    others. *)
Definition settled_by (cs : gmap nat request) (c : request) : Prop :=
  match c with
  | Arriving _ | Missing _ | Ended _ (inl _) => True
  | Ended r (inr response) => replays cs r response
  | Reserved _ | Answered _ _ => False
  end.

Lemma reserving_insert cs i c j :
  reserving (<[i := c]> cs) j <-> (j = i /\ exists r, c = Reserved r) \/ (j <> i /\ reserving cs j).
Proof.
  unfold reserving. destruct (decide (j = i)) as [->|Hne].
  - rewrite lookup_insert_eq. split; [intros [r [= ->]]; left; split; [done|by exists r]|].
    intros [[_ [r ->]]|[[] _]]; [|done]. by exists r.
  - rewrite lookup_insert_ne by done. split; [intros H; by right|]. by intros [[? _]|[_ H]].
Qed.

Lemma replays_insert cs i c r response :
  (forall r' response', cs !! i <> Some (Answered r' response')) -> replays cs r response ->
  replays (<[i := c]> cs) r response.
Proof.
  intros Hi (j & r' & response' & Hj & Hrest). exists j, r', response'. split; [|done].
  rewrite lookup_insert_ne; [done|]. intros ->. by apply (Hi r' response').
Qed.

Lemma orderly_settled i c cs w w' :
  orderly (cs, w) -> db w' = db w -> (forall r response, cs !! i <> Some (Answered r response)) ->
  carries (carried c) -> settled_by cs c -> orderly (<[i := c]> cs, w').
Proof.
  intros [Hc Hu Hone Hfree Hrec Hkn Honce Hrep] Hd Hi Hcc Hs. cbn [fst snd] in *. split; cbn [fst snd]; rewrite ?Hd; try done.
  - by intros j x [[<- <-]|[_ Hj]]%lookup_insert_Some; [|apply (Hc j)].
  - intros j1 j2 [[_ [r ->]]|[_ H1]]%reserving_insert [[_ [r' ?]]|[_ H2]]%reserving_insert; try done; [by subst|by apply Hone].
  - intros j [[_ [r ->]]|[_ Hj]]%reserving_insert; [done|by apply (Hfree j)].
  - intros j r x [[_ ->]|[_ Hj]]%lookup_insert_Some; [done|by apply (Hrec j)].
  - intros (j & r & x & Hj)%Hkn. exists j, r, x. rewrite lookup_insert_ne; [done|]. intros ->. by apply (Hi r x).
  - intros j1 j2 r r' x x' [[_ ->]|[_ H1]]%lookup_insert_Some [[_ ?]|[_ H2]]%lookup_insert_Some; try done; [by subst|].
    by apply (Honce j1 j2 r r' x x').
  - intros j r x [[_ ->]|[_ Hj]]%lookup_insert_Some; apply replays_insert; [done|done|done|by apply (Hrep j)].
Qed.

Lemma orderly_reserved i r cs w :
  orderly (cs, w) -> cs !! i = Some (Missing r) -> known (db w) = false -> (forall j, j <> i -> ~ reserving cs j) ->
  orderly (<[i := Reserved r]> cs, w).
Proof.
  intros [Hc Hu Hone Hfree Hrec Hkn Honce Hrep] Hi Hn Hno. cbn [fst snd] in *. split; cbn [fst snd]; try done.
  - by intros j x [[<- <-]|[_ Hj]]%lookup_insert_Some; [apply (Hc i (Missing r))|apply (Hc j)].
  - intros j1 j2 [[-> _]|[N1 H1]]%reserving_insert [[-> _]|[N2 H2]]%reserving_insert; [done|..].
    + by destruct (Hno j2).
    + by destruct (Hno j1).
    + by apply Hone.
  - intros j r' x [[_ [=]]|[_ Hj]]%lookup_insert_Some. by apply (Hrec j).
  - intros Hk. congruence.
  - intros j1 j2 r1 r2 x x' [[_ [=]]|[_ H1]]%lookup_insert_Some [[_ [=]]|[_ H2]]%lookup_insert_Some.
    by apply (Honce j1 j2 r1 r2 x x').
  - intros j r' x [[_ [=]]|[_ Hj]]%lookup_insert_Some. apply replays_insert; [by rewrite Hi|by apply (Hrep j)].
Qed.

(** The view runs when there is no record, and then there is one, or nothing. *)
Lemma look_none r w : known (db w) = false -> look r w = (inr None, w).
Proof.
  intros Hn. unfold look, bind, first_row, first_row_by, read. rewrite (proj2 (Table.first_None pk_order _ _)); [done|].
  by apply Table.any_false.
Qed.

Lemma answer_spec r w :
  carries r -> unique_rows (R := IdempotencyRecord.t) (db w) -> known (db w) = false ->
  wp (atomic (answer r)) (fun response w' => recorded uid r response (db w')) (fun _ w' => db w' = db w) w.
Proof.
  intros Hr Hu Hn. assert (Hrun : idempotent ttl serializable view r w = atomic (answer r) w).
  { rewrite idempotent_parts by done. unfold atomic. unfold bind. by rewrite look_none. }
  unfold wp. rewrite <- Hrun. destruct Hr as [Huser Hkey].
  apply (idempotent_first ttl serializable view r uid w); rewrite ?Hkey; try done.
  by apply Table.any_false.
Qed.

Lemma nobody_answered i r cs w :
  orderly (cs, w) -> cs !! i = Some (Reserved r) -> forall j r' x, cs !! j <> Some (Answered r' x).
Proof.
  intros Ho Hi j r' x Hj. assert (Hres : reserving cs i) by by exists r.
  pose proof (o_free _ Ho i Hres) as Hf. pose proof (o_carries _ Ho j _ Hj) as Hc.
  pose proof (recorded_known r' x _ Hc (o_recorded _ Ho j r' x Hj)) as Hk. cbn [snd] in *. congruence.
Qed.

Lemma orderly_answered i r response cs w w' :
  orderly (cs, w) -> cs !! i = Some (Reserved r) -> recorded uid r response (db w') ->
  orderly (<[i := Answered r response]> cs, w').
Proof.
  intros Ho Hi Hrec'. pose proof (nobody_answered i r cs w Ho Hi) as Hno.
  destruct Ho as [Hc Hu Hone Hfree Hrec Hkn Honce Hrep]. cbn [fst snd] in *. split; cbn [fst snd].
  - by intros j x [[<- <-]|[_ Hj]]%lookup_insert_Some; [apply (Hc i (Reserved r))|apply (Hc j)].
  - apply Hrec'.
  - intros j1 j2 [[_ [? [=]]]|[_ H1]]%reserving_insert [[_ [? [=]]]|[_ H2]]%reserving_insert. by apply Hone.
  - intros j [[_ [? [=]]]|[Hne Hj]]%reserving_insert. exfalso. apply Hne, Hone; [done|by exists r].
  - intros j r' x [[_ [= <- <-]]|[_ Hj]]%lookup_insert_Some; [done|by apply Hno in Hj].
  - intros _. exists i, r, response. by rewrite lookup_insert_eq.
  - intros j1 j2 r1 r2 x1 x2 [[<- _]|[_ H1]]%lookup_insert_Some [[<- _]|[_ H2]]%lookup_insert_Some; try done;
      [by apply Hno in H2|by apply Hno in H1|by apply Hno in H1].
  - intros j r' x [[_ [=]]|[_ Hj]]%lookup_insert_Some. destruct (Hrep j r' x Hj) as (j' & r2 & x2 & Hj' & _).
    by apply Hno in Hj'.
Qed.

(** What a record says is what was answered. *)
Lemma replay_of_record cs w r k x status :
  orderly (cs, w) -> carries r -> record_of_key (db w) k x ->
  IdempotencyRecord.request_hash x = idem_request_hash r -> IdempotencyRecord.response_status x = Some status ->
  replays cs r (replayed status (IdempotencyRecord.response_body x)).
Proof.
  intros Ho Hr Hx Hh Hs. assert (Hk : known (db w) = true) by (apply known_spec; by exists k, x).
  destruct (o_known _ Ho Hk) as (j & r' & x' & Hj). exists j, r', x'. split; [done|].
  destruct (o_carries _ Ho j _ Hj) as [_ Hkey'].
  destruct (o_recorded _ Ho j r' x' Hj) as (Hu & k2 & x2 & Hx2 & HP2 & Hh2 & Hs2 & Hb2). cbn [carried snd] in *.
  rewrite Hkey' in HP2. destruct Hx as [Hx HP].
  assert (k2 = k) as -> by by apply (idem_record_unique uid key (db w) k2 k x2 x).
  rewrite Hx in Hx2. injection Hx2 as <-. rewrite Hs in Hs2. injection Hs2 as ->. rewrite Hb2.
  split; [|done]. apply sha256_inj. unfold idem_request_hash in *. fold (request_text r) in Hh.
  fold (request_text r') in Hh2. congruence.
Qed.

Lemma acts_orderly i c c' cs w w' :
  orderly (cs, w) -> cs !! i = Some c -> advance c w = (c', w') ->
  (forall r j, c' = Reserved r -> j <> i -> ~ reserving cs j) -> orderly (<[i := c']> cs, w').
Proof.
  intros Ho Hi Hrun Hfree. pose proof (o_carries _ Ho i c Hi) as Hc.
  destruct c as [r|r|r|r x|r x]; cbn [advance carried] in *.
  - pose proof (inside_reads (look r) w (look_reads r)) as Hd. pose proof (look_spec r (w <| depth ::= S |>)) as Hl.
    unfold wp in Hl. unfold inside in *. destruct (look r (w <| depth ::= S |>)) as [[e|[response|]] w1];
      cbn [fst snd] in Hd; injection Hrun as <- <-; (apply (orderly_settled i _ cs w); [done|done|by rewrite Hi|done|]); [done| |done].
    destruct Hl as (k & x & status & Hx & Hh & Hs & ->). cbn [settled_by]. by eapply replay_of_record.
  - destruct (known (db w)) eqn:Hk; injection Hrun as <- <-.
    + apply (orderly_settled i _ cs w); [done|done|by rewrite Hi|done|done].
    + apply orderly_reserved; [done|done|done|]. intros j. by apply (Hfree r).
  - assert (Hres : reserving cs i) by by exists r.
    pose proof (answer_spec r w Hc (o_unique _ Ho) (o_free _ Ho i Hres)) as Hwp. unfold wp in Hwp.
    destruct (atomic (answer r) w) as [[e|response] w1]; injection Hrun as <- <-.
    + apply (orderly_settled i _ cs w); [done|done|by rewrite Hi|done|done].
    + by apply (orderly_answered i r response cs w).
  - injection Hrun as <- <-. by rewrite insert_id.
  - injection Hrun as <- <-. by rewrite insert_id.
Qed.

Lemma pool_step_orderly p p' : orderly p -> pool_step p p' -> orderly p'.
Proof.
  intros Ho Hstep. destruct Hstep as [i c c' cs w w' Hi Hrun Hfree|i c e cs w Hi Hc|i r cs w Hi Hr|cs w w' Hu Hs].
  - by apply (acts_orderly i c c' cs w w').
  - apply (orderly_settled i _ cs w); [done|done| |by apply (o_carries _ Ho i c)|done].
    intros r x Hx. rewrite Hi in Hx. injection Hx as ->. done.
  - by apply (orderly_settled i _ cs w); [| |rewrite Hi| |].
  - destruct Ho as [Hc Hu0 Hone Hfree Hrec Hkn Honce Hrep]. cbn [fst snd] in *.
    split; cbn [fst snd]; rewrite ?(known_same _ _ Hs); auto 2.
    intros i r x Hi. by apply (recorded_same r x (db w)); [apply (Hc i _ Hi)|apply Hu| |apply (Hrec i)].
Qed.

Lemma starting_orderly cs w :
  unique_rows (R := IdempotencyRecord.t) (db w) -> known (db w) = false ->
  (forall i c, cs !! i = Some c -> exists r, c = Arriving r /\ carries r) -> orderly (cs, w).
Proof.
  intros Hu Hn Hstart. split; cbn [fst snd]; try done.
  - intros i c (r & -> & Hr)%Hstart. exact Hr.
  - by intros i j [r (? & ? & _)%Hstart].
  - by intros i r x (? & ? & _)%Hstart.
  - congruence.
  - by intros i j r r' x x' (? & ? & _)%Hstart.
  - by intros i r x (? & ? & _)%Hstart.
Qed.

(** Nobody waits for ever: while a request has not ended, one can go on. *)
Lemma never_waiting cs w i c :
  orderly (cs, w) -> cs !! i = Some c -> result c = None ->
  exists j c1, cs !! j = Some c1 /\ result c1 = None /\
    pool_step (cs, w) (<[j := (advance c1 w).1]> cs, (advance c1 w).2).
Proof.
  intros Ho Hi Hc.
  set (held := filter (fun x => match x.2 with Reserved _ => true | _ => false end = true) cs).
  destruct (decide (held = ∅)) as [He|[j [c1 Hj]]%map_choose].
  - exists i, c. split; [done|]. split; [done|]. eapply acts; [done|apply surjective_pairing|].
    intros r j _ _ [r' Hj]. by apply (map_filter_empty_not_lookup _ _ j (Reserved r') He).
  - apply map_lookup_filter_Some in Hj as [Hj Hr]. cbn in Hr. destruct c1 as [| |r| |]; try done.
    exists j, (Reserved r). split; [done|]. split; [done|]. eapply acts; [done|apply surjective_pairing|].
    cbn [advance]. by destruct (atomic (answer r) w) as [[e|response] w1].
Qed.

(** What does not answer changes nothing. *)
Lemma unanswered_keeps c w :
  (forall r response, (advance c w).1 <> Answered r response) ->
  db (advance c w).2 = db w /\ hooks (advance c w).2 = hooks w.
Proof.
  destruct c as [r|r|r|r x|r x]; cbn [advance]; intros Hn.
  - destruct (look_reads r (w <| depth ::= S |>)) as (Hd & Hh & _). unfold inside.
    by destruct (look r (w <| depth ::= S |>)) as [[e|[response|]] w1].
  - by destruct (known (db w)).
  - unfold atomic in *. destruct (answer r (w <| depth ::= S |>)) as [[e|response] w1]; cbn in *; [done|].
    by destruct (Hn r response).
  - done.
  - done.
Qed.

Lemma pool_orderly cs w p :
  unique_rows (R := IdempotencyRecord.t) (db w) -> known (db w) = false ->
  (forall i c, cs !! i = Some c -> exists r, c = Arriving r /\ carries r) -> rtc pool_step (cs, w) p -> orderly p.
Proof.
  intros Hu Hn Hstart Hsteps.
  refine (rtc_ind_r (fun p => orderly p) (cs, w) _ _ p Hsteps); [by apply starting_orderly|].
  intros p1 p2 _ Hs Ho. by apply (pool_step_orderly p1).
Qed.

(** [C13] However the requests that carry one new key interleave, statement by
    statement, the view answers one of them at most: a request that ends with a
    response and was not answered by the view has got the stored answer of the
    one that was, and asked for the same; a part that does not end with the
    view's answer leaves the database and the work held for the commit as they
    were; and while a request has not ended one of them can go on, so that none
    waits for ever. *)
Theorem replay_race cs w p :
  unique_rows (R := IdempotencyRecord.t) (db w) -> known (db w) = false ->
  (forall i c, cs !! i = Some c -> exists r, c = Arriving r /\ carries r) -> rtc pool_step (cs, w) p ->
  (forall i j r r' x x', p.1 !! i = Some (Answered r x) -> p.1 !! j = Some (Answered r' x') -> i = j) /\
  (forall i r response, p.1 !! i = Some (Ended r (inr response)) -> replays p.1 r response) /\
  (forall i c, p.1 !! i = Some c -> (forall r x, (advance c p.2).1 <> Answered r x) ->
     db (advance c p.2).2 = db p.2 /\ hooks (advance c p.2).2 = hooks p.2) /\
  (forall i c, p.1 !! i = Some c -> result c = None ->
     exists j c1 p', p.1 !! j = Some c1 /\ result c1 = None /\ pool_step p p' /\
       p'.1 = <[j := (advance c1 p.2).1]> p.1).
Proof.
  intros Hu Hn Hstart Hsteps. pose proof (pool_orderly cs w p Hu Hn Hstart Hsteps) as Ho.
  split; [|split; [|split]].
  - apply (o_once _ Ho).
  - apply (o_replays _ Ho).
  - intros i c _. apply unanswered_keeps.
  - intros i c Hi Hc. destruct p as [cs' w']. destruct (never_waiting cs' w' i c Ho Hi Hc) as (j & c1 & Hj & Hr & Hs).
    by eexists j, c1, _.
Qed.

(** ** Schedules, computed *)

Definition turn (p : Pool) (i : nat) : Pool :=
  match p.1 !! i with Some c => (<[i := (advance c p.2).1]> p.1, (advance c p.2).2) | None => p end.

Definition may_turn (p : Pool) (i : nat) : bool :=
  match p.1 !! i with
  | Some c =>
      match (advance c p.2).1 with
      | Reserved _ => forallb (fun x => Nat.eqb x.1 i || match x.2 with Reserved _ => false | _ => true end)
                        (map_to_list p.1)
      | _ => true
      end
  | None => false
  end.

Lemma turn_steps p i : may_turn p i = true -> pool_step p (turn p i).
Proof.
  destruct p as [cs w]. unfold may_turn, turn. cbn [fst snd]. intros Ht.
  destruct (cs !! i) as [c|] eqn:Hi; [|done]. eapply acts; [done|apply surjective_pairing|].
  intros r j Hr Hne [r' Hj]. rewrite Hr, forallb_forall in Ht. specialize (Ht (j, Reserved r')). cbn [fst snd] in Ht.
  rewrite (proj2 (Nat.eqb_neq _ _) Hne) in Ht. enough (false = true) by done. apply Ht.
  apply list_elem_of_In. by apply elem_of_map_to_list.
Qed.

End replays.

(** ** The endpoint behind the decorator *)

Lemma create_api_key_keeps `{E : Env} uid r name scopes expires_at :
  evolves (keeps idempotency_records) (create_api_key uid r name scopes expires_at).
Proof.
  unfold create_api_key, validated, also, present, plain, field_of, validate_scopes, validate_expires_at, create_key,
    key_data, key_is_active. destruct (negb _); evolve; reflexivity.
Qed.

(** ** Witness: three requests for an API key, with one Idempotency-Key *)

Section witnesses.

#[local] Instance demo : Env := demo_env.

Definition key_request : HttpRequest :=
  MkHttp sample_request "POST" "/api/v1/api-keys/" "name=CLI&scopes=" None true None (Some (inr 1%N)) "key" (fun _ => None).
Definition key_view (_ : IdemRequest) : M Response := create_api_key 1 key_request (inr "CLI") (Some (inr [])) None.
Definition idem : IdemRequest := MkIdem "key" (Some 1%N) "POST" "/api/v1/api-keys/" "name=CLI&scopes=".

Definition three_requests : gmap nat request :=
  {[ 0%nat := Arriving idem; 1%nat := Arriving idem; 2%nat := Arriving idem ]}.

Lemma three_requests_same i c : three_requests !! i = Some c -> c = Arriving idem.
Proof.
  unfold three_requests.
  by intros [[_ <-]|[_ [[_ <-]|[_ [_ <-]%lookup_singleton_Some]]%lookup_insert_Some]]%lookup_insert_Some.
Qed.

(** The first two both find no record; the first one inserts it and is answered,
    the second one is refused, and the third one gets the stored answer. *)
Definition raced : Pool :=
  foldl (turn (hours 24) (fun _ => true) key_view 1 "key") (three_requests, sample_world) [0; 1; 0; 0; 1; 2]%nat.

Lemma pool_raced_steps :
  rtc (pool_step (hours 24) (fun _ => true) key_view 1 "key") (three_requests, sample_world) raced.
Proof.
  unfold raced. cbn [foldl].
  repeat (eapply rtc_r; [|apply turn_steps; vm_compute; reflexivity]). apply rtc_refl.
Qed.

(** How the requests have ended, and how many keys there are. *)
Definition third_answer : option Response :=
  match raced.1 !! 2%nat with Some (Ended _ (inr response)) => Some response | _ => None end.

Lemma pool_raced_ended :
  raced.1 !! 1%nat = Some (Ended idem (inl in_progress)) /\ (status_code <$> third_answer) = Some 201 /\
  size (api_keys (db raced.2)) = 1%nat.
Proof. split_and!; vm_compute; reflexivity. Qed.

Lemma replay_race_witness :
  exists response, third_answer = Some response /\ status_code response = 201 /\ replays raced.1 idem response /\
    size (api_keys (db raced.2)) = 1%nat.
Proof.
  destruct pool_raced_ended as (_ & Hst & Hsize).
  destruct (raced.1 !! 2%nat) as [[| | | |r [e|response]]|] eqn:H2; unfold third_answer in Hst; rewrite H2 in Hst; try discriminate Hst.
  assert (Hr : r = idem).
  { assert (Hi : (carried <$> raced.1 !! 2%nat) = Some idem) by (vm_compute; reflexivity). rewrite H2 in Hi. by injection Hi. }
  exists response. split; [unfold third_answer; by rewrite H2|]. injection Hst as Hst. split; [exact Hst|]. split; [|exact Hsize].
  refine (proj1 (proj2 (replay_race (hours 24) (fun _ => true) key_view 1 "key" eq_refl ltac:(cbn; lia) _
    three_requests sample_world raced unique_table_empty _ _ pool_raced_steps)) 2%nat idem response _).
  - intros q. apply create_api_key_keeps.
  - vm_compute. reflexivity.
  - intros i c Hi%three_requests_same. exists idem. by split; [|split].
  - by rewrite H2, Hr.
Defined.

End witnesses.
