(* ===== verification/AdminViews.v ===== *)
(** * Authorization, settings and journal endpoints

    [apps/api/views/authorization.py] and [core.py] with their serializers.  The
    fields of a request are what REST framework parsed, uniqueness included. *)

From S2P Require Import Prelude Env Models Orm Logic Common Users Authorization Services Responses Api Resources.

Section admin_views.
Context `{E : Env}.

(** ** Roles and permissions *)

Definition object_repr (model : string) (k : uuid) : string := model +:+ " object (" +:+ uuid_str k +:+ ")".

Definition role_audit : Audited Role.t :=
  MkAudited "role" (fun k r => AuditService.MkTarget "authorization.role" k (Role.name r))
    (fun t r => r <| Role.updated_at := t |>).
Definition permission_audit : Audited Permission.t :=
  MkAudited "permission" (fun k p => AuditService.MkTarget "authorization.permission" k (Permission.codename p))
    (fun t p => p <| Permission.updated_at := t |>).
Definition role_permission_audit : Audited RolePermission.t :=
  MkAudited "role_permission"
    (fun k _ => AuditService.MkTarget "authorization.rolepermission" k (object_repr "RolePermission" k))
    (fun _ l => l).
Definition user_role_audit : Audited UserRole.t :=
  MkAudited "user_role"
    (fun k _ => AuditService.MkTarget "authorization.userrole" k (object_repr "UserRole" k)) (fun _ a => a).
Definition override_audit : Audited UserPermissionOverride.t :=
  MkAudited "user_permission_override"
    (fun k _ => AuditService.MkTarget "authorization.userpermissionoverride" k
                  (object_repr "UserPermissionOverride" k))
    (fun t o => o <| UserPermissionOverride.updated_at := t |>).

(** The views of [AuthorizationViewSet]. *)
Section view_set.
Context {R : Type} `{Model R}.
Variables (view model : string) (A : Audited R) (render : DB -> uuid * R -> pyval).

Definition rbac_list (q : ListQuery R) : View :=
  admin_view view "roles.manage" (fun _ _ =>
    let! d := read db in list_rows every (render d) q).

Definition rbac_retrieve (k : uuid) : View :=
  admin_view view "roles.manage" (fun _ _ =>
    let! x := get_object model (with_key (R := R) k) in
    let! d := read db in
    ret (bare (render d x) 200)).

Definition rbac_create (data : form (list (write R))) (new : uuid -> M R) : View :=
  admin_view view "roles.manage" (fun r actor =>
    let! l := validated data in
    let! x := perform_create A l (new actor) actor r in
    let! d := read db in
    ret (bare (render d x) 201)).

Definition rbac_update (k : uuid) (data : form (list (write R))) : View :=
  admin_view view "roles.manage" (fun r actor =>
    let! x := get_object model (with_key (R := R) k) in
    let! l := validated data in
    let! x := perform_update A l x actor r in
    let! d := read db in
    ret (bare (render d x) 200)).

Definition rbac_destroy (is_system : R -> bool) (delete : uuid -> M unit) (k : uuid) : View :=
  admin_view view "roles.manage" (fun r actor =>
    let! x := get_object model (with_key (R := R) k) in
    perform_destroy A is_system delete x actor r ;;
    ret (bare PNone 204)).

End view_set.

(** [PermissionSerializer] *)
Definition permission_data (_ : DB) (x : uuid * Permission.t) : pyval :=
  let '(k, p) := x in
  PDict [("id", ident k); ("codename", PStr (Permission.codename p));
         ("description", PStr (Permission.description p)); ("is_system", PBool (Permission.is_system p));
         ("created_at", time (Permission.created_at p)); ("updated_at", time (Permission.updated_at p))].

Definition permission_form (codename description : option (field string)) : form (list (write Permission.t)) :=
  collect
    (field_write "codename" codename ret text Permission.codename
       (fun v p => p <| Permission.codename := v |>)
     ++ field_write "description" description ret text Permission.description
       (fun v p => p <| Permission.description := v |>)).

Definition new_permission (_ : uuid) : M Permission.t :=
  let! c := now in let! t := now in ret (Permission.mk "" "" false c t).

(** [RoleSerializer] *)
Definition role_data (d : DB) (x : uuid * Role.t) : pyval :=
  let '(k, r) := x in
  PDict [("id", ident k); ("name", PStr (Role.name r)); ("slug", PStr (Role.slug r));
         ("description", PStr (Role.description r)); ("priority", PInt (Role.priority r));
         ("is_system", PBool (Role.is_system r)); ("permissions", PList (PStr <$> role_codenames d k));
         ("created_at", time (Role.created_at r)); ("updated_at", time (Role.updated_at r))].

Definition role_form (name slug description : option (field string)) (priority : option (field Z))
    : form (list (write Role.t)) :=
  collect
    (field_write "name" name ret text Role.name (fun v r => r <| Role.name := v |>)
     ++ field_write "slug" slug ret text Role.slug (fun v r => r <| Role.slug := v |>)
     ++ field_write "description" description ret text Role.description
          (fun v r => r <| Role.description := v |>)
     ++ field_write "priority" priority ret number Role.priority (fun v r => r <| Role.priority := v |>)).

Definition new_role (_ : uuid) : M Role.t :=
  let! c := now in let! t := now in ret (Role.mk "" "" "" 0 false c t).

(** [RolePermissionSerializer] *)
Definition role_permission_data (_ : DB) (x : uuid * RolePermission.t) : pyval :=
  let '(k, l) := x in
  PDict [("id", ident k); ("role", ident (RolePermission.role l));
         ("permission", ident (RolePermission.permission l)); ("created_at", time (RolePermission.created_at l))].

Definition role_permission_form (role permission : option (field uuid)) : form (list (write RolePermission.t)) :=
  collect
    (field_write "role" role ret role_object RolePermission.role
       (fun v l => l <| RolePermission.role := v |>)
     ++ field_write "permission" permission ret permission_object RolePermission.permission
       (fun v l => l <| RolePermission.permission := v |>)).

Definition new_role_permission (_ : uuid) : M RolePermission.t :=
  let! c := now in ret (RolePermission.mk 0 0 c).

(** [UserRoleSerializer]; [granted_by] is the requester. *)
Definition user_role_data (_ : DB) (x : uuid * UserRole.t) : pyval :=
  let '(k, a) := x in
  PDict [("id", ident k); ("user", ident (UserRole.user a)); ("role", ident (UserRole.role a));
         ("granted_by", optional ident (UserRole.granted_by a)); ("valid_from", time (UserRole.valid_from a));
         ("valid_until", optional time (UserRole.valid_until a)); ("created_at", time (UserRole.created_at a))].

Definition user_role_form (user role : option (field uuid)) (valid_from : option (field Z))
    (valid_until : option (field (option Z))) : form (list (write UserRole.t)) :=
  collect
    (field_write "user" user ret user_object UserRole.user (fun v a => a <| UserRole.user := v |>)
     ++ field_write "role" role ret role_object UserRole.role (fun v a => a <| UserRole.role := v |>)
     ++ field_write "valid_from" valid_from ret moment UserRole.valid_from
          (fun v a => a <| UserRole.valid_from := v |>)
     ++ field_write "valid_until" valid_until ret moment_or_none UserRole.valid_until
          (fun v a => a <| UserRole.valid_until := v |>)).

Definition new_user_role (actor : uuid) : M UserRole.t :=
  let! f := now in let! c := now in ret (UserRole.mk 0 0 (Some actor) f None c).

(** [UserPermissionOverrideSerializer] *)
Definition override_data (_ : DB) (x : uuid * UserPermissionOverride.t) : pyval :=
  let '(k, o) := x in
  PDict [("id", ident k); ("user", ident (UserPermissionOverride.user o));
         ("permission", ident (UserPermissionOverride.permission o));
         ("effect", PStr (OverrideEffect.value (UserPermissionOverride.effect o)));
         ("reason", PStr (UserPermissionOverride.reason o));
         ("granted_by", optional ident (UserPermissionOverride.granted_by o));
         ("created_at", time (UserPermissionOverride.created_at o));
         ("updated_at", time (UserPermissionOverride.updated_at o))].

Definition effect_value (_ : DB) (e : OverrideEffect.t) : pyval := PStr (OverrideEffect.value e).

Definition override_form (user permission : option (field uuid)) (effect : option (field OverrideEffect.t))
    (reason : option (field string)) : form (list (write UserPermissionOverride.t)) :=
  collect
    (field_write "user" user ret user_object UserPermissionOverride.user
       (fun v o => o <| UserPermissionOverride.user := v |>)
     ++ field_write "permission" permission ret permission_object UserPermissionOverride.permission
          (fun v o => o <| UserPermissionOverride.permission := v |>)
     ++ field_write "effect" effect ret effect_value UserPermissionOverride.effect
          (fun v o => o <| UserPermissionOverride.effect := v |>)
     ++ field_write "reason" reason ret text UserPermissionOverride.reason
          (fun v o => o <| UserPermissionOverride.reason := v |>)).

Definition new_override (actor : uuid) : M UserPermissionOverride.t :=
  let! c := now in let! t := now in
  ret (UserPermissionOverride.mk 0 0 OverrideEffect.ALLOW "" (Some actor) c t).

(** Creation and deletion in the five view sets. *)
Definition RoleCreate name slug description priority : View :=
  rbac_create "RoleViewSet" role_audit role_data (role_form name slug description priority) new_role.
Definition RoleUpdate k name slug description priority : View :=
  rbac_update "RoleViewSet" "Role" role_audit role_data k (role_form name slug description priority).
Definition RoleDestroy (k : uuid) : View :=
  rbac_destroy "RoleViewSet" "Role" role_audit Role.is_system delete_role k.

Definition PermissionCreate codename description : View :=
  rbac_create "PermissionViewSet" permission_audit permission_data (permission_form codename description)
    new_permission.
Definition PermissionUpdate k codename description : View :=
  rbac_update "PermissionViewSet" "Permission" permission_audit permission_data k
    (permission_form codename description).
Definition PermissionDestroy (k : uuid) : View :=
  rbac_destroy "PermissionViewSet" "Permission" permission_audit Permission.is_system delete_permission k.

Definition RolePermissionCreate role permission : View :=
  rbac_create "RolePermissionViewSet" role_permission_audit role_permission_data
    (role_permission_form role permission) new_role_permission.
Definition RolePermissionUpdate k role permission : View :=
  rbac_update "RolePermissionViewSet" "RolePermission" role_permission_audit role_permission_data k
    (role_permission_form role permission).
Definition RolePermissionDestroy (k : uuid) : View :=
  rbac_destroy "RolePermissionViewSet" "RolePermission" role_permission_audit (fun _ => false)
    (delete_row (R := RolePermission.t)) k.

Definition UserRoleCreate user role valid_from valid_until : View :=
  rbac_create "UserRoleViewSet" user_role_audit user_role_data
    (user_role_form user role valid_from valid_until) new_user_role.
Definition UserRoleUpdate k user role valid_from valid_until : View :=
  rbac_update "UserRoleViewSet" "UserRole" user_role_audit user_role_data k
    (user_role_form user role valid_from valid_until).
Definition UserRoleDestroy (k : uuid) : View :=
  rbac_destroy "UserRoleViewSet" "UserRole" user_role_audit (fun _ => false) (delete_row (R := UserRole.t)) k.

Definition OverrideCreate user permission effect reason : View :=
  rbac_create "UserPermissionOverrideViewSet" override_audit override_data
    (override_form user permission effect reason) new_override.
Definition OverrideUpdate k user permission effect reason : View :=
  rbac_update "UserPermissionOverrideViewSet" "UserPermissionOverride" override_audit override_data k
    (override_form user permission effect reason).
Definition OverrideDestroy (k : uuid) : View :=
  rbac_destroy "UserPermissionOverrideViewSet" "UserPermissionOverride" override_audit (fun _ => false)
    (delete_row (R := UserPermissionOverride.t)) k.

(** ** Settings, feature flags and the audit journal *)

(** [required_permission] by action. *)
Definition setting_permission (action : string) : string :=
  if bool_decide (action ∈ ["list"; "retrieve"]) then "settings.view" else "settings.update".
Definition flag_permission (action : string) : string :=
  if bool_decide (action ∈ ["list"; "retrieve"]) then "feature_flags.view" else "feature_flags.update".

Definition setting_row_data (x : uuid * Setting.t) : pyval :=
  let '(k, s) := x in
  PDict [("id", ident k); ("key", PStr (Setting.key s)); ("value", Setting.value s);
         ("value_type", PStr (SettingValueType.value (Setting.value_type s)));
         ("group", PStr (Setting.group s)); ("is_public", PBool (Setting.is_public s));
         ("description", PStr (Setting.description s)); ("created_at", time (Setting.created_at s));
         ("updated_at", time (Setting.updated_at s))].

Definition setting_audit : Audited Setting.t :=
  MkAudited "setting" setting_target (fun t s => s <| Setting.updated_at := t |>).

Definition setting_form (key : option (field string)) (value : option (field pyval))
    (value_type : option (field SettingValueType.t)) (group : option (field string))
    (is_public : option (field bool)) (description : option (field string)) : form (list (write Setting.t)) :=
  collect
    (field_write "key" key ret text Setting.key (fun v s => s <| Setting.key := v |>)
     ++ field_write "value" value ret (fun _ v => v) Setting.value (fun v s => s <| Setting.value := v |>)
     ++ field_write "value_type" value_type ret (fun _ t => PStr (SettingValueType.value t)) Setting.value_type
          (fun v s => s <| Setting.value_type := v |>)
     ++ field_write "group" group ret text Setting.group (fun v s => s <| Setting.group := v |>)
     ++ field_write "is_public" is_public ret truth Setting.is_public (fun v s => s <| Setting.is_public := v |>)
     ++ field_write "description" description ret text Setting.description
          (fun v s => s <| Setting.description := v |>)).

(** [SettingSerializer.validate] writes the values on the instance before it
    checks them; a failed check becomes the error of the field it names. *)
Definition validate_setting (l : list (write Setting.t)) (instance : Setting.t) : M Setting.t :=
  let instance := apply_writes l instance in
  try_except (clean_setting instance)
    (fun e => match e with
              | ValidationError message code => raise (InvalidFields [(code, [message])])
              | _ => raise e
              end) ;;
  ret instance.

Definition blank_setting (c t : Z) : Setting.t :=
  Setting.mk "" PNone SettingValueType.STRING "general" false "" c t.

Definition SettingList (q : ListQuery Setting.t) : View :=
  admin_view "SettingViewSet" (setting_permission "list") (fun _ _ => list_rows every setting_row_data q).

Definition SettingRetrieve (k : uuid) : View :=
  admin_view "SettingViewSet" (setting_permission "retrieve") (fun _ _ =>
    let! x := get_object "Setting" (with_key (R := Setting.t) k) in
    ret (bare (setting_row_data x) 200)).

(** [serializer.save()] comes before [row.full_clean()]. *)
Definition SettingCreate key value value_type group is_public description : View :=
  admin_view "SettingViewSet" (setting_permission "create") (fun r actor =>
    let! l := validated (setting_form key value value_type group is_public description) in
    validate_setting l (blank_setting 0 0) ;;
    let! c := now in let! t := now in
    let! '(k, row) := create (apply_writes l (blank_setting c t)) in
    clean_setting row ;;
    let! d := read db in
    AuditService.record
      ((AuditService.on "setting.created" (setting_target k row) (Some actor) (Some (http r)))
        <| AuditService.after := validated_data d l |>) ;;
    ret (bare (setting_row_data (k, row)) 201)).

Definition SettingUpdate k key value value_type group is_public description : View :=
  admin_view "SettingViewSet" (setting_permission "update") (fun r actor =>
    let! '(k, stored) := get_object "Setting" (with_key (R := Setting.t) k) in
    let! l := validated (setting_form key value value_type group is_public description) in
    let! instance := validate_setting l stored in
    let! d := read db in
    let before := current_data d l instance in
    let! t := now in
    let f s := (apply_writes l s) <| Setting.updated_at := t |> in
    save_fields k f ;;
    clean_setting (f instance) ;;
    AuditService.record
      ((AuditService.on "setting.updated" (setting_target k (f instance)) (Some actor) (Some (http r)))
        <| AuditService.before := before |> <| AuditService.after := validated_data d l |>) ;;
    ret (bare (setting_row_data (k, f instance)) 200)).

(** The inherited [destroy]. *)
Definition SettingDestroy (k : uuid) : View :=
  admin_view "SettingViewSet" (setting_permission "destroy") (fun _ _ =>
    let! '(k, _) := get_object "Setting" (with_key (R := Setting.t) k) in
    delete_row (R := Setting.t) k ;;
    ret (bare PNone 204)).

Definition flag_row_data (x : uuid * FeatureFlag.t) : pyval :=
  let '(k, f) := x in
  PDict [("id", ident k); ("key", PStr (FeatureFlag.key f)); ("enabled", PBool (FeatureFlag.enabled f));
         ("description", PStr (FeatureFlag.description f)); ("created_at", time (FeatureFlag.created_at f));
         ("updated_at", time (FeatureFlag.updated_at f))].

Definition flag_audit : Audited FeatureFlag.t :=
  MkAudited "feature_flag" (fun k f => AuditService.MkTarget "core.featureflag" k (FeatureFlag.key f))
    (fun t f => f <| FeatureFlag.updated_at := t |>).

Definition flag_form (key : option (field string)) (enabled : option (field bool))
    (description : option (field string)) : form (list (write FeatureFlag.t)) :=
  collect
    (field_write "key" key ret text FeatureFlag.key (fun v f => f <| FeatureFlag.key := v |>)
     ++ field_write "enabled" enabled ret truth FeatureFlag.enabled (fun v f => f <| FeatureFlag.enabled := v |>)
     ++ field_write "description" description ret text FeatureFlag.description
          (fun v f => f <| FeatureFlag.description := v |>)).

Definition FeatureFlagList (q : ListQuery FeatureFlag.t) : View :=
  admin_view "FeatureFlagViewSet" (flag_permission "list") (fun _ _ => list_rows every flag_row_data q).

Definition FeatureFlagRetrieve (k : uuid) : View :=
  admin_view "FeatureFlagViewSet" (flag_permission "retrieve") (fun _ _ =>
    let! x := get_object "FeatureFlag" (with_key (R := FeatureFlag.t) k) in
    ret (bare (flag_row_data x) 200)).

Definition FeatureFlagCreate key enabled description : View :=
  admin_view "FeatureFlagViewSet" (flag_permission "create") (fun r actor =>
    let! l := validated (flag_form key enabled description) in
    let! x := perform_create flag_audit l
      (let! c := now in let! t := now in ret (FeatureFlag.mk "" false "" c t)) actor r in
    ret (bare (flag_row_data x) 201)).

Definition FeatureFlagUpdate k key enabled description : View :=
  admin_view "FeatureFlagViewSet" (flag_permission "update") (fun r actor =>
    let! x := get_object "FeatureFlag" (with_key (R := FeatureFlag.t) k) in
    let! l := validated (flag_form key enabled description) in
    let! x := perform_update flag_audit l x actor r in
    ret (bare (flag_row_data x) 200)).

Definition FeatureFlagDestroy (k : uuid) : View :=
  admin_view "FeatureFlagViewSet" (flag_permission "destroy") (fun _ _ =>
    let! '(k, _) := get_object "FeatureFlag" (with_key (R := FeatureFlag.t) k) in
    delete_row (R := FeatureFlag.t) k ;;
    ret (bare PNone 204)).

(** [AuditLogSerializer]: the actor appears by name. *)
Definition audit_data (d : DB) (x : uuid * AuditLog.t) : pyval :=
  let '(k, l) := x in
  PDict [("id", ident k);
         ("actor", optional (fun u => PStr (User.email u)) (AuditLog.actor l ≫= fun a => users d !! a));
         ("action", PStr (AuditLog.action l)); ("target_type", PStr (AuditLog.target_type l));
         ("target_id", PStr (AuditLog.target_id l)); ("target_repr", PStr (AuditLog.target_repr l));
         ("before", AuditLog.before l); ("after", AuditLog.after l); ("metadata", AuditLog.metadata l);
         ("request_id", PStr (AuditLog.request_id l)); ("ip_address", optional PStr (AuditLog.ip_address l));
         ("user_agent", PStr (AuditLog.user_agent l)); ("created_at", time (AuditLog.created_at l))].

Definition AuditLogList (q : ListQuery AuditLog.t) : View :=
  admin_view "AuditLogViewSet" "audit.view" (fun _ _ =>
    let! d := read db in list_rows every (audit_data d) q).

Definition AuditLogRetrieve (k : uuid) : View :=
  admin_view "AuditLogViewSet" "audit.view" (fun _ _ =>
    let! x := get_object "AuditLog" (with_key (R := AuditLog.t) k) in
    let! d := read db in
    ret (bare (audit_data d x) 200)).

End admin_views.
