(* ===== verification/Urls.v ===== *)
(** * Routes ([config/urls.py] and [apps/api/urls.py])

    Which view answers a path and a method, with the fields its serializer reads
    from the request.  The routers, URL patterns and [as_view] of the frameworks
    have their documented meaning; what their parsers, query parameters and the
    fields generated from models make of a request is the parameter
    [RequestData].  The format suffixes of the router ([users.json]) are left
    out. *)

From S2P Require Import Prelude Env Models Orm Logic Common Users Sessions Authentication Authorization ApiKeys Responses Services Api AuthViews Resources AccountViews AdminViews.

(** ** Request data *)

(** The types of the fields that model serializers generate. *)
Inductive kind := KText | KTexts | KBool | KInt | KJson | KKey | KTime | KTimeOrNone | KStatus | KEffect | KValueType.

Definition value_of (k : kind) : Type :=
  match k with
  | KText => string
  | KTexts => list string
  | KBool => bool
  | KInt => Z
  | KJson => pyval
  | KKey => uuid
  | KTime => Z
  | KTimeOrNone => option Z
  | KStatus => AccountStatus.t
  | KEffect => OverrideEffect.t
  | KValueType => SettingValueType.t
  end.

(** [serializers.CharField(...)] *)
Record CharField := MkChar {
  max_length : option Z;
  trim_whitespace : bool;
  allow_blank : bool;
}.

(** [data_value r name] is [request.data.get(name)]; the [*_value] functions are
    [run_validation] of a field on a value that is present, [model_value] that of
    a generated field of the named serializer ([None] when it is absent and not
    required); [lookup_key] reads a primary key. *)
Class RequestData := MkRequestData {
  data_value : HttpRequest -> string -> option pyval;
  char_value : CharField -> pyval -> field string;
  email_value : pyval -> field string;
  regex_value : string -> Z -> pyval -> field string;
  boolean_value : pyval -> field bool;
  model_value : forall k : kind, DB -> HttpRequest -> string -> string -> option (field (value_of k));
  listing : forall R : Type, HttpRequest -> string -> ListQuery R;
  lookup_key : string -> option uuid;
  known_timezone : string -> bool;
  json_serializable : pyval -> bool;
  rotate_refresh : HttpRequest -> M (pyval * uuid);
  metadata_of : HttpRequest -> pyval;
  root_listing : HttpRequest -> pyval;
}.

Section urls.
Context `{E : Env, !TokenCodec, !RequestData}.

Definition required {A} (name : string) (parse : pyval -> field A) (r : HttpRequest) : field A :=
  match data_value r name with
  | None => inl ["This field is required."]
  | Some v => parse v
  end.

Definition optional_field {A} (name : string) (parse : pyval -> field A) (r : HttpRequest)
    : field (option A) :=
  match data_value r name with
  | None => inr None
  | Some v => match parse v with inl e => inl e | inr a => inr (Some a) end
  end.

(** ** The serializers of [apps/api/serializers/auth.py] *)

Definition username_pattern : string := "^[\w.@+-]+$".
Definition password_field (name : string) : HttpRequest -> field string :=
  required name (char_value (MkChar None false false)).
Definition name_field (name : string) : HttpRequest -> field (option string) :=
  optional_field name (char_value (MkChar (Some 150) true true)).
Definition code_field (r : HttpRequest) : field string :=
  required "code" (char_value (MkChar (Some 32) true false)) r.

Definition RegistrationSerializer (r : HttpRequest)
    : field string * field string * field string * field (option string) * field (option string) :=
  (required "email" email_value r, required "username" (regex_value username_pattern 150) r,
   password_field "password" r, name_field "first_name" r, name_field "last_name" r).

Definition LoginSerializer (r : HttpRequest)
    : field string * field string * field (option string) * field bool :=
  (required "identifier" (char_value (MkChar (Some 254) true false)) r, password_field "password" r,
   optional_field "code" (char_value (MkChar (Some 32) true true)) r,
   match optional_field "remember_me" boolean_value r with
   | inl e => inl e
   | inr b => inr (default false b)
   end).

Definition TokenSerializer (r : HttpRequest) : field string :=
  required "token" (char_value (MkChar None true false)) r.
Definition EmailSerializer (r : HttpRequest) : field string := required "email" email_value r.
Definition PasswordResetConfirmSerializer (r : HttpRequest) : field string * field string :=
  (TokenSerializer r, password_field "new_password" r).
Definition ChangePasswordSerializer (r : HttpRequest) : field string * field string :=
  (password_field "old_password" r, password_field "new_password" r).
Definition ChangeEmailSerializer (r : HttpRequest) : field string * field string :=
  (password_field "password" r, required "new_email" email_value r).
Definition ChangeUsernameSerializer (r : HttpRequest) : field string :=
  required "username" (regex_value username_pattern 150) r.
Definition PasswordConfirmationSerializer (r : HttpRequest) : field string := password_field "password" r.
Definition LogoutSerializer (r : HttpRequest) : field (option string) :=
  optional_field "refresh" (char_value (MkChar None true true)) r.
Definition TwoFactorCodeSerializer (r : HttpRequest) : field string := code_field r.
Definition TwoFactorSetupSerializer (r : HttpRequest) : field string := password_field "password" r.
Definition TwoFactorDisableSerializer (r : HttpRequest) : field string * field string :=
  (code_field r, password_field "password" r).

(** ** Routes *)

Inductive segment := Lit (s : string) | Arg.

(** What a route binds: the values of its [Arg]s, the database the generated
    fields look at, the request. *)
Definition action : Type := list string -> DB -> HttpRequest -> View.

(** [gate] has the classes of the view for a method without an action. *)
Record Route := MkRoute {
  pattern : list segment;
  actions : list (string * action);
  gate : View;
}.

(** The same gate before another body. *)
Definition answering (v : View) (m : M Response) : View :=
  MkView (authenticates v) (auth_header v) (permission_classes v) (throttle_classes v) (throttle_scope v)
    (fun _ _ => m).

Definition unreached {A B} (_ : A) (_ : B) : M Response := raise TypeError.
Definition open_gate (throttles : list throttle) : View := open_view throttles unreached.
Definition user_gate : View := user_view (fun _ _ _ => raise TypeError).
Definition scoped_gate (scopes : view_scopes) : View := scoped_view scopes (fun _ _ _ => raise TypeError).
Definition admin_gate (view codename : string) : View := admin_view view codename unreached.

(** A view with one method. *)
Definition only (path : list string) (method : string) (gate : View) (view : HttpRequest -> View) : Route :=
  MkRoute (Lit <$> path) [(method, fun _ _ r => view r)] gate.

Definition auth_patterns : list Route :=
  [only ["register"] "POST" (open_gate [RegisterThrottle]) (fun r =>
     let '(email, username, password, first_name, last_name) := RegistrationSerializer r in
     RegisterView email username password first_name last_name);
   only ["login"] "POST" (open_gate [LoginThrottle]) (fun r =>
     let '(identifier, password, code, remember_me) := LoginSerializer r in
     LoginView identifier password code remember_me);
   only ["logout"] "POST" user_gate (fun r => LogoutView (LogoutSerializer r));
   only ["token"; "refresh"] "POST" (RefreshView (raise TypeError)) (fun r => RefreshView (rotate_refresh r));
   only ["verify-email"] "POST" (open_gate [EmailVerificationThrottle]) (fun r =>
     VerifyEmailView (TokenSerializer r));
   only ["resend-verification"] "POST" (open_gate [EmailVerificationThrottle]) (fun r =>
     ResendVerificationView (EmailSerializer r));
   only ["password-reset"] "POST" (open_gate [PasswordResetThrottle]) (fun r =>
     PasswordResetRequestView (EmailSerializer r));
   only ["password-reset"; "confirm"] "POST" (open_gate [PasswordResetThrottle]) (fun r =>
     let '(token, new_password) := PasswordResetConfirmSerializer r in
     PasswordResetConfirmView token new_password);
   only ["password"; "change"] "POST" user_gate (fun r =>
     let '(old_password, new_password) := ChangePasswordSerializer r in
     ChangePasswordView old_password new_password);
   only ["email"; "change"] "POST" user_gate (fun r =>
     let '(password, new_email) := ChangeEmailSerializer r in ChangeEmailView password new_email);
   only ["email"; "change"; "confirm"] "POST" (open_gate default_throttles) (fun r =>
     ConfirmEmailChangeView (TokenSerializer r));
   only ["username"; "change"] "POST" user_gate (fun r => ChangeUsernameView (ChangeUsernameSerializer r));
   only ["account"; "deactivate"] "POST" user_gate (fun r =>
     DeactivateAccountView (PasswordConfirmationSerializer r));
   only ["account"; "delete"] "POST" user_gate (fun r =>
     DeleteAccountRequestView (PasswordConfirmationSerializer r));
   only ["account"; "delete"; "confirm"] "POST" (open_gate default_throttles) (fun r =>
     DeleteAccountConfirmView (TokenSerializer r));
   only ["2fa"; "setup"] "POST" user_gate (fun r => TwoFactorSetupView (TwoFactorSetupSerializer r));
   only ["2fa"; "confirm"] "POST" user_gate (fun r => TwoFactorConfirmView (TwoFactorCodeSerializer r));
   only ["2fa"; "disable"] "POST" user_gate (fun r =>
     let '(code, password) := TwoFactorDisableSerializer r in TwoFactorDisableView code password);
   only ["2fa"; "recovery-codes"; "regenerate"] "POST" user_gate (fun r =>
     RecoveryCodeRegenerateView (TwoFactorCodeSerializer r))].

(** [RetrieveUpdateAPIView] *)
Definition retrieve_update (path : list string) (gate : View) (retrieve update : action) : Route :=
  MkRoute (Lit <$> path) [("GET", retrieve); ("PUT", update); ("PATCH", update)] gate.

Definition user_patterns : list Route :=
  [only ["users"; "me"] "GET" (scoped_gate current_user_scopes) (fun _ => CurrentUserView);
   retrieve_update ["users"; "me"; "profile"] (scoped_gate profile_scopes)
     (fun _ _ _ => CurrentUserProfileView)
     (fun _ d r =>
        let text := model_value KText d r "UserProfileSerializer" in
        CurrentUserProfileUpdate (text "bio") (text "website") (text "location"));
   retrieve_update ["users"; "me"; "preferences"] (scoped_gate profile_scopes)
     (fun _ _ _ => CurrentUserPreferencesView)
     (fun _ d r =>
        let serializer := "UserPreferencesSerializer" in
        CurrentUserPreferencesUpdate known_timezone
          (model_value KText d r serializer "language") (model_value KText d r serializer "timezone")
          (model_value KBool d r serializer "email_notifications")
          (model_value KBool d r serializer "security_emails"));
   only ["users"; "me"; "security-events"] "GET" user_gate (fun r =>
     SecurityEventListView (listing SecurityEvent.t r "SecurityEventListView"))].

(** ** The router *)

(** [get_object()] with the key of the path: a text that is no key is answered
    like a missing row. *)
Definition on_key (args : list string) (view : uuid -> View) : View :=
  match head args ≫= lookup_key with
  | Some k => view k
  | None => answering (view 0%N) (raise (Http404 "Not found."))
  end.

(** List and detail routes of a view set. *)
Definition collection (prefix : list string) (actions : list (string * action)) (gate : View) : Route :=
  MkRoute (Lit <$> prefix) actions gate.
Definition detail_route (prefix : list string) (actions : list (string * action)) (gate : View) : Route :=
  MkRoute ((Lit <$> prefix) ++ [Arg]) actions gate.
Definition list_action (prefix : list string) (name : string) (view : View) (gate : View) : Route :=
  MkRoute (Lit <$> (prefix ++ [name])) [("POST", fun _ _ _ => view)] gate.
Definition detail_action (prefix : list string) (name : string) (view : list string -> View) (gate : View)
    : Route :=
  MkRoute ((Lit <$> prefix) ++ [Arg; Lit name]) [("POST", fun args _ _ => view args)] gate.

Definition user_admin_fields (d : DB) (r : HttpRequest) : UserAdminFields :=
  let serializer := "UserAdminSerializer" in
  MkUserAdmin (model_value KText d r serializer "email") (model_value KText d r serializer "username")
    (model_value KText d r serializer "first_name") (model_value KText d r serializer "last_name")
    (model_value KStatus d r serializer "status") (model_value KTimeOrNone d r serializer "email_verified_at")
    (model_value KTimeOrNone d r serializer "phone_verified_at") (model_value KBool d r serializer "is_active")
    (model_value KBool d r serializer "is_staff").

Definition user_routes : list Route :=
  let gate := admin_gate "UserAdminViewSet" "users.view" in
  let update : action := fun args d r => on_key args (fun k => UserAdminUpdate k (user_admin_fields d r)) in
  [collection ["users"]
     [("GET", fun _ _ r => UserAdminList (listing User.t r "UserAdminViewSet"));
      ("POST", fun _ d r => UserAdminCreate (user_admin_fields d r))] gate;
   detail_route ["users"]
     [("GET", fun args _ _ => on_key args UserAdminRetrieve); ("PUT", update); ("PATCH", update);
      ("DELETE", fun _ _ _ => UserAdminDestroy)] gate].

(** [lookup_field = "identifier"] *)
Definition session_routes : list Route :=
  let prefix := ["users"; "me"; "sessions"] in
  let identifier (args : list string) : string := default "" (head args) in
  [collection prefix [("GET", fun _ _ r => UserSessionList (listing UserSession.t r "UserSessionViewSet"))]
     user_gate;
   list_action prefix "revoke-others" UserSessionRevokeOthers user_gate;
   list_action prefix "revoke-all" UserSessionRevokeAll user_gate;
   detail_route prefix [("GET", fun args _ _ => UserSessionRetrieve (identifier args))] user_gate;
   detail_action prefix "revoke" (fun args => UserSessionRevoke (identifier args)) user_gate].

Definition notification_routes : list Route :=
  let gate := notification_view (fun _ => raise TypeError) in
  [collection ["notifications"]
     [("GET", fun _ _ r => NotificationList (listing Notification.t r "NotificationViewSet"))] gate;
   list_action ["notifications"] "read-all" NotificationMarkAllRead gate;
   detail_route ["notifications"]
     [("GET", fun args _ _ => on_key args NotificationRetrieve);
      ("DELETE", fun args _ _ => on_key args NotificationDestroy)] gate;
   detail_action ["notifications"] "read" (fun args => on_key args NotificationMarkRead) gate].

Definition api_key_routes : list Route :=
  let gate := api_key_view unreached in
  [collection ["api-keys"]
     [("GET", fun _ _ r => APIKeyList (listing APIKey.t r "APIKeyViewSet"));
      ("POST", fun _ d r => APIKeyCreate json_serializable
         (default (inl ["This field is required."]) (model_value KText d r "APIKeySerializer" "name"))
         (model_value KTexts d r "APIKeySerializer" "scopes")
         (model_value KTimeOrNone d r "APIKeySerializer" "expires_at"))] gate;
   detail_route ["api-keys"] [("GET", fun args _ _ => on_key args APIKeyRetrieve)] gate;
   detail_action ["api-keys"] "revoke" (fun args => on_key args APIKeyRevoke) gate].

(** [ModelViewSet] *)
Definition crud (prefix : string) (listed create : HttpRequest -> DB -> View) (retrieve : uuid -> View)
    (update : DB -> HttpRequest -> uuid -> View) (destroy : uuid -> View) (gate : View) : list Route :=
  let updating : action := fun args d r => on_key args (update d r) in
  [collection [prefix] [("GET", fun _ d r => listed r d); ("POST", fun _ d r => create r d)] gate;
   detail_route [prefix]
     [("GET", fun args _ _ => on_key args retrieve); ("PUT", updating); ("PATCH", updating);
      ("DELETE", fun args _ _ => on_key args destroy)] gate].

(** [ReadOnlyModelViewSet] *)
Definition read_only (prefix : string) (listed : HttpRequest -> View) (retrieve : uuid -> View) (gate : View)
    : list Route :=
  [collection [prefix] [("GET", fun _ _ r => listed r)] gate;
   detail_route [prefix] [("GET", fun args _ _ => on_key args retrieve)] gate].

Definition role_routes : list Route :=
  crud "roles"
    (fun r _ => rbac_list "RoleViewSet" role_data (listing Role.t r "RoleViewSet"))
    (fun r d => let text := model_value KText d r "RoleSerializer" in
       RoleCreate (text "name") (text "slug") (text "description")
         (model_value KInt d r "RoleSerializer" "priority"))
    (rbac_retrieve "RoleViewSet" "Role" role_data)
    (fun d r k => let text := model_value KText d r "RoleSerializer" in
       RoleUpdate k (text "name") (text "slug") (text "description")
         (model_value KInt d r "RoleSerializer" "priority"))
    RoleDestroy (admin_gate "RoleViewSet" "roles.manage").

Definition permission_routes : list Route :=
  crud "permissions"
    (fun r _ => rbac_list "PermissionViewSet" permission_data (listing Permission.t r "PermissionViewSet"))
    (fun r d => let text := model_value KText d r "PermissionSerializer" in
       PermissionCreate (text "codename") (text "description"))
    (rbac_retrieve "PermissionViewSet" "Permission" permission_data)
    (fun d r k => let text := model_value KText d r "PermissionSerializer" in
       PermissionUpdate k (text "codename") (text "description"))
    PermissionDestroy (admin_gate "PermissionViewSet" "roles.manage").

Definition role_permission_routes : list Route :=
  let field d r := model_value KKey d r "RolePermissionSerializer" in
  crud "role-permissions"
    (fun r _ => rbac_list "RolePermissionViewSet" role_permission_data
                  (listing RolePermission.t r "RolePermissionViewSet"))
    (fun r d => RolePermissionCreate (field d r "role") (field d r "permission"))
    (rbac_retrieve "RolePermissionViewSet" "RolePermission" role_permission_data)
    (fun d r k => RolePermissionUpdate k (field d r "role") (field d r "permission"))
    RolePermissionDestroy (admin_gate "RolePermissionViewSet" "roles.manage").

Definition user_role_routes : list Route :=
  let serializer := "UserRoleSerializer" in
  crud "user-roles"
    (fun r _ => rbac_list "UserRoleViewSet" user_role_data (listing UserRole.t r "UserRoleViewSet"))
    (fun r d => UserRoleCreate (model_value KKey d r serializer "user") (model_value KKey d r serializer "role")
       (model_value KTime d r serializer "valid_from") (model_value KTimeOrNone d r serializer "valid_until"))
    (rbac_retrieve "UserRoleViewSet" "UserRole" user_role_data)
    (fun d r k => UserRoleUpdate k (model_value KKey d r serializer "user")
       (model_value KKey d r serializer "role") (model_value KTime d r serializer "valid_from")
       (model_value KTimeOrNone d r serializer "valid_until"))
    UserRoleDestroy (admin_gate "UserRoleViewSet" "roles.manage").

Definition override_routes : list Route :=
  let serializer := "UserPermissionOverrideSerializer" in
  crud "permission-overrides"
    (fun r _ => rbac_list "UserPermissionOverrideViewSet" override_data
                  (listing UserPermissionOverride.t r "UserPermissionOverrideViewSet"))
    (fun r d => OverrideCreate (model_value KKey d r serializer "user")
       (model_value KKey d r serializer "permission") (model_value KEffect d r serializer "effect")
       (model_value KText d r serializer "reason"))
    (rbac_retrieve "UserPermissionOverrideViewSet" "UserPermissionOverride" override_data)
    (fun d r k => OverrideUpdate k (model_value KKey d r serializer "user")
       (model_value KKey d r serializer "permission") (model_value KEffect d r serializer "effect")
       (model_value KText d r serializer "reason"))
    OverrideDestroy (admin_gate "UserPermissionOverrideViewSet" "roles.manage").

Definition journal_routes : list Route :=
  read_only "audit-logs" (fun r => AuditLogList (listing AuditLog.t r "AuditLogViewSet")) AuditLogRetrieve
    (admin_gate "AuditLogViewSet" "audit.view")
  ++ read_only "security-events"
       (fun r => SecurityEventAdminList (listing SecurityEvent.t r "SecurityEventAdminViewSet"))
       SecurityEventAdminRetrieve (admin_gate "SecurityEventAdminViewSet" "security_events.view").

Definition setting_routes : list Route :=
  let serializer := "SettingSerializer" in
  let with_fields {T} (f : option (field string) -> option (field pyval) -> option (field SettingValueType.t) ->
      option (field string) -> option (field bool) -> option (field string) -> T) d r : T :=
    f (model_value KText d r serializer "key") (model_value KJson d r serializer "value")
      (model_value KValueType d r serializer "value_type") (model_value KText d r serializer "group")
      (model_value KBool d r serializer "is_public") (model_value KText d r serializer "description") in
  crud "settings" (fun r _ => SettingList (listing Setting.t r "SettingViewSet"))
    (fun r d => with_fields SettingCreate d r) SettingRetrieve
    (fun d r k => with_fields (SettingUpdate k) d r) SettingDestroy
    (admin_gate "SettingViewSet" (setting_permission "")).

Definition flag_routes : list Route :=
  let serializer := "FeatureFlagSerializer" in
  crud "feature-flags" (fun r _ => FeatureFlagList (listing FeatureFlag.t r "FeatureFlagViewSet"))
    (fun r d => FeatureFlagCreate (model_value KText d r serializer "key")
       (model_value KBool d r serializer "enabled") (model_value KText d r serializer "description"))
    FeatureFlagRetrieve
    (fun d r k => FeatureFlagUpdate k (model_value KText d r serializer "key")
       (model_value KBool d r serializer "enabled") (model_value KText d r serializer "description"))
    FeatureFlagDestroy (admin_gate "FeatureFlagViewSet" (flag_permission "")).

(** [router.urls]: the view sets in the order of their registration, then the
    root view of the router. *)
Definition router_patterns : list Route :=
  user_routes ++ session_routes
  ++ (if ENABLE_NOTIFICATIONS then notification_routes else [])
  ++ (if ENABLE_API_KEYS then api_key_routes else [])
  ++ role_routes ++ permission_routes ++ role_permission_routes ++ user_role_routes ++ override_routes
  ++ journal_routes ++ setting_routes ++ flag_routes
  ++ [only [] "GET" user_gate (fun r => user_view (fun _ _ _ => ret (bare (root_listing r) 200)))].

Definition under (prefix : string) (l : list Route) : list Route :=
  (fun rt => MkRoute (Lit prefix :: pattern rt) (actions rt) (gate rt)) <$> l.

(** [apps.api.urls.urlpatterns] *)
Definition api_patterns : list Route :=
  under "auth" auth_patterns ++ user_patterns ++ router_patterns.

(** ** Resolution *)

Fixpoint split_on (c : ascii) (s : string) : list string :=
  match s with
  | EmptyString => [""]
  | String d s' =>
      match split_on c s' with
      | w :: ws => if Ascii.eqb d c then "" :: w :: ws else String d w :: ws
      | [] => []
      end
  end.

(** The parts of a path between its first and its last slash. *)
Definition segments (path : string) : option (list string) :=
  match split_on "/" path with
  | "" :: l => match rev l with
               | "" :: l' => Some (rev l')
               | _ => None
               end
  | _ => None
  end.

(** An argument matches [[^/.]+]. *)
Fixpoint match_pattern (p : list segment) (path : list string) : option (list string) :=
  match p, path with
  | [], [] => Some []
  | Lit s :: p', x :: path' => if String.eqb s x then match_pattern p' path' else None
  | Arg :: p', x :: path' =>
      if negb (Str.is_empty x) && negb (Str.has_char "." x) then cons x <$> match_pattern p' path' else None
  | _, _ => None
  end.

(** The first pattern that matches decides. *)
Fixpoint find_route (l : list Route) (path : list string) : option (Route * list string) :=
  match l with
  | [] => None
  | rt :: l' => match match_pattern (pattern rt) path with
                | Some args => Some (rt, args)
                | None => find_route l' path
                end
  end.

(** [as_view] and [APIView.dispatch]: HEAD is answered by the action of GET,
    OPTIONS with the metadata, another method without action with 405; all of
    them behind the gate of the view. *)
Definition route_view (rt : Route) (args : list string) (d : DB) (r : HttpRequest) : View :=
  let method := if String.eqb (http_method r) "HEAD" then "GET" else http_method r in
  match List.find (fun a => String.eqb a.1 method) (actions rt) with
  | Some (_, view) => view args d r
  | None =>
      answering (gate rt)
        (if String.eqb method "OPTIONS" then ret (bare (metadata_of r) 200)
         else raise (MethodNotAllowed (http_method r)))
  end.

(** The view of an API request. *)
Definition resolve_api (d : DB) (r : HttpRequest) : option View :=
  match segments (http_path r) ≫= find_route (under "api" (under "v1" api_patterns)) with
  | Some (rt, args) => Some (route_view rt args d r)
  | None => None
  end.

End urls.
