(* ===== verification/Gate.v ===== *)
(** * What the dispatch guarantees

    No exception leaves a view, errors that the API does not know say nothing
    about their cause, the body of an administrative endpoint only runs for a
    user with its permission, and what becomes of a request whose session the
    middleware ends. *)

From S2P Require Import Prelude Env Demo Models Orm Logic Common Samples Users Sessions Authentication Accounts Authorization ApiKeys Responses Api AuthViews Resources AdminViews.

(** ** Envelopes *)

(** The error envelope of a request with its identifier. *)
Definition error_envelope (request_id : option string) (status : Z) (code : string) (r : Response) : Prop :=
  status_code r = status /\ exists message fields,
    data r = error_body code message fields (request_id_value request_id).

(** The answer to every exception REST framework does not handle. *)
Definition internal_error (request_id : option string) : Response :=
  MkResponse 500 (error_body "INTERNAL_ERROR" "An unexpected error occurred." (PDict [])
                    (request_id_value request_id)) [].

Lemma handler_unknown h e i : exception_data e = None -> api_exception_handler h e i = internal_error i.
Proof. intros He. unfold api_exception_handler, exception_handler. by rewrite He. Qed.

Lemma handler_known h e i d status :
  exception_data e = Some (d, status) ->
  error_envelope i (if unauthenticated e && is_none h then 403 else status) (_error_code e status)
    (api_exception_handler h e i).
Proof.
  intros He. unfold api_exception_handler, exception_handler. rewrite He. unfold error_envelope.
  destruct e; try discriminate He; injection He as <- <-; cbn -[_error_code]; try destruct fields;
    (split; [done|]); by eexists _, _.
Qed.

Section gate.
Context `{E : Env}.

(** ** No exception leaves a view *)


(** ** Administrative endpoints *)

(** What permission checks read. *)
Definition rbac_part (d : DB) := (permissions d, permission_overrides d).

Lemma perform_authentication_keeps r : evolves (keeps rbac_part) (perform_authentication r).
Proof.
  unfold perform_authentication, first_success, by_api_key, by_bearer, by_session, api_key_authentication,
    authenticate_key, key_is_active, can_authenticate_now, has_active_ban, jwt_get_user, token_user,
    ensure_account_available, can_authenticate_now, has_active_ban.
  evolve; reflexivity.
Qed.

(** Why the gate refused: the exception of each reason. *)
Inductive refusal (codename : string) (r : HttpRequest) (a : Auth) (t : nat) (d : DB) : exn -> Prop :=
| no_user : auth_user a = None -> refusal codename r a t d NotAuthenticated
| no_permission uid u message : auth_user a = Some (uid, u) ->
    ~ (available (clock t) d uid u = true /\ may (clock (S t)) d uid u codename) ->
    refusal codename r a t d (PermissionDenied message)
| by_key uid u k message : auth_user a = Some (uid, u) -> auth_api_key a = Some k ->
    refusal codename r a t d (PermissionDenied message)
| throttled scope n : over_limit r scope = Some n -> refusal codename r a t d (Throttled n).

Lemma throttles_cases v r a w :
  throttle_classes v = default_throttles ->
  check_throttles v r a w = (inr tt, w) \/
  exists scope n, over_limit r scope = Some n /\ check_throttles v r a w = (inl (Throttled n), w).
Proof.
  intros Ht. unfold check_throttles. rewrite Ht. cbn. unfold throttle_wait.
  destruct (is_some (auth_user a)); cbn.
  - destruct (over_limit r "user") as [n|] eqn:Hu; [|by left]. right. by exists "user", n.
  - destruct (over_limit r "anon") as [n|] eqn:Ha, (over_limit r "user") as [m|] eqn:Hu; cbn;
      [|right; by exists "anon", n|right; by exists "user", m|by left].
    right. destruct (Z.max_spec m n) as [[_ ->]|[_ ->]]; [by exists "anon", n|by exists "user", m].
Qed.

Lemma serve_authenticated v r a w w1 :
  authenticates v = true -> perform_authentication r w = (inr a, w1) ->
  serve v r w = (check_permissions (permission_classes v r a) a ;; check_throttles v r a ;; handler v r a) w1.
Proof. intros Hv Ha. unfold serve. rewrite Hv. unfold bind at 1. by rewrite Ha. Qed.

(** [C4] The body of an administrative endpoint runs exactly for a request whose
    authentication names a user, not through an API key, who may authenticate
    now, to whom the permission precedence grants the codename, and whom no
    throttle stops.  Every other request ends with the exception of the reason
    and has changed nothing the authentication did not. *)
Theorem admin_view_guarded view codename h r w :
  Str.is_empty codename = false -> resolvable (db w) ->
  let v := admin_view view codename h in
  match perform_authentication r w with
  | (inl e, w1) => serve v r w = (inl e, w1)
  | (inr a, w1) =>
      (exists uid u w2, auth_user a = Some (uid, u) /\ auth_api_key a = None /\
         available (clock w1.(ticks)) (db w1) uid u = true /\
         may (clock (S w1.(ticks))) (db w1) uid u codename /\
         db w2 = db w1 /\ serve v r w = h r uid w2) \/
      (exists e w2, refusal codename r a w1.(ticks) (db w1) e /\ db w2 = db w1 /\ serve v r w = (inl e, w2))
  end.
Proof.
  intros Hc Hres v. destruct (perform_authentication r w) as [[e|a] w1] eqn:Ha.
  { unfold serve. change (authenticates v) with true. cbv iota. unfold bind at 1. by rewrite Ha. }
  rewrite (serve_authenticated v r a w w1 eq_refl Ha).
  assert (Hres1 : resolvable (db w1)).
  { pose proof (evolves_run _ _ _ _ _ (perform_authentication_keeps r) Ha) as Hk.
    injection Hk as Hp Ho. unfold resolvable, unique_rows. cbn. by rewrite Hp, Ho. }
  destruct (has_permission_spec (auth_user a) codename w1 Hres1) as (b & w2 & Hperm & Hdb & Hb).
  assert (Hfirst : view_permission view (Some codename) (auth_user a) w1 = (inr b, w2))
    by (unfold view_permission; by rewrite Hc).
  assert (Hcheck : check_permissions (permission_classes v r a) a w1 =
    if b then if has_scope (auth_api_key a) no_scopes (http_method r) then (inr tt, w2)
              else (inl (permission_denied a default_denial), w2)
    else (inl (permission_denied a "You do not have the required permission."), w2)).
  { unfold check_permissions. cbn [permission_classes v admin_view codename_permissions for_each fst snd
      has_codename has_api_key_scope]. unfold bind. rewrite Hfirst. destruct b; [|done].
    cbn. by destruct (has_scope _ _ _). }
  unfold bind at 1 3. rewrite Hcheck. destruct b.
  - destruct (proj1 Hb eq_refl) as (uid & u & Hu & Hav & Hmay).
    destruct (auth_api_key a) as [key|] eqn:Hkey; cbn [has_scope no_scopes scopes_by_method scopes_for_all].
    + right. eexists _, _. split; [|by split; [exact Hdb|]].
      unfold permission_denied. rewrite Hu. by eapply by_key.
    + destruct (throttles_cases v r a w2 eq_refl) as [Ht|(scope & n & Hn & Ht)].
      * left. exists uid, u, w2. repeat (split; [done|]). unfold bind. rewrite Ht. cbn [handler v admin_view]. by rewrite Hu.
      * right. exists (Throttled n), w2. split; [by eapply throttled|]. split; [done|]. unfold bind. by rewrite Ht.
  - right. eexists _, _. split; [|by split; [exact Hdb|]].
    unfold permission_denied. destruct (auth_user a) as [[uid u]|] eqn:Hu; [|by apply no_user].
    eapply no_permission; [done|]. intros [Hav Hmay]. enough (false = true) by done. apply Hb. eauto.
Qed.

End gate.

(** ** Requests of a user with a session *)

Section user_requests.
Context `{E : Env}.

(** The gate of a view with the default permissions: any authenticated user,
    but no API key. *)
Lemma user_view_runs h r a w w1 uid u :
  perform_authentication r w = (inr a, w1) -> auth_user a = Some (uid, u) -> auth_api_key a = None ->
  (forall scope, over_limit r scope = None) -> serve (user_view h) r w = h r uid u w1.
Proof.
  intros Ha Hu Hk Ht. rewrite (serve_authenticated (user_view h) r a w w1 eq_refl Ha). unfold bind at 1.
  assert (Hp : check_permissions (permission_classes (user_view h) r a) a w1 = (inr tt, w1)).
  { unfold check_permissions, user_view, default_permissions, is_authenticated, has_api_key_scope, bind, ret. cbn.
    by rewrite Hu, Hk. }
  rewrite Hp. unfold bind.
  destruct (throttles_cases (user_view h) r a w1 eq_refl) as [->|(s & n & Hs & _)]; [|by rewrite Ht in Hs].
  cbn [handler user_view]. by rewrite Hu.
Qed.

(** A request that carries only a session. *)
Definition session_only (r : HttpRequest) (uid : uuid) (u : User.t) : Prop :=
  django_user r = Some (uid, u) /\ User.is_active u = true /\ csrf_valid r = true /\
  api_key_header r = None /\ bearer r = None /\ (forall scope, over_limit r scope = None).

Lemma session_authentication r uid u w :
  session_only r uid u -> perform_authentication r w = (inr (MkAuth (Some (uid, u)) None), w).
Proof.
  intros (Hd & Ha & Hc & Hk & Hb & _). unfold perform_authentication, first_success, by_api_key,
    api_key_authentication, by_bearer, by_session, bind. rewrite Hk, Hb, Hd, Ha, Hc.
  by destruct ENABLE_API_KEYS.
Qed.

(** The middleware ends the session of a user who may not authenticate any more
    (a ban that has begun, say), and yet the request at hand is served: the body
    of the view runs, with the user. *)
Theorem ended_session_served_once h r uid u key w :
  session_only r uid u -> current_key (http_session w) = Some key ->
  available (clock w.(ticks)) (db w) uid u = false ->
  exists w1, http_session w1 = anonymous_session /\ (key ∉ django_sessions (db w1)) /\
    respond (user_view h) r w =
      (try_except (h r uid u) (fun e => ret (api_exception_handler None e (Some (request_id (http r)))))) w1.
Proof.
  intros Hs Hkey Hav. pose proof Hs as (Hd & _ & _ & _ & _ & Ht).
  destruct (can_authenticate_now_spec uid u w) as (w0 & Hrun & Hdb & Hsess & _). rewrite Hav in Hrun.
  destruct (session_flush_run w0 key) as (w1 & Hflush & Hanon & Hgone); [by rewrite Hsess|].
  exists w1. split; [done|]. split; [done|].
  unfold respond, session_middleware. rewrite Hd. unfold bind at 1 2, read at 1. rewrite Hkey.
  unfold bind at 1. rewrite Hrun. cbn [negb]. rewrite Hflush. unfold dispatch, try_except.
  by rewrite (user_view_runs h r _ w1 w1 uid u (session_authentication r uid u w1 Hs)).
Qed.

(** A new password the validators refuse, with the right old one, is not
    answered with a validation error: the service raises Django's exception,
    which the API does not know. *)
Theorem weak_password_internal_error old new r uid u stored w :
  session_only r uid u -> users (db w) !! uid = Some stored -> User.check_password stored old = true ->
  password_acceptable new [User.username stored; User.first_name stored; User.last_name stored; User.email stored]
    = false ->
  exists w', dispatch (ChangePasswordView (inr old) (inr new)) r w =
    (inr (internal_error (Some (request_id (http r)))), w') /\ db w' = db w.
Proof.
  intros Hs Hu Hp Hw. pose proof Hs as (_ & _ & _ & _ & _ & Ht).
  unfold dispatch, try_except, ChangePasswordView.
  rewrite (user_view_runs _ r _ w w uid u (session_authentication r uid u w Hs)) by done.
  unfold validated, also, plain, field_of, change_password, atomic, get_pk, bind, try_except, ret. cbn.
  rewrite Hu. rewrite Hp. cbn. unfold validate_password. rewrite Hw. cbn.
  eexists. split; [done|]. done.
Qed.

End user_requests.

(** ** Witness: Alice, with a bearer token, may view users *)

Section witnesses.

Definition bearer_request (uid : uuid) : HttpRequest :=
  MkHttp sample_request "GET" "/api/v1/users/" "" None true None (Some (inr uid)) "" (fun _ => None).

Definition viewing : HttpRequest -> uuid -> M Response := fun _ _ => ret (success_response PNone 200).

Lemma admin_view_guarded_witness :
  exists uid w2, serve (E := demo_env) (admin_view (E := demo_env) "UserAdminViewSet" "users.view" viewing)
    (bearer_request 1) roles_world = viewing (bearer_request 1) uid w2.
Proof.
  pose proof (admin_view_guarded (E := demo_env) "UserAdminViewSet" "users.view" viewing (bearer_request 1)
    roles_world eq_refl roles_world_resolvable) as H.
  run_returns (perform_authentication (E := demo_env) (bearer_request 1) roles_world) H.
  destruct H as [(uid & u & w2 & _ & _ & _ & _ & _ & Hs)|(e & w2 & _ & _ & Hs)]; [by exists uid, w2|].
  exfalso. assert (Hr : returned (serve (E := demo_env)
    (admin_view (E := demo_env) "UserAdminViewSet" "users.view" viewing) (bearer_request 1) roles_world) = true)
    by (vm_compute; reflexivity).
  by rewrite Hs in Hr.
Defined.

End witnesses.
