(* ===== verification/Platform.v ===== *)
(** * Middleware, events, health checks and the seed command

    [common/middleware], [common/context.py], [common/events.py],
    [common/models.py], [apps/core/views.py] and the [seed] command. *)

From S2P Require Import Prelude Env Models Orm Logic Common Users LoginProtection Authorization Responses.

(** ** Request identifiers *)

Section middleware.
Context `{E : Env}.

Definition id_char (c : ascii) : bool :=
  is_alnum c || Str.has_char c "._:-".

(** [VALID_REQUEST_ID.fullmatch] *)
Definition valid_request_id (s : string) : bool :=
  match s with
  | EmptyString => false
  | String c s' => is_alnum c && all_chars id_char s' && (String.length s' <=? 63)%nat
  end.

(** [request_id_context] and [user_id_context]. *)
Record Ctx := MkCtx {
  request_id_context : string;
  user_id_context : string;
}.
Definition initial_ctx : Ctx := MkCtx "-" "-".

(** What a middleware sees and changes: the context, the records written to the
    log, and the world. *)
Record Process := MkProcess {
  ctx : Ctx;
  log : list pyval;
  world : World;
}.
#[export] Instance eta_Ctx : Eta Ctx := fun c => MkCtx c.(request_id_context) c.(user_id_context).
#[export] Instance eta_Process : Eta Process := fun p => MkProcess p.(ctx) p.(log) p.(world).

(** What is left of the request below a middleware answers or raises. *)
Definition get_response : Type := Process -> (exn + Response) * Process.

(** Services and views as the innermost part. *)
Definition lift (m : M Response) : get_response := fun p =>
  let '(r, w) := m (world p) in (r, p <| world := w |>).

Definition with_header (name value : string) (r : Response) : Response :=
  MkResponse (status_code r) (data r)
    ((name, value) :: List.filter (fun h => negb (String.eqb h.1 name)) (headers r)).

(** [response.setdefault(name, value)] *)
Definition setdefault (name value : string) (r : Response) : Response :=
  if existsb (fun h => String.eqb (Str.casefold h.1) (Str.casefold name)) (headers r) then r
  else MkResponse (status_code r) (data r) (headers r ++ [(name, value)]).

(** The identifier of a request: the header if it is well formed, else random. *)
Definition chosen_request_id (incoming : string) : M string :=
  if valid_request_id incoming then ret incoming
  else let! k := draw uuid4 in ret (uuid_str k).

(** [RequestIDMiddleware.__call__]; the [finally] clause restores the context
    the request came in. *)
Definition request_id_middleware (incoming : string) (next : string -> get_response) : get_response := fun p =>
  match chosen_request_id incoming (world p) with
  | (inl e, w) => (inl e, p <| world := w |>)
  | (inr id, w) =>
      let '(r, p') := next id (p <| world := w |> <| ctx := (ctx p) <| request_id_context := id |> |>) in
      (match r with inr response => inr (with_header "X-Request-ID" id response) | inl e => inl e end,
       p' <| ctx := (ctx p') <| request_id_context := request_id_context (ctx p) |> |>)
  end.

(** [RequestContextFilter] and [SanitizingJsonFormatter]: what a log record
    shows. *)
Definition log_record (c : Ctx) (fields : list (string * pyval)) : pyval :=
  sanitize (PDict (fields ++ [("request_id", PStr (request_id_context c));
                              ("user_id", PStr (user_id_context c))])).

(** [RequestLoggingMiddleware.__call__]; [duration_ms] comes from the monotonic
    clock and is cut to whole milliseconds here. *)
Definition request_log (method path : string) (status duration_ms : Z) (ip : option string)
    : list (string * pyval) :=
  [("message", PStr "request.complete"); ("method", PStr method); ("path", PStr path);
   ("status_code", PInt status); ("duration_ms", PInt duration_ms);
   ("ip_address", match ip with Some a => PStr a | None => PNone end)].

Definition request_logging (user : option uuid) (method path : string) (duration_ms : Z) (r : Request)
    (next : get_response) : get_response := fun p =>
  let user_id := match user with Some k => uuid_str k | None => "-" end in
  let '(res, p') := next (p <| ctx := (ctx p) <| user_id_context := user_id |> |>) in
  let p'' := match res with
             | inr response =>
                 p' <| log ::= fun l => l ++
                   [log_record (ctx p') (request_log method path (status_code response) duration_ms
                                           (get_client_ip r))] |>
             | inl _ => p'
             end in
  (res, p'' <| ctx := (ctx p'') <| user_id_context := user_id_context (ctx p) |> |>).

(** [ContentSecurityPolicyMiddleware] *)
Definition security_headers (policy : string) (next : get_response) : get_response := fun p =>
  let '(r, p') := next p in
  (match r with
   | inl e => inl e
   | inr response =>
       let response := if Str.is_empty policy then response
                       else setdefault "Content-Security-Policy" policy response in
       inr (setdefault "Permissions-Policy" "camera=(), microphone=(), geolocation=()" response)
   end, p').

(** ** Application events *)

Record ApplicationEvent := MkEvent {
  event_name : string;
  event_actor : option string;
  event_target_type : string;
  event_target_id : string;
  event_data : list (string * pyval);
}.

(** A handler is a function object: [handler_id] is its identity. *)
Record Handler := MkHandler {
  handler_id : nat;
  run_handler : ApplicationEvent -> M unit;
}.

Definition bus : Type := gmap string (list Handler).

(** [EventBus.subscribe]; the dictionary is a [defaultdict(list)]. *)
Definition subscribe (name : string) (h : Handler) (b : bus) : bus :=
  let registered := default [] (b !! name) in
  if existsb (fun x => Nat.eqb (handler_id x) (handler_id h)) registered
  then <[name := registered]> b
  else <[name := registered ++ [h]]> b.

(** [EventBus.publish]: an exception of a handler is logged, and the next
    handler runs. *)
Definition publish (b : bus) (e : ApplicationEvent) : M unit :=
  for_each (default [] (b !! event_name e)) (fun h =>
    try_except (run_handler h e) (fun _ => ret tt)).

(** ** Soft deletion *)

Section soft_delete.
Context {R : Type} `{Model R}.
Variables (deleted_at : R -> option Z) (mark : Z -> option uuid -> R -> R).

Definition active_rows : M (list (uuid * R)) := filter_rows (fun _ r => is_none (deleted_at r)).
Definition deleted_rows : M (list (uuid * R)) := filter_rows (fun _ r => is_some (deleted_at r)).
Definition soft_delete (k : uuid) (actor : option uuid) : M unit :=
  let! t := now in save_fields k (mark t actor).

End soft_delete.

(** ** Health *)

Definition live : Response := MkResponse 200 (PDict [("status", PStr "ok")]) [].

(** [ready]: whether the probe query succeeded, and whether the cache can be
    reached. *)
Definition ready (database redis_up : bool) : M Response :=
  let! redis :=
    if negb REDIS_ENABLED then ret (PStr "disabled") else
    if negb redis_up then ret (PBool false) else
    cache_set "healthcheck" (PStr "ready") 5 ;;
    let! v := cache_get "healthcheck" in
    ret (PBool (match v with Some (PStr s) => String.eqb s "ready" | _ => false end)) in
  let is_ready := database && match redis with PBool b => b | _ => true end in
  ret (MkResponse (if is_ready then 200 else 503)
    (PDict [("status", PStr (if is_ready then "ok" else "unavailable"));
            ("checks", PDict [("database", PBool database); ("redis", redis)])]) []).

(** ** The [seed] command *)

(** [handle]: the message it prints, if any. *)
Definition seed (debug demo_admin : bool) (r : registry) : M (option string) :=
  Authorization.handle r ;;
  if negb demo_admin then ret None else
  if negb debug || String.eqb APP_ENV "production"
  then raise (RuntimeError "Demo users can only be created in a debug, non-production environment.") else
  let email := "admin@example.test" in
  let! user := first_row (fun _ u => String.eqb (User.email u) email) in
  match user with
  | Some _ => ret (Some ("Demo administrator already exists: " +:+ email))
  | None =>
      let! password := generate_token 20 in
      create_superuser email "demo-admin" (Some password) None None ;;
      ret (Some ("Created " +:+ email +:+ "; one-time generated password: " +:+ password))
  end.

End middleware.
