(* ===== verification/Server.v ===== *)
(** * The server: from a request to an answer

    The middleware of the repository around the views, in the order of MIDDLEWARE
    in config/settings/base.py, and [config/urls.py].  Django's own middleware
    stands between them: what it computes for a request that it lets through is
    in the request ([django_user], [csrf_valid]); the pages of Django are the
    parameter [Site]. *)

From S2P Require Import Prelude Env Demo Models Orm Logic Common Samples Users Sessions Authentication Authorization ApiKeys Responses Api AuthViews Resources AccountViews AdminViews Urls Gate Platform.

(** [admin_site] is the part of the site below admin/, [schema_site] that of the
    OpenAPI views; [error_page] is the answer of Django to an exception that
    leaves a view or a middleware. *)
Class Site := MkSite {
  admin_site : HttpRequest -> M Response;
  schema_site : HttpRequest -> M Response;
  missing_page : Response;
  error_page : exn -> Response;
  elapsed_ms : HttpRequest -> Z;
  database_up : HttpRequest -> bool;
  redis_up : HttpRequest -> bool;
  CONTENT_SECURITY_POLICY : string;
  ENABLE_OPENAPI : bool;
}.

Section server.
Context `{E : Env, !TokenCodec, !RequestData, !Site}.

(** ** [config/urls.py] *)

Definition openapi_paths : list (list string) := [["api"; "schema"]; ["api"; "docs"]; ["api"; "redoc"]].

Definition site_view (r : HttpRequest) : M Response :=
  if String.prefix "/admin/" (http_path r) then admin_site r else
  match segments (http_path r) with
  | None => ret missing_page
  | Some path =>
      if bool_decide (path = ["health"; "live"]) then ret live
      else if bool_decide (path ∈ [["health"]; ["health"; "ready"]]) then ready (database_up r) (redis_up r)
      else
        let! d := read db in
        match resolve_api d r with
        | Some v => dispatch v r
        | None => if ENABLE_OPENAPI && bool_decide (path ∈ openapi_paths) then schema_site r
                  else ret missing_page
        end
  end.

(** ** The middleware stack *)

(** [convert_exception_to_response], which Django puts around every layer. *)
Definition caught (next : get_response) : get_response := fun p =>
  match next p with
  | (inl e, p') => (inr (error_page e), p')
  | answered => answered
  end.

(** [UserSessionMiddleware] as a layer. *)
Definition user_session_layer (user : option (uuid * User.t)) (next : get_response) : get_response := fun p =>
  match session_middleware user (world p) with
  | (inl e, w) => (inl e, p <| world := w |>)
  | (inr _, w) => next (p <| world := w |>)
  end.

(** [request.request_id = request_id] *)
Definition with_request_id (id : string) (r : HttpRequest) : HttpRequest :=
  MkHttp (MkRequest (remote_addr (http r)) (forwarded_for (http r)) (http_user_agent (http r)) id)
    (http_method r) (http_path r) (http_body r) (django_user r) (csrf_valid r) (api_key_header r) (bearer r)
    (idempotency_header r) (over_limit r).

(** What follows the identification of the request. *)
Definition inner_layers (r : HttpRequest) : get_response :=
  caught (user_session_layer (django_user r)
    (caught (security_headers CONTENT_SECURITY_POLICY
      (caught (request_logging (fst <$> django_user r) (http_method r) (http_path r) (elapsed_ms r) (http r)
        (caught (lift (site_view r)))))))).

(** [incoming] is the X-Request-ID header of the request. *)
Definition application (incoming : string) (r : HttpRequest) : get_response :=
  caught (request_id_middleware incoming (fun id => inner_layers (with_request_id id r))).

(** ** What every answer has *)

Definition header (name : string) (r : Response) : option string :=
  snd <$> List.find (fun h => String.eqb h.1 name) (headers r).

Lemma header_with name value r : header name (with_header name value r) = Some value.
Proof. unfold header, with_header. cbn. by rewrite String.eqb_refl. Qed.

(** The log record of a request. *)
Definition request_record (id : string) (r : HttpRequest) (response : Response) : pyval :=
  PDict [("message", PStr "request.complete"); ("method", PStr (http_method r)); ("path", PStr (http_path r));
         ("status_code", PInt (status_code response)); ("duration_ms", PInt (elapsed_ms r));
         ("ip_address", match get_client_ip (http r) with Some a => PStr a | None => PNone end);
         ("request_id", PStr id);
         ("user_id", PStr match fst <$> django_user r with Some k => uuid_str k | None => "-" end)].


Definition has_header (name : string) (r : Response) : bool :=
  existsb (fun h => String.eqb (Str.casefold h.1) (Str.casefold name)) (headers r).

Lemma has_header_setdefault name other value r :
  has_header name (setdefault other value r) = has_header name r || String.eqb (Str.casefold other) (Str.casefold name)
    && negb (has_header other r).
Proof.
  unfold setdefault, has_header at 1 2. fold (has_header other r). destruct (has_header other r) eqn:Ho; cbn [headers].
  - by rewrite andb_false_r, orb_false_r.
  - rewrite existsb_app. cbn. by rewrite orb_false_r, andb_true_r.
Qed.

Lemma has_header_with name id r :
  String.eqb (Str.casefold "X-Request-ID") (Str.casefold name) = false ->
  has_header name (with_header "X-Request-ID" id r) = has_header name r.
Proof.
  intros Hn. unfold has_header, with_header. cbn [headers existsb fst]. rewrite Hn. cbn [orb].
  induction (headers r) as [|h l IH]; [done|]. cbn [List.filter existsb].
  destruct (String.eqb_spec h.1 "X-Request-ID") as [Hh|]; cbn [negb existsb]; [|by rewrite IH].
  by rewrite IH, Hh, Hn.
Qed.

Lemma chosen_runs incoming w :
  exists id w', chosen_request_id incoming w = (inr id, w') /\ db w' = db w /\
    if valid_request_id incoming then id = incoming else exists n, id = uuid_str (uuid4 n).
Proof.
  unfold chosen_request_id. destruct (valid_request_id incoming); [by exists incoming, w|].
  eexists _, _. split; [done|]. split; [done|]. by eexists.
Qed.

(** What the layers inside the session middleware make of the answer of the
    site. *)
Definition secured (response : Response) : Response :=
  setdefault "Permissions-Policy" "camera=(), microphone=(), geolocation=()"
    (if Str.is_empty CONTENT_SECURITY_POLICY then response
     else setdefault "Content-Security-Policy" CONTENT_SECURITY_POLICY response).

Lemma setdefault_same name value r :
  status_code (setdefault name value r) = status_code r /\ data (setdefault name value r) = data r.
Proof. unfold setdefault. by destruct (existsb _ _). Qed.

Lemma secured_same r : status_code (secured r) = status_code r /\ data (secured r) = data r.
Proof.
  unfold secured. destruct (setdefault_same "Permissions-Policy" "camera=(), microphone=(), geolocation=()"
    (if Str.is_empty CONTENT_SECURITY_POLICY then r
     else setdefault "Content-Security-Policy" CONTENT_SECURITY_POLICY r)) as [-> ->].
  destruct (Str.is_empty _); [done|apply setdefault_same].
Qed.

Lemma secured_headers r :
  has_header "Permissions-Policy" (secured r) = true /\
  (Str.is_empty CONTENT_SECURITY_POLICY = false -> has_header "Content-Security-Policy" (secured r) = true).
Proof.
  unfold secured. rewrite !has_header_setdefault. split.
  - change (String.eqb _ _) with true. cbn [andb]. by destruct (has_header _ _).
  - intros ->. rewrite has_header_setdefault. change (String.eqb _ _) with true at 1. cbn [andb].
    by destruct (has_header _ _).
Qed.

(** The answer of the site, exceptions included. *)
Definition answer_of (res : exn + Response) : Response :=
  match res with inr response => response | inl e => error_page e end.

Lemma log_record_request id user method path status ms ip :
  log_record (MkCtx id user) (request_log method path status ms ip) =
    PDict [("message", PStr "request.complete"); ("method", PStr method); ("path", PStr path);
           ("status_code", PInt status); ("duration_ms", PInt ms);
           ("ip_address", match ip with Some a => PStr a | None => PNone end);
           ("request_id", PStr id); ("user_id", PStr user)].
Proof. by destruct ip. Qed.

Lemma inner_layers_run r p w :
  session_middleware (django_user r) (world p) = (inr tt, w) ->
  inner_layers r p =
    (inr (secured (answer_of (site_view r w).1)),
     MkProcess (ctx p) (log p ++ [request_record (request_id_context (ctx p)) r (answer_of (site_view r w).1)])
       (site_view r w).2).
Proof.
  intros Hs. unfold inner_layers. generalize (site_view r) as m. intros m.
  unfold caught at 1, user_session_layer. rewrite Hs.
  unfold request_record. rewrite <- log_record_request.
  unfold caught, security_headers, request_logging, lift. cbn -[log_record request_log].
  destruct (m w) as [[e|a] w']; cbn -[log_record request_log]; by destruct p as [[] l v].
Qed.

(** The part of a request that touches the world. *)
Definition serve_request (incoming : string) (r : HttpRequest) : M Response :=
  let! id := chosen_request_id incoming in
  session_middleware (django_user r) ;;
  site_view (with_request_id id r).

Lemma application_run incoming r p id w1 w2 :
  chosen_request_id incoming (world p) = (inr id, w1) ->
  session_middleware (django_user r) w1 = (inr tt, w2) ->
  let site := site_view (with_request_id id r) w2 in
  application incoming r p =
    (inr (with_header "X-Request-ID" id (secured (answer_of site.1))),
     MkProcess (ctx p) (log p ++ [request_record id (with_request_id id r) (answer_of site.1)]) site.2) /\
  serve_request incoming r (world p) = site.
Proof.
  intros Hid Hs site. split; [|by unfold serve_request, bind; rewrite Hid, Hs].
  unfold application, caught, request_id_middleware. rewrite Hid.
  set (q := p <| world := w1 |> <| ctx := (ctx p) <| request_id_context := id |> |>).
  rewrite (inner_layers_run (with_request_id id r) q w2 Hs). by destruct p as [[] l w].
Qed.

Lemma application_world incoming r p :
  unique_rows (R := UserSession.t) (db (world p)) ->
  world (application incoming r p).2 = (serve_request incoming r (world p)).2.
Proof.
  intros Hu. destruct (chosen_runs incoming (world p)) as (id & w1 & Hid & Hdb & _).
  destruct (session_middleware_runs (django_user r) w1) as (w2 & Hs); [by rewrite Hdb|].
  by destruct (application_run incoming r p id w1 w2 Hid Hs) as [-> ->].
Qed.

(** [C5] Every request is answered, whatever happens inside.  The request gets one
    identifier: the client's if it is well formed, else a random one.  The answer
    carries it in X-Request-ID, the view saw it (an error envelope repeats it),
    and exactly one log record is written, with it, the status of the answer and
    the user.  Status and body are those of the view, or of Django's error page
    when an exception left it; the security headers are set; and the context
    variables are afterwards what they were. *)
Theorem application_answers incoming r p :
  unique_rows (R := UserSession.t) (db (world p)) ->
  exists id w response p',
    application incoming r p = (inr response, p') /\
    (if valid_request_id incoming then id = incoming else exists n, id = uuid_str (uuid4 n)) /\
    header "X-Request-ID" response = Some id /\
    session_middleware (django_user r) w.1 = (inr tt, w.2) /\ db w.1 = db (world p) /\
    (let site := site_view (with_request_id id r) w.2 in
     status_code response = status_code (answer_of site.1) /\ data response = data (answer_of site.1) /\
     world p' = site.2) /\
    log p' = log p ++ [request_record id (with_request_id id r) response] /\
    ctx p' = ctx p /\
    has_header "Permissions-Policy" response = true /\
    (Str.is_empty CONTENT_SECURITY_POLICY = false -> has_header "Content-Security-Policy" response = true).
Proof.
  intros Hu. destruct (chosen_runs incoming (world p)) as (id & w1 & Hid & Hdb & Hchosen).
  destruct (session_middleware_runs (django_user r) w1) as (w2 & Hs); [by rewrite Hdb|].
  destruct (application_run incoming r p id w1 w2 Hid Hs) as [Hrun _].
  set (a := answer_of _) in Hrun. destruct (secured_same a) as [Hst Hda], (secured_headers a) as [Hpp Hcsp].
  eexists id, (w1, w2), _, _. split; [exact Hrun|]. split; [done|]. split; [apply header_with|].
  split; [done|]. split; [done|]. split; [cbn [fst snd]; fold a; by rewrite <- Hst, <- Hda|].
  split; [cbn [log]; unfold request_record; cbn [status_code with_header]; by rewrite Hst|].
  split; [done|]. by rewrite !has_header_with.
Qed.

(** ** Anonymous requests *)

(** The endpoints of unauthenticated users: [AllowAny], and the token refresh. *)
Definition public_paths : list (list string) :=
  (fun p => ["api"; "v1"; "auth"] ++ p) <$>
    [["register"]; ["login"]; ["token"; "refresh"]; ["verify-email"]; ["resend-verification"];
     ["password-reset"]; ["password-reset"; "confirm"]; ["email"; "change"; "confirm"];
     ["account"; "delete"; "confirm"]].

(** No session, no token, no key. *)
Definition anonymous_request (r : HttpRequest) : Prop :=
  django_user r = None /\ bearer r = None /\ api_key_header r = None.

(** A view whose permissions turn anonymous requests away. *)
Definition closed (v : View) : Prop :=
  authenticates v = true /\ auth_header v = None /\
  forall r a w, auth_user a = None -> check_permissions (permission_classes v r a) a w = (inl NotAuthenticated, w).

Lemma default_closed scopes throttles h : closed (MkView true None (default_permissions scopes) throttles None h).
Proof.
  split; [done|]. split; [done|]. intros r a w Ha. unfold check_permissions, bind, permission_denied. cbn.
  by rewrite Ha.
Qed.

Lemma admin_closed view codename h : Str.is_empty codename = false -> closed (admin_view view codename h).
Proof.
  intros Hc. split; [done|]. split; [done|]. intros r a w Ha.
  unfold check_permissions, bind, permission_denied, view_permission. cbn. by rewrite Ha, Hc.
Qed.

Lemma answering_closed v m : closed v -> closed (answering v m).
Proof. done. Qed.

Lemma on_key_closed args view : (forall k, closed (view k)) -> closed (on_key args view).
Proof. intros Hv. unfold on_key. destruct (_ ≫= _); [apply Hv|by apply answering_closed, Hv]. Qed.

Definition closed_route (rt : Route) : Prop :=
  closed (gate rt) /\ Forall (fun a => forall args d r, closed (a.2 args d r)) (actions rt).

Definition public_or_closed (prefix : list string) (rt : Route) : Prop :=
  closed_route rt \/ exists p, prefix ++ p ∈ public_paths /\ pattern rt = Lit <$> p.

Lemma under_closed prefix s l :
  Forall (public_or_closed (prefix ++ [s])) l -> Forall (public_or_closed prefix) (under s l).
Proof.
  intros Hl. apply Forall_fmap. eapply Forall_impl; [exact Hl|].
  intros rt [Hc|(p & Hp & Hpat)]; [by left|]. right. exists (s :: p). cbn. rewrite Hpat. split; [|done].
  by rewrite <- app_assoc in Hp.
Qed.

Ltac closed_view :=
  intros; cbn [snd]; cbv beta; lazymatch goal with
  | |- closed (on_key _ _) => apply on_key_closed; closed_view
  | |- closed (admin_view _ _ _) => by apply admin_closed
  | |- closed (let '(_, _) := ?x in _) => destruct x; closed_view
  | |- closed _ => first [apply default_closed | by apply admin_closed]
  end.
Ltac table := repeat first [apply Forall_nil_2 | apply Forall_cons_2 | apply Forall_app_2].
Ltac closed_entry := split; [closed_view | table; closed_view].

Lemma router_closed : Forall closed_route router_patterns.
Proof.
  unfold router_patterns. table; try destruct ENABLE_NOTIFICATIONS; try destruct ENABLE_API_KEYS; table;
    closed_entry.
Qed.

Lemma user_patterns_closed : Forall closed_route user_patterns.
Proof. table; closed_entry. Qed.

Lemma auth_patterns_closed : Forall (public_or_closed ["api"; "v1"; "auth"]) auth_patterns.
Proof.
  table; first [left; closed_entry
               | right; eexists; split; [|reflexivity]; vm_compute; repeat constructor].
Qed.

Lemma api_patterns_closed : Forall (public_or_closed []) (under "api" (under "v1" api_patterns)).
Proof.
  do 2 apply under_closed. unfold api_patterns. apply Forall_app_2; [apply under_closed, auth_patterns_closed|].
  apply Forall_app_2; eapply Forall_impl; [exact user_patterns_closed|by left|exact router_closed|by left].
Qed.

Lemma match_literals p path args : match_pattern (Lit <$> p) path = Some args -> path = p.
Proof.
  revert path. induction p as [|s p IH]; intros [|x path] Hm; cbn in Hm; try done.
  destruct (String.eqb_spec s x) as [->|]; [|done]. by rewrite (IH path).
Qed.

Lemma find_route_spec l path rt args :
  find_route l path = Some (rt, args) -> rt ∈ l /\ match_pattern (pattern rt) path = Some args.
Proof.
  induction l as [|rt' l IH]; cbn; intros Hf; [done|].
  destruct (match_pattern (pattern rt') path) eqn:Hm.
  - injection Hf as -> ->. split; [by left|done].
  - destruct (IH Hf). split; [by right|done].
Qed.

Lemma route_view_closed rt args d r : closed_route rt -> closed (route_view rt args d r).
Proof.
  intros [Hg Ha]. unfold route_view.
  destruct (List.find _ _) as [[name view]|] eqn:Hf; [|by apply answering_closed].
  apply List.find_some in Hf as [Hin _]. rewrite List.Forall_forall in Ha. by apply (Ha _ Hin).
Qed.

Lemma anonymous_authentication r w :
  anonymous_request r -> perform_authentication r w = (inr anonymous, w).
Proof.
  intros (Hd & Hb & Hk). unfold perform_authentication, first_success, by_api_key, api_key_authentication,
    by_bearer, by_session, bind. rewrite Hk, Hb, Hd. by destruct ENABLE_API_KEYS.
Qed.

(** [C3] Outside the nine public endpoints no view of the API does anything for an
    anonymous request: whatever the path, the method and the data, the answer is
    403 AUTHENTICATION_REQUIRED and the world is as it was. *)
Theorem anonymous_refused r v w :
  anonymous_request r -> resolve_api (db w) r = Some v ->
  (forall path, segments (http_path r) = Some path -> path ∉ public_paths) ->
  dispatch v r w =
    (inr (MkResponse 403 (error_body "AUTHENTICATION_REQUIRED" "Authentication credentials were not provided."
            (PDict []) (request_id_value (Some (request_id (http r))))) []), w).
Proof.
  intros Ha Hv Hpath. unfold resolve_api in Hv.
  destruct (segments _) as [path|] eqn:Hs; [|done]. cbn [mbind option_bind] in Hv.
  destruct (find_route _ path) as [[rt args]|] eqn:Hf; [|done]. injection Hv as <-.
  apply find_route_spec in Hf as [Hin Hm].
  assert (Hrt : public_or_closed [] rt) by (apply (proj1 (Forall_forall _ _) api_patterns_closed rt Hin)).
  unfold public_or_closed in Hrt. destruct Hrt as [Hc|(p & Hp & Heq)].
  2: { rewrite Heq in Hm. apply match_literals in Hm as ->. by destruct (Hpath p). }
  destruct (route_view_closed rt args (db w) r Hc) as (Hauth & Hheader & Hperm).
  unfold dispatch, try_except.
  rewrite (serve_authenticated _ r anonymous w w Hauth (anonymous_authentication r w Ha)).
  unfold bind at 1. rewrite Hperm by done. by rewrite Hheader.
Qed.

End server.

(** ** Witnesses: a profile request with and without a session *)

Section witnesses.

#[local] Instance demo_codec : TokenCodec :=
  MkCodec (fun n _ => numbered "refresh" n) (fun n _ => numbered "access" n) (fun _ => None) (days 7).

#[local] Instance demo_requests : RequestData := {|
  data_value _ _ := None;
  char_value _ _ := inl ["Not a valid string."];
  email_value _ := inl ["Enter a valid email address."];
  regex_value _ _ _ := inl ["This value does not match the required pattern."];
  boolean_value _ := inl ["Must be a valid boolean."];
  model_value _ _ _ _ _ := None;
  listing _ _ _ := MkList id None 1 (fun _ => "");
  lookup_key _ := None;
  known_timezone _ := true;
  json_serializable _ := true;
  rotate_refresh _ := raise (AuthenticationFailed "Token is invalid or expired");
  metadata_of _ := PNone;
  root_listing _ := PDict [];
|}.

#[local] Instance demo_site : Site := {|
  admin_site _ := ret (MkResponse 302 PNone []);
  schema_site _ := ret (MkResponse 200 PNone []);
  missing_page := MkResponse 404 PNone [];
  error_page _ := MkResponse 500 PNone [];
  elapsed_ms _ := 1;
  database_up _ := true;
  redis_up _ := true;
  CONTENT_SECURITY_POLICY := "default-src 'self'";
  ENABLE_OPENAPI := true;
|}.

Definition profile_request (user : option (uuid * User.t)) : HttpRequest :=
  MkHttp sample_request "GET" "/api/v1/users/me/profile/" "" user true None None "" (fun _ => None).

Definition started : Process := MkProcess initial_ctx [] sample_world.

Lemma application_answers_witness :
  exists response p',
    application (E := demo_env) "trace-1" (profile_request (Some (1%N, sample_user "alice"))) started
      = (inr response, p') /\
    header "X-Request-ID" response = Some "trace-1" /\ status_code response = 200 /\ length (log p') = 1%nat.
Proof.
  destruct (application_answers (E := demo_env) "trace-1" (profile_request (Some (1%N, sample_user "alice")))
    started sample_sessions_unique) as (id & w & response & p' & Hrun & Hid & Hh & _ & _ & _ & Hlog & _).
  change (id = "trace-1") in Hid. subst id. exists response, p'. split; [exact Hrun|]. split; [exact Hh|].
  split; [|by rewrite Hlog].
  assert (Hst : match application (E := demo_env) "trace-1"
    (profile_request (Some (1%N, sample_user "alice"))) started with
    | (inr x, _) => status_code x = 200 | _ => False end) by (vm_compute; reflexivity).
  by rewrite Hrun in Hst.
Defined.

Lemma anonymous_refused_witness :
  exists v, resolve_api (E := demo_env) (db sample_world) (profile_request None) = Some v /\
    match dispatch (E := demo_env) v (profile_request None) sample_world with
    | (inr response, w) => status_code response = 403 /\ w = sample_world
    | _ => False
    end.
Proof.
  assert (Hsome : is_some (resolve_api (E := demo_env) (db sample_world) (profile_request None)) = true)
    by (vm_compute; reflexivity).
  destruct (resolve_api (E := demo_env) (db sample_world) (profile_request None)) as [v|] eqn:Hv; [|done].
  exists v. split; [done|]. rewrite (anonymous_refused (E := demo_env) (profile_request None) v sample_world).
  - by split.
  - by repeat split.
  - exact Hv.
  - intros path Hpath. assert (Hseg : segments (http_path (profile_request None)) = Some ["api"; "v1"; "users"; "me"; "profile"])
      by (vm_compute; reflexivity).
    rewrite Hseg in Hpath. injection Hpath as <-.
    assert (Hnot : bool_decide (["api"; "v1"; "users"; "me"; "profile"] ∈ public_paths) = false)
      by (vm_compute; reflexivity).
    by apply bool_decide_eq_false in Hnot.
Defined.

End witnesses.
