(* ===== verification/Config.v ===== *)
(** * Configuration

    How config/settings turns environment variables into settings:
    [build_database_config] (database.py), the checks of base.py, and the
    refusals of production.py.  The readers of [environ.Env] and
    [importlib.util.find_spec] are parameters. *)

From S2P Require Import Prelude Env Demo Models Orm Common.

(** [env(name)], [env.bool], [env.int] and [env.list] on the text of a
    variable; a URL of [env.db_url]; which modules are installed. *)
Class Environ := MkEnviron {
  variable : string -> option string;
  to_bool : string -> bool;
  to_int : string -> Z;
  to_list : string -> list string;
  db_url : string -> list (string * pyval);
  installed : string -> bool;
}.

Section config.
Context `{Environ}.

Definition env (name fallback : string) : string := default fallback (variable name).
Definition env_bool (name : string) (fallback : bool) : bool :=
  match variable name with Some s => to_bool s | None => fallback end.
Definition env_int (name : string) (fallback : Z) : Z :=
  match variable name with Some s => to_int s | None => fallback end.
Definition env_list (name : string) (fallback : list string) : list string :=
  match variable name with Some s => to_list s | None => fallback end.

(** Checks raise [ImproperlyConfigured]. *)
Definition result (A : Type) : Type := (exn + A)%type.
Definition improper {A} (message : string) : result A := inl (ImproperlyConfigured message).
Definition and_then {A B} (r : result A) (f : A -> result B) : result B :=
  match r with inl e => inl e | inr a => f a end.
Definition require (ok : bool) (message : string) : result unit := if ok then inr tt else improper message.

Notation "r >>> f" := (and_then r (fun _ => f)) (at level 60, right associativity).

(** ** Databases ([config/settings/database.py]) *)

Definition dict : Type := list (string * pyval).

(** [dict[key] = value] *)
Definition dict_set (key : string) (v : pyval) (d : dict) : dict :=
  if existsb (fun kv => String.eqb kv.1 key) d
  then map (fun kv => if String.eqb kv.1 key then (key, v) else kv) d
  else d ++ [(key, v)].

Definition engine_of (d : dict) : string :=
  match List.find (fun kv => String.eqb kv.1 "ENGINE") d with
  | Some (_, PStr s) => s
  | _ => ""
  end.

Definition sqlite_engine : string := "django.db.backends.sqlite3".
Definition postgresql_engine : string := "django.db.backends.postgresql".

(** [resolve] is what [Path(...).expanduser()] and the base directory make of
    the configured path. *)
Definition build_database_config (resolve : string -> string) : result dict :=
  let database_url := Str.strip (env "DATABASE_URL" "") in
  let default_engine := if Str.is_empty database_url then "sqlite" else "postgresql" in
  let selected := Str.casefold (Str.strip (env "DATABASE_ENGINE" default_engine)) in
  if bool_decide (selected ∈ ["sqlite"; "sqlite3"]) then
    let configured_path := Str.strip (env "SQLITE_PATH" "db.sqlite3") in
    if Str.is_empty configured_path
    then improper "SQLITE_PATH cannot be empty when SQLite is selected" else
    let name := if String.eqb configured_path ":memory:" then configured_path else resolve configured_path in
    inr [("ENGINE", PStr sqlite_engine); ("NAME", PStr name); ("CONN_MAX_AGE", PInt 0);
         ("OPTIONS", PDict [("timeout", PInt (env_int "SQLITE_TIMEOUT_SECONDS" 20))])]
  else if bool_decide (selected ∈ ["postgres"; "postgresql"; "postgresql_psycopg"]) then
    if negb (installed "psycopg")
    then improper ("PostgreSQL is selected but its driver is not installed. Install " +:+ Str.quoted ".[postgres]" +:+ ".") else
    let database : result dict :=
      if negb (Str.is_empty database_url) then
        let database := db_url (env "DATABASE_URL" "") in
        if String.eqb (engine_of database) postgresql_engine then inr database
        else improper "DATABASE_URL must be a PostgreSQL URL when DATABASE_ENGINE=postgresql"
      else
        let name := Str.strip (env "DB_NAME" "") in
        let user := Str.strip (env "DB_USER" "") in
        if Str.is_empty name || Str.is_empty user
        then improper "DB_NAME and DB_USER are required when PostgreSQL is selected without DATABASE_URL"
        else inr [("ENGINE", PStr postgresql_engine); ("NAME", PStr name); ("USER", PStr user);
                  ("PASSWORD", PStr (env "DB_PASSWORD" "")); ("HOST", PStr (env "DB_HOST" "localhost"));
                  ("PORT", PStr (env "DB_PORT" "5432"))] in
    and_then database (fun d =>
      inr (dict_set "CONN_HEALTH_CHECKS" (PBool (env_bool "DATABASE_CONN_HEALTH_CHECKS" true))
             (dict_set "CONN_MAX_AGE" (PInt (env_int "DATABASE_CONN_MAX_AGE" 60)) d)))
  else improper ("Unsupported DATABASE_ENGINE '" +:+ selected +:+ "'; choose 'sqlite' or 'postgresql'").

(** ** base.py *)

(** The name before the first argument of [rstrip]. *)
Fixpoint rstrip_slash (s : string) : string :=
  match s with
  | EmptyString => EmptyString
  | String c s' =>
      match rstrip_slash s' with
      | EmptyString => if Ascii.eqb c "/" then EmptyString else String c EmptyString
      | t => String c t
      end
  end.

Definition redis_enabled : bool := env_bool "REDIS_ENABLED" false.
Definition celery_enabled : bool := env_bool "CELERY_ENABLED" false.

(** The settings the services read. *)
Definition base_settings : Settings := {|
  APP_ENV := env "APP_ENV" "development";
  SECRET_KEY := env "SECRET_KEY" "unsafe-development-only-key";
  APP_NAME := env "APP_NAME" "Django Foundation";
  SITE_NAME := env "SITE_NAME" (env "APP_NAME" "Django Foundation");
  SITE_URL := rstrip_slash (env "SITE_URL" "http://localhost:8000");
  PASSWORD_RESET_TIMEOUT := env_int "PASSWORD_RESET_TIMEOUT_SECONDS" 3600;
  REDIS_ENABLED := redis_enabled;
  CELERY_ENABLED := celery_enabled;
  CELERY_TASK_ALWAYS_EAGER := env_bool "CELERY_TASK_ALWAYS_EAGER" false;
  TRUST_PROXY_HEADERS := env_bool "TRUST_PROXY_HEADERS" false;
  TRUSTED_PROXY_IPS := env_list "TRUSTED_PROXY_IPS" [];
  ENABLE_NOTIFICATIONS := env_bool "ENABLE_NOTIFICATIONS" true;
  ENABLE_API_KEYS := env_bool "ENABLE_API_KEYS" true;
  ENABLE_TWO_FACTOR := env_bool "ENABLE_TWO_FACTOR" true;
  ENABLE_WEBHOOKS := env_bool "ENABLE_WEBHOOKS" false;
  LOGIN_MAX_ATTEMPTS := env_int "LOGIN_MAX_ATTEMPTS" 5;
  LOGIN_LOCKOUT_SECONDS := env_int "LOGIN_LOCKOUT_SECONDS" 300;
  LOGIN_MAX_BACKOFF_SECONDS := env_int "LOGIN_MAX_BACKOFF_SECONDS" 3600;
  TOTP_ENCRYPTION_KEY := env "TOTP_ENCRYPTION_KEY" "";
  API_KEY_PEPPER := env "API_KEY_PEPPER" "";
  API_KEY_AVAILABLE_SCOPES := env_list "API_KEY_AVAILABLE_SCOPES"
    ["profile.read"; "profile.write"; "notifications.read"; "notifications.write"];
  MAX_UPLOAD_SIZE := env_int "MAX_UPLOAD_SIZE" (10 * 1024 * 1024);
  MAX_IMAGE_PIXELS := env_int "MAX_IMAGE_PIXELS" 25000000;
  SESSION_RETENTION_DAYS := env_int "SESSION_RETENTION_DAYS" 30;
  TOKEN_RETENTION_DAYS := env_int "TOKEN_RETENTION_DAYS" 7;
  NOTIFICATION_RETENTION_DAYS := env_int "NOTIFICATION_RETENTION_DAYS" 90;
  AUDIT_RETENTION_DAYS := env_int "AUDIT_RETENTION_DAYS" 0;
  FILE_RETENTION_DAYS := env_int "FILE_RETENTION_DAYS" 7;
|}.

(** The cache back end: Redis needs a URL and its client. *)
Definition check_redis : result unit :=
  let url := Str.strip (env "REDIS_URL" "redis://localhost:6379/0") in
  if redis_enabled then
    require (negb (Str.is_empty url)) "REDIS_URL is required when REDIS_ENABLED=true" >>>
    require (installed "django_redis") ("REDIS_ENABLED=true requires the optional " +:+ Str.quoted ".[redis]" +:+ " dependency.")
  else inr tt.

Definition check_storage : result unit :=
  if String.eqb (Str.casefold (env "STORAGE_BACKEND" "local")) "s3"
  then require (installed "storages") ("STORAGE_BACKEND=s3 requires the optional " +:+ Str.quoted ".[s3]" +:+ " dependency.")
  else inr tt.

(** A Redis address needs [REDIS_ENABLED]. *)
Definition is_redis_url (s : string) : bool := String.prefix "redis://" s || String.prefix "rediss://" s.

(** The broker and the result back end, with their defaults without Celery. *)
Definition celery_config : result (string * string) :=
  let broker := Str.strip (env "CELERY_BROKER_URL" "") in
  let backend := Str.strip (env "CELERY_RESULT_BACKEND" "") in
  if celery_enabled then
    require (installed "celery") ("CELERY_ENABLED=true requires the optional " +:+ Str.quoted ".[celery]" +:+ " dependency.") >>>
    require (negb (Str.is_empty broker)) "CELERY_BROKER_URL is required when CELERY_ENABLED=true" >>>
    require (negb (is_redis_url broker && negb redis_enabled))
      "Enable Redis when CELERY_BROKER_URL uses Redis, or configure another broker" >>>
    require (negb (is_redis_url backend && negb redis_enabled))
      "Enable Redis when CELERY_RESULT_BACKEND uses Redis, or configure another backend" >>>
    inr (broker, backend)
  else inr (if Str.is_empty broker then "memory://" else broker,
            if Str.is_empty backend then "cache+memory://" else backend).

Definition check_sentry : result unit :=
  if env_bool "ENABLE_SENTRY" false && negb (Str.is_empty (env "SENTRY_DSN" "")) then
    require (installed "sentry_sdk") "Install the production extra to enable Sentry" >>>
    (if celery_enabled
     then require (installed "sentry_sdk.integrations.celery")
            "The Sentry Celery integration requires the celery optional dependency"
     else inr tt)
  else inr tt.

(** Importing base.py. *)
Definition load_base (resolve : string -> string) : result Settings :=
  and_then (build_database_config resolve) (fun _ =>
  check_redis >>> check_storage >>> and_then celery_config (fun _ =>
  check_sentry >>> inr base_settings)).

(** ** production.py *)

(** [_require(name, value)] for a string. *)
Definition _require (name value : string) : result unit :=
  require (negb (Str.is_empty value)) (name +:+ " must be configured in production").

Definition length_of (s : string) : Z := Z.of_nat (String.length s).

Definition development_mail (backend : string) : bool :=
  bool_decide (backend ∈ ["django.core.mail.backends.console.EmailBackend";
                          "django.core.mail.backends.locmem.EmailBackend";
                          "django.core.mail.backends.dummy.EmailBackend"]).

Definition production_checks (s : Settings) : result unit :=
  _require "SECRET_KEY" (if String.eqb SECRET_KEY "unsafe-development-only-key" then "" else SECRET_KEY) >>>
  _require "ALLOWED_HOSTS" (env "ALLOWED_HOSTS" "") >>>
  _require "TOTP_ENCRYPTION_KEY" TOTP_ENCRYPTION_KEY >>>
  (if ENABLE_API_KEYS then _require "API_KEY_PEPPER" API_KEY_PEPPER else inr tt) >>>
  _require "DEFAULT_FROM_EMAIL" (env "DEFAULT_FROM_EMAIL" "") >>>
  _require "EMAIL_BACKEND" (env "EMAIL_BACKEND" "") >>>
  require (50 <=? length_of SECRET_KEY) "Production SECRET_KEY must contain at least 50 characters" >>>
  require (32 <=? length_of TOTP_ENCRYPTION_KEY)
    "Production TOTP_ENCRYPTION_KEY must contain at least 32 characters" >>>
  require (negb (ENABLE_API_KEYS && (length_of API_KEY_PEPPER <? 32)))
    "Production API_KEY_PEPPER must contain at least 32 characters" >>>
  require (negb (development_mail (env "EMAIL_BACKEND" "django.core.mail.backends.console.EmailBackend")))
    "Production requires a delivery-capable email backend" >>>
  require (String.prefix "https://" SITE_URL) "Production SITE_URL must use HTTPS" >>>
  require (negb (CELERY_ENABLED && CELERY_TASK_ALWAYS_EAGER))
    "CELERY_TASK_ALWAYS_EAGER must be false in production" >>>
  require (negb (TRUST_PROXY_HEADERS && bool_decide (TRUSTED_PROXY_IPS = [])))
    "TRUSTED_PROXY_IPS is required when proxy headers are trusted" >>>
  (if String.eqb (Str.casefold (env "STORAGE_BACKEND" "local")) "s3"
   then _require "AWS_STORAGE_BUCKET_NAME" (env "AWS_STORAGE_BUCKET_NAME" "") else inr tt).

(** The transport settings of production.py. *)
Record Transport := MkTransport {
  SESSION_COOKIE_SECURE : bool;
  CSRF_COOKIE_SECURE : bool;
  SECURE_SSL_REDIRECT : bool;
  SECURE_HSTS_SECONDS : Z;
  SECURE_HSTS_INCLUDE_SUBDOMAINS : bool;
  SECURE_HSTS_PRELOAD : bool;
  SECURE_PROXY_SSL_HEADER : option (string * string);
  ENABLE_OPENAPI : bool;
}.

Definition transport : Transport := {|
  SESSION_COOKIE_SECURE := true;
  CSRF_COOKIE_SECURE := true;
  SECURE_SSL_REDIRECT := env_bool "SECURE_SSL_REDIRECT" true;
  SECURE_HSTS_SECONDS := env_int "SECURE_HSTS_SECONDS" 31536000;
  SECURE_HSTS_INCLUDE_SUBDOMAINS := env_bool "SECURE_HSTS_INCLUDE_SUBDOMAINS" true;
  SECURE_HSTS_PRELOAD := env_bool "SECURE_HSTS_PRELOAD" true;
  SECURE_PROXY_SSL_HEADER :=
    if env_bool "TRUST_PROXY_HEADERS" false then Some ("HTTP_X_FORWARDED_PROTO", "https") else None;
  ENABLE_OPENAPI := env_bool "ENABLE_OPENAPI_IN_PRODUCTION" false && env_bool "ENABLE_OPENAPI" true;
|}.

(** Importing production.py. *)
Definition load_production (resolve : string -> string) : result (Settings * Transport) :=
  and_then (load_base resolve) (fun s => production_checks s >>> inr (s, transport)).

(** ** What production refuses *)

Lemma require_ok ok message : require ok message = inr tt <-> ok = true.
Proof. by destruct ok. Qed.

Lemma and_then_ok {A B} (r : result A) (f : A -> result B) b :
  and_then r f = inr b <-> exists a, r = inr a /\ f a = inr b.
Proof.
  destruct r as [e|a]; cbn; [by split; [|intros (? & ? & _)]|].
  split; [by exists a|]. by intros (a' & [= <-] & Hf).
Qed.

Lemma then_ok {B} (r : result unit) (f : result B) b : (r >>> f) = inr b <-> r = inr tt /\ f = inr b.
Proof. rewrite and_then_ok. split; [by intros ([] & ? & ?)|]. intros [? ?]. by exists tt. Qed.

Lemma guarded_ok (c : bool) (r : result unit) : (if c then r else inr tt) = inr tt <-> (c = true -> r = inr tt).
Proof. destruct c; [by split; auto|by split]. Qed.

(** A configuration production accepts. *)
Record production_safe (s : Settings) : Prop := {
  ps_secret : SECRET_KEY <> "unsafe-development-only-key" /\ 50 <= length_of SECRET_KEY;
  ps_totp : 32 <= length_of TOTP_ENCRYPTION_KEY;
  ps_pepper : ENABLE_API_KEYS = true -> 32 <= length_of API_KEY_PEPPER;
  ps_hosts : env "ALLOWED_HOSTS" "" <> "";
  ps_from : env "DEFAULT_FROM_EMAIL" "" <> "";
  ps_mail : env "EMAIL_BACKEND" "" <> "" /\ development_mail (env "EMAIL_BACKEND" "") = false;
  ps_https : String.prefix "https://" SITE_URL = true;
  ps_eager : CELERY_ENABLED = true -> CELERY_TASK_ALWAYS_EAGER = false;
  ps_proxies : TRUST_PROXY_HEADERS = true -> TRUSTED_PROXY_IPS <> [];
  ps_storage : Str.casefold (env "STORAGE_BACKEND" "local") = "s3" -> env "AWS_STORAGE_BUCKET_NAME" "" <> "";
}.

Lemma not_empty s : negb (Str.is_empty s) = true <-> s <> "".
Proof. by destruct s. Qed.

Lemma long_not_empty n s : 1 <= n -> n <= length_of s -> s <> "".
Proof. intros Hn Hl ->. unfold length_of in Hl. cbn in Hl. lia. Qed.

(** [EMAIL_BACKEND] is read with two defaults; both readings agree once the
    variable has to be set. *)
Lemma mail_default b :
  env "EMAIL_BACKEND" "" <> "" -> env "EMAIL_BACKEND" b = env "EMAIL_BACKEND" "".
Proof. unfold env. by destruct (variable "EMAIL_BACKEND"). Qed.

Lemma production_checks_iff (s : Settings) : production_checks s = inr tt <-> production_safe s.
Proof.
  unfold production_checks, _require.
  rewrite !then_ok, !guarded_ok, !require_ok, !not_empty, !Z.leb_le, !negb_true_iff, !andb_false_iff, Z.ltb_ge,
    bool_decide_eq_false, String.eqb_eq.
  split.
  - intros (Hs & Hh & Ht & Hp & Hf & Hm & Hl & Htl & Hpl & Hd & Hu & He & Hx & Hst). split; try done.
    + by destruct (String.eqb_spec SECRET_KEY "unsafe-development-only-key").
    + intros Hk. destruct Hpl; [congruence|done].
    + split; [done|]. rewrite mail_default in Hd; done.
    + intros Hc. destruct He; [congruence|done].
    + intros Hc. destruct Hx; [congruence|done].
  - intros [[Hs Hl] Ht Hp Hh Hf [Hm Hd] Hu He Hx Hst].
    assert (Hpl : ENABLE_API_KEYS = false \/ 32 <= length_of API_KEY_PEPPER)
      by (destruct ENABLE_API_KEYS; auto).
    assert (Hel : CELERY_ENABLED = false \/ CELERY_TASK_ALWAYS_EAGER = false)
      by (destruct CELERY_ENABLED; auto).
    assert (Hxl : TRUST_PROXY_HEADERS = false \/ TRUSTED_PROXY_IPS <> [])
      by (destruct TRUST_PROXY_HEADERS; auto).
    repeat (split; [first [assumption | rewrite mail_default; assumption | idtac]|]); [| | |done].
    + destruct (String.eqb_spec SECRET_KEY "unsafe-development-only-key"); [done|].
      by apply (long_not_empty 50).
    + by apply (long_not_empty 32).
    + intros Hk. apply (long_not_empty 32); [done|]. by apply Hp.
Qed.


End config.

(** ** Witness: a production environment *)

Section witnesses.

Definition production_variables : list (string * string) :=
  [("APP_ENV", "production"); ("SECRET_KEY", "0123456789012345678901234567890123456789012345678901234567890123");
   ("ALLOWED_HOSTS", "example.test"); ("TOTP_ENCRYPTION_KEY", "01234567890123456789012345678901");
   ("API_KEY_PEPPER", "01234567890123456789012345678901"); ("DEFAULT_FROM_EMAIL", "noreply@example.test");
   ("EMAIL_BACKEND", "django.core.mail.backends.smtp.EmailBackend"); ("SITE_URL", "https://example.test/")].

Definition production_environ : Environ :=
  MkEnviron (fun name => snd <$> List.find (fun kv => String.eqb kv.1 name) production_variables)
    (fun s => String.eqb s "true") (fun _ => 0) (fun s => [s]) (fun _ => []) (fun _ => true).


End witnesses.
