(* ===== verification/SiteAdmin.v ===== *)
(** * The admin site ([common/admin.py] and the [admin.py] of the apps)

    The hooks the repository overrides of [django.contrib.admin]: the audited
    writes, the sign-out of users whose access an administrator changed, the
    ban service behind the ban form, the protected deletions.  The admin's own
    views, which call these hooks in a transaction, are not modelled. *)

From S2P Require Import Prelude Env Models Orm Logic Common Users Sessions Tokens Bans Authorization ApiKeys Resources.

Section site_admin.
Context `{E : Env}.

(** ** [AuditAdminMixin] *)

(** A form field: its name, the column it is stored in, and its value. *)
Record admin_field (R : Type) := MkAdminField {
  af_name : string;
  af_column : string;
  af_value : R -> pyval;
}.
Arguments af_name {R} _.
Arguments af_column {R} _.
Arguments af_value {R} _ _.

(** [before.get(field)] on the columns of the stored row: a foreign key is
    stored under another name. *)
Definition before_value {R} (stored : option R) (f : admin_field R) : pyval :=
  match stored with
  | Some r => if String.eqb (af_name f) (af_column f) then af_value f r else PNone
  | None => PNone
  end.

Section mixin.
Context {R : Type} `{Model R}.
Variables (label : string) (target : uuid -> R -> AuditService.Target).

Definition admin_action (verb : string) : string := "admin." +:+ label +:+ "." +:+ verb.

(** [ModelAdmin.save_model]: the object is inserted, or all its columns are
    written. *)
Definition save_object (change : option uuid) (obj : R) : M uuid :=
  match change with
  | Some k => save_fields k (fun _ => obj) ;; ret k
  | None => let! '(k, _) := create obj in ret k
  end.

(** [save_model]; [changed] are the fields of [form.changed_data], or all
    fields when it is empty. *)
Definition save_model (changed : list (admin_field R)) (change : option uuid) (obj : R)
    (actor : uuid) (request : Request) : M uuid :=
  let! rows := table in
  let stored := change ≫= fun k => rows !! k in
  let! k := save_object change obj in
  AuditService.record
    ((AuditService.on (admin_action (if is_some change then "updated" else "created")) (target k obj)
        (Some actor) (Some request))
      <| AuditService.before := (fun f => (af_name f, before_value stored f)) <$> changed |>
      <| AuditService.after := (fun f => (af_name f, af_value f obj)) <$> changed |>) ;;
  ret k.

Definition record_deletion (x : uuid * R) (actor : uuid) (request : Request) : M unit :=
  AuditService.record
    (AuditService.on (admin_action "deleted") (target x.1 x.2) (Some actor) (Some request)) ;;
  ret tt.

(** [delete_model] and [delete_queryset]; [delete] is the deletion of one
    object, [delete_all] that of a queryset. *)
Definition delete_model (delete : uuid -> M unit) (x : uuid * R) (actor : uuid) (request : Request) : M unit :=
  record_deletion x actor request ;; delete x.1.

Definition delete_queryset (delete_all : list uuid -> M unit) (selected : list (uuid * R)) (actor : uuid)
    (request : Request) : M unit :=
  for_each selected (fun x => record_deletion x actor request) ;;
  delete_all selected.*1.

End mixin.

(** ** Users *)

(** [SafeUserChangeForm.clean_status] *)
Definition clean_status (s : AccountStatus.t) : M AccountStatus.t :=
  if bool_decide (s = AccountStatus.BANNED) || bool_decide (s = AccountStatus.DELETED)
  then raise (ValidationError "Use the ban or account-deletion lifecycle service." "status")
  else ret s.

(** [UserAdmin.save_model]; [User.save] normalises the object. *)
Definition save_user_model (changed : list (admin_field User.t)) (change : option uuid) (obj : User.t)
    (actor : uuid) (request : Request) : M uuid :=
  let! users := table (R := User.t) in
  let before := change ≫= fun k => users !! k in
  let obj := User.before_save obj in
  let! k := save_model "accounts.user" user_target changed change obj actor request in
  match before with
  | Some u =>
      when (negb (String.eqb (User.email u) (User.email obj))
            || negb (bool_decide (User.status u = User.status obj))
            || negb (Bool.eqb (User.is_active u) (User.is_active obj)))
        (revoke_all k (Some actor) (Some request) false ;; revoke_all_jwt k ;; ret tt)
  | None => ret tt
  end ;;
  ret k.

(** [UserAdmin.user_change_password] after the inherited view, which changed
    the password when it answers a redirect. *)
Definition user_change_password (base : M Z) (method : string) (uid actor : uuid) (request : Request) : M Z :=
  let! status := base in
  when (String.eqb method "POST" && (300 <=? status) && (status <? 400))
    (let! user := get_pk (R := User.t) uid in
     revoke_all uid (Some actor) (Some request) false ;;
     revoke_all_jwt uid ;;
     SecurityEventService.record SecurityEventType.PASSWORD_CHANGED (Some uid) (Some request)
       [("changed_by_admin", PBool true)] ;;
     AuditService.record (AuditService.on "admin.password.changed" (user_target uid user) (Some actor)
                            (Some request)) ;;
     ret tt) ;;
  ret status.

(** ** Bans and API keys *)

Definition ban_target (users : gmap uuid User.t) (k : uuid) (b : UserBan.t) : AuditService.Target :=
  AuditService.MkTarget "accounts.userban" k
    ("Ban for " +:+ match users !! UserBan.user b with Some u => User.email u | None => "" end).

(** [UserBanAdmin.save_model]: a new ban goes through the service. *)
Definition save_ban_model (changed : list (admin_field UserBan.t)) (change : option uuid) (obj : UserBan.t)
    (actor : uuid) (request : Request) : M uuid :=
  let! users := table (R := User.t) in
  match change with
  | Some _ => save_model "accounts.userban" (ban_target users) changed change obj actor request
  | None =>
      let! '(k, _) := ban (UserBan.user obj) (UserBan.reason obj) (Some actor) (Some (UserBan.starts_at obj))
        (UserBan.expires_at obj) (Some request) in
      ret k
  end.

(** [UserBanAdmin.revoke_selected] and [APIKeyAdmin.revoke_selected] *)
Definition revoke_selected_bans (selected : list uuid) (actor : uuid) (request : Request) : M unit :=
  let! bans := filter_rows (fun k b => bool_decide (k ∈ selected) && is_none (UserBan.revoked_at b)) in
  for_each bans (fun x => revoke_ban x.1 (Some actor) (Some request)).

Definition revoke_selected_keys (selected : list uuid) (actor : uuid) (request : Request) : M unit :=
  let! keys := filter_rows (fun k a => bool_decide (k ∈ selected) && is_none (APIKey.revoked_at a)) in
  for_each keys (fun x => revoke_key x.1 (Some actor) (Some request)).

(** ** Roles and permissions *)

(** [has_delete_permission] of [RoleAdmin] and [PermissionAdmin]; [base] is the
    inherited answer. *)
Definition has_delete_permission (base : bool) (is_system : option bool) : bool :=
  base && match is_system with None => true | Some s => negb s end.

(** Their [delete_queryset] spares the system rows. *)
Definition delete_roles (selected : list (uuid * Role.t)) (actor : uuid) (request : Request) : M unit :=
  delete_queryset "authorization.role"
    (fun k r => AuditService.MkTarget "authorization.role" k (Role.name r))
    (fun ks =>
       let! used := exists_row (fun _ a => bool_decide (UserRole.role a ∈ ks)) in
       if (used : bool) then raise IntegrityError else
       delete_where (fun _ l => bool_decide (RolePermission.role l ∈ ks)) ;;
       delete_where (R := Role.t) (fun k _ => bool_decide (k ∈ ks)) ;; ret tt)
    (List.filter (fun x => negb (Role.is_system x.2)) selected) actor request.

Definition delete_permissions (selected : list (uuid * Permission.t)) (actor : uuid) (request : Request) : M unit :=
  delete_queryset "authorization.permission"
    (fun k p => AuditService.MkTarget "authorization.permission" k (Permission.codename p))
    (fun ks =>
       delete_where (fun _ l => bool_decide (RolePermission.permission l ∈ ks)) ;;
       delete_where (fun _ o => bool_decide (UserPermissionOverride.permission o ∈ ks)) ;;
       delete_where (R := Permission.t) (fun k _ => bool_decide (k ∈ ks)) ;; ret tt)
    (List.filter (fun x => negb (Permission.is_system x.2)) selected) actor request.

End site_admin.
