(* ===== verification/System.v ===== *)
(** * Steps of the system

    [service_step]: the audit and security journals only grow, the uniqueness
    constraints of all tables survive, and webhook deliveries make progress.
    [serves]: a computation takes such steps, and its mails are complete.
    What a table has to promise for that ([ServiceTable], [OrdinaryTable]), the
    steps of the write primitives, and the tactic [steps] that follows a
    program. *)

From S2P Require Import Prelude Env Models Orm Logic Common Mail Webhooks.

(** ** The constraints of all tables *)

Record constraints (d : DB) : Prop := {
  c_users : unique_rows (R := User.t) d;
  c_profiles : unique_rows (R := UserProfile.t) d;
  c_preferences : unique_rows (R := UserPreferences.t) d;
  c_security_settings : unique_rows (R := UserSecuritySettings.t) d;
  c_tokens : unique_rows (R := OneTimeToken.t) d;
  c_sessions : unique_rows (R := UserSession.t) d;
  c_two_factor : unique_rows (R := TwoFactorCredential.t) d;
  c_recovery : unique_rows (R := RecoveryCode.t) d;
  c_outstanding : unique_rows (R := OutstandingToken.t) d;
  c_blacklisted : unique_rows (R := BlacklistedToken.t) d;
  c_permissions : unique_rows (R := Permission.t) d;
  c_roles : unique_rows (R := Role.t) d;
  c_links : unique_rows (R := RolePermission.t) d;
  c_assignments : unique_rows (R := UserRole.t) d;
  c_overrides : unique_rows (R := UserPermissionOverride.t) d;
  c_throttles : unique_rows (R := LoginThrottleState.t) d;
  c_keys : unique_rows (R := APIKey.t) d;
  c_deliveries : unique_rows (R := WebhookDelivery.t) d;
  c_idempotency : unique_rows (R := IdempotencyRecord.t) d;
  c_settings : unique_rows (R := Setting.t) d;
  c_flags : unique_rows (R := FeatureFlag.t) d;
}.

(** ** Webhook deliveries make progress *)

(** A finished delivery stays as it is; before, the attempts only add up. *)
Definition delivery_progress (r r' : WebhookDelivery.t) : Prop :=
  r' = r \/
  finished (WebhookDelivery.status r) = false /\ WebhookDelivery.attempt_count r <= WebhookDelivery.attempt_count r'.

#[export] Instance delivery_progress_preorder : PreOrder delivery_progress.
Proof.
  split; [by left|]. intros r1 r2 r3 [->|[F1 N1]]; [done|]. intros [->|[F2 N2]]; [by right|]. right. split; [done|lia].
Qed.

Definition deliveries_progress (d d' : DB) : Prop :=
  forall k r, webhook_deliveries d !! k = Some r ->
    exists r', webhook_deliveries d' !! k = Some r' /\ delivery_progress r r'.

#[export] Instance deliveries_progress_preorder : PreOrder deliveries_progress.
Proof.
  split; [intros d k r Hk; by exists r|]. intros d1 d2 d3 H12 H23 k r Hk.
  destruct (H12 k r Hk) as (r2 & Hk2 & P2). destruct (H23 k r2 Hk2) as (r3 & Hk3 & P3). exists r3.
  split; [done|]. by etrans.
Qed.

Lemma deliveries_progress_same d d' : webhook_deliveries d' = webhook_deliveries d -> deliveries_progress d d'.
Proof. intros Heq k r Hk. exists r. by rewrite Heq. Qed.

(** ** The step of a service *)

Definition service_step (d d' : DB) : Prop :=
  journals_grow d d' /\ (constraints d -> constraints d' /\ deliveries_progress d d').

#[export] Instance service_step_preorder : PreOrder service_step.
Proof.
  split; [by intros d; split|]. intros d1 d2 d3 [J1 C1] [J2 C2]. split; [by etrans|].
  intros [H2 P2]%C1. destruct (C2 H2) as [H3 P3]. split; [done|]. by etrans.
Qed.

(** What an operation of the program keeps: its database step, and that the
    mails it sends are complete. *)
Definition serves {A} (m : M A) : Prop := evolves service_step m /\ emits complete_effect m.

Section serves.
Context `{E : Env}.

Lemma serves_inert {A} (m : M A) : evolves service_step m -> inert m -> serves m.
Proof. intros He Hi. split; [done|by apply emits_inert]. Qed.

Lemma serves_ret {A} (a : A) : serves (ret a).
Proof. apply serves_inert; [apply evolves_ret; apply _|done]. Qed.

Lemma serves_raise {A} e : serves (raise (A := A) e).
Proof. apply serves_inert; [apply evolves_raise; apply _|done]. Qed.

Lemma serves_bind {A B} (m : M A) (f : A -> M B) : serves m -> (forall a, serves (f a)) -> serves (bind m f).
Proof. intros [H1 H2] Hf. split; [apply evolves_bind|apply emits_bind]; try done; try apply _; intros a; apply Hf. Qed.

Lemma serves_try {A} (m : M A) (h : exn -> M A) : serves m -> (forall e, serves (h e)) -> serves (try_except m h).
Proof. intros [H1 H2] Hh. split; [apply evolves_try|apply emits_try]; try done; try apply _; intros a; apply Hh. Qed.

Lemma serves_atomic {A} (m : M A) : serves m -> serves (atomic m).
Proof. intros [H1 H2]. split; [apply evolves_atomic|apply emits_atomic]; try done; apply _. Qed.

Lemma serves_when c m : serves m -> serves (when c m).
Proof. intros [H1 H2]. split; [apply evolves_when|apply emits_when]; try done; apply _. Qed.

Lemma serves_for_each {A} (l : list A) (f : A -> M unit) : (forall a, serves (f a)) -> serves (for_each l f).
Proof. intros Hf. split; [apply evolves_for_each|apply emits_for_each]; try apply _; intros a; apply Hf. Qed.

Lemma serves_fold_m {A B} (f : B -> A -> M B) b (l : list A) : (forall b a, serves (f b a)) -> serves (fold_m f b l).
Proof. intros Hf. split; [apply evolves_fold_m|apply emits_fold_m]; try apply _; intros ? ?; apply Hf. Qed.

Lemma serves_read {A} (f : World -> A) : serves (read f).
Proof. apply serves_inert; [apply evolves_read; apply _|done]. Qed.

Lemma serves_now : serves now.
Proof. apply serves_inert; [apply evolves_now; apply _|done]. Qed.

Lemma serves_draw {A} (f : nat -> A) : serves (draw f).
Proof. apply serves_inert; [apply evolves_draw; apply _|done]. Qed.

Lemma serves_on_commit e : complete_effect e -> serves (on_commit e).
Proof. intros He. split; [apply evolves_on_commit; apply _|by apply emits_on_commit]. Qed.

Lemma serves_perform e : complete_effect e -> serves (perform e).
Proof. intros He. split; [apply evolves_perform; apply _|by apply emits_perform]. Qed.

Lemma serves_modify (f : World -> World) :
  (forall w, service_step (db w) (db (f w))) -> (forall w, hooks (f w) = hooks w /\ effects (f w) = effects w) ->
  serves (modify f).
Proof. intros H1 H2. split; [by apply evolves_modify|by apply emits_modify]. Qed.

Lemma serves_get {R} `{!Model R} (P : uuid -> R -> bool) : serves (get P).
Proof. apply serves_inert; [apply evolves_get; apply _|apply inert_get]. Qed.

Lemma serves_get_pk {R} `{!Model R} k : serves (get_pk (R := R) k).
Proof. apply serves_inert; [apply evolves_get_pk; apply _|apply inert_get_pk]. Qed.

Lemma serves_run {A} (m : M A) w r w' :
  serves m -> m w = (r, w') -> service_step (db w) (db w').
Proof. intros [Hm _] Hrun. by apply (evolves_run _ _ _ _ _ Hm Hrun). Qed.

End serves.

(** ** What a table promises the system

    Writing a table that satisfies its constraint keeps all constraints; adding
    a row does not shrink a journal. *)
Class ServiceTable (R : Type) `{Model R} := {
  st_constraints : forall f d, constraints d -> unique_table (f (objects (R := R) d)) ->
    constraints (with_objects f d);
  st_unique : forall d, constraints d -> unique_table (objects (R := R) d);
  st_insert : forall k r d, objects (R := R) d !! k = None -> journals_grow d (with_objects (insert k r) d);
  st_deliveries : forall k r d, objects (R := R) d !! k = None -> deliveries_progress d (with_objects (insert k r) d);
}.

(** Any write leaves the journals and the deliveries alone. *)
Class OrdinaryTable (R : Type) `{Model R} := {
  ot_journals : forall f d, journals_grow d (with_objects (R := R) f d);
  ot_deliveries : forall f d, deliveries_progress d (with_objects (R := R) f d);
}.

Lemma new_delivery_progress k (r : WebhookDelivery.t) d :
  webhook_deliveries d !! k = None -> deliveries_progress d (with_objects (insert k r) d).
Proof.
  intros Hk l x Hl. exists x. split; [|done].
  change (<[k := r]> (webhook_deliveries d) !! l = Some x). rewrite lookup_insert_ne; [done|]. congruence.
Qed.

Ltac table_constraints :=
  intros f d [] Hu; split; solve [assumption | exact Hu].
Ltac constrained_table :=
  split; [table_constraints
         | by intros d []
         | intros k r d Hk; first [by apply journals_grow_same
                                  | split; cbn; first [done | by apply insert_subseteq]]
         | intros k r d Hk; first [by apply deliveries_progress_same | by apply new_delivery_progress]].
(** A table without constraint: no two rows clash. *)
Ltac free_table :=
  split; [intros f d [] Hu; split; assumption
         | by intros d _ k1 k2 r1 r2 _ _ _
         | intros k r d Hk; first [by apply journals_grow_same
                                  | split; cbn; first [done | by apply insert_subseteq]]
         | intros k r d Hk; first [by apply deliveries_progress_same | by apply new_delivery_progress]].

#[export] Instance st_User : ServiceTable User.t. Proof. constrained_table. Qed.
#[export] Instance st_UserProfile : ServiceTable UserProfile.t. Proof. constrained_table. Qed.
#[export] Instance st_UserPreferences : ServiceTable UserPreferences.t. Proof. constrained_table. Qed.
#[export] Instance st_UserSecuritySettings : ServiceTable UserSecuritySettings.t. Proof. constrained_table. Qed.
#[export] Instance st_OneTimeToken : ServiceTable OneTimeToken.t. Proof. constrained_table. Qed.
#[export] Instance st_UserSession : ServiceTable UserSession.t. Proof. constrained_table. Qed.
#[export] Instance st_TwoFactorCredential : ServiceTable TwoFactorCredential.t. Proof. constrained_table. Qed.
#[export] Instance st_RecoveryCode : ServiceTable RecoveryCode.t. Proof. constrained_table. Qed.
#[export] Instance st_OutstandingToken : ServiceTable OutstandingToken.t. Proof. constrained_table. Qed.
#[export] Instance st_BlacklistedToken : ServiceTable BlacklistedToken.t. Proof. constrained_table. Qed.
#[export] Instance st_Permission : ServiceTable Permission.t. Proof. constrained_table. Qed.
#[export] Instance st_Role : ServiceTable Role.t. Proof. constrained_table. Qed.
#[export] Instance st_RolePermission : ServiceTable RolePermission.t. Proof. constrained_table. Qed.
#[export] Instance st_UserRole : ServiceTable UserRole.t. Proof. constrained_table. Qed.
#[export] Instance st_Override : ServiceTable UserPermissionOverride.t. Proof. constrained_table. Qed.
#[export] Instance st_Throttle : ServiceTable LoginThrottleState.t. Proof. constrained_table. Qed.
#[export] Instance st_APIKey : ServiceTable APIKey.t. Proof. constrained_table. Qed.
#[export] Instance st_WebhookDelivery : ServiceTable WebhookDelivery.t. Proof. constrained_table. Qed.
#[export] Instance st_Idempotency : ServiceTable IdempotencyRecord.t. Proof. constrained_table. Qed.
#[export] Instance st_Setting : ServiceTable Setting.t. Proof. constrained_table. Qed.
#[export] Instance st_FeatureFlag : ServiceTable FeatureFlag.t. Proof. constrained_table. Qed.
#[export] Instance st_UserBan : ServiceTable UserBan.t. Proof. free_table. Qed.
#[export] Instance st_SecurityEvent : ServiceTable SecurityEvent.t. Proof. free_table. Qed.
#[export] Instance st_AuditLog : ServiceTable AuditLog.t. Proof. free_table. Qed.
#[export] Instance st_WebhookEndpoint : ServiceTable WebhookEndpoint.t. Proof. free_table. Qed.
#[export] Instance st_WebhookEvent : ServiceTable WebhookEvent.t. Proof. free_table. Qed.
#[export] Instance st_Notification : ServiceTable Notification.t. Proof. free_table. Qed.
#[export] Instance st_StoredFile : ServiceTable StoredFile.t. Proof. free_table. Qed.

Ltac ordinary := split; intros f d; first [by apply journals_grow_same | by apply deliveries_progress_same].
#[export] Instance ot_User : OrdinaryTable User.t. Proof. ordinary. Qed.
#[export] Instance ot_UserProfile : OrdinaryTable UserProfile.t. Proof. ordinary. Qed.
#[export] Instance ot_UserPreferences : OrdinaryTable UserPreferences.t. Proof. ordinary. Qed.
#[export] Instance ot_UserSecuritySettings : OrdinaryTable UserSecuritySettings.t. Proof. ordinary. Qed.
#[export] Instance ot_OneTimeToken : OrdinaryTable OneTimeToken.t. Proof. ordinary. Qed.
#[export] Instance ot_UserSession : OrdinaryTable UserSession.t. Proof. ordinary. Qed.
#[export] Instance ot_TwoFactorCredential : OrdinaryTable TwoFactorCredential.t. Proof. ordinary. Qed.
#[export] Instance ot_RecoveryCode : OrdinaryTable RecoveryCode.t. Proof. ordinary. Qed.
#[export] Instance ot_OutstandingToken : OrdinaryTable OutstandingToken.t. Proof. ordinary. Qed.
#[export] Instance ot_BlacklistedToken : OrdinaryTable BlacklistedToken.t. Proof. ordinary. Qed.
#[export] Instance ot_Permission : OrdinaryTable Permission.t. Proof. ordinary. Qed.
#[export] Instance ot_Role : OrdinaryTable Role.t. Proof. ordinary. Qed.
#[export] Instance ot_RolePermission : OrdinaryTable RolePermission.t. Proof. ordinary. Qed.
#[export] Instance ot_UserRole : OrdinaryTable UserRole.t. Proof. ordinary. Qed.
#[export] Instance ot_Override : OrdinaryTable UserPermissionOverride.t. Proof. ordinary. Qed.
#[export] Instance ot_Throttle : OrdinaryTable LoginThrottleState.t. Proof. ordinary. Qed.
#[export] Instance ot_APIKey : OrdinaryTable APIKey.t. Proof. ordinary. Qed.
#[export] Instance ot_Idempotency : OrdinaryTable IdempotencyRecord.t. Proof. ordinary. Qed.
#[export] Instance ot_Setting : OrdinaryTable Setting.t. Proof. ordinary. Qed.
#[export] Instance ot_FeatureFlag : OrdinaryTable FeatureFlag.t. Proof. ordinary. Qed.
#[export] Instance ot_UserBan : OrdinaryTable UserBan.t. Proof. ordinary. Qed.
#[export] Instance ot_WebhookEndpoint : OrdinaryTable WebhookEndpoint.t. Proof. ordinary. Qed.
#[export] Instance ot_WebhookEvent : OrdinaryTable WebhookEvent.t. Proof. ordinary. Qed.
#[export] Instance ot_Notification : OrdinaryTable Notification.t. Proof. ordinary. Qed.
#[export] Instance ot_StoredFile : OrdinaryTable StoredFile.t. Proof. ordinary. Qed.

(** ** Writes *)

Section writes.
Context `{E : Env} {R : Type} `{!Model R, !ModelLaws R, !ServiceTable R}.

Lemma create_steps (r : R) : serves (create r).
Proof.
  apply serves_inert; [|apply inert_create].
  apply evolves_create; [exact _|]. intros d k Hk Hc. split; [by apply st_insert|].
  intros Hd. split; [|by apply st_deliveries].
  apply st_constraints; [done|]. by apply unique_table_insert; [apply st_unique|].
Qed.

Context `{!OrdinaryTable R}.

(** A write of an ordinary table that keeps its constraint. *)
Lemma ordinary_write (f : gmap uuid R -> gmap uuid R) d :
  (unique_table (objects d) -> unique_table (f (objects d))) -> service_step d (with_objects f d).
Proof.
  intros Hf. split; [by apply ot_journals|]. intros Hd. split; [|by apply ot_deliveries].
  apply st_constraints; [done|]. by apply Hf, st_unique.
Qed.

Lemma save_fields_steps k (f : R -> R) : serves (save_fields k f).
Proof.
  apply serves_inert; [|apply inert_save_fields]. apply evolves_save_fields; [exact _|]. intros d r Hk Hc.
  apply ordinary_write. intros Hu. by apply unique_table_insert.
Qed.

Lemma delete_where_steps (P : uuid -> R -> bool) : serves (delete_where P).
Proof.
  apply serves_inert; [|apply inert_delete_where]. apply evolves_delete_where. intros d.
  apply ordinary_write. apply unique_table_remove.
Qed.

Lemma delete_row_steps k : serves (delete_row (R := R) k).
Proof.
  apply serves_inert; [|by intros w]. apply evolves_delete_row. intros d. apply ordinary_write.
  intros Hu k1 k2 r1 r2 [_ H1]%lookup_delete_Some [_ H2]%lookup_delete_Some. by eapply Hu.
Qed.

Lemma update_where_steps (P : uuid -> R -> bool) f :
  (forall a b, row_clash (f a) b = row_clash a b) -> serves (update_where P f).
Proof.
  intros Hf. apply serves_inert; [|apply inert_update_where]. apply evolves_update_where. intros d.
  apply ordinary_write. apply unique_table_update; [|done]. intros a b. by rewrite Hf, row_clash_sym, Hf, row_clash_sym.
Qed.

Lemma get_or_create_steps (P : uuid -> R -> bool) new : serves new -> serves (get_or_create P new).
Proof.
  intros [Hn He]. split; [|by apply emits_get_or_create].
  apply evolves_get_or_create; [exact _|done|]. intros r. apply create_steps.
Qed.

Lemma update_or_create_steps (P : uuid -> R -> bool) change new :
  serves change -> serves new -> serves (update_or_create P change new).
Proof.
  intros [Hc Ec] [Hn En]. split; [|by apply emits_update_or_create].
  apply evolves_update_or_create; [exact _|done|done| |].
  - intros k f. apply save_fields_steps.
  - intros r. apply create_steps.
Qed.

Lemma enqueue_email_steps template recipient subject context :
  shows_all template context = true -> serves (enqueue_email template recipient subject context).
Proof. intros Hs. by apply serves_perform, email_complete. Qed.

End writes.

(** The writes outside the tables: cache, HTTP session, session store. *)
Lemma session_store_steps (d d' : DB) : d' = d <| django_sessions := django_sessions d' |> -> service_step d d'.
Proof.
  intros ->. split; [by apply journals_grow_same|]. intros [].
  split; [split; assumption|by apply deliveries_progress_same].
Qed.

(** A mail whose context has what its template shows; no other effect has a
    condition. *)
Ltac complete := first [exact I | apply email_complete; first [reflexivity | cbn; repeat case_match; reflexivity]].

Ltac step_write :=
  lazymatch goal with
  | |- serves (create _) => apply create_steps
  | |- serves (save_fields _ _) => apply save_fields_steps
  | |- serves (delete_where _) => apply delete_where_steps
  | |- serves (delete_row _) => apply delete_row_steps
  | |- serves (update_where _ _) => apply update_where_steps; by intros
  | |- serves (get_or_create _ _) => apply get_or_create_steps
  | |- serves (update_or_create _ _ _) => apply update_or_create_steps
  | |- serves (enqueue_email _ _ _ _) => apply enqueue_email_steps; reflexivity
  | |- serves (on_commit _) => apply serves_on_commit; complete
  | |- serves (perform _) => apply serves_perform; complete
  | |- serves (modify_db _) => apply serves_modify; [intros ?; apply session_store_steps; reflexivity|by intros]
  | |- serves (modify _) =>
      apply serves_modify; [intros ?; first [reflexivity | apply session_store_steps; reflexivity]|by intros]
  end.
Ltac serve_step :=
  lazymatch goal with
  | |- serves (bind _ _) => apply serves_bind; [|intros ?]
  | |- serves (atomic _) => apply serves_atomic
  | |- serves (try_except _ _) => apply serves_try; [|intros ?]
  | |- serves (when _ _) => apply serves_when
  | |- serves (for_each _ _) => apply serves_for_each; intros ?
  | |- serves (fold_m _ _ _) => apply serves_fold_m; intros ? ?
  | |- serves (ret _) => apply serves_ret
  | |- serves (raise _) => apply serves_raise
  | |- serves (read _) => apply serves_read
  | |- serves table => apply serves_read
  | |- serves (filter_rows _) => apply serves_read
  | |- serves (exists_row _) => apply serves_read
  | |- serves (first_row _) => apply serves_read
  | |- serves (first_row_by _ _) => apply serves_read
  | |- serves now => apply serves_now
  | |- serves (draw _) => apply serves_draw
  | |- serves (get _) => apply serves_get
  | |- serves (get_pk _) => apply serves_get_pk
  | |- serves (match ?x with _ => _ end) => destruct x
  | |- serves (let '(_, _) := ?x in _) => destruct x
  end.
Create HintDb steps discriminated.
#[export] Hint Constants Opaque : steps.
#[export] Hint Variables Opaque : steps.
Ltac steps :=
  repeat first [progress (lazymatch goal with
                          | |- serves (bind _ _) => serve_step
                          | |- serves (atomic _) => serve_step
                          | |- serves (match _ with _ => _ end) => serve_step
                          end)
               | solve [auto 1 with steps nocore] | step_write | serve_step].

(** The second half alone, for what is not a step of a service. *)
Ltac emit_step :=
  lazymatch goal with
  | |- emits _ (bind _ _) => apply emits_bind; [|intros ?]
  | |- emits _ (try_except _ _) => apply emits_try; [|intros ?]
  | |- emits _ (atomic _) => apply emits_atomic
  | |- emits _ (when _ _) => apply emits_when
  | |- emits _ (for_each _ _) => apply emits_for_each; intros ?
  | |- emits _ (match ?x with _ => _ end) => destruct x
  | |- emits _ (save_fields _ _) => apply emits_inert, inert_save_fields
  | |- emits complete_effect ?m => cut (serves m); [by intros []|solve [steps]]
  end.

(** ** Moves of the whole system

    A service only adds to the journals; a deletion in the admin site may clear
    who an entry is about, and the retention task removes audit entries. *)

(** Every row is still there, as it was or cleared. *)
Definition kept {R} (clear : R -> R) (t t' : gmap uuid R) : Prop :=
  forall k r, t !! k = Some r -> exists r', t' !! k = Some r' /\ (r' = r \/ r' = clear r).

Lemma kept_refl {R} (clear : R -> R) t : kept clear t t.
Proof. intros k r Hk. exists r. auto. Qed.

Lemma kept_subseteq {R} (clear : R -> R) (t t' : gmap uuid R) : t ⊆ t' -> kept clear t t'.
Proof. intros Hs k r Hk. exists r. split; [by eapply lookup_weaken|by left]. Qed.

Lemma kept_trans {R} (clear : R -> R) t1 t2 t3 :
  (forall r, clear (clear r) = clear r) -> kept clear t1 t2 -> kept clear t2 t3 -> kept clear t1 t3.
Proof.
  intros Hc H12 H23 k r Hk. destruct (H12 k r Hk) as (r2 & Hk2 & H2). destruct (H23 k r2 Hk2) as (r3 & Hk3 & H3).
  exists r3. split; [done|]. destruct H2 as [->| ->], H3 as [->| ->]; rewrite ?Hc; auto.
Qed.

Definition nobody (e : SecurityEvent.t) : SecurityEvent.t := e <| SecurityEvent.user := None |>.
Definition no_actor (a : AuditLog.t) : AuditLog.t := a <| AuditLog.actor := None |>.

Section moves.
Context `{E : Env}.

Definition system_step (d d' : DB) : Prop :=
  kept nobody (security_events d) (security_events d') /\
  (AUDIT_RETENTION_DAYS <= 0 -> kept no_actor (audit_logs d) (audit_logs d')) /\
  (constraints d -> constraints d').

#[export] Instance system_step_preorder : PreOrder system_step.
Proof.
  split.
  - intros d. split; [apply kept_refl|]. split; [intros _; apply kept_refl|done].
  - intros d1 d2 d3 (S1 & A1 & C1) (S2 & A2 & C2). split; [by apply (kept_trans _ _ (security_events d2))|].
    split; [|auto]. intros Hd. by apply (kept_trans _ _ (audit_logs d2)); [|apply A1|apply A2].
Qed.

Lemma service_step_system d d' : service_step d d' -> system_step d d'.
Proof.
  intros [[A S] C]. split; [by apply kept_subseteq|]. split; [intros _; by apply kept_subseteq|]. by intros [? _]%C.
Qed.

Lemma evolves_system {A} (m : M A) : serves m -> evolves system_step m.
Proof. intros [Hm _] w. apply service_step_system, Hm. Qed.

(** A delivery that is there before and after a move has made progress. *)
Definition deliveries_after (d d' : DB) : Prop :=
  forall k r r', webhook_deliveries d !! k = Some r -> webhook_deliveries d' !! k = Some r' -> delivery_progress r r'.

Lemma deliveries_after_progress d d' : deliveries_progress d d' -> deliveries_after d d'.
Proof. intros Hp k r r' Hk Hk'. destruct (Hp k r Hk) as (x & Hx & P). by replace r' with x by congruence. Qed.

(** Deletions take deliveries away and change none. *)
Definition deliveries_shrink (d d' : DB) : Prop := webhook_deliveries d' ⊆ webhook_deliveries d.

#[export] Instance deliveries_shrink_preorder : PreOrder deliveries_shrink.
Proof.
  split; [intros d; unfold deliveries_shrink; reflexivity|]. intros d1 d2 d3. unfold deliveries_shrink.
  intros H12 H23. by transitivity (webhook_deliveries d2).
Qed.

Lemma deliveries_after_shrink d d' : deliveries_shrink d d' -> deliveries_after d d'.
Proof. intros Hs k r r' Hk Hk'. pose proof (lookup_weaken _ _ _ _ Hk' Hs) as Hr. left. congruence. Qed.

End moves.
