(* ===== verification/Steps.v ===== *)
(** * One step of every service

    Each operation of the services moves the database along [service_step] and
    sends complete mails only ([serves]); the lemmas form the hint database [steps]. *)

From S2P Require Import Prelude Env Models Orm Logic Common Mail Users Tokens Sessions TwoFactor LoginProtection Authentication Accounts Bans Authorization ApiKeys Webhooks Idempotency Services System.

Section ops.
Context `{E : Env}.

(** ** Journals, cryptography, users *)

Lemma audit_steps (a : AuditService.args) : serves (AuditService.record a).
Proof. unfold AuditService.record. steps. Qed.
#[local] Hint Resolve audit_steps : steps.
Lemma event_steps e u r m : serves (SecurityEventService.record e u r m).
Proof. unfold SecurityEventService.record. steps. Qed.
#[local] Hint Resolve event_steps : steps.
Lemma key_material_steps p : serves (key_material p).
Proof. unfold key_material. steps. Qed.
#[local] Hint Resolve key_material_steps : steps.
Lemma encrypt_value_steps v p : serves (encrypt_value v p).
Proof. unfold encrypt_value. steps. Qed.
#[local] Hint Resolve encrypt_value_steps : steps.
Lemma decrypt_value_steps v p : serves (decrypt_value v p).
Proof. unfold decrypt_value. steps. Qed.
#[local] Hint Resolve decrypt_value_steps : steps.
Lemma generate_token_steps n : serves (generate_token n).
Proof. unfold generate_token. steps. Qed.
#[local] Hint Resolve generate_token_steps : steps.
Lemma hash_password_steps p : serves (hash_password p).
Proof. unfold hash_password. steps. Qed.
#[local] Hint Resolve hash_password_steps : steps.
Lemma can_authenticate_now_steps k u : serves (can_authenticate_now k u).
Proof. unfold can_authenticate_now, has_active_ban. steps. Qed.
#[local] Hint Resolve can_authenticate_now_steps : steps.
Lemma insert_user_steps a b c d : serves (_create_user a b c d).
Proof. unfold _create_user. steps. Qed.
#[local] Hint Resolve insert_user_steps : steps.
Lemma create_user_steps a b c d e : serves (create_user a b c d e).
Proof. unfold create_user. steps. Qed.
#[local] Hint Resolve create_user_steps : steps.
Lemma create_superuser_steps a b c d e : serves (create_superuser a b c d e).
Proof. unfold create_superuser. steps. Qed.
#[local] Hint Resolve create_superuser_steps : steps.
Lemma save_user_steps k f : serves (save_user k f).
Proof. unfold save_user. steps. Qed.
#[local] Hint Resolve save_user_steps : steps.
Lemma security_settings_of_steps k : serves (security_settings_of k).
Proof. unfold security_settings_of. steps. Qed.
#[local] Hint Resolve security_settings_of_steps : steps.
Lemma new_preferences_steps k : serves (new_preferences k).
Proof. unfold new_preferences. steps. Qed.
#[local] Hint Resolve new_preferences_steps : steps.
Lemma preferences_of_steps k : serves (preferences_of k).
Proof. unfold preferences_of. steps. Qed.
#[local] Hint Resolve preferences_of_steps : steps.
Lemma is_locked_steps s : serves (is_locked s).
Proof. unfold is_locked. steps. Qed.
#[local] Hint Resolve is_locked_steps : steps.
Lemma save_security_settings_steps k f : serves (save_security_settings k f).
Proof. unfold save_security_settings. steps. Qed.
#[local] Hint Resolve save_security_settings_steps : steps.

(** ** Tokens and sessions *)

Lemma issue_steps a b c d : serves (issue a b c d).
Proof. unfold issue. steps. Qed.
#[local] Hint Resolve issue_steps : steps.
Lemma consume_steps a b : serves (consume a b).
Proof. unfold consume. steps. Qed.
#[local] Hint Resolve consume_steps : steps.
Lemma revoke_all_jwt_steps a : serves (revoke_all_jwt a).
Proof. unfold revoke_all_jwt. steps. Qed.
#[local] Hint Resolve revoke_all_jwt_steps : steps.
Lemma session_save_steps  : serves (session_save).
Proof. unfold session_save. steps. Qed.
#[local] Hint Resolve session_save_steps : steps.
Lemma session_flush_steps  : serves (session_flush).
Proof. unfold session_flush. steps. Qed.
#[local] Hint Resolve session_flush_steps : steps.
Lemma register_steps a b : serves (register a b).
Proof. unfold register. steps. Qed.
#[local] Hint Resolve register_steps : steps.
Lemma current_steps  : serves (current).
Proof. unfold current. steps. Qed.
#[local] Hint Resolve current_steps : steps.
Lemma revoke_steps a b c : serves (revoke a b c).
Proof. unfold revoke. steps. Qed.
#[local] Hint Resolve revoke_steps : steps.
Lemma revoke_all_steps a b c d : serves (revoke_all a b c d).
Proof. unfold revoke_all. steps. Qed.
#[local] Hint Resolve revoke_all_steps : steps.
Lemma session_middleware_steps a : serves (session_middleware a).
Proof. unfold session_middleware. steps. Qed.
#[local] Hint Resolve session_middleware_steps : steps.
Lemma cleanup_sessions_steps  : serves (cleanup_sessions).
Proof. unfold cleanup_sessions. steps. Qed.
#[local] Hint Resolve cleanup_sessions_steps : steps.

(** ** Two-factor authentication *)

Lemma delete_credentials_steps P : serves (delete_credentials P).
Proof. unfold delete_credentials. steps. Qed.
#[local] Hint Resolve delete_credentials_steps : steps.
Lemma begin_setup_steps a b c : serves (begin_setup a b c).
Proof. unfold begin_setup. steps. Qed.
#[local] Hint Resolve begin_setup_steps : steps.
Lemma totp_check_steps a b : serves (totp_check a b).
Proof. unfold totp_check. steps. Qed.
#[local] Hint Resolve totp_check_steps : steps.
Lemma draw_codes_steps n : serves (draw_codes n).
Proof. induction n; cbn; steps. Qed.
#[local] Hint Resolve draw_codes_steps : steps.
Lemma replace_recovery_codes_steps k : serves (_replace_recovery_codes k).
Proof. unfold _replace_recovery_codes. steps. Qed.
#[local] Hint Resolve replace_recovery_codes_steps : steps.
Lemma confirm_setup_steps a b c d : serves (confirm_setup a b c d).
Proof. unfold confirm_setup. steps. Qed.
#[local] Hint Resolve confirm_setup_steps : steps.
Lemma consume_recovery_code_steps a b c : serves (_consume_recovery_code a b c).
Proof. unfold _consume_recovery_code. steps. Qed.
#[local] Hint Resolve consume_recovery_code_steps : steps.
Lemma verify_steps a b : serves (verify a b).
Proof. unfold verify. steps. Qed.
#[local] Hint Resolve verify_steps : steps.
Lemma regenerate_codes_steps a b c d : serves (regenerate_codes a b c d).
Proof. unfold regenerate_codes. steps. Qed.
#[local] Hint Resolve regenerate_codes_steps : steps.
Lemma disable_steps a b c d e : serves (disable a b c d e).
Proof. unfold disable. steps. Qed.
#[local] Hint Resolve disable_steps : steps.

(** ** Login protection *)

Lemma cache_get_steps k : serves (cache_get k).
Proof. unfold cache_get. steps. Qed.
#[local] Hint Resolve cache_get_steps : steps.
Lemma cache_ttl_steps k : serves (cache_ttl k).
Proof. unfold cache_ttl. steps. Qed.
#[local] Hint Resolve cache_ttl_steps : steps.
Lemma cache_set_steps k v n : serves (cache_set k v n).
Proof. unfold cache_set. steps. Qed.
#[local] Hint Resolve cache_set_steps : steps.
Lemma cache_delete_many_steps l : serves (cache_delete_many l).
Proof. unfold cache_delete_many. steps. Qed.
#[local] Hint Resolve cache_delete_many_steps : steps.
Lemma cache_add_steps k v n : serves (cache_add k v n).
Proof. unfold cache_add. steps. Qed.
#[local] Hint Resolve cache_add_steps : steps.
Lemma cache_incr_steps k : serves (cache_incr k).
Proof. unfold cache_incr. steps. Qed.
#[local] Hint Resolve cache_incr_steps : steps.
Lemma check_steps a b : serves (check a b).
Proof. unfold check, _check_cache, _check_database. steps. Qed.
#[local] Hint Resolve check_steps : steps.
Lemma cache_failure_steps d : serves (cache_failure d).
Proof. unfold cache_failure. steps. Qed.
#[local] Hint Resolve cache_failure_steps : steps.
Lemma database_failure_steps t d : serves (database_failure t d).
Proof. unfold database_failure. steps. Qed.
#[local] Hint Resolve database_failure_steps : steps.
Lemma register_failure_steps a b : serves (register_failure a b).
Proof. unfold register_failure, _register_cache_failure, _register_database_failure. steps. Qed.
#[local] Hint Resolve register_failure_steps : steps.
Lemma reset_steps a b : serves (reset a b).
Proof. unfold reset. steps. Qed.
#[local] Hint Resolve reset_steps : steps.
Lemma lock_known_account_steps a b c : serves (lock_known_account a b c).
Proof. unfold lock_known_account. steps. Qed.
#[local] Hint Resolve lock_known_account_steps : steps.
Lemma cleanup_login_attempts_steps  : serves (cleanup_login_attempts).
Proof. unfold cleanup_login_attempts. steps. Qed.
#[local] Hint Resolve cleanup_login_attempts_steps : steps.

(** ** Signing in *)

Lemma authenticate_steps a b : serves (authenticate a b).
Proof. unfold authenticate. steps. Qed.
#[local] Hint Resolve authenticate_steps : steps.
Lemma cycle_key_steps  : serves (cycle_key).
Proof. unfold cycle_key. steps. Qed.
#[local] Hint Resolve cycle_key_steps : steps.
Lemma django_login_steps a : serves (django_login a).
Proof. unfold django_login. steps. Qed.
#[local] Hint Resolve django_login_steps : steps.
Lemma set_expiry_steps n : serves (set_expiry n).
Proof. unfold set_expiry. steps. Qed.
#[local] Hint Resolve set_expiry_steps : steps.
Lemma pass_account_lock_steps a b : serves (pass_account_lock a b).
Proof. unfold pass_account_lock. steps. Qed.
#[local] Hint Resolve pass_account_lock_steps : steps.
Lemma pass_status_steps a b : serves (pass_status a b).
Proof. unfold pass_status. steps. Qed.
#[local] Hint Resolve pass_status_steps : steps.
Lemma two_factor_enabled_steps a : serves (two_factor_enabled a).
Proof. unfold two_factor_enabled. steps. Qed.
#[local] Hint Resolve two_factor_enabled_steps : steps.
Lemma pass_two_factor_steps a b c d : serves (pass_two_factor a b c d).
Proof. unfold pass_two_factor. steps. Qed.
#[local] Hint Resolve pass_two_factor_steps : steps.
Lemma announce_device_steps a b c d : serves (announce_device a b c d).
Proof. unfold announce_device. steps. Qed.
#[local] Hint Resolve announce_device_steps : steps.
Lemma open_session_steps a b c d e f : serves (open_session a b c d e f).
Proof. unfold open_session. steps. Qed.
#[local] Hint Resolve open_session_steps : steps.
Lemma reject_login_steps T a b c : serves (reject_login (A := T) a b c).
Proof. unfold reject_login. steps. Qed.
#[local] Hint Resolve reject_login_steps : steps.
Lemma login_steps a b c d e : serves (login a b c d e).
Proof. unfold login. steps. Qed.
#[local] Hint Resolve login_steps : steps.
Lemma ensure_account_available_steps a b : serves (ensure_account_available a b).
Proof. unfold ensure_account_available. steps. Qed.
#[local] Hint Resolve ensure_account_available_steps : steps.
Lemma cleanup_tokens_steps  : serves (cleanup_tokens).
Proof. unfold cleanup_tokens. steps. Qed.
#[local] Hint Resolve cleanup_tokens_steps : steps.

(** ** Accounts *)

Lemma validate_password_steps a b : serves (validate_password a b).
Proof. unfold validate_password. steps. Qed.
#[local] Hint Resolve validate_password_steps : steps.
Lemma register_user_steps a b c d e f : serves (register_user a b c d e f).
Proof. unfold register_user. steps. Qed.
#[local] Hint Resolve register_user_steps : steps.
Lemma verify_email_steps a b : serves (verify_email a b).
Proof. unfold verify_email. steps. Qed.
#[local] Hint Resolve verify_email_steps : steps.
Lemma resend_verification_steps a : serves (resend_verification a).
Proof. unfold resend_verification. steps. Qed.
#[local] Hint Resolve resend_verification_steps : steps.
Lemma request_password_reset_steps a : serves (request_password_reset a).
Proof. unfold request_password_reset. steps. Qed.
#[local] Hint Resolve request_password_reset_steps : steps.
Lemma install_password_steps a b c d e f g : serves (install_password a b c d e f g).
Proof. unfold install_password. steps. Qed.
#[local] Hint Resolve install_password_steps : steps.
Lemma reset_password_steps a b c : serves (reset_password a b c).
Proof. unfold reset_password. steps. Qed.
#[local] Hint Resolve reset_password_steps : steps.
Lemma change_password_steps a b c d : serves (change_password a b c d).
Proof. unfold change_password. steps. Qed.
#[local] Hint Resolve change_password_steps : steps.
Lemma email_taken_steps a b : serves (email_taken a b).
Proof. unfold email_taken. steps. Qed.
#[local] Hint Resolve email_taken_steps : steps.
Lemma request_email_change_steps a b c d : serves (request_email_change a b c d).
Proof. unfold request_email_change. steps. Qed.
#[local] Hint Resolve request_email_change_steps : steps.
Lemma metadata_item_steps a b : serves (metadata_item a b).
Proof. unfold metadata_item. steps. Qed.
#[local] Hint Resolve metadata_item_steps : steps.
Lemma confirm_email_change_steps a b : serves (confirm_email_change a b).
Proof. unfold confirm_email_change. steps. Qed.
#[local] Hint Resolve confirm_email_change_steps : steps.
Lemma full_clean_steps a b : serves (full_clean a b).
Proof. unfold full_clean. steps. Qed.
#[local] Hint Resolve full_clean_steps : steps.
Lemma change_username_steps a b c : serves (change_username a b c).
Proof. unfold change_username. steps. Qed.
#[local] Hint Resolve change_username_steps : steps.
Lemma deactivate_steps a b c : serves (deactivate a b c).
Proof. unfold deactivate. steps. Qed.
#[local] Hint Resolve deactivate_steps : steps.
Lemma request_deletion_steps a b c : serves (request_deletion a b c).
Proof. unfold request_deletion. steps. Qed.
#[local] Hint Resolve request_deletion_steps : steps.
Lemma confirm_deletion_steps a b : serves (confirm_deletion a b).
Proof. unfold confirm_deletion. steps. Qed.
#[local] Hint Resolve confirm_deletion_steps : steps.

(** ** Bans *)

Lemma ban_steps a b c d e f : serves (ban a b c d e f).
Proof. unfold ban. steps. Qed.
#[local] Hint Resolve ban_steps : steps.
Lemma revoke_ban_steps a b c : serves (revoke_ban a b c).
Proof. unfold revoke_ban. steps. Qed.
#[local] Hint Resolve revoke_ban_steps : steps.
Lemma activate_ban_steps a b : serves (activate_ban a b).
Proof. unfold activate_ban. steps. Qed.
#[local] Hint Resolve activate_ban_steps : steps.
Lemma release_steps a b c : serves (release a b c).
Proof. unfold release. steps. Qed.
#[local] Hint Resolve release_steps : steps.
Lemma expire_temporary_bans_steps  : serves (expire_temporary_bans).
Proof. unfold expire_temporary_bans. steps. Qed.
#[local] Hint Resolve expire_temporary_bans_steps : steps.

(** ** Authorization *)

Lemma has_permission_steps a b : serves (has_permission a b).
Proof. unfold has_permission. steps. Qed.
#[local] Hint Resolve has_permission_steps : steps.
Lemma permission_codes_steps a : serves (permission_codes a).
Proof. unfold permission_codes. steps. Qed.
#[local] Hint Resolve permission_codes_steps : steps.
Lemma view_permission_steps a b c : serves (view_permission a b c).
Proof. unfold view_permission. steps. Qed.
#[local] Hint Resolve view_permission_steps : steps.
Lemma sync_permission_steps a b : serves (sync_permission a b).
Proof. unfold sync_permission. steps. Qed.
#[local] Hint Resolve sync_permission_steps : steps.
Lemma link_permission_steps a b c : serves (link_permission a b c).
Proof. unfold link_permission. steps. Qed.
#[local] Hint Resolve link_permission_steps : steps.
Lemma sync_role_steps a b c : serves (sync_role a b c).
Proof. unfold sync_role. steps. Qed.
#[local] Hint Resolve sync_role_steps : steps.
Lemma handle_steps a : serves (handle a).
Proof. unfold handle. steps. Qed.
#[local] Hint Resolve handle_steps : steps.
Lemma delete_permission_steps a : serves (delete_permission a).
Proof. unfold delete_permission. steps. Qed.
#[local] Hint Resolve delete_permission_steps : steps.
Lemma delete_role_steps a : serves (delete_role a).
Proof. unfold delete_role. steps. Qed.
#[local] Hint Resolve delete_role_steps : steps.

(** ** API keys *)

Lemma create_key_steps a b c d e f : serves (create_key a b c d e f).
Proof. unfold create_key. steps. Qed.
#[local] Hint Resolve create_key_steps : steps.
Lemma key_is_active_steps a : serves (key_is_active a).
Proof. unfold key_is_active. steps. Qed.
#[local] Hint Resolve key_is_active_steps : steps.
Lemma authenticate_key_steps a b : serves (authenticate_key a b).
Proof. unfold authenticate_key. steps. Qed.
#[local] Hint Resolve authenticate_key_steps : steps.
Lemma revoke_key_steps a b c : serves (revoke_key a b c).
Proof. unfold revoke_key. steps. Qed.
#[local] Hint Resolve revoke_key_steps : steps.
Lemma api_key_authentication_steps a b : serves (api_key_authentication a b).
Proof. unfold api_key_authentication. steps. Qed.
#[local] Hint Resolve api_key_authentication_steps : steps.

(** ** Webhooks *)

Lemma validate_url_steps a : serves (validate_url a).
Proof. unfold validate_url. steps. Qed.
#[local] Hint Resolve validate_url_steps : steps.
Lemma create_endpoint_steps a b c d : serves (create_endpoint a b c d).
Proof. unfold create_endpoint. steps. Qed.
#[local] Hint Resolve create_endpoint_steps : steps.
Lemma emit_steps a b : serves (emit a b).
Proof. unfold emit. steps. Qed.
#[local] Hint Resolve emit_steps : steps.
Lemma signature_headers_steps a b c : serves (signature_headers a b c).
Proof. unfold signature_headers. steps. Qed.
#[local] Hint Resolve signature_headers_steps : steps.
Lemma send_steps a b c : serves (send a b c).
Proof. unfold send. steps. Qed.
#[local] Hint Resolve send_steps : steps.
Lemma settle_steps a b : serves (settle a b).
Proof. unfold settle. steps. Qed.
#[local] Hint Resolve settle_steps : steps.
Lemma attempt_progress b d d' : attempt b d d' -> delivery_progress d d'.
Proof.
  intros Ha. inversion Ha as [|? ? ? ? ? [Hf _]|? ? ? ? ? ? [Hf _]|? ? ? ? [Hf _]|? ? ? [Hf _]]; subst; [by left|..];
    right; (split; [done|]); cbn; try lia.
  all: unfold failed; destruct (_ <=? _); cbn; lia.
Qed.

Lemma attempt_clash b d d' a : attempt b d d' -> row_clash d' a = row_clash d a.
Proof. intros []; try done; unfold failed; by destruct (_ <=? _). Qed.

(** An attempt on one delivery is a step of the system. *)
Lemma attempted_step b k d w w' :
  webhook_deliveries (db w) !! k = Some d -> attempted_run b k d w w' -> constraints (db w) ->
  constraints (db w') /\ deliveries_progress (db w) (db w').
Proof.
  intros Hk (d' & Ha & -> & _) Hd. split.
  - change (constraints (with_objects (R := WebhookDelivery.t) (insert k d') (db w))). apply st_constraints; [done|].
    apply unique_table_insert; [by apply st_unique|].
    apply (conflicts_same (R := WebhookDelivery.t) k d); [by apply st_unique|done|].
    intros a. by eapply attempt_clash.
  - intros l r Hl. destruct (decide (l = k)) as [->|Hne].
    + exists d'. split; [apply lookup_insert_eq|]. rewrite Hk in Hl. injection Hl as <-. by eapply attempt_progress.
    + exists r. split; [|done]. change (<[k := d']> (webhook_deliveries (db w)) !! l = Some r).
      by rewrite lookup_insert_ne.
Qed.

Lemma deliver_missing k w :
  webhook_deliveries (db w) !! k = None -> db (deliver_webhook k w).2 = db w.
Proof. intros Hk. unfold deliver_webhook, claim, bind, atomic, get_pk. cbn. by rewrite Hk. Qed.

Lemma deliver_grows k : evolves journals_grow (deliver_webhook k).
Proof.
  unfold deliver_webhook, claim, send, settle, validate_url, signature_headers, decrypt_value, key_material.
  evolve; by apply journals_grow_same.
Qed.

Lemma deliver_emits k : emits complete_effect (deliver_webhook k).
Proof. unfold deliver_webhook, claim. repeat emit_step. Qed.

Lemma deliver_webhook_steps k : serves (deliver_webhook k).
Proof.
  split; [|apply deliver_emits]. intros w. split; [apply deliver_grows|]. intros Hd.
  destruct (webhook_deliveries (db w) !! k) as [d|] eqn:Hk; [|by rewrite deliver_missing].
  pose proof (deliver_spec k d w (c_deliveries _ Hd) Hk) as Hwp. unfold wp in Hwp.
  destruct (deliver_webhook k w) as [[e|[]] w']; by eapply attempted_step.
Qed.
#[local] Hint Resolve deliver_webhook_steps : steps.
Lemma delay_delivery_steps a : serves (delay_delivery a).
Proof. unfold delay_delivery. steps. Qed.
#[local] Hint Resolve delay_delivery_steps : steps.
Lemma dispatch_pending_webhooks_steps  : serves (dispatch_pending_webhooks).
Proof. unfold dispatch_pending_webhooks. steps. Qed.
#[local] Hint Resolve dispatch_pending_webhooks_steps : steps.

(** ** Notifications, files, settings *)

Lemma notify_steps a b c d : serves (notify a b c d).
Proof. unfold notify. steps. Qed.
#[local] Hint Resolve notify_steps : steps.
Lemma mark_read_steps a b : serves (mark_read a b).
Proof. unfold mark_read. steps. Qed.
#[local] Hint Resolve mark_read_steps : steps.
Lemma mark_all_read_steps a : serves (mark_all_read a).
Proof. unfold mark_all_read. steps. Qed.
#[local] Hint Resolve mark_all_read_steps : steps.
Lemma destroy_notification_steps a b : serves (destroy_notification a b).
Proof. unfold destroy_notification. steps. Qed.
#[local] Hint Resolve destroy_notification_steps : steps.
Lemma cleanup_notifications_steps  : serves (cleanup_notifications).
Proof. unfold cleanup_notifications. steps. Qed.
#[local] Hint Resolve cleanup_notifications_steps : steps.
Lemma check_image_steps a : serves (check_image a).
Proof. unfold check_image. steps. Qed.
#[local] Hint Resolve check_image_steps : steps.
Lemma secure_upload_path_steps a b : serves (secure_upload_path a b).
Proof. unfold secure_upload_path. steps. Qed.
#[local] Hint Resolve secure_upload_path_steps : steps.
Lemma cleanup_unused_files_steps  : serves (cleanup_unused_files).
Proof. unfold cleanup_unused_files. steps. Qed.
#[local] Hint Resolve cleanup_unused_files_steps : steps.
Lemma get_setting_steps a b c : serves (get_setting a b c).
Proof. unfold get_setting. steps. Qed.
#[local] Hint Resolve get_setting_steps : steps.
Lemma clean_setting_steps a : serves (clean_setting a).
Proof. unfold clean_setting. steps. Qed.
#[local] Hint Resolve clean_setting_steps : steps.
Lemma set_setting_steps a b c d e : serves (set_setting a b c d e).
Proof. unfold set_setting. steps. Qed.
#[local] Hint Resolve set_setting_steps : steps.
Lemma flag_enabled_steps a b : serves (flag_enabled a b).
Proof. unfold flag_enabled. steps. Qed.
#[local] Hint Resolve flag_enabled_steps : steps.

(** ** Operations that run code they are given *)

Lemma store_steps a u v :
  (forall scan, malware_scanner v = Some scan -> serves (scan u)) ->
  serves (store a u v).
Proof.
  intros Hs. unfold store, validate_upload. steps. all: first [by eapply Hs | idtac].
Qed.

Lemma idempotent_steps ttl ser view r :
  (forall r, serves (view r)) -> serves (idempotent ttl ser view r).
Proof. intros Hv. unfold idempotent. steps. all: try apply Hv. Qed.

Lemma jwt_get_user_steps base : serves base -> serves (jwt_get_user base).
Proof. intros Hb. unfold jwt_get_user. steps. all: try apply Hb. Qed.

Lemma refresh_validate_steps {T} (base : M (T * uuid)) :
  serves base -> serves (refresh_validate base).
Proof. intros Hb. unfold refresh_validate. steps. all: try apply Hb. Qed.

End ops.

#[export] Hint Resolve audit_steps event_steps key_material_steps encrypt_value_steps decrypt_value_steps
  generate_token_steps hash_password_steps can_authenticate_now_steps
  insert_user_steps create_user_steps create_superuser_steps save_user_steps
  security_settings_of_steps new_preferences_steps preferences_of_steps is_locked_steps
  save_security_settings_steps issue_steps consume_steps revoke_all_jwt_steps session_save_steps
  session_flush_steps register_steps current_steps revoke_steps revoke_all_steps
  session_middleware_steps cleanup_sessions_steps delete_credentials_steps begin_setup_steps
  totp_check_steps draw_codes_steps replace_recovery_codes_steps confirm_setup_steps
  consume_recovery_code_steps verify_steps regenerate_codes_steps disable_steps cache_get_steps
  cache_ttl_steps cache_set_steps cache_delete_many_steps cache_add_steps cache_incr_steps
  check_steps cache_failure_steps database_failure_steps register_failure_steps reset_steps
  lock_known_account_steps cleanup_login_attempts_steps authenticate_steps cycle_key_steps
  django_login_steps set_expiry_steps pass_account_lock_steps pass_status_steps
  two_factor_enabled_steps pass_two_factor_steps announce_device_steps open_session_steps
  reject_login_steps login_steps ensure_account_available_steps cleanup_tokens_steps
  validate_password_steps register_user_steps verify_email_steps resend_verification_steps
  request_password_reset_steps install_password_steps reset_password_steps change_password_steps
  email_taken_steps request_email_change_steps metadata_item_steps confirm_email_change_steps
  full_clean_steps change_username_steps deactivate_steps request_deletion_steps
  confirm_deletion_steps ban_steps revoke_ban_steps activate_ban_steps release_steps
  expire_temporary_bans_steps has_permission_steps permission_codes_steps view_permission_steps
  sync_permission_steps link_permission_steps sync_role_steps handle_steps
  delete_permission_steps delete_role_steps create_key_steps key_is_active_steps
  authenticate_key_steps revoke_key_steps api_key_authentication_steps validate_url_steps
  create_endpoint_steps emit_steps signature_headers_steps send_steps settle_steps
  deliver_webhook_steps delay_delivery_steps dispatch_pending_webhooks_steps notify_steps
  mark_read_steps mark_all_read_steps destroy_notification_steps cleanup_notifications_steps
  check_image_steps secure_upload_path_steps cleanup_unused_files_steps get_setting_steps
  clean_setting_steps set_setting_steps flag_enabled_steps : steps.
