(* ===== verification/Deletion.v ===== *)
(** * Deletions that cascade

    Deleting an object deletes or disowns what refers to it, by the [on_delete]
    of each foreign key of [apps/*/models.py].  The admin site deletes users,
    webhook endpoints and events, and second factors that way; no service does. *)

From S2P Require Import Prelude Env Demo Models Schema Orm Logic Common Mail Samples Users Webhooks SiteAdmin System Steps.

(** ** The collector of Django *)

(** The rows that refer to a deleted object go, or lose the reference. *)
Definition cascade {R} (refers : R -> bool) (t : gmap uuid R) : gmap uuid R := Table.remove (fun _ r => refers r) t.
Definition is_key (k : uuid) (column : option uuid) : bool :=
  match column with Some x => N.eqb x k | None => false end.
Definition set_null {R} (column : R -> option uuid) (clear : R -> R) (k : uuid) (t : gmap uuid R) : gmap uuid R :=
  Table.update (fun _ r => is_key k (column r)) clear t.

(** What a row of another table refers to satisfies [P]. *)
Definition via {A} (t : gmap uuid A) (P : A -> bool) (k : uuid) : bool :=
  match t !! k with Some a => P a | None => false end.

Definition endpoint_of (k : uuid) (e : WebhookEndpoint.t) : bool := is_key k (WebhookEndpoint.owner e).
Definition credential_of (k : uuid) (c : TwoFactorCredential.t) : bool := N.eqb (TwoFactorCredential.user c) k.

(** A user and everything the foreign keys to users take along; the refresh
    tokens of [rest_framework_simplejwt] lose their user. *)
Definition without_user (k : uuid) (d : DB) : DB := d
  <| bans ::= set_null UserBan.banned_by (fun r => r <| UserBan.banned_by := None |>) k |>
  <| user_roles ::= set_null UserRole.granted_by (fun r => r <| UserRole.granted_by := None |>) k |>
  <| permission_overrides ::=
       set_null UserPermissionOverride.granted_by (fun r => r <| UserPermissionOverride.granted_by := None |>) k |>
  <| security_events ::= set_null SecurityEvent.user (fun r => r <| SecurityEvent.user := None |>) k |>
  <| audit_logs ::= set_null AuditLog.actor (fun r => r <| AuditLog.actor := None |>) k |>
  <| stored_files ::= set_null StoredFile.owner (fun r => r <| StoredFile.owner := None |>) k |>
  <| outstanding_tokens ::= set_null OutstandingToken.user (fun r => r <| OutstandingToken.user := None |>) k |>
  <| recovery_codes ::= cascade (fun r => via (two_factor d) (credential_of k) (RecoveryCode.credential r)) |>
  <| webhook_deliveries ::= cascade (fun r => via (webhook_endpoints d) (endpoint_of k) (WebhookDelivery.endpoint r)) |>
  <| profiles ::= cascade (fun r => N.eqb (UserProfile.user r) k) |>
  <| preferences ::= cascade (fun r => N.eqb (UserPreferences.user r) k) |>
  <| security_settings ::= cascade (fun r => N.eqb (UserSecuritySettings.user r) k) |>
  <| bans ::= cascade (fun r => N.eqb (UserBan.user r) k) |>
  <| one_time_tokens ::= cascade (fun r => N.eqb (OneTimeToken.user r) k) |>
  <| user_sessions ::= cascade (fun r => N.eqb (UserSession.user r) k) |>
  <| two_factor ::= cascade (credential_of k) |>
  <| user_roles ::= cascade (fun r => N.eqb (UserRole.user r) k) |>
  <| permission_overrides ::= cascade (fun r => N.eqb (UserPermissionOverride.user r) k) |>
  <| api_keys ::= cascade (fun r => N.eqb (APIKey.owner r) k) |>
  <| webhook_endpoints ::= cascade (endpoint_of k) |>
  <| notifications ::= cascade (fun r => N.eqb (Notification.user r) k) |>
  <| idempotency_records ::= cascade (fun r => N.eqb (IdempotencyRecord.user r) k) |>
  <| users ::= base.delete k |>.

Definition without_endpoint (k : uuid) (d : DB) : DB := d
  <| webhook_deliveries ::= cascade (fun r => N.eqb (WebhookDelivery.endpoint r) k) |>
  <| webhook_endpoints ::= base.delete k |>.

Definition without_event (k : uuid) (d : DB) : DB := d
  <| webhook_deliveries ::= cascade (fun r => N.eqb (WebhookDelivery.event r) k) |>
  <| webhook_events ::= base.delete k |>.

Definition without_credential (k : uuid) (d : DB) : DB := d
  <| recovery_codes ::= cascade (fun r => N.eqb (RecoveryCode.credential r) k) |>
  <| two_factor ::= base.delete k |>.

Section deletion.
Context `{E : Env}.

(** [Model.delete] *)
Definition delete_user (k : uuid) : M unit := atomic (modify_db (without_user k)).
Definition delete_endpoint (k : uuid) : M unit := atomic (modify_db (without_endpoint k)).
Definition delete_event (k : uuid) : M unit := atomic (modify_db (without_event k)).
Definition delete_credential (k : uuid) : M unit := atomic (modify_db (without_credential k)).

(** ** The pages of the admin site *)

Definition endpoint_target (k : uuid) (e : WebhookEndpoint.t) : AuditService.Target :=
  AuditService.MkTarget "webhooks.webhookendpoint" k (WebhookEndpoint.name e).

(** [UserAdmin] and [WebhookEndpointAdmin] have [AuditAdminMixin]: one object,
    or the selected ones. *)
Definition admin_delete_user (x : uuid * User.t) (actor : uuid) (request : Request) : M unit :=
  delete_model "accounts.user" user_target delete_user x actor request.
Definition admin_delete_users (selected : list (uuid * User.t)) (actor : uuid) (request : Request) : M unit :=
  delete_queryset "accounts.user" user_target (fun ks => for_each ks delete_user) selected actor request.
Definition admin_delete_endpoint (x : uuid * WebhookEndpoint.t) (actor : uuid) (request : Request) : M unit :=
  delete_model "webhooks.webhookendpoint" endpoint_target delete_endpoint x actor request.
Definition admin_delete_endpoints (selected : list (uuid * WebhookEndpoint.t)) (actor : uuid) (request : Request)
    : M unit :=
  delete_queryset "webhooks.webhookendpoint" endpoint_target (fun ks => for_each ks delete_endpoint) selected actor
    request.

End deletion.

(** ** The rules of the declared foreign keys *)

(** The rule of a column that refers to a user. *)
Definition user_rule (d : Declaration) (c : string) : option on_delete :=
  match find_field d c with
  | Some f =>
      match Field.type f with
      | Field.ForeignKey to rule | Field.OneToOne to rule => if bool_decide (to = AUTH_USER_MODEL) then Some rule else None
      | _ => None
      end
  | None => None
  end.

Definition refers_by {R} (rule : on_delete) (d : Declaration) (k : uuid) (r : R) (c : string * (R -> pyval)) : bool :=
  bool_decide (user_rule d c.1 = Some rule) && sql_equal (c.2 r) (PUUID k).

(** What the declaration of a table says becomes of a row [r] when the user [k]
    is deleted: nothing is left, or the row with its references to [k] NULL. *)
Definition disowned (T : DeclaredTable) (k : uuid) (r : row T) (left : option (row T)) : Prop :=
  match left with
  | None => existsb (refers_by CASCADE (declared T) k r) (columns T) = true
  | Some r' =>
      existsb (refers_by CASCADE (declared T) k r) (columns T) = false /\
      Forall (fun c => c.2 r' = if refers_by SET_NULL (declared T) k r c then PNone else c.2 r) (columns T)
  end.

Definition rows (T : DeclaredTable) (d : DB) : gmap uuid (row T) := objects (Model := row_model T) d.

Definition deletes_by_declaration (k : uuid) (d d' : DB) (T : DeclaredTable) : Prop :=
  forall j, match rows T d !! j with
            | Some r => disowned T k r (rows T d' !! j)
            | None => rows T d' !! j = None
            end.

(** The tables whose rows refer to a user through another row, or are users. *)
Definition indirect : list Label :=
  [AUTH_USER_MODEL; ("authentication", "recoverycode"); ("webhooks", "webhookdelivery")].

Lemma lookup_cascade {R} (P : R -> bool) t j :
  cascade P t !! j = match t !! j with Some r => if P r then None else Some r | None => None end.
Proof. unfold cascade. rewrite Table.lookup_remove. by destruct (t !! j). Qed.

Lemma lookup_set_null {R} column (clear : R -> R) k t j :
  set_null column clear k t !! j =
    match t !! j with Some r => Some (if is_key k (column r) then clear r else r) | None => None end.
Proof. unfold set_null. rewrite Table.lookup_update. by destruct (t !! j). Qed.

Lemma via_false {R} (t : gmap uuid R) P k : via t P k = false <-> forall a, t !! k = Some a -> P a = false.
Proof.
  unfold via. destruct (t !! k) as [a|]; [|done]. split; [by intros Ha a' [= <-]|]. intros Ha. by apply Ha.
Qed.

Lemma is_key_false k o : is_key k o = false <-> o <> Some k.
Proof. destruct o as [x|]; cbn; [|done]. rewrite N.eqb_neq. split; congruence. Qed.

(** The rules of the columns of a table, computed once. *)
Lemma existsb_flags {A} (flag P : A -> bool) l :
  existsb (fun c => flag c && P c) l = existsb (fun x => x.1 && P x.2) (zip (flag <$> l) l).
Proof. induction l as [|a l IH]; [done|]. cbn. by rewrite IH. Qed.

Lemma Forall_flags {A} (flag : A -> bool) (Q : bool -> A -> Prop) l :
  Forall (fun c => Q (flag c) c) l <-> Forall (fun x => Q x.1 x.2) (zip (flag <$> l) l).
Proof. induction l as [|a l IH]; [by split|]. cbn. by rewrite !Forall_cons, IH. Qed.

Definition rule_flags (rule : on_delete) (T : DeclaredTable) : list bool :=
  (fun c => bool_decide (user_rule (declared T) c.1 = Some rule)) <$> columns T.

Lemma disowned_flags T k r left cs ns :
  rule_flags CASCADE T = cs -> rule_flags SET_NULL T = ns ->
  match left with
  | None => existsb (fun x => x.1 && sql_equal (x.2.2 r) (PUUID k)) (zip cs (columns T)) = true
  | Some r' =>
      existsb (fun x => x.1 && sql_equal (x.2.2 r) (PUUID k)) (zip cs (columns T)) = false /\
      Forall (fun x => x.2.2 r' = if x.1 && sql_equal (x.2.2 r) (PUUID k) then PNone else x.2.2 r)
        (zip ns (columns T))
  end ->
  disowned T k r left.
Proof.
  intros <- <-. unfold disowned, rule_flags, refers_by.
  rewrite (existsb_flags (fun c => bool_decide (user_rule (declared T) c.1 = Some CASCADE))).
  destruct left as [r'|]; [|done]. intros [Hc Hn]. split; [done|].
  apply (Forall_flags (fun c => bool_decide (user_rule (declared T) c.1 = Some SET_NULL))
    (fun b c => c.2 r' = if b && sql_equal (c.2 r) (PUUID k) then PNone else c.2 r)). exact Hn.
Qed.

Ltac by_rules :=
  eapply disowned_flags; [vm_compute; reflexivity|vm_compute; reflexivity|];
  match goal with r : _ |- _ => destruct r end;
  unfold credential_of, endpoint_of, is_key; cbn -[N.eqb];
  repeat (match goal with
          | |- context [match ?x with Some _ => _ | None => _ end] => is_var x; destruct x
          | |- context [N.eqb ?a ?b] => is_var a; destruct (N.eqb a b) eqn:?
          end; cbn -[N.eqb]);
  first [reflexivity | split; [reflexivity|]; every_element; cbn -[N.eqb]; repeat (match goal with H : N.eqb _ _ = _ |- _ => rewrite H end); reflexivity].
Section rules.
Context `{A : AuthModels, L : !AuthModelsLaws}.
Lemma without_user_rules k d :
  Forall (fun T => label (declared T) ∉ indirect -> deletes_by_declaration k d (without_user k d) T) tables.
Proof.
  destruct A as [base mixin], L as [Hb Hm]; cbn in Hb, Hm; subst base mixin. unfold tables. every_element.
  all: unfold deletes_by_declaration, rows; cbn [row rows_of row_model columns declared]; intros Hn j.
  all: first [exfalso; apply Hn, (bool_decide_unpack _); vm_compute; exact I | clear Hn].
  all: unfold without_user; cbn -[cascade set_null disowned]; rewrite ?lookup_cascade, ?lookup_set_null.
  all: match goal with |- match ?o with Some _ => _ | None => _ end => destruct o as [r|]; [by_rules|done] end.
Qed.

Lemma delete_user_run `{E : Env} k w :
  exists w', delete_user k w = (inr tt, w') /\ db w' = without_user k (db w).
Proof. unfold delete_user, atomic, modify_db, modify. cbn. by destruct (Nat.eqb _ _); eexists. Qed.

(** [C23] Deleting a user always succeeds and does to every table what its
    declaration says: a row with a cascading foreign key to the user goes, any
    other row stays as it was, except that its SET NULL references to the user
    (the actor of an audit entry, the issuer of a ban) become NULL.  The recovery
    codes of the user's second factor and the deliveries of its webhook endpoints
    go with them, and no other ones. *)
Theorem user_deletion_complete `{E : Env} k w :
  exists w', delete_user k w = (inr tt, w') /\ users (db w') = base.delete k (users (db w)) /\
    Forall (fun T => label (declared T) ∉ indirect -> deletes_by_declaration k (db w) (db w') T) tables /\
    (forall j c, recovery_codes (db w') !! j = Some c <->
       recovery_codes (db w) !! j = Some c /\
       forall x, two_factor (db w) !! RecoveryCode.credential c = Some x -> TwoFactorCredential.user x <> k) /\
    (forall j c, webhook_deliveries (db w') !! j = Some c <->
       webhook_deliveries (db w) !! j = Some c /\
       forall x, webhook_endpoints (db w) !! WebhookDelivery.endpoint c = Some x -> WebhookEndpoint.owner x <> Some k).
Proof.
  destruct (delete_user_run k w) as (w' & Hrun & Hdb). exists w'. split; [done|]. rewrite Hdb. split; [done|].
  split; [apply without_user_rules|]. split; intros j c.
  - transitivity (recovery_codes (db w) !! j = Some c /\
      via (two_factor (db w)) (credential_of k) (RecoveryCode.credential c) = false);
      [exact (Table.lookup_remove_Some (fun _ r => via _ (credential_of k) (RecoveryCode.credential r)) _ j c)|].
    rewrite via_false. by setoid_rewrite N.eqb_neq.
  - transitivity (webhook_deliveries (db w) !! j = Some c /\
      via (webhook_endpoints (db w)) (endpoint_of k) (WebhookDelivery.endpoint c) = false);
      [exact (Table.lookup_remove_Some (fun _ r => via _ (endpoint_of k) (WebhookDelivery.endpoint r)) _ j c)|].
    rewrite via_false. by setoid_rewrite is_key_false.
Qed.

End rules.

(** ** Deletions as moves of the system *)

Section constrained.
Context {R : Type} `{!Model R, !ModelLaws R}.

Lemma unique_cascade (P : R -> bool) t : unique_table t -> unique_table (cascade P t).
Proof. apply unique_table_remove. Qed.

Lemma unique_set_null column (clear : R -> R) k t :
  (forall a b, row_clash (clear a) b = row_clash a b) -> unique_table t -> unique_table (set_null column clear k t).
Proof.
  intros Hc. apply unique_table_update; [|done]. intros a b. by rewrite Hc, row_clash_sym, Hc, row_clash_sym.
Qed.

Lemma unique_delete k (t : gmap uuid R) : unique_table t -> unique_table (base.delete k t).
Proof. intros Hu k1 k2 r1 r2 [_ H1]%lookup_delete_Some [_ H2]%lookup_delete_Some. by apply Hu. Qed.

End constrained.

Lemma cascade_subseteq {R} (P : R -> bool) (t : gmap uuid R) : cascade P t ⊆ t.
Proof. apply map_subseteq_spec. by intros k r [? _]%Table.lookup_remove_Some. Qed.

Lemma set_null_kept {R} column (clear : R -> R) k t : kept clear t (set_null column clear k t).
Proof.
  intros j r Hj. rewrite lookup_set_null, Hj. eexists. split; [done|]. destruct (is_key k (column r)); auto.
Qed.

Ltac still_unique :=
  intros []; split; unfold unique_rows in *; cbn -[unique_table cascade set_null base.delete];
  repeat first [assumption | apply unique_cascade | apply unique_set_null; [by intros|] | apply unique_delete].

Lemma without_user_constraints k d : constraints d -> constraints (without_user k d).
Proof. still_unique. Qed.
Lemma without_endpoint_constraints k d : constraints d -> constraints (without_endpoint k d).
Proof. still_unique. Qed.
Lemma without_event_constraints k d : constraints d -> constraints (without_event k d).
Proof. still_unique. Qed.
Lemma without_credential_constraints k d : constraints d -> constraints (without_credential k d).
Proof. still_unique. Qed.

Section moves.
Context `{E : Env}.

(** Deletions of the admin site that no audit entry records: one row without
    rows that refer to it. *)
Inductive silent_leaf : forall R (HM : Model R), Prop :=
| leaf_session : silent_leaf UserSession.t _
| leaf_token : silent_leaf OneTimeToken.t _
| leaf_code : silent_leaf RecoveryCode.t _
| leaf_delivery : silent_leaf WebhookDelivery.t _
| leaf_idempotency : silent_leaf IdempotencyRecord.t _.

(** The deletions that are not steps of a service. *)
Inductive deletion : M unit -> Prop :=
| deleting_user x actor r : deletion (admin_delete_user x actor r)
| deleting_users l actor r : deletion (admin_delete_users l actor r)
| deleting_endpoint x actor r : deletion (admin_delete_endpoint x actor r)
| deleting_endpoints l actor r : deletion (admin_delete_endpoints l actor r)
| deleting_event k : deletion (delete_event k)
| deleting_credential k : deletion (delete_credential k)
| deleting_leaf R (HM : Model R) k : silent_leaf R HM -> deletion (delete_row (R := R) k).

(** A deletion takes its step whatever the relation is, if its parts do. *)
Lemma deletion_evolves (Rel : DB -> DB -> Prop) `{!PreOrder Rel} m :
  (forall a, evolves Rel (AuditService.record a)) ->
  (forall k d, Rel d (without_user k d)) -> (forall k d, Rel d (without_endpoint k d)) ->
  (forall k d, Rel d (without_event k d)) -> (forall k d, Rel d (without_credential k d)) ->
  (forall R (HM : Model R) k, silent_leaf R HM -> forall d, Rel d (with_objects (base.delete k) d)) ->
  deletion m -> evolves Rel m.
Proof.
  intros Ha Hu He Hv Hc Hl [].
  all: try (unfold admin_delete_user, admin_delete_users, admin_delete_endpoint, admin_delete_endpoints, delete_model,
    delete_queryset, record_deletion).
  all: unfold delete_user, delete_endpoint, delete_event, delete_credential.
  all: repeat lazymatch goal with
    | |- evolves _ (AuditService.record _) => apply Ha
    | |- evolves _ (modify_db _) => apply evolves_modify; intros w; first [exact (Hu _ _) | exact (He _ _) | exact (Hv _ _) | exact (Hc _ _)]
    | |- evolves _ (delete_row _) => by apply evolves_delete_row, Hl
    | |- evolves _ _ => evolve_step
    end.
Qed.

Lemma record_shrinks a : evolves deliveries_shrink (AuditService.record a).
Proof. unfold AuditService.record. evolve; unfold deliveries_shrink; reflexivity. Qed.

Lemma deletion_shrinks m : deletion m -> evolves deliveries_shrink m.
Proof.
  apply deletion_evolves; [apply _|apply record_shrinks|..]; unfold deliveries_shrink.
  all: try (intros k d; first [apply cascade_subseteq | reflexivity]).
  intros R HM k [] d; first [reflexivity | apply delete_subseteq].
Qed.

(** A deletion sends nothing. *)
Lemma deletion_emits m : deletion m -> emits complete_effect m.
Proof.
  intros [].
  all: try (unfold admin_delete_user, admin_delete_users, admin_delete_endpoint, admin_delete_endpoints, delete_model,
    delete_queryset, record_deletion).
  all: unfold delete_user, delete_endpoint, delete_event, delete_credential.
  all: repeat lazymatch goal with
    | |- emits _ (modify_db _) => by apply emits_modify
    | |- emits _ (delete_row _) => by apply emits_inert
    | |- emits _ _ => emit_step
    end.
Qed.

Lemma system_same (d d' : DB) :
  (constraints d -> constraints d') -> security_events d' = security_events d -> audit_logs d' = audit_logs d ->
  system_step d d'.
Proof. intros Hc Hs Ha. unfold system_step. rewrite Hs, Ha. split; [apply kept_refl|]. by split; [intros _; apply kept_refl|]. Qed.

Lemma deletion_steps m : deletion m -> evolves system_step m.
Proof.
  apply deletion_evolves; [apply _|intros a; apply evolves_system, audit_steps|..].
  - intros k d. split; [apply set_null_kept|]. split; [intros _; apply set_null_kept|]. apply without_user_constraints.
  - intros k d. apply system_same; [apply without_endpoint_constraints|done|done].
  - intros k d. apply system_same; [apply without_event_constraints|done|done].
  - intros k d. apply system_same; [apply without_credential_constraints|done|done].
  - intros R HM k [] d; (apply system_same; [|done|done]); intros Hd; (apply st_constraints; [done|]);
      apply unique_delete; by apply st_unique.
Qed.

End moves.

(** ** Witness: a user with an audit entry and a webhook endpoint *)

Section witnesses.

Definition doomed_world : World := sample_world <| db ::= fun d => d
  <| audit_logs := {[ 71%N := AuditLog.mk (Some 1%N) "user.created" "accounts.user" "1" "" PNone PNone PNone "" None "" 0 ]} |>
  <| webhook_endpoints := {[ 72%N := WebhookEndpoint.mk (Some 1%N) "ops" "down" [] "" "" true 0 0 ]} |> |>.

Lemma user_deletion_complete_witness :
  exists w', delete_user 1 doomed_world = (inr tt, w') /\ users (db w') !! 1%N = None /\
    webhook_endpoints (db w') = ∅ /\ (AuditLog.actor <$> audit_logs (db w') !! 71%N) = Some None.
Proof.
  destruct (user_deletion_complete (A := demo_auth_models) (E := demo_env) 1 doomed_world) as (w' & Hrun & Hu & _).
  exists w'. split; [exact Hrun|]. split; [by rewrite Hu, lookup_delete_eq|].
  change w' with ((inr tt : exn + unit, w').2). rewrite <- Hrun. split; vm_compute; reflexivity.
Defined.

End witnesses.
