(* ===== verification/Reachable.v ===== *)
(** * The reachable states

    All operations of the program in one relation: a request to any endpoint,
    any periodic task or command, any hook of the admin site, each run to its
    end or to its exception.  Whatever sequence of them ran, no uniqueness
    constraint is broken, no webhook delivery that is finished changes, and
    nothing has left the audit and security journals, except by the configured
    retention of the audit journal; a deleted user is cleared from the entries
    about it.  The mails that left on the way can all be rendered. *)

From stdpp Require Import relations.
From S2P Require Import Prelude Env Demo Models Orm Logic Common Mail Samples Users Tokens Sessions TwoFactor LoginProtection Authentication Accounts Bans Authorization ApiKeys Webhooks Responses Idempotency Services Api AuthViews Resources AccountViews AdminViews Urls Platform Server SiteAdmin System Steps Deletion.

Section views.
Context `{E : Env, !TokenCodec}.

(** ** Forms *)

Lemma field_of_steps {A} name (x : field A) v :
  (forall a, serves (v a)) -> serves (field_of name x v).
Proof. intros Hv. unfold field_of. steps. Qed.

Lemma plain_steps {A} name (x : field A) : serves (plain name x).
Proof. apply field_of_steps. intros a. steps. Qed.

Lemma also_steps {A B} (fa : form A) (fb : form B) :
  serves fa -> serves fb -> serves (also fa fb).
Proof. intros Ha Hb. unfold also. steps. Qed.

Lemma present_steps {A} (x : option (field A)) f :
  (forall a, serves (f a)) -> serves (present x f).
Proof. intros Hf. unfold present. destruct x; steps. Qed.

Lemma validated_steps {A} (f : form A) : serves f -> serves (validated f).
Proof. intros Hf. unfold validated. steps. Qed.

Lemma collect_steps {A} (l : list (form A)) :
  Forall serves l -> serves (collect l).
Proof.
  induction 1 as [|f l Hf Hl IH]; cbn [collect]; steps. by apply also_steps.
Qed.

Lemma field_write_steps {R A} name (x : option (field A)) v value (get : R -> A) set :
  (forall a, serves (v a)) -> Forall serves (field_write name x v value get set).
Proof.
  intros Hv. destruct x as [f|]; [|done]. apply Forall_singleton. steps. by apply field_of_steps.
Qed.

Lemma get_object_steps {R} `{!Model R} m (P : uuid -> R -> bool) : serves (get_object m P).
Proof. unfold get_object. steps. Qed.

Lemma render_rows_steps {A} (render : A -> M pyval) l :
  (forall a, serves (render a)) -> serves (render_rows render l).
Proof. intros Hr. induction l as [|a l IH]; cbn [render_rows]; steps. Qed.

Lemma list_serialized_steps {R} `{!Model R} (P : uuid -> R -> bool) f q :
  (forall x, serves (f x)) -> serves (list_serialized P f q).
Proof. intros Hf. unfold list_serialized. steps. by apply render_rows_steps. Qed.

Lemma list_rows_steps {R} `{!Model R} (P : uuid -> R -> bool) f q : serves (list_rows P f q).
Proof. apply list_serialized_steps. intros x. steps. Qed.

Section audited.
Context {R : Type} `{!Model R, !ModelLaws R, !ServiceTable R, !OrdinaryTable R} (A : Audited R).

Lemma perform_create_steps l new actor r :
  serves new -> serves (perform_create A l new actor r).
Proof. intros Hn. unfold perform_create. steps. Qed.

Lemma perform_update_steps l x actor r : serves (perform_update A l x actor r).
Proof. unfold perform_update. steps. Qed.

Lemma perform_destroy_steps sys delete x actor r :
  (forall k, serves (delete k)) -> serves (perform_destroy A sys delete x actor r).
Proof. intros Hd. unfold perform_destroy. steps. Qed.

End audited.

Lemma user_data_steps q u : serves (user_data q u).
Proof. unfold user_data, get_permissions. steps. Qed.

End views.

#[export] Hint Resolve plain_steps get_object_steps list_rows_steps user_data_steps : steps.

(** The parts of a handler that [steps] leaves: forms, objects, saves. *)
Ltac handler_step :=
  lazymatch goal with
  | |- serves (validated _) => apply validated_steps
  | |- serves (also _ _) => apply also_steps
  | |- serves (present _ _) => apply present_steps; intros ?
  | |- serves (field_of _ _ _) => apply field_of_steps; intros ?
  | |- serves (collect _) => apply collect_steps
  | |- Forall _ (_ ++ _) => apply Forall_app_2
  | |- Forall _ (field_write _ _ _ _ _ _) => apply field_write_steps; intros ?
  | |- serves (list_serialized _ _ _) => apply list_serialized_steps; intros ?
  | |- serves (idempotent _ _ _ _) => apply idempotent_steps; intros ?
  | |- serves (perform_create _ _ _ _ _) => apply perform_create_steps
  | |- serves (perform_update _ _ _ _ _) => apply perform_update_steps
  | |- serves (perform_destroy _ _ _ _ _ _) => apply perform_destroy_steps; intros ?
  end.
Ltac handler_steps := repeat first [progress steps | handler_step | progress cbv zeta].

(** ** The parts of the views *)

Section parts.
Context `{E : Env, !TokenCodec}.

Lemma validate_email_steps a : serves (validate_email a).
Proof. unfold validate_email. handler_steps. Qed.
#[local] Hint Resolve validate_email_steps : steps.
Lemma validate_username_steps a : serves (validate_username a).
Proof. unfold validate_username. handler_steps. Qed.
#[local] Hint Resolve validate_username_steps : steps.
Lemma validate_new_password_steps a : serves (validate_new_password a).
Proof. unfold validate_new_password. handler_steps. Qed.
#[local] Hint Resolve validate_new_password_steps : steps.
Lemma validate_own_username_steps a b : serves (validate_own_username a b).
Proof. unfold validate_own_username. handler_steps. Qed.
#[local] Hint Resolve validate_own_username_steps : steps.
Lemma for_user_steps a : serves (for_user a).
Proof. unfold for_user. handler_steps. Qed.
#[local] Hint Resolve for_user_steps : steps.
Lemma blacklist_refresh_steps a : serves (blacklist_refresh a).
Proof. unfold blacklist_refresh. handler_steps. Qed.
#[local] Hint Resolve blacklist_refresh_steps : steps.
Lemma profile_of_steps a : serves (profile_of a).
Proof. unfold profile_of. handler_steps. Qed.
#[local] Hint Resolve profile_of_steps : steps.
Lemma validate_language_steps a : serves (validate_language a).
Proof. unfold validate_language. handler_steps. Qed.
#[local] Hint Resolve validate_language_steps : steps.
Lemma validate_timezone_steps a b : serves (validate_timezone a b).
Proof. unfold validate_timezone. handler_steps. Qed.
#[local] Hint Resolve validate_timezone_steps : steps.
Lemma admin_validate_email_steps a b : serves (admin_validate_email a b).
Proof. unfold admin_validate_email. handler_steps. Qed.
#[local] Hint Resolve admin_validate_email_steps : steps.
Lemma admin_validate_username_steps a b : serves (admin_validate_username a b).
Proof. unfold admin_validate_username. handler_steps. Qed.
#[local] Hint Resolve admin_validate_username_steps : steps.
Lemma validate_status_steps a : serves (validate_status a).
Proof. unfold validate_status. handler_steps. Qed.
#[local] Hint Resolve validate_status_steps : steps.
Lemma user_admin_form_steps a b : serves (user_admin_form a b).
Proof. unfold user_admin_form. handler_steps. Qed.
#[local] Hint Resolve user_admin_form_steps : steps.
Lemma update_user_steps a b c d : serves (update_user a b c d).
Proof. unfold update_user. handler_steps. Qed.
#[local] Hint Resolve update_user_steps : steps.
Lemma key_data_steps a b : serves (key_data a b).
Proof. unfold key_data. handler_steps. Qed.
#[local] Hint Resolve key_data_steps : steps.
Lemma validate_scopes_steps a : serves (validate_scopes a).
Proof. unfold validate_scopes. handler_steps. Qed.
#[local] Hint Resolve validate_scopes_steps : steps.
Lemma validate_expires_at_steps a : serves (validate_expires_at a).
Proof. unfold validate_expires_at. handler_steps. Qed.
#[local] Hint Resolve validate_expires_at_steps : steps.
Lemma create_api_key_steps a b c d e : serves (create_api_key a b c d e).
Proof. unfold create_api_key. handler_steps. Qed.
#[local] Hint Resolve create_api_key_steps : steps.
Lemma validate_setting_steps a b : serves (validate_setting a b).
Proof. unfold validate_setting. handler_steps. Qed.
#[local] Hint Resolve validate_setting_steps : steps.
Lemma permission_form_steps a b : serves (permission_form a b).
Proof. unfold permission_form. handler_steps. Qed.
#[local] Hint Resolve permission_form_steps : steps.
Lemma role_form_steps a b c d : serves (role_form a b c d).
Proof. unfold role_form. handler_steps. Qed.
#[local] Hint Resolve role_form_steps : steps.
Lemma role_permission_form_steps a b : serves (role_permission_form a b).
Proof. unfold role_permission_form. handler_steps. Qed.
#[local] Hint Resolve role_permission_form_steps : steps.
Lemma user_role_form_steps a b c d : serves (user_role_form a b c d).
Proof. unfold user_role_form. handler_steps. Qed.
#[local] Hint Resolve user_role_form_steps : steps.
Lemma override_form_steps a b c d : serves (override_form a b c d).
Proof. unfold override_form. handler_steps. Qed.
#[local] Hint Resolve override_form_steps : steps.
Lemma setting_form_steps a b c d e f : serves (setting_form a b c d e f).
Proof. unfold setting_form. handler_steps. Qed.
#[local] Hint Resolve setting_form_steps : steps.
Lemma flag_form_steps a b c : serves (flag_form a b c).
Proof. unfold flag_form. handler_steps. Qed.
#[local] Hint Resolve flag_form_steps : steps.
Lemma new_permission_steps a : serves (new_permission a).
Proof. unfold new_permission. handler_steps. Qed.
#[local] Hint Resolve new_permission_steps : steps.
Lemma new_role_steps a : serves (new_role a).
Proof. unfold new_role. handler_steps. Qed.
#[local] Hint Resolve new_role_steps : steps.
Lemma new_role_permission_steps a : serves (new_role_permission a).
Proof. unfold new_role_permission. handler_steps. Qed.
#[local] Hint Resolve new_role_permission_steps : steps.
Lemma new_user_role_steps a : serves (new_user_role a).
Proof. unfold new_user_role. handler_steps. Qed.
#[local] Hint Resolve new_user_role_steps : steps.
Lemma new_override_steps a : serves (new_override a).
Proof. unfold new_override. handler_steps. Qed.
#[local] Hint Resolve new_override_steps : steps.

End parts.

#[export] Hint Resolve validate_email_steps validate_username_steps validate_new_password_steps
  validate_own_username_steps for_user_steps blacklist_refresh_steps profile_of_steps
  validate_language_steps validate_timezone_steps admin_validate_email_steps
  admin_validate_username_steps validate_status_steps user_admin_form_steps update_user_steps
  key_data_steps validate_scopes_steps validate_expires_at_steps create_api_key_steps
  validate_setting_steps permission_form_steps role_form_steps role_permission_form_steps
  user_role_form_steps override_form_steps setting_form_steps flag_form_steps
  new_permission_steps new_role_steps new_role_permission_steps new_user_role_steps
  new_override_steps : steps.

(** ** Endpoints *)

Section endpoints.
Context `{E : Env, !TokenCodec, !RequestData, !Site}.

Definition stepping (v : View) : Prop := forall r a,
  Forall (fun p => serves p.1) (permission_classes v r a) /\
  serves (handler v r a).

Lemma for_each_steps {A} (l : list A) f :
  Forall (fun a => serves (f a)) l -> serves (for_each l f).
Proof. induction 1; cbn [for_each]; steps. Qed.

Lemma dispatch_steps v r : stepping v -> serves (dispatch v r).
Proof.
  intros Hv. unfold dispatch, serve, perform_authentication, first_success, by_api_key, by_bearer,
    by_session, check_throttles.
  steps; lazymatch goal with
  | |- serves (jwt_get_user _) => apply jwt_get_user_steps; unfold token_user; steps
  | |- serves (handler _ _ _) => apply Hv
  | |- serves (check_permissions _ ?a) =>
      apply for_each_steps; destruct (Hv r a) as [Hp _]; eapply Forall_impl; [exact Hp|];
      intros p Hq; steps
  end.
Qed.

Lemma respond_steps v r : stepping v -> serves (respond v r).
Proof. intros Hv. unfold respond. steps. by apply dispatch_steps. Qed.

(** The routes of [apps/api/urls.py].  The refresh serializer of the JWT library
    rotates tokens, which are ordinary rows. *)
Inductive endpoint : View -> Prop :=
| at_RegisterView a b c d e : endpoint (RegisterView a b c d e)
| at_LoginView a b c d : endpoint (LoginView a b c d)
| at_LogoutView a : endpoint (LogoutView a)
| at_VerifyEmailView a : endpoint (VerifyEmailView a)
| at_ResendVerificationView a : endpoint (ResendVerificationView a)
| at_PasswordResetRequestView a : endpoint (PasswordResetRequestView a)
| at_PasswordResetConfirmView a b : endpoint (PasswordResetConfirmView a b)
| at_ChangePasswordView a b : endpoint (ChangePasswordView a b)
| at_ChangeEmailView a b : endpoint (ChangeEmailView a b)
| at_ConfirmEmailChangeView a : endpoint (ConfirmEmailChangeView a)
| at_ChangeUsernameView a : endpoint (ChangeUsernameView a)
| at_DeactivateAccountView a : endpoint (DeactivateAccountView a)
| at_DeleteAccountRequestView a : endpoint (DeleteAccountRequestView a)
| at_DeleteAccountConfirmView a : endpoint (DeleteAccountConfirmView a)
| at_TwoFactorSetupView a : endpoint (TwoFactorSetupView a)
| at_TwoFactorConfirmView a : endpoint (TwoFactorConfirmView a)
| at_TwoFactorDisableView a b : endpoint (TwoFactorDisableView a b)
| at_RecoveryCodeRegenerateView a : endpoint (RecoveryCodeRegenerateView a)
| at_CurrentUserView : endpoint CurrentUserView
| at_CurrentUserProfileView : endpoint CurrentUserProfileView
| at_CurrentUserProfileUpdate a b c : endpoint (CurrentUserProfileUpdate a b c)
| at_CurrentUserPreferencesView : endpoint CurrentUserPreferencesView
| at_CurrentUserPreferencesUpdate a b c d e : endpoint (CurrentUserPreferencesUpdate a b c d e)
| at_SecurityEventListView a : endpoint (SecurityEventListView a)
| at_SecurityEventAdminList a : endpoint (SecurityEventAdminList a)
| at_SecurityEventAdminRetrieve a : endpoint (SecurityEventAdminRetrieve a)
| at_UserAdminList a : endpoint (UserAdminList a)
| at_UserAdminRetrieve a : endpoint (UserAdminRetrieve a)
| at_UserAdminUpdate a b : endpoint (UserAdminUpdate a b)
| at_UserAdminCreate a : endpoint (UserAdminCreate a)
| at_UserAdminDestroy : endpoint UserAdminDestroy
| at_UserSessionList a : endpoint (UserSessionList a)
| at_UserSessionRetrieve a : endpoint (UserSessionRetrieve a)
| at_UserSessionRevoke a : endpoint (UserSessionRevoke a)
| at_UserSessionRevokeOthers : endpoint UserSessionRevokeOthers
| at_UserSessionRevokeAll : endpoint UserSessionRevokeAll
| at_APIKeyCreate a b c d : endpoint (APIKeyCreate a b c d)
| at_APIKeyList a : endpoint (APIKeyList a)
| at_APIKeyRetrieve a : endpoint (APIKeyRetrieve a)
| at_APIKeyRevoke a : endpoint (APIKeyRevoke a)
| at_NotificationList a : endpoint (NotificationList a)
| at_NotificationRetrieve a : endpoint (NotificationRetrieve a)
| at_NotificationMarkRead a : endpoint (NotificationMarkRead a)
| at_NotificationMarkAllRead : endpoint NotificationMarkAllRead
| at_NotificationDestroy a : endpoint (NotificationDestroy a)
| at_RoleCreate a b c d : endpoint (RoleCreate a b c d)
| at_RoleUpdate a b c d e : endpoint (RoleUpdate a b c d e)
| at_RoleDestroy a : endpoint (RoleDestroy a)
| at_PermissionCreate a b : endpoint (PermissionCreate a b)
| at_PermissionUpdate a b c : endpoint (PermissionUpdate a b c)
| at_PermissionDestroy a : endpoint (PermissionDestroy a)
| at_RolePermissionCreate a b : endpoint (RolePermissionCreate a b)
| at_RolePermissionUpdate a b c : endpoint (RolePermissionUpdate a b c)
| at_RolePermissionDestroy a : endpoint (RolePermissionDestroy a)
| at_UserRoleCreate a b c d : endpoint (UserRoleCreate a b c d)
| at_UserRoleUpdate a b c d e : endpoint (UserRoleUpdate a b c d e)
| at_UserRoleDestroy a : endpoint (UserRoleDestroy a)
| at_OverrideCreate a b c d : endpoint (OverrideCreate a b c d)
| at_OverrideUpdate a b c d e : endpoint (OverrideUpdate a b c d e)
| at_OverrideDestroy a : endpoint (OverrideDestroy a)
| at_SettingList a : endpoint (SettingList a)
| at_SettingRetrieve a : endpoint (SettingRetrieve a)
| at_SettingCreate a b c d e f : endpoint (SettingCreate a b c d e f)
| at_SettingUpdate a b c d e f g : endpoint (SettingUpdate a b c d e f g)
| at_SettingDestroy a : endpoint (SettingDestroy a)
| at_FeatureFlagList a : endpoint (FeatureFlagList a)
| at_FeatureFlagRetrieve a : endpoint (FeatureFlagRetrieve a)
| at_FeatureFlagCreate a b c : endpoint (FeatureFlagCreate a b c)
| at_FeatureFlagUpdate a b c d : endpoint (FeatureFlagUpdate a b c d)
| at_FeatureFlagDestroy a : endpoint (FeatureFlagDestroy a)
| at_AuditLogList a : endpoint (AuditLogList a)
| at_AuditLogRetrieve a : endpoint (AuditLogRetrieve a)
| at_RefreshView base : serves base -> endpoint (RefreshView base)
| at_root r : endpoint (user_view (fun _ _ _ => ret (bare (root_listing r) 200)))
| at_open_gate t : endpoint (open_gate t)
| at_user_gate : endpoint user_gate
| at_scoped_gate s : endpoint (scoped_gate s)
| at_admin_gate view codename : endpoint (admin_gate view codename)
| at_api_key_gate : endpoint (api_key_view unreached)
| at_notification_gate : endpoint (notification_view (fun _ => raise TypeError))
| at_answering v m : endpoint v -> serves m -> endpoint (answering v m)
| at_rbac_list R (HM : Model R) view render (q : ListQuery R) : endpoint (rbac_list view render q)
| at_rbac_retrieve R (HM : Model R) view model render k : endpoint (rbac_retrieve (R := R) view model render k).

Create HintDb endpoints discriminated.
#[local] Hint Constants Opaque : endpoints.
#[local] Hint Constructors endpoint : endpoints.

(** ** Every endpoint is a step *)

Ltac view_builder :=
  intros Hh r a; split;
  [repeat first [apply Forall_nil_2 | apply Forall_cons_2]; cbn [fst is_authenticated has_api_key_scope has_codename]; steps
  |cbn [handler user_view scoped_view admin_view api_key_view]; first [apply Hh | destruct (auth_user a) as [[uid u]|]; [apply Hh|steps]]].

Lemma open_view_stepping t h : (forall r a, serves (h r a)) -> stepping (open_view t h).
Proof. view_builder. Qed.

Lemma user_view_stepping h : (forall r k u, serves (h r k u)) -> stepping (user_view h).
Proof. view_builder. Qed.

Lemma scoped_view_stepping s h : (forall r k u, serves (h r k u)) -> stepping (scoped_view s h).
Proof. view_builder. Qed.

Lemma admin_view_stepping v c h : (forall r k, serves (h r k)) -> stepping (admin_view v c h).
Proof. view_builder. Qed.

Lemma api_key_view_stepping h : (forall r k, serves (h r k)) -> stepping (api_key_view h).
Proof. view_builder. Qed.

Lemma answering_stepping v m : stepping v -> serves m -> stepping (answering v m).
Proof. intros Hv Hm r a. split; [by apply Hv|done]. Qed.

Lemma endpoint_stepping v : endpoint v -> stepping v.
Proof.
  intros Hv. induction Hv.
  all: try by apply answering_stepping.
  all: first [apply open_view_stepping | apply user_view_stepping | apply scoped_view_stepping
             | apply admin_view_stepping | apply api_key_view_stepping | idtac]; intros; cbv beta.
  all: try solve [unfold unreached; handler_steps].
  intros r a. split; [apply Forall_nil_2|]. cbn [handler RefreshView]. steps.
  by apply refresh_validate_steps.
Qed.

(** ** Every route leads to an endpoint *)

(** What the other side of the program has to keep: the inherited refresh
    serializer, the admin site, the OpenAPI views. *)
Class SiteSteps : Prop := {
  refresh_rotates : forall r, serves (rotate_refresh r);
  admin_site_keeps : forall r, serves (admin_site r);
  schema_site_keeps : forall r, serves (schema_site r);
}.

Definition endpoint_route (rt : Route) : Prop :=
  endpoint (gate rt) /\ Forall (fun a => forall args d r, endpoint (a.2 args d r)) (actions rt).

Lemma on_key_endpoint args view : (forall k, endpoint (view k)) -> endpoint (on_key args view).
Proof. intros Hv. unfold on_key. destruct (_ ≫= _); [apply Hv|]. apply at_answering; [apply Hv|steps]. Qed.

Ltac endpoint_view :=
  intros; cbn [snd gate only collection detail_route list_action detail_action retrieve_update]; cbv beta;
  lazymatch goal with
  | |- endpoint (on_key _ _) => apply on_key_endpoint; endpoint_view
  | |- endpoint (let '(_, _) := ?x in _) => destruct x; endpoint_view
  | |- endpoint (RefreshView (rotate_refresh _)) => apply at_RefreshView, refresh_rotates
  | |- endpoint (RefreshView _) => apply at_RefreshView; steps
  | |- endpoint _ => solve [eauto 2 with endpoints nocore]
  end.
Ltac route_table := repeat first [apply Forall_nil_2 | apply Forall_cons_2 | apply Forall_app_2].
Ltac endpoint_entry := split; [endpoint_view | route_table; endpoint_view].

Lemma api_patterns_endpoints `{!SiteSteps} : Forall endpoint_route (under "api" (under "v1" api_patterns)).
Proof.
  assert (Hunder : forall p l, Forall endpoint_route l -> Forall endpoint_route (under p l)).
  { intros p l Hl. apply Forall_fmap. eapply Forall_impl; [exact Hl|]. done. }
  do 2 apply Hunder. unfold api_patterns. apply Forall_app_2; [apply Hunder; route_table; endpoint_entry|].
  apply Forall_app_2; [route_table; endpoint_entry|].
  unfold router_patterns. route_table; try destruct ENABLE_NOTIFICATIONS; try destruct ENABLE_API_KEYS; route_table;
    endpoint_entry.
Qed.

(** ** Operations *)

(** The models of the admin site that no foreign key refers to: deleting one of
    their objects is deleting its row. *)
Inductive unreferenced : forall R (HM : Model R), Prop :=
| leaf_key : unreferenced APIKey.t _
| leaf_file : unreferenced StoredFile.t _
| leaf_notification : unreferenced Notification.t _
| leaf_assignment : unreferenced UserRole.t _
| leaf_override : unreferenced UserPermissionOverride.t _
| leaf_ban : unreferenced UserBan.t _
| leaf_setting : unreferenced Setting.t _
| leaf_flag : unreferenced FeatureFlag.t _.

(** What runs: requests, the scheduled tasks of CELERY_BEAT_SCHEDULE
    ([cleanup_audit_logs] comes with [move]), the commands, the hooks of the
    admin site, and the services other code calls directly.  Code the program is handed (a malware
    scanner, the inherited admin view) has to be a step itself. *)
Inductive operation : forall {A}, M A -> Prop :=
| a_request v r : endpoint v -> operation (respond v r)
| an_http_request incoming r : SiteSteps -> operation (serve_request incoming r)
| clean_sessions : operation cleanup_sessions
| clean_tokens : operation cleanup_tokens
| clean_attempts : operation cleanup_login_attempts
| clean_notifications : operation cleanup_notifications
| clean_files : operation cleanup_unused_files
| expire_bans : operation expire_temporary_bans
| dispatch_webhooks : operation dispatch_pending_webhooks
| deliver k : operation (deliver_webhook k)
| bootstrap g : operation (Authorization.handle g)
| seeding debug admin g : operation (seed debug admin g)
| make_superuser a b c d e : operation (create_superuser a b c d e)
| health_check a b : operation (ready a b)
| imposing a b c d e f : operation (ban a b c d e f)
| lifting a b c : operation (revoke_ban a b c)
| notifying a b c d : operation (notify a b c d)
| emitting a b : operation (emit a b)
| webhook_endpoint a b c d : operation (create_endpoint a b c d)
| setting_change a b c d e : operation (set_setting a b c d e)
| storing o u v : (forall scan, malware_scanner v = Some scan -> serves (scan u)) ->
    operation (store o u v)
| admin_save R (HM : Model R) label target changed k (obj : R) actor r :
    ModelLaws R -> ServiceTable R -> OrdinaryTable R -> operation (save_model label target changed k obj actor r)
| admin_delete R (HM : Model R) label target (x : uuid * R) actor r :
    unreferenced R HM -> operation (delete_model label target (delete_row (R := R)) x actor r)
| admin_save_user changed k obj actor r : operation (save_user_model changed k obj actor r)
| admin_password base m k actor r : serves base -> operation (user_change_password base m k actor r)
| admin_ban changed k obj actor r : operation (save_ban_model changed k obj actor r)
| admin_revoke_bans l actor r : operation (revoke_selected_bans l actor r)
| admin_revoke_keys l actor r : operation (revoke_selected_keys l actor r)
| admin_delete_roles l actor r : operation (delete_roles l actor r)
| admin_delete_permissions l actor r : operation (delete_permissions l actor r).

Lemma save_model_steps {R} `{!Model R, !ModelLaws R, !ServiceTable R, !OrdinaryTable R} label target changed k
    (obj : R) actor r : serves (save_model label target changed k obj actor r).
Proof. unfold save_model, save_object. steps. Qed.

Lemma record_deletion_steps {R} `{!Model R} label target (x : uuid * R) actor r :
  serves (record_deletion label target x actor r).
Proof. unfold record_deletion. steps. Qed.

(** A request that comes through the server is a step, wherever its route leads. *)
Lemma route_view_stepping `{!SiteSteps} rt args d r : endpoint_route rt -> stepping (route_view rt args d r).
Proof.
  intros [Hg Ha]. unfold route_view.
  destruct (List.find _ _) as [[name view]|] eqn:Hf.
  - apply List.find_some in Hf as [Hin _]. rewrite List.Forall_forall in Ha.
    by apply endpoint_stepping, (Ha _ Hin).
  - apply answering_stepping; [by apply endpoint_stepping|]. destruct (String.eqb _ _); steps.
Qed.

Lemma resolved_steps `{!SiteSteps} d r v : resolve_api d r = Some v -> stepping v.
Proof.
  unfold resolve_api. destruct (_ ≫= _) as [[rt args]|] eqn:Hf; [|done]. intros [= <-].
  apply route_view_stepping. destruct (segments _) as [path|]; [|done].
  apply find_route_spec in Hf as [Hin _]. by apply (proj1 (Forall_forall _ _) api_patterns_endpoints rt).
Qed.

Lemma site_view_steps `{!SiteSteps} r : serves (site_view r).
Proof.
  unfold site_view. destruct (String.prefix _ _); [apply admin_site_keeps|].
  destruct (segments _) as [path|]; [|steps].
  destruct (bool_decide _); [steps|]. destruct (bool_decide _); [unfold ready; steps|].
  apply serves_bind; [apply serves_read|]. intros d.
  destruct (resolve_api d r) as [v|] eqn:Hv; [by eapply dispatch_steps, resolved_steps|].
  destruct (_ && _); [apply schema_site_keeps|steps].
Qed.

Lemma serve_request_steps `{!SiteSteps} incoming r : serves (serve_request incoming r).
Proof. pose proof site_view_steps. unfold serve_request, chosen_request_id. steps. Qed.

Lemma operation_steps {A} (m : M A) : operation m -> serves m.
Proof.
  intros Hm. destruct Hm.
  1: by apply respond_steps, endpoint_stepping.
  1: by apply serve_request_steps.
  all: try solve [steps].
  all: unfold seed, ready, delete_model, save_user_model, user_change_password, save_ban_model,
    revoke_selected_bans, revoke_selected_keys, delete_roles, delete_permissions, delete_queryset.
  all: try match goal with H : unreferenced _ _ |- _ => destruct H end.
  all: repeat first [progress steps | apply save_model_steps | apply record_deletion_steps | by apply store_steps].
Qed.

(** One operation, a deletion of the admin site that cascades, the retention of
    the audit journal, or anything that leaves the database alone: another
    process with its own clock, cache and session, of which the trace of
    effects has nothing. *)
Inductive move (w w' : World) : Prop :=
| ran {A} (m : M A) : operation m -> w' = (m w).2 -> move w w'
| removed (m : M unit) : deletion m -> w' = (m w).2 -> move w w'
| clean_audit : w' = (cleanup_audit_logs w).2 -> move w w'
| elsewhere : db w' = db w -> hooks w' = hooks w -> effects w' = effects w -> move w w'.

(** What the server does with a request is one move. *)
Lemma application_moves `{!SiteSteps} incoming r p :
  unique_rows (R := UserSession.t) (db (world p)) -> move (world p) (world (application incoming r p).2).
Proof.
  intros Hu. eapply (ran _ _ (serve_request incoming r)); [by apply an_http_request|by apply application_world].
Qed.

(** The retention task removes audit rows only, and none unless configured. *)
Lemma cleanup_audit_logs_steps : evolves system_step cleanup_audit_logs.
Proof.
  unfold cleanup_audit_logs, hard_delete_for_retention. destruct (Z.leb_spec AUDIT_RETENTION_DAYS 0); [apply evolves_ret; apply _|].
  apply evolves_bind; [apply _|apply evolves_now; apply _|]. intros t. apply evolves_delete_where. intros d.
  split; [apply kept_refl|]. split; [lia|]. intros Hd. apply st_constraints; [done|].
  by apply unique_table_remove, st_unique.
Qed.

Lemma cleanup_audit_logs_shrinks : evolves deliveries_shrink cleanup_audit_logs.
Proof. unfold cleanup_audit_logs, hard_delete_for_retention, deliveries_shrink. evolve; reflexivity. Qed.

Lemma move_steps w w' : move w w' -> system_step (db w) (db w').
Proof.
  intros [A m Hm Heq|m Hm Heq|Heq|Heq _ _]; rewrite Heq; [|by apply deletion_steps|apply cleanup_audit_logs_steps|reflexivity].
  by apply (evolves_system m), operation_steps.
Qed.

(** No move takes a delivery back. *)
Lemma move_deliveries w w' : constraints (db w) -> move w w' -> deliveries_after (db w) (db w').
Proof.
  intros Hd [A m Hm Heq|m Hm Heq|Heq|Heq _ _]; rewrite Heq.
  - apply deliveries_after_progress. by apply (operation_steps m Hm).
  - by apply deliveries_after_shrink, deletion_shrinks.
  - apply deliveries_after_shrink, cleanup_audit_logs_shrinks.
  - intros k r r' Hk Hk'. left. congruence.
Qed.

Lemma cleanup_audit_logs_emits : emits complete_effect cleanup_audit_logs.
Proof.
  unfold cleanup_audit_logs, hard_delete_for_retention. destruct (_ <=? _); [by apply emits_inert|].
  apply emits_bind; [by apply emits_inert|]. intros t. apply emits_inert, inert_delete_where.
Qed.

Lemma move_emits w w' :
  move w w' -> Forall complete_effect (hooks w) -> Forall complete_effect (effects w) ->
  Forall complete_effect (hooks w') /\ Forall complete_effect (effects w').
Proof.
  intros [A m Hm ->|m Hm ->| ->|_ -> ->]; [|by apply deletion_emits|by apply cleanup_audit_logs_emits|done].
  by apply (operation_steps m Hm).
Qed.

Lemma moves_emit w w' :
  rtc move w w' -> Forall complete_effect (hooks w) -> Forall complete_effect (effects w) ->
  Forall complete_effect (effects w').
Proof.
  induction 1 as [w|w w1 w2 Hm _ IH]; [done|]. intros Hh He. destruct (move_emits w w1 Hm Hh He). by apply IH.
Qed.

(** [C10] Every mail that leaves the system, along any sequence of its
    operations, can be sent: its template exists, and every variable the
    template or its base shows has a value, a text or None, in the context that
    the message is rendered with. *)
Theorem mails_complete show html support from w0 w template recipient subject context :
  rtc move w0 w -> hooks w0 = [] -> effects w0 = [] -> SendEmail template recipient subject context ∈ effects w ->
  exists m paths, send_email show html support from template recipient subject context = Some m /\
    to m = [recipient] /\ template_variables template = Some paths /\
    forall path, path ∈ paths -> shows (PDict (email_context support context)) path = true.
Proof.
  intros Hmoves Hh He Hin. assert (Hall : Forall complete_effect (effects w)).
  { apply (moves_emit w0 w Hmoves); [by rewrite Hh|by rewrite He]. }
  pose proof (proj1 (Forall_forall _ _) Hall _ Hin) as Hshows. cbn [complete_effect] in Hshows.
  destruct (shows_all_templates _ _ Hshows) as (text & paths & Ht & _ & Hv). unfold send_email. rewrite Ht.
  eexists _, _. split; [done|]. split; [done|]. split; [exact Hv|]. intros path Hp. by apply (message_shows support template context _ path Hshows Hv).
Qed.

(** [C2] Whatever the system does, the security journal and, unless a retention
    is configured for it, the audit journal keep every entry they had, as it was
    or, when a user is deleted, without its user or actor, and the uniqueness
    constraints of all tables, once they hold, keep holding: along any sequence
    of requests to the endpoints, tasks, commands and admin actions, cascading
    deletions and the ones that fail included, and interleaved with other
    processes between operations. *)
Theorem system_invariant w0 w :
  rtc move w0 w ->
  kept nobody (security_events (db w0)) (security_events (db w)) /\
  (AUDIT_RETENTION_DAYS <= 0 -> kept no_actor (audit_logs (db w0)) (audit_logs (db w))) /\
  (constraints (db w0) -> constraints (db w)).
Proof.
  intros Hmoves. change (system_step (db w0) (db w)).
  induction Hmoves as [w|w w1 w2 Hm _ IH]; [done|]. etrans; [by apply move_steps|done].
Qed.

End endpoints.

(** ** Witness: registration and sign-in on an empty database *)

Section witnesses.

#[local] Existing Instance Server.demo_codec.
#[local] Existing Instance Server.demo_requests.
#[local] Existing Instance Server.demo_site.

Definition sample_http : HttpRequest :=
  MkHttp sample_request "POST" "/api/v1/auth/register/" "" None true None None "" (fun _ => None).

Definition registering : M Response :=
  respond (E := demo_env) (RegisterView (E := demo_env) (inr "carol@example.test") (inr "carol")
    (inr "correct horse battery") (inr None) (inr None)) sample_http.
Definition signing_in : M Response :=
  respond (E := demo_env) (LoginView (E := demo_env) (inr "carol") (inr "correct horse battery") (inr None)
    (inr false)) sample_http.

Lemma empty_constraints : constraints empty_db.
Proof. split; apply unique_table_empty. Qed.

Lemma system_invariant_witness :
  constraints (db (signing_in (registering (initial_world empty_db)).2).2) /\
  returned (signing_in (registering (initial_world empty_db)).2) = true.
Proof.
  split; [|vm_compute; reflexivity].
  enough (Hm : rtc (move (E := demo_env)) (initial_world empty_db) (signing_in (registering (initial_world empty_db)).2).2)
    by exact (proj2 (proj2 (system_invariant (E := demo_env) _ _ Hm)) empty_constraints).
  eapply rtc_l; [eapply (ran _ _ registering); [apply a_request, at_RegisterView|reflexivity]|].
  apply rtc_once. eapply (ran _ _ signing_in); [apply a_request, at_LoginView|reflexivity].
Defined.

Definition registration_context : list (string * pyval) :=
  [("user", PUser 1001 "carol@example.test" "carol");
   ("verification_url", PStr "http://localhost:8000/verify-email?token=tok5")].

Lemma mails_complete_witness :
  effects (registering (initial_world empty_db)).2 =
    [SendEmail "email_verification" "carol@example.test" "Verify your Django Foundation email" registration_context] /\
  exists m paths, send_email (E := demo_env) (fun _ => "") bare_html "help@example.test" "from@example.test"
      "email_verification" "carol@example.test" "Verify your Django Foundation email" registration_context = Some m /\
    to m = ["carol@example.test"] /\ template_variables "email_verification" = Some paths /\
    forall path, path ∈ paths ->
      shows (PDict (email_context (E := demo_env) "help@example.test" registration_context)) path = true.
Proof.
  assert (He : effects (registering (initial_world empty_db)).2 =
    [SendEmail "email_verification" "carol@example.test" "Verify your Django Foundation email" registration_context])
    by (vm_compute; reflexivity).
  split; [exact He|]. eapply (mails_complete (E := demo_env) _ _ _ _ (initial_world empty_db)
    (registering (initial_world empty_db)).2); [|reflexivity|reflexivity|].
  - apply rtc_once. eapply (ran _ _ registering); [apply a_request, at_RegisterView|reflexivity].
  - rewrite He. by apply list_elem_of_singleton.
Defined.

End witnesses.
