(* ===== verification/Liveness.v ===== *)
(** * Progress of webhook deliveries

    What happens in the long run.  Each dispatch run picks every delivery that
    is due ([none_forgotten]), and along any execution of the whole system in
    which workers keep attempting a delivery, it ends: accepted, abandoned after
    at most eight completed attempts, or deleted ([delivery_settles]). *)

From stdpp Require Import relations.
From S2P Require Import Prelude Env Demo Models Orm Logic Common Samples Webhooks Api AuthViews Resources Urls Platform Server System Steps Deletion Reachable.

(** ** The dispatcher *)

Section dispatch.
Context `{E : Env}.

(** A delivery that the dispatcher looks for at [t]. *)
Definition due (t : Z) (d : DB) (k : uuid) (r : WebhookDelivery.t) : bool :=
  fresh_delivery d k r || due_delivery t d k r || stale_delivery t d k r.

Lemma due_spec t d k r :
  due t d k r = true <-> fresh_delivery d k r = true \/ due_delivery t d k r = true \/ stale_delivery t d k r = true.
Proof. unfold due. rewrite !orb_true_iff. tauto. Qed.

(** The three queries ask for three different states. *)
Lemma fresh_state d k r : fresh_delivery d k r = true -> WebhookDelivery.status r = DeliveryStatus.PENDING.
Proof. unfold fresh_delivery. rewrite !andb_true_iff. by intros [[?%bool_decide_eq_true _] _]. Qed.
Lemma due_state t d k r : due_delivery t d k r = true -> WebhookDelivery.status r = DeliveryStatus.FAILED.
Proof. unfold due_delivery. rewrite !andb_true_iff. by intros [[?%bool_decide_eq_true _] _]. Qed.
Lemma stale_state t d k r : stale_delivery t d k r = true -> WebhookDelivery.status r = DeliveryStatus.PROCESSING.
Proof. unfold stale_delivery. rewrite !andb_true_iff. by intros [[?%bool_decide_eq_true _] _]. Qed.

Definition picked (P : uuid -> WebhookDelivery.t -> bool) (n : nat) (d : DB) : list uuid :=
  take n (Table.select P (webhook_deliveries d)).*1.

Lemma elem_of_picked P n d k :
  k ∈ picked P n d -> exists r, webhook_deliveries d !! k = Some r /\ P k r = true.
Proof.
  intros Hk. assert (Hin : k ∈ (Table.select P (webhook_deliveries d)).*1) by (eapply subseteq_take, Hk).
  apply list_elem_of_fmap in Hin as ([k' r] & -> & [? ?]%Table.elem_of_select). by exists r.
Qed.

Lemma picked_all P n d k r :
  webhook_deliveries d !! k = Some r -> P k r = true -> (Table.count P (webhook_deliveries d) <= n)%nat ->
  k ∈ picked P n d.
Proof.
  intros Hk HP Hn. unfold picked. rewrite take_ge; [|by rewrite length_fmap].
  apply list_elem_of_fmap. exists (k, r). split; [done|]. by apply Table.elem_of_select.
Qed.

Lemma picked_NoDup P n d : NoDup (picked P n d).
Proof. eapply sublist_NoDup; [apply (Table.select_NoDup P (webhook_deliveries d))|apply sublist_take]. Qed.

Lemma picked_length P n d : length (picked P n d) = Nat.min n (Table.count P (webhook_deliveries d)).
Proof. unfold picked. by rewrite length_take, length_fmap. Qed.

Lemma picked_disjoint P Q n m d k :
  (forall r, P k r = true -> Q k r = true -> False) -> k ∈ picked P n d -> k ∉ picked Q m d.
Proof.
  intros Hd (r & Hk & HP)%elem_of_picked (r' & Hk' & HQ)%elem_of_picked.
  replace r' with r in HQ by congruence. by apply (Hd r).
Qed.

(** The three queries, one after the other, within the batch. *)
Lemma pending_ids_parts t d :
  exists n m, pending_ids t d =
    (picked (fresh_delivery d) batch_size d ++ picked (due_delivery t d) n d) ++ picked (stale_delivery t d) m d /\
    n = (batch_size - length (picked (fresh_delivery d) batch_size d))%nat /\
    m = (n - length (picked (due_delivery t d) n d))%nat.
Proof.
  eexists _, _. split; [reflexivity|]. split; [reflexivity|]. rewrite length_app. unfold picked. lia.
Qed.

(** A delivery is due for one reason, so the reasons count together. *)
Lemma due_count t d :
  (Table.count (fresh_delivery d) (webhook_deliveries d) + Table.count (due_delivery t d) (webhook_deliveries d)
   + Table.count (stale_delivery t d) (webhook_deliveries d) <= Table.count (due t d) (webhook_deliveries d))%nat.
Proof.
  unfold Table.count, Table.select, Table.holds. induction (map_to_list (webhook_deliveries d)) as [|[k r] l IH]; [done|].
  cbn [List.filter fst snd]. unfold due at 1.
  pose proof (fresh_state d k r). pose proof (due_state t d k r). pose proof (stale_state t d k r).
  destruct (fresh_delivery d k r), (due_delivery t d k r), (stale_delivery t d k r); cbn [orb length]; try lia.
  all: exfalso; intuition congruence.
Qed.

Lemma pending_ids_NoDup t d : NoDup (pending_ids t d).
Proof.
  destruct (pending_ids_parts t d) as (n & m & -> & _). rewrite !NoDup_app.
  split_and!; [apply picked_NoDup| |apply picked_NoDup| |apply picked_NoDup].
  - intros k Hk. apply (picked_disjoint _ _ _ _ _ _ (fun r F D => ltac:(apply fresh_state in F; apply due_state in D; congruence)) Hk).
  - intros k [Hk|Hk]%elem_of_app.
    + apply (picked_disjoint _ _ _ _ _ _ (fun r F D => ltac:(apply fresh_state in F; apply stale_state in D; congruence)) Hk).
    + apply (picked_disjoint _ _ _ _ _ _ (fun r F D => ltac:(apply due_state in F; apply stale_state in D; congruence)) Hk).
Qed.

Lemma pending_ids_length t d : (length (pending_ids t d) <= batch_size)%nat.
Proof. destruct (pending_ids_parts t d) as (n & m & -> & -> & ->). rewrite !length_app, !picked_length. lia. Qed.

Lemma pending_ids_due t d k :
  k ∈ pending_ids t d -> exists r, webhook_deliveries d !! k = Some r /\ due t d k r = true.
Proof.
  destruct (pending_ids_parts t d) as (n & m & -> & _). rewrite !elem_of_app.
  intros [[Hk|Hk]|Hk]; apply elem_of_picked in Hk as (r & Hk & HP); exists r; (split; [done|]); apply due_spec; auto.
Qed.

Lemma pending_ids_all t d k r :
  (Table.count (due t d) (webhook_deliveries d) <= batch_size)%nat ->
  webhook_deliveries d !! k = Some r -> due t d k r = true -> k ∈ pending_ids t d.
Proof.
  intros Hn Hk Hd. pose proof (due_count t d) as Hc.
  destruct (pending_ids_parts t d) as (n & m & -> & Hn' & Hm). rewrite picked_length in Hn', Hm.
  rewrite !elem_of_app. apply due_spec in Hd as [HP|[HP|HP]].
  - left; left. apply (picked_all _ _ _ _ r); [done|done|lia].
  - left; right. apply (picked_all _ _ _ _ r); [done|done|lia].
  - right. apply (picked_all _ _ _ _ r); [done|done|lia].
Qed.

(** The message that [delay] leaves for a worker. *)
Definition delivery_message (k : uuid) : effect := QueueTask "apps.webhooks.tasks.deliver_webhook" (uuid_str k).

Lemma queue_run l w :
  CELERY_ENABLED && negb CELERY_TASK_ALWAYS_EAGER = true ->
  for_each l delay_delivery w = (inr tt, w <| effects ::= fun es => es ++ (delivery_message <$> l) |>).
Proof.
  intros Hq. revert w. induction l as [|k l IH]; intros w; cbn [for_each].
  - unfold ret, upd. cbn. rewrite app_nil_r. by destruct w.
  - unfold bind, delay_delivery at 1. rewrite Hq. unfold perform, modify. rewrite IH. cbn. by rewrite <- app_assoc.
Qed.

(** With a message queue, a run of the dispatcher queues each delivery that
    is due at most once, a hundred at most, and nothing else: the database stays
    as it is.  It queues all of them when they are a hundred or less. *)
Theorem dispatch_complete w :
  ENABLE_WEBHOOKS = true -> CELERY_ENABLED && negb CELERY_TASK_ALWAYS_EAGER = true ->
  exists ids w', dispatch_pending_webhooks w = (inr (length ids), w') /\ db w' = db w /\
    effects w' = effects w ++ (delivery_message <$> ids) /\ NoDup ids /\ (length ids <= batch_size)%nat /\
    (forall k, k ∈ ids ->
       exists r, webhook_deliveries (db w) !! k = Some r /\ due (clock (ticks w)) (db w) k r = true) /\
    ((Table.count (due (clock (ticks w)) (db w)) (webhook_deliveries (db w)) <= batch_size)%nat ->
     forall k r, webhook_deliveries (db w) !! k = Some r -> due (clock (ticks w)) (db w) k r = true -> k ∈ ids).
Proof.
  intros He Hq. exists (pending_ids (clock (ticks w)) (db w)). eexists. split.
  { unfold dispatch_pending_webhooks. rewrite He. unfold bind, now, read. cbn -[pending_ids]. rewrite queue_run by done.
    reflexivity. }
  split_and!; [done|done|apply pending_ids_NoDup|apply pending_ids_length|apply pending_ids_due|].
  intros Hn k r. by apply pending_ids_all.
Qed.

(** A delivery the code has written: in each unfinished state, it has the date
    that the dispatcher waits for. *)
Definition dated (r : WebhookDelivery.t) : Prop :=
  match WebhookDelivery.status r with
  | DeliveryStatus.PENDING => WebhookDelivery.next_retry_at r = None
  | DeliveryStatus.PROCESSING => WebhookDelivery.last_attempt_at r <> None
  | DeliveryStatus.FAILED => WebhookDelivery.next_retry_at r <> None
  | _ => True
  end.

Lemma failed_dated t r : dated (failed t r).
Proof. unfold failed, dated. destruct (_ <=? _); cbn; done. Qed.

Lemma attempt_dated b r r' : dated r -> attempt b r r' -> dated r'.
Proof. intros Hr Ha. revert Hr. destruct Ha; intros Hr; first [done | apply failed_dated]. Qed.

(** No delivery is forgotten: whatever runs [deliver_webhook] had on a
    delivery that [emit] created, crashed ones included, the dispatcher finds it
    at every time from some point on while its endpoint is active, unless it is
    finished. *)
Theorem none_forgotten endpoint event created r :
  rtc (fun r1 r2 => exists b, attempt b r1 r2) (new_delivery endpoint event created) r ->
  finished (WebhookDelivery.status r) = false ->
  exists t0, forall t d k, t0 <= t -> endpoint_active d r = true -> due t d k r = true.
Proof.
  intros Hr Hf. assert (Hd : dated r).
  { refine (rtc_ind_r dated (new_delivery endpoint event created) _ _ r Hr); [done|].
    intros r1 r2 _ [b Ha] H1. by eapply attempt_dated. }
  unfold dated in Hd. destruct (WebhookDelivery.status r) eqn:Hs; try done.
  - exists 0. intros t d k _ Ha. apply due_spec. left. unfold fresh_delivery. by rewrite Hs, Ha, Hd.
  - destruct (WebhookDelivery.last_attempt_at r) as [a|] eqn:Hl; [|done]. exists (a + stale_after + 1).
    intros t d k Ht Ha. apply due_spec. do 2 right. unfold stale_delivery. rewrite Hs, Ha, Hl.
    rewrite (proj2 (Z.ltb_lt a (t - stale_after))) by lia. done.
  - destruct (WebhookDelivery.next_retry_at r) as [a|] eqn:Hl; [|done]. exists a.
    intros t d k Ht Ha. apply due_spec. right; left. unfold due_delivery. rewrite Hs, Ha, Hl.
    rewrite (proj2 (Z.leb_le a t)) by lia. done.
Qed.

End dispatch.

(** ** The delivery ends *)

Section liveness.
Context `{E : Env, !TokenCodec, !RequestData, !Site}.

(** Infinite runs of the system, from a state where the constraints hold. *)
Record execution (e : nat -> World) : Prop := {
  starts_constrained : constraints (db (e 0%nat));
  each_moves n : move (e n) (e (S n));
}.

(** A worker runs the task on the delivery, to its end, at a time when no other
    one holds it. *)
Definition worked (k : uuid) (w w' : World) : Prop :=
  deliver_webhook k w = (inr tt, w') /\
  forall r, webhook_deliveries (db w) !! k = Some r -> in_flight (clock (ticks w)) r = false.

Lemma worked_by_check k w w' :
  deliver_webhook k w = (inr tt, w') ->
  option_map (in_flight (clock (ticks w))) (webhook_deliveries (db w) !! k) = Some false -> worked k w w'.
Proof. intros Hrun Hi. split; [done|]. intros r Hr. rewrite Hr in Hi. by injection Hi. Qed.

Lemma execution_constraints e n : execution e -> constraints (db (e n)).
Proof.
  intros He. induction n as [|n IH]; [by apply starts_constrained|].
  by apply (move_steps _ _ (each_moves e He n)).
Qed.

(** A completed attempt finishes the delivery or leaves it below the limit. *)
Lemma attempt_counts r r' :
  attempt true r r' -> WebhookDelivery.attempt_count r' = WebhookDelivery.attempt_count r + 1 ->
  finished (WebhookDelivery.status r') = true \/ WebhookDelivery.attempt_count r' < max_attempts.
Proof.
  assert (Hfailed : forall t x, finished (WebhookDelivery.status (failed t x)) = true \/
                                WebhookDelivery.attempt_count (failed t x) < max_attempts).
  { intros t x. unfold failed. destruct (Z.leb_spec max_attempts (WebhookDelivery.attempt_count x)); [by left|by right]. }
  inversion 1; subst; intros Hn; [lia|by left|apply Hfailed|apply Hfailed].
Qed.

Lemma worked_counts k r w w' :
  constraints (db w) -> webhook_deliveries (db w) !! k = Some r -> finished (WebhookDelivery.status r) = false ->
  worked k w w' ->
  exists r', webhook_deliveries (db w') !! k = Some r' /\
    (finished (WebhookDelivery.status r') = true \/
     WebhookDelivery.attempt_count r < WebhookDelivery.attempt_count r' < max_attempts).
Proof.
  intros Hd Hk Hf [Hrun Hi]. pose proof (deliver_spec k r w (c_deliveries _ Hd) Hk) as Hwp. unfold wp in Hwp.
  rewrite Hrun in Hwp. destruct Hwp as (r' & Ha & Hdb & Hcount). exists r'.
  split; [rewrite Hdb; apply lookup_insert_eq|].
  pose proof (Hcount (conj Hf (Hi r Hk))) as Hn. destruct (attempt_counts r r' Ha Hn); [by left|right; lia].
Qed.

(** Along an execution in which the delivery stays, it makes progress. *)
Section delivery.
Context (k : uuid) (e : nat -> World) (He : execution e).
Context (Hstays : forall n, webhook_deliveries (db (e n)) !! k <> None).

Lemma delivery_at n : exists r, webhook_deliveries (db (e n)) !! k = Some r.
Proof. destruct (webhook_deliveries (db (e n)) !! k) as [r|] eqn:Hk; [by exists r|by destruct (Hstays n)]. Qed.

Lemma delivery_later n m r r' :
  (n <= m)%nat -> webhook_deliveries (db (e n)) !! k = Some r -> webhook_deliveries (db (e m)) !! k = Some r' ->
  delivery_progress r r'.
Proof.
  intros Hnm Hr. revert r'. induction Hnm as [|m Hnm IH]; intros r' Hr'; [by left; congruence|].
  destruct (delivery_at m) as [x Hx]. transitivity x; [by apply IH|].
  by eapply (move_deliveries (e m) (e (S m))); [by apply execution_constraints|apply each_moves|..].
Qed.

(** At most so many completed attempts are left. *)
Definition attempts_left (r : WebhookDelivery.t) : nat := Z.to_nat (max_attempts - WebhookDelivery.attempt_count r).

Lemma delivery_finishes :
  (forall n, exists m, (n <= m)%nat /\ worked k (e m) (e (S m))) ->
  forall n r, webhook_deliveries (db (e n)) !! k = Some r ->
  exists m r', webhook_deliveries (db (e m)) !! k = Some r' /\ finished (WebhookDelivery.status r') = true.
Proof.
  intros Hfair n r. remember (attempts_left r) as a eqn:Ha. revert n r Ha.
  induction a as [a IH] using lt_wf_ind. intros n r -> Hr.
  destruct (Hfair n) as (m & Hnm & Hw). destruct (delivery_at m) as [x Hx].
  destruct (finished (WebhookDelivery.status x)) eqn:Hf; [by exists m, x|].
  destruct (worked_counts k x (e m) (e (S m)) (execution_constraints e m He) Hx Hf Hw) as (y & Hy & [Hdone|Hn]);
    [by exists (S m), y|].
  apply (IH (attempts_left y)) with (n := S m) (r := y); [|done|done].
  unfold attempts_left. destruct (delivery_later n m r x Hnm Hr Hx) as [->|[_ Hle]]; lia.
Qed.

End delivery.

(** [C9] Along any execution of the whole system, whatever else it does: a
    delivery that is not deleted, and that a worker attempts again and again
    with a run that returns, is finished after finitely many moves (accepted by
    its endpoint, or abandoned), and never changes from then on. *)
Theorem delivery_settles k e :
  execution e -> (forall n, webhook_deliveries (db (e n)) !! k <> None) ->
  (forall n, exists m, (n <= m)%nat /\ worked k (e m) (e (S m))) ->
  exists n r, finished (WebhookDelivery.status r) = true /\
    forall m, (n <= m)%nat -> webhook_deliveries (db (e m)) !! k = Some r.
Proof.
  intros He Hstays Hfair. destruct (delivery_at k e Hstays 0) as [r Hr].
  destruct (delivery_finishes k e He Hstays Hfair 0 r Hr) as (n & x & Hx & Hf). exists n, x. split; [done|].
  intros m Hnm. destruct (delivery_at k e Hstays m) as [y Hy].
  destruct (delivery_later k e He Hstays n m x y Hnm Hx Hy) as [->|[Hn _]]; [done|congruence].
Qed.

End liveness.

(** ** Witnesses *)

Section witnesses.

#[local] Existing Instance Server.demo_codec.
#[local] Existing Instance Server.demo_requests.
#[local] Existing Instance Server.demo_site.

(** The endpoint of [webhook_world] is down: eight attempts, then the delivery
    is abandoned and the worker finds nothing to do. *)
Definition retrying (n : nat) : World := Nat.iter n (fun w => (deliver_webhook (E := demo_env) 93 w).2) webhook_world.

Lemma retrying_S n : retrying (S n) = (deliver_webhook (E := demo_env) 93 (retrying n)).2.
Proof. reflexivity. Qed.

Lemma retrying_rests n : retrying (8 + n) = retrying 8.
Proof.
  induction n as [|n IH]; [by rewrite Nat.add_0_r|]. rewrite Nat.add_succ_r, retrying_S, IH.
  vm_compute. reflexivity.
Qed.

(** What holds of the first eight steps and of the last state holds of every
    step. *)
Lemma retrying_steps (P : World -> World -> Prop) n :
  Forall (fun m => P (retrying m) (retrying (S m))) (seq 0 9) -> P (retrying n) (retrying (S n)).
Proof.
  rewrite Forall_forall. intros HP. destruct (Nat.lt_ge_cases n 9) as [Hn|Hn].
  - apply HP, elem_of_seq. lia.
  - replace n with (8 + (n - 8))%nat by lia. rewrite <- Nat.add_succ_r, !retrying_rests.
    pose proof (HP 8%nat) as H8. change (retrying 9) with (retrying (8 + 1)) in H8. rewrite (retrying_rests 1) in H8.
    apply H8, elem_of_seq. lia.
Qed.

Lemma retrying_execution : execution (E := demo_env) retrying.
Proof.
  split; [|intros n; apply (ran _ _ (deliver_webhook (E := demo_env) 93)); [apply deliver|done]].
  split; solve [sample_check].
Qed.

Lemma retrying_works n : worked (E := demo_env) 93 (retrying n) (retrying (S n)).
Proof.
  refine (retrying_steps (worked (E := demo_env) 93) n _). cbn [seq].
  repeat first [apply Forall_nil_2 | apply Forall_cons_2].
  all: apply worked_by_check; vm_compute; reflexivity.
Qed.

Lemma retrying_stays n : webhook_deliveries (db (retrying n)) !! 93%N <> None.
Proof.
  refine (retrying_steps (fun w _ => webhook_deliveries (db w) !! 93%N <> None) n _). cbn [seq].
  repeat first [apply Forall_nil_2 | apply Forall_cons_2].
  all: vm_compute; discriminate.
Qed.

Lemma delivery_settles_witness :
  (forall n, worked (E := demo_env) 93 (retrying n) (retrying (S n))) /\
  exists n r, finished (WebhookDelivery.status r) = true /\
    forall m, (n <= m)%nat -> webhook_deliveries (db (retrying m)) !! 93%N = Some r.
Proof.
  split; [exact retrying_works|].
  apply (delivery_settles (E := demo_env) 93 retrying retrying_execution retrying_stays).
  intros n. exists n. split; [lia|apply retrying_works].
Defined.

(** Webhooks on, with a message queue. *)
Definition queueing : Settings := feature_defaults <| @CELERY_ENABLED := true |> <| @ENABLE_WEBHOOKS := true |>.

Lemma dispatch_complete_witness :
  exists ids w', dispatch_pending_webhooks (E := demo_env_with queueing) webhook_world = (inr (length ids), w') /\
    effects w' = delivery_message <$> ids /\ 93%N ∈ ids.
Proof.
  destruct (dispatch_complete (E := demo_env_with queueing) webhook_world eq_refl eq_refl)
    as (ids & w' & Hrun & _ & Heff & _ & _ & _ & Hall).
  exists ids, w'. split; [exact Hrun|]. split; [exact Heff|].
  apply (Hall ltac:(vm_compute; lia) 93%N (new_delivery 91 92 0)); vm_compute; reflexivity.
Defined.

Lemma none_forgotten_witness :
  exists t0, forall t d k, t0 <= t -> endpoint_active d (new_delivery 91 92 0) = true ->
    due t d k (new_delivery 91 92 0) = true.
Proof. apply (none_forgotten 91 92 0 _ (rtc_refl _ _) eq_refl). Defined.

End witnesses.
