(* ===== verification/Project.v ===== *)
(** * The project configuration and what it wires together

    The module config/settings/base.py as the list of its settings with their
    values, the modules that override it, and the three places where names in
    it decide what runs: the middleware stack, the classes of the API, and the
    tasks of the beat schedule ([config/celery.py], [common/tasks.py]). *)

From stdpp Require Import relations.
From S2P Require Import Prelude Env Demo Models Orm Logic Common Samples Users Sessions Authentication LoginProtection Bans ApiKeys Webhooks Responses Services Api AuthViews Resources Urls Platform Server Config System Steps Deletion Reachable.

(** ** The settings of base.py *)

Section base.
Context `{Environ}.

Definition PStrs (l : list string) : pyval := PList (PStr <$> l).
(** [timedelta] objects, with their length in microseconds. *)
Definition PTimedelta (duration : Z) : pyval := PObject "datetime.timedelta" [("microseconds", PInt duration)].

Definition DJANGO_APPS : list string :=
  ["django.contrib.admin"; "django.contrib.auth"; "django.contrib.contenttypes"; "django.contrib.sessions";
   "django.contrib.messages"; "django.contrib.staticfiles"].
Definition THIRD_PARTY_APPS : list string :=
  ["corsheaders"; "django_filters"; "drf_spectacular"; "rest_framework"; "rest_framework_simplejwt.token_blacklist"].
Definition LOCAL_APPS : list string :=
  ["apps.core"; "apps.accounts"; "apps.authentication"; "apps.authorization"; "apps.security"; "apps.audit";
   "apps.notifications"; "apps.files"; "apps.api_keys"; "apps.webhooks"; "apps.api"].
Definition INSTALLED_APPS : list string := DJANGO_APPS ++ THIRD_PARTY_APPS ++ LOCAL_APPS.

Definition MIDDLEWARE : list string :=
  ["django.middleware.security.SecurityMiddleware";
   "whitenoise.middleware.WhiteNoiseMiddleware";
   "common.middleware.request_id.RequestIDMiddleware";
   "corsheaders.middleware.CorsMiddleware";
   "django.contrib.sessions.middleware.SessionMiddleware";
   "django.middleware.locale.LocaleMiddleware";
   "django.middleware.common.CommonMiddleware";
   "django.middleware.csrf.CsrfViewMiddleware";
   "django.contrib.auth.middleware.AuthenticationMiddleware";
   "apps.authentication.middleware.UserSessionMiddleware";
   "django.contrib.messages.middleware.MessageMiddleware";
   "django.middleware.clickjacking.XFrameOptionsMiddleware";
   "common.middleware.security_headers.ContentSecurityPolicyMiddleware";
   "common.middleware.request_logging.RequestLoggingMiddleware"].

Definition AUTHENTICATION_BACKENDS : list string := ["apps.authentication.backends.EmailOrUsernameBackend"].
Definition PASSWORD_HASHERS : list string :=
  ["django.contrib.auth.hashers.Argon2PasswordHasher"; "django.contrib.auth.hashers.PBKDF2PasswordHasher";
   "django.contrib.auth.hashers.PBKDF2SHA1PasswordHasher"].

Definition validator (name : string) (options : dict) : pyval :=
  PDict (("NAME", PStr ("django.contrib.auth.password_validation." +:+ name)) ::
         match options with [] => [] | _ => [("OPTIONS", PDict options)] end).
Definition AUTH_PASSWORD_VALIDATORS : list pyval :=
  [validator "UserAttributeSimilarityValidator" []; validator "MinimumLengthValidator" [("min_length", PInt 12)];
   validator "CommonPasswordValidator" []; validator "NumericPasswordValidator" []].

Definition DEFAULT_AUTHENTICATION_CLASSES : list string :=
  ["apps.api_keys.authentication.APIKeyAuthentication"; "apps.authentication.jwt.StatusAwareJWTAuthentication";
   "rest_framework.authentication.SessionAuthentication"].
Definition DEFAULT_PERMISSION_CLASSES : list string :=
  ["rest_framework.permissions.IsAuthenticated"; "apps.api_keys.permissions.HasAPIKeyScope"].
Definition DEFAULT_THROTTLE_CLASSES : list string :=
  ["rest_framework.throttling.AnonRateThrottle"; "rest_framework.throttling.UserRateThrottle"].
Definition DEFAULT_THROTTLE_RATES : list (string * string) :=
  [("anon", env "THROTTLE_ANON" "100/hour"); ("user", env "THROTTLE_USER" "1000/hour");
   ("login", env "THROTTLE_LOGIN" "10/minute"); ("register", env "THROTTLE_REGISTER" "5/hour");
   ("password_reset", env "THROTTLE_PASSWORD_RESET" "5/hour");
   ("email_verification", env "THROTTLE_EMAIL_VERIFICATION" "5/hour");
   ("api_key", env "THROTTLE_API_KEY" "600/hour")].

Definition REST_FRAMEWORK : dict :=
  [("DEFAULT_AUTHENTICATION_CLASSES", PStrs DEFAULT_AUTHENTICATION_CLASSES);
   ("DEFAULT_PERMISSION_CLASSES", PStrs DEFAULT_PERMISSION_CLASSES);
   ("DEFAULT_PAGINATION_CLASS", PStr "common.pagination.StandardPagination");
   ("PAGE_SIZE", PInt 25);
   ("EXCEPTION_HANDLER", PStr "common.exceptions.handler.api_exception_handler");
   ("DEFAULT_SCHEMA_CLASS", PStr "drf_spectacular.openapi.AutoSchema");
   ("DEFAULT_FILTER_BACKENDS", PStrs ["django_filters.rest_framework.DjangoFilterBackend";
                                      "rest_framework.filters.SearchFilter"; "rest_framework.filters.OrderingFilter"]);
   ("DEFAULT_THROTTLE_CLASSES", PStrs DEFAULT_THROTTLE_CLASSES);
   ("DEFAULT_THROTTLE_RATES", PDict ((fun r => (r.1, PStr r.2)) <$> DEFAULT_THROTTLE_RATES))].

Definition SIMPLE_JWT (signing_key : string) : dict :=
  [("ACCESS_TOKEN_LIFETIME", PTimedelta (minutes (env_int "ACCESS_TOKEN_MINUTES" 10)));
   ("REFRESH_TOKEN_LIFETIME", PTimedelta (days (env_int "REFRESH_TOKEN_DAYS" 7)));
   ("ROTATE_REFRESH_TOKENS", PBool true); ("BLACKLIST_AFTER_ROTATION", PBool true); ("UPDATE_LAST_LOGIN", PBool false);
   ("AUTH_HEADER_TYPES", PTuple [PStr "Bearer"]); ("SIGNING_KEY", PStr signing_key)].

(** The entries of the beat schedule: the task and its period in seconds. *)
Definition CELERY_BEAT_SCHEDULE : list (string * (string * Z)) :=
  [("cleanup-sessions-daily", ("apps.authentication.tasks.cleanup_sessions", 86400));
   ("cleanup-tokens-daily", ("apps.authentication.tasks.cleanup_tokens", 86400));
   ("cleanup-notifications-daily", ("apps.notifications.tasks.cleanup_notifications", 86400));
   ("expire-bans-hourly", ("apps.accounts.tasks.expire_temporary_bans", 3600));
   ("cleanup-files-daily", ("apps.files.tasks.cleanup_unused_files", 86400));
   ("cleanup-audit-daily", ("apps.audit.tasks.cleanup_audit_logs", 86400));
   ("cleanup-login-attempts-daily", ("apps.security.tasks.cleanup_login_attempts", 86400));
   ("dispatch-webhooks", ("apps.webhooks.tasks.dispatch_pending_webhooks", 60))].

(** ** The module as a name space

    What the module assigns, in its order.  [root] joins a path to the directory
    of the project; the databases are those of [build_database_config]. *)

Definition core_settings : dict :=
  [("APP_ENV", PStr (env "APP_ENV" "development")); ("DEBUG", PBool (env_bool "DEBUG" false));
   ("SECRET_KEY", PStr (env "SECRET_KEY" "unsafe-development-only-key"));
   ("APP_NAME", PStr (@APP_NAME base_settings)); ("SITE_NAME", PStr (@SITE_NAME base_settings));
   ("SITE_URL", PStr (@SITE_URL base_settings)); ("SUPPORT_EMAIL", PStr (env "SUPPORT_EMAIL" "support@localhost"));
   ("DEFAULT_FROM_EMAIL",
     PStr (env "DEFAULT_FROM_EMAIL" (@SITE_NAME base_settings +:+ " <noreply@localhost>")));
   ("ALLOWED_HOSTS", PStrs (env_list "ALLOWED_HOSTS" ["localhost"; "127.0.0.1"]))].

Definition application_settings (root : string -> string) : dict :=
  [("INSTALLED_APPS", PStrs INSTALLED_APPS); ("MIDDLEWARE", PStrs MIDDLEWARE); ("ROOT_URLCONF", PStr "config.urls");
   ("WSGI_APPLICATION", PStr "config.wsgi.application"); ("ASGI_APPLICATION", PStr "config.asgi.application");
   ("TEMPLATES",
     PList [PDict [("BACKEND", PStr "django.template.backends.django.DjangoTemplates");
                   ("DIRS", PStrs [root "templates"]); ("APP_DIRS", PBool true);
                   ("OPTIONS", PDict [("context_processors",
                      PStrs ["django.template.context_processors.request";
                             "django.contrib.auth.context_processors.auth";
                             "django.contrib.messages.context_processors.messages";
                             "common.context_processors.branding"])])]])].

Definition locmem_caches : pyval :=
  PDict [("default", PDict [("BACKEND", PStr "django.core.cache.backends.locmem.LocMemCache")])].

(** [APP_NAME.lower().replace(" ", "_")] *)
Fixpoint underscored (s : string) : string :=
  match s with
  | EmptyString => EmptyString
  | String c s' => String (if Ascii.eqb c " " then "_" else c)%char (underscored s')
  end.

Definition cache_settings : dict :=
  let url := Str.strip (env "REDIS_URL" "redis://localhost:6379/0") in
  [("REDIS_ENABLED", PBool redis_enabled); ("REDIS_URL", PStr url);
   ("CACHES",
     if redis_enabled
     then PDict [("default", PDict [("BACKEND", PStr "django_redis.cache.RedisCache"); ("LOCATION", PStr url);
                    ("OPTIONS", PDict [("CLIENT_CLASS", PStr "django_redis.client.DefaultClient")]);
                    ("KEY_PREFIX", PStr (underscored (Str.casefold (@APP_NAME base_settings))))])]
     else locmem_caches)].

Definition auth_settings : dict :=
  [("AUTH_USER_MODEL", PStr "accounts.User"); ("AUTHENTICATION_BACKENDS", PStrs AUTHENTICATION_BACKENDS);
   ("PASSWORD_HASHERS", PStrs PASSWORD_HASHERS); ("AUTH_PASSWORD_VALIDATORS", PList AUTH_PASSWORD_VALIDATORS);
   ("PASSWORD_RESET_TIMEOUT", PInt (@PASSWORD_RESET_TIMEOUT base_settings))].

Definition storages (file_backend : string) (static_backend : string) : pyval :=
  PDict [("default", PDict [("BACKEND", PStr file_backend)]); ("staticfiles", PDict [("BACKEND", PStr static_backend)])].

Definition uses_s3 : bool := String.eqb (Str.casefold (env "STORAGE_BACKEND" "local")) "s3".

Definition optional (name : string) : pyval := match variable name with Some s => PStr s | None => PNone end.

Definition site_settings (root : string -> string) : dict :=
  [("LANGUAGE_CODE", PStr (env "DEFAULT_LANGUAGE" "en"));
   ("LANGUAGES", PList [PTuple [PStr "en"; PStr "English"]; PTuple [PStr "tr"; PStr "Türkçe"]]);
   ("TIME_ZONE", PStr (env "TIME_ZONE" "UTC"));
   ("USE_I18N", PBool true); ("USE_TZ", PBool true); ("LOCALE_PATHS", PStrs [root "locale"]);
   ("STATIC_URL", PStr "/static/"); ("STATIC_ROOT", PStr (root "staticfiles")); ("MEDIA_URL", PStr "/media/");
   ("MEDIA_ROOT", PStr (root "media")); ("STATICFILES_DIRS", PStrs [root "static"]);
   ("STORAGES", storages (if uses_s3 then "storages.backends.s3.S3Storage"
                          else "django.core.files.storage.FileSystemStorage")
                  "whitenoise.storage.CompressedManifestStaticFilesStorage")] ++
  if uses_s3 then
    [("AWS_ACCESS_KEY_ID", PStr (env "AWS_ACCESS_KEY_ID" ""));
     ("AWS_SECRET_ACCESS_KEY", PStr (env "AWS_SECRET_ACCESS_KEY" ""));
     ("AWS_STORAGE_BUCKET_NAME", PStr (env "AWS_STORAGE_BUCKET_NAME" ""));
     ("AWS_S3_ENDPOINT_URL", optional "AWS_S3_ENDPOINT_URL"); ("AWS_S3_REGION_NAME", optional "AWS_S3_REGION_NAME");
     ("AWS_S3_CUSTOM_DOMAIN", optional "AWS_S3_CUSTOM_DOMAIN");
     ("AWS_QUERYSTRING_AUTH", PBool (env_bool "AWS_QUERYSTRING_AUTH" true)); ("AWS_DEFAULT_ACL", PNone);
     ("AWS_S3_FILE_OVERWRITE", PBool false)]
  else [].

Definition api_settings : dict :=
  [("DEFAULT_AUTO_FIELD", PStr "django.db.models.BigAutoField"); ("REST_FRAMEWORK", PDict REST_FRAMEWORK);
   ("SIMPLE_JWT", PDict (SIMPLE_JWT (@SECRET_KEY base_settings)));
   ("SPECTACULAR_SETTINGS",
     PDict [("TITLE", PStr (@APP_NAME base_settings +:+ " API"));
            ("DESCRIPTION", PStr "Versioned API for the reusable Django application foundation.");
            ("VERSION", PStr "1.0.0"); ("SERVE_INCLUDE_SCHEMA", PBool false); ("COMPONENT_SPLIT_REQUEST", PBool true)])].

Definition default_policy : string :=
  "default-src 'self'; img-src 'self' data: https:; style-src 'self' 'unsafe-inline'; script-src 'self'".

Definition security_settings_of_base : dict :=
  [("CORS_ALLOWED_ORIGINS", PStrs (env_list "CORS_ALLOWED_ORIGINS" [])); ("CORS_ALLOW_CREDENTIALS", PBool true);
   ("CSRF_TRUSTED_ORIGINS", PStrs (env_list "CSRF_TRUSTED_ORIGINS" [])); ("CSRF_COOKIE_HTTPONLY", PBool false);
   ("CSRF_COOKIE_SAMESITE", PStr "Lax"); ("SESSION_COOKIE_HTTPONLY", PBool true); ("SESSION_COOKIE_SAMESITE", PStr "Lax");
   ("X_FRAME_OPTIONS", PStr "DENY"); ("SECURE_CONTENT_TYPE_NOSNIFF", PBool true);
   ("SECURE_REFERRER_POLICY", PStr "strict-origin-when-cross-origin");
   ("CONTENT_SECURITY_POLICY", PStr (env "CONTENT_SECURITY_POLICY" default_policy));
   ("TRUST_PROXY_HEADERS", PBool (@TRUST_PROXY_HEADERS base_settings));
   ("TRUSTED_PROXY_IPS", PStrs (@TRUSTED_PROXY_IPS base_settings))].

Definition mail_settings : dict :=
  [("EMAIL_BACKEND", PStr (env "EMAIL_BACKEND" "django.core.mail.backends.console.EmailBackend"));
   ("EMAIL_HOST", PStr (env "EMAIL_HOST" "localhost")); ("EMAIL_PORT", PInt (env_int "EMAIL_PORT" 1025));
   ("EMAIL_HOST_USER", PStr (env "EMAIL_HOST_USER" "")); ("EMAIL_HOST_PASSWORD", PStr (env "EMAIL_HOST_PASSWORD" ""));
   ("EMAIL_USE_TLS", PBool (env_bool "EMAIL_USE_TLS" false)); ("EMAIL_USE_SSL", PBool (env_bool "EMAIL_USE_SSL" false));
   ("EMAIL_TIMEOUT", PInt 10)].

(** [broker] and [backend] come from [celery_config]. *)
Definition celery_settings (broker backend : string) : dict :=
  [("CELERY_ENABLED", PBool celery_enabled); ("CELERY_BROKER_URL", PStr broker);
   ("CELERY_RESULT_BACKEND", PStr backend);
   ("CELERY_TASK_ALWAYS_EAGER", PBool (@CELERY_TASK_ALWAYS_EAGER base_settings));
   ("CELERY_TASK_EAGER_PROPAGATES", PBool true); ("CELERY_TASK_SERIALIZER", PStr "json");
   ("CELERY_ACCEPT_CONTENT", PStrs ["json"]); ("CELERY_RESULT_SERIALIZER", PStr "json");
   ("CELERY_TIMEZONE", PStr (env "TIME_ZONE" "UTC")); ("CELERY_TASK_TRACK_STARTED", PBool true);
   ("CELERY_TASK_ACKS_LATE", PBool true); ("CELERY_WORKER_PREFETCH_MULTIPLIER", PInt 1);
   ("CELERY_BEAT_SCHEDULE",
     PDict ((fun e => (e.1, PDict [("task", PStr e.2.1); ("schedule", PInt e.2.2)])) <$> CELERY_BEAT_SCHEDULE))].

Definition feature_settings : dict :=
  [("ENABLE_NOTIFICATIONS", PBool (@ENABLE_NOTIFICATIONS base_settings));
   ("ENABLE_API_KEYS", PBool (@ENABLE_API_KEYS base_settings));
   ("ENABLE_TWO_FACTOR", PBool (@ENABLE_TWO_FACTOR base_settings));
   ("ENABLE_WEBHOOKS", PBool (@ENABLE_WEBHOOKS base_settings)); ("ENABLE_OPENAPI", PBool (env_bool "ENABLE_OPENAPI" true));
   ("ENABLE_OPENAPI_IN_PRODUCTION", PBool (env_bool "ENABLE_OPENAPI_IN_PRODUCTION" false))].

Definition limit_settings : dict :=
  [("LOGIN_MAX_ATTEMPTS", PInt (@LOGIN_MAX_ATTEMPTS base_settings));
   ("LOGIN_LOCKOUT_SECONDS", PInt (@LOGIN_LOCKOUT_SECONDS base_settings));
   ("LOGIN_MAX_BACKOFF_SECONDS", PInt (@LOGIN_MAX_BACKOFF_SECONDS base_settings));
   ("TOTP_ENCRYPTION_KEY", PStr (@TOTP_ENCRYPTION_KEY base_settings));
   ("API_KEY_PEPPER", PStr (@API_KEY_PEPPER base_settings));
   ("API_KEY_AVAILABLE_SCOPES", PStrs (@API_KEY_AVAILABLE_SCOPES base_settings));
   ("MAX_UPLOAD_SIZE", PInt (@MAX_UPLOAD_SIZE base_settings));
   ("MAX_IMAGE_PIXELS", PInt (@MAX_IMAGE_PIXELS base_settings));
   ("SESSION_RETENTION_DAYS", PInt (@SESSION_RETENTION_DAYS base_settings));
   ("TOKEN_RETENTION_DAYS", PInt (@TOKEN_RETENTION_DAYS base_settings));
   ("NOTIFICATION_RETENTION_DAYS", PInt (@NOTIFICATION_RETENTION_DAYS base_settings));
   ("AUDIT_RETENTION_DAYS", PInt (@AUDIT_RETENTION_DAYS base_settings));
   ("FILE_RETENTION_DAYS", PInt (@FILE_RETENTION_DAYS base_settings));
   ("WEBHOOK_RETENTION_DAYS", PInt (env_int "WEBHOOK_RETENTION_DAYS" 30))].

Definition logger (level : string) : pyval :=
  PDict [("handlers", PStrs ["console"]); ("level", PStr level); ("propagate", PBool false)].

Definition logging_settings : dict :=
  let level := env "LOG_LEVEL" "INFO" in
  [("LOG_LEVEL", PStr level);
   ("LOGGING",
     PDict [("version", PInt 1); ("disable_existing_loggers", PBool false);
            ("filters", PDict [("request_context", PDict [("()", PStr "common.logging.RequestContextFilter")])]);
            ("formatters",
              PDict [("readable",
                       PDict [("format", PStr "%(levelname)s %(asctime)s %(name)s %(request_id)s %(message)s")]);
                     ("json", PDict [("()", PStr "common.logging.SanitizingJsonFormatter")])]);
            ("handlers",
              PDict [("console",
                       PDict [("class", PStr "logging.StreamHandler"); ("filters", PStrs ["request_context"]);
                              ("formatter", PStr (if env_bool "DEBUG" false then "readable" else "json"))])]);
            ("root", PDict [("handlers", PStrs ["console"]); ("level", PStr level)]);
            ("loggers",
              PDict [("django.server", logger level); ("django.security.DisallowedHost", logger "WARNING")])])].

(** [DATABASES], and the name the code gives its engine. *)
Definition database_settings (database : dict) : dict :=
  [("DATABASES", PDict [("default", PDict database)]);
   ("DATABASE_ENGINE", PStr (if String.eqb (engine_of database) postgresql_engine then "postgresql" else "sqlite"))].

(** [from config.settings.base import *] *)
Definition base_module (root resolve : string -> string) : result dict :=
  and_then (build_database_config resolve) (fun database =>
  and_then check_redis (fun _ => and_then check_storage (fun _ => and_then celery_config (fun urls =>
  and_then check_sentry (fun _ =>
  inr (core_settings ++ application_settings root ++ database_settings database ++ cache_settings ++ auth_settings ++
       site_settings root ++ api_settings ++ security_settings_of_base ++ mail_settings ++
       celery_settings urls.1 urls.2 ++ feature_settings ++ limit_settings ++ logging_settings ++
       [("ENABLE_SENTRY", PBool (env_bool "ENABLE_SENTRY" false)); ("SENTRY_DSN", PStr (env "SENTRY_DSN" ""))])))))).

End base.

(** ** The other modules *)

Section modules.
Context `{Environ}.

(** config/settings/development.py *)
Definition development_module (base : dict) : dict :=
  dict_set "SECURE_SSL_REDIRECT" (PBool false)
    (dict_set "CSRF_COOKIE_SECURE" (PBool false)
      (dict_set "SESSION_COOKIE_SECURE" (PBool false)
        (dict_set "CELERY_TASK_ALWAYS_EAGER" (PBool (env_bool "CELERY_TASK_ALWAYS_EAGER" false))
          (dict_set "EMAIL_BACKEND" (PStr (env "EMAIL_BACKEND" "django.core.mail.backends.console.EmailBackend"))
            (dict_set "DEBUG" (PBool (env_bool "DEBUG" true)) base))))).

(** The middleware of config/settings/test.py. *)
Definition test_middleware : list string :=
  List.filter (fun m => negb (String.eqb m "whitenoise.middleware.WhiteNoiseMiddleware")) MIDDLEWARE.

Definition test_secret_key : string := "test-only-secret-key-not-for-production-and-long-enough-for-jwt-hmac".

(** config/settings/test.py: what it assigns, in its order. *)
Definition test_settings : dict :=
  [("DEBUG", PBool false); ("SECRET_KEY", PStr test_secret_key); ("SIMPLE_JWT", PDict (SIMPLE_JWT test_secret_key));
   ("DATABASES", PDict [("default", PDict [("ENGINE", PStr sqlite_engine); ("NAME", PStr ":memory:")])]);
   ("DATABASE_ENGINE", PStr "sqlite"); ("REDIS_ENABLED", PBool false); ("CELERY_ENABLED", PBool false);
   ("PASSWORD_HASHERS", PStrs ["django.contrib.auth.hashers.MD5PasswordHasher"]);
   ("EMAIL_BACKEND", PStr "django.core.mail.backends.locmem.EmailBackend");
   ("CELERY_TASK_ALWAYS_EAGER", PBool true); ("CELERY_TASK_EAGER_PROPAGATES", PBool true); ("CACHES", locmem_caches);
   ("TOTP_ENCRYPTION_KEY", PStr "test-totp-encryption-key"); ("API_KEY_PEPPER", PStr "test-api-key-pepper");
   ("STORAGES", storages "django.core.files.storage.InMemoryStorage"
                  "django.contrib.staticfiles.storage.StaticFilesStorage");
   ("MIDDLEWARE", PStrs test_middleware)].

Definition test_module (base : dict) : dict := foldl (fun d a => dict_set a.1 a.2 d) base test_settings.

Definition setting (name : string) (module : dict) : option pyval :=
  snd <$> List.find (fun kv => String.eqb kv.1 name) module.

Lemma setting_cons name k v d : setting name ((k, v) :: d) = if String.eqb k name then Some v else setting name d.
Proof. unfold setting. cbn. by destruct (String.eqb k name). Qed.

Lemma setting_app name d d' : setting name (d ++ d') = match setting name d with Some v => Some v | None => setting name d' end.
Proof. induction d as [|[j x] d IH]; [done|]. cbn [app]. rewrite !setting_cons, IH. by destruct (String.eqb j name). Qed.

Lemma setting_absent k d : existsb (fun kv => String.eqb kv.1 k) d = false -> setting k d = None.
Proof.
  induction d as [|[j x] d IH]; [done|]. cbn [existsb fst]. intros [Hj Hd]%orb_false_iff. by rewrite setting_cons, Hj, IH.
Qed.

Lemma setting_replaced name k v d :
  setting name ((fun kv => if String.eqb kv.1 k then (k, v) else kv) <$> d) =
    if String.eqb k name && existsb (fun kv => String.eqb kv.1 k) d then Some v else setting name d.
Proof.
  induction d as [|[j x] d IH]; [by destruct (String.eqb k name)|]. cbn [fmap list_fmap existsb fst].
  destruct (String.eqb_spec j k) as [->|Hj]; rewrite !setting_cons, IH;
    destruct (String.eqb_spec k name) as [->|Hk]; cbn [andb orb]; try done.
  by destruct (String.eqb_spec j name).
Qed.

Lemma setting_set name k v d : setting name (dict_set k v d) = if String.eqb k name then Some v else setting name d.
Proof.
  unfold dict_set. destruct (existsb _ d) eqn:He.
  - etrans; [apply setting_replaced|]. by rewrite He, andb_true_r.
  - rewrite setting_app, setting_cons. destruct (String.eqb_spec k name) as [->|Hk]; [by rewrite (setting_absent name)|].
    by destruct (setting name d).
Qed.

(** The settings the services read, by name. *)
Definition service_settings (s : Settings) : dict :=
  [("APP_ENV", PStr APP_ENV); ("SECRET_KEY", PStr SECRET_KEY); ("APP_NAME", PStr APP_NAME); ("SITE_NAME", PStr SITE_NAME);
   ("SITE_URL", PStr SITE_URL); ("PASSWORD_RESET_TIMEOUT", PInt PASSWORD_RESET_TIMEOUT);
   ("REDIS_ENABLED", PBool REDIS_ENABLED); ("CELERY_ENABLED", PBool CELERY_ENABLED);
   ("CELERY_TASK_ALWAYS_EAGER", PBool CELERY_TASK_ALWAYS_EAGER); ("TRUST_PROXY_HEADERS", PBool TRUST_PROXY_HEADERS);
   ("TRUSTED_PROXY_IPS", PStrs TRUSTED_PROXY_IPS); ("ENABLE_NOTIFICATIONS", PBool ENABLE_NOTIFICATIONS);
   ("ENABLE_API_KEYS", PBool ENABLE_API_KEYS); ("ENABLE_TWO_FACTOR", PBool ENABLE_TWO_FACTOR);
   ("ENABLE_WEBHOOKS", PBool ENABLE_WEBHOOKS); ("LOGIN_MAX_ATTEMPTS", PInt LOGIN_MAX_ATTEMPTS);
   ("LOGIN_LOCKOUT_SECONDS", PInt LOGIN_LOCKOUT_SECONDS);
   ("LOGIN_MAX_BACKOFF_SECONDS", PInt LOGIN_MAX_BACKOFF_SECONDS); ("TOTP_ENCRYPTION_KEY", PStr TOTP_ENCRYPTION_KEY);
   ("API_KEY_PEPPER", PStr API_KEY_PEPPER); ("API_KEY_AVAILABLE_SCOPES", PStrs API_KEY_AVAILABLE_SCOPES);
   ("MAX_UPLOAD_SIZE", PInt MAX_UPLOAD_SIZE); ("MAX_IMAGE_PIXELS", PInt MAX_IMAGE_PIXELS);
   ("SESSION_RETENTION_DAYS", PInt SESSION_RETENTION_DAYS); ("TOKEN_RETENTION_DAYS", PInt TOKEN_RETENTION_DAYS);
   ("NOTIFICATION_RETENTION_DAYS", PInt NOTIFICATION_RETENTION_DAYS);
   ("AUDIT_RETENTION_DAYS", PInt AUDIT_RETENTION_DAYS); ("FILE_RETENTION_DAYS", PInt FILE_RETENTION_DAYS)].

(** The module has the settings of [base_settings], and loads when [load_base]
    does. *)
Lemma base_module_settings root resolve :
  match base_module root resolve, load_base resolve with
  | inr ns, inr s => Forall (fun kv => setting kv.1 ns = Some kv.2) (service_settings s)
  | inl e, inl e' => e = e'
  | _, _ => False
  end.
Proof.
  unfold base_module, load_base, and_then.
  destruct (build_database_config resolve) as [e|database]; [done|]. destruct check_redis as [e|[]]; [done|].
  destruct check_storage as [e|[]]; [done|]. destruct celery_config as [e|urls]; [done|].
  destruct check_sentry as [e|[]]; [done|].
  unfold site_settings. destruct uses_s3; repeat first [apply Forall_nil_2 | apply Forall_cons_2]; reflexivity.
Qed.

Lemma test_module_middleware base : setting "MIDDLEWARE" (test_module base) = Some (PStrs test_middleware).
Proof. unfold test_module. cbn [foldl test_settings fst snd]. by rewrite !setting_set. Qed.

End modules.

(** ** The middleware stack *)

Section stack.
Context `{E : Env, !TokenCodec, !RequestData, !Site}.

(** A handler below a middleware; [incoming] is the X-Request-ID header. *)
Definition Handler : Type := HttpRequest -> get_response.

(** The middleware of the repository.  Django's and those of its packages let
    the request pass: what they compute for it is in the request. *)
Definition layer (incoming name : string) (next : Handler) : Handler := fun r =>
  if String.eqb name "common.middleware.request_id.RequestIDMiddleware"
  then request_id_middleware incoming (fun id => next (with_request_id id r))
  else if String.eqb name "apps.authentication.middleware.UserSessionMiddleware"
  then user_session_layer (django_user r) (next r)
  else if String.eqb name "common.middleware.security_headers.ContentSecurityPolicyMiddleware"
  then security_headers CONTENT_SECURITY_POLICY (next r)
  else if String.eqb name "common.middleware.request_logging.RequestLoggingMiddleware"
  then request_logging (fst <$> django_user r) (http_method r) (http_path r) (elapsed_ms r) (http r) (next r)
  else next r.

(** [BaseHandler.load_middleware]: from the view outwards, each in its turn. *)
Definition load_middleware (names : list string) (incoming : string) : Handler :=
  foldr (fun name next r => caught (layer incoming name next r)) (fun r => caught (lift (site_view r))) names.

Definition same_handler (f g : Handler) : Prop := forall r p, f r p = g r p.

Lemma caught_twice f p : caught (caught f) p = caught f p.
Proof. unfold caught. destruct (f p) as [[e|r] p']; reflexivity. Qed.

Lemma caught_ext f g : (forall p, f p = g p) -> forall p, caught f p = caught g p.
Proof. intros Hfg p. unfold caught. by rewrite Hfg. Qed.

Lemma layer_ext incoming name f g : same_handler f g -> same_handler (layer incoming name f) (layer incoming name g).
Proof.
  intros Hfg r p. unfold layer.
  destruct (String.eqb _ _); [|destruct (String.eqb _ _); [|destruct (String.eqb _ _); [|destruct (String.eqb _ _)]]].
  - unfold request_id_middleware. destruct (chosen_request_id _ _) as [[e|id] w]; [done|]. by rewrite Hfg.
  - unfold user_session_layer. destruct (session_middleware _ _) as [[e|[]] w]; [done|]. by rewrite Hfg.
  - unfold security_headers. by rewrite Hfg.
  - unfold request_logging. by rewrite Hfg.
  - by rewrite Hfg.
Qed.

(** The layers that do something, in the order they are named. *)
Definition own_layers : list string :=
  ["common.middleware.request_id.RequestIDMiddleware"; "apps.authentication.middleware.UserSessionMiddleware";
   "common.middleware.security_headers.ContentSecurityPolicyMiddleware";
   "common.middleware.request_logging.RequestLoggingMiddleware"].
Definition is_own (name : string) : bool := existsb (String.eqb name) own_layers.

Lemma layer_passes incoming name next : is_own name = false -> layer incoming name next = next.
Proof.
  unfold is_own, layer. cbn [existsb own_layers]. rewrite !orb_false_iff. by intros (-> & -> & -> & -> & _).
Qed.

Lemma load_middleware_caught names incoming r p :
  caught (load_middleware names incoming r) p = load_middleware names incoming r p.
Proof. destruct names; apply caught_twice. Qed.

(** The middleware of others makes no difference. *)
Lemma load_middleware_own names incoming :
  same_handler (load_middleware names incoming) (load_middleware (List.filter is_own names) incoming).
Proof.
  induction names as [|name names IH]; [done|]. intros r p. cbn [List.filter]. destruct (is_own name) eqn:Hn; cbn [load_middleware foldr].
  - apply caught_ext. intros q. by apply layer_ext.
  - rewrite layer_passes by done. etrans; [apply load_middleware_caught|apply IH].
Qed.


End stack.

(** ** The classes of the API *)

Section rest.
Context `{E : Env}.

Definition authenticator (r : HttpRequest) (name : string) : option (M (option Auth)) :=
  if String.eqb name "apps.api_keys.authentication.APIKeyAuthentication" then Some (by_api_key r)
  else if String.eqb name "apps.authentication.jwt.StatusAwareJWTAuthentication" then Some (by_bearer r)
  else if String.eqb name "rest_framework.authentication.SessionAuthentication" then Some (by_session r)
  else None.

Definition permission (scopes : view_scopes) (r : HttpRequest) (a : Auth) (name : string) : option (M bool * string) :=
  if String.eqb name "rest_framework.permissions.IsAuthenticated" then Some (is_authenticated a)
  else if String.eqb name "apps.api_keys.permissions.HasAPIKeyScope" then Some (has_api_key_scope scopes r a)
  else None.

Definition throttle_class (name : string) : option throttle :=
  if String.eqb name "rest_framework.throttling.AnonRateThrottle" then Some AnonRate
  else if String.eqb name "rest_framework.throttling.UserRateThrottle" then Some UserRate
  else None.

(** A throttle without a rate is refused by REST framework when a view is
    called. *)
Definition has_rate `{!Environ} (t : throttle) : bool :=
  let scope := match t with AnonRate => "anon" | UserRate => "user" | Scoped s => s end in
  existsb (fun rate => String.eqb rate.1 scope) DEFAULT_THROTTLE_RATES.

(** What the views of [Api] use by default is what REST_FRAMEWORK names, in its
    order, and every throttle has a rate. *)
Lemma api_defaults_configured `{!Environ} scopes r a :
  first_success (omap (authenticator r) DEFAULT_AUTHENTICATION_CLASSES) anonymous = perform_authentication r /\
  omap (permission scopes r a) DEFAULT_PERMISSION_CLASSES = default_permissions scopes r a /\
  omap throttle_class DEFAULT_THROTTLE_CLASSES = default_throttles /\
  forallb has_rate (default_throttles ++ [LoginThrottle; RegisterThrottle; PasswordResetThrottle;
                                          EmailVerificationThrottle; APIKeyThrottle]) = true.
Proof. repeat split. Qed.

End rest.

(** ** Tasks and commands *)

Section tasks.
Context `{E : Env, !TokenCodec, !RequestData, !Site}.

Definition task {A} (m : M A) : M unit := m ;; ret tt.

(** The tasks without arguments, by the name [shared_task] gives them. *)
Definition tasks : list (string * M unit) :=
  [("apps.authentication.tasks.cleanup_sessions", task cleanup_sessions);
   ("apps.authentication.tasks.cleanup_tokens", task cleanup_tokens);
   ("apps.notifications.tasks.cleanup_notifications", task cleanup_notifications);
   ("apps.accounts.tasks.expire_temporary_bans", task expire_temporary_bans);
   ("apps.files.tasks.cleanup_unused_files", task cleanup_unused_files);
   ("apps.audit.tasks.cleanup_audit_logs", task cleanup_audit_logs);
   ("apps.security.tasks.cleanup_login_attempts", task cleanup_login_attempts);
   ("apps.webhooks.tasks.dispatch_pending_webhooks", task dispatch_pending_webhooks)].

Definition find_task (name : string) : option (M unit) := snd <$> List.find (fun t => String.eqb t.1 name) tasks.

(** [app.autodiscover_tasks()] imports the module [tasks] of every installed
    application. *)
Definition discovered (name : string) : bool :=
  existsb (fun app => String.prefix (app +:+ ".tasks.") name) INSTALLED_APPS.

Definition report (before : string) (n : nat) (after : string) : string :=
  before +:+ pretty.pretty n +:+ after.

(** apps/core/management/commands: what [handle] of the clean-up commands
    prints. *)
Definition cleanup_sessions_command : M string :=
  let! n := cleanup_sessions in ret (report "Deleted " n " session records.").
Definition cleanup_tokens_command : M string :=
  let! n := cleanup_tokens in ret (report "Deleted " n " token records.").
Definition cleanup_notifications_command : M string :=
  let! n := cleanup_notifications in ret (report "Deleted " n " notification records.").
Definition cleanup_audit_command : M string :=
  let! n := cleanup_audit_logs in ret (report "Deleted " n " audit records.").
Definition cleanup_login_attempts_command : M string :=
  let! n := cleanup_login_attempts in ret (report "Deleted " n " login throttle records").

(** The task each of them runs. *)
Definition commands : list (string * M string) :=
  [("apps.authentication.tasks.cleanup_sessions", cleanup_sessions_command);
   ("apps.authentication.tasks.cleanup_tokens", cleanup_tokens_command);
   ("apps.notifications.tasks.cleanup_notifications", cleanup_notifications_command);
   ("apps.audit.tasks.cleanup_audit_logs", cleanup_audit_command);
   ("apps.security.tasks.cleanup_login_attempts", cleanup_login_attempts_command)].

(** The [healthcheck] command; [database] and [backend] are the messages of the
    errors that stop the query and the cache.  The left side is the text of its
    [CommandError]. *)
Definition healthcheck (database backend : option string) : M (string + string) :=
  match database, backend with
  | Some e, _ => ret (inl e)
  | None, Some e => ret (inl e)
  | None, None =>
      cache_set "management-healthcheck" (PStr "ok") 5 ;;
      let! v := cache_get "management-healthcheck" in
      ret (if match v with Some (PStr s) => String.eqb s "ok" | _ => false end then inr "Database and cache are ready."
           else inl "Cache round trip failed")
  end.

Lemma task_state {A} (m : M A) w : (task m w).2 = (m w).2.
Proof. unfold task, bind. by destruct (m w) as [[e|a] w']. Qed.

Lemma task_moves {A} (m : M A) : operation m -> forall w, move w (task m w).2.
Proof. intros Hm w. rewrite task_state. by apply (ran _ _ m). Qed.


(** Without Beat, three of them cannot be run: the expiry of bans, the clean-up
    of files and the dispatch of webhooks have no command. *)
Lemma tasks_without_command :
  List.filter (fun name => negb (existsb (fun c => String.eqb c.1 name) commands)) (tasks.*1) =
  ["apps.accounts.tasks.expire_temporary_bans"; "apps.files.tasks.cleanup_unused_files";
   "apps.webhooks.tasks.dispatch_pending_webhooks"].
Proof. vm_compute. reflexivity. Qed.

(** The check of a command succeeds when the database answers and the cache
    still has the mark it was just given. *)
Lemma healthcheck_answers database backend w :
  exists w', healthcheck database backend w =
    (inr (match database, backend with
          | None, None => if clock (S (ticks w)) <? clock (ticks w) + seconds 5
                          then inr "Database and cache are ready." else inl "Cache round trip failed"
          | Some e, _ | None, Some e => inl e
          end), w').
Proof.
  unfold healthcheck. destruct database as [e|]; [by eexists|]. destruct backend as [e|]; [by eexists|].
  unfold cache_set, cache_get, bind, now, modify, read, ret. cbn. rewrite lookup_insert_eq.
  destruct (_ <? _); by eexists.
Qed.

End tasks.
