(* ===== verification/Startup.v ===== *)
(** * Starting a process ([manage.py], [config/wsgi.py], [config/asgi.py], [config/celery.py])

    Which settings module a process loads, from its environment variables and
    the .env file that base.py reads, and what the modules agree on. *)

From S2P Require Import Prelude Env Models Orm Config Project.

(** ** Modules *)

Section modules.
Context `{Environ}.

(** config/settings/production.py, after its checks. *)
Definition production_module (base : dict) : dict :=
  let secured :=
    dict_set "SECURE_HSTS_PRELOAD" (PBool (env_bool "SECURE_HSTS_PRELOAD" true))
      (dict_set "SECURE_HSTS_INCLUDE_SUBDOMAINS" (PBool (env_bool "SECURE_HSTS_INCLUDE_SUBDOMAINS" true))
        (dict_set "SECURE_HSTS_SECONDS" (PInt (env_int "SECURE_HSTS_SECONDS" 31536000))
          (dict_set "SECURE_SSL_REDIRECT" (PBool (env_bool "SECURE_SSL_REDIRECT" true))
            (dict_set "CSRF_COOKIE_SECURE" (PBool true)
              (dict_set "SESSION_COOKIE_SECURE" (PBool true) (dict_set "DEBUG" (PBool false) base)))))) in
  let proxied :=
    if env_bool "TRUST_PROXY_HEADERS" false
    then dict_set "USE_X_FORWARDED_HOST" (PBool true)
           (dict_set "SECURE_PROXY_SSL_HEADER" (PTuple [PStr "HTTP_X_FORWARDED_PROTO"; PStr "https"]) secured)
    else secured in
  if env_bool "ENABLE_OPENAPI_IN_PRODUCTION" false then proxied else dict_set "ENABLE_OPENAPI" (PBool false) proxied.

(** [import_module]; [elsewhere] is a module that is not of the repository. *)
Definition load_settings (elsewhere : string -> result dict) (root resolve : string -> string) (module : string) :
    result dict :=
  if String.eqb module "config.settings.base" then base_module root resolve
  else if String.eqb module "config.settings.development" then
    and_then (base_module root resolve) (fun base => inr (development_module base))
  else if String.eqb module "config.settings.production" then
    and_then (base_module root resolve) (fun base =>
      and_then (production_checks base_settings) (fun _ => inr (production_module base)))
  else if String.eqb module "config.settings.test" then
    and_then (base_module root resolve) (fun base => inr (test_module base))
  else elsewhere module.

End modules.

(** ** Entry points *)

Inductive EntryPoint := ManagePy | Wsgi | Asgi | CeleryApp.

(** The second argument of [os.environ.setdefault]. *)
Definition default_module (e : EntryPoint) : string :=
  match e with
  | ManagePy | CeleryApp => "config.settings.development"
  | Wsgi | Asgi => "config.settings.production"
  end.

Definition SETTINGS_MODULE : string := "DJANGO_SETTINGS_MODULE".

(** [os.environ] and [Env.read_env], which keeps the variables that are set. *)
Definition setdefault (name value : string) (environ : string -> option string) : string -> option string :=
  fun n => if String.eqb n name then Some (default value (environ name)) else environ n.
Definition read_env (file environ : string -> option string) : string -> option string :=
  fun n => match environ n with Some v => Some v | None => file n end.

Section startup.
Context (process file : string -> option string).
Context (to_bool : string -> bool) (to_int : string -> Z) (to_list : string -> list string).
Context (db_url : string -> list (string * pyval)) (installed : string -> bool).
Context (elsewhere : Environ -> string -> result dict) (root resolve : string -> string).

Definition environ (e : EntryPoint) : string -> option string := setdefault SETTINGS_MODULE (default_module e) process.

(** What base.py sees: it reads .env when it is imported. *)
Definition settings_environ (e : EntryPoint) : Environ :=
  MkEnviron (read_env file (environ e)) to_bool to_int to_list db_url installed.

Definition settings_module (e : EntryPoint) : string := default "" (environ e SETTINGS_MODULE).

(** The settings the process runs with. *)
Definition start (e : EntryPoint) : result dict :=
  load_settings (H := settings_environ e) (elsewhere (settings_environ e)) root resolve (settings_module e).

Lemma settings_module_default e :
  settings_module e = default (default_module e) (process SETTINGS_MODULE).
Proof. unfold settings_module, environ, setdefault. by rewrite String.eqb_refl. Qed.

(** No setting reads the variable that names the module. *)
Lemma same_base e e' :
  base_module (H := settings_environ e) root resolve = base_module (H := settings_environ e') root resolve.
Proof. reflexivity. Qed.
(** What the development and the production module set each in their own way. *)
Definition transport_names : list string :=
  ["DEBUG"; "SESSION_COOKIE_SECURE"; "CSRF_COOKIE_SECURE"; "SECURE_SSL_REDIRECT"; "SECURE_HSTS_SECONDS";
   "SECURE_HSTS_INCLUDE_SUBDOMAINS"; "SECURE_HSTS_PRELOAD"; "SECURE_PROXY_SSL_HEADER"; "USE_X_FORWARDED_HOST";
   "ENABLE_OPENAPI"].

Definition other_name (name : string) : bool := negb (existsb (String.eqb name) transport_names).

Lemma production_keeps `{Environ} base name : other_name name = true -> setting name (production_module base) = setting name base.
Proof.
  unfold other_name, transport_names. cbn [existsb]. rewrite orb_false_r, !negb_orb, !andb_true_iff, !negb_true_iff.
  setoid_rewrite (String.eqb_sym name). intros Hn. destruct_and?.
  unfold production_module. destruct (env_bool "ENABLE_OPENAPI_IN_PRODUCTION" false), (env_bool "TRUST_PROXY_HEADERS" false);
    rewrite !setting_set; by repeat match goal with H : String.eqb _ name = false |- _ => rewrite H; clear H end.
Qed.

(** Two settings of development.py repeat those of base.py. *)
Lemma repeated_settings `{Environ} base :
  base_module root resolve = inr base ->
  setting "EMAIL_BACKEND" base = Some (PStr (env "EMAIL_BACKEND" "django.core.mail.backends.console.EmailBackend")) /\
  setting "CELERY_TASK_ALWAYS_EAGER" base = Some (PBool (env_bool "CELERY_TASK_ALWAYS_EAGER" false)).
Proof.
  unfold base_module, and_then.
  destruct (build_database_config resolve) as [?|database]; [done|]. destruct check_redis as [?|[]]; [done|].
  destruct check_storage as [?|[]]; [done|]. destruct celery_config as [?|urls]; [done|].
  destruct check_sentry as [?|[]]; [done|]. unfold site_settings. by destruct uses_s3; intros [= <-].
Qed.

Lemma development_keeps `{Environ} base name :
  base_module root resolve = inr base -> other_name name = true -> setting name (development_module base) = setting name base.
Proof.
  intros [He Hc]%repeated_settings. unfold other_name, transport_names. cbn [existsb].
  rewrite orb_false_r, !negb_orb, !andb_true_iff, !negb_true_iff.
  setoid_rewrite (String.eqb_sym name). intros Hn. destruct_and?. unfold development_module. rewrite !setting_set.
  repeat match goal with H : String.eqb _ name = false |- _ => rewrite H; clear H end.
  destruct (String.eqb_spec "CELERY_TASK_ALWAYS_EAGER" name) as [<-|]; [done|].
  by destruct (String.eqb_spec "EMAIL_BACKEND" name) as [<-|].
Qed.

(** Processes with the same environment run with the same settings - keys,
    peppers, databases, brokers, mail, features - whichever of the two modules
    each of them loads, but for the transport settings; and a process that loads
    the production module has a safe configuration, debugging off and secure
    cookies. *)
Definition deployed (e : EntryPoint) : Prop :=
  settings_module e = "config.settings.development" \/ settings_module e = "config.settings.production".

Lemma start_deployed e d : deployed e -> start e = inr d ->
  exists base, base_module (H := settings_environ e) root resolve = inr base /\
    (forall name, other_name name = true -> setting name d = setting name base) /\
    (settings_module e = "config.settings.production" ->
       production_safe (H := settings_environ e) (base_settings (H := settings_environ e)) /\
       d = production_module (H := settings_environ e) base).
Proof.
  intros [Hm|Hm]; unfold start, load_settings; rewrite Hm; cbn [String.eqb Ascii.eqb Bool.eqb andb];
    intros (base & Hb & Hd)%and_then_ok; exists base; (split; [done|]).
  - injection Hd as <-. split; [|done]. intros name. by apply development_keeps.
  - apply and_then_ok in Hd as ([] & Hc%production_checks_iff & [= <-]). split; [|done]. intros name. by apply production_keeps.
Qed.

Theorem processes_agree e e' d d' :
  deployed e -> deployed e' -> start e = inr d -> start e' = inr d' ->
  (forall name, other_name name = true -> setting name d = setting name d') /\
  (settings_module e = "config.settings.production" ->
     production_safe (H := settings_environ e) (base_settings (H := settings_environ e)) /\
     setting "DEBUG" d = Some (PBool false) /\ setting "SESSION_COOKIE_SECURE" d = Some (PBool true) /\
     setting "CSRF_COOKIE_SECURE" d = Some (PBool true)).
Proof.
  intros He He' (base & Hb & Hk & Hp)%start_deployed (base' & Hb' & Hk' & _)%start_deployed; try done.
  rewrite (same_base e e'), Hb' in Hb. injection Hb as ->. split.
  - intros name Hn. by rewrite Hk, Hk'.
  - intros [Hs ->]%Hp. split; [done|]. unfold production_module.
    by destruct (env_bool (H := settings_environ e) "ENABLE_OPENAPI_IN_PRODUCTION" false),
      (env_bool (H := settings_environ e) "TRUST_PROXY_HEADERS" false); rewrite !setting_set.
Qed.

(** The servers load the production module when the variable is not set, the
    commands and the worker the development module; what .env says of it does
    not count. *)
Theorem settings_module_of e :
  settings_module e = match process SETTINGS_MODULE with Some module => module | None => default_module e end.
Proof. unfold settings_module, environ, setdefault. rewrite String.eqb_refl. by destruct (process SETTINGS_MODULE). Qed.

End startup.
