(* ===== verification/Conformance.v ===== *)
(** * The tests of the repository, run on the model

    The scenarios of src/tests, one [Example] per test function, evaluated on the
    definitions of this development in the outside world of [Demo]; here those
    that call services and tasks, in [Requests] those that send requests.  The
    hashes and ciphers of [Demo] hide nothing, so assertions that a secret does
    not appear in a hash or a ciphertext are left out (an example without one of
    them has a name of its own), and so are the tests of the Celery decorator and
    of an absolute SQLite path, which are about code that is a parameter here. *)

From stdpp Require Import pretty.
From S2P Require Import Prelude Env Demo Models Orm Logic Common Mail Samples Users Tokens Sessions TwoFactor LoginProtection Authentication Accounts Bans Authorization ApiKeys Webhooks Responses Idempotency Services Platform Config.

(** ** A test *)

(** A test runs on an empty database and ends normally; [assert] and
    [pytest.raises] end it otherwise. *)
Definition passes (test : M unit) : bool := returned (test (initial_world empty_db)).

Definition assert_ (b : bool) : M unit := if b then ret tt else raise (RuntimeError "AssertionError").

Definition raises {A} (expected : exn -> bool) (m : M A) : M unit := fun w =>
  match m w with
  | (inr _, w') => (inl (RuntimeError "DID NOT RAISE"), w')
  | (inl e, w') => if expected e then (inr tt, w') else (inl e, w')
  end.

Definition the {A} (o : option A) : M A :=
  match o with Some a => ret a | None => raise (RuntimeError "AssertionError") end.

(** [objects.filter(P).count()] and [objects.filter(P).exists()]. *)
Definition count {R} `{!Model R} (P : R -> bool) : M nat :=
  let! t := table in ret (Table.count (fun _ => P) t).

(** [a == b], on plain values. *)
Fixpoint same (a b : pyval) : bool :=
  match a, b with
  | PNone, PNone => true
  | PBool x, PBool y => Bool.eqb x y
  | PInt x, PInt y | PDatetime x, PDatetime y => Z.eqb x y
  | PStr x, PStr y => String.eqb x y
  | PList l, PList m =>
      (fix all l m := match l, m with
                      | [], [] => true
                      | x :: l, y :: m => same x y && all l m
                      | _, _ => false
                      end) l m
  | PDict l, PDict m =>
      (fix all l m := match l, m with
                      | [], [] => true
                      | (k, x) :: l, (j, y) :: m => String.eqb k j && same x y && all l m
                      | _, _ => false
                      end) l m
  | _, _ => false
  end.

Definition exists_ {R} `{!Model R} (P : R -> bool) : M bool := exists_row (fun _ => P).

(** [mail.outbox], and the token in the last mail. *)
Definition outbox `{E : Env} : M (list Message) :=
  let! sent := read effects in
  ret (omap (fun e => match e with
                      | SendEmail template recipient subject context =>
                          send_email (fun _ => "") (fun _ _ => "") "" "" template recipient subject context
                      | _ => None
                      end) sent).

Definition word_end (c : ascii) : bool := Str.is_space c || Ascii.eqb c "<".
Fixpoint first_word (s : string) : string :=
  match s with
  | String c s' => if word_end c then "" else String c (first_word s')
  | EmptyString => ""
  end.
Fixpoint token_in (body : string) : option string :=
  match after_prefix "token=" body with
  | Some rest => Some (first_word rest)
  | None => match body with String _ s' => token_in s' | EmptyString => None end
  end.
Definition token_from_mail `{E : Env} : M string :=
  let! sent := outbox in the (last sent ≫= fun m => token_in (text_body m)).

Ltac test := vm_compute; reflexivity.

Section fixtures.
Context `{E : Env}.

(** ** Fixtures ([tests/conftest.py], [tests/factories.py]) *)

Definition PASSWORD : string := "A-very-secure-test-password-42".

Definition user_factory (n : nat) : M (uuid * User.t) :=
  let! t := now in
  _create_user ("user" +:+ pretty (N.of_nat n) +:+ "@example.test") ("user" +:+ pretty (N.of_nat n)) (Some PASSWORD)
    (MkExtra "First" "Last" false false true AccountStatus.ACTIVE (Some t)).

Definition user_fixture : M (uuid * User.t) := user_factory 0.

Definition permission_factory (codename : string) : M uuid :=
  let! x := create (Permission.mk codename "" true 0 0) in ret x.1.
Definition role_factory : M uuid :=
  let! x := create (Role.mk "Role 0" "role-0" "" 100 false 0 0) in ret x.1.

Definition post : Request := MkRequest (Some "127.0.0.1") "" "Mozilla/5.0" "test-request".

End fixtures.

Section tests.

#[local] Instance demo : Env := demo_env.

(** ** accounts/test_models.py *)

Example test_create_user_normalizes_entire_email_and_uses_uuid : passes (
  let! '(_, user) := create_user "  PERSON@Example.COM " "person" (Some "A-very-secure-password-42") "" "" in
  assert_ (String.eqb (User.email user) "person@example.com") ;;
  assert_ (bool_decide (User.status user = AccountStatus.PENDING)) ;;
  assert_ (User.check_password user "A-very-secure-password-42")) = true.
Proof. test. Qed.

Example test_case_insensitive_email_constraint : passes (
  create_user "person@example.test" "person1" (Some "password") "" "" ;;
  raises (fun e => bool_decide (e = IntegrityError))
    (atomic (create_user "PERSON@example.test" "person2" (Some "password") "" ""))) = true.
Proof. test. Qed.

Example test_case_insensitive_username_constraint : passes (
  create_user "one@example.test" "Person" (Some "password") "" "" ;;
  raises (fun e => bool_decide (e = IntegrityError))
    (atomic (create_user "two@example.test" "person" (Some "password") "" ""))) = true.
Proof. test. Qed.

Example test_superuser_has_required_state : passes (
  let! '(_, user) := create_superuser "admin@example.test" "admin" (Some "A-very-secure-password-42") None None in
  assert_ (User.is_superuser user && User.is_staff user && bool_decide (User.status user = AccountStatus.ACTIVE)
           && is_some (User.email_verified_at user))) = true.
Proof. test. Qed.

(** ** accounts/test_bans.py *)

Example test_temporary_ban_changes_account_state_and_can_be_revoked : passes (
  let! '(uid, _) := user_fixture in
  let! t := now in
  let! '(k, b) := ban uid "Security review" None None (Some (t + hours 1)) None in
  let! u := get_pk (R := User.t) uid in
  assert_ (bool_decide (User.status u = AccountStatus.BANNED)) ;;
  let! t := now in
  assert_ (UserBan.is_active t b) ;;
  revoke_ban k None None ;;
  let! u := get_pk (R := User.t) uid in
  assert_ (bool_decide (User.status u = AccountStatus.ACTIVE))) = true.
Proof. test. Qed.

Example test_permanent_ban_has_no_expiry : passes (
  let! '(uid, _) := user_fixture in
  let! '(_, b) := ban uid "Policy violation" None None None None in
  let! t := now in
  assert_ (is_none (UserBan.expires_at b) && UserBan.is_active t b)) = true.
Proof. test. Qed.

Example test_active_ban_blocks_permissions_and_api_keys_even_if_status_is_stale : passes (
  let! '(uid, u) := user_fixture in
  let! p := permission_factory "documents.view" in
  let! r := role_factory in
  create (RolePermission.mk r p 0) ;;
  create (UserRole.mk uid r None 0 None 0) ;;
  let! '(_, raw) := create_key uid "Integration" [] None None None in
  let! before := has_permission (Some (uid, u)) "documents.view" in
  assert_ before ;;
  let! t := now in
  let! '(_, b) := create (UserBan.mk uid "Scheduled" None (t - minutes 1) (Some (t + hours 1)) t None) in
  assert_ (UserBan.is_active t b) ;;
  let! allowed := has_permission (Some (uid, u)) "documents.view" in
  assert_ (negb allowed) ;;
  let! key := authenticate_key raw None in
  assert_ (is_none key)) = true.
Proof. test. Qed.

(** ** authorization/test_permissions.py *)

Definition granted_role : M (uuid * User.t) :=
  let! '(uid, u) := user_fixture in
  let! p := permission_factory "documents.view" in
  let! r := role_factory in
  create (RolePermission.mk r p 0) ;;
  create (UserRole.mk uid r None 0 None 0) ;;
  ret (uid, u).

Example test_active_role_grants_permission : passes (
  let! x := granted_role in
  let! allowed := has_permission (Some x) "documents.view" in
  assert_ allowed) = true.
Proof. test. Qed.

Example test_expired_role_does_not_grant_permission : passes (
  let! '(uid, u) := user_fixture in
  let! p := permission_factory "documents.view" in
  let! r := role_factory in
  create (RolePermission.mk r p 0) ;;
  let! t := now in
  create (UserRole.mk uid r None (t - days 2) (Some (t - days 1)) t) ;;
  let! allowed := has_permission (Some (uid, u)) "documents.view" in
  assert_ (negb allowed)) = true.
Proof. test. Qed.

Example test_explicit_deny_overrides_role_and_superuser : passes (
  let! '(uid, u) := granted_role in
  save_fields (R := User.t) uid (fun u => u <| User.is_superuser := true |>) ;;
  let! p := get (R := Permission.t) (fun _ p => String.eqb (Permission.codename p) "documents.view") in
  create (UserPermissionOverride.mk uid p.1 OverrideEffect.DENY "" None 0 0) ;;
  let! u := get_pk (R := User.t) uid in
  let! allowed := has_permission (Some (uid, u)) "documents.view" in
  assert_ (negb allowed)) = true.
Proof. test. Qed.

Example test_explicit_allow_grants_without_role : passes (
  let! '(uid, u) := user_fixture in
  let! p := permission_factory "documents.export" in
  create (UserPermissionOverride.mk uid p OverrideEffect.ALLOW "" None 0 0) ;;
  let! allowed := has_permission (Some (uid, u)) "documents.export" in
  assert_ allowed) = true.
Proof. test. Qed.

(** ** authentication/test_account_lifecycle.py *)

Definition event_of (uid : uuid) (t : SecurityEventType.t) (e : SecurityEvent.t) : bool :=
  bool_decide (SecurityEvent.user e = Some uid) && bool_decide (SecurityEvent.event_type e = t).

Example test_change_password_revokes_credentials_and_records_event : passes (
  let! '(uid, _) := user_fixture in
  change_password uid PASSWORD "Another-very-secure-password-43" (Some post) ;;
  let! u := get_pk (R := User.t) uid in
  assert_ (User.check_password u "Another-very-secure-password-43") ;;
  let! recorded := exists_ (event_of uid SecurityEventType.PASSWORD_CHANGED) in
  assert_ recorded) = true.
Proof. test. Qed.

Example test_email_change_requires_confirmation_of_new_address : passes (
  let! '(uid, u) := user_fixture in
  request_email_change uid u PASSWORD "changed@example.test" ;;
  let! '(_, token_row) := get (R := OneTimeToken.t) (fun _ t =>
    N.eqb (OneTimeToken.user t) uid && bool_decide (OneTimeToken.purpose t = TokenPurpose.EMAIL_CHANGE)) in
  assert_ (bool_decide (("new_email", "changed@example.test") ∈ OneTimeToken.metadata token_row)) ;;
  let! sent := outbox in
  assert_ (bool_decide ((Mail.to <$> last sent) = Some ["changed@example.test"])) ;;
  let! raw := token_from_mail in
  confirm_email_change raw None ;;
  let! u := get_pk (R := User.t) uid in
  assert_ (String.eqb (User.email u) "changed@example.test" && is_some (User.email_verified_at u))) = true.
Proof. test. Qed.

Example test_confirmed_deletion_pseudonymizes_identity_and_profile : passes (
  let! '(uid, _) := user_fixture in
  let! '(profile, _) := create (UserProfile.mk uid "Personal biography" "" "Personal location" 0 0) in
  let! raw := issue uid TokenPurpose.ACCOUNT_DELETION (hours 1) [] in
  confirm_deletion raw None ;;
  let! u := get_pk (R := User.t) uid in
  let! p := get_pk (R := UserProfile.t) profile in
  assert_ (bool_decide (User.status u = AccountStatus.DELETED) && negb (User.is_active u)
           && String.prefix "!" (User.password u)
           && Str.contains "@invalid.local" (User.email u) && String.eqb (UserProfile.bio p) "") ;;
  let! recorded := exists_ (event_of uid SecurityEventType.ACCOUNT_DELETED) in
  assert_ recorded) = true.
Proof. test. Qed.

(** ** authentication/test_two_factor.py: the code of the moment is 123456 *)

Example test_two_factor_setup_returns_single_use_recovery_codes : passes (
  let! '(uid, u) := user_fixture in
  let! '(_, uri) := begin_setup uid u PASSWORD in
  assert_ (String.prefix "otpauth://totp/" uri) ;;
  let! codes := confirm_setup uid u "123456" None in
  let! '(k, credential) := get (R := TwoFactorCredential.t) (fun _ c => N.eqb (TwoFactorCredential.user c) uid) in
  assert_ (TwoFactorCredential.is_enabled credential && Nat.eqb (length codes) recovery_code_count) ;;
  let! unused := count (fun c => N.eqb (RecoveryCode.credential c) k && is_none (RecoveryCode.used_at c)) in
  assert_ (Nat.eqb unused (length codes)) ;;
  let! code := the (head codes) in
  let! '(valid, recovery_used) := verify uid code in
  assert_ (valid && recovery_used) ;;
  let! '(valid_again, _) := verify uid code in
  assert_ (negb valid_again)) = true.
Proof. test. Qed.

Example test_two_factor_can_be_disabled_with_password_and_totp : passes (
  let! '(uid, u) := user_fixture in
  begin_setup uid u PASSWORD ;;
  confirm_setup uid u "123456" None ;;
  disable uid u PASSWORD "123456" (Some post) ;;
  let! '(_, c) := get (R := TwoFactorCredential.t) (fun _ c => N.eqb (TwoFactorCredential.user c) uid) in
  assert_ (negb (TwoFactorCredential.is_enabled c))) = true.
Proof. test. Qed.

(** ** api_keys/test_api_keys.py *)

Example test_api_key_authenticates_its_owner : passes (
  let! '(uid, _) := user_fixture in
  let! '(k, a, raw) := create_key uid "Integration" ["profile.read"] None None None in
  assert_ (String.prefix ("dk_" +:+ APIKey.prefix a +:+ ".") raw && negb (String.eqb raw (APIKey.key_hash a))) ;;
  let! found := authenticate_key raw None in
  assert_ (bool_decide ((fst <$> found) = Some k))) = true.
Proof. test. Qed.

Example test_revoked_api_key_cannot_authenticate : passes (
  let! '(uid, _) := user_fixture in
  let! '(k, _, raw) := create_key uid "Integration" [] None None None in
  revoke_key k None None ;;
  let! found := authenticate_key raw None in
  assert_ (is_none found)) = true.
Proof. test. Qed.

(** ** audit/test_audit.py *)

Definition is_validation_error (e : exn) : bool := match e with ValidationError _ _ => true | _ => false end.

Example test_audit_log_redacts_sensitive_fields_and_is_immutable : passes (
  let! '(uid, u) := user_fixture in
  let! '(k, log) := AuditService.record
    ((AuditService.on "user.updated" (user_target uid u) (Some uid) None)
       <| AuditService.after := [("email", PStr (User.email u)); ("password", PStr "never-store-me");
                                 ("access_token", PStr "secret")] |>) in
  assert_ (same (AuditLog.after log)
    (PDict [("email", PStr (User.email u)); ("password", PStr "[REDACTED]"); ("access_token", PStr "[REDACTED]")])) ;;
  raises is_validation_error (audit_update k) ;;
  raises is_validation_error (audit_delete k)) = true.
Proof. test. Qed.

(** ** core/test_services.py *)

Example test_runtime_setting_service_validates_types_and_rejects_secrets : passes (
  let! '(_, row) := set_setting "site.registration_enabled" (PBool false) SettingValueType.BOOLEAN None
    (MkSettingDefaults None (Some true) None) in
  let! value := get_setting (Setting.key row) (PBool true) false in
  assert_ (same value (PBool false)) ;;
  raises is_validation_error
    (set_setting "smtp.password" (PStr "must-not-be-stored") SettingValueType.STRING None
       (MkSettingDefaults None None None)) ;;
  let! stored := exists_ (fun s => String.eqb (Setting.key s) "smtp.password") in
  assert_ (negb stored)) = true.
Proof. test. Qed.

Example test_feature_flag_service_preserves_explicit_false : passes (
  create (FeatureFlag.mk "feature.example" false "" 0 0) ;;
  let! example := flag_enabled "feature.example" true in
  let! missing := flag_enabled "feature.missing" true in
  assert_ (negb example && missing)) = true.
Proof. test. Qed.

Example test_audit_retention_is_disabled_by_default : passes (
  let! '(uid, u) := user_fixture in
  AuditService.record (AuditService.on "retention.test" (user_target uid u) None None) ;;
  let! deleted := cleanup_audit_logs in
  assert_ (Nat.eqb deleted 0)) = true.
Proof. test. Qed.

(** ** core/test_commands.py *)

Example test_bootstrap_is_idempotent_and_additive : passes (
  handle initial_registry ;;
  handle initial_registry ;;
  let! permissions := count (fun _ : Permission.t => true) in
  assert_ (Nat.eqb permissions (length (get_registered_permissions initial_registry))) ;;
  let! roles := table (R := Role.t) in
  let slugs := Role.slug <$> (map_to_list roles).*2 in
  assert_ (bool_decide ((list_to_set slugs : gset string)
                        = list_to_set ["super-admin"; "admin"; "moderator"; "user"])
           && Nat.eqb (length slugs) 4)) = true.
Proof. test. Qed.

(** ** core/test_tasks.py *)

Example test_scheduled_ban_synchronization_activates_due_ban : passes (
  let! '(uid, _) := user_fixture in
  let! t := now in
  create (UserBan.mk uid "Scheduled" None (t - minutes 1) (Some (t + hours 1)) t None) ;;
  let! changed := expire_temporary_bans in
  assert_ (Nat.eqb changed 1) ;;
  let! u := get_pk (R := User.t) uid in
  assert_ (bool_decide (User.status u = AccountStatus.BANNED))) = true.
Proof. test. Qed.

Example test_session_and_token_cleanup_respect_retention : passes (
  let! '(uid, _) := user_fixture in
  let! t := now in
  let! '(session, _) := create (UserSession.mk uid "a" "b" "encrypted" None "" "" "" "" t t (Some (t - days 31))) in
  let! '(token, _) := create (OneTimeToken.mk uid TokenPurpose.PASSWORD_RESET "c" [] t (t - days 8) None) in
  let! sessions := cleanup_sessions in
  let! tokens := cleanup_tokens in
  assert_ (Nat.leb 1 sessions && Nat.leb 1 tokens) ;;
  let! sessions := table (R := UserSession.t) in
  let! tokens := table (R := OneTimeToken.t) in
  assert_ (is_none (sessions !! session) && is_none (tokens !! token))) = true.
Proof. test. Qed.

Example test_notification_and_file_cleanup_are_policy_driven : passes (
  let! '(uid, _) := user_fixture in
  let! t := now in
  let! '(notification, _) := create
    (Notification.mk uid "old" "Old" "Expired" (PDict []) (Some (t - days 91)) (t - days 91) None) in
  let! '(stored, _) := create (StoredFile.mk (Some uid) "pending.bin" "pending.bin" "application/octet-stream" 7 "d"
    FileStatus.PENDING (t - days 8) None) in
  let! notifications := cleanup_notifications in
  let! files := cleanup_unused_files in
  assert_ (Nat.leb 1 notifications && Nat.eqb files 1) ;;
  let! notifications := table (R := Notification.t) in
  assert_ (is_none (notifications !! notification)) ;;
  let! f := get_pk (R := StoredFile.t) stored in
  assert_ (is_some (StoredFile.deleted_at f))) = true.
Proof. test. Qed.

Example test_expired_login_throttle_cleanup : passes (
  let! t := now in
  let! '(state, _) := create (LoginThrottleState.mk "e" 0 None (t - seconds 1) t) in
  let! deleted := cleanup_login_attempts in
  assert_ (Nat.eqb deleted 1) ;;
  let! states := table (R := LoginThrottleState.t) in
  assert_ (is_none (states !! state))) = true.
Proof. test. Qed.

(** ** files: what the image library and libmagic say of the content is in the upload *)

Definition png : Upload := MkUpload "client-name.png" 70 "content" (Some "image/png") (Some (5, 5)) true.
Definition png_validator : SecureFileValidator := new_validator ["png"] ["image/png"] None None.

Example test_file_service_stores_validated_metadata_with_randomized_path : passes (
  let! '(uid, _) := user_fixture in
  let! '(_, stored) := store (Some uid) png png_validator in
  assert_ (bool_decide (StoredFile.status stored = FileStatus.READY)
           && String.eqb (StoredFile.original_name stored) "client-name.png"
           && negb (Str.contains "client-name" (StoredFile.file stored))
           && String.prefix ("uploads/" +:+ uuid_str uid +:+ "/") (StoredFile.file stored))) = true.
Proof. test. Qed.

Example test_secure_file_validator_uses_content_signature : passes (
  let! metadata := validate_upload png_validator png in
  assert_ (String.eqb (content_type metadata) "image/png")) = true.
Proof. test. Qed.

Example test_spoofed_extension_is_rejected : passes (
  raises is_validation_error
    (validate_upload png_validator (MkUpload "picture.png" 16 "not really a png" (Some "text/plain") None false))) = true.
Proof. test. Qed.

(** ** notifications/test_service.py *)

Example test_notification_service_supports_in_app_and_email_channels : passes (
  let! '(uid, u) := user_fixture in
  let! created := atomic (notify uid u (MkMessage "security.notice" "Review activity"
    "A security event requires review." (PDict [("severity", PStr "high")]) None) ["in_app"; "email"]) in
  let! '(_, notification) := the created in
  assert_ (N.eqb (Notification.user notification) uid
           && same (Notification.data notification) (PDict [("severity", PStr "high")])) ;;
  let! sent := outbox in
  let! mail := the (last sent) in
  assert_ (bool_decide (Mail.to mail = [User.email u]) && Str.contains "Review activity" (subject mail))) = true.
Proof. test. Qed.

(** ** webhooks/test_webhooks.py: in [Demo] a name resolves to itself, and what
    begins with 10. is a private address *)

Example test_webhook_rejects_private_destination : passes (
  raises is_validation_error (validate_url "10.0.0.1")) = true.
Proof. test. Qed.

Example test_webhook_signature_is_verifiable : passes (
  let! '(uid, _) := user_fixture in
  let! '(_, endpoint, secret) := create_endpoint (Some uid) "Receiver" "https://example.test/hook" ["example.created"] in
  let! '(k, event) := create (WebhookEvent.mk "example.created" (PDict [("id", PStr "123")]) 0) in
  let body := serialize_event k event in
  let! headers := signature_headers endpoint k body in
  let named (name : string) := default "" (snd <$> List.find (fun h => String.eqb h.1 name) headers) in
  let expected := hmac_sha256 secret (named "X-Webhook-Timestamp" +:+ "." +:+ body) in
  assert_ (String.eqb (named "X-Webhook-Signature") ("v1=" +:+ expected))) = true.
Proof. test. Qed.

Example test_emit_selects_subscribed_endpoints : passes (
  let! '(uid, _) := user_fixture in
  let! '(matching, _, _) := create_endpoint (Some uid) "Matching" "https://matching.example.test/hook" ["example.created"] in
  create_endpoint (Some uid) "Other" "https://other.example.test/hook" ["example.updated"] ;;
  let! '(event, _) := emit "example.created" (PDict [("id", PStr "123")]) in
  let! deliveries := filter_rows (R := WebhookDelivery.t) (fun _ d => N.eqb (WebhookDelivery.event d) event) in
  assert_ (bool_decide ((WebhookDelivery.endpoint <$> deliveries.*2) = [matching]))) = true.
Proof. test. Qed.

End tests.

(** ** Tests that change the settings *)

Section retention.

#[local] Instance one_day : Env := demo_env_with (feature_defaults <| @AUDIT_RETENTION_DAYS := 1 |>).

Example test_audit_retention_is_explicit_when_enabled : passes (
  let! '(uid, u) := user_fixture in
  let! '(k, _) := AuditService.record (AuditService.on "retention.test" (user_target uid u) None None) in
  let! t := now in
  save_fields (R := AuditLog.t) k (fun l => l <| AuditLog.created_at := t - days 10 |>) ;;
  let! deleted := cleanup_audit_logs in
  assert_ (Nat.eqb deleted 1) ;;
  let! logs := table (R := AuditLog.t) in
  assert_ (is_none (logs !! k))) = true.
Proof. test. Qed.

End retention.

Section emitting.

#[local] Instance webhooks_on : Env := demo_env_with (feature_defaults <| @ENABLE_WEBHOOKS := true |>).

Example test_emit_dispatches_through_synchronous_task_boundary_without_celery : passes (
  let! '(uid, _) := user_fixture in
  create_endpoint (Some uid) "Receiver" "https://receiver.example.test/hook" ["example.created"] ;;
  emit "example.created" (PDict [("id", PStr "123")]) ;;
  let! sent := read effects in
  assert_ (match sent with [DispatchWebhooks] => true | _ => false end)) = true.
Proof. test. Qed.

End emitting.

(** ** core/test_configuration.py *)

Section configuration.

Definition environment (vars : list (string * string)) (psycopg : bool) : Environ :=
  MkEnviron (fun name => snd <$> List.find (fun kv => String.eqb kv.1 name) vars) (fun s => String.eqb s "true")
    (fun _ => 0) (fun s => [s]) (fun _ => []) (fun _ => psycopg).

Definition configured (vars : list (string * string)) (psycopg : bool) : option (list (string * pyval)) :=
  match build_database_config (H := environment vars psycopg) (fun path => "/base/" +:+ path) with
  | inr d => Some d
  | inl _ => None
  end.
Definition item (name : string) (d : option (list (string * pyval))) : option pyval :=
  d ≫= fun d => snd <$> List.find (fun kv => String.eqb kv.1 name) d.

Example test_database_configuration_defaults_to_sqlite :
  item "ENGINE" (configured [] true) = Some (PStr "django.db.backends.sqlite3") /\
  item "NAME" (configured [] true) = Some (PStr "/base/db.sqlite3") /\
  item "CONN_MAX_AGE" (configured [] true) = Some (PInt 0).
Proof. split_and!; test. Qed.

Example test_database_configuration_supports_explicit_postgresql :
  configured [("DATABASE_ENGINE", "postgresql"); ("DB_NAME", "foundation"); ("DB_USER", "foundation_user");
              ("DB_PASSWORD", "not-a-real-secret"); ("DB_HOST", "database.internal"); ("DB_PORT", "5433")] true
  = Some [("ENGINE", PStr "django.db.backends.postgresql"); ("NAME", PStr "foundation"); ("USER", PStr "foundation_user");
          ("PASSWORD", PStr "not-a-real-secret"); ("HOST", PStr "database.internal"); ("PORT", PStr "5433");
          ("CONN_MAX_AGE", PInt 60); ("CONN_HEALTH_CHECKS", PBool true)].
Proof. test. Qed.

Example test_database_configuration_rejects_unknown_engine :
  configured [("DATABASE_ENGINE", "unknown")] true = None.
Proof. test. Qed.

Example test_postgresql_selection_explains_missing_optional_driver :
  build_database_config (H := environment [("DATABASE_ENGINE", "postgresql")] false) id
  = improper ("PostgreSQL is selected but its driver is not installed. Install " +:+ Str.quoted ".[postgres]" +:+ ".").
Proof. test. Qed.

End configuration.
