(* ===== verification/Requests.v ===== *)
(** * The tests that send requests

    The scenarios of src/tests that use [APIClient], run through the whole
    server model: the middleware of [Server.application], the routes of [Urls],
    the dispatch of [Api], the views and the services.  A body is a form with
    plain text; [form_data] says what the fields of REST framework make of it. *)

From S2P Require Import Prelude Env Demo Models Orm Logic Common Mail Samples Users Tokens Sessions TwoFactor LoginProtection Authentication Accounts Bans Authorization ApiKeys Responses Idempotency Services Api AuthViews Resources AccountViews AdminViews Urls Platform Server Conformance.

(** ** The client *)

(** [name=value&...]; [true] and [false] are booleans. *)
Definition form_fields (body : string) : list (string * string) :=
  omap (fun part => match Str.split_once "=" part with
                    | (name, Some value) => Some (name, value)
                    | _ => None
                    end) (split_on "&" body).

Definition form_value (body name : string) : option pyval :=
  (fun kv => if String.eqb kv.2 "true" then PBool true else if String.eqb kv.2 "false" then PBool false else PStr kv.2)
  <$> List.find (fun kv => String.eqb kv.1 name) (form_fields body).

Definition form_texts (body name : string) : option (list string) :=
  (fun kv => if Str.is_empty kv.2 then [] else split_on "," kv.2)
  <$> List.find (fun kv => String.eqb kv.1 name) (form_fields body).

Definition char_field (f : CharField) (v : pyval) : field string :=
  match v with
  | PStr s =>
      let s := if trim_whitespace f then Str.strip s else s in
      if Str.is_empty s && negb (allow_blank f) then inl ["This field may not be blank."] else
      match max_length f with
      | Some n => if n <? Z.of_nat (String.length s) then inl ["Ensure this field has fewer characters."] else inr s
      | None => inr s
      end
  | _ => inl ["Not a valid string."]
  end.

(** The number a key stands for. *)
Definition hex_value (c : ascii) : option N :=
  let n := N_of_ascii c in
  if ((48 <=? n) && (n <=? 57))%N then Some (n - 48)%N
  else if ((97 <=? n) && (n <=? 102))%N then Some (n - 87)%N else None.
Fixpoint read_hex (acc : N) (s : string) : option N :=
  match s with
  | EmptyString => Some acc
  | String c s' => d ← hex_value c; read_hex (16 * acc + d)%N s'
  end.
Definition read_key (s : string) : option uuid :=
  let hex := Str.remove_char "-" s in
  if Nat.eqb (String.length hex) 32 then read_hex 0 hex else None.

Section client.
Context `{E : Env}.

(** A refresh token is its identifier with a mark. *)
#[local] Instance test_codec : TokenCodec :=
  MkCodec (fun n _ => "refresh:" +:+ uuid_hex (uuid4 n)) (fun n _ => "access:" +:+ uuid_hex (uuid4 n))
    (fun s => (fun jti => (jti, None, days 7)) <$> after_prefix "refresh:" s) (days 7).

(** The inherited validation of the refresh view: a token in order that is not
    blacklisted, and the user it was issued for. *)
Definition rotate (r : HttpRequest) : M (pyval * uuid) :=
  let refused := AuthenticationFailed "Token is invalid or expired" in
  match form_value (http_body r) "refresh" with
  | Some (PStr raw) =>
      match decode_refresh raw with
      | Some (jti, _, _) =>
          let! found := first_row (fun _ o => String.eqb (OutstandingToken.jti o) jti) in
          match found with
          | Some (k, o) =>
              let! blacklisted := exists_row (fun _ b => N.eqb (BlacklistedToken.token b) k) in
              match OutstandingToken.user o with
              | Some uid => if (blacklisted : bool) then raise refused
                            else ret (PDict [("access", PStr ("access:" +:+ jti))], uid)
              | None => raise refused
              end
          | None => raise refused
          end
      | None => raise refused
      end
  | _ => raise (InvalidFields [("refresh", ["This field is required."])])
  end.

#[local] Instance form_data : RequestData := {|
  data_value r name := form_value (http_body r) name;
  char_value := char_field;
  email_value v := match char_field (MkChar None true false) v with
                   | inr s => if Str.has_char "@" s then inr s else inl ["Enter a valid email address."]
                   | inl e => inl e
                   end;
  regex_value _ n := char_field (MkChar (Some n) true false);
  boolean_value v := match v with PBool b => inr b | _ => inl ["Must be a valid boolean."] end;
  model_value k _ r _ name :=
    match k return option (field (value_of k)) with
    | KText => char_field (MkChar None true true) <$> form_value (http_body r) name
    | KTexts => inr <$> form_texts (http_body r) name
    | _ => None
    end;
  listing _ _ _ := MkList id None 1 (fun _ => "");
  lookup_key := read_key;
  known_timezone _ := true;
  json_serializable _ := true;
  rotate_refresh := rotate;
  metadata_of _ := PNone;
  root_listing _ := PDict [];
|}.

#[local] Instance test_site : Site := {|
  admin_site _ := ret (MkResponse 302 PNone []);
  schema_site _ := ret (MkResponse 200 PNone []);
  missing_page := MkResponse 404 PNone [];
  error_page _ := MkResponse 500 PNone [];
  elapsed_ms _ := 1;
  database_up _ := true;
  redis_up _ := true;
  CONTENT_SECURITY_POLICY := "default-src 'self'";
  ENABLE_OPENAPI := true;
|}.

(** What the client sends with a request. *)
Record Headers := MkHeaders {
  authorization : option uuid;
  x_api_key : option string;
  idempotency_key : string;
  x_request_id : string;
}.
Definition no_headers : Headers := MkHeaders None None "" "".
Definition authenticated (uid : uuid) : Headers := MkHeaders (Some uid) None "" "".
Definition with_key (raw : string) : Headers := MkHeaders None (Some raw) "" "".

(** The client keeps its session; AuthenticationMiddleware finds its user. *)
Definition send (method path body : string) (h : Headers) : M Response :=
  let! s := read http_session in
  let! users := table (R := User.t) in
  let user := uid ← session_user s; pair uid <$> users !! uid in
  let r := MkHttp (MkRequest (Some "127.0.0.1") "" "Test Browser" "") method path body user true (x_api_key h)
             (inr <$> authorization h) (idempotency_key h) (fun _ => None) in
  fun w => let '(answer, p) := application (x_request_id h) r (MkProcess initial_ctx [] w) in (answer, world p).

Definition post_ : string -> string -> Headers -> M Response := send "POST".
Definition get_ (path : string) (h : Headers) : M Response := send "GET" path "" h.

(** [response.data[a][b]...] *)
Definition at_ (path : list string) (r : Response) : option pyval := resolve (data r) path.
Definition text_at (path : list string) (r : Response) : M string :=
  match at_ path r with Some (PStr s) => ret s | _ => raise (RuntimeError "KeyError") end.
Definition is_at (path : list string) (v : pyval) (r : Response) : bool :=
  match at_ path r with Some x => same x v | None => false end.
Definition status (n : Z) (r : Response) : M unit := assert_ (status_code r =? n).

End client.

Section tests.

#[local] Instance demo : Env := demo_env.

(** ** authentication/test_auth_api.py *)

Definition register_new : M Response :=
  post_ "/api/v1/auth/register/" ("email=New@Example.Test&username=new-user&password=" +:+ PASSWORD +:+ "&first_name=New")
    no_headers.

Definition new_user : M (uuid * User.t) := get (fun _ u => String.eqb (User.email u) "new@example.test").

Example test_registration_creates_related_state_and_sends_verification : passes (
  let! response := register_new in
  status 201 response ;;
  assert_ (is_at ["success"] (PBool true) response) ;;
  let! '(uid, user) := new_user in
  assert_ (bool_decide (User.status user = AccountStatus.PENDING)) ;;
  let! profile := exists_ (fun p => N.eqb (UserProfile.user p) uid) in
  let! preferences := exists_ (fun p => N.eqb (UserPreferences.user p) uid) in
  let! security := exists_ (fun p => N.eqb (UserSecuritySettings.user p) uid) in
  let! token := exists_ (fun t => N.eqb (OneTimeToken.user t) uid
                                  && bool_decide (OneTimeToken.purpose t = TokenPurpose.EMAIL_VERIFICATION)) in
  let! sent := outbox in
  let! audited := exists_ (fun l => String.eqb (AuditLog.action l) "user.created"
                                    && String.eqb (AuditLog.target_id l) (uuid_str uid)) in
  assert_ (profile && preferences && security && token && Nat.eqb (length sent) 1 && audited)) = true.
Proof. test. Qed.

Definition verify_ (token : string) : M Response := post_ "/api/v1/auth/verify-email/" ("token=" +:+ token) no_headers.

Example test_email_verification_activates_pending_user : passes (
  register_new ;;
  let! token := token_from_mail in
  let! response := verify_ token in
  status 200 response ;;
  let! '(_, user) := new_user in
  assert_ (bool_decide (User.status user = AccountStatus.ACTIVE) && User.is_email_verified user)) = true.
Proof. test. Qed.

Example test_verification_token_cannot_be_reused : passes (
  register_new ;;
  let! token := token_from_mail in
  verify_ token ;;
  let! response := verify_ token in
  status 400 response ;;
  assert_ (is_at ["error"; "code"] (PStr "INVALID_TOKEN") response)) = true.
Proof. test. Qed.

Definition log_in (identifier password more : string) : M Response :=
  post_ "/api/v1/auth/login/" ("identifier=" +:+ identifier +:+ "&password=" +:+ password +:+ more) no_headers.

Example test_login_accepts_email_or_username_and_returns_rotatable_tokens : passes (
  let! '(uid, user) := user_fixture in
  let! response := log_in (User.username user) PASSWORD "&remember_me=true" in
  status 200 response ;;
  text_at ["data"; "access"] response ;;
  text_at ["data"; "refresh"] response ;;
  let! sessions := count (fun s => N.eqb (UserSession.user s) uid) in
  let! recorded := exists_ (event_of uid SecurityEventType.LOGIN_SUCCESS) in
  assert_ (Nat.eqb sessions 1 && recorded)) = true.
Proof. test. Qed.

Example test_login_error_does_not_reveal_unknown_account : passes (
  let! '(_, user) := user_fixture in
  let! known := log_in (User.email user) "wrong" "" in
  let! unknown := log_in "unknown@example.test" "wrong" "" in
  status 401 known ;;
  status 401 unknown ;;
  let! message := text_at ["error"; "message"] known in
  assert_ (is_at ["error"; "message"] (PStr message) unknown)) = true.
Proof. test. Qed.

Example test_password_reset_is_enumeration_safe_and_revokes_sessions : passes (
  let! '(uid, user) := user_fixture in
  let! response := post_ "/api/v1/auth/password-reset/" ("email=" +:+ User.email user) no_headers in
  let! unknown := post_ "/api/v1/auth/password-reset/" "email=unknown@example.test" no_headers in
  status 200 response ;;
  status 200 unknown ;;
  assert_ (same (data response) (data unknown)) ;;
  let! token := token_from_mail in
  let! confirm := post_ "/api/v1/auth/password-reset/confirm/"
    ("token=" +:+ token +:+ "&new_password=Another-very-secure-password-43") no_headers in
  status 200 confirm ;;
  let! user := get_pk (R := User.t) uid in
  assert_ (User.check_password user "Another-very-secure-password-43")) = true.
Proof. test. Qed.

Example test_logout_blacklists_refresh_token : passes (
  let! '(uid, user) := user_fixture in
  let! response := log_in (User.email user) PASSWORD "" in
  let! refresh := text_at ["data"; "refresh"] response in
  let! before := post_ "/api/v1/auth/token/refresh/" ("refresh=" +:+ refresh) no_headers in
  status 200 before ;;
  let! out := post_ "/api/v1/auth/logout/" ("refresh=" +:+ refresh) (authenticated uid) in
  let! refreshed := post_ "/api/v1/auth/token/refresh/" ("refresh=" +:+ refresh) no_headers in
  status 200 out ;;
  status 401 refreshed) = true.
Proof. test. Qed.

(** ** authentication/test_sessions.py *)

Example test_user_can_only_revoke_own_session : passes (
  let! '(uid, _) := user_fixture in
  session_save ;;
  let! '(k, s, _) := register uid post in
  let! response := post_ ("/api/v1/users/me/sessions/" +:+ UserSession.identifier s +:+ "/revoke/") ""
    (authenticated uid) in
  status 200 response ;;
  let! s := get_pk (R := UserSession.t) k in
  assert_ (UserSession.is_revoked s)) = true.
Proof. test. Qed.

(** ** api_keys/test_api_keys.py *)

Example test_api_key_creation_returns_raw_key_once : passes (
  let! '(uid, _) := user_fixture in
  let! response := post_ "/api/v1/api-keys/" "name=CLI&scopes=profile.read" (MkHeaders (Some uid) None "create-key-1" "") in
  status 201 response ;;
  let! raw := text_at ["data"; "key"] response in
  assert_ (String.prefix "dk_" raw) ;;
  let! k := text_at ["data"; "id"] response in
  let! detail := get_ ("/api/v1/api-keys/" +:+ k +:+ "/") (authenticated uid) in
  status 200 detail ;;
  assert_ (is_none (at_ ["data"; "key"] detail))) = true.
Proof. test. Qed.

Example test_api_key_scope_is_required_for_declared_endpoint : passes (
  let! '(uid, _) := user_fixture in
  let! '(_, _, unscoped) := create_key uid "Unscoped" [] None None None in
  let! denied := get_ "/api/v1/users/me/" (with_key unscoped) in
  let! '(_, _, scoped) := create_key uid "Scoped" ["profile.read"] None None None in
  let! allowed := get_ "/api/v1/users/me/" (with_key scoped) in
  status 403 denied ;;
  status 200 allowed) = true.
Proof. test. Qed.

Example test_api_key_is_denied_on_endpoint_without_explicit_scope : passes (
  let! '(uid, _) := user_fixture in
  let! '(_, _, raw) := create_key uid "Security" ["profile.read"] None None None in
  let! response := get_ "/api/v1/users/me/security-events/" (with_key raw) in
  status 403 response) = true.
Proof. test. Qed.

(** ** common/test_exceptions.py *)

Example test_validation_errors_have_stable_envelope_and_request_id : passes (
  let! response := post_ "/api/v1/auth/register/" "" (MkHeaders None None "" "validation-test") in
  status 400 response ;;
  assert_ (is_at ["success"] (PBool false) response && is_at ["error"; "code"] (PStr "VALIDATION_ERROR") response
           && is_at ["error"; "request_id"] (PStr "validation-test") response
           && is_some (at_ ["error"; "fields"; "email"] response))) = true.
Proof. test. Qed.

(** ** common/test_idempotency.py *)

Definition create_with_key (uid : uuid) (key name : string) : M Response :=
  post_ "/api/v1/api-keys/" ("name=" +:+ name +:+ "&scopes=") (MkHeaders (Some uid) None key "").

Example test_idempotency_replays_same_response : passes (
  let! '(uid, _) := user_fixture in
  let! first := create_with_key uid "stable-create-key" "CLI" in
  let! second := create_with_key uid "stable-create-key" "CLI" in
  status 201 first ;;
  status 201 second ;;
  assert_ (same (data first) (data second)) ;;
  assert_ (bool_decide (header "Idempotent-Replayed" second = Some "true")) ;;
  let! keys := count (fun _ : APIKey.t => true) in
  assert_ (Nat.eqb keys 1)) = true.
Proof. test. Qed.

Example test_idempotency_rejects_key_reuse_for_different_body : passes (
  let! '(uid, _) := user_fixture in
  create_with_key uid "conflicting-key" "One" ;;
  let! response := create_with_key uid "conflicting-key" "Two" in
  status 409 response ;;
  assert_ (is_at ["error"; "code"] (PStr "CONFLICT") response)) = true.
Proof. test. Qed.

(** ** core/test_health.py *)

Example test_liveness_is_public_and_has_request_id : passes (
  let! response := get_ "/health/live/" (MkHeaders None None "" "valid-request-123") in
  status 200 response ;;
  assert_ (same (data response) (PDict [("status", PStr "ok")])
           && bool_decide (header "X-Request-ID" response = Some "valid-request-123"))) = true.
Proof. test. Qed.

Example test_invalid_incoming_request_id_is_replaced : passes (
  let! response := get_ "/health/live/" (MkHeaders None None "" "invalid id with spaces") in
  assert_ (negb (bool_decide (header "X-Request-ID" response = Some "invalid id with spaces")))) = true.
Proof. test. Qed.

Example test_readiness_checks_database_and_cache : passes (
  let! response := get_ "/health/ready/" no_headers in
  status 200 response ;;
  assert_ (is_at ["checks"] (PDict [("database", PBool true); ("redis", PStr "disabled")]) response)) = true.
Proof. test. Qed.

(** ** notifications/test_notifications.py *)

Definition notified (uid : uuid) (title : string) : M uuid :=
  let! t := now in
  let! x := create (Notification.mk uid "info" title "Visible" (PDict []) None t None) in ret x.1.

Definition listed (r : Response) : list string :=
  match at_ ["data"] r with
  | Some (PList l) => omap (fun v => match resolve v ["id"] with Some (PStr s) => Some s | _ => None end) l
  | _ => []
  end.

Example test_notification_endpoints_are_owner_scoped : passes (
  let! '(uid, _) := user_fixture in
  let! '(other, _) := user_factory 1 in
  let! mine := notified uid "Mine" in
  let! theirs := notified other "Other" in
  let! response := get_ "/api/v1/notifications/" (authenticated uid) in
  assert_ (bool_decide (listed response = [uuid_str mine]))) = true.
Proof. test. Qed.

Example test_mark_all_read_only_updates_current_user : passes (
  let! '(uid, _) := user_fixture in
  let! '(other, _) := user_factory 1 in
  let! mine := notified uid "Mine" in
  let! theirs := notified other "Other" in
  let! response := post_ "/api/v1/notifications/read-all/" "" (authenticated uid) in
  let! mine := get_pk (R := Notification.t) mine in
  let! theirs := get_pk (R := Notification.t) theirs in
  assert_ (is_at ["data"; "updated_count"] (PInt 1) response
           && is_some (Notification.read_at mine) && is_none (Notification.read_at theirs))) = true.
Proof. test. Qed.

End tests.

(** ** security/test_lockout.py *)

Section lockout.

#[local] Instance strict : Env :=
  demo_env_with (feature_defaults <| @LOGIN_MAX_ATTEMPTS := 2 |> <| @LOGIN_LOCKOUT_SECONDS := 60 |>).

Example test_repeated_failures_create_temporary_account_lock : passes (
  let! '(uid, user) := user_fixture in
  let payload := "identifier=" +:+ User.email user +:+ "&password=wrong" in
  let! first := post_ "/api/v1/auth/login/" payload no_headers in
  let! second := post_ "/api/v1/auth/login/" payload no_headers in
  status 401 first ;;
  status 429 second ;;
  let! '(_, settings) := get (R := UserSecuritySettings.t) (fun _ s => N.eqb (UserSecuritySettings.user s) uid) in
  let! t := now in
  assert_ (UserSecuritySettings.is_locked t settings) ;;
  let! recorded := exists_ (event_of uid SecurityEventType.ACCOUNT_LOCKED) in
  let! states := count (fun _ : LoginThrottleState.t => true) in
  assert_ (recorded && Nat.eqb states 3)) = true.
Proof. test. Qed.

End lockout.
